(* ===== verification/_CoqProject ===== *)
-Q . S2P
Prelude.v
RustStr.v
Bytes.v
Float.v
Netlink.v
KernelEvent.v
ProcessPolicy.v
NetBlock.v
Zcopy.v
Md5Cache.v
Reporter.v
Shell.v
Host.v
NetApp.v
NetReport.v
Json.v
Pattern.v
ProcessPattern.v
Usb.v
IpAddr.v
NetInfo.v
TaskConf.v
IpJump.v
PwJump.v
JumpDaemon.v
TaskData.v
Upgrade.v
TaskFetcher.v
FileTransfer.v
CliClient.v
CliServer.v
Manager.v
LogWorker.v
SshLogin.v
ProcInfo.v
KernelModule.v
Docker.v
Timers.v
Session.v
Snapman.v
HostInfo.v
Metrics.v
Boot.v
MockServer.v
JumpController.v
HttpClient.v
Logging.v
UsbService.v
AgentMain.v
