(* ===== verification/Prelude.v ===== *)
(** * A verification of the host security agent

    ** The program

    The repository is an endpoint agent for Linux.  A kernel module watches
    file, process and network activity and enforces rules; the agent (the
    crates under [src/crates]) configures the module, collects what it reports
    and carries out the orders of a management server:

    - [netlink] and [kernel_event] are the channel from the module: a netlink
      socket, the decoding of its messages, and a table of callbacks by message
      type;
    - [zcopy_mgr] maps the ring buffers the module shares with the agent; a
      message only carries a window of ring indices;
    - [reporter] walks such a window and turns file, process and network
      records into alerts and logs, with the digests of executables from the
      cache of [process_mgr];
    - [process_mgr], [pattern] and [netblock] are the rules the agent writes
      into [/proc] for the module: process white and black lists, file and
      process protection patterns, blocked addresses with an expiry;
    - [udisk] blocks or reports USB storage by black and white lists;
    - [rules_jump_mgr] moves the host to another address or password on demand
      and undoes a move that fails;
    - [config] holds the settings, in a file and in the running agent;
    - [hostinfo] and [procinfo] describe the host to the server: its system,
      disks and identity, the services that listen, the processes that run;
    - [kernel_module] chooses and loads the driver, [docker] tells it which
      containers run, [snapman] makes snapshots of the volumes;
    - [online] registers the host, keeps the session with the server alive and
      sends it the figures of [system_metrics];
    - [main] starts all of them, with the configuration of [common];
      [net_client] is the client all requests to the server go through, and
      [logging] the log all of them write to;
    - [task] polls the server for tasks and calls the above; one task replaces
      the agent's own binary, others run on timers, as does the collection of
      logins;
    - [agent_manager] is a process beside the agent that upgrades or uninstalls
      it, and either end of a remote console: the client runs on the host and
      obeys the operator, the server is where the operator types.

    Beside the crates, [ip_jump_controller_egui] is a desktop program that plays
    the server's part for address jumps: an operator queues jumps or lets
    addresses rotate, and agents that are redirected to it fetch them.

    ** The files

    - [Prelude]: machine integers, results, panics, state passing, loop lemmas,
      the tactics and the hint database [agent] (this file).  A function that
      can panic returns an [outcome], a fallible one a [result], a stateful one
      an [io]; [keeps R m] says what a stateful computation does to its state.
    - [RustStr], [Bytes]: strings and byte buffers as Rust's standard library
      has them: splitting, trimming, integer and address parsing and printing,
      UTF-8, slices that panic, little- and big-endian codecs on a [target]
      with its pointer width and byte order.
    - [Float]: the [f64] and [f32] operations the agent uses, on binary64 and
      binary32.
    - [Netlink]: [netlink/src/netlink.rs] and [kernel_event/src/msg_handler].
    - [KernelEvent]: [kernel_event/src/event_handler/mod.rs] and [lib.rs].
    - [ProcessPolicy], [Md5Cache]: [process_mgr/src/policy_mgr.rs] and
      [md5_cache.rs].
    - [NetBlock]: [netblock/src/ip_policy.rs].
    - [Zcopy]: [zcopy_mgr/src/lib.rs].
    - [Reporter], [NetReport]: [reporter/src] ([lib.rs], [netlink_msg.rs],
      [file_audit.rs], [process_audit.rs], [build_json.rs]; then
      [fake_port_audit.rs], [net_service_log.rs]).
    - [LogWorker]: [reporter/src/log_worker.rs] and [self_protect.rs].
    - [Json]: the accessors of JSON values as a class, with a concrete instance;
      the laws of its numbers and of its text as two further classes.
    - [Pattern], [ProcessPattern]: [pattern/src].
    - [Usb], [UsbService]: [udisk/src] ([list.rs], [utils.rs], [device.rs] and the
      callbacks of [monitor.rs]; the services of [monitor.rs] side by side).
    - [Shell], [IpJump], [JumpDaemon], [PwJump]: [rules_jump_mgr/src] (the
      command runners of [utils.rs]; the jump and its ageing in
      [ip_manager.rs] and the rest of [utils.rs]; the instruction daemon and
      the persistence through nmcli and netplan, again [ip_manager.rs];
      [pw_manager.rs]).
    - [IpAddr], [Host]: reading IP addresses as the standard library does; a
      host as a shell plus the files the agent writes, the disk and the server.
    - [NetApp]: [hostinfo/src/net_app]; [HostInfo]: the rest of [hostinfo/src].
    - [ProcInfo]: [procinfo/src/lib.rs].
    - [KernelModule]: [kernel_module/src/lib.rs].
    - [Docker]: [docker/src/monitor.rs].
    - [Snapman]: [snapman/src/lib.rs].
    - [Metrics]: [system_metrics/src/lib.rs].
    - [Boot]: the configuration, the driver and the end in [main/src/main.rs],
      [boot.rs] of [common] and the static configuration of
      [config/src/net_info.rs]; [AgentMain]: the whole of [main/src/main.rs] and
      the start of the manager's.
    - [HttpClient]: [net_client/src/core/client.rs], and the tasks and outreach
      probes over it.
    - [Logging]: [logging/src/lib.rs].
    - [MockServer], [JumpController]: [mockserver.rs] and [main.rs] of
      [ip_jump_controller_egui/src].
    - [NetInfo]: [config/src/net_info.rs].
    - [TaskConf], [TaskData], [Upgrade], [TaskFetcher]: [task/src].  [TaskConf]
      is the merge of downloaded settings and what is passed on to the kernel
      module, [TaskData] the contents of the other answers and uploads
      ([virtual_port_rule.rs], [net_reach_rule.rs], [scan_directory_task.rs],
      [get_process_task.rs]), [Upgrade] the replacement of the binary, and
      [TaskFetcher] the state of the agent, every task and the polling loop of
      [task_fetcher.rs]; its state is the product of the components' states.
    - [SshLogin], [Timers]: [ssh_login_task.rs]; [timer_task.rs] with
      [baseline_task.rs], also of [task/src].
    - [Session]: [online/src/lib.rs] and the trait [TaskService] of
      [task_fetcher.rs]: two tasks and the two channels between them.
    - [FileTransfer], [CliClient], [CliServer]: the remote console of
      [agent_manager/src]: the file frames of both ends, the client
      ([agent_cli_client.rs], [common.rs]), the server ([agent_cli_server.rs]).
    - [Manager]: [manager.rs], [unix_socket_server.rs] and the start of [main.rs].

    ** Interfaces

    What one part asks of another or of the outside is a class: [Os] (commands),
    [Files] and [Disk] (files; [DiskLaws] says what renaming and copying do),
    [Http] (the server), [AgentSocket], [Collect] (the collections of other
    crates), [Console] (what the console client runs and reads), [NetplanFs],
    [JumpEnv], [IniParser], [Transport] (what carries requests; [http_client]
    makes an [Http] of it), and [JsonValue], [JsonText] and [JsonNumbers].  The task theorems hold for every instance; every
    witness runs on a concrete one.

    Definitions keep the names of the source.  Where Rust iterates over a hash
    map or set, the order is a parameter of the definition and the theorems
    hold for every order.

    ** What the theorems show

    - Decoding: exactly which messages make the two decoders panic, their
      agreement and round trip, the form of outgoing messages, the discovery of
      the protocol number.
    - Dispatch: which callback serves which message code after start-up; over
      any run of receiving and of running the tasks spawned, each well-formed
      message calls the callback of its code once, with its payload unchanged,
      and no other; reception spawns one task per message.
    - Process lists: [set_policy_process] refines the replacement of one list:
      the rules tried ask the kernel for exactly the manager's sets, over any
      history; every opening and write may fail unnoticed, and what a failure
      costs is its own entry; when the kernel is notified.
    - Address blocks: the invariant between the map, the handles and the live
      expiry tasks, over any interleaving of updates, time and expiry; a
      permanent block stays; the two [/proc] lists mirror the map.
    - Rings: every record handed out lies inside a live mapping; construction
      and destruction release what they acquire, on the error paths too.
    - Reports: a window is walked exactly once in order; file records give the
      alerts the record calls for; process alerts always fit the protection
      mode; connection logs report exactly the records that differ from the
      previous one kept; digests from the cache are those of the file.  Alerts
      go from the channel to the server once each and in order, whatever the
      interleaving, and none waits for ever; a self-protection event is one
      alert.
    - Patterns: after any sequence of edits and loads, each of the kernel's
      tables holds the manager's texts if every write of its last loading was
      taken (a refused one is not noticed); rules refer to patterns that exist.
    - USB: what happens to an arriving device, and consistent lists after any
      sequence of updates.  However plugging, callbacks and reports take turns,
      at rest the last report sent is that of the devices there are, but for
      what happens while USB control is off and for devices the thread of a
      black list disables; a device taken out before there is a token is
      reported for good.
    - Jumps: a failed address jump puts the source address back; ageing removes
      old secondary addresses and nothing else; a refused password change puts
      the old hash back.  The daemon carries out the newest instruction it
      wakes to, skips the one that interrupts its periodic mode, and never asks
      for an interval of zero; the list written to netplan is read back.
    - Settings: what is written to the INI file is read back; the defence word
      has every switch at its bit; although only changes are sent, a loaded
      module that takes every rule has last heard exactly the switches in
      force, but for one that was left on by an earlier session and has been
      off all through this one; a refused one is forgotten.
    - Tasks: whatever the server answers to however many polls, the invariants
      above hold of all components together; an answer that is no success
      leads to requests and nothing else, as does a network that never brings
      one (but for the task that renews the identity); completion is reported
      first; process lists replace the kernel's; directory uploads are batched without loss; an upgrade never
      loses the old binary, but a failed one leaves the services stopped.
    - Remote console: a file from the agent arrives byte for byte however the
      connection cuts what follows the read with its header, unless its end
      comes in that read too, on machines that accept every operation; what the client
      makes of a file from the operator; the client learns from the agent's file
      what the agent stored, and ignores lines meant for others; the server's
      table, selection and history keep their invariant under every interleaving
      of clients and console, history references do what the command does, and
      the task of a client comes to the end of its connection, where it can hang
      the console if its client is selected and no longer in the table.
    - Manager: what it runs itself leaves its own process and service alone (the
      installer of an upgrade does not); without a shell it panics.
    - Driver: the loader picks a driver of least distance; it makes an enforcing
      SELinux permissive and enforcing again only if it gets as far as loading
      and its last [insmod] could be started.
    - Containers: whatever the order of scans and messages, the kernel module's
      table is the set the monitor found last, as long as its lines are accepted
      and no message resets the daemon, which loses what was known.
    - Inventory: for every port the first listener of the kernel's tables is
      found and no other, addresses are decoded from the kernel's hexadecimal,
      the port list of the kernel module is the last one that was not empty and
      was accepted;
      every process listed has an executable on disk; the identity, once
      written, is the one read at every later start.
    - Logins: each record appended to a login database is posted exactly once,
      over any number of rounds, unless two share address, user and second.
    - Session: the fetcher only polls with the token registered last, and a
      session that ended comes to run again; the timers run exactly while their
      switches are on.
    - Snapshots: only volumes that are neither swap nor snapshot are copied and
      only ones named like snapshots are removed; sizes are read without loss.
    - Metrics: the process tables are the largest users of processor and memory;
      the use of the processor is that between two readings of its counters;
      counters and memory are read back from the kernel's listings.
    - Start: while an agent runs no other one starts; the kernel module counts
      as loaded exactly when the loader says so; on Rocky Linux no driver is
      touched; a path on the command line does not change the settings, which
      are then written over the file there.  What serves the kernel module runs
      exactly when the agent has its socket, though the greeting may have failed;
      a second socket of the process is refused; without a log configuration the
      agent panics.
    - Requests: the outreach report holds exactly the rules that were reached,
      where a client error counts for a POST and not for a GET.
    - Log: as long as no two rotations take the same name, nothing that threads
      log is lost, however their system calls interleave; of one caller that
      logs in distinct seconds the files hold, in order, what each call's single
      attempt put down, which is nothing or part of a line where opening or
      writing failed; the log keeps to its limit; in the
      same second a rotation can lose the whole log; lines can be forged.
    - Jump controller: whatever operator, agents and server threads do, a jump is
      announced exactly while one is at hand; jumps are handed out in the order
      in which they were queued; an agent reads from the answer what the operator
      entered; rotation goes through the pool in order, though it starts with the
      agent's own address; a redirected agent reads the controller's address from
      its file, and restoring undoes the last change.

    Some theorems state behaviour the code surely does not intend (their
    comments say so): a changed [protect_rw] that is not loaded, the outbound
    logs ignored when a window wraps, the enumeration code no message can have,
    a volume removed because of its name, containers forgotten by a reset, a log
    lost to two rotations in one second, a server that goes on unseen after a
    quick restart.

    ** Bounds and fuel

    The receive loop recurses on the list of what the system calls return, and
    walks recurse on a window of indices, which is finite because the indices
    are 32 bits wide.  Fuel counts the attempts the source's own loops allow
    ([poll_proto], [send_attempts] with 30, [wait_started] with 20) or is an
    argument the theorems quantify over: the rounds of [poll_loop] and the
    polls of [wait_exit] and [wait_gone] that fit into their time limits.  Where
    a loop reads from a connection the fuel is the number of bytes still to
    come, and enough, since every read takes one: [copy_body], [read_rounds]
    (theorem [read_task_ends]); likewise the records of a login database
    ([whole_records]).  The retries of the driver loader ([load_rounds]) and the
    rounds of the monitors and timers are arguments.  The attempts to withdraw a
    device's authorization are counted as in the source (five and three).  The
    threads of the log, of the controller and of the USB services are step
    relations; their theorems are about every run.  Integers are [Z] with their
    wrap-around written out; the development and release profiles of the
    workspace turn overflow checks off, so arithmetic wraps.

    ** What is not modelled

    System calls, external programs and third-party crates (regular
    expressions, JSON, the transport of HTTP, MD5, rusb) are parameters, with
    their documented behaviour as a class where a theorem needs it ([OsLaws],
    [JsonValue], [Os], [JumpEnv]).  The log itself is modelled, the calls that
    write to it are left out of the other components.  Concurrent tasks are
    modelled where the code's answer depends on their order (dispatch, expiry,
    the alert worker, the session, the log, the USB services, the controller's
    threads, the console server, whose steps are whole messages and whole console
    commands); elsewhere an operation is one sequential run: the tasks run one
    after the other, as the fetcher awaits each.  The console's TLS streams are
    byte streams; the accept loops are left out.  The printed listing of
    snapshots, the printing of an [f64], the drawing of the controller's window
    (but for the panic it can raise), [Debug] output, and functions nothing calls
    are left out; so is what the source has in comments.

    The crates [md5], [trc] and [utils] are copies of other projects' libraries:
    they are no members of the workspace, no crate of it uses them, and they are
    not modelled. *)

From stdpp Require Export base tactics option list gmap strings fin_maps sets.
From Stdlib Require Export ZArith Lia.

#[global] Open Scope Z_scope.

(** ** Machine integers

    A [w]-bit unsigned integer is a [Z] in [0, 2^w); every operation that can
    leave that range wraps explicitly. *)

Definition wrap (w x : Z) : Z := x mod 2 ^ w.

Definition is_uint (w x : Z) : Prop := 0 <= x < 2 ^ w.

#[global] Instance is_uint_dec w x : Decision (is_uint w x).
Proof. unfold is_uint. apply _. Defined.

(** Two's complement reading of a [w]-bit pattern ([as i32] and the like). *)
Definition to_signed (w x : Z) : Z :=
  let y := wrap w x in if y <? 2 ^ (w - 1) then y else y - 2 ^ w.

Definition wrapping_add (w x y : Z) : Z := wrap w (x + y).
Definition wrapping_sub (w x y : Z) : Z := wrap w (x - y).

(** [u64::saturating_sub]. *)
Definition saturating_sub (x y : Z) : Z := Z.max 0 (x - y).

Lemma wrap_uint w x : 0 <= w -> is_uint w (wrap w x).
Proof. intros. unfold is_uint, wrap. apply Z.mod_pos_bound. lia. Qed.

Lemma wrap_id w x : is_uint w x -> wrap w x = x.
Proof. unfold is_uint, wrap. intros. by apply Z.mod_small. Qed.

Lemma wrap_idemp w x : 0 <= w -> wrap w (wrap w x) = wrap w x.
Proof. intros. apply wrap_id, wrap_uint. done. Qed.

Lemma to_signed_range w x : 0 < w -> - 2 ^ (w - 1) <= to_signed w x < 2 ^ (w - 1).
Proof.
  intros Hw. unfold to_signed. destruct (wrap_uint w x) as [H0 H1]; [lia|].
  replace (2 ^ w) with (2 * 2 ^ (w - 1)) in * by (rewrite <- Z.pow_succ_r by lia; f_equal; lia).
  destruct (Z.ltb_spec (wrap w x) (2 ^ (w - 1))); lia.
Qed.

Lemma is_uint_mono w w' x : 0 <= w <= w' -> is_uint w x -> is_uint w' x.
Proof.
  unfold is_uint. intros [? Hle] [? ?]. split; [done|].
  pose proof (Z.pow_le_mono_r 2 w w'). lia.
Qed.

(** ** Results

    [result E A] is Rust's [Result<A, E>]. *)

Inductive result (E A : Type) : Type :=
| Ok (a : A)
| Err (e : E).
Arguments Ok {E A} _.
Arguments Err {E A} _.

#[global] Instance result_eq_dec {E A} `{EqDecision E, EqDecision A} :
  EqDecision (result E A).
Proof. solve_decision. Defined.

#[global] Instance result_ret {E} : MRet (result E) := fun A => Ok.
#[global] Instance result_bind {E} : MBind (result E) := fun A B f m =>
  match m with Ok a => f a | Err e => Err e end.
#[global] Instance result_fmap {E} : FMap (result E) := fun A B f m =>
  match m with Ok a => Ok (f a) | Err e => Err e end.

(** [Result::map_err]. *)
Definition map_err {E F A} (f : E -> F) (r : result E A) : result F A :=
  match r with Ok a => Ok a | Err e => Err (f e) end.

(** [Result::ok], [Result::is_ok] and [Option::ok_or]. *)
Definition ok {E A} (r : result E A) : option A :=
  match r with Ok a => Some a | Err _ => None end.
Definition is_ok {E A} (r : result E A) : bool :=
  match r with Ok _ => true | Err _ => false end.
Definition ok_or {E A} (e : E) (o : option A) : result E A :=
  match o with Some a => Ok a | None => Err e end.

(** [outcome A]: a computation that returns or panics (slice out of range,
    remainder by zero, [unwrap] on [None]). *)
Inductive outcome (A : Type) : Type :=
| Done (a : A)
| Panic.
Arguments Done {A} _.
Arguments Panic {A}.

#[global] Instance outcome_eq_dec {A} `{EqDecision A} : EqDecision (outcome A).
Proof. solve_decision. Defined.

#[global] Instance outcome_ret : MRet outcome := fun A => Done.
#[global] Instance outcome_bind : MBind outcome := fun A B f m =>
  match m with Done a => f a | Panic => Panic end.

(** ** Stateful computations

    [io S A] threads a state of type [S]; an [async fn] that returns
    [Result<A, String>] is an [io S (result string A)]. *)

Definition io (S A : Type) : Type := S -> A * S.

#[global] Instance io_ret {S} : MRet (io S) := fun A a s => (a, s).
#[global] Instance io_bind {S} : MBind (io S) := fun A B f m s =>
  let '(a, s') := m s in f a s'.

Lemma io_bind_run {S A B} (m : io S A) (f : A -> io S B) s : (m ≫= f) s = f (m s).1 (m s).2.
Proof. unfold mbind, io_bind. by destruct (m s). Qed.

(** The [?] operator: sequence two fallible computations. *)
Definition bind_ok {S E A B} (m : io S (result E A)) (f : A -> io S (result E B))
    : io S (result E B) :=
  fun s => match m s with
           | (Ok a, s') => f a s'
           | (Err e, s') => (Err e, s')
           end.

Notation "'let?' x ':=' m 'in' k" := (bind_ok m (fun x => k))
  (at level 10, x pattern, m at level 100, k at level 200).

(** A sequence that succeeds: its first part did. *)
Lemma bind_ok_Ok {S E A B} (m : io S (result E A)) (f : A -> io S (result E B)) s b :
  (bind_ok m f s).1 = Ok b -> exists a s', m s = (Ok a, s') /\ (f a s').1 = Ok b.
Proof. unfold bind_ok. destruct (m s) as [[a|e] s']; [eauto|done]. Qed.

(** Sequencing computations that can panic: what was done before stays done. *)
Definition bind_done {S A B} (m : io S (outcome A)) (f : A -> io S (outcome B))
    : io S (outcome B) :=
  fun s => match m s with
           | (Done a, s') => f a s'
           | (Panic, s') => (Panic, s')
           end.

Notation "'let!' x ':=' m 'in' k" := (bind_done m (fun x => k))
  (at level 10, x pattern, m at level 100, k at level 200).

(** A fold whose body has effects and can panic. *)
Fixpoint fold_done {S A B} (f : B -> A -> io S (outcome B)) (b : B) (l : list A)
    : io S (outcome B) :=
  match l with
  | [] => fun s => (Done b, s)
  | x :: l => let! b := f b x in fold_done f b l
  end.

Lemma fold_done_invariant {S A B} (P : B -> S -> Prop) (f : B -> A -> io S (outcome B)) l :
  (forall b x s b' s', x ∈ l -> P b s -> f b x s = (Done b', s') -> P b' s') ->
  forall b s b' s', P b s -> fold_done f b l s = (Done b', s') -> P b' s'.
Proof.
  induction l as [|x l IH]; intros Hf b s b' s' HP; simpl.
  - by intros [= <- <-].
  - unfold bind_done. destruct (f b x s) as [[b1|] s1] eqn:E; [|done].
    apply IH; [set_solver|]. eapply Hf; [|done..]. set_solver.
Qed.

Lemma fold_done_app {S A B} (f : B -> A -> io S (outcome B)) l1 l2 b s :
  fold_done f b (l1 ++ l2) s = (let! b := fold_done f b l1 in fold_done f b l2) s.
Proof.
  revert b s. induction l1 as [|x l1 IH]; intros b s; [done|]. simpl. unfold bind_done in *.
  destruct (f b x s) as [[b1|] s1]; [apply IH|done].
Qed.

Lemma fold_done_state {S A B} (P : S -> Prop) (f : B -> A -> io S (outcome B)) l :
  (forall b x s, x ∈ l -> P s -> P (f b x s).2) -> forall b s, P s -> P (fold_done f b l s).2.
Proof.
  induction l as [|x l IH]; intros Hf b s HP; [done|]. simpl. unfold bind_done.
  pose proof (Hf b x s) as H1. destruct (f b x s) as [[b1|] s1]; simpl in *; [|set_solver].
  apply IH; [set_solver|]. set_solver.
Qed.

(** [.map_err(f)] on an effectful call. *)
Definition with_err {S E F A} (f : E -> F) (m : io S (result E A)) : io S (result F A) :=
  fun s => let '(r, s') := m s in (map_err f r, s').

(** [let _ = m;]: run and drop the result. *)
Definition ignore {S A} (m : io S A) : io S unit := fun s => (tt, (m s).2).

(** Run an effect for every element, in order. *)
Fixpoint for_each {S A} (f : A -> io S unit) (l : list A) : io S unit :=
  match l with
  | [] => mret tt
  | x :: l => f x ≫= fun _ => for_each f l
  end.

Lemma for_each_app {S A} (f : A -> io S unit) l1 l2 s :
  for_each f (l1 ++ l2) s = for_each f l2 (for_each f l1 s).2.
Proof.
  revert s. induction l1 as [|x l1 IH]; intros s; [done|].
  simpl. unfold mbind, io_bind. destruct (f x s) as [[] s']. apply IH.
Qed.

(** Invariants of a loop: what every iteration preserves, the loop preserves. *)
Lemma for_each_invariant {S A} (P : S -> Prop) (f : A -> io S unit) l :
  (forall x s, x ∈ l -> P s -> P (f x s).2) ->
  forall s, P s -> P (for_each f l s).2.
Proof.
  induction l as [|x l IH]; intros Hf s Hs; [done|].
  simpl. unfold mbind, io_bind. destruct (f x s) as [[] s'] eqn:E.
  apply IH; [set_solver|]. pose proof (Hf x s) as H. rewrite E in H. set_solver.
Qed.

(** What a computation does to the state, as a preorder [R] between the state
    before and after: [keeps R m].  The lemmas follow the structure of the
    monad, so that a computation is covered as soon as its calls are. *)
Definition keeps {S A} (R : relation S) (m : io S A) : Prop := forall s, R s (m s).2.

Section keeps.
Context {S : Type} (R : relation S) `{!PreOrder R}.

Lemma keeps_ret {A} (a : A) : keeps R (mret a).
Proof. intros s. simpl. reflexivity. Qed.

Lemma keeps_bind {A B} (m : io S A) (f : A -> io S B) :
  keeps R m -> (forall a, keeps R (f a)) -> keeps R (m ≫= f).
Proof.
  intros Hm Hf s. unfold mbind, io_bind. specialize (Hm s).
  destruct (m s) as [a s1]. etrans; [exact Hm|apply Hf].
Qed.

Lemma keeps_bind_ok {E A B} (m : io S (result E A)) (f : A -> io S (result E B)) :
  keeps R m -> (forall a, keeps R (f a)) -> keeps R (bind_ok m f).
Proof.
  intros Hm Hf s. unfold bind_ok. specialize (Hm s).
  destruct (m s) as [[a|e] s1]; [|exact Hm]. etrans; [exact Hm|apply Hf].
Qed.

Lemma keeps_bind_done {A B} (m : io S (outcome A)) (f : A -> io S (outcome B)) :
  keeps R m -> (forall a, keeps R (f a)) -> keeps R (bind_done m f).
Proof.
  intros Hm Hf s. unfold bind_done. specialize (Hm s).
  destruct (m s) as [[a|] s1]; [|exact Hm]. etrans; [exact Hm|apply Hf].
Qed.

Lemma keeps_with_err {E F A} (g : E -> F) (m : io S (result E A)) :
  keeps R m -> keeps R (with_err g m).
Proof. intros Hm s. unfold with_err. specialize (Hm s). by destruct (m s). Qed.

Lemma keeps_ignore {A} (m : io S A) : keeps R m -> keeps R (ignore m).
Proof. intros Hm s. exact (Hm s). Qed.

Lemma keeps_for_each {A} (f : A -> io S unit) l :
  (forall x, x ∈ l -> keeps R (f x)) -> keeps R (for_each f l).
Proof.
  induction l as [|x l IH]; intros Hf; [apply keeps_ret|].
  apply keeps_bind; [set_solver|]. intros _. apply IH. set_solver.
Qed.

Lemma keeps_run {A} (m : io S A) s a s' : keeps R m -> m s = (a, s') -> R s s'.
Proof. intros Hm E. specialize (Hm s). by rewrite E in Hm. Qed.
End keeps.

(** ** Lists *)

(** [Vec::retain]: filtering by a boolean. *)
Definition retain {A} (p : A -> bool) (l : list A) : list A := List.filter p l.

Lemma retain_app {A} (p : A -> bool) l k : retain p (l ++ k) = retain p l ++ retain p k.
Proof. induction l as [|x l IH]; simpl; [done|]. destruct (p x); simpl; by rewrite IH. Qed.

Lemma elem_of_retain {A} (p : A -> bool) l x :
  x ∈ retain p l <-> p x = true /\ x ∈ l.
Proof. unfold retain. rewrite !list_elem_of_In, List.filter_In. tauto. Qed.

Lemma Forall_retain {A} (P : A -> Prop) (p : A -> bool) l : Forall P l -> Forall P (retain p l).
Proof. rewrite !Forall_forall. intros Hl x Hx. apply elem_of_retain in Hx as [_ Hx]. by apply Hl. Qed.

Lemma retain_retain {A} (p q : A -> bool) l :
  retain p (retain q l) = retain (fun x => q x && p x) l.
Proof.
  unfold retain. induction l as [|x l IH]; [done|]. simpl.
  destruct (q x); simpl; [destruct (p x); simpl; by rewrite IH|done].
Qed.

Lemma retain_true {A} (p : A -> bool) l :
  (forall x, x ∈ l -> p x = true) -> retain p l = l.
Proof.
  induction l as [|x l IH]; intros Hp; [done|]. simpl.
  rewrite Hp by set_solver.
  f_equal. apply IH. set_solver.
Qed.

Lemma length_retain {A} (p : A -> bool) l : (length (retain p l) <= length l)%nat.
Proof. apply List.filter_length_le. Qed.

Lemma NoDup_fmap_retain {A B} (f : A -> B) (p : A -> bool) l :
  NoDup (f <$> l) -> NoDup (f <$> retain p l).
Proof.
  unfold retain. induction l as [|x l IH]; [done|].
  rewrite fmap_cons, NoDup_cons. intros [Hx Hl]. simpl.
  destruct (p x); [|by auto]. rewrite fmap_cons. apply NoDup_cons; split; [|by auto].
  intros (y & Hfy & Hy)%list_elem_of_fmap. apply Hx.
  apply list_elem_of_fmap. exists y. split; [done|]. by apply elem_of_retain in Hy as [_ ?].
Qed.

Lemma NoDup_fmap_inj {A B} (f : A -> B) l x y :
  NoDup (f <$> l) -> x ∈ l -> y ∈ l -> f x = f y -> x = y.
Proof.
  intros Hnd [i Hi]%list_elem_of_lookup [j Hj]%list_elem_of_lookup Hf.
  assert (i = j) as ->; [|congruence].
  eapply NoDup_lookup; [exact Hnd|rewrite list_lookup_fmap, Hi; done|].
  by rewrite list_lookup_fmap, Hj, Hf.
Qed.

(** [iter().enumerate()]. *)
Definition enumerate {A} (l : list A) : list (nat * A) := imap pair l.

Lemma enumerate_elem {A} (l : list A) i x : (i, x) ∈ enumerate l <-> l !! i = Some x.
Proof.
  unfold enumerate. rewrite list_elem_of_lookup. split.
  - intros [j Hj]. rewrite list_lookup_imap in Hj. destruct (l !! j) eqn:E; [|done]. simpl in Hj. congruence.
  - intros E. exists i. by rewrite list_lookup_imap, E.
Qed.

(** ** Automation *)

(** [inv_ok]: destruct the result bound by a [match] in a hypothesis until no
    alternative is left. *)
Ltac case_results :=
  repeat match goal with
         | H : context [match ?x with Ok _ => _ | Err _ => _ end] |- _ =>
           let E := fresh "E" in destruct x eqn:E; simplify_eq/=
         | |- context [match ?x with Ok _ => _ | Err _ => _ end] =>
           let E := fresh "E" in destruct x eqn:E; simplify_eq/=
         | H : context [match ?x with Done _ => _ | Panic => _ end] |- _ =>
           let E := fresh "E" in destruct x eqn:E; simplify_eq/=
         | |- context [match ?x with Done _ => _ | Panic => _ end] =>
           let E := fresh "E" in destruct x eqn:E; simplify_eq/=
         end.

(** A closed decidable fact, by computing the decision. *)
Ltac by_decide := eapply bool_decide_unpack; vm_compute; exact I.

(** Booleans of decisions and comparisons, turned into propositions. *)
Ltac bool_to_prop :=
  repeat match goal with
         | H : (_ && _)%bool = true |- _ => apply andb_true_iff in H as [? ?]
         | H : (_ || _)%bool = false |- _ => apply orb_false_iff in H as [? ?]
         | H : negb _ = true |- _ => apply negb_true_iff in H
         | H : negb _ = false |- _ => apply negb_false_iff in H
         | H : bool_decide _ = true |- _ => apply bool_decide_eq_true_1 in H
         | H : bool_decide _ = false |- _ => apply bool_decide_eq_false_1 in H
         | H : (_ =? _) = true |- _ => apply Z.eqb_eq in H
         | H : (_ =? _) = false |- _ => apply Z.eqb_neq in H
         | H : (_ <? _) = true |- _ => apply Z.ltb_lt in H
         | H : (_ <? _) = false |- _ => apply Z.ltb_ge in H
         | H : (_ <=? _) = true |- _ => apply Z.leb_le in H
         | H : (_ <=? _) = false |- _ => apply Z.leb_gt in H
         end.

(** [keeps R m], down to the calls [m] is made of. *)
Ltac keeps_auto :=
  repeat first
    [ solve [eauto with agent nocore] | apply keeps_ret; apply _
    | match goal with
      | |- keeps _ (bind_ok _ _) => apply keeps_bind_ok; [apply _| |intros ?]
      | |- keeps _ (bind_done _ _) => apply keeps_bind_done; [apply _| |intros ?]
      | |- keeps _ (mbind _ _) => apply keeps_bind; [apply _| |intros ?]
      end
    | apply keeps_with_err
    | match goal with |- keeps _ (ignore _) => apply keeps_ignore end
    | progress intros | case_match ].

Create HintDb agent discriminated.
#[export] Hint Resolve wrap_uint : agent.
#[export] Hint Resolve NoDup_fmap_retain : agent.
#[export] Hint Rewrite @elem_of_retain : agent.
