(* ===== verification/RustStr.v ===== *)
(** * Strings, numbers and addresses of the Rust standard library

    The agent is glue around text: rule lines for [/proc] files, command
    output, CIDR strings.  This file models the [std] functions it calls, on
    byte strings ([str::len] is [String.length]); white space is the ASCII
    white space of [char::is_whitespace].  The lemmas are the round trips
    ([split]/[join], decimal print/parse, dotted quad print/parse) the
    components share. *)

From stdpp Require Import pretty.
From Stdlib Require Import Ascii.
From S2P Require Import Prelude.

(** ** Searching and splitting *)

Fixpoint str_mem (c : ascii) (s : string) : bool :=
  match s with
  | EmptyString => false
  | String a s => bool_decide (a = c) || str_mem c s
  end.

(** [str::split(char)]: never empty. *)
Fixpoint split_char (c : ascii) (s : string) : list string :=
  match s with
  | EmptyString => [""]
  | String a s =>
    if bool_decide (a = c) then "" :: split_char c s
    else match split_char c s with
         | [] => [String a ""]
         | x :: xs => String a x :: xs
         end
  end.

(** [[String]::join(sep)]. *)
Fixpoint join (sep : string) (l : list string) : string :=
  match l with
  | [] => ""
  | [x] => x
  | x :: l => x +:+ sep +:+ join sep l
  end.

(** [str::split_once(char)]. *)
Fixpoint split_once (c : ascii) (s : string) : option (string * string) :=
  match s with
  | EmptyString => None
  | String a s =>
    if bool_decide (a = c) then Some ("", s)
    else match split_once c s with
         | Some (x, y) => Some (String a x, y)
         | None => None
         end
  end.

(** [str::rsplit_once(char)]; [Path::file_name] and [Path::extension] of a path
    whose last component is a name. *)
Fixpoint rsplit_once (c : ascii) (s : string) : option (string * string) :=
  match s with
  | EmptyString => None
  | String a s =>
    match rsplit_once c s with
    | Some (x, y) => Some (String a x, y)
    | None => if bool_decide (a = c) then Some ("", s) else None
    end
  end.
Definition file_name (path : string) : string :=
  match rsplit_once "/"%char path with Some (_, n) => n | None => path end.
Definition extension (path : string) : option string :=
  match rsplit_once "."%char (file_name path) with
  | Some (stem, ext) => if bool_decide (stem = "") then None else Some ext
  | None => None
  end.
(** [str::split_whitespace]. *)
Definition split_whitespace : string -> list string := String.words.

(** [str::trim_start], [str::trim_end], [str::trim]. *)
Fixpoint trim_start (s : string) : string :=
  match s with
  | EmptyString => ""
  | String a s' => if Ascii.is_space a then trim_start s' else s
  end.
Definition trim_end (s : string) : string := String.rev (trim_start (String.rev s)).
Definition trim (s : string) : string := trim_end (trim_start s).

(** [str::starts_with(&str)], [str::strip_prefix], [str::contains(&str)]. *)
Fixpoint strip_prefix (p s : string) : option string :=
  match p, s with
  | EmptyString, _ => Some s
  | String a p, String b s => if bool_decide (a = b) then strip_prefix p s else None
  | _, EmptyString => None
  end.
Definition starts_with (p s : string) : bool := bool_decide (is_Some (strip_prefix p s)).
Fixpoint contains (p s : string) : bool :=
  starts_with p s || match s with EmptyString => false | String _ s => contains p s end.

(** [str::find(p)] and what follows the match. *)
Fixpoint find_after (p s : string) : option string :=
  match strip_prefix p s with
  | Some r => Some r
  | None => match s with EmptyString => None | String _ s => find_after p s end
  end.

(** [str::trim_start_matches(&str)]: the prefix is removed as often as it
    occurs; [p] is not empty where the agent calls it. *)
Fixpoint trim_matches_upto (n : nat) (p s : string) : string :=
  match n with
  | O => s
  | S n => match strip_prefix p s with Some s' => trim_matches_upto n p s' | None => s end
  end.
Definition trim_start_matches (p s : string) : string :=
  trim_matches_upto (String.length s) p s.

(** [trim_end_matches(c)] for a character. *)
Fixpoint trim_start_char (c : ascii) (s : string) : string :=
  match s with
  | String a s' => if bool_decide (a = c) then trim_start_char c s' else s
  | EmptyString => ""
  end.
Definition trim_end_char (c : ascii) (s : string) : string := String.rev (trim_start_char c (String.rev s)).

(** [trim_matches(c)]. *)
Definition trim_char (c : ascii) (s : string) : string := trim_end_char c (trim_start_char c s).

(** [str::lines]: split on line feeds, drop a trailing carriage return of each
    line, no last empty line. *)
Definition line_feed : ascii := "010"%char.
Definition carriage_return : ascii := "013"%char.
Fixpoint drop_last_cr (s : string) : string :=
  match s with
  | EmptyString => ""
  | String a EmptyString => if bool_decide (a = carriage_return) then "" else s
  | String a s => String a (drop_last_cr s)
  end.
Definition lines (s : string) : list string :=
  let ls := split_char line_feed s in
  drop_last_cr <$> (match last ls with Some "" => take (length ls - 1) ls | _ => ls end).

Definition str_is_empty (s : string) : bool := bool_decide (s = "").
Definition str_len (s : string) : Z := Z.of_nat (String.length s).

(** ** Decimal numbers *)

(** [{}] of an unsigned and of a signed integer. *)
Definition dec (n : Z) : string := pretty (Z.to_N n).
Definition dec_signed (n : Z) : string := pretty n.

Fixpoint digits_val (acc : Z) (s : string) : option Z :=
  match s with
  | EmptyString => Some acc
  | String a s => d ← Ascii.is_nat a; digits_val (acc * 10 + Z.of_nat d) s
  end.

(** [str::parse::<uW>]: an optional [+], at least one digit, no overflow. *)
Definition parse_uint (w : Z) (s : string) : option Z :=
  let body := match s with String "+" s' => s' | _ => s end in
  if str_is_empty body then None
  else n ← digits_val 0 body; if n <? 2 ^ w then Some n else None.

(** [str::parse::<iW>]: an optional sign, at least one digit, no overflow. *)
Definition parse_int (w : Z) (s : string) : option Z :=
  let '(neg, body) := match s with
                      | String "+" s' => (false, s')
                      | String "-" s' => (true, s')
                      | _ => (false, s)
                      end in
  if str_is_empty body then None
  else n ← digits_val 0 body;
       let v := if (neg : bool) then - n else n in
       if (- 2 ^ (w - 1) <=? v) && (v <? 2 ^ (w - 1)) then Some v else None.

Definition ascii_code (a : ascii) : Z := Z.of_N (N_of_ascii a).

Definition hex_digit_val (a : ascii) : option Z :=
  let n := ascii_code a in
  if (48 <=? n) && (n <=? 57) then Some (n - 48)
  else if (65 <=? n) && (n <=? 70) then Some (n - 55)
  else if (97 <=? n) && (n <=? 102) then Some (n - 87)
  else None.

Fixpoint hex_val (acc : Z) (s : string) : option Z :=
  match s with
  | EmptyString => Some acc
  | String a s => d ← hex_digit_val a; hex_val (acc * 16 + d) s
  end.

(** [uW::from_str_radix(s, 16)]. *)
Definition from_str_radix16 (w : Z) (s : string) : option Z :=
  let body := match s with String "+" s' => s' | _ => s end in
  if str_is_empty body then None
  else n ← hex_val 0 body; if n <? 2 ^ w then Some n else None.

Definition upper_hex_digit (d : Z) : ascii :=
  ascii_of_N (Z.to_N (if d <? 10 then 48 + d else 55 + d)).

(** [{:02X}] of a byte. *)
Definition hex02X (b : Z) : string :=
  String (upper_hex_digit (b / 16)) (String (upper_hex_digit (b mod 16)) "").

Definition lower_hex_digit (d : Z) : ascii :=
  ascii_of_N (Z.to_N (if d <? 10 then 48 + d else 87 + d)).

(** [{:02x}] of a byte. *)
Definition hex02x (b : Z) : string :=
  String (lower_hex_digit (b / 16)) (String (lower_hex_digit (b mod 16)) "").

(** [{:x}] of a [u16]: no leading zeros. *)
Definition hex_x (n : Z) : string :=
  let s := hex02x (n / 256) +:+ hex02x (n mod 256) in
  match trim_start_matches "0" s with EmptyString => "0" | s => s end.

(** ** IPv4 addresses: a [u32], most significant octet first *)

Definition octet (k : Z) (a : Z) : Z := Z.land (Z.shiftr a (8 * k)) 255.
Definition octets (a : Z) : list Z := [octet 3 a; octet 2 a; octet 1 a; octet 0 a].

(** [Ipv4Addr::to_string]. *)
Definition ipv4_to_string (a : Z) : string := join "." (dec <$> octets a).

(** One octet: one to three digits, no leading zero, at most 255. *)
Definition parse_octet (s : string) : option Z :=
  if str_is_empty s || (starts_with "0" s && (1 <? str_len s)) || (3 <? str_len s)
  then None
  else n ← digits_val 0 s; if n <=? 255 then Some n else None.

Definition of_octets (a b c d : Z) : Z := ((a * 256 + b) * 256 + c) * 256 + d.

(** [str::parse::<Ipv4Addr>]. *)
Definition parse_ipv4 (s : string) : option Z :=
  match split_char "." s with
  | [a; b; c; d] =>
    a ← parse_octet a; b ← parse_octet b; c ← parse_octet c; d ← parse_octet d;
    Some (of_octets a b c d)
  | _ => None
  end.

(** ** IPv6 addresses: eight groups *)

(** The first longest run of zero groups: (start, length). *)
Fixpoint longest_zeros (i : nat) (cur best : nat * nat) (l : list Z) : nat * nat :=
  match l with
  | [] => best
  | g :: l =>
    if g =? 0 then
      let cur := if bool_decide (cur.2 = 0%nat) then (i, 1%nat) else (cur.1, S cur.2) in
      longest_zeros (S i) cur (if bool_decide (best.2 < cur.2)%nat then cur else best) l
    else longest_zeros (S i) (0, 0)%nat best l
  end.

(** [Ipv6Addr::to_string]. *)
Definition ipv6_to_string (groups : list Z) : string :=
  match groups with
  | [0; 0; 0; 0; 0; 65535; a; b] => "::ffff:" +:+ ipv4_to_string (a * 65536 + b)
  | _ =>
    let '(start, len) := longest_zeros 0 (0, 0)%nat (0, 0)%nat groups in
    if bool_decide (1 < len)%nat
    then join ":" (hex_x <$> take start groups) +:+ "::"
         +:+ join ":" (hex_x <$> drop (start + len) groups)
    else join ":" (hex_x <$> groups)
  end.

Example ipv6_samples :
  ipv6_to_string [0; 0; 0; 0; 0; 0; 0; 1] = "::1"
  /\ ipv6_to_string [8193; 3512; 0; 0; 1; 0; 0; 10] = "2001:db8::1:0:0:a"
  /\ ipv6_to_string [0; 0; 0; 0; 0; 65535; 49320; 1] = "::ffff:192.168.0.1"
  /\ ipv6_to_string [0; 0; 0; 0; 0; 0; 0; 0] = "::".
Proof. vm_compute. auto. Qed.

(** ** Case *)

Definition ascii_lower (a : ascii) : ascii :=
  if (65 <=? ascii_code a) && (ascii_code a <=? 90) then ascii_of_N (Z.to_N (ascii_code a + 32)) else a.
(** [str::to_lowercase] of ASCII text, and of other text as far as a comparison
    with an ASCII word can tell: no other character becomes one of the letters of
    the words the agent compares with. *)
Fixpoint to_lowercase (s : string) : string :=
  match s with EmptyString => "" | String a s => String (ascii_lower a) (to_lowercase s) end.

(** ** Paths *)

(** [Path::components] of the normal form: no empty parts, [.] only in front. *)
Definition components (p : string) : list string :=
  let parts := split_char "/" p in
  let tail := List.filter (fun c => negb (str_is_empty c || bool_decide (c = "."))) in
  match parts with
  | "." :: rest => "." :: tail rest
  | _ => tail parts
  end.
Definition path_file_name (p : string) : option string :=
  match last (components p) with
  | Some c => if bool_decide (c ∈ [".."; "."]) then None else Some c
  | None => None
  end.
Definition path_parent (p : string) : option string :=
  match components p with
  | [] => None
  | cs => Some ((if starts_with "/" p then "/" else "") +:+ join "/" (take (length cs - 1) cs))
  end.

Example path_parents :
  path_parent "/srv/x/out.bin" = Some "/srv/x" /\ path_parent "out.bin" = Some ""
  /\ path_parent "./out.bin" = Some "." /\ path_parent "/" = None /\ path_parent "/a/" = Some "/"
  /\ path_file_name "/srv/x/" = Some "x" /\ path_file_name "a/.." = None.
Proof. by vm_compute. Qed.

(** [Path::join] with a relative path. *)
Definition path_join (dst name : string) : string :=
  match String.rev dst with
  | EmptyString => name
  | String "/" _ => dst +:+ name
  | _ => dst +:+ "/" +:+ name
  end.

(** [str::ends_with(&str)]. *)
Definition ends_with (p s : string) : bool := starts_with (String.rev p) (String.rev s).

(** ** Lemmas *)

Lemma str_app_cons a s t : String a s +:+ t = String a (s +:+ t).
Proof. done. Qed.

Lemma str_app_nil_l s : "" +:+ s = s.
Proof. done. Qed.

Lemma str_app_nil_r s : s +:+ "" = s.
Proof. induction s as [|a s IH]; [done|]. rewrite str_app_cons. by rewrite IH. Qed.

Lemma str_app_assoc s1 s2 s3 : (s1 +:+ s2) +:+ s3 = s1 +:+ s2 +:+ s3.
Proof. induction s1 as [|a s1 IH]; [done|]. rewrite !str_app_cons. by rewrite IH. Qed.

Lemma str_mem_app c s1 s2 : str_mem c (s1 +:+ s2) = str_mem c s1 || str_mem c s2.
Proof. induction s1 as [|a s1 IH]; [done|]. rewrite str_app_cons. simpl. by rewrite IH, orb_assoc. Qed.

Lemma split_char_ne c s : split_char c s <> [].
Proof. destruct s; simpl; [done|]. repeat case_match; done. Qed.

Lemma split_char_none c s : str_mem c s = false -> split_char c s = [s].
Proof.
  induction s as [|a s IH]; [done|]. simpl. intros [Ha Hs]%orb_false_iff.
  rewrite Ha. by rewrite IH.
Qed.

Lemma split_char_app c s r :
  str_mem c s = false -> split_char c (s +:+ String c r) = s :: split_char c r.
Proof.
  induction s as [|a s IH]; intros Hs.
  - rewrite str_app_nil_l. simpl. by rewrite bool_decide_eq_true_2.
  - simpl in Hs. apply orb_false_iff in Hs as [Ha Hs]. rewrite str_app_cons.
    simpl. rewrite Ha. by rewrite IH.
Qed.

(** Splitting undoes joining, for parts without the separator. *)
Lemma split_join c l :
  l <> [] -> Forall (fun s => str_mem c s = false) l ->
  split_char c (join (String c "") l) = l.
Proof.
  intros Hne Hl. induction Hl as [|x l Hx Hl IH]; [done|].
  destruct l as [|y l]; [by apply split_char_none|].
  change (join (String c "") (x :: y :: l))
    with (x +:+ String c (join (String c "") (y :: l))).
  rewrite split_char_app by done. by rewrite IH.
Qed.

(** Joining undoes splitting. *)
Lemma join_split c s : join (String c "") (split_char c s) = s.
Proof.
  induction s as [|a s IH]; [done|]. simpl. pose proof (split_char_ne c s) as Hne.
  case_bool_decide as Ha; subst.
  - destruct (split_char c s) as [|y l] eqn:E; [done|].
    change (join (String c "") ("" :: y :: l))
      with (String c (join (String c "") (y :: l))). by rewrite IH.
  - destruct (split_char c s) as [|y l] eqn:E; [done|].
    rewrite <- IH. by destruct l.
Qed.

Lemma digits_val_pretty x s acc :
  acc = 0 -> digits_val acc (pretty_N_go x s) = digits_val (Z.of_N x) s.
Proof.
  intros ->. revert s. induction (N.lt_wf_0 x) as [x _ IH]; intros s.
  destruct (decide (x = 0%N)) as [->|Hx]; [done|].
  rewrite pretty_N_go_step by lia. rewrite IH by (apply N.div_lt; lia).
  assert (Ascii.is_nat (pretty_N_char (x `mod` 10)) = Some (N.to_nat (x `mod` 10))) as Hd.
  { pose proof (N.mod_lt x 10 ltac:(done)) as Hlt. revert Hlt.
    generalize (x `mod` 10)%N as d. intros d Hd.
    assert (d = 0 \/ d = 1 \/ d = 2 \/ d = 3 \/ d = 4 \/ d = 5 \/ d = 6 \/ d = 7
            \/ d = 8 \/ d = 9)%N as Hc by lia. destruct_or! Hc; by subst. }
  cbn [digits_val]. rewrite Hd. cbn. f_equal.
  pose proof (N.div_mod x 10 ltac:(done)). lia.
Qed.

Lemma digits_val_dec n : 0 <= n -> digits_val 0 (dec n) = Some n.
Proof.
  intros Hn. unfold dec, pretty, pretty_N. case_decide as E.
  - simpl. f_equal. lia.
  - rewrite digits_val_pretty by done. simpl. f_equal. lia.
Qed.

Lemma dec_nonempty n : dec n <> "".
Proof.
  unfold dec. intros H. assert (digits_val 0 (pretty (Z.to_N n)) = Some (Z.of_N (Z.to_N n))) as Hd.
  { rewrite <- (digits_val_dec (Z.of_N (Z.to_N n))) by lia. unfold dec. by rewrite N2Z.id. }
  rewrite H in Hd. simpl in Hd. injection Hd as Hz.
  assert (Z.to_N n = 0%N) as H0 by lia. by rewrite H0 in H.
Qed.

(** Only digits in a printed number. *)
Lemma pretty_go_mem c x s :
  Ascii.is_nat c = None -> str_mem c (pretty_N_go x s) = str_mem c s.
Proof.
  intros Hc. revert s. induction (N.lt_wf_0 x) as [x _ IH]; intros s.
  destruct (decide (x = 0%N)) as [->|Hx]; [done|].
  rewrite pretty_N_go_step by lia. rewrite IH by (apply N.div_lt; lia).
  cbn [str_mem]. rewrite bool_decide_eq_false_2; [done|].
  intros Hd. revert Hc. rewrite <- Hd. unfold pretty_N_char. by repeat case_match.
Qed.

Lemma dec_mem c n : Ascii.is_nat c = None -> str_mem c (dec n) = false.
Proof.
  intros Hc. unfold dec, pretty, pretty_N. case_decide.
  - cbn. rewrite bool_decide_eq_false_2; [done|]. by intros <-.
  - by rewrite pretty_go_mem.
Qed.

Lemma parse_uint_dec w n : is_uint w n -> parse_uint w (dec n) = Some n.
Proof.
  intros [H0 Hn]. unfold parse_uint.
  assert (str_mem "+" (dec n) = false) as Hp by by apply dec_mem.
  assert (match dec n with String "+" s' => s' | _ => dec n end = dec n) as ->.
  { destruct (dec n) as [|a s]; [done|]. cbn in Hp. apply orb_false_iff in Hp as [Hp _].
    destruct a as [[][][][][][][][]]; done. }
  unfold str_is_empty. rewrite bool_decide_eq_false_2 by apply dec_nonempty.
  rewrite digits_val_dec by done. simpl. by rewrite (proj2 (Z.ltb_lt _ _)).
Qed.

Lemma dec_inj m n : 0 <= m -> 0 <= n -> dec m = dec n -> m = n.
Proof.
  intros Hm Hn E. apply (f_equal (digits_val 0)) in E.
  rewrite !digits_val_dec in E by done. by simplify_eq.
Qed.

(** *** Octets *)

Lemma octet_uint k a : is_uint 8 (octet k a).
Proof.
  unfold octet, is_uint. change 255 with (Z.ones 8). rewrite Z.land_ones by lia.
  apply Z.mod_pos_bound. lia.
Qed.

Lemma octet_div k a : 0 <= k -> octet k a = (a / 2 ^ (8 * k)) mod 256.
Proof.
  intros. unfold octet. change 255 with (Z.ones 8).
  rewrite Z.land_ones, Z.shiftr_div_pow2 by lia. done.
Qed.

Lemma of_octets_octets a :
  is_uint 32 a -> of_octets (octet 3 a) (octet 2 a) (octet 1 a) (octet 0 a) = a.
Proof.
  unfold is_uint, of_octets. intros Ha. rewrite !octet_div by lia.
  change (2 ^ (8 * 3)) with 16777216. change (2 ^ (8 * 2)) with 65536.
  change (2 ^ (8 * 1)) with 256. change (2 ^ (8 * 0)) with 1.
  change (2 ^ 32) with 4294967296 in Ha.
  Z.to_euclidean_division_equations; lia.
Qed.

Lemma of_octets_uint a b c d :
  is_uint 8 a -> is_uint 8 b -> is_uint 8 c -> is_uint 8 d -> is_uint 32 (of_octets a b c d).
Proof.
  unfold is_uint, of_octets. change (2 ^ 8) with 256. change (2 ^ 32) with 4294967296. lia.
Qed.

Lemma parse_octet_dec n : is_uint 8 n -> parse_octet (dec n) = Some n.
Proof.
  unfold is_uint. change (2 ^ 8) with 256. intros Hn.
  assert (forallb (fun k => bool_decide (parse_octet (dec (Z.of_nat k)) = Some (Z.of_nat k)))
            (seq 0 256) = true) as Hall by by vm_compute.
  rewrite forallb_forall in Hall. specialize (Hall (Z.to_nat n)).
  rewrite in_seq in Hall. specialize (Hall ltac:(lia)).
  apply bool_decide_eq_true_1 in Hall. by rewrite Z2Nat.id in Hall by lia.
Qed.

Lemma parse_octet_uint s n : parse_octet s = Some n -> is_uint 8 n.
Proof.
  assert (forall s acc m, 0 <= acc -> digits_val acc s = Some m -> 0 <= m) as Hpos.
  { clear. induction s as [|a s IH]; simpl; intros acc m Hacc; [by intros [= <-]|].
    destruct (Ascii.is_nat a) as [d|]; [|done]. simpl. apply IH. lia. }
  unfold parse_octet. intros H.
  case_match; [done|]. apply bind_Some in H as (m & Hm & Hle). case_match; simplify_eq. bool_to_prop. split; [by eapply Hpos|]. change (2 ^ 8) with 256. lia.
Qed.

(** Printing and parsing a dotted quad is the identity on [u32]. *)
Lemma parse_ipv4_to_string a : is_uint 32 a -> parse_ipv4 (ipv4_to_string a) = Some a.
Proof.
  intros Ha. unfold parse_ipv4, ipv4_to_string.
  rewrite split_join; [|done|].
  - cbn [fmap list_fmap octets]. rewrite !parse_octet_dec by apply octet_uint.
    cbn. f_equal. by apply of_octets_octets.
  - apply Forall_fmap, Forall_true. intros x. by apply dec_mem.
Qed.

Lemma parse_ipv4_uint s a : parse_ipv4 s = Some a -> is_uint 32 a.
Proof.
  unfold parse_ipv4. destruct (split_char "." s) as [|x1 [|x2 [|x3 [|x4 [|]]]]]; try done.
  intros H. apply bind_Some in H as (a1 & H1 & H). apply bind_Some in H as (a2 & H2 & H).
  apply bind_Some in H as (a3 & H3 & H). apply bind_Some in H as (a4 & H4 & [= <-]).
  by apply of_octets_uint; eapply parse_octet_uint.
Qed.

(** *** Trimming, splitting once, lines *)

Lemma rev_app_spec s t : String.rev_app s t = String.rev s +:+ t.
Proof.
  unfold String.rev. revert t. induction s as [|a s IH]; intros t; [done|]. simpl.
  rewrite IH, (IH (String a "")), str_app_assoc. done.
Qed.

Lemma rev_cons a s : String.rev (String a s) = String.rev s +:+ String a "".
Proof. unfold String.rev at 1. simpl. apply rev_app_spec. Qed.

Lemma rev_app s t : String.rev (s +:+ t) = String.rev t +:+ String.rev s.
Proof.
  induction s as [|a s IH]; simpl; [by rewrite str_app_nil_l, str_app_nil_r|].
  by rewrite str_app_cons, !rev_cons, IH, str_app_assoc.
Qed.

Lemma rev_involutive s : String.rev (String.rev s) = s.
Proof.
  induction s as [|a s IH]; [done|]. by rewrite rev_cons, rev_app, IH.
Qed.

Lemma str_mem_rev c s : str_mem c (String.rev s) = str_mem c s.
Proof.
  induction s as [|a s IH]; [done|]. rewrite rev_cons, str_mem_app, IH. simpl.
  by rewrite orb_false_r, orb_comm.
Qed.

(** No white space at all. *)
Definition no_space (s : string) : Prop := forall a, str_mem a s = true -> Ascii.is_space a = false.

Lemma trim_start_id s : no_space s -> trim_start s = s.
Proof.
  destruct s as [|a s]; [done|]. intros H. simpl. rewrite (H a); [done|]. simpl.
  by rewrite bool_decide_eq_true_2.
Qed.

Lemma trim_id s : no_space s -> trim s = s.
Proof.
  intros H. unfold trim, trim_end. rewrite (trim_start_id s H), trim_start_id.
  - apply rev_involutive.
  - intros a. rewrite str_mem_rev. apply H.
Qed.

Lemma no_space_dec n : no_space (dec n).
Proof.
  intros a Ha. destruct (Ascii.is_space a) eqn:E; [|done].
  rewrite dec_mem in Ha; [done|]. by destruct a as [[] [] [] [] [] [] [] []].
Qed.

Lemma split_once_app c x y : str_mem c x = false -> split_once c (x +:+ String c y) = Some (x, y).
Proof.
  induction x as [|a x IH]; intros Hx.
  - rewrite str_app_nil_l. simpl. by rewrite bool_decide_eq_true_2.
  - rewrite str_app_cons. simpl in *. apply orb_false_iff in Hx as [Ha Hx].
    by rewrite Ha, IH.
Qed.

Lemma drop_last_cr_id s : str_mem carriage_return s = false -> drop_last_cr s = s.
Proof.
  induction s as [|a s IH]; [done|]. simpl. intros [Ha Hs]%orb_false_iff.
  destruct s as [|b s]; [by rewrite Ha|]. by rewrite IH.
Qed.

(** A text of terminated lines, read back line by line. *)
Fixpoint unlines (l : list string) : string :=
  match l with
  | [] => ""
  | x :: l => x +:+ String line_feed (unlines l)
  end.

Definition single_line (s : string) : Prop :=
  str_mem line_feed s = false /\ str_mem carriage_return s = false.

Lemma lines_unlines l : Forall single_line l -> lines (unlines l) = l.
Proof.
  intros Hl. assert (split_char line_feed (unlines l) = l ++ [""]) as E.
  { induction Hl as [|x l [Hx _] Hl IH]; [done|]. simpl.
    rewrite split_char_app by done. by rewrite IH. }
  unfold lines. rewrite E, last_snoc, length_app, Nat.add_sub, take_app_length.
  clear E. induction Hl as [|x l [_ Hx] Hl IH]; [done|].
  by rewrite fmap_cons, drop_last_cr_id, IH.
Qed.

#[export] Hint Resolve parse_ipv4_uint parse_octet_uint octet_uint : agent.
#[export] Hint Rewrite str_app_nil_r str_app_assoc : agent_str.

(** ** Trimming twice *)

Lemma trim_start_snoc s a :
  Ascii.is_space a = false -> trim_start (s +:+ String a "") = trim_start s +:+ String a "".
Proof.
  intros Ha. induction s as [|b s IH]; [simpl; by rewrite Ha|].
  rewrite str_app_cons. simpl. by destruct (Ascii.is_space b).
Qed.

Lemma trim_end_cons a s :
  Ascii.is_space a = false -> trim_end (String a s) = String a (trim_end s).
Proof.
  intros Ha. unfold trim_end. by rewrite rev_cons, trim_start_snoc, rev_app.
Qed.

Lemma trim_start_shape s :
  trim_start s = "" \/ exists a t, trim_start s = String a t /\ Ascii.is_space a = false.
Proof.
  induction s as [|a s IH]; [by left|]. simpl. destruct (Ascii.is_space a) eqn:E; [done|].
  right. by exists a, s.
Qed.

Lemma trim_start_idem s : trim_start (trim_start s) = trim_start s.
Proof.
  destruct (trim_start_shape s) as [->|(a & t & -> & Ha)]; [done|]. simpl. by rewrite Ha.
Qed.

Lemma trim_idem s : trim (trim s) = trim s.
Proof.
  unfold trim. assert (trim_start (trim_end (trim_start s)) = trim_end (trim_start s)) as ->.
  { destruct (trim_start_shape s) as [->|(a & t & -> & Ha)]; [done|].
    rewrite trim_end_cons by done. simpl. by rewrite Ha. }
  unfold trim_end. by rewrite rev_involutive, trim_start_idem.
Qed.

Lemma str_mem_trim_start c s : str_mem c s = false -> str_mem c (trim_start s) = false.
Proof.
  induction s as [|a s IH]; [done|]. simpl. intros [Ha Hs]%orb_false_iff.
  destruct (Ascii.is_space a); [by apply IH|]. simpl. by rewrite Ha, Hs.
Qed.

Lemma str_mem_trim c s : str_mem c s = false -> str_mem c (trim s) = false.
Proof.
  intros Hs. unfold trim, trim_end. rewrite str_mem_rev. apply str_mem_trim_start.
  rewrite str_mem_rev. by apply str_mem_trim_start.
Qed.

Lemma split_char_parts c s : Forall (fun x => str_mem c x = false) (split_char c s).
Proof.
  induction s as [|a s IH]; [by repeat constructor|]. simpl. case_bool_decide as Ha.
  - by constructor.
  - destruct (split_char c s) as [|x l]; inversion IH; subst; repeat constructor; simpl; try done;
      by rewrite bool_decide_eq_false_2.
Qed.

Lemma no_space_app s t : no_space s -> no_space t -> no_space (s +:+ t).
Proof. intros Hs Ht a. rewrite str_mem_app, orb_true_iff. intros [?|?]; auto. Qed.

Lemma no_space_ipv4 a : no_space (ipv4_to_string a).
Proof.
  unfold ipv4_to_string, octets. cbn [fmap list_fmap join].
  repeat apply no_space_app; try apply no_space_dec;
    by intros c; simpl; case_bool_decide; subst.
Qed.

Lemma ipv4_mem c a :
  Ascii.is_nat c = None -> c <> "."%char -> str_mem c (ipv4_to_string a) = false.
Proof.
  intros Hc Hd. unfold ipv4_to_string, octets. cbn [fmap list_fmap join].
  rewrite !str_mem_app, !dec_mem by done. simpl. by rewrite bool_decide_eq_false_2.
Qed.

Lemma digits_val_nonneg s acc n : 0 <= acc -> digits_val acc s = Some n -> 0 <= n.
Proof.
  revert acc. induction s as [|a s IH]; intros acc Hacc E; simpl in E; [by simplify_eq|].
  destruct (Ascii.is_nat a) as [d|]; [|done]. eapply IH; [|exact E]. lia.
Qed.

Lemma parse_uint_range w s n : parse_uint w s = Some n -> is_uint w n.
Proof.
  unfold parse_uint. destruct (str_is_empty _); [done|].
  intros (m & E & Hm)%bind_Some. apply digits_val_nonneg in E; [|done].
  destruct (Z.ltb_spec m (2 ^ w)); [|done]. simplify_eq. by split.
Qed.

Lemma str_length_app s r : String.length (s +:+ r) = (String.length s + String.length r)%nat.
Proof. induction s as [|a s IH]; [done|]. rewrite str_app_cons. simpl. by rewrite IH. Qed.

(** Words apart by one space. *)
Lemma no_space_cons a x : no_space (String a x) -> Ascii.is_space a = false /\ no_space x.
Proof.
  intros Hx. split.
  - apply Hx. simpl. by rewrite bool_decide_true.
  - intros b Hb. apply Hx. simpl. by rewrite Hb, orb_true_r.
Qed.

Lemma words_go_word cur x s :
  no_space x ->
  String.words_go (Some cur) (x +:+ String " " s)
  = (String.rev cur +:+ x) :: String.words_go None s.
Proof.
  revert cur. induction x as [|a x IH]; intros cur Hx.
  - by rewrite str_app_nil_l, str_app_nil_r.
  - apply no_space_cons in Hx as [Ha Hx]. rewrite str_app_cons. cbn [String.words_go].
    rewrite Ha. cbn [from_option]. rewrite IH by done.
    by rewrite rev_cons, str_app_assoc, str_app_cons, str_app_nil_l.
Qed.

Lemma words_word x s :
  no_space x -> x <> "" -> split_whitespace (x +:+ String " " s) = x :: split_whitespace s.
Proof.
  intros Hx Hne. destruct x as [|a x]; [done|]. apply no_space_cons in Hx as [Ha Hx].
  unfold split_whitespace, String.words. rewrite str_app_cons. cbn [String.words_go].
  rewrite Ha. cbn [from_option]. by rewrite words_go_word.
Qed.

Lemma words_one x : no_space x -> x <> "" -> split_whitespace x = [x].
Proof.
  intros Hx Hne. pose proof (words_word x "" Hx Hne) as E.
  unfold split_whitespace, String.words in *.
  assert (forall cur y, no_space y ->
            String.words_go cur (y +:+ " ") = String.words_go cur y) as Hend.
  { intros cur y. revert cur. induction y as [|a y IH]; intros cur Hy; [by destruct cur|].
    apply no_space_cons in Hy as [Ha Hy]. rewrite str_app_cons. cbn [String.words_go]. rewrite Ha.
    by apply IH. }
  by rewrite <- Hend.
Qed.

Lemma no_space_mem c x : no_space x -> Ascii.is_space c = true -> str_mem c x = false.
Proof. intros Hx Hc. destruct (str_mem c x) eqn:E; [|done]. apply Hx in E. congruence. Qed.

Lemma starts_with_cons a p b s : starts_with (String a p) (String b s) = bool_decide (a = b) && starts_with p s.
Proof. unfold starts_with. simpl. by destruct (bool_decide (a = b)). Qed.

(** Two names that end at the same sign. *)
Lemma name_starts c p k s :
  str_mem c p = false -> str_mem c k = false ->
  starts_with (p +:+ String c "") ((k +:+ String c "") +:+ s) = bool_decide (p = k).
Proof.
  revert k. induction p as [|a p IH]; intros [|b k] Hp Hk; rewrite ?str_app_nil_l, ?str_app_cons.
  - rewrite starts_with_cons, bool_decide_true by done. unfold starts_with. by rewrite !bool_decide_true.
  - apply orb_false_iff in Hk as [Hb _]. rewrite bool_decide_eq_false in Hb.
    rewrite starts_with_cons, bool_decide_false by congruence. done.
  - apply orb_false_iff in Hp as [Ha _]. rewrite str_app_nil_l, starts_with_cons.
    by rewrite Ha.
  - apply orb_false_iff in Hp as [_ Hp], Hk as [_ Hk]. rewrite starts_with_cons, IH by done.
    rewrite <- bool_decide_and. apply bool_decide_ext. naive_solver.
Qed.

(** Words joined by single spaces. *)
Lemma words_join l :
  Forall (fun w => no_space w /\ w <> "") l -> split_whitespace (join " " l) = l.
Proof.
  intros Hl. induction Hl as [|w l [Hw Hne] Hl IH]; [done|]. destruct l as [|v l].
  - by apply words_one.
  - change (join " " (w :: v :: l)) with (w +:+ String " " (join " " (v :: l))).
    by rewrite words_word, IH.
Qed.

Lemma words_end s c : Ascii.is_space c = true -> split_whitespace (s +:+ String c "") = split_whitespace s.
Proof.
  intros Hc. unfold split_whitespace, String.words. generalize (@None string) as cur.
  induction s as [|a s IH]; intros cur; rewrite ?str_app_nil_l, ?str_app_cons; cbn [String.words_go].
  - rewrite Hc. by rewrite app_nil_r.
  - destruct (Ascii.is_space a); by rewrite IH.
Qed.

Lemma no_space_String c s : Ascii.is_space c = false -> no_space s -> no_space (String c s).
Proof.
  intros Hc Hs a. cbn [str_mem]. intros [E|E]%orb_true_iff; [|by apply Hs].
  by apply bool_decide_eq_true_1 in E as <-.
Qed.

Lemma no_space_nil : no_space "".
Proof. by intros a. Qed.

(** ** Signed numbers *)

Lemma dec_signed_shape n :
  dec_signed n = if n <? 0 then String "-" (dec (- n)) else dec n.
Proof. by destruct n. Qed.

Lemma dec_first n : exists a s, dec n = String a s /\ is_Some (Ascii.is_nat a).
Proof.
  destruct (dec n) as [|a s] eqn:E; [by apply dec_nonempty in E|]. exists a, s. split; [done|].
  destruct (Ascii.is_nat a) as [d|] eqn:Ea; [eauto|]. apply (dec_mem a n) in Ea. rewrite E in Ea.
  simpl in Ea. by rewrite bool_decide_eq_true_2 in Ea.
Qed.

Lemma parse_int_dec w n : - 2 ^ (w - 1) <= n < 2 ^ (w - 1) -> parse_int w (dec_signed n) = Some n.
Proof.
  intros Hn. rewrite dec_signed_shape. unfold parse_int. destruct (Z.ltb_spec n 0) as [Hneg|Hneg].
  - unfold str_is_empty. rewrite bool_decide_false by apply dec_nonempty.
    rewrite digits_val_dec by lia. simpl. rewrite (proj2 (Z.leb_le _ _)), (proj2 (Z.ltb_lt _ _)) by lia.
    simpl. f_equal. lia.
  - assert (match dec n with
            | String "+" s' => (false, s') | String "-" s' => (true, s') | _ => (false, dec n)
            end = (false, dec n)) as ->.
    { destruct (dec_first n) as (a & s & -> & Ha).
      by destruct a as [[] [] [] [] [] [] [] []]; destruct Ha. }
    unfold str_is_empty. rewrite bool_decide_false by apply dec_nonempty.
    rewrite digits_val_dec by lia. simpl. by rewrite (proj2 (Z.leb_le _ _)), (proj2 (Z.ltb_lt _ _)) by lia.
Qed.

Lemma parse_int_range w s n : parse_int w s = Some n -> - 2 ^ (w - 1) <= n < 2 ^ (w - 1).
Proof.
  unfold parse_int. destruct (match s with String "+" _ => _ | _ => _ end) as [neg body].
  destruct (str_is_empty body); [done|]. destruct (digits_val 0 body) as [v|]; [|done].
  cbn [mbind option_bind]. destruct (_ && _) eqn:E; [|done]. intros [= <-]. apply andb_true_iff in E as [E1%Z.leb_le E2%Z.ltb_lt]. done.
Qed.

Lemma dec_signed_mem c n : Ascii.is_nat c = None -> c <> "-"%char -> str_mem c (dec_signed n) = false.
Proof.
  intros Hc Hm. rewrite dec_signed_shape. destruct (n <? 0); [|by apply dec_mem].
  simpl. rewrite bool_decide_false by congruence. by apply dec_mem.
Qed.

Lemma no_space_dec_signed n : no_space (dec_signed n).
Proof.
  intros a Ha. destruct (Ascii.is_space a) eqn:E; [|done].
  rewrite dec_signed_mem in Ha; [done|..]; by destruct a as [[] [] [] [] [] [] [] []].
Qed.

(** A word with a line feed behind it. *)
Lemma trim_line s : no_space s -> trim (s +:+ String line_feed "") = s.
Proof.
  intros Hs. destruct s as [|a s]; [done|]. unfold trim. rewrite str_app_cons. simpl trim_start.
  rewrite (proj1 (no_space_cons a s Hs)). rewrite <- str_app_cons. unfold trim_end. rewrite rev_app.
  change (trim_start (String.rev (String line_feed "") +:+ String.rev (String a s)))
    with (trim_start (String.rev (String a s))).
  rewrite trim_start_id; [apply rev_involutive|]. intros b. rewrite str_mem_rev. apply Hs.
Qed.

(** ** Substrings *)

Lemma strip_prefix_app p s : strip_prefix p (p +:+ s) = Some s.
Proof.
  induction p as [|a p IH]; [by destruct s|]. rewrite str_app_cons. simpl.
  by rewrite bool_decide_true.
Qed.

Lemma strip_prefix_split p q s : strip_prefix (p +:+ q) s = strip_prefix p s ≫= strip_prefix q.
Proof.
  revert s. induction p as [|a p IH]; intros s; [by destruct s|]. rewrite str_app_cons.
  destruct s as [|b s]; [done|]. simpl. case_bool_decide; [apply IH|done].
Qed.

Lemma contains_behind p q s r : strip_prefix p s = Some r -> contains q r = true -> contains q s = true.
Proof.
  revert s. induction p as [|a p IH]; intros s; [by destruct s; intros [= <-]|].
  destruct s as [|b s]; [done|]. simpl. case_bool_decide; [|done]. intros E Hq.
  apply orb_true_iff. right. by eapply IH.
Qed.

Lemma contains_start q s : starts_with q s = true -> contains q s = true.
Proof. intros E. destruct s; simpl; by rewrite E. Qed.

(** What contains a text contains its end. *)
Lemma contains_tail p q s : contains (p +:+ q) s = true -> contains q s = true.
Proof.
  assert (forall s, starts_with (p +:+ q) s = true -> contains q s = true) as Hs.
  { intros s' H. apply bool_decide_eq_true in H as [r H]. rewrite strip_prefix_split in H.
    apply bind_Some in H as (r' & H1 & H2). eapply contains_behind; [exact H1|]. apply contains_start.
    apply bool_decide_eq_true. eauto. }
  induction s as [|a s IH]; simpl contains at 1; intros H; apply orb_true_iff in H as [H|H]; try done;
    try (by apply Hs). simpl. apply orb_true_iff. right. by apply IH.
Qed.
