(* ===== verification/Bytes.v ===== *)
(** * Byte buffers

    Kernel messages and shared-memory records are byte buffers: a byte is a
    [Z] in [0, 256), a buffer a [list Z].  The file has Rust's slice indexing
    (which panics out of range), the fixed-width little, big and native-endian
    codecs of [std], and the properties of a compilation target they depend
    on. *)

From S2P Require Import Prelude RustStr.
From Stdlib Require Import Ascii.

(** What of the compilation target the code observes.  The packages that
    [build.sh] assembles are all 64-bit little-endian; [.cargo/config.toml]
    also configures 32-bit and big-endian targets. *)
Record target := Target { big_endian : bool; usize_bits : Z }.

Definition le64 : target := Target false 64.
Definition le32 : target := Target false 32.

Definition blen {A} (l : list A) : Z := Z.of_nat (length l).

Definition bytes_ok (l : list Z) : Prop := Forall (is_uint 8) l.

(** [&l[a..b]]. *)
Definition slice {A} (a b : Z) (l : list A) : outcome (list A) :=
  if (0 <=? a) && (a <=? b) && (b <=? blen l)
  then Done (take (Z.to_nat (b - a)) (drop (Z.to_nat a) l)) else Panic.

(** [&l[a..]]. *)
Definition slice_from {A} (a : Z) (l : list A) : outcome (list A) := slice a (blen l) l.

Fixpoint from_le_bytes (bs : list Z) : Z :=
  match bs with
  | [] => 0
  | b :: bs => b + 256 * from_le_bytes bs
  end.

Fixpoint to_le_bytes (n : nat) (z : Z) : list Z :=
  match n with
  | O => []
  | S n => z mod 256 :: to_le_bytes n (z / 256)
  end.

Definition from_ne_bytes (t : target) (bs : list Z) : Z :=
  if big_endian t then from_le_bytes (rev bs) else from_le_bytes bs.
Definition to_ne_bytes (t : target) (n : nat) (z : Z) : list Z :=
  if big_endian t then rev (to_le_bytes n z) else to_le_bytes n z.

(** [std::str::from_utf8]: the well-formed UTF-8 byte sequences. *)
Definition utf8_cont (b : Z) : bool := (128 <=? b) && (b <? 192).
Definition utf8_lead3 (b c : Z) : bool :=
  (224 <=? b) && (b <? 240) && utf8_cont c
  && (if b =? 224 then 160 <=? c else true) && (if b =? 237 then c <? 160 else true).
Definition utf8_lead4 (b c : Z) : bool :=
  (240 <=? b) && (b <? 245) && utf8_cont c
  && (if b =? 240 then 144 <=? c else true) && (if b =? 244 then c <? 144 else true).
Fixpoint utf8_valid (l : list Z) : bool :=
  match l with
  | [] => true
  | b :: l =>
    if b <? 128 then utf8_valid l
    else match l with
         | [] => false
         | c :: l =>
           if (194 <=? b) && (b <? 224) then utf8_cont c && utf8_valid l
           else match l with
                | [] => false
                | d :: l =>
                  if b <? 240 then utf8_lead3 b c && utf8_cont d && utf8_valid l
                  else match l with
                       | [] => false
                       | e :: l => utf8_lead4 b c && utf8_cont d && utf8_cont e && utf8_valid l
                       end
                end
         end
  end.

(** The string with the given bytes. *)
Definition string_of_bytes (l : list Z) : string :=
  foldr (fun b s => String (Ascii.ascii_of_N (Z.to_N b)) s) "" l.
Definition from_utf8 (l : list Z) : option string :=
  if utf8_valid l then Some (string_of_bytes l) else None.

(** [String::from_utf8_lossy]: every maximal ill-formed prefix becomes U+FFFD. *)
Definition replacement : list Z := [239; 191; 189].
Fixpoint utf8_lossy (l : list Z) : list Z :=
  match l with
  | [] => []
  | b :: l =>
    if b <? 128 then b :: utf8_lossy l
    else if (194 <=? b) && (b <? 224) then
      match l with
      | [] => replacement
      | c :: l' => if utf8_cont c then b :: c :: utf8_lossy l' else replacement ++ utf8_lossy l
      end
    else if (224 <=? b) && (b <? 240) then
      match l with
      | [] => replacement
      | c :: l1 =>
        if utf8_lead3 b c then
          match l1 with
          | [] => replacement
          | d :: l2 => if utf8_cont d then b :: c :: d :: utf8_lossy l2
                       else replacement ++ utf8_lossy l1
          end
        else replacement ++ utf8_lossy l
      end
    else if (240 <=? b) && (b <? 245) then
      match l with
      | [] => replacement
      | c :: l1 =>
        if utf8_lead4 b c then
          match l1 with
          | [] => replacement
          | d :: l2 =>
            if utf8_cont d then
              match l2 with
              | [] => replacement
              | e :: l3 => if utf8_cont e then b :: c :: d :: e :: utf8_lossy l3
                           else replacement ++ utf8_lossy l2
              end
            else replacement ++ utf8_lossy l1
          end
        else replacement ++ utf8_lossy l
      end
    else replacement ++ utf8_lossy l
  end.
Definition from_utf8_lossy (l : list Z) : string := string_of_bytes (utf8_lossy l).

(** A C string: the bytes up to the first NUL, [None] when the buffer has none
    and the reader runs past it. *)
Fixpoint until_nul (l : list Z) : option (list Z) :=
  match l with
  | [] => None
  | b :: l => if b =? 0 then Some [] else cons b <$> until_nul l
  end.

(** ** Slices *)

Lemma blen_nonneg {A} (l : list A) : 0 <= blen l.
Proof. unfold blen. lia. Qed.

Lemma blen_app {A} (l1 l2 : list A) : blen (l1 ++ l2) = blen l1 + blen l2.
Proof. unfold blen. rewrite length_app. lia. Qed.

Lemma blen_drop {A} (l : list A) (n : nat) : blen (drop n l) = Z.max 0 (blen l - Z.of_nat n).
Proof. unfold blen. rewrite length_drop. lia. Qed.

Lemma slice_Done {A} a b (l : list A) :
  0 <= a -> a <= b -> b <= blen l ->
  slice a b l = Done (take (Z.to_nat (b - a)) (drop (Z.to_nat a) l)).
Proof.
  intros. unfold slice. rewrite !(proj2 (Z.leb_le _ _)) by done. done.
Qed.

Lemma slice_Panic {A} a b (l : list A) :
  slice a b l = Panic <-> ~ (0 <= a <= b /\ b <= blen l).
Proof.
  unfold slice. destruct ((0 <=? a) && (a <=? b) && (b <=? blen l)) eqn:E.
  - bool_to_prop. split; [done|]. lia.
  - split; [|done]. intros _ (H1 & H2).
    rewrite !(proj2 (Z.leb_le _ _)) in E by lia. done.
Qed.

Lemma slice_length {A} a b (l r : list A) : slice a b l = Done r -> blen r = b - a.
Proof.
  unfold slice, blen. case_match eqn:E; [|done]. intros [= <-]. bool_to_prop.
  rewrite length_take, length_drop. lia.
Qed.

Lemma slice_drop {A} a b (l : list A) (k : nat) :
  0 <= a -> Z.of_nat k <= blen l ->
  slice a b (drop k l) = slice (a + Z.of_nat k) (b + Z.of_nat k) l.
Proof.
  intros Ha Hk. unfold slice. rewrite blen_drop.
  replace (b + Z.of_nat k - (a + Z.of_nat k)) with (b - a) by lia.
  rewrite drop_drop.
  replace (Z.to_nat (a + Z.of_nat k)) with (k + Z.to_nat a)%nat by lia.
  replace (0 <=? a + Z.of_nat k) with (0 <=? a)
    by (rewrite !(proj2 (Z.leb_le _ _)) by lia; done).
  replace (a + Z.of_nat k <=? b + Z.of_nat k) with (a <=? b)
    by (destruct (Z.leb_spec a b), (Z.leb_spec (a + Z.of_nat k) (b + Z.of_nat k)); lia || done).
  replace (b <=? Z.max 0 (blen l - Z.of_nat k)) with (b + Z.of_nat k <=? blen l)
    by (destruct (Z.leb_spec (b + Z.of_nat k) (blen l)),
         (Z.leb_spec b (Z.max 0 (blen l - Z.of_nat k))); lia || done).
  done.
Qed.

Lemma slice_app {A} (l1 l2 l3 : list A) :
  slice (blen l1) (blen l1 + blen l2) (l1 ++ l2 ++ l3) = Done l2.
Proof.
  pose proof (blen_nonneg l1). pose proof (blen_nonneg l2). pose proof (blen_nonneg l3).
  rewrite slice_Done by (rewrite ?blen_app; lia). f_equal. unfold blen.
  rewrite Nat2Z.id, drop_app_length.
  replace (Z.to_nat (Z.of_nat (length l1) + Z.of_nat (length l2) - Z.of_nat (length l1)))
    with (length l2) by lia.
  by rewrite take_app_length.
Qed.

(** A slice at explicit offsets of a buffer given by its parts. *)
Lemma slice_parts {A} a b (l l1 l2 l3 : list A) :
  l = l1 ++ l2 ++ l3 -> a = blen l1 -> b = blen l1 + blen l2 -> slice a b l = Done l2.
Proof. intros -> -> ->. apply slice_app. Qed.

(** ** Codecs *)

Lemma length_to_le_bytes n z : length (to_le_bytes n z) = n.
Proof. revert z. induction n as [|n IH]; intros z; [done|]. simpl. by rewrite IH. Qed.

Lemma length_to_ne_bytes t n z : length (to_ne_bytes t n z) = n.
Proof.
  unfold to_ne_bytes. case_match; rewrite ?length_rev; apply length_to_le_bytes.
Qed.

Lemma blen_to_ne_bytes t n z : blen (to_ne_bytes t n z) = Z.of_nat n.
Proof. unfold blen. by rewrite length_to_ne_bytes. Qed.

Lemma to_le_bytes_ok n z : bytes_ok (to_le_bytes n z).
Proof.
  revert z. induction n as [|n IH]; intros z; simpl; [constructor|].
  constructor; [|apply IH].
  unfold is_uint. change (2 ^ 8) with 256. apply Z.mod_pos_bound. lia.
Qed.

Lemma bytes_ok_rev l : bytes_ok l -> bytes_ok (rev l).
Proof. apply List.Forall_rev. Qed.

Lemma to_ne_bytes_ok t n z : bytes_ok (to_ne_bytes t n z).
Proof.
  unfold to_ne_bytes. case_match; [apply bytes_ok_rev|]; apply to_le_bytes_ok.
Qed.

Lemma from_to_le_bytes n z : from_le_bytes (to_le_bytes n z) = wrap (8 * Z.of_nat n) z.
Proof.
  unfold wrap. revert z. induction n as [|n IH]; intros z; cbn [to_le_bytes from_le_bytes].
  { change (8 * Z.of_nat 0) with 0. by rewrite Z.mod_1_r. }
  rewrite IH. rewrite Nat2Z.inj_succ, Z.mul_succ_r.
  rewrite Z.pow_add_r by lia. change (2 ^ 8) with 256.
  rewrite (Z.mul_comm (2 ^ (8 * Z.of_nat n))).
  rewrite Z.rem_mul_r by (try apply Z.pow_nonzero; lia). done.
Qed.

Lemma from_to_ne_bytes t n z : from_ne_bytes t (to_ne_bytes t n z) = wrap (8 * Z.of_nat n) z.
Proof.
  unfold from_ne_bytes, to_ne_bytes. destruct (big_endian t); rewrite ?List.rev_involutive;
    apply from_to_le_bytes.
Qed.

Lemma from_le_bytes_uint l : bytes_ok l -> is_uint (8 * blen l) (from_le_bytes l).
Proof.
  unfold is_uint, blen. induction 1 as [|b l Hb Hl IH]; simpl; [done|].
  unfold is_uint in Hb. change (2 ^ 8) with 256 in Hb.
  rewrite Nat2Z.inj_succ, Z.mul_succ_r, Z.pow_add_r by lia. change (2 ^ 8) with 256. lia.
Qed.

Lemma from_ne_bytes_uint t l : bytes_ok l -> is_uint (8 * blen l) (from_ne_bytes t l).
Proof.
  intros H. unfold from_ne_bytes. case_match; [|by apply from_le_bytes_uint].
  replace (blen l) with (blen (rev l)) by (unfold blen; by rewrite length_rev).
  by apply from_le_bytes_uint, bytes_ok_rev.
Qed.

Lemma to_from_le_bytes l : bytes_ok l -> to_le_bytes (length l) (from_le_bytes l) = l.
Proof.
  induction 1 as [|b l Hb Hl IH]; [done|]. cbn [length to_le_bytes from_le_bytes].
  unfold is_uint in Hb. change (2 ^ 8) with 256 in Hb.
  rewrite (Z.mul_comm 256), Z.mod_add, Z.mod_small by lia.
  rewrite Z.div_add, Z.div_small, Z.add_0_l by lia. by rewrite IH.
Qed.

Lemma bytes_ok_slice a b l r : bytes_ok l -> slice a b l = Done r -> bytes_ok r.
Proof.
  unfold slice. intros Hl. case_match; [|done]. intros [= <-]. by apply Forall_take, Forall_drop.
Qed.

(** The [n] bytes at [o] of a buffer that has them. *)
Definition sub (o n : nat) (data : list Z) : list Z := take n (drop o data).

Lemma sub_parts (a b c : list Z) o n :
  length a = o -> length b = n -> sub o n (a ++ b ++ c) = b.
Proof. intros <- <-. unfold sub. by rewrite drop_app_length, take_app_length. Qed.

Lemma sub_front (b c : list Z) n : length b = n -> sub 0 n (b ++ c) = b.
Proof. by apply (sub_parts []). Qed.

(** ** Text as bytes *)

(** [str::as_bytes]. *)
Fixpoint as_bytes (s : string) : list Z :=
  match s with EmptyString => [] | String a s => ascii_code a :: as_bytes s end.

Lemma as_bytes_app s t : as_bytes (s +:+ t) = as_bytes s ++ as_bytes t.
Proof. induction s as [|a s IH]; [done|]. rewrite str_app_cons. simpl. by rewrite IH. Qed.

Lemma length_as_bytes s : length (as_bytes s) = String.length s.
Proof. induction s as [|a s IH]; simpl; [done|]. by rewrite IH. Qed.

Lemma string_of_as_bytes s : string_of_bytes (as_bytes s) = s.
Proof.
  induction s as [|a s IH]; [done|]. simpl. f_equal; [|exact IH].
  unfold ascii_code. by rewrite N2Z.id, ascii_N_embedding.
Qed.

Lemma as_bytes_mem c s : str_mem c s = false -> ascii_code c ∉ as_bytes s.
Proof.
  induction s as [|a s IH]; simpl; intros Hs; [set_solver|].
  apply orb_false_iff in Hs as [Ha Hs]. rewrite not_elem_of_cons. split; [|by apply IH].
  unfold ascii_code. intros E%N2Z.inj. apply (f_equal ascii_of_N) in E.
  rewrite !ascii_N_embedding in E. subst a. by rewrite bool_decide_true in Ha.
Qed.

Lemma utf8_lossy_valid l : utf8_valid l = true -> utf8_lossy l = l.
Proof.
  remember (length l) as n eqn:Hn. assert (length l <= n)%nat as Hle by lia. clear Hn.
  revert l Hle. induction n as [|n IH]; intros l Hle.
  { by destruct l; [|simpl in Hle; lia]. }
  destruct l as [|b l]; [done|]. simpl in Hle |- *. destruct (b <? 128) eqn:E1.
  { intros Hv. f_equal. apply IH; [lia|done]. }
  destruct l as [|c l]; [done|]. destruct ((194 <=? b) && (b <? 224)) eqn:E2.
  { intros [Hc Hv]%andb_true_iff. rewrite Hc. do 2 f_equal. apply IH; [simpl in Hle; lia|done]. }
  destruct l as [|d l]; [done|]. destruct (b <? 240) eqn:E3.
  - intros [[Hc Hd]%andb_true_iff Hv]%andb_true_iff.
    rewrite Hc, Hd. unfold utf8_lead3 in Hc. rewrite !andb_true_iff in Hc.
    destruct Hc as [[[[-> _] _] _] _]. cbn [andb]. do 3 f_equal. apply IH; [simpl in Hle; lia|done].
  - destruct l as [|e l]; [done|]. intros [[[Hc Hd]%andb_true_iff He]%andb_true_iff Hv]%andb_true_iff.
    rewrite Hc, Hd, He. unfold utf8_lead4 in Hc. rewrite !andb_true_iff in Hc.
    destruct Hc as [[[[-> ->] _] _] _]. rewrite andb_false_r. cbn [andb].
    do 4 f_equal. apply IH; [simpl in Hle; lia|done].
Qed.

Lemma from_utf8_as_bytes s : utf8_valid (as_bytes s) = true -> from_utf8_lossy (as_bytes s) = s.
Proof.
  intros Hs. unfold from_utf8_lossy. by rewrite utf8_lossy_valid, string_of_as_bytes.
Qed.

#[export] Hint Resolve blen_nonneg to_le_bytes_ok to_ne_bytes_ok bytes_ok_slice : agent.
