(* ===== verification/Float.v ===== *)
(** * Floating point

    The parts of [f64] and [f32] the agent uses, on the standard's specification
    of binary64 and binary32 arithmetic: reading a decimal, converting and
    scaling integers, rounding to an integer, comparing. *)

From Stdlib Require Import SpecFloat Ascii.
From S2P Require Import Prelude RustStr.

Definition f64 : Type := spec_float.

(** [n as f64]. *)
Definition f64_of_Z (n : Z) : f64 := binary_normalize 53 1024 n 0 false.
Definition f64_mul : f64 -> f64 -> f64 := SFmul 53 1024.
Definition f64_div : f64 -> f64 -> f64 := SFdiv 53 1024.
Definition f64_sub : f64 -> f64 -> f64 := SFsub 53 1024.

Definition f32 : Type := spec_float.

(** [n as f32]. *)
Definition f32_of_Z (n : Z) : f32 := binary_normalize 24 128 n 0 false.
Definition f32_mul : f32 -> f32 -> f32 := SFmul 24 128.
Definition f32_div : f32 -> f32 -> f32 := SFdiv 24 128.

(** [a.partial_cmp(&b).unwrap_or(Ordering::Equal)]. *)
Definition f32_cmp (a b : f32) : comparison := default Eq (SFcompare a b).

(** The quotient of two natural numbers, rounded once. *)
Definition f64_ratio (n d : Z) : f64 :=
  match n, d with
  | Zpos n, Zpos d =>
    let '(q, e, l) := SFdiv_core_binary 53 1024 (Zpos n) 0 (Zpos d) 0 in binary_round_aux 53 1024 false q e l
  | _, _ => S754_zero false
  end.

(** [m * 10^k], rounded once. *)
Definition f64_decimal (m k : Z) : f64 :=
  if 0 <=? k then f64_of_Z (m * 10 ^ k) else f64_ratio m (10 ^ (- k)).

(** ** Reading *)

(** The leading digits: their value appended to [acc], their number, the rest. *)
Fixpoint digits_span (acc : Z) (n : nat) (s : string) : Z * nat * string :=
  match s with
  | String a s' => match Ascii.is_nat a with
                   | Some d => digits_span (acc * 10 + Z.of_nat d) (S n) s'
                   | None => (acc, n, s)
                   end
  | EmptyString => (acc, n, s)
  end.

Definition read_sign (s : string) : bool * string :=
  match s with
  | String "-" s' => (true, s')
  | String "+" s' => (false, s')
  | _ => (false, s)
  end.

Definition read_exponent (s : string) : option Z :=
  match s with
  | EmptyString => Some 0
  | String a s' =>
    if bool_decide (ascii_lower a = "e"%char) then
      let '(neg, s') := read_sign s' in
      let '(e, n, rest) := digits_span 0 0 s' in
      if (0 <? n)%nat && str_is_empty rest then Some (if (neg : bool) then - e else e) else None
    else None
  end.

(** [str::parse::<f64>]. *)
Definition parse_f64 (s : string) : option f64 :=
  let '(neg, s) := read_sign s in
  let signed x := if (neg : bool) then SFopp x else x in
  let low := to_lowercase s in
  if bool_decide (low = "inf") || bool_decide (low = "infinity") then Some (S754_infinity neg)
  else if bool_decide (low = "nan") then Some S754_nan
  else
    let '(ip, ni, rest) := digits_span 0 0 s in
    let '(m, nf, rest) := match rest with
                          | String "." r => digits_span ip 0 r
                          | _ => (ip, O, rest)
                          end in
    if (ni + nf =? 0)%nat then None
    else e ← read_exponent rest; Some (signed (f64_decimal m (e - Z.of_nat nf))).

(** [x.ceil() as u64], which saturates. *)
Definition ceil_u64 (x : f64) : Z :=
  match x with
  | S754_zero _ | S754_nan => 0
  | S754_infinity s => if s then 0 else 2 ^ 64 - 1
  | S754_finite s m e =>
    if s then 0
    else Z.min (2 ^ 64 - 1) (if 0 <=? e then Zpos m * 2 ^ e else - ((- Zpos m) / 2 ^ (- e)))
  end.

(** [x.round() as i64]: halves away from zero, saturating. *)
Definition round_i64 (x : f64) : Z :=
  match x with
  | S754_zero _ | S754_nan => 0
  | S754_infinity s => if s then - 2 ^ 63 else 2 ^ 63 - 1
  | S754_finite s m e =>
    let v := if 0 <=? e then Zpos m * 2 ^ e else (2 * Zpos m + 2 ^ (- e)) / 2 ^ (1 - e) in
    if s then Z.max (- 2 ^ 63) (- v) else Z.min (2 ^ 63 - 1) v
  end.

Example f64_samples :
  (ceil_u64 <$> parse_f64 "36.12", ceil_u64 <$> parse_f64 "1e3", ceil_u64 <$> parse_f64 ".5",
   ceil_u64 <$> parse_f64 "1.0000000000000000001", parse_f64 "1.2.3", parse_f64 ".", parse_f64 "")
  = (Some 37, Some 1000, Some 1, Some 1, None, None, None).
Proof. vm_compute. reflexivity. Qed.

(** ** Integers are exact *)

Lemma iter_pos_nat {A} (f : A -> A) p x : SpecFloat.iter_pos f p x = Nat.iter (Pos.to_nat p) f x.
Proof.
  revert x. induction p as [p IH|p IH|]; intros x; cbn [SpecFloat.iter_pos]; [..|done].
  - rewrite !IH, Pos2Nat.inj_xI, <- Nat.iter_add. rewrite <- Nat.iter_succ_r. f_equal. lia.
  - rewrite !IH, Pos2Nat.inj_xO, <- Nat.iter_add. f_equal. lia.
Qed.

Lemma digits_bound p : 2 ^ (Zpos (digits2_pos p) - 1) <= Zpos p < 2 ^ Zpos (digits2_pos p).
Proof.
  induction p as [p IH|p IH|]; cbn [digits2_pos]; [| |done].
  all: rewrite Pos2Z.inj_succ; unfold Z.succ;
    replace (Zpos (digits2_pos p) + 1 - 1) with (Zpos (digits2_pos p) - 1 + 1) by lia;
    rewrite !Z.pow_add_r, !Z.pow_1_r by lia; lia.
Qed.

Lemma digits_shift p k : digits2_pos (Pos.iter xO p k) = (digits2_pos p + k)%positive.
Proof.
  induction k as [|k IH] using Pos.peano_ind; [simpl; lia|]. rewrite Pos.iter_succ. cbn [digits2_pos]. rewrite IH. lia.
Qed.

Lemma shift_value p k : Zpos (Pos.iter xO p k) = Zpos p * 2 ^ Zpos k.
Proof.
  induction k as [|k IH] using Pos.peano_ind; [simpl; lia|]. rewrite Pos.iter_succ, Pos2Z.inj_xO, IH, Pos2Z.inj_succ.
  rewrite Z.pow_succ_r by lia. lia.
Qed.

(** Shifting out zeros loses nothing. *)
Lemma shr_zeros p k :
  SpecFloat.iter_pos shr_1 k (Build_shr_record (Zpos (Pos.iter xO p k)) false false) = Build_shr_record (Zpos p) false false.
Proof.
  rewrite iter_pos_nat. induction k as [|k IH] using Pos.peano_ind; [done|].
  rewrite Pos.iter_succ, Pos2Nat.inj_succ, Nat.iter_succ_r. exact IH.
Qed.

Lemma fexp_normal d e : -1074 <= e -> d = 53 -> fexp 53 1024 (d + e) = e.
Proof. intros He ->. unfold fexp, emin. lia. Qed.

Lemma round_keeps s p e :
  Zpos (digits2_pos p) = 53 -> -1074 <= e <= 971 -> binary_round_aux 53 1024 s (Zpos p) e loc_Exact = S754_finite s p e.
Proof.
  intros Hd He. unfold binary_round_aux, shr_fexp. cbn [Zdigits2 shr_record_of_loc].
  rewrite fexp_normal, Z.sub_diag by (done || lia). cbn [shr shr_m loc_of_shr_record round_nearest_even Zdigits2].
  rewrite fexp_normal, Z.sub_diag by (done || lia). cbn [shr shr_record_of_loc shr_m].
  by rewrite (proj2 (Z.leb_le _ _)) by lia.
Qed.

Lemma round_zeros s p k e :
  Zpos (digits2_pos p) = 53 -> -1074 <= e + Zpos k <= 971 ->
  binary_round_aux 53 1024 s (Zpos (Pos.iter xO p k)) e loc_Exact = S754_finite s p (e + Zpos k).
Proof.
  intros Hd He. pose proof (round_keeps s p (e + Zpos k) Hd He) as Hr. revert Hr.
  unfold binary_round_aux, shr_fexp at 1 3. cbn [Zdigits2 shr_record_of_loc]. rewrite digits_shift, Pos2Z.inj_add, Hd.
  replace (53 + Zpos k + e) with (53 + (e + Zpos k)) by lia. rewrite !fexp_normal by (done || lia).
  rewrite Z.sub_diag. replace (e + Zpos k - e) with (Zpos k) by lia. cbn [shr]. by rewrite shr_zeros.
Qed.

(** An integer below 2^53 as a mantissa of 53 bits. *)
Lemma f64_of_pos p :
  Zpos p < 2 ^ 53 ->
  exists m e, f64_of_Z (Zpos p) = S754_finite false m e /\ Zpos (digits2_pos m) = 53 /\ -52 <= e <= 0
    /\ Zpos m = Zpos p * 2 ^ (- e).
Proof.
  intros Hp. pose proof (digits_bound p) as Hb. assert (Zpos (digits2_pos p) <= 53) as Hd.
  { destruct (Z.le_gt_cases (Zpos (digits2_pos p)) 53) as [|Hgt]; [done|].
    assert (2 ^ 53 <= 2 ^ (Zpos (digits2_pos p) - 1)) by (apply Z.pow_le_mono_r; lia). lia. }
  unfold f64_of_Z, binary_normalize, binary_round. rewrite Z.add_0_r.
  assert (fexp 53 1024 (Zpos (digits2_pos p)) = Zpos (digits2_pos p) - 53) as -> by (unfold fexp, emin; lia).
  unfold shl_align. destruct (Z.eq_dec (Zpos (digits2_pos p)) 53) as [E|E].
  - rewrite E. change (53 - 53 - 0) with 0. cbv beta iota. exists p, 0. rewrite round_keeps by (done || lia). split_and!; [done..|]. lia.
  - destruct (Zpos (digits2_pos p) - 53 - 0) as [|k|k] eqn:Ek; [lia|lia|].
    exists (Pos.iter xO p k), (Zneg k). rewrite round_keeps.
    + split_and!; try lia; [by replace (Zpos (digits2_pos p) - 53) with (Zneg k) by lia|rewrite digits_shift, Pos2Z.inj_add; lia|].
      apply shift_value.
    + rewrite digits_shift, Pos2Z.inj_add. lia.
    + lia.
Qed.

Lemma ceil_of_Z n : 0 <= n < 2 ^ 53 -> ceil_u64 (f64_of_Z n) = n.
Proof.
  intros [H0 Hn]. destruct n as [|p|p]; [done| |lia].
  destruct (f64_of_pos p Hn) as (m & e & -> & _ & He & Hm). cbn [ceil_u64].
  destruct (Z.leb_spec 0 e) as [He0|He0].
  - assert (e = 0) as -> by lia. rewrite Z.pow_0_r, Z.mul_1_r in *. change (2 ^ 53) with 9007199254740992 in Hn. lia.
  - rewrite Hm, <- Z.mul_opp_l, Z.div_mul by (apply Z.pow_nonzero; lia). rewrite Z.opp_involutive.
    change (2 ^ 53) with 9007199254740992 in Hn. lia.
Qed.

(** Scaling by 1024 moves the exponent. *)
Lemma ceil_times_1024 n : 0 <= n < 2 ^ 53 -> ceil_u64 (f64_mul (f64_of_Z n) (f64_of_Z 1024)) = n * 1024.
Proof.
  intros [H0 Hn]. destruct n as [|p|p]; [done| |lia].
  destruct (f64_of_pos p Hn) as (m & e & -> & Hd & He & Hm).
  change (f64_of_Z 1024) with (S754_finite false (Pos.iter xO xH 52%positive) (-42)). unfold f64_mul, SFmul.
  replace (m * Pos.iter xO xH 52)%positive with (Pos.iter xO m 52%positive).
  2:{ apply Pos2Z.inj. rewrite Pos2Z.inj_mul, !shift_value. lia. }
  cbn [xorb]. rewrite round_zeros by (done || lia). cbn [ceil_u64]. change (2 ^ 53) with 9007199254740992 in Hn.
  destruct (Z.leb_spec 0 (e + -42 + 52)) as [He0|He0].
  - assert (Zpos m * 2 ^ (e + -42 + 52) = Zpos p * 1024) as ->; [|lia].
    rewrite Hm, <- Z.mul_assoc, <- Z.pow_add_r by lia. replace (- e + (e + -42 + 52)) with 10 by lia. done.
  - replace (Zpos m) with (Zpos p * 1024 * 2 ^ (- (e + -42 + 52))).
    2:{ rewrite Hm. change 1024 with (2 ^ 10). rewrite <- Z.mul_assoc, <- Z.pow_add_r by lia. f_equal. f_equal. lia. }
    rewrite <- Z.mul_opp_l, Z.div_mul by (apply Z.pow_nonzero; lia). rewrite Z.opp_involutive. lia.
Qed.

(** ** Decimals of integers *)

Lemma digits_span_dec acc k x s :
  (exists a r, s = String a r /\ Ascii.is_nat a = None) \/ s = "" ->
  exists n, digits_span acc k (dec x +:+ s) = (n, (k + String.length (dec x))%nat, s)
    /\ digits_val acc (dec x) = Some n.
Proof.
  intros Hs. assert (forall d, (forall a, str_mem a d = true -> is_Some (Ascii.is_nat a)) -> forall acc k,
    exists n, digits_span acc k (d +:+ s) = (n, (k + String.length d)%nat, s) /\ digits_val acc d = Some n) as Hd.
  { induction d as [|a d IH]; intros Hmem acc' k'.
    - rewrite str_app_nil_l, Nat.add_0_r. exists acc'. split; [|done].
      destruct Hs as [(a & r & -> & Ha)| ->]; [|done]. cbn [digits_span]. by rewrite Ha.
    - destruct (Hmem a) as [v Hv]; [simpl; by rewrite bool_decide_eq_true_2|].
      rewrite str_app_cons. cbn [digits_span digits_val]. rewrite Hv. cbn [mbind option_bind].
      destruct (IH) with (acc := acc' * 10 + Z.of_nat v) (k := S k') as (n & E & Ev).
      { intros b Hb. apply Hmem. simpl. by rewrite Hb, orb_true_r. }
      exists n. rewrite E. split; [f_equal; f_equal; simpl; lia|done]. }
  apply Hd. intros a Ha. destruct (Ascii.is_nat a) eqn:E; [eauto|]. by rewrite dec_mem in Ha.
Qed.

Lemma parse_f64_dec n : 0 <= n -> parse_f64 (dec n) = Some (f64_of_Z n).
Proof.
  intros Hn. unfold parse_f64. destruct (dec_first n) as (a & r & E & [d Ha]).
  assert (read_sign (dec n) = (false, dec n)) as ->.
  { rewrite E. by destruct a as [[] [] [] [] [] [] [] []]. }
  assert (forall w b t, w = String b t -> Ascii.is_nat b = None -> bool_decide (to_lowercase (dec n) = w) = false) as Hw.
  { intros w b t -> Hb. apply bool_decide_eq_false. rewrite E. cbn [to_lowercase]. intros [= Hl _].
    by destruct a as [[] [] [] [] [] [] [] []]; simpl in Ha; try done; subst b. }
  rewrite (Hw "inf" "i"%char "nf"), (Hw "infinity" "i"%char "nfinity"), (Hw "nan" "n"%char "an") by done. cbn [orb].
  destruct (digits_span_dec 0 0 n "") as (v & Ev & Ed); [by right|]. rewrite str_app_nil_r in Ev. rewrite Ev.
  rewrite digits_val_dec in Ed by done. injection Ed as <-.
  rewrite Nat.add_0_r, (proj2 (Nat.eqb_neq _ _)) by (rewrite E; simpl; lia).
  cbn [read_exponent mbind option_bind]. unfold f64_decimal. cbn [Z.of_nat Z.sub Z.add Z.leb Z.compare Z.opp].
  by rewrite Z.pow_0_r, Z.mul_1_r.
Qed.

(** ** Comparison

    Numbers are compared as triples of a class, an exponent and a mantissa, the
    latter two negated below zero; only NaN is not. *)

Definition not_nan (x : f32) : Prop := x <> S754_nan.

Definition sort_key (x : f32) : Z * Z * Z :=
  match x with
  | S754_infinity s => (if s then -2 else 2, 0, 0)
  | S754_zero _ | S754_nan => (0, 0, 0)
  | S754_finite s m e => if s then (-1, - e, Zneg m) else (1, e, Zpos m)
  end.

Definition key_cmp (a b : Z * Z * Z) : comparison :=
  match a.1.1 ?= b.1.1 with
  | Eq => match a.1.2 ?= b.1.2 with Eq => a.2 ?= b.2 | c => c end
  | c => c
  end.

Lemma f32_cmp_key a b : not_nan a -> not_nan b -> f32_cmp a b = key_cmp (sort_key a) (sort_key b).
Proof.
  intros Ha Hb. unfold f32_cmp, key_cmp.
  destruct a as [?|[]| |[] m e], b as [?|[]| |[] m' e']; try done.
  cbn [SFcompare sort_key default fst snd Z.compare].
  rewrite Z.compare_opp. rewrite (Z.compare_antisym e e').
  destruct (e ?= e'); simpl; done.
Qed.

Lemma key_cmp_flip a b : key_cmp a b = CompOpp (key_cmp b a).
Proof.
  unfold key_cmp. rewrite (Z.compare_antisym b.1.1), (Z.compare_antisym b.1.2), (Z.compare_antisym b.2).
  by destruct (b.1.1 ?= a.1.1), (b.1.2 ?= a.1.2).
Qed.

Lemma key_cmp_trans a b c : key_cmp a b <> Gt -> key_cmp b c <> Gt -> key_cmp a c <> Gt.
Proof.
  unfold key_cmp.
  destruct (Z.compare_spec a.1.1 b.1.1), (Z.compare_spec b.1.1 c.1.1), (Z.compare_spec a.1.1 c.1.1); try (done || lia);
    destruct (Z.compare_spec a.1.2 b.1.2), (Z.compare_spec b.1.2 c.1.2), (Z.compare_spec a.1.2 c.1.2); try (done || lia);
    destruct (Z.compare_spec a.2 b.2), (Z.compare_spec b.2 c.2), (Z.compare_spec a.2 c.2); done || lia.
Qed.
