(* ===== verification/Netlink.v ===== *)
(** * The netlink channel to the kernel module

    [crates/netlink/src/netlink.rs] and
    [crates/kernel_event/src/msg_handler/mod.rs]: how the agent frames the
    messages it sends, how it decodes the ones it receives, the receive loop
    and the discovery of the protocol number.  The system calls are the
    parameters of [Section Socket]. *)

From S2P Require Import Prelude RustStr Bytes.

(** ** Message framing *)

(** [libc::nlmsghdr], 16 bytes, laid out in the order of its fields. *)
Record nlmsghdr := {
  nlmsg_len : Z;
  nlmsg_type : Z;
  nlmsg_flags : Z;
  nlmsg_seq : Z;
  nlmsg_pid : Z
}.

Definition NLM_F_REQUEST : Z := 1.
Definition NLMSG_HDRLEN : Z := 16.

Definition nlmsghdr_bytes (t : target) (h : nlmsghdr) : list Z :=
  to_ne_bytes t 4 (nlmsg_len h) ++ to_ne_bytes t 2 (nlmsg_type h) ++
  to_ne_bytes t 2 (nlmsg_flags h) ++ to_ne_bytes t 4 (nlmsg_seq h) ++
  to_ne_bytes t 4 (nlmsg_pid h).

Definition create_netlink_message (t : target) (pid msg_type : Z) (data : list Z) : list Z :=
  let msg_len := NLMSG_HDRLEN + blen data in
  let nlmsg_header := {| nlmsg_len := wrap 32 msg_len; nlmsg_type := msg_type;
                         nlmsg_flags := NLM_F_REQUEST; nlmsg_seq := 0;
                         nlmsg_pid := wrap 32 pid |} in
  nlmsghdr_bytes t nlmsg_header ++ data.

Definition send_bool_data (value : bool) : list Z :=
  if value then [1; 0; 0; 0] else [0; 0; 0; 0].

(** ** Decoding *)

(** [usize] addition, wrapping ([overflow-checks = false] in every profile the
    agent is built with). *)
Definition usize_add (t : target) (x y : Z) : Z := wrapping_add (usize_bits t) x y.

(** [parse_kosecs_msg_data]: the header words are read before the second length
    check, so the slices of lines 286-287 can be out of range. *)
Definition parse_kosecs_msg_data (t : target) (data : list Z)
    : outcome (result string (Z * list Z * Z)) :=
  if blen data <? 4 * 2 then Done (Err "Insufficient data")
  else
    _ ← slice 0 4 data;
    _ ← slice 4 6 data;
    _ ← slice 6 8 data;
    _ ← slice 8 12 data;
    _ ← slice 12 16 data;
    let vsec_msg_data_start := 16 in
    if blen data <? vsec_msg_data_start + 4 * 2
    then Done (Err "vsec_msg_data header missing")
    else
      ty ← slice vsec_msg_data_start (vsec_msg_data_start + 4) data;
      ln ← slice (vsec_msg_data_start + 4) (vsec_msg_data_start + 8) data;
      let data_type := from_le_bytes ty in
      let data_len := from_le_bytes ln in
      let stop := usize_add t (vsec_msg_data_start + 8) data_len in
      if blen data <? stop then Done (Err "Data length mismatch")
      else
        content ← slice (vsec_msg_data_start + 8) stop data;
        Done (Ok (data_type, content, blen content)).

Record KosecsMsgData := { data_type : Z; data_len : Z; payload : list Z }.

(** [KosecsMsgData::parse]. *)
Definition KosecsMsgData_parse (t : target) (raw : list Z) : outcome (option KosecsMsgData) :=
  if blen raw <? 8 then Done None
  else
    ty ← slice 0 4 raw;
    ln ← slice 4 8 raw;
    let dt := from_ne_bytes t ty in
    let dl := from_ne_bytes t ln in
    if negb (dl <? 2 ^ usize_bits t) then Done None
    else
      let stop := usize_add t 8 dl in
      if blen raw <? stop then Done None
      else
        p ← slice 8 stop raw;
        Done (Some {| data_type := dt; data_len := dl; payload := p |}).

(** The frame the kernel side sends: type, length, payload. *)
Definition kosecs_frame (t : target) (dt : Z) (p : list Z) : list Z :=
  to_ne_bytes t 4 dt ++ to_ne_bytes t 4 (blen p) ++ p.

(** ** The socket *)

Section Socket.
Context {S : Type}.
(** [libc::sendmsg] on the connected socket: the number of bytes sent, or a
    negative number. *)
Variable sendmsg : list Z -> io S Z.
(** [io::Error::last_os_error]. *)
Variable last_os_error : S -> string.
(** [libc::getpid]. *)
Variable getpid : Z.
Variable t : target.

Definition send_message (msg_type : Z) (data : list Z) : io S (result string Z) := fun s =>
  let message := create_netlink_message t getpid msg_type data in
  let '(send_len, s') := sendmsg message s in
  if send_len <? 0 then (Err (last_os_error s'), s') else (Ok send_len, s').

Definition send_bool (msg_type : Z) (value : bool) : io S (result string Z) :=
  send_message msg_type (send_bool_data value).

Definition send_network_close : io S (result string Z) :=
  send_message 1798 (* 0x706 *) [0; 0; 0; 0].

Definition send_uint32 (msg_type value : Z) : io S (result string Z) :=
  send_message msg_type (to_ne_bytes t 4 value).

(** What one [recvmsg] does: its return value and the bytes it stores at the
    start of the 4096-byte buffer. *)
Record recv_event := { ret : Z; stored : list Z }.

Definition recv_buffer (e : recv_event) : list Z :=
  take (Z.to_nat (ret e)) (take 4096 (stored e ++ replicate 4096 0)).

Definition receive_netlink_message (e : recv_event) (s : S) : result string (list Z) :=
  if ret e <? 0 then Err (last_os_error s) else Ok (recv_buffer e).

(** [receive_messages_loop]: the loop over the events the kernel delivers,
    with the callback of the caller; [None] while it waits for more. *)
Fixpoint receive_messages_loop (callback : list Z -> S -> outcome S)
    (events : list recv_event) (s : S) : outcome (option (result string unit) * S) :=
  match events with
  | [] => Done (None, s)
  | e :: events =>
    if ret e <? 0 then Done (Some (Err (last_os_error s)), s)
    else if ret e =? 0 then Done (Some (Ok tt), s)
    else s' ← callback (recv_buffer e) s; receive_messages_loop callback events s'
  end.
End Socket.

(** ** The protocol number *)

(** [get_netlink_proto]: poll [/sys/osec/proto]; [look k] is what attempt [k]
    sees, [None] for no file, otherwise what reading it gives. *)
Section Proto.
Variable look : nat -> option (result string string).

Definition parse_proto (contents : string) : result string Z :=
  match strip_prefix "netlink:" contents with
  | Some stripped =>
    ok_or "Invalid protocol format in /sys/osec/proto" (parse_int 32 (trim stripped))
  | None => Err "Missing 'netlink:' prefix in /sys/osec/proto"
  end.

Fixpoint poll_proto (attempt fuel : nat) : result string Z :=
  match fuel with
  | O => Ok 21
  | S fuel =>
    match look attempt with
    | Some (Ok contents) => parse_proto contents
    | Some (Err e) => Err e
    | None => poll_proto (attempt + 1)%nat fuel
    end
  end.

Definition get_netlink_proto : result string Z := poll_proto 0 10.

(** ** Opening a socket *)

(** The process's netlink sockets, by descriptor: the protocol, and the port a
    socket is bound to.  Nothing closes one: [NlSockInfo] is not [Drop]. *)
Abbreviation socket_table := (list (Z * option Z)).

(** [AF_NETLINK]: the addresses [bind] and [sendmsg] are given. *)
Record NlSockInfo := NlSock { sock : Z; src_family : Z; src_pid : Z; dest_family : Z }.

(** [pid]: the process; [opens], [binds]: whether the system calls go through.
    A port of a protocol that a socket is bound to cannot be bound again. *)
Definition create_socket (pid : Z) (opens binds : result string unit) (table : socket_table)
    : result string NlSockInfo * socket_table :=
  match get_netlink_proto with
  | Err e => (Err e, table)
  | Ok proto =>
    match opens with
    | Err e => (Err e, table)
    | Ok _ =>
      let fd := Z.of_nat (length table) in
      if bool_decide ((proto, Some pid) ∈ table) then (Err "Address already in use", table ++ [(proto, None)])
      else match binds with
           | Err e => (Err e, table ++ [(proto, None)])
           | Ok _ => (Ok (NlSock fd 16 pid 16), table ++ [(proto, Some pid)])
           end
    end
  end.
End Proto.

(** ** Properties *)

Lemma bind_Done {A B} (f : A -> outcome B) (a : A) : Done a ≫= f = f a.
Proof. done. Qed.

Lemma usize_add_64 t x y :
  usize_bits t = 64 -> 0 <= x -> 0 <= y -> x + y < 2 ^ 64 -> usize_add t x y = x + y.
Proof.
  intros Ht Hx Hy Hxy. unfold usize_add, wrapping_add. rewrite Ht.
  apply wrap_id. unfold is_uint. lia.
Qed.

(** The length word of a frame fits 32 bits. *)
Lemma from_ne_bytes_u32 t a l r :
  bytes_ok l -> slice a (a + 4) l = Done r -> is_uint 32 (from_ne_bytes t r).
Proof.
  intros Hl Hr. pose proof (bytes_ok_slice _ _ _ _ Hl Hr) as Hr'.
  pose proof (from_ne_bytes_uint t r Hr') as H.
  rewrite (slice_length _ _ _ _ Hr) in H. by replace (8 * (a + 4 - a)) with 32 in H by lia.
Qed.

Lemma from_ne_bytes_le t l : big_endian t = false -> from_ne_bytes t l = from_le_bytes l.
Proof. intros Ht. unfold from_ne_bytes. by rewrite Ht. Qed.

(** With 16 bytes or more the header words are read without a panic. *)
Lemma parse_kosecs_header t data :
  16 <= blen data ->
  parse_kosecs_msg_data t data =
    if blen data <? 24 then Done (Err "vsec_msg_data header missing")
    else
      ty ← slice 16 20 data;
      ln ← slice 20 24 data;
      let stop := usize_add t 24 (from_le_bytes ln) in
      if blen data <? stop then Done (Err "Data length mismatch")
      else content ← slice 24 stop data;
           Done (Ok (from_le_bytes ty, content, blen content)).
Proof.
  intros H. unfold parse_kosecs_msg_data.
  rewrite (proj2 (Z.ltb_ge _ _)) by lia.
  rewrite (slice_Done 0 4), (slice_Done 4 6), (slice_Done 6 8), (slice_Done 8 12),
    (slice_Done 12 16) by lia.
  done.
Qed.

(** [parse_kosecs_msg_data] panics exactly on buffers of 8 to 15 bytes: the
    first length check lets them through and the reads of the sequence number
    and port id slice past the end; every other buffer is answered with a
    value or an error (64-bit targets). *)
Theorem parse_kosecs_panics_iff t data :
  usize_bits t = 64 -> bytes_ok data ->
  parse_kosecs_msg_data t data = Panic <-> 8 <= blen data < 16.
Proof.
  intros Ht Hok. pose proof (blen_nonneg data). split.
  - intros Hp. destruct (Z.lt_ge_cases (blen data) 16) as [Hlt|Hge].
    + unfold parse_kosecs_msg_data in Hp. destruct (Z.ltb_spec (blen data) (4 * 2)); [done|lia].
    + exfalso. rewrite parse_kosecs_header in Hp by done.
      destruct (Z.ltb_spec (blen data) 24); [done|].
      rewrite (slice_Done 16 20), bind_Done in Hp by lia.
      destruct (slice 20 24 data) as [ln|] eqn:Hln; [|apply slice_Panic in Hln; lia].
      rewrite bind_Done in Hp. cbv zeta in Hp.
      pose proof (from_ne_bytes_u32 t 20 data ln Hok Hln) as Hb.
      pose proof (from_ne_bytes_u32 le64 20 data ln Hok Hln) as Hb'.
      change (from_ne_bytes le64 ln) with (from_le_bytes ln) in Hb'. unfold is_uint in Hb'.
      rewrite usize_add_64 in Hp by (try done; lia).
      destruct (Z.ltb_spec (blen data) (24 + from_le_bytes ln)); [done|].
      rewrite slice_Done in Hp by lia. done.
  - intros Hl. unfold parse_kosecs_msg_data. rewrite (proj2 (Z.ltb_ge _ _)) by lia.
    rewrite (slice_Done 0 4), (slice_Done 4 6), (slice_Done 6 8) by lia. rewrite !bind_Done.
    destruct (slice 8 12 data) eqn:E1; [|done]. rewrite bind_Done.
    by rewrite (proj2 (slice_Panic 12 16 data)) by lia.
Qed.

Lemma parse_kosecs_panics_iff_witness :
  parse_kosecs_msg_data le64 (replicate 12 0) = Panic.
Proof.
  apply (parse_kosecs_panics_iff le64 (replicate 12 0)); [done| |by vm_compute].
  repeat constructor; by vm_compute.
Defined.

(** the two decoders of kernel frames agree: on a little-endian 64-bit
    target, for every message with a whole netlink header,
    [parse_kosecs_msg_data] on the message gives what [KosecsMsgData::parse]
    gives on the bytes after the header, and both reject the same frames. *)
Theorem parse_kosecs_equiv t data :
  big_endian t = false -> usize_bits t = 64 -> bytes_ok data -> 16 <= blen data ->
  parse_kosecs_msg_data t data =
    match KosecsMsgData_parse t (drop 16 data) with
    | Done (Some m) => Done (Ok (data_type m, payload m, data_len m))
    | Done None => Done (Err (if blen data <? 24 then "vsec_msg_data header missing"
                              else "Data length mismatch"))
    | Panic => Panic
    end.
Proof.
  intros He Ht Hok Hlen. rewrite parse_kosecs_header by done.
  unfold KosecsMsgData_parse. rewrite blen_drop.
  replace (Z.max 0 (blen data - Z.of_nat 16)) with (blen data - 16) by lia.
  destruct (Z.ltb_spec (blen data) 24).
  { by rewrite (proj2 (Z.ltb_lt _ _)) by lia. }
  rewrite (proj2 (Z.ltb_ge (blen data - 16) 8)) by lia.
  rewrite !(slice_drop _ _ data 16) by lia.
  change (0 + Z.of_nat 16) with 16. change (4 + Z.of_nat 16) with 20.
  change (8 + Z.of_nat 16) with 24.
  destruct (slice 16 20 data) as [ty|] eqn:Hty; [|apply slice_Panic in Hty; lia].
  destruct (slice 20 24 data) as [ln|] eqn:Hln; [|apply slice_Panic in Hln; lia].
  rewrite !bind_Done. cbv zeta.
  pose proof (from_ne_bytes_u32 t 20 data ln Hok Hln) as Hb. unfold is_uint in Hb.
  rewrite !from_ne_bytes_le in * by done. rewrite Ht.
  rewrite (proj2 (Z.ltb_lt (from_le_bytes ln) (2 ^ 64))) by lia. cbn [negb].
  rewrite !usize_add_64 by (try done; lia).
  replace (blen data - 16 <? 8 + from_le_bytes ln) with (blen data <? 24 + from_le_bytes ln)
    by (destruct (Z.ltb_spec (blen data) (24 + from_le_bytes ln)),
         (Z.ltb_spec (blen data - 16) (8 + from_le_bytes ln)); lia || done).
  destruct (Z.ltb_spec (blen data) (24 + from_le_bytes ln)); [done|].
  rewrite (slice_drop _ _ data 16) by lia. change (8 + Z.of_nat 16) with 24.
  replace (8 + from_le_bytes ln + Z.of_nat 16) with (24 + from_le_bytes ln) by lia.
  destruct (slice 24 (24 + from_le_bytes ln) data) as [c|] eqn:Hc; [|done].
  rewrite !bind_Done. cbn. rewrite (slice_length _ _ _ _ Hc). do 4 f_equal. lia.
Qed.

Definition sample_message : list Z :=
  create_netlink_message le64 77 1285 (kosecs_frame le64 1286 [10; 20; 30]).

Lemma parse_kosecs_equiv_witness :
  parse_kosecs_msg_data le64 sample_message = Done (Ok (1286, [10; 20; 30], 3)).
Proof.
  rewrite (parse_kosecs_equiv le64 sample_message); [by vm_compute|done|done| |by vm_compute].
  repeat constructor; by vm_compute.
Defined.

Lemma KosecsMsgData_decodes t dt p junk :
  usize_bits t = 64 -> is_uint 32 dt -> is_uint 32 (blen p) ->
  KosecsMsgData_parse t (kosecs_frame t dt p ++ junk) =
    Done (Some {| data_type := dt; data_len := blen p; payload := p |}).
Proof.
  intros Ht Hdt Hp. unfold KosecsMsgData_parse, kosecs_frame.
  pose proof (blen_nonneg p). pose proof (blen_nonneg junk). unfold is_uint in Hp.
  assert (blen (((to_ne_bytes t 4 dt ++ to_ne_bytes t 4 (blen p) ++ p) ++ junk))
          = 8 + blen p + blen junk) as Hlen by (rewrite !blen_app, !blen_to_ne_bytes; lia).
  rewrite Hlen, (proj2 (Z.ltb_ge _ _)) by lia. rewrite <- !app_assoc.
  rewrite (slice_parts 0 4 _ [] (to_ne_bytes t 4 dt) (to_ne_bytes t 4 (blen p) ++ p ++ junk))
    by (rewrite ?blen_to_ne_bytes; done).
  rewrite (slice_parts 4 8 _ (to_ne_bytes t 4 dt) (to_ne_bytes t 4 (blen p)) (p ++ junk))
    by (rewrite ?blen_to_ne_bytes; done).
  rewrite !bind_Done. cbv zeta. rewrite !from_to_ne_bytes. change (8 * Z.of_nat 4) with 32.
  rewrite !wrap_id by done. rewrite Ht, (proj2 (Z.ltb_lt (blen p) (2 ^ 64))) by lia. cbn [negb].
  rewrite usize_add_64 by (try done; lia). rewrite (proj2 (Z.ltb_ge _ _)) by lia.
  rewrite (slice_parts 8 (8 + blen p) _ (to_ne_bytes t 4 dt ++ to_ne_bytes t 4 (blen p)) p junk).
  - done.
  - by rewrite <- app_assoc.
  - by rewrite blen_app, !blen_to_ne_bytes.
  - by rewrite blen_app, !blen_to_ne_bytes.
Qed.

(** a frame of the kernel, followed by anything, decodes to its type, its
    length and its payload, on 64-bit targets of either byte order. *)
Theorem KosecsMsgData_roundtrip t dt p junk :
  usize_bits t = 64 -> is_uint 32 dt -> is_uint 32 (blen p) ->
  KosecsMsgData_parse t (kosecs_frame t dt p ++ junk) =
    Done (Some {| data_type := dt; data_len := blen p; payload := p |}).
Proof. apply KosecsMsgData_decodes. Qed.

Lemma KosecsMsgData_roundtrip_witness :
  KosecsMsgData_parse (Target true 64) (kosecs_frame (Target true 64) 1286 [7; 8] ++ [255]) =
    Done (Some {| data_type := 1286; data_len := 2; payload := [7; 8] |}).
Proof. apply (KosecsMsgData_roundtrip (Target true 64) 1286 [7; 8] [255]); by vm_compute. Defined.

(** on a 32-bit target the length check of [KosecsMsgData::parse] wraps: a
    frame that declares a length of [2^32 - 1 - k], [k < 8], passes the check
    and panics in the slice. *)
Theorem KosecsMsgData_panics_32bit dt k junk :
  0 <= k < 8 ->
  KosecsMsgData_parse le32 (to_ne_bytes le32 4 dt ++ to_ne_bytes le32 4 (2 ^ 32 - 1 - k) ++ junk)
    = Panic.
Proof.
  intros Hk. unfold KosecsMsgData_parse. pose proof (blen_nonneg junk).
  rewrite !blen_app, !blen_to_ne_bytes.
  rewrite (proj2 (Z.ltb_ge _ _)) by lia.
  rewrite (slice_parts 0 4 _ [] (to_ne_bytes le32 4 dt)
             (to_ne_bytes le32 4 (2 ^ 32 - 1 - k) ++ junk)) by (rewrite ?blen_to_ne_bytes; done).
  rewrite (slice_parts 4 8 _ (to_ne_bytes le32 4 dt) (to_ne_bytes le32 4 (2 ^ 32 - 1 - k)) junk)
    by (rewrite ?blen_to_ne_bytes; done).
  rewrite !bind_Done. cbv zeta. rewrite !from_to_ne_bytes. change (8 * Z.of_nat 4) with 32.
  rewrite (wrap_id 32 (2 ^ 32 - 1 - k)) by (unfold is_uint; lia).
  change (2 ^ usize_bits le32) with (2 ^ 32).
  rewrite (proj2 (Z.ltb_lt _ _)) by lia. cbn [negb].
  unfold usize_add, wrapping_add, wrap. change (usize_bits le32) with 32.
  replace (8 + (2 ^ 32 - 1 - k)) with (7 - k + 1 * 2 ^ 32) by lia.
  rewrite Z.mod_add, Z.mod_small by lia.
  rewrite (proj2 (Z.ltb_ge _ _)) by lia.
  by rewrite (proj2 (slice_Panic 8 _ _)) by lia.
Qed.

Lemma KosecsMsgData_panics_32bit_witness :
  KosecsMsgData_parse le32 (to_ne_bytes le32 4 5 ++ to_ne_bytes le32 4 (2 ^ 32 - 1 - 3) ++ [1; 2])
    = Panic.
Proof. apply (KosecsMsgData_panics_32bit 5 3 [1; 2]). lia. Defined.

Lemma blen_nlmsghdr_bytes t h : blen (nlmsghdr_bytes t h) = 16.
Proof. unfold nlmsghdr_bytes. by rewrite !blen_app, !blen_to_ne_bytes. Qed.

(** what [send_message] puts on the wire is a netlink message: 16 bytes of
    header whose length word is the length of the whole message (below 4 GiB),
    then the payload unchanged; a payload that is a kernel frame is read back
    by the agent's own decoder. *)
Theorem create_netlink_message_wf t pid ty data :
  16 + blen data < 2 ^ 32 ->
  let m := create_netlink_message t pid ty data in
  blen m = 16 + blen data /\
  drop 16 m = data /\
  (exists len4, slice 0 4 m = Done len4 /\ from_ne_bytes t len4 = blen m) /\
  (exists ty2, slice 4 6 m = Done ty2 /\ from_ne_bytes t ty2 = wrap 16 ty).
Proof.
  intros Hlen. cbv zeta. pose proof (blen_nonneg data).
  unfold create_netlink_message. set (h := {| nlmsg_len := _ |}).
  assert (length (nlmsghdr_bytes t h) = 16%nat) as Hl16
    by (pose proof (blen_nlmsghdr_bytes t h); unfold blen in *; lia).
  split_and!.
  - by rewrite blen_app, blen_nlmsghdr_bytes.
  - by apply drop_app_length'.
  - exists (to_ne_bytes t 4 (nlmsg_len h)). split.
    + unfold nlmsghdr_bytes. rewrite <- app_assoc.
      eapply (slice_parts 0 4 _ []); [done|..]; by rewrite ?blen_to_ne_bytes.
    + rewrite from_to_ne_bytes, blen_app, blen_nlmsghdr_bytes. cbn [nlmsg_len h].
      change (8 * Z.of_nat 4) with 32. rewrite wrap_idemp by lia.
      unfold NLMSG_HDRLEN. apply wrap_id. unfold is_uint. lia.
  - exists (to_ne_bytes t 2 (nlmsg_type h)). split.
    + unfold nlmsghdr_bytes. rewrite <- !app_assoc.
      eapply (slice_parts 4 6 _ (to_ne_bytes t 4 (nlmsg_len h))); [done|..];
        by rewrite !blen_to_ne_bytes.
    + by rewrite from_to_ne_bytes.
Qed.

Lemma create_netlink_message_wf_witness :
  blen (create_netlink_message le64 4242 1798 [0; 0; 0; 0]) = 20.
Proof. apply (create_netlink_message_wf le64 4242 1798 [0; 0; 0; 0]). by vm_compute. Defined.

(** the protocol discovery always ends within its ten attempts: with no
    file it falls back to protocol 21, otherwise the first attempt that sees
    the file decides, whatever later attempts would see. *)
Theorem get_netlink_proto_spec look :
  (forall k, (k < 10)%nat -> look k = None) /\ get_netlink_proto look = Ok 21 \/
  exists k r, (k < 10)%nat /\ (forall j, (j < k)%nat -> look j = None) /\ look k = Some r /\
    get_netlink_proto look = match r with Ok c => parse_proto c | Err e => Err e end.
Proof.
  unfold get_netlink_proto.
  assert (forall fuel a,
    (forall k, (a <= k < a + fuel)%nat -> look k = None) /\ poll_proto look a fuel = Ok 21 \/
    exists k r, (a <= k < a + fuel)%nat /\ (forall j, (a <= j < k)%nat -> look j = None) /\
      look k = Some r /\
      poll_proto look a fuel = match r with Ok c => parse_proto c | Err e => Err e end) as H.
  { induction fuel as [|fuel IH]; intros a; [left; split; [lia|done]|].
    cbn [poll_proto]. destruct (look a) as [r|] eqn:Ha.
    - right. exists a, r. split_and!; [lia|lia|lia|done|by destruct r].
    - destruct (IH (a + 1)%nat) as [[Hn ->]|(k & r & Hk & Hj & Hr & ->)].
      + left. split; [|done]. intros k Hk. destruct (decide (k = a)) as [->|]; [done|].
        apply Hn. lia.
      + right. exists k, r. split_and!; [lia|lia| |done|done].
        intros j Hlt. destruct (decide (j = a)) as [->|]; [done|]. apply Hj. lia. }
  destruct (H 10%nat 0%nat) as [[Hn ->]|(k & r & Hk & Hj & Hr & ->)].
  - left. split; [|done]. intros k Hk. apply Hn. lia.
  - right. exists k, r. split_and!; [lia| |done|done]. intros j Hlt. apply Hj. lia.
Qed.

Example proto_example : get_netlink_proto (fun k =>
  if bool_decide (k < 3)%nat then None
  else Some (Ok ("netlink:22" +:+ String line_feed ""))) = Ok 22.
Proof. by vm_compute. Qed.

(** a process gets one socket of the protocol: each further attempt fails and
    leaves an open socket behind, whatever the system calls would say. *)
Theorem second_socket_refused look pid table sk table1 opens binds r table2 :
  create_socket look pid (Ok tt) (Ok tt) table = (Ok sk, table1) ->
  create_socket look pid opens binds table1 = (r, table2) ->
  (exists e, r = Err e)
  /\ (opens = Ok tt -> length table2 = S (length table1) /\ exists proto, table2 = table1 ++ [(proto, None)]).
Proof.
  unfold create_socket. destruct (get_netlink_proto look) as [proto|e]; [|done].
  case_bool_decide as Hin; [done|]. intros [= <- <-].
  destruct opens as [[]|e]; [|intros [= <- <-]; split; [by eexists|done]].
  rewrite bool_decide_eq_true_2 by (apply elem_of_app; right; by left). intros [= <- <-].
  split; [by eexists|]. intros _. split; [rewrite !length_app; simpl; lia|by eexists].
Qed.

Lemma second_socket_refused_witness :
  (exists e, (create_socket (fun _ => None) 7 (Ok tt) (Ok tt) [(21, Some 7)]).1 = Err e).
Proof.
  exact (proj1 (second_socket_refused (fun _ => None) 7 [] (NlSock 0 16 7 16) [(21, Some 7)] (Ok tt) (Ok tt) _ _
                  eq_refl eq_refl)).
Defined.
