(* ===== verification/KernelEvent.v ===== *)
(** * Dispatch of kernel events

    [crates/kernel_event/src/event_handler/mod.rs]: the message types, the
    table of callbacks, its registration at start-up, the receive callback and
    the tasks it spawns.  The callbacks of the reporter crates are parameters;
    the dispatch around them is what is verified. *)

From S2P Require Import Prelude RustStr Bytes Netlink.

(** ** Message types *)

Inductive NLPolicyType :=
| NL_POLICY_CMD_UNSPEC
| NL_POLICY_CMD_ECHO
| NL_POLICY_SIMPLE_END
| NL_POLICY_BOOL_END
| NL_POLICY_CMD_REGISTER
| NL_POLICY_CMD_ADD_SYMBOL
| NL_POLICY_CMD_UNREGISTER
| NL_POLICY_MD5RULE_END
| NL_POLICY_DEFENSE_UNSPEC
| NL_POLICY_DEFENSE_SWITCHER
| NL_POLICY_DEFENSE_ADD_WHITE_EXE
| NL_POLICY_SELF_SWITCHER
| NL_POLICY_GLOBAL_DIR
| NL_POLICY_EXIPORT_RULE
| NL_POLICY_PROTECT_RULE
| NL_POLICY_DEFENSE_FILE_PROCESS_POLICY
| NL_POLICY_NETWORK_UNSPEC
| NL_POLICY_NETWORK_POLICY
| NL_POLICY_NETSYSLOG_POLICY
| NL_POLICY_NETWORK_SERVERIP_POLICY
| NL_POLICY_NETWORK_NETBLOCK
| NL_POLICY_NETWORK_BUSINESS_PORT_POLICY
| NL_POLICY_NETWORK_CLOSE
| NL_MAX_CLASSIC_INDEX
| NL_POLICY_CMD_NOTIFY
| NL_POLICY_CMD_REGISTERED_NOTIFY
| NL_POLICY_AV_PROCESS_EXEC_NOTIFY
| NL_POLICY_AV_PROCESS_EXEC_ZCOPY_NOTIFY
| NL_POLICY_AV_FILE_CHANGE_NOTIFY
| NL_POLICY_AV_FILE_RENAME_NOTIFY
| NL_POLICY_AV_FILE_AUDIT_ZCOPY_NOTIFY
| NL_POLICY_AV_SELF_PROTECTION_NOTIFY
| NL_POLICY_NET_PORT_NOTIFY
| NL_POLICY_NET_PORT_ZCOPY_NOTIFY
| NL_POLICY_NET_CONNECT_PORT_IN_NOTIFY
| NL_POLICY_NET_CONNECT_PORT_OUT_NOTIFY
| NL_POLICY_NET_CONNECT_PORT_NOTIFY
| NL_POLICY_NET_DNS_PORT_NOTIFY
| NL_POLICY_NET_DNS_PORT_ZCOPY_NOTIFY
| NL_POLICY_INFO_KERN_TO_APP_NOTIFY
| NL_POLICY_UPDATE_PROCESS_RULE_NOTIFY
| NL_POLICY_SERVER_LISTEN_NOTIFY
| NL_MAX_INDEX.

(** The discriminants the compiler assigns: an explicit value, or one more than
    the variant before. *)
Definition discriminant (p : NLPolicyType) : Z :=
  match p with
  | NL_POLICY_CMD_UNSPEC => 0
  | NL_POLICY_CMD_ECHO => 1
  | NL_POLICY_SIMPLE_END => 2
  | NL_POLICY_BOOL_END => 3
  | NL_POLICY_CMD_REGISTER => 4
  | NL_POLICY_CMD_ADD_SYMBOL => 5
  | NL_POLICY_CMD_UNREGISTER => 6
  | NL_POLICY_MD5RULE_END => 7
  | NL_POLICY_DEFENSE_UNSPEC => 256
  | NL_POLICY_DEFENSE_SWITCHER => 257
  | NL_POLICY_DEFENSE_ADD_WHITE_EXE => 258
  | NL_POLICY_SELF_SWITCHER => 259
  | NL_POLICY_GLOBAL_DIR => 260
  | NL_POLICY_EXIPORT_RULE => 261
  | NL_POLICY_PROTECT_RULE => 262
  | NL_POLICY_DEFENSE_FILE_PROCESS_POLICY => 263
  | NL_POLICY_NETWORK_UNSPEC => 1792
  | NL_POLICY_NETWORK_POLICY => 1793
  | NL_POLICY_NETSYSLOG_POLICY => 1794
  | NL_POLICY_NETWORK_SERVERIP_POLICY => 1795
  | NL_POLICY_NETWORK_NETBLOCK => 1796
  | NL_POLICY_NETWORK_BUSINESS_PORT_POLICY => 1797
  | NL_POLICY_NETWORK_CLOSE => 1798
  | NL_MAX_CLASSIC_INDEX => 1799
  | NL_POLICY_CMD_NOTIFY => 1283
  | NL_POLICY_CMD_REGISTERED_NOTIFY => 1284
  | NL_POLICY_AV_PROCESS_EXEC_NOTIFY => 1285
  | NL_POLICY_AV_PROCESS_EXEC_ZCOPY_NOTIFY => 1286
  | NL_POLICY_AV_FILE_CHANGE_NOTIFY => 1287
  | NL_POLICY_AV_FILE_RENAME_NOTIFY => 1288
  | NL_POLICY_AV_FILE_AUDIT_ZCOPY_NOTIFY => 1289
  | NL_POLICY_AV_SELF_PROTECTION_NOTIFY => 1290
  | NL_POLICY_NET_PORT_NOTIFY => 1291
  | NL_POLICY_NET_PORT_ZCOPY_NOTIFY => 1292
  | NL_POLICY_NET_CONNECT_PORT_IN_NOTIFY => 1293
  | NL_POLICY_NET_CONNECT_PORT_OUT_NOTIFY => 1294
  | NL_POLICY_NET_CONNECT_PORT_NOTIFY => 1295
  | NL_POLICY_NET_DNS_PORT_NOTIFY => 1296
  | NL_POLICY_NET_DNS_PORT_ZCOPY_NOTIFY => 1297
  | NL_POLICY_INFO_KERN_TO_APP_NOTIFY => 1298
  | NL_POLICY_UPDATE_PROCESS_RULE_NOTIFY => 1299
  | NL_POLICY_SERVER_LISTEN_NOTIFY => 1300
  | NL_MAX_INDEX => 4096
  end.

(** [NLPolicyType::from_u32]. *)
Definition from_u32 (value : Z) : option NLPolicyType :=
  match value with
  | 0 => Some NL_POLICY_CMD_UNSPEC
  | 1 => Some NL_POLICY_CMD_ECHO
  | 2 => Some NL_POLICY_SIMPLE_END
  | 3 => Some NL_POLICY_BOOL_END
  | 4 => Some NL_POLICY_CMD_REGISTER
  | 5 => Some NL_POLICY_CMD_ADD_SYMBOL
  | 6 => Some NL_POLICY_CMD_UNREGISTER
  | 7 => Some NL_POLICY_MD5RULE_END
  | 256 => Some NL_POLICY_DEFENSE_UNSPEC
  | 257 => Some NL_POLICY_DEFENSE_SWITCHER
  | 258 => Some NL_POLICY_DEFENSE_ADD_WHITE_EXE
  | 259 => Some NL_POLICY_SELF_SWITCHER
  | 260 => Some NL_POLICY_GLOBAL_DIR
  | 261 => Some NL_POLICY_EXIPORT_RULE
  | 262 => Some NL_POLICY_PROTECT_RULE
  | 263 => Some NL_POLICY_DEFENSE_FILE_PROCESS_POLICY
  | 1792 => Some NL_POLICY_NETWORK_UNSPEC
  | 1793 => Some NL_POLICY_NETWORK_POLICY
  | 1794 => Some NL_POLICY_NETSYSLOG_POLICY
  | 1795 => Some NL_POLICY_NETWORK_SERVERIP_POLICY
  | 1796 => Some NL_POLICY_NETWORK_NETBLOCK
  | 1797 => Some NL_POLICY_NETWORK_BUSINESS_PORT_POLICY
  | 1798 => Some NL_POLICY_NETWORK_CLOSE
  | 2048 => Some NL_MAX_CLASSIC_INDEX
  | 1283 => Some NL_POLICY_CMD_NOTIFY
  | 1284 => Some NL_POLICY_CMD_REGISTERED_NOTIFY
  | 1285 => Some NL_POLICY_AV_PROCESS_EXEC_NOTIFY
  | 1286 => Some NL_POLICY_AV_PROCESS_EXEC_ZCOPY_NOTIFY
  | 1287 => Some NL_POLICY_AV_FILE_CHANGE_NOTIFY
  | 1288 => Some NL_POLICY_AV_FILE_RENAME_NOTIFY
  | 1289 => Some NL_POLICY_AV_FILE_AUDIT_ZCOPY_NOTIFY
  | 1290 => Some NL_POLICY_AV_SELF_PROTECTION_NOTIFY
  | 1291 => Some NL_POLICY_NET_PORT_NOTIFY
  | 1292 => Some NL_POLICY_NET_PORT_ZCOPY_NOTIFY
  | 1293 => Some NL_POLICY_NET_CONNECT_PORT_IN_NOTIFY
  | 1294 => Some NL_POLICY_NET_CONNECT_PORT_OUT_NOTIFY
  | 1295 => Some NL_POLICY_NET_CONNECT_PORT_NOTIFY
  | 1296 => Some NL_POLICY_NET_DNS_PORT_NOTIFY
  | 1297 => Some NL_POLICY_NET_DNS_PORT_ZCOPY_NOTIFY
  | 1298 => Some NL_POLICY_INFO_KERN_TO_APP_NOTIFY
  | 1299 => Some NL_POLICY_UPDATE_PROCESS_RULE_NOTIFY
  | 1300 => Some NL_POLICY_SERVER_LISTEN_NOTIFY
  | 4096 => Some NL_MAX_INDEX
  | _ => None
  end.

(** [Display] (and the derived [Debug]): the name of the variant. *)
Definition to_string (p : NLPolicyType) : string :=
  match p with
  | NL_POLICY_CMD_UNSPEC => "NL_POLICY_CMD_UNSPEC"
  | NL_POLICY_CMD_ECHO => "NL_POLICY_CMD_ECHO"
  | NL_POLICY_SIMPLE_END => "NL_POLICY_SIMPLE_END"
  | NL_POLICY_BOOL_END => "NL_POLICY_BOOL_END"
  | NL_POLICY_CMD_REGISTER => "NL_POLICY_CMD_REGISTER"
  | NL_POLICY_CMD_ADD_SYMBOL => "NL_POLICY_CMD_ADD_SYMBOL"
  | NL_POLICY_CMD_UNREGISTER => "NL_POLICY_CMD_UNREGISTER"
  | NL_POLICY_MD5RULE_END => "NL_POLICY_MD5RULE_END"
  | NL_POLICY_DEFENSE_UNSPEC => "NL_POLICY_DEFENSE_UNSPEC"
  | NL_POLICY_DEFENSE_SWITCHER => "NL_POLICY_DEFENSE_SWITCHER"
  | NL_POLICY_DEFENSE_ADD_WHITE_EXE => "NL_POLICY_DEFENSE_ADD_WHITE_EXE"
  | NL_POLICY_SELF_SWITCHER => "NL_POLICY_SELF_SWITCHER"
  | NL_POLICY_GLOBAL_DIR => "NL_POLICY_GLOBAL_DIR"
  | NL_POLICY_EXIPORT_RULE => "NL_POLICY_EXIPORT_RULE"
  | NL_POLICY_PROTECT_RULE => "NL_POLICY_PROTECT_RULE"
  | NL_POLICY_DEFENSE_FILE_PROCESS_POLICY => "NL_POLICY_DEFENSE_FILE_PROCESS_POLICY"
  | NL_POLICY_NETWORK_UNSPEC => "NL_POLICY_NETWORK_UNSPEC"
  | NL_POLICY_NETWORK_POLICY => "NL_POLICY_NETWORK_POLICY"
  | NL_POLICY_NETSYSLOG_POLICY => "NL_POLICY_NETSYSLOG_POLICY"
  | NL_POLICY_NETWORK_SERVERIP_POLICY => "NL_POLICY_NETWORK_SERVERIP_POLICY"
  | NL_POLICY_NETWORK_NETBLOCK => "NL_POLICY_NETWORK_NETBLOCK"
  | NL_POLICY_NETWORK_BUSINESS_PORT_POLICY => "NL_POLICY_NETWORK_BUSINESS_PORT_POLICY"
  | NL_POLICY_NETWORK_CLOSE => "NL_POLICY_NETWORK_CLOSE"
  | NL_MAX_CLASSIC_INDEX => "NL_MAX_CLASSIC_INDEX"
  | NL_POLICY_CMD_NOTIFY => "NL_POLICY_CMD_NOTIFY"
  | NL_POLICY_CMD_REGISTERED_NOTIFY => "NL_POLICY_CMD_REGISTERED_NOTIFY"
  | NL_POLICY_AV_PROCESS_EXEC_NOTIFY => "NL_POLICY_AV_PROCESS_EXEC_NOTIFY"
  | NL_POLICY_AV_PROCESS_EXEC_ZCOPY_NOTIFY => "NL_POLICY_AV_PROCESS_EXEC_ZCOPY_NOTIFY"
  | NL_POLICY_AV_FILE_CHANGE_NOTIFY => "NL_POLICY_AV_FILE_CHANGE_NOTIFY"
  | NL_POLICY_AV_FILE_RENAME_NOTIFY => "NL_POLICY_AV_FILE_RENAME_NOTIFY"
  | NL_POLICY_AV_FILE_AUDIT_ZCOPY_NOTIFY => "NL_POLICY_AV_FILE_AUDIT_ZCOPY_NOTIFY"
  | NL_POLICY_AV_SELF_PROTECTION_NOTIFY => "NL_POLICY_AV_SELF_PROTECTION_NOTIFY"
  | NL_POLICY_NET_PORT_NOTIFY => "NL_POLICY_NET_PORT_NOTIFY"
  | NL_POLICY_NET_PORT_ZCOPY_NOTIFY => "NL_POLICY_NET_PORT_ZCOPY_NOTIFY"
  | NL_POLICY_NET_CONNECT_PORT_IN_NOTIFY => "NL_POLICY_NET_CONNECT_PORT_IN_NOTIFY"
  | NL_POLICY_NET_CONNECT_PORT_OUT_NOTIFY => "NL_POLICY_NET_CONNECT_PORT_OUT_NOTIFY"
  | NL_POLICY_NET_CONNECT_PORT_NOTIFY => "NL_POLICY_NET_CONNECT_PORT_NOTIFY"
  | NL_POLICY_NET_DNS_PORT_NOTIFY => "NL_POLICY_NET_DNS_PORT_NOTIFY"
  | NL_POLICY_NET_DNS_PORT_ZCOPY_NOTIFY => "NL_POLICY_NET_DNS_PORT_ZCOPY_NOTIFY"
  | NL_POLICY_INFO_KERN_TO_APP_NOTIFY => "NL_POLICY_INFO_KERN_TO_APP_NOTIFY"
  | NL_POLICY_UPDATE_PROCESS_RULE_NOTIFY => "NL_POLICY_UPDATE_PROCESS_RULE_NOTIFY"
  | NL_POLICY_SERVER_LISTEN_NOTIFY => "NL_POLICY_SERVER_LISTEN_NOTIFY"
  | NL_MAX_INDEX => "NL_MAX_INDEX"
  end.

#[export] Instance NLPolicyType_eq_dec : EqDecision NLPolicyType.
Proof. solve_decision. Defined.

(** The variant of a discriminant, used only to make the type countable. *)
Definition of_discriminant (value : Z) : option NLPolicyType :=
  if value =? 1799 then Some NL_MAX_CLASSIC_INDEX else from_u32 value.

Lemma of_discriminant_discriminant p : of_discriminant (discriminant p) = Some p.
Proof. by destruct p. Qed.

#[export] Program Instance NLPolicyType_countable : Countable NLPolicyType := {|
  encode p := encode (discriminant p);
  decode n := d ← decode n; of_discriminant d
|}.
Next Obligation.
  intros p. cbn beta. rewrite decode_encode. apply of_discriminant_discriminant.
Qed.

(** ** The callback table *)

(** The callbacks the agent registers: the four of
    [register_default_event_handlers], then the eight of
    [register_user_event_handlers]. *)
Inductive callback :=
| handle_echo | handle_register | handle_add_symbol | handle_unregister
| handle_file_zcopy_oper | handle_process_zcopy_oper | get_net_app_handler
| handle_internal_communication_log | handle_external_communication_log
| handle_fake_port_zcopy_oper | handle_kernel_docker_oper | handle_self_protect_oper.

#[export] Instance callback_eq_dec : EqDecision callback.
Proof. solve_decision. Defined.

Abbreviation EventHandler := (gmap NLPolicyType callback).

Definition EventHandler_new : EventHandler := ∅.

Definition register_event_handler (h : EventHandler) (policy_type : NLPolicyType)
    (cb : callback) : EventHandler := <[policy_type := cb]> h.

Definition register_default_event_handlers (h : EventHandler) : EventHandler :=
  let h := register_event_handler h NL_POLICY_CMD_ECHO handle_echo in
  let h := register_event_handler h NL_POLICY_CMD_REGISTER handle_register in
  let h := register_event_handler h NL_POLICY_CMD_ADD_SYMBOL handle_add_symbol in
  register_event_handler h NL_POLICY_CMD_UNREGISTER handle_unregister.

(** [zcopy_ok] is whether [ZcopyMgr::new] succeeded. *)
Definition register_user_event_handlers (zcopy_ok : bool) (h : EventHandler) : EventHandler :=
  if negb zcopy_ok then h
  else
    let h := register_event_handler h NL_POLICY_AV_FILE_AUDIT_ZCOPY_NOTIFY
               handle_file_zcopy_oper in
    let h := register_event_handler h NL_POLICY_AV_PROCESS_EXEC_ZCOPY_NOTIFY
               handle_process_zcopy_oper in
    let h := register_event_handler h NL_POLICY_SERVER_LISTEN_NOTIFY get_net_app_handler in
    let h := register_event_handler h NL_POLICY_NET_CONNECT_PORT_IN_NOTIFY
               handle_internal_communication_log in
    let h := register_event_handler h NL_POLICY_NET_CONNECT_PORT_OUT_NOTIFY
               handle_external_communication_log in
    let h := register_event_handler h NL_POLICY_NET_PORT_ZCOPY_NOTIFY
               handle_fake_port_zcopy_oper in
    let h := register_event_handler h NL_POLICY_INFO_KERN_TO_APP_NOTIFY
               handle_kernel_docker_oper in
    register_event_handler h NL_POLICY_AV_SELF_PROTECTION_NOTIFY handle_self_protect_oper.

(** [start_kernel_send_handler]. *)
Definition start_kernel_send_handler (zcopy_ok : bool) (h : EventHandler) : EventHandler :=
  register_user_event_handlers zcopy_ok (register_default_event_handlers h).

Section Dispatch.
Context {S : Type}.
(** The eight callbacks that live in the reporter, hostinfo and docker crates. *)
Variable user_callback : callback -> list Z -> Z -> io S (result string unit).

(** The four default callbacks print and return [Ok(())]. *)
Definition run_callback (cb : callback) (data : list Z) (data_len : Z)
    : io S (result string unit) :=
  match cb with
  | handle_echo | handle_register | handle_add_symbol | handle_unregister =>
    fun s => (Ok tt, s)
  | _ => user_callback cb data data_len
  end.

(** [EventHandler::handle_event]. *)
Definition handle_event (h : EventHandler) (dt : Z) (data : list Z) (data_len : Z)
    : io S (result string unit) := fun s =>
  match from_u32 dt with
  | Some policy_type =>
    match h !! policy_type with
    | Some cb => run_callback cb data data_len s
    | None => (Err ("No callback registered for policy type " +:+ to_string policy_type), s)
    end
  | None => (Err ("Unknown data type: " +:+ dec dt), s)
  end.

(** ** The receive side *)

(** A spawned task: the arguments of its [handle_event]. *)
Definition task : Type := Z * list Z * Z.

(** The callback [start_kernel_rcv_handler] gives to [receive_messages_loop]:
    strip the header ([&data[16..]]), decode, and spawn a task for everything
    but an echo. *)
Definition rcv_callback (t : target) (data : list Z) (spawned : list task)
    : outcome (list task) :=
  p ← slice_from 16 data;
  m ← KosecsMsgData_parse t p;
  match m with
  | Some msg =>
    if data_type msg =? 1 then Done spawned
    else Done (spawned ++ [(data_type msg, payload msg, data_len msg)])
  | None => Done spawned
  end.

(** The receiver and the tasks it spawned, in any interleaving: the tasks are
    serialised by the handler's lock but run in any order.  A step that receives
    is labelled with the message. *)
Record rcv_state := RcvState {
  pending : list task;   (* spawned, not yet run *)
  user : S
}.

Inductive rcv_step (t : target) (h : EventHandler) : option (list Z) -> rcv_state -> rcv_state -> Prop :=
| step_receive data pe u new :
    rcv_callback t data [] = Done new ->
    rcv_step t h (Some data) (RcvState pe u) (RcvState (pe ++ new) u)
| step_run pe1 k pe2 u r u' :
    handle_event h k.1.1 k.1.2 k.2 u = (r, u') ->
    rcv_step t h None (RcvState (pe1 ++ k :: pe2) u) (RcvState (pe1 ++ pe2) u').

(** A run, with the messages it received. *)
Inductive rcv_run (t : target) (h : EventHandler) : list (list Z) -> rcv_state -> rcv_state -> Prop :=
| rcv_nil st : rcv_run t h [] st st
| rcv_cons l st1 st2 ms st3 :
    rcv_step t h l st1 st2 -> rcv_run t h ms st2 st3 ->
    rcv_run t h (option_list l ++ ms) st1 st3.
End Dispatch.

(** ** Properties *)

(** [from_u32] decodes the discriminant of every variant to that variant,
    with one exception: [NL_MAX_CLASSIC_INDEX], which the compiler numbers
    0x707 and [from_u32] expects at 0x800. *)
Theorem from_u32_discriminant p :
  from_u32 (discriminant p) = if decide (p = NL_MAX_CLASSIC_INDEX) then None else Some p.
Proof. by destruct p. Qed.

Lemma from_u32_Some v p :
  from_u32 v = Some p -> v = if decide (p = NL_MAX_CLASSIC_INDEX) then 2048 else discriminant p.
Proof.
  unfold from_u32. intros H. repeat case_match; simplify_eq; done.
Qed.

(** The routing the start-up registrations amount to, by message code. *)
Definition route (dt : Z) : option callback :=
  match dt with
  | 1 => Some handle_echo
  | 4 => Some handle_register
  | 5 => Some handle_add_symbol
  | 6 => Some handle_unregister
  | 1286 (* 0x506 *) => Some handle_process_zcopy_oper
  | 1289 (* 0x509 *) => Some handle_file_zcopy_oper
  | 1290 (* 0x50A *) => Some handle_self_protect_oper
  | 1292 (* 0x50C *) => Some handle_fake_port_zcopy_oper
  | 1293 (* 0x50D *) => Some handle_internal_communication_log
  | 1294 (* 0x50E *) => Some handle_external_communication_log
  | 1298 (* 0x512 *) => Some handle_kernel_docker_oper
  | 1300 (* 0x514 *) => Some get_net_app_handler
  | _ => None
  end.

Lemma route_unknown dt : from_u32 dt = None -> route dt = None.
Proof.
  intros H. destruct (route dt) as [cb|] eqn:E; [|done].
  unfold route in E. repeat case_match; simplify_eq; done.
Qed.

Lemma start_lookup dt p :
  from_u32 dt = Some p ->
  start_kernel_send_handler true EventHandler_new !! p = route dt.
Proof. intros ->%from_u32_Some. destruct p; by vm_compute. Qed.

(** after start-up the dispatcher routes every message code to its handler:
    the twelve registered codes reach their callback with the payload and
    length unchanged, every other known type reports a missing callback, every
    unknown code an unknown type, and the error cases leave the state alone. *)
Theorem dispatch_after_start {S} (ucb : callback -> list Z -> Z -> io S (result string unit))
    dt data len s :
  handle_event ucb (start_kernel_send_handler true EventHandler_new) dt data len s =
    match route dt, from_u32 dt with
    | Some cb, _ => run_callback ucb cb data len s
    | None, Some p => (Err ("No callback registered for policy type " +:+ to_string p), s)
    | None, None => (Err ("Unknown data type: " +:+ dec dt), s)
    end.
Proof.
  unfold handle_event. destruct (from_u32 dt) as [p|] eqn:Hdt.
  - rewrite (start_lookup dt p Hdt). by destruct (route dt).
  - by rewrite (route_unknown dt Hdt).
Qed.

(** when the shared-memory manager cannot be created, start-up goes on
    without the audit callbacks: of all message codes only the four default
    ones are served. *)
Theorem dispatch_without_zcopy {S} (ucb : callback -> list Z -> Z -> io S (result string unit))
    dt data len s :
  (handle_event ucb (start_kernel_send_handler false EventHandler_new) dt data len s).1 = Ok tt
  <-> dt ∈ [1; 4; 5; 6].
Proof.
  rewrite !elem_of_cons, elem_of_nil.
  unfold handle_event. destruct (from_u32 dt) as [p|] eqn:Hdt.
  - apply from_u32_Some in Hdt as ->. destruct p; vm_compute; intuition discriminate.
  - split; [done|]. intros Hc. destruct_or! Hc; by subst.
Qed.

(** *** The receiver *)

Lemma KosecsMsgData_parse_total t raw :
  usize_bits t = 64 -> bytes_ok raw -> exists m, KosecsMsgData_parse t raw = Done m.
Proof.
  intros Ht Hok. unfold KosecsMsgData_parse.
  destruct (Z.ltb_spec (blen raw) 8); [by eexists|].
  destruct (slice 0 4 raw) as [ty|] eqn:Hty; [|apply slice_Panic in Hty; lia].
  destruct (slice 4 8 raw) as [ln|] eqn:Hln; [|apply slice_Panic in Hln; lia].
  rewrite !bind_Done. cbv zeta.
  pose proof (from_ne_bytes_u32 t 4 raw ln Hok Hln) as Hb. unfold is_uint in Hb.
  case_match; [by eexists|]. rewrite usize_add_64 by (try done; lia).
  destruct (Z.ltb_spec (blen raw) (8 + from_ne_bytes t ln)); [by eexists|].
  rewrite slice_Done by lia. by eexists.
Qed.

Lemma rcv_callback_total t data sp :
  usize_bits t = 64 -> bytes_ok data -> 16 <= blen data ->
  exists l, rcv_callback t data sp = Done l.
Proof.
  intros Ht Hok Hlen. unfold rcv_callback, slice_from.
  destruct (slice 16 (blen data) data) as [p|] eqn:Hp; [|apply slice_Panic in Hp; lia].
  rewrite bind_Done.
  destruct (KosecsMsgData_parse_total t p Ht) as [m Hm]; [by eapply bytes_ok_slice|].
  rewrite Hm, bind_Done. repeat case_match; by eexists.
Qed.

(** the receive callback panics exactly on a message shorter than a
    netlink header ([&data[16..]]); on every other message, well formed or
    not, it returns. *)
Theorem rcv_callback_panics_iff t data sp :
  usize_bits t = 64 -> bytes_ok data ->
  rcv_callback t data sp = Panic <-> blen data < 16.
Proof.
  intros Ht Hok. split.
  - intros H. destruct (Z.lt_ge_cases (blen data) 16) as [|Hge]; [done|].
    destruct (rcv_callback_total t data sp Ht Hok Hge) as [l Hl]. congruence.
  - intros H. unfold rcv_callback, slice_from.
    by rewrite (proj2 (slice_Panic 16 _ _)) by lia.
Qed.

Lemma rcv_callback_panics_iff_witness : rcv_callback le64 [1; 2; 3] [] = Panic.
Proof.
  apply (rcv_callback_panics_iff le64 [1; 2; 3] []); [done| |by vm_compute].
  repeat constructor; by vm_compute.
Defined.

(** The tasks one message spawns. *)
Definition tasks_of (t : target) (data : list Z) : list task :=
  match rcv_callback t data [] with Done l => l | Panic => [] end.

Lemma rcv_callback_app t data sp :
  rcv_callback t data sp =
    match rcv_callback t data [] with Done l => Done (sp ++ l) | Panic => Panic end.
Proof.
  unfold rcv_callback. destruct (slice_from 16 data) as [p|]; [|done]. rewrite !bind_Done.
  destruct (KosecsMsgData_parse t p) as [m|]; [|done]. rewrite !bind_Done.
  repeat case_match; simplify_eq; by rewrite ?app_nil_r.
Qed.

(** the receive loop handles any sequence of messages of at least 16 bytes
    without stopping, and spawns, in order of arrival, exactly the tasks of
    each message: nothing is lost or duplicated. *)
Theorem receive_loop_spawns t lose events sp :
  usize_bits t = 64 ->
  Forall (fun e => 16 <= blen (recv_buffer e) /\ bytes_ok (recv_buffer e)) events ->
  receive_messages_loop lose (rcv_callback t) events sp =
    Done (None, sp ++ concat ((fun e => tasks_of t (recv_buffer e)) <$> events)).
Proof.
  intros Ht Hev. revert sp. induction Hev as [|e events [Hlen Hok] Hev IH]; intros sp; simpl.
  { by rewrite app_nil_r. }
  assert (0 < ret e) as Hret.
  { unfold recv_buffer, blen in Hlen. rewrite length_take in Hlen. lia. }
  rewrite (proj2 (Z.ltb_ge _ _)), (proj2 (Z.eqb_neq _ _)) by lia.
  rewrite rcv_callback_app. unfold tasks_of at 1.
  destruct (rcv_callback_total t (recv_buffer e) [] Ht Hok Hlen) as [l ->].
  rewrite bind_Done, IH. by rewrite app_assoc.
Qed.

Definition sample_event : recv_event :=
  {| ret := 27; stored := sample_message |}.

Lemma receive_loop_spawns_witness :
  receive_messages_loop (fun _ : list task => "") (rcv_callback le64)
    [sample_event; sample_event] [] =
  Done (None, [(1286, [10; 20; 30], 3); (1286, [10; 20; 30], 3)]).
Proof.
  rewrite (receive_loop_spawns le64 (fun _ => "") [sample_event; sample_event] []);
    [by vm_compute|done|].
  repeat constructor; by vm_compute.
Defined.

(** *** From the kernel to the handlers *)

(** A message of the kernel: the netlink header, the frame and what else the
    buffer holds. *)
Record kernel_message := KernelMessage {
  km_header : list Z;
  km_type : Z;
  km_payload : list Z;
  km_rest : list Z
}.

Definition message_ok (m : kernel_message) : Prop :=
  blen (km_header m) = 16 /\ is_uint 32 (km_type m) /\ is_uint 32 (blen (km_payload m)).

Definition message_bytes (t : target) (m : kernel_message) : list Z :=
  km_header m ++ kosecs_frame t (km_type m) (km_payload m) ++ km_rest m.

(** The calls of the eight callbacks of the other crates, as they are made. *)
Definition call : Type := callback * list Z * Z.
Definition record_call (cb : callback) (data : list Z) (len : Z) : io (list call) (result string unit) :=
  fun calls => (Ok tt, calls ++ [(cb, data, len)]).

(** The call a message code stands for; the four default callbacks only print. *)
Definition call_for (dt : Z) (data : list Z) (len : Z) : option call :=
  match route dt with
  | None | Some handle_echo | Some handle_register | Some handle_add_symbol | Some handle_unregister => None
  | Some cb => Some (cb, data, len)
  end.
Definition call_of (m : kernel_message) : option call :=
  call_for (km_type m) (km_payload m) (blen (km_payload m)).
Definition call_of_task (k : task) : option call := call_for k.1.1 k.1.2 k.2.

Lemma handle_event_calls dt data len calls :
  (handle_event record_call (start_kernel_send_handler true EventHandler_new) dt data len calls).2
  = calls ++ option_list (call_for dt data len).
Proof.
  unfold handle_event, call_for. destruct (from_u32 dt) as [p|] eqn:Hdt.
  - rewrite (start_lookup dt p Hdt). destruct (route dt) as [[]|]; by rewrite ?app_nil_r.
  - rewrite (route_unknown dt Hdt). by rewrite app_nil_r.
Qed.

Lemma rcv_callback_message t m :
  usize_bits t = 64 -> message_ok m ->
  rcv_callback t (message_bytes t m) [] =
    Done (if km_type m =? 1 then [] else [(km_type m, km_payload m, blen (km_payload m))]).
Proof.
  intros Ht (Hh & Hd & Hp). unfold rcv_callback, message_bytes, slice_from.
  rewrite (slice_parts 16 _ _ (km_header m) (kosecs_frame t (km_type m) (km_payload m) ++ km_rest m) []);
    [|by rewrite app_nil_r|done|rewrite blen_app; lia].
  rewrite bind_Done, KosecsMsgData_decodes by done. rewrite bind_Done. cbn [data_type payload data_len].
  by destruct (km_type m =? 1).
Qed.

Lemma received_calls t m :
  usize_bits t = 64 -> message_ok m ->
  exists new, rcv_callback t (message_bytes t m) [] = Done new
              /\ omap call_of_task new = option_list (call_of m).
Proof.
  intros Ht Hm. rewrite rcv_callback_message by done. eexists. split; [reflexivity|].
  unfold call_of. destruct (Z.eqb_spec (km_type m) 1) as [E|E]; [by rewrite E|].
  cbn [omap list_omap]. unfold call_of_task. cbn [fst snd]. by destruct (call_for _ _ _).
Qed.

(** C21: once start-up has registered the callbacks (the shared memory manager was
    made), on a 64-bit target: over any run that receives well-formed messages
    of the kernel and runs the tasks they spawn in any order, the calls made of
    the eight callbacks, together with those of the tasks still waiting, are
    exactly those the messages stand for: each message of one of their codes
    calls its own callback once, with its payload and length unchanged, and no
    other message calls any. *)
Theorem events_reach_handlers t msgs st :
  usize_bits t = 64 -> Forall message_ok msgs ->
  rcv_run record_call t (start_kernel_send_handler true EventHandler_new)
    (message_bytes t <$> msgs) (RcvState [] []) st ->
  user st ++ omap call_of_task (pending st) ≡ₚ omap call_of msgs.
Proof.
  intros Ht Hms Hrun.
  assert (forall ms st0, Forall message_ok msgs -> ms = message_bytes t <$> msgs ->
    rcv_run record_call t (start_kernel_send_handler true EventHandler_new) ms st0 st ->
    user st ++ omap call_of_task (pending st)
      ≡ₚ user st0 ++ omap call_of_task (pending st0) ++ omap call_of msgs) as H.
  2: { rewrite (H _ _ Hms eq_refl Hrun). done. }
  clear Hrun Hms. intros ms st0 Hms Ems Hrun. revert msgs Hms Ems.
  induction Hrun as [st|l st1 st2 ms st3 Hstep Hrun IH]; intros msgs Hms Ems.
  { symmetry in Ems. apply fmap_nil_inv in Ems as ->. by rewrite app_nil_r. }
  destruct Hstep as [data pe u new Hcb|pe1 k pe2 u r u' Hh]; cbn [option_list app] in Ems.
  - destruct msgs as [|m msgs]; [done|]. rewrite fmap_cons in Ems. injection Ems as -> Ems.
    apply Forall_cons in Hms as [Hm Hms]. destruct (received_calls t m Ht Hm) as (new' & E & Hnew).
    rewrite E in Hcb. injection Hcb as <-. rewrite (IH msgs Hms Ems). cbn [user pending].
    rewrite omap_app, Hnew, <- app_assoc. do 2 f_equiv. cbn [omap list_omap]. by destruct (call_of m).
  - rewrite (IH msgs Hms Ems). cbn [user pending].
    pose proof (handle_event_calls k.1.1 k.1.2 k.2 u) as Hu. rewrite Hh in Hu. cbn [snd] in Hu. subst u'.
    rewrite !omap_app, <- !app_assoc. f_equiv. cbn [omap list_omap]. fold (call_of_task k).
    change (call_for k.1.1 k.1.2 k.2) with (call_of_task k).
    destruct (call_of_task k) as [c|]; cbn [option_list app]; [|done].
    change (option_list (Some c)) with [c].
    exact (Permutation_middle (omap call_of_task pe1) (omap call_of_task pe2 ++ omap call_of msgs) c).
Qed.

Definition exec_message : kernel_message := KernelMessage (replicate 16 0) 1286 [7; 8] [255].
Definition echo_message : kernel_message := KernelMessage (replicate 16 0) 1 [7] [].

Lemma events_reach_handlers_witness :
  [(handle_process_zcopy_oper, [7; 8], 2)] ≡ₚ omap call_of [echo_message; exec_message].
Proof.
  apply (events_reach_handlers le64 [echo_message; exec_message]
           (RcvState [] [(handle_process_zcopy_oper, [7; 8], 2)])); [done| |].
  - repeat constructor; by vm_compute.
  - eapply (rcv_cons _ _ _ (Some (message_bytes le64 echo_message))); [by apply step_receive; vm_compute|].
    eapply (rcv_cons _ _ _ (Some (message_bytes le64 exec_message))); [by apply step_receive; vm_compute|].
    eapply (rcv_cons _ _ _ None _ _ []); [|apply rcv_nil].
    by eapply (step_run _ le64 _ [] (1286, [7; 8], 2) []); vm_compute.
Defined.
