(* ===== verification/ProcessPolicy.v ===== *)
(** * The process white and black lists

    [crates/process_mgr/src/policy_mgr.rs]: [ProcessPolicyManager] turns the
    list the server sends into incremental rules for the kernel module
    ([/proc/osec/md5_rt]) and a notification ([/proc/osec/process_rt]).  The
    iteration order of the [HashSet]s is a parameter of every call. *)

From S2P Require Import Prelude RustStr.

(** ** State *)

(** A rule line: [{path}={kind}] adds, [del {kind} {path}] deletes; kind 0 is
    the white list, kind 1 the black list. *)
Inductive md5_rule :=
| AddRule (kind : bool) (path : string)
| DelRule (kind : bool) (path : string).

Definition kind_digit (kind : bool) : string := if kind then "1" else "0".

(** The line written for a rule. *)
Definition md5_line (r : md5_rule) : string :=
  match r with
  | AddRule kind path => path +:+ "=" +:+ kind_digit kind +:+ String line_feed ""
  | DelRule kind path => "del " +:+ kind_digit kind +:+ " " +:+ path +:+ String line_feed ""
  end.

Record ProcessPolicyManager := {
  white_set : gset string;
  black_set : gset string;
  prev_white_set : gset string;
  prev_black_set : gset string;
  run_process_mode : bool
}.

Definition ProcessPolicyManager_new (mode : bool) : ProcessPolicyManager :=
  {| white_set := ∅; black_set := ∅; prev_white_set := ∅; prev_black_set := ∅;
     run_process_mode := mode |}.

(** The lists the module holds: white and black. *)
Definition table : Type := gset string * gset string.

(** The two [/proc] files: the lists the module had before, the rules the agent
    tried to write to [md5_rt], each with whether opening the file and writing
    it succeeded, whether each attempt to notify [process_rt] did, and the
    system's answers to the coming attempts (success once they are used up). *)
Record proc_files := {
  md5_before : table;
  md5_tried : list (md5_rule * bool);
  process_tried : list bool;
  md5_answers : list bool;
  process_answers : list bool
}.

(** [add_md5_rules]: a file that does not open and a write that fails are both
    ignored. *)
Definition add_md5_rules (r : md5_rule) (k : proc_files) : proc_files :=
  {| md5_before := md5_before k;
     md5_tried := md5_tried k ++ [(r, default true (head (md5_answers k)))];
     process_tried := process_tried k;
     md5_answers := tail (md5_answers k); process_answers := process_answers k |}.

(** [notify_kernel_update] writes [update] to [process_rt], likewise. *)
Definition notify_kernel_update (k : proc_files) : proc_files :=
  {| md5_before := md5_before k; md5_tried := md5_tried k;
     process_tried := process_tried k ++ [default true (head (process_answers k))];
     md5_answers := md5_answers k; process_answers := tail (process_answers k) |}.

(** ** The three loops of a branch

    [kind] is the list being set; the loops thread the previous set of the
    other kind, the changed flag and the files. *)

(** Lines 66-73 and 107-114: drop the new entries from the other list. *)
Fixpoint purge_other (kind : bool) (paths : list string)
    (st : gset string * bool * proc_files) : gset string * bool * proc_files :=
  match paths with
  | [] => st
  | path :: paths =>
    let '(prev_other, changed, k) := st in
    purge_other kind paths
      (if bool_decide (path ∈ prev_other)
       then (prev_other ∖ {[path]}, true, add_md5_rules (DelRule (negb kind) path) k)
       else st)
  end.

(** Lines 75-81 and 116-122: add the entries that are new. *)
Fixpoint add_new (kind : bool) (prev : gset string) (paths : list string)
    (st : bool * proc_files) : bool * proc_files :=
  match paths with
  | [] => st
  | path :: paths =>
    add_new kind prev paths
      (if bool_decide (path ∈ prev) then st
       else (true, add_md5_rules (AddRule kind path) st.2))
  end.

(** Lines 83-89 and 124-130: delete the entries that are gone. *)
Fixpoint del_stale (kind : bool) (now : gset string) (paths : list string)
    (st : bool * proc_files) : bool * proc_files :=
  match paths with
  | [] => st
  | path :: paths =>
    del_stale kind now paths
      (if bool_decide (path ∈ now) then st
       else (true, add_md5_rules (DelRule kind path) st.2))
  end.

(** [order i s] is the order in which the [i]-th loop of the call visits [s]. *)
Definition set_policy_process (order : nat -> gset string -> list string)
    (process_list : list string) (is_white : bool)
    (st : ProcessPolicyManager * proc_files) : ProcessPolicyManager * proc_files :=
  let '(m, k) := st in
  if is_white then
    let white := list_to_set process_list in
    let '(prev_black, changed, k) :=
      purge_other false (order 0%nat white) (prev_black_set m, false, k) in
    let '(changed, k) := add_new false (prev_white_set m) (order 1%nat white) (changed, k) in
    let '(changed, k) :=
      del_stale false white (order 2%nat (prev_white_set m)) (changed, k) in
    ({| white_set := white; black_set := black_set m;
        prev_white_set := if changed then white else prev_white_set m;
        prev_black_set := prev_black; run_process_mode := run_process_mode m |},
     if changed then notify_kernel_update k else k)
  else
    (* kill_process only logs *)
    let black := list_to_set process_list in
    let '(prev_white, changed, k) :=
      purge_other true (order 0%nat black) (prev_white_set m, false, k) in
    let '(changed, k) := add_new true (prev_black_set m) (order 1%nat black) (changed, k) in
    let '(changed, k) :=
      del_stale true black (order 2%nat (prev_black_set m)) (changed, k) in
    ({| white_set := white_set m; black_set := black;
        prev_white_set := prev_white;
        prev_black_set := if changed then black else prev_black_set m;
        run_process_mode := run_process_mode m |},
     if changed then notify_kernel_update k else k).

(** ** Specification: the two lists the rules denote *)

(** One rule on the (white, black) lists. *)
Definition apply_rule (r : md5_rule) (t : table) : table :=
  match r with
  | AddRule false p => (t.1 ∪ {[p]}, t.2)
  | AddRule true p => (t.1, t.2 ∪ {[p]})
  | DelRule false p => (t.1 ∖ {[p]}, t.2)
  | DelRule true p => (t.1, t.2 ∖ {[p]})
  end.

Definition replay (rules : list md5_rule) (t : table) : table :=
  foldl (fun t r => apply_rule r t) t rules.

(** What the agent has asked the module to hold, from empty lists. *)
Definition asked (k : proc_files) : table := replay (md5_tried k).*1 (∅, ∅).

(** The rules the module was given, and what it holds after them. *)
Definition md5_rt (k : proc_files) : list md5_rule := (retain snd (md5_tried k)).*1.
Definition kernel_table (k : proc_files) : table := replay (md5_rt k) (md5_before k).

(** The list of a kind. *)
Definition side (kind : bool) (t : table) : gset string := if kind then t.2 else t.1.

(** The success of the last attempt at a rule for one entry, if there was any. *)
Definition rule_entry (r : md5_rule) : bool * string :=
  match r with AddRule kind p | DelRule kind p => (kind, p) end.
Definition last_try (kind : bool) (p : string) (k : proc_files) : option bool :=
  snd <$> last (retain (fun x => bool_decide (rule_entry x.1 = (kind, p))) (md5_tried k)).

(** What a call asks for: the list replaces its own kind and its entries leave
    the other kind. *)
Definition set_policy_spec (process_list : list string) (is_white : bool) (t : table) : table :=
  let l := list_to_set process_list in
  if is_white then (l, t.2 ∖ l) else (t.1 ∖ l, l).

(** The manager's memory is what it has asked for, and no path is on both
    lists. *)
Definition in_sync (st : ProcessPolicyManager * proc_files) : Prop :=
  asked st.2 = (prev_white_set st.1, prev_black_set st.1) /\
  prev_white_set st.1 ## prev_black_set st.1.

(** ** The loops *)

(** The list of one kind that was asked for. *)
Definition tbl (kind : bool) (k : proc_files) : gset string := side kind (asked k).

(** A loop only tries rules. *)
Definition same_files (k k' : proc_files) : Prop :=
  md5_before k' = md5_before k /\ process_answers k' = process_answers k /\
  process_tried k' = process_tried k.

#[export] Instance same_files_preorder : PreOrder same_files.
Proof.
  split; [by intros k|]. intros k1 k2 k3 (H1 & H2 & H3) (H4 & H5 & H6).
  unfold same_files. by rewrite H4, H5, H6.
Qed.

Lemma asked_add r k : asked (add_md5_rules r k) = apply_rule r (asked k).
Proof. unfold asked, replay, add_md5_rules. simpl. by rewrite fmap_app, foldl_app. Qed.

Lemma tbl_add kind r k :
  tbl kind (add_md5_rules r k) =
    match r with
    | AddRule kd p => if bool_decide (kd = kind) then tbl kind k ∪ {[p]} else tbl kind k
    | DelRule kd p => if bool_decide (kd = kind) then tbl kind k ∖ {[p]} else tbl kind k
    end.
Proof. unfold tbl. rewrite asked_add. by destruct kind, r as [[]|[]]. Qed.

Lemma purge_other_spec kind paths : forall po ch k,
  tbl (negb kind) k = po ->
  exists po' ch' k', purge_other kind paths (po, ch, k) = (po', ch', k') /\
    po' = po ∖ list_to_set paths /\ tbl (negb kind) k' = po' /\
    tbl kind k' = tbl kind k /\ same_files k k' /\ (ch' = false -> ch = false /\ po' = po).
Proof.
  induction paths as [|p paths IH]; intros po ch k Hpo.
  { exists po, ch, k. split_and!; [done|set_solver|done..|done]. }
  cbn [purge_other]. case_bool_decide as Hp.
  - set (k1 := add_md5_rules (DelRule (negb kind) p) k).
    destruct (IH (po ∖ {[p]}) true k1) as (po' & ch' & k' & -> & Hpo' & Ht1 & Ht2 & Hf' & Hc).
    + unfold k1. rewrite tbl_add, bool_decide_eq_true_2 by done. by rewrite Hpo.
    + exists po', ch', k'. split_and!; try done.
      * rewrite Hpo'. set_solver.
      * rewrite Ht2. unfold k1. rewrite tbl_add, bool_decide_eq_false_2 by (by destruct kind).
        done.
      * intros Hch. by destruct (Hc Hch).
  - destruct (IH po ch k Hpo) as (po' & ch' & k' & -> & Hpo' & Ht1 & Ht2 & Hf' & Hc).
    exists po', ch', k'. split_and!; try done; [rewrite Hpo'; set_solver|by apply Hc..].
Qed.

Lemma add_new_spec kind prev paths : forall ch k,
  exists ch' k', add_new kind prev paths (ch, k) = (ch', k') /\
    tbl kind k' = tbl kind k ∪ (list_to_set paths ∖ prev) /\
    tbl (negb kind) k' = tbl (negb kind) k /\ same_files k k' /\
    (ch' = false -> ch = false /\ list_to_set paths ⊆ prev).
Proof.
  induction paths as [|p paths IH]; intros ch k.
  { exists ch, k. split_and!; [done|set_solver|done..|]. intros; split; [done|set_solver]. }
  cbn [add_new]. case_bool_decide as Hp.
  - destruct (IH ch k) as (ch' & k' & -> & Ht1 & Ht2 & Hf' & Hc).
    exists ch', k'. split_and!; try done; [rewrite Ht1; set_solver|].
    intros Hch. destruct (Hc Hch). split; [done|set_solver].
  - cbn [snd]. set (k1 := add_md5_rules (AddRule kind p) k).
    destruct (IH true k1) as (ch' & k' & -> & Ht1 & Ht2 & Hf' & Hc).
    exists ch', k'. split_and!; try done.
    + rewrite Ht1. unfold k1. rewrite tbl_add, bool_decide_eq_true_2 by done. set_solver.
    + rewrite Ht2. unfold k1. rewrite tbl_add, bool_decide_eq_false_2 by (by destruct kind).
      done.
    + intros Hch. by destruct (Hc Hch).
Qed.

Lemma del_stale_spec kind now paths : forall ch k,
  exists ch' k', del_stale kind now paths (ch, k) = (ch', k') /\
    tbl kind k' = tbl kind k ∖ (list_to_set paths ∖ now) /\
    tbl (negb kind) k' = tbl (negb kind) k /\ same_files k k' /\
    (ch' = false -> ch = false /\ list_to_set paths ⊆ now).
Proof.
  induction paths as [|p paths IH]; intros ch k.
  { exists ch, k. split_and!; [done|set_solver|done..|]. intros; split; [done|set_solver]. }
  cbn [del_stale]. case_bool_decide as Hp.
  - destruct (IH ch k) as (ch' & k' & -> & Ht1 & Ht2 & Hf' & Hc).
    exists ch', k'. split_and!; try done; [rewrite Ht1; set_solver|].
    intros Hch. destruct (Hc Hch). split; [done|set_solver].
  - cbn [snd]. set (k1 := add_md5_rules (DelRule kind p) k).
    destruct (IH true k1) as (ch' & k' & -> & Ht1 & Ht2 & Hf' & Hc).
    exists ch', k'. split_and!; try done.
    + rewrite Ht1. unfold k1. rewrite tbl_add, bool_decide_eq_true_2 by done. set_solver.
    + rewrite Ht2. unfold k1. rewrite tbl_add, bool_decide_eq_false_2 by (by destruct kind).
      done.
    + intros Hch. by destruct (Hc Hch).
Qed.

(** One branch as a whole: whatever the visiting orders, the asked list of
    the kind becomes [now] and the other list loses the entries of [now]. *)
Lemma branch_spec kind now prev po k l0 l1 l2 :
  tbl (negb kind) k = po -> tbl kind k = prev ->
  list_to_set l0 = now -> list_to_set l1 = now -> list_to_set l2 = prev ->
  exists po' ch1 k1 ch2 k2 ch3 k3,
    purge_other kind l0 (po, false, k) = (po', ch1, k1) /\
    add_new kind prev l1 (ch1, k1) = (ch2, k2) /\
    del_stale kind now l2 (ch2, k2) = (ch3, k3) /\
    po' = po ∖ now /\ tbl (negb kind) k3 = po' /\ tbl kind k3 = now /\ same_files k k3 /\
    (ch3 = false -> prev = now /\ po' = po).
Proof.
  intros Hpo Hprev H0 H1 H2.
  destruct (purge_other_spec kind l0 po false k Hpo)
    as (po' & ch1 & k1 & E1 & Hp1 & Ho1 & Ht1 & Hf1 & Hc1).
  destruct (add_new_spec kind prev l1 ch1 k1) as (ch2 & k2 & E2 & Ht2 & Ho2 & Hf2 & Hc2).
  destruct (del_stale_spec kind now l2 ch2 k2) as (ch3 & k3 & E3 & Ht3 & Ho3 & Hf3 & Hc3).
  exists po', ch1, k1, ch2, k2, ch3, k3. split_and!; try done.
  - by rewrite Hp1, H0.
  - by rewrite Ho3, Ho2.
  - rewrite Ht3, Ht2, Ht1, Hprev, H1, H2. apply set_eq. intros x.
    destruct (decide (x ∈ prev)), (decide (x ∈ now)); set_solver.
  - by do 2 (etrans; [done|]).
  - intros Hch. destruct (Hc3 Hch) as [Hch2 Hsub3]. destruct (Hc2 Hch2) as [Hch1 Hsub2].
    destruct (Hc1 Hch1) as [_ Hpo']. split; [set_solver|done].
Qed.

(** ** What the manager remembers *)

Lemma purge_other_prev kind paths : forall st,
  (purge_other kind paths st).1.1 = st.1.1 ∖ list_to_set paths.
Proof.
  induction paths as [|p paths IH]; intros [[po ch] k]; cbn [purge_other]; [set_solver|].
  rewrite IH. case_bool_decide; cbn [fst]; set_solver.
Qed.

Lemma purge_other_changed kind paths : forall po ch k,
  (purge_other kind paths (po, ch, k)).1.2 = false -> ch = false /\ list_to_set paths ## po.
Proof.
  induction paths as [|p paths IH]; intros po ch k; cbn [purge_other]; [set_solver|].
  case_bool_decide as Hp; intros H%IH; set_solver.
Qed.

Lemma add_new_changed kind prev paths : forall ch k,
  (add_new kind prev paths (ch, k)).1 = false -> ch = false /\ list_to_set paths ⊆ prev.
Proof.
  induction paths as [|p paths IH]; intros ch k; cbn [add_new]; [set_solver|].
  case_bool_decide as Hp; intros H%IH; set_solver.
Qed.

Lemma del_stale_changed kind now paths : forall ch k,
  (del_stale kind now paths (ch, k)).1 = false -> ch = false /\ list_to_set paths ⊆ now.
Proof.
  induction paths as [|p paths IH]; intros ch k; cbn [del_stale]; [set_solver|].
  case_bool_decide as Hp; intros H%IH; set_solver.
Qed.

Lemma purge_other_noop kind paths st :
  list_to_set paths ## st.1.1 -> purge_other kind paths st = st.
Proof.
  destruct st as [[po ch] k]. induction paths as [|p paths IH]; cbn [purge_other fst]; [done|].
  intros H. rewrite bool_decide_eq_false_2 by set_solver. apply IH. set_solver.
Qed.

Lemma add_new_noop kind prev paths st :
  list_to_set paths ⊆ prev -> add_new kind prev paths st = st.
Proof.
  induction paths as [|p paths IH]; cbn [add_new]; [done|].
  intros H. rewrite bool_decide_eq_true_2 by set_solver. apply IH. set_solver.
Qed.

Lemma del_stale_noop kind now paths st :
  list_to_set paths ⊆ now -> del_stale kind now paths st = st.
Proof.
  induction paths as [|p paths IH]; cbn [del_stale]; [done|].
  intros H. rewrite bool_decide_eq_true_2 by set_solver. apply IH. set_solver.
Qed.

Definition order_ok (order : nat -> gset string -> list string) : Prop :=
  forall i s, order i s ≡ₚ elements s.

Lemma order_list_to_set order i s : order_ok order -> list_to_set (order i s) = s.
Proof.
  intros H. apply set_eq. intros x. rewrite elem_of_list_to_set, (H i s). apply elem_of_elements.
Qed.

(** The memory after a call, in every case. *)
Lemma set_policy_prev order l w st :
  order_ok order ->
  let m' := (set_policy_process order l w st).1 in
  (prev_white_set m', prev_black_set m') =
    set_policy_spec l w (prev_white_set st.1, prev_black_set st.1).
Proof.
  intros Ho. destruct st as [m k]. unfold set_policy_process, set_policy_spec.
  set (now := list_to_set l : gset string).
  destruct w; cbn [fst snd].
  - pose proof (purge_other_prev false (order 0%nat now) (prev_black_set m, false, k)) as Hp.
    destruct (purge_other _ _ _) as [[po' ch1] k1]. cbn in Hp.
    pose proof (add_new_changed false (prev_white_set m) (order 1%nat now) ch1 k1) as Ha.
    destruct (add_new _ _ _ _) as [ch2 k2]. cbn in Ha.
    pose proof (del_stale_changed false now (order 2%nat (prev_white_set m)) ch2 k2) as Hd.
    destruct (del_stale _ _ _ _) as [ch3 k3]. cbn in Hd |- *.
    rewrite order_list_to_set in Hp, Ha, Hd by done. rewrite Hp. f_equal.
    destruct ch3; [done|]. destruct (Hd eq_refl) as [-> ?]. destruct (Ha eq_refl). set_solver.
  - pose proof (purge_other_prev true (order 0%nat now) (prev_white_set m, false, k)) as Hp.
    destruct (purge_other _ _ _) as [[po' ch1] k1]. cbn in Hp.
    pose proof (add_new_changed true (prev_black_set m) (order 1%nat now) ch1 k1) as Ha.
    destruct (add_new _ _ _ _) as [ch2 k2]. cbn in Ha.
    pose proof (del_stale_changed true now (order 2%nat (prev_black_set m)) ch2 k2) as Hd.
    destruct (del_stale _ _ _ _) as [ch3 k3]. cbn in Hd |- *.
    rewrite order_list_to_set in Hp, Ha, Hd by done. rewrite Hp. f_equal.
    destruct ch3; [done|]. destruct (Hd eq_refl) as [-> ?]. destruct (Ha eq_refl). set_solver.
Qed.

(** A call that asks for what is remembered touches no file. *)
Lemma set_policy_noop order l w st :
  order_ok order ->
  set_policy_spec l w (prev_white_set st.1, prev_black_set st.1) =
    (prev_white_set st.1, prev_black_set st.1) ->
  (set_policy_process order l w st).2 = st.2.
Proof.
  intros Ho. destruct st as [m k]. unfold set_policy_process, set_policy_spec.
  destruct w; cbn [fst snd]; intros [= H1 H2].
  - rewrite purge_other_noop by (cbn [fst]; rewrite order_list_to_set by done; set_solver).
    rewrite add_new_noop by (rewrite order_list_to_set by done; set_solver).
    by rewrite del_stale_noop by (rewrite order_list_to_set by done; set_solver).
  - rewrite purge_other_noop by (cbn [fst]; rewrite order_list_to_set by done; set_solver).
    rewrite add_new_noop by (rewrite order_list_to_set by done; set_solver).
    by rewrite del_stale_noop by (rewrite order_list_to_set by done; set_solver).
Qed.

Lemma asked_tbl k w b : tbl false k = w -> tbl true k = b -> asked k = (w, b).
Proof. unfold tbl. destruct (asked k). simpl. by intros -> ->. Qed.

(** What is asked for after a call, and the notification. *)
Lemma set_policy_asked order l w st :
  order_ok order -> in_sync st ->
  let k' := (set_policy_process order l w st).2 in
  asked k' = set_policy_spec l w (asked st.2) /\ md5_before k' = md5_before st.2 /\
  (set_policy_spec l w (asked st.2) <> asked st.2 ->
   process_tried k' = process_tried st.2 ++ [default true (head (process_answers st.2))]).
Proof.
  intros Ho [Hk _]. destruct st as [m k]. cbn [fst snd] in *.
  assert (tbl false k = prev_white_set m) as Hw by (unfold tbl; by rewrite Hk).
  assert (tbl true k = prev_black_set m) as Hb by (unfold tbl; by rewrite Hk).
  pose proof (fun i s => order_list_to_set order i s Ho) as Hs.
  unfold set_policy_process, set_policy_spec. rewrite Hk. destruct w.
  - destruct (branch_spec false (list_to_set l) (prev_white_set m) (prev_black_set m) k _ _ _
                Hb Hw (Hs 0%nat _) (Hs 1%nat _) (Hs 2%nat _))
      as (po' & ? & ? & ? & ? & ch3 & k3 & -> & -> & -> & Hpo & Ht & Hn & (F1 & F2 & F3) & Hc).
    cbn [fst snd]. rewrite <- Hpo, <- (asked_tbl k3 _ _ Hn Ht).
    destruct ch3; cbn; rewrite ?F1, ?F2, ?F3; [done|]. destruct (Hc eq_refl) as [-> ->].
    split_and!; [done..|]. rewrite (asked_tbl k3 _ _ Hn Ht). congruence.
  - destruct (branch_spec true (list_to_set l) (prev_black_set m) (prev_white_set m) k _ _ _
                Hw Hb (Hs 0%nat _) (Hs 1%nat _) (Hs 2%nat _))
      as (po' & ? & ? & ? & ? & ch3 & k3 & -> & -> & -> & Hpo & Ht & Hn & (F1 & F2 & F3) & Hc).
    cbn [fst snd]. rewrite <- Hpo, <- (asked_tbl k3 _ _ Ht Hn).
    destruct ch3; cbn; rewrite ?F1, ?F2, ?F3; [done|]. destruct (Hc eq_refl) as [-> ->].
    split_and!; [done..|]. rewrite (asked_tbl k3 _ _ Ht Hn). congruence.
Qed.

(** Agreement and disjointness are preserved. *)
Lemma set_policy_in_sync order l w st :
  order_ok order -> in_sync st -> in_sync (set_policy_process order l w st).
Proof.
  intros Ho Hsync. destruct (set_policy_asked order l w st Ho Hsync) as [HT _].
  pose proof (set_policy_prev order l w st Ho) as Hprev. cbv zeta in Hprev, HT.
  destruct Hsync as [Hk Hdisj]. split; [by rewrite HT, Hk, Hprev|].
  unfold set_policy_spec in Hprev. destruct w; injection Hprev as -> ->; set_solver.
Qed.

(** ** What the module holds of what was asked *)

Lemma side_apply kind p r t :
  p ∈ side kind (apply_rule r t) <->
    if bool_decide (rule_entry r = (kind, p))
    then (match r with AddRule _ _ => True | DelRule _ _ => False end)
    else p ∈ side kind t.
Proof.
  destruct r as [kd q|kd q]; case_bool_decide as E; simpl in E.
  - injection E as -> ->. destruct kind; simpl; set_solver.
  - destruct kd, kind; simpl; [|done..|]; rewrite elem_of_union, elem_of_singleton;
      (split; [intros [H|H]; [done|congruence]|auto]).
  - injection E as -> ->. destruct kind; simpl; set_solver.
  - destruct kd, kind; simpl; [|done..|]; rewrite elem_of_difference, elem_of_singleton;
      (split; [tauto|intros H; split; [done|congruence]]).
Qed.

(** Of an entry the module holds what the last attempt about it asked for, if
    that one succeeded, and what it had before, if none was made. *)
Lemma held_entry kind p k :
  match last_try kind p k with
  | Some true => p ∈ side kind (kernel_table k) <-> p ∈ side kind (asked k)
  | Some false => True
  | None => p ∉ side kind (asked k)
            /\ (p ∈ side kind (kernel_table k) <-> p ∈ side kind (md5_before k))
  end.
Proof.
  unfold last_try, kernel_table, asked, md5_rt, replay.
  induction (md5_tried k) as [|[r ok] l IH] using rev_ind.
  { simpl. split; [by destruct kind; simpl; set_solver|done]. }
  unfold retain in *. rewrite !List.filter_app, !fmap_app, !foldl_app.
  cbn [List.filter fst snd fmap list_fmap foldl].
  set (held := foldl _ (md5_before k) _) in *. set (wanted := foldl _ _ (l.*1)) in *.
  pose proof (side_apply kind p r held) as Hh. pose proof (side_apply kind p r wanted) as Hw.
  destruct (bool_decide (rule_entry r = (kind, p))); [rewrite last_snoc|rewrite app_nil_r].
  - destruct ok; cbn; [|done]. tauto.
  - destruct (snd <$> last _) as [[]|]; [|done|]; destruct ok; cbn; tauto.
Qed.

(** No attempt failed and the module had nothing before. *)
Definition all_taken (k : proc_files) : Prop :=
  Forall (fun x => x.2 = true) (md5_tried k) /\ md5_before k = (∅, ∅).

Lemma all_taken_table k : all_taken k -> kernel_table k = asked k.
Proof.
  intros [Ht Hb]. unfold kernel_table, asked, md5_rt. rewrite Hb. do 2 f_equal. apply retain_true.
  by rewrite Forall_forall in Ht.
Qed.

(** ** Properties *)

(** C2: setting a list does what the server asked, in every iteration order of
    the hash sets and whatever becomes of each opening and write, all of whose
    failures the agent ignores.  The manager's memory being what it has asked
    for so far (true at start-up and kept here), after [set_policy_process]:
    the rules tried so far ask for exactly the new list of that kind and for
    the other list without the new entries; the memory is that again and no
    path is on both lists; of every entry whose last rule was taken the module
    holds exactly what is asked, of an entry no rule was ever tried for nothing
    is asked and the module keeps what it had; so a failure costs its own entry
    only, and if none happened and the module had no lists before, the module's
    two lists are exactly those asked for. *)
Theorem set_policy_process_refines order l w st :
  order_ok order -> in_sync st ->
  let k' := (set_policy_process order l w st).2 in
  let t := set_policy_spec l w (asked st.2) in
  asked k' = t /\ in_sync (set_policy_process order l w st)
  /\ (forall kind p,
        match last_try kind p k' with
        | Some true => p ∈ side kind (kernel_table k') <-> p ∈ side kind t
        | Some false => True
        | None => p ∉ side kind t
                  /\ (p ∈ side kind (kernel_table k') <-> p ∈ side kind (md5_before st.2))
        end)
  /\ (all_taken k' -> kernel_table k' = t).
Proof.
  intros Ho Hsync. destruct (set_policy_asked order l w st Ho Hsync) as (HT & HB & _).
  cbv zeta in *. split_and!; [done|by apply set_policy_in_sync| |].
  - intros kind p. rewrite <- HT, <- HB. apply held_entry.
  - intros Ha. rewrite <- HT. by apply all_taken_table.
Qed.

(** Files that answer as told. *)
Definition fresh_files (before : table) (answers : list bool) : proc_files :=
  {| md5_before := before; md5_tried := []; process_tried := []; md5_answers := answers;
     process_answers := [] |}.
Definition open_files : proc_files := fresh_files (∅, ∅) [].
Definition elements_order (_ : nat) (s : gset string) : list string := elements s.

Lemma elements_order_ok : order_ok elements_order.
Proof. by intros i s. Qed.

Lemma in_sync_new mode k : md5_tried k = [] -> in_sync (ProcessPolicyManager_new mode, k).
Proof. intros E. split; [unfold asked; cbn; by rewrite E|cbn; set_solver]. Qed.

#[export] Hint Resolve elements_order_ok in_sync_new : agent.

Lemma set_policy_process_refines_witness :
  let st := (ProcessPolicyManager_new true, open_files) in
  kernel_table (set_policy_process elements_order ["a"; "b"] true st).2 = ({["a"; "b"]}, ∅).
Proof.
  destruct (set_policy_process_refines elements_order ["a"; "b"] true
              (ProcessPolicyManager_new true, open_files)) as (_ & _ & _ & H); [auto with agent..|].
  cbv zeta in H |- *. rewrite H; [by vm_compute|]. split; [|done]. by_decide.
Defined.

(** A refused rule costs its own entry. *)
Example refused_rule :
  kernel_table (set_policy_process elements_order ["a"; "b"] true
    (ProcessPolicyManager_new true, fresh_files (∅, ∅) [false])).2 = ({["b"]}, ∅).
Proof. by_decide. Qed.

(** One call: any order, any list. *)
Inductive policy_step : ProcessPolicyManager * proc_files -> list string * bool ->
    ProcessPolicyManager * proc_files -> Prop :=
| policy_call order l w st :
    order_ok order -> policy_step st (l, w) (set_policy_process order l w st).

Inductive policy_run : ProcessPolicyManager * proc_files -> list (list string * bool) ->
    ProcessPolicyManager * proc_files -> Prop :=
| run_nil st : policy_run st [] st
| run_cons st1 st2 st3 c cs :
    policy_step st1 c st2 -> policy_run st2 cs st3 -> policy_run st1 (c :: cs) st3.

(** over any history of calls from start-up, in any iteration orders and with
    any failures, the rules tried ask for what the specification computes from
    the sequence of lists alone, and the manager's memory is that. *)
Theorem policy_history_refines mode calls k st :
  md5_tried k = [] -> policy_run (ProcessPolicyManager_new mode, k) calls st ->
  asked st.2 = foldl (fun t c => set_policy_spec c.1 c.2 t) (∅, ∅) calls /\ in_sync st.
Proof.
  intros Hk. pose proof (in_sync_new mode k Hk) as H0.
  replace (∅, ∅) with (asked (ProcessPolicyManager_new mode, k).2) by (unfold asked; cbn; by rewrite Hk).
  clear Hk. revert H0. generalize (ProcessPolicyManager_new mode, k) as st0.
  intros st0 H0 Hrun. induction Hrun as [|st1 st2 st3 c cs Hstep Hrun IH]; [done|].
  destruct Hstep as [order l w st1 Ho].
  destruct (set_policy_asked order l w st1 Ho H0) as [HT _].
  destruct (IH (set_policy_in_sync order l w st1 Ho H0)) as [-> ?].
  split; [|done]. simpl. by rewrite HT.
Qed.

Lemma policy_history_refines_witness :
  asked (set_policy_process elements_order ["b"] false
    (set_policy_process elements_order ["a"; "b"] true
       (ProcessPolicyManager_new true, open_files))).2 = ({["a"]}, {["b"]}).
Proof.
  destruct (policy_history_refines true [(["a"; "b"], true); (["b"], false)] open_files
    (set_policy_process elements_order ["b"] false
      (set_policy_process elements_order ["a"; "b"] true
       (ProcessPolicyManager_new true, open_files)))) as [H _]; [done| |].
  - repeat (econstructor; [by constructor; auto with agent|]). constructor.
  - rewrite H. by vm_compute.
Defined.

(** the agent tries to notify the module, once, exactly when a call changes
    the lists it has asked for; a call that changes nothing touches no file. *)
Theorem set_policy_notifies order l w st :
  order_ok order -> in_sync st ->
  let k' := (set_policy_process order l w st).2 in
  if decide (set_policy_spec l w (asked st.2) = asked st.2)
  then k' = st.2
  else process_tried k' = process_tried st.2 ++ [default true (head (process_answers st.2))].
Proof.
  intros Ho Hsync. cbv zeta. case_decide as Hd.
  - pose proof Hsync as [Hk _]. rewrite Hk in Hd. by apply set_policy_noop.
  - by apply (set_policy_asked order l w st Ho Hsync).
Qed.

Lemma set_policy_notifies_witness :
  process_tried (set_policy_process elements_order ["a"] true
    (ProcessPolicyManager_new true, open_files)).2 = [true].
Proof.
  pose proof (set_policy_notifies elements_order ["a"] true
    (ProcessPolicyManager_new true, open_files)) as H.
  cbv zeta in H. rewrite decide_False in H by (intros [=]; set_solver).
  apply H; auto with agent.
Defined.

Lemma set_policy_spec_idemp l w t :
  set_policy_spec l w (set_policy_spec l w t) = set_policy_spec l w t.
Proof. unfold set_policy_spec. destruct w; cbn; f_equal; set_solver. Qed.

(** rules that could not be written are lost for good: whatever became of the
    writes of a call, the same call repeated touches no file. *)
Theorem set_policy_lost_rules order order' l w st :
  order_ok order -> order_ok order' ->
  let st1 := set_policy_process order l w st in
  (set_policy_process order' l w st1).2 = st1.2.
Proof.
  intros Ho Ho'. cbv zeta. apply set_policy_noop; [done|].
  pose proof (set_policy_prev order l w st Ho) as Hp. cbv zeta in Hp.
  rewrite Hp. apply set_policy_spec_idemp.
Qed.

Lemma set_policy_lost_rules_witness :
  let st1 := set_policy_process elements_order ["a"] false
               (ProcessPolicyManager_new true, fresh_files (∅, ∅) [false]) in
  kernel_table st1.2 = (∅, ∅)
  /\ (set_policy_process elements_order ["a"] false st1).2 = st1.2.
Proof.
  split; [by vm_compute|].
  apply (set_policy_lost_rules elements_order elements_order ["a"] false
    (ProcessPolicyManager_new true, fresh_files (∅, ∅) [false])); auto with agent.
Defined.
