(* ===== verification/NetBlock.v ===== *)
(** * The IP block list and its expiry tasks

    [crates/netblock/src/ip_policy.rs]: the global map of blocked addresses,
    one expiry task per temporary policy, and the rewrite of the two kernel
    lists on every change.  [update_and_write_policies] holds both locks for
    its whole body and an expiry task takes them in the same order, so each is
    one atomic step; time and the scheduling of tasks are steps of their own. *)

From S2P Require Import Prelude RustStr.

(** ** State *)

Record IpPolicy := {
  direction : Z;
  ip : string;
  duration : Z;       (* seconds, 0 is permanent *)
  is_ipv6 : bool
}.

(** A spawned expiry task: [sleep(duration)] counted from its creation, then
    the removal of [timer_ip]. *)
Record timer := { timer_id : nat; timer_ip : string; not_before : Z }.

(** A [/proc] list file: what opening it and writing each line does, and every
    line written so far. *)
Record list_file := {
  open_error : option string;
  write_error : string -> option string;
  written : list string
}.

Record state := {
  policies : gmap string IpPolicy;      (* IP_POLICIES *)
  tasks : gmap string nat;              (* IP_EXPIRY_TASKS: handle of each ip *)
  live : list timer;                    (* tasks the runtime still holds *)
  next_id : nat;
  now : Z;
  v4_file : list_file;                  (* block_saddr_rt *)
  v6_file : list_file                   (* block_saddr_rt_v6 *)
}.

Definition initial (f4 f6 : list_file) : state :=
  {| policies := ∅; tasks := ∅; live := []; next_id := 0; now := 0; v4_file := f4; v6_file := f6 |}.

(** ** Writing the kernel lists *)

Definition v4_path : string := "/proc/osec/osec_conn/block_saddr_rt".
Definition v6_path : string := "/proc/osec/osec_conn/block_saddr_rt_v6".
Definition clear_line : string := "c" +:+ String line_feed "".
Definition ip_line (p : IpPolicy) : string := ip p +:+ String line_feed "".

Definition put_line (line : string) (f : list_file) : list_file :=
  {| open_error := open_error f; write_error := write_error f; written := written f ++ [line] |}.

Fixpoint write_ips (path : string) (ps : list IpPolicy) (f : list_file)
    : result string unit * list_file :=
  match ps with
  | [] => (Ok tt, f)
  | p :: ps =>
    match write_error f (ip_line p) with
    | Some e => (Err ("Failed to write IP " +:+ ip p +:+ " to " +:+ path +:+ ": " +:+ e), f)
    | None => write_ips path ps (put_line (ip_line p) f)
    end
  end.

(** Lines 104-127 and 130-153: open, clear, write the addresses. *)
Definition write_list (path : string) (ps : list IpPolicy) (f : list_file)
    : result string unit * list_file :=
  match open_error f with
  | Some e => (Err ("Failed to open " +:+ path +:+ ": " +:+ e), f)
  | None =>
    match write_error f clear_line with
    | Some e => (Err ("Failed to write 'c\n' to " +:+ path +:+ ": " +:+ e), f)
    | None => write_ips path ps (put_line clear_line f)
    end
  end.

(** [values] is the order in which the hash map's values are visited. *)
Definition write_policies_to_proc (values : gmap string IpPolicy -> list IpPolicy) (st : state)
    : result string unit * state :=
  let vs := values (policies st) in
  let ipv4_policies := List.filter (fun p => negb (is_ipv6 p)) vs in
  let ipv6_policies := List.filter is_ipv6 vs in
  let '(r4, f4) := write_list v4_path ipv4_policies (v4_file st) in
  let st4 := {| policies := policies st; tasks := tasks st; live := live st;
                next_id := next_id st; now := now st; v4_file := f4; v6_file := v6_file st |} in
  match r4 with
  | Err e => (Err e, st4)
  | Ok _ =>
    let '(r6, f6) := write_list v6_path ipv6_policies (v6_file st) in
    (r6, {| policies := policies st; tasks := tasks st; live := live st;
            next_id := next_id st; now := now st; v4_file := f4; v6_file := f6 |})
  end.

(** ** Updating *)

(** [task.abort()]. *)
Definition abort (id : nat) (l : list timer) : list timer :=
  retain (fun t => negb (Nat.eqb (timer_id t) id)) l.

(** One iteration of the loop of lines 33-75. *)
Definition update_policy (policy : IpPolicy) (st : state) : state :=
  let has_task := bool_decide (is_Some (tasks st !! ip policy)) in
  let st' :=
    if (duration policy =? 0) && has_task then
      match tasks st !! ip policy with
      | Some id =>
        {| policies := policies st; tasks := delete (ip policy) (tasks st);
           live := abort id (live st); next_id := next_id st; now := now st;
           v4_file := v4_file st; v6_file := v6_file st |}
      | None => st
      end
    else if (0 <? duration policy) && negb has_task then
      {| policies := policies st; tasks := <[ip policy := next_id st]> (tasks st);
         live := live st ++ [{| timer_id := next_id st; timer_ip := ip policy;
                                not_before := now st + duration policy |}];
         next_id := S (next_id st); now := now st;
         v4_file := v4_file st; v6_file := v6_file st |}
    else st in
  {| policies := <[ip policy := policy]> (policies st'); tasks := tasks st'; live := live st';
     next_id := next_id st'; now := now st'; v4_file := v4_file st'; v6_file := v6_file st' |}.

Definition update_policies (ps : list IpPolicy) (st : state) : state :=
  foldl (fun st p => update_policy p st) st ps.

Definition update_and_write_policies (values : gmap string IpPolicy -> list IpPolicy)
    (ps : list IpPolicy) (st : state) : result string unit * state :=
  write_policies_to_proc values (update_policies ps st).

(** Lines 52-62: the body of an expiry task once it has slept. *)
Definition expire (values : gmap string IpPolicy -> list IpPolicy) (t : timer) (st : state)
    : state :=
  (write_policies_to_proc values
    {| policies := delete (timer_ip t) (policies st); tasks := delete (timer_ip t) (tasks st);
       live := abort (timer_id t) (live st); next_id := next_id st; now := now st;
       v4_file := v4_file st; v6_file := v6_file st |}).2.

(** ** Steps *)

Definition values_ok (values : gmap string IpPolicy -> list IpPolicy) : Prop :=
  forall m, values m ≡ₚ (map_to_list m).*2.

Inductive step : state -> state -> Prop :=
| step_update values ps st :
    values_ok values -> Forall (fun p => 0 <= duration p) ps ->
    step st (update_and_write_policies values ps st).2
| step_time st d :
    0 <= d ->
    step st {| policies := policies st; tasks := tasks st; live := live st;
               next_id := next_id st; now := now st + d;
               v4_file := v4_file st; v6_file := v6_file st |}
| step_expire values t st :
    values_ok values -> t ∈ live st -> not_before t <= now st ->
    step st (expire values t st).

(** ** Specification *)

(** The addresses a list file holds: the lines since it was last cleared. *)
Definition held (f : list_file) : list string :=
  foldl (fun acc l => if bool_decide (l = clear_line) then [] else acc ++ [l]) [] (written f).

(** Every policy sits under its own address; an address has an expiry task
    exactly when its policy is temporary; the task handles and the live tasks
    are in one-to-one correspondence. *)
Record wf (st : state) : Prop := {
  wf_key : forall i p, policies st !! i = Some p -> ip p = i;
  wf_temporary : forall i, is_Some (tasks st !! i) <->
    exists p, policies st !! i = Some p /\ 0 < duration p;
  wf_duration : forall i p, policies st !! i = Some p -> 0 <= duration p;
  wf_handle : forall i id, tasks st !! i = Some id <->
    exists t, t ∈ live st /\ timer_id t = id /\ timer_ip t = i;
  wf_ids : NoDup (timer_id <$> live st);
  wf_fresh : forall t, t ∈ live st -> (timer_id t < next_id st)%nat
}.

(** ** Lemmas *)

Lemma write_list_error_kept path ps f :
  open_error (write_list path ps f).2 = open_error f /\
  write_error (write_list path ps f).2 = write_error f.
Proof.
  assert (forall ps f, open_error (write_ips path ps f).2 = open_error f /\
    write_error (write_ips path ps f).2 = write_error f) as Hips.
  { clear. induction ps as [|p ps IH]; intros f; cbn [write_ips]; [done|].
    case_match; [done|]. apply (IH (put_line (ip_line p) f)). }
  unfold write_list. repeat case_match; try done.
  destruct (Hips ps (put_line clear_line f)) as [-> ->]. by split.
Qed.

(** Writing the lists changes nothing but the files. *)
Lemma write_policies_state values st :
  let st' := (write_policies_to_proc values st).2 in
  policies st' = policies st /\ tasks st' = tasks st /\ live st' = live st /\
  next_id st' = next_id st /\ now st' = now st.
Proof.
  unfold write_policies_to_proc. destruct (write_list v4_path _ _) as [[[]|] f4]; [|done].
  by destruct (write_list v6_path _ _) as [r6 f6].
Qed.

Lemma live_inj st t1 t2 :
  wf st -> t1 ∈ live st -> t2 ∈ live st -> timer_id t1 = timer_id t2 -> t1 = t2.
Proof.
  intros Hwf [i1 H1]%list_elem_of_lookup [i2 H2]%list_elem_of_lookup Hid.
  assert (i1 = i2) as ->; [|congruence].
  eapply NoDup_lookup; [apply (wf_ids st Hwf)|..]; rewrite list_lookup_fmap.
  - by rewrite H1.
  - rewrite H2. simpl. by rewrite Hid.
Qed.

Lemma elem_of_abort t id l : t ∈ abort id l <-> timer_id t <> id /\ t ∈ l.
Proof.
  unfold abort. rewrite elem_of_retain, negb_true_iff, Nat.eqb_neq. done.
Qed.

(** Dropping a handle together with its task keeps the correspondence. *)
Lemma handle_abort st i0 id :
  wf st -> tasks st !! i0 = Some id ->
  forall i id', delete i0 (tasks st) !! i = Some id' <->
    exists t, t ∈ abort id (live st) /\ timer_id t = id' /\ timer_ip t = i.
Proof.
  intros Hwf Hid i id'. rewrite lookup_delete_Some. split.
  - intros [Hne Hi]. apply (wf_handle st Hwf) in Hi as (t & Ht & <- & <-).
    exists t. split_and!; [|done..]. apply elem_of_abort. split; [|done]. intros Heq.
    apply (wf_handle st Hwf) in Hid as (t0 & Ht0 & Hid0 & <-).
    apply Hne. f_equal. eapply live_inj; [done..|]. congruence.
  - intros (t & [Hne Ht]%elem_of_abort & <- & <-).
    assert (tasks st !! timer_ip t = Some (timer_id t)) as Hti
      by (apply (wf_handle st Hwf); eauto).
    split; [|done]. intros ->. congruence.
Qed.

(** Two states with the same maps, tasks and counter are well formed together. *)
Lemma wf_ext st st' :
  policies st' = policies st -> tasks st' = tasks st -> live st' = live st ->
  next_id st' = next_id st -> wf st -> wf st'.
Proof.
  intros H1 H2 H3 H4 [? ? ? ? ? ?].
  constructor; rewrite ?H1, ?H2, ?H3, ?H4; done.
Qed.

Lemma wf_initial f4 f6 : wf (initial f4 f6).
Proof.
  constructor; cbn; try (intros *; rewrite ?lookup_empty; naive_solver); [|constructor|set_solver].
  intros i id. rewrite lookup_empty. split; [done|]. intros (t & Ht & _). set_solver.
Qed.

Lemma policies_insert_props (m : gmap string IpPolicy) p :
  0 <= duration p ->
  (forall i q, m !! i = Some q -> ip q = i) -> (forall i q, m !! i = Some q -> 0 <= duration q) ->
  (forall i q, <[ip p := p]> m !! i = Some q -> ip q = i) /\
  (forall i q, <[ip p := p]> m !! i = Some q -> 0 <= duration q).
Proof.
  intros Hp H1 H2. split; intros i q; rewrite lookup_insert_Some; intros [[<- <-]|[_ Hq]]; eauto.
Qed.

Lemma wf_update_policy p st : 0 <= duration p -> wf st -> wf (update_policy p st).
Proof.
  intros Hp Hwf. pose proof Hwf as [Hkey Htmp Hdur Hhan Hids Hfresh].
  destruct (policies_insert_props (policies st) p Hp Hkey Hdur) as [Hkey' Hdur'].
  unfold update_policy. destruct (tasks st !! ip p) as [id|] eqn:Hid.
  - rewrite bool_decide_eq_true_2 by eauto. cbn [negb]. rewrite andb_true_r, andb_false_r.
    destruct (Z.eqb_spec (duration p) 0) as [H0|H0]; constructor; cbn; try done.
    + intros i. destruct (decide (i = ip p)) as [->|Hne].
      * rewrite lookup_delete_eq, lookup_insert_eq.
        split; [by intros []|intros (q & [= <-] & ?); lia].
      * rewrite lookup_delete_ne, lookup_insert_ne by done. apply Htmp.
    + by apply handle_abort.
    + by apply NoDup_fmap_retain.
    + intros t [_ Ht]%elem_of_abort. by apply Hfresh.
    + intros i. destruct (decide (i = ip p)) as [->|Hne].
      * rewrite lookup_insert_eq, Hid. split; [|by eauto]. intros _. exists p. split; [done|lia].
      * by rewrite lookup_insert_ne by done.
  - rewrite bool_decide_eq_false_2 by (by intros []). cbn [negb].
    rewrite andb_true_r, andb_false_r.
    destruct (Z.ltb_spec 0 (duration p)) as [H0|H0]; constructor; cbn; try done.
    + intros i. destruct (decide (i = ip p)) as [->|Hne].
      * rewrite !lookup_insert_eq. split; [|by eauto]. intros _. by exists p.
      * rewrite !lookup_insert_ne by done. apply Htmp.
    + intros i id. rewrite lookup_insert_Some. split.
      * intros [[<- <-]|[Hne Hi]].
        -- eexists. split; [apply elem_of_app; right; apply list_elem_of_singleton; done|done].
        -- apply Hhan in Hi as (t & Ht & ?). exists t. split; [set_solver|done].
      * intros (t & [Ht| ->%list_elem_of_singleton]%elem_of_app & <- & <-); [|by left].
        right. assert (tasks st !! timer_ip t = Some (timer_id t)) as Hti by (apply Hhan; eauto).
        split; [|done]. intros Heq. rewrite <- Heq in Hti. congruence.
    + rewrite fmap_app. apply NoDup_app. split_and!; [done| |apply NoDup_singleton].
      intros k (t & -> & Ht)%list_elem_of_fmap Hk%list_elem_of_singleton.
      apply Hfresh in Ht. simpl in Hk. lia.
    + intros t [Ht| ->%list_elem_of_singleton]%elem_of_app; [apply Hfresh in Ht|simpl]; lia.
    + intros i. destruct (decide (i = ip p)) as [->|Hne].
      * rewrite lookup_insert_eq, Hid. split; [by intros []|]. intros (q & [= <-] & ?). lia.
      * by rewrite lookup_insert_ne by done.
Qed.

Lemma wf_update_policies ps st :
  Forall (fun p => 0 <= duration p) ps -> wf st -> wf (update_policies ps st).
Proof.
  unfold update_policies. intros Hps. revert st.
  induction Hps as [|p ps Hp Hps IH]; intros st Hwf; [done|]. cbn. by apply IH, wf_update_policy.
Qed.

Lemma wf_expire values t st : t ∈ live st -> wf st -> wf (expire values t st).
Proof.
  intros Ht Hwf. unfold expire.
  destruct (write_policies_state values
    {| policies := delete (timer_ip t) (policies st); tasks := delete (timer_ip t) (tasks st);
       live := abort (timer_id t) (live st); next_id := next_id st; now := now st;
       v4_file := v4_file st; v6_file := v6_file st |}) as (H1 & H2 & H3 & H4 & _).
  eapply wf_ext; [exact H1|exact H2|exact H3|exact H4|]. clear H1 H2 H3 H4.
  pose proof Hwf as [Hkey Htmp Hdur Hhan Hids Hfresh].
  assert (tasks st !! timer_ip t = Some (timer_id t)) as Hti by (apply Hhan; eauto).
  constructor; cbn.
  - intros i p [_ Hi]%lookup_delete_Some. by apply Hkey.
  - intros i. destruct (decide (i = timer_ip t)) as [->|Hne].
    + rewrite !lookup_delete_eq. split; [by intros []|by intros (q & ? & _)].
    + rewrite !lookup_delete_ne by done. apply Htmp.
  - intros i p [_ Hi]%lookup_delete_Some. by eapply Hdur.
  - by apply handle_abort.
  - by apply NoDup_fmap_retain.
  - intros t' [_ Ht']%elem_of_abort. by apply Hfresh.
Qed.

Lemma step_wf st st' : step st st' -> wf st -> wf st'.
Proof.
  intros [values ps st0 Hv Hps|st0 d Hd|values t st0 Hv Ht Hn] Hwf.
  - unfold update_and_write_policies.
    destruct (write_policies_state values (update_policies ps st0)) as (H1 & H2 & H3 & H4 & _).
    eapply wf_ext; [exact H1|exact H2|exact H3|exact H4|]. by apply wf_update_policies.
  - by eapply wf_ext; [..|exact Hwf].
  - by apply wf_expire.
Qed.

Lemma rtc_wf st st' : rtc step st st' -> wf st -> wf st'.
Proof.
  induction 1 as [|x y z Hxy _ IH]; intros Hx; [done|]. by eapply IH, step_wf.
Qed.

Lemma update_policy_policies p st :
  policies (update_policy p st) = <[ip p := p]> (policies st).
Proof. unfold update_policy. cbv zeta. repeat case_match; reflexivity. Qed.

Lemma update_policies_files ps st :
  v4_file (update_policies ps st) = v4_file st /\ v6_file (update_policies ps st) = v6_file st.
Proof.
  unfold update_policies. revert st. induction ps as [|p ps IH]; intros st; [done|].
  cbn. destruct (IH (update_policy p st)) as [-> ->].
  unfold update_policy. cbv zeta. repeat case_match; split; reflexivity.
Qed.

(** C5: in every state the agent can reach, under any interleaving of updates,
    passing time and expiring tasks: a policy is stored under its own address,
    an address has a live expiry task exactly when its policy is temporary,
    and the task handles and the live tasks correspond one to one. *)
Theorem netblock_invariant f4 f6 st : rtc step (initial f4 f6) st -> wf st.
Proof.
  intros H. eapply rtc_wf; [exact H|apply wf_initial].
Qed.

Definition open_file : list_file :=
  {| open_error := None; write_error := fun _ => None; written := [] |}.
Definition map_values (m : gmap string IpPolicy) : list IpPolicy := (map_to_list m).*2.
Lemma map_values_ok : values_ok map_values.
Proof. by intros m. Qed.
Definition block_5min : IpPolicy :=
  {| direction := 1; ip := "10.0.0.7"; duration := 300; is_ipv6 := false |}.

Lemma netblock_invariant_witness :
  wf (update_and_write_policies map_values [block_5min] (initial open_file open_file)).2.
Proof.
  apply (netblock_invariant open_file open_file). apply rtc_once, step_update; [exact map_values_ok|].
  constructor; [by vm_compute|constructor].
Defined.

(** a permanent block is never lifted by an expiry task: from a reachable
    state, whatever happens next, the address of a policy with duration 0
    stays in the block map. *)
Theorem permanent_block_stays f4 f6 st st' i p :
  rtc step (initial f4 f6) st -> step st st' ->
  policies st !! i = Some p -> duration p = 0 ->
  is_Some (policies st' !! i).
Proof.
  intros Hr Hs Hi Hp.
  assert (wf st) as Hwf by (eapply rtc_wf; [exact Hr|apply wf_initial]).
  destruct Hs as [values ps st0 Hv Hps|st0 d Hd|values t st0 Hv Ht Hn].
  - unfold update_and_write_policies.
    destruct (write_policies_state values (update_policies ps st0)) as (-> & _).
    assert (is_Some (policies st0 !! i)) as Hsome by eauto. clear -Hsome.
    unfold update_policies. revert st0 Hsome. induction ps as [|q ps IH]; intros st0 Hsome; [done|].
    cbn. apply IH. rewrite update_policy_policies.
    rewrite lookup_insert_is_Some. destruct (decide (ip q = i)); eauto.
  - eauto.
  - unfold expire.
    match goal with |- context [write_policies_to_proc values ?s] =>
      destruct (write_policies_state values s) as (-> & _) end. cbn.
    assert (is_Some (tasks st0 !! timer_ip t)) as (q & Hq & Hdq)%(wf_temporary st0 Hwf).
    { exists (timer_id t). apply (wf_handle st0 Hwf). eauto. }
    rewrite lookup_delete_ne; [by eauto|]. intros <-. simplify_eq. lia.
Qed.

Definition block_forever : IpPolicy :=
  {| direction := 1; ip := "10.0.0.8"; duration := 0; is_ipv6 := false |}.

Lemma permanent_block_stays_witness :
  let st := (update_and_write_policies map_values [block_forever; block_5min]
               (initial open_file open_file)).2 in
  let st' := {| policies := policies st; tasks := tasks st; live := live st;
                next_id := next_id st; now := now st + 1000;
                v4_file := v4_file st; v6_file := v6_file st |} in
  is_Some (policies st' !! "10.0.0.8").
Proof.
  cbv zeta. eapply (permanent_block_stays open_file open_file _ _ "10.0.0.8" block_forever).
  - apply rtc_once, (step_update map_values [block_forever; block_5min]); [exact map_values_ok|].
    repeat (constructor; [by vm_compute|]). constructor.
  - apply step_time. lia.
  - by vm_compute.
  - done.
Defined.

(** *** The kernel lists *)

Definition no_c (m : gmap string IpPolicy) : Prop := map_Forall (fun _ p => ip p <> "c") m.

Lemma ip_line_not_clear p : ip p <> "c" -> ip_line p <> clear_line.
Proof.
  unfold ip_line, clear_line. intros Hne Heq. apply Hne.
  destruct (ip p) as [|a [|b s]]; [done| |].
  - rewrite str_app_cons in Heq. injection Heq as ->. done.
  - rewrite !str_app_cons in Heq. injection Heq as -> ->. by destruct s.
Qed.

Lemma write_ips_Ok path ps : forall f f',
  write_ips path ps f = (Ok tt, f') -> written f' = written f ++ (ip_line <$> ps).
Proof.
  induction ps as [|p ps IH]; intros f f'; cbn [write_ips].
  - intros [= <-]. by rewrite app_nil_r.
  - case_match; [done|]. intros ->%IH. cbn. by rewrite <- app_assoc.
Qed.

Lemma held_lines acc ls :
  Forall (fun l => l <> clear_line) ls ->
  foldl (fun acc l => if bool_decide (l = clear_line) then [] else acc ++ [l]) acc ls = acc ++ ls.
Proof.
  intros Hls. revert acc. induction Hls as [|l ls Hl Hls IH]; intros acc; cbn;
    [by rewrite app_nil_r|].
  rewrite bool_decide_eq_false_2, IH by done. by rewrite <- app_assoc.
Qed.

Lemma write_list_held path ps f f' :
  Forall (fun p => ip p <> "c") ps -> write_list path ps f = (Ok tt, f') ->
  held f' = ip_line <$> ps.
Proof.
  intros Hps. unfold write_list. repeat case_match; try done. intros Hwr%write_ips_Ok.
  unfold held. rewrite Hwr. cbn. rewrite <- app_assoc, foldl_app. cbn.
  rewrite bool_decide_eq_true_2 by done. rewrite held_lines; [done|].
  apply Forall_fmap. eapply Forall_impl; [exact Hps|]. intros p. apply ip_line_not_clear.
Qed.

(** The policies of one family, in any order. *)
Definition family (v6 : bool) (m : gmap string IpPolicy) : list IpPolicy :=
  List.filter (fun p => Bool.eqb (is_ipv6 p) v6) (map_to_list m).*2.

Lemma filter_Permutation {A} (f : A -> bool) l1 l2 :
  l1 ≡ₚ l2 -> List.filter f l1 ≡ₚ List.filter f l2.
Proof.
  induction 1; cbn; repeat case_match; try done; [by constructor|by constructor|by etrans].
Qed.

Lemma family_values values v6 m :
  values_ok values -> List.filter (fun p => Bool.eqb (is_ipv6 p) v6) (values m) ≡ₚ family v6 m.
Proof. intros Hv. apply filter_Permutation, Hv. Qed.

Lemma no_c_family values m (f : IpPolicy -> bool) :
  values_ok values -> no_c m -> Forall (fun p => ip p <> "c") (List.filter f (values m)).
Proof.
  intros Hv Hm. apply Forall_forall. intros p Hp.
  apply list_elem_of_In, List.filter_In in Hp as [Hp _]. apply list_elem_of_In in Hp.
  rewrite (Hv m) in Hp. apply list_elem_of_fmap in Hp as ([i q] & -> & Hq).
  apply elem_of_map_to_list in Hq. by apply (Hm i).
Qed.

(** when a write succeeds, each kernel list holds exactly the addresses of
    its family in the block map, each once, in some order: nothing stays
    blocked that the map does not block and nothing is missing (no address
    being the clear command [c]). *)
Theorem write_mirrors_policies values st st' :
  values_ok values -> no_c (policies st) ->
  write_policies_to_proc values st = (Ok tt, st') ->
  held (v4_file st') ≡ₚ ip_line <$> family false (policies st') /\
  held (v6_file st') ≡ₚ ip_line <$> family true (policies st').
Proof.
  intros Hv Hc Hw. unfold write_policies_to_proc in Hw.
  destruct (write_list v4_path _ _) as [[[]|] f4] eqn:H4; [|done].
  destruct (write_list v6_path _ _) as [r6 f6] eqn:H6. simplify_eq. cbn.
  apply write_list_held in H4; [|by apply no_c_family].
  apply write_list_held in H6; [|by apply no_c_family].
  rewrite H4, H6, <- !(family_values values) by done. split; f_equiv.
  - apply reflexive_eq, List.filter_ext. intros p. by destruct (is_ipv6 p).
  - apply reflexive_eq, List.filter_ext. intros p. by destruct (is_ipv6 p).
Qed.

Lemma write_mirrors_policies_witness :
  held (v4_file (update_and_write_policies map_values [block_5min]
                   (initial open_file open_file)).2) ≡ₚ ["10.0.0.7" +:+ String line_feed ""].
Proof.
  destruct (write_mirrors_policies map_values
    (update_policies [block_5min] (initial open_file open_file))
    (update_and_write_policies map_values [block_5min] (initial open_file open_file)).2)
    as [H _]; [exact map_values_ok| |by vm_compute|].
  - apply map_Forall_insert; [done|]. split; [done|]. apply map_Forall_empty.
  - rewrite H. by vm_compute.
Defined.

(** renewing a temporary block does not extend it: an update with a
    positive duration for an address that already has an expiry task leaves
    the task alone, and once that task's original time has come it removes the
    renewed policy, whatever its new duration. *)
Theorem renewal_keeps_deadline values t p st :
  wf st -> t ∈ live st -> timer_ip t = ip p -> 0 < duration p ->
  live (update_policy p st) = live st /\
  policies (update_policy p st) !! ip p = Some p /\
  policies (expire values t (update_policy p st)) !! ip p = None.
Proof.
  intros Hwf Ht Hip Hp.
  assert (tasks st !! ip p = Some (timer_id t)) as Hti by (apply (wf_handle st Hwf); eauto).
  unfold expire.
  match goal with |- context [write_policies_to_proc values ?s] =>
    destruct (write_policies_state values s) as (-> & _) end. cbn [policies].
  rewrite Hip, lookup_delete_eq. unfold update_policy. rewrite Hti.
  rewrite bool_decide_eq_true_2 by eauto. cbn [negb]. rewrite andb_true_r, andb_false_r.
  rewrite (proj2 (Z.eqb_neq _ _)) by lia. cbn. by rewrite lookup_insert_eq.
Qed.

Definition block_1day : IpPolicy :=
  {| direction := 1; ip := "10.0.0.7"; duration := 86400; is_ipv6 := false |}.

Lemma renewal_keeps_deadline_witness :
  let st := (update_and_write_policies map_values [block_5min] (initial open_file open_file)).2 in
  policies (expire map_values {| timer_id := 0; timer_ip := "10.0.0.7"; not_before := 300 |}
              (update_policy block_1day st)) !! "10.0.0.7" = None.
Proof.
  cbv zeta. apply (renewal_keeps_deadline map_values
    {| timer_id := 0; timer_ip := "10.0.0.7"; not_before := 300 |} block_1day).
  - eapply step_wf; [|apply (wf_initial open_file open_file)].
    apply step_update; [exact map_values_ok|]. constructor; [by vm_compute|constructor].
  - vm_compute. left.
  - done.
  - by vm_compute.
Defined.

(** when the IPv4 list cannot be opened the update fails with that error
    and the IPv6 list is not written, although the block map and the tasks
    have been updated. *)
Theorem update_v4_open_error values ps st e :
  open_error (v4_file st) = Some e ->
  let '(r, st') := update_and_write_policies values ps st in
  r = Err ("Failed to open " +:+ v4_path +:+ ": " +:+ e) /\
  v6_file st' = v6_file st /\ v4_file st' = v4_file st /\
  policies st' = policies (update_policies ps st) /\ tasks st' = tasks (update_policies ps st).
Proof.
  intros He. unfold update_and_write_policies, write_policies_to_proc.
  destruct (update_policies_files ps st) as [H4 H6].
  rewrite H4, H6. unfold write_list. rewrite He. done.
Qed.

Lemma update_v4_open_error_witness :
  let closed := {| open_error := Some "ENOENT"; write_error := fun _ => None; written := [] |} in
  (update_and_write_policies map_values [block_5min] (initial closed open_file)).1 =
    Err "Failed to open /proc/osec/osec_conn/block_saddr_rt: ENOENT".
Proof.
  pose proof (update_v4_open_error map_values [block_5min]
    (initial {| open_error := Some "ENOENT"; write_error := fun _ => None; written := [] |}
       open_file) "ENOENT" eq_refl) as H.
  cbv zeta. destruct (update_and_write_policies _ _ _) as [r st']. by destruct H as [-> _].
Defined.
