(* ===== verification/Zcopy.v ===== *)
(** * The zero-copy audit rings

    [crates/zcopy_mgr/src/lib.rs]: the records the kernel module writes into
    shared memory, and the manager that finds the UIO device, maps its five
    regions, hands out records by ring index and releases everything when it
    is dropped.

    The operating system is a parameter: sysfs, the descriptor and address
    choices of [open] and [mmap] are fields of [os], and the class [OsLaws]
    states what their manual pages promise.  Descriptors and mappings are
    state, so that what the manager leaks or releases is a statement about the
    state after [new] and [drop]. *)

From S2P Require Import Prelude RustStr Bytes.

(** ** Record layouts

    [#[repr(C)]]: a field is placed at the next multiple of its alignment and
    the size is rounded up to the largest alignment.  Fields are (size,
    alignment); [u64] is aligned to 8 as on the 64-bit targets. *)

Definition align_up (a x : Z) : Z := (x + a - 1) / a * a.

Fixpoint offsets_from (off : Z) (fields : list (Z * Z)) : list Z * Z :=
  match fields with
  | [] => ([], off)
  | (size, align) :: fields =>
    let o := align_up align off in
    let '(os, last) := offsets_from (o + size) fields in (o :: os, last)
  end.

Definition offsets_of (fields : list (Z * Z)) : list Z := (offsets_from 0 fields).1.
Definition size_of (fields : list (Z * Z)) : Z :=
  align_up (foldr Z.max 1 fields.*2) (offsets_from 0 fields).2.

Definition u8s (n : Z) : Z * Z := (n, 1).
Definition u16_field : Z * Z := (2, 2).
Definition u32_field : Z * Z := (4, 4).
Definition IpAddrUnion : Z * Z := (16, 8).
Definition MAX_PROCESS_PATH : Z := 512.

Definition OsecNetworkReport_layout : list (Z * Z) :=
  [IpAddrUnion; u16_field; IpAddrUnion; u16_field; u32_field; u8s 128].

Definition OsecOpenportReport_layout : list (Z * Z) :=
  [u32_field; IpAddrUnion; u16_field; IpAddrUnion; IpAddrUnion; u16_field; u32_field; u8s 128].

Definition OsecDnsReport_layout : list (Z * Z) :=
  [u32_field; u32_field; u16_field; u32_field; u16_field; u32_field; u8s 128;
   u8s 1; u8s 1; (48, 4); u8s 255].

Definition AvProcessInfo_layout : list (Z * Z) :=
  [u8s 16; u32_field; u32_field; u8s MAX_PROCESS_PATH].

Definition AvFileInfo_layout : list (Z * Z) :=
  [u32_field; u32_field; u32_field; u8s 128; u8s 16; u8s 512; u8s 512; u16_field; u16_field].

(** The assertion the source makes at compile time. *)
Example AvProcessInfo_size : size_of AvProcessInfo_layout = 536.
Proof. reflexivity. Qed.

Example AvProcessInfo_path_offset : offsets_of AvProcessInfo_layout !! 3%nat = Some 24.
Proof. reflexivity. Qed.

Example AvFileInfo_size : size_of AvFileInfo_layout = 1184.
Proof. reflexivity. Qed.

(** ** Process records *)

Record AvProcessInfo := {
  union_data : list Z;  (** 16 bytes: pid, ppid, uid, unused; or an MD5 *)
  type_ : Z;            (** i32 *)
  flags : Z;            (** u32 *)
  path : list Z         (** 512 bytes *)
}.

Record AvProcessFlags := {
  is_dir : Z;
  deny : Z;
  param_pos : Z;
  level : Z;
  is_monitor_mode : Z;
  is_docker_process : bool
}.

(** [impl From<u32> for AvProcessFlags]. *)
Definition flags_from (fl : Z) : AvProcessFlags := {|
  is_dir := wrap 8 (Z.land (Z.shiftr fl 0) 7);
  deny := wrap 8 (Z.land (Z.shiftr fl 3) 7);
  param_pos := wrap 16 (Z.land (Z.shiftr fl 6) 1023);
  level := wrap 8 (Z.land (Z.shiftr fl 16) 7);
  is_monitor_mode := wrap 8 (Z.land (Z.shiftr fl 19) 3);
  is_docker_process := negb (Z.land (Z.shiftr fl 21) 1 =? 0)
|}.

Definition flags_parsed (i : AvProcessInfo) : AvProcessFlags := flags_from (flags i).

(** [ptr::read_unaligned] of the union as [[i32; 4]]. *)
Definition read_i32 (t : target) (i : AvProcessInfo) (k : nat) : Z :=
  to_signed 32 (from_ne_bytes t (take 4 (drop (4 * k) (union_data i)))).
Definition pid (t : target) (i : AvProcessInfo) : Z := read_i32 t i 0.
Definition ppid (t : target) (i : AvProcessInfo) : Z := read_i32 t i 1.
Definition uid (t : target) (i : AvProcessInfo) : Z := read_i32 t i 2.
Definition md5 (i : AvProcessInfo) : list Z := union_data i.

(** [CStr::from_ptr(path).to_str().ok()]; the outer [None] is a path without
    NUL, which [from_ptr] reads past its end. *)
Definition get_path_str (i : AvProcessInfo) : option (option string) :=
  from_utf8 <$> until_nul (path i).

(** The kernel's packing of the bit fields, the reference for [flags_from]. *)
Definition flags_ok (f : AvProcessFlags) : Prop :=
  is_uint 3 (is_dir f) /\ is_uint 3 (deny f) /\ is_uint 10 (param_pos f)
  /\ is_uint 3 (level f) /\ is_uint 2 (is_monitor_mode f).

Definition flags_pack (f : AvProcessFlags) : Z :=
  is_dir f + deny f * 2 ^ 3 + param_pos f * 2 ^ 6 + level f * 2 ^ 16
  + is_monitor_mode f * 2 ^ 19 + Z.b2z (is_docker_process f) * 2 ^ 21.

(** ** The other records *)

Record AvFileInfo := {
  fi_pid : Z;
  fi_ppid : Z;
  fi_uid : Z;
  fi_comm : list Z;
  fi_comm_p : list Z;
  fi_path : list Z;
  fi_dst_path : list Z;
  fi_log_type : Z;  (** u16 *)
  fi_flags : Z      (** u16 *)
}.

Record OsecNetworkReport := {
  nr_src : list Z;
  nr_src_port : Z;
  nr_dst : list Z;
  nr_dest_port : Z;
  nr_pid : Z;
  nr_comm : list Z
}.

Record OsecOpenportReport := {
  op_type : Z;
  op_src_ip : list Z;
  op_src_port : Z;
  op_dest_ip : list Z;
  op_attack_dest_ip : list Z;
  op_dest_port : Z;
  op_pid : Z;
  op_comm : list Z
}.

(** ** Reading records out of shared memory: a reference to a record is its
    address, its fields are the bytes at their offsets *)

Definition memory : Type := Z -> Z.

Definition read_bytes (mem : memory) (p n : Z) : list Z :=
  (fun i => mem (p + Z.of_nat i)) <$> seq 0 (Z.to_nat n).

Definition field_bytes (mem : memory) (layout : list (Z * Z)) (p : Z) (k : nat) : list Z :=
  read_bytes mem (p + nth k (offsets_of layout) 0) (nth k layout.*1 0).

Definition field_uint (t : target) (mem : memory) (layout : list (Z * Z)) (p : Z) (k : nat) : Z :=
  from_ne_bytes t (field_bytes mem layout p k).

Definition load_process (t : target) (mem : memory) (p : Z) : AvProcessInfo :=
  let l := AvProcessInfo_layout in {|
    union_data := field_bytes mem l p 0;
    type_ := to_signed 32 (field_uint t mem l p 1);
    flags := field_uint t mem l p 2;
    path := field_bytes mem l p 3
  |}.

Definition load_file (t : target) (mem : memory) (p : Z) : AvFileInfo :=
  let l := AvFileInfo_layout in {|
    fi_pid := to_signed 32 (field_uint t mem l p 0);
    fi_ppid := to_signed 32 (field_uint t mem l p 1);
    fi_uid := to_signed 32 (field_uint t mem l p 2);
    fi_comm := field_bytes mem l p 3;
    fi_comm_p := field_bytes mem l p 4;
    fi_path := field_bytes mem l p 5;
    fi_dst_path := field_bytes mem l p 6;
    fi_log_type := field_uint t mem l p 7;
    fi_flags := field_uint t mem l p 8
  |}.

Definition load_network (t : target) (mem : memory) (p : Z) : OsecNetworkReport :=
  let l := OsecNetworkReport_layout in {|
    nr_src := field_bytes mem l p 0;
    nr_src_port := field_uint t mem l p 1;
    nr_dst := field_bytes mem l p 2;
    nr_dest_port := field_uint t mem l p 3;
    nr_pid := field_uint t mem l p 4;
    nr_comm := field_bytes mem l p 5
  |}.

Definition load_openport (t : target) (mem : memory) (p : Z) : OsecOpenportReport :=
  let l := OsecOpenportReport_layout in {|
    op_type := field_uint t mem l p 0;
    op_src_ip := field_bytes mem l p 1;
    op_src_port := field_uint t mem l p 2;
    op_dest_ip := field_bytes mem l p 3;
    op_attack_dest_ip := field_bytes mem l p 4;
    op_dest_port := field_uint t mem l p 5;
    op_pid := field_uint t mem l p 6;
    op_comm := field_bytes mem l p 7
  |}.

(** ** Addresses of a report: 16 bytes *)

Definition all_zero (l : list Z) : bool := forallb (Z.eqb 0) l.

Definition is_ipv4_mapped (ip : list Z) : bool :=
  (all_zero (take 12 ip) && all_zero (take 4 (drop 12 ip)))
  || (all_zero (take 10 ip) && bool_decide (take 2 (drop 10 ip) = [255; 255])).

(** [Ipv4Addr::new(b12, b13, b14, b15)], or 0.0.0.0. *)
Definition extract_ipv4 (ip : list Z) : Z :=
  if is_ipv4_mapped ip
  then match drop 12 ip with
       | [a; b; c; d] => of_octets a b c d
       | _ => 0
       end
  else 0.

(** [u16::from_be(ip.v6[k])] for the eight groups: a native-endian load
    followed by a swap on little-endian targets. *)
Definition from_be16 (t : target) (x : Z) : Z :=
  if big_endian t then x else from_le_bytes (rev (to_le_bytes 2 x)).
Definition extract_ipv6 (t : target) (ip : list Z) : list Z :=
  (fun k => from_be16 t (from_ne_bytes t (take 2 (drop (2 * k) ip)))) <$> seq 0 8.

(** [comm] up to its NUL, all 128 bytes without one. *)
Definition comm_bytes (comm : list Z) : list Z := default comm (until_nul comm).

(** ** Properties of the records *)

Lemma land_ones_mod x k : 0 <= k -> Z.land x (2 ^ k - 1) = x mod 2 ^ k.
Proof. intros. rewrite <- Z.land_ones by done. by rewrite Z.ones_equiv, Z.sub_1_r. Qed.

(** A bit field of [k] bits at [o]. *)
Lemma bit_field x o k w :
  0 <= o -> 0 <= k <= w ->
  wrap w (Z.land (Z.shiftr x o) (2 ^ k - 1)) = (x / 2 ^ o) mod 2 ^ k.
Proof.
  intros. rewrite land_ones_mod, Z.shiftr_div_pow2 by lia. apply wrap_id.
  apply (is_uint_mono k); [lia|]. unfold is_uint. apply Z.mod_pos_bound. lia.
Qed.

Lemma flags_from_arith fl : flags_from fl = {|
  is_dir := fl mod 8;
  deny := (fl / 8) mod 8;
  param_pos := (fl / 64) mod 1024;
  level := (fl / 65536) mod 8;
  is_monitor_mode := (fl / 524288) mod 4;
  is_docker_process := negb ((fl / 2097152) mod 2 =? 0)
|}.
Proof.
  unfold flags_from. f_equal.
  - rewrite <- (Z.div_1_r fl) at 2. exact (bit_field fl 0 3 8 ltac:(lia) ltac:(lia)).
  - exact (bit_field fl 3 3 8 ltac:(lia) ltac:(lia)).
  - exact (bit_field fl 6 10 16 ltac:(lia) ltac:(lia)).
  - exact (bit_field fl 16 3 8 ltac:(lia) ltac:(lia)).
  - exact (bit_field fl 19 2 8 ltac:(lia) ltac:(lia)).
  - change 1 with (2 ^ 1 - 1) at 1. by rewrite land_ones_mod, Z.shiftr_div_pow2.
Qed.

(** Decoding a process record's flag word loses nothing and invents
    nothing: every field lies within its width, repacking the decoded fields
    gives back the low 22 bits of the word, and decoding a packed combination
    of in-range fields gives back those fields. *)
Theorem flags_roundtrip fl f :
  is_uint 32 fl -> flags_ok f ->
  flags_ok (flags_from fl) /\ flags_pack (flags_from fl) = fl mod 2 ^ 22
  /\ flags_from (flags_pack f) = f.
Proof.
  intros Hfl (H1 & H2 & H3 & H4 & H5). rewrite !flags_from_arith.
  unfold flags_ok, flags_pack, is_uint in *. simpl. split_and!.
  1-10: Z.to_euclidean_division_equations; lia.
  - destruct ((fl / 2097152) mod 2 =? 0) eqn:E; bool_to_prop; simpl;
      Z.to_euclidean_division_equations; lia.
  - destruct f as [a b c d e g]; simpl in *. change (2 ^ 3) with 8. change (2 ^ 6) with 64.
    change (2 ^ 16) with 65536. change (2 ^ 19) with 524288. change (2 ^ 21) with 2097152.
    destruct g; simpl; f_equal;
      Z.to_euclidean_division_equations; lia.
Qed.

Definition sample_flags : AvProcessFlags := {|
  is_dir := 1; deny := 5; param_pos := 513; level := 2; is_monitor_mode := 3;
  is_docker_process := true |}.

Lemma flags_roundtrip_witness :
  flags_ok (flags_from 4294967295) /\ flags_from (flags_pack sample_flags) = sample_flags.
Proof.
  destruct (flags_roundtrip 4294967295 sample_flags) as (H1 & _ & H3).
  - done.
  - repeat split; done.
  - split; [exact H1|exact H3].
Defined.

(** Loading a group natively and swapping it reads the group in network order,
    whatever the target. *)
Lemma from_be16_from_ne t l :
  bytes_ok l -> length l = 2%nat -> from_be16 t (from_ne_bytes t l) = from_le_bytes (rev l).
Proof.
  intros Hb Hl. unfold from_be16, from_ne_bytes. destruct (big_endian t); [done|].
  rewrite <- Hl at 1. by rewrite to_from_le_bytes.
Qed.

Lemma extract_ipv6_network_order t ip :
  bytes_ok ip -> length ip = 16%nat ->
  extract_ipv6 t ip = (fun k => from_le_bytes (rev (take 2 (drop (2 * k) ip)))) <$> seq 0 8.
Proof.
  intros Hb Hl. unfold extract_ipv6. apply list_fmap_ext. intros i k [-> Hk]%lookup_seq.
  apply from_be16_from_ne; [by apply Forall_take, Forall_drop|].
  rewrite length_take, length_drop. lia.
Qed.

(** ** The operating system *)

Inductive io_error :=
| OsError (errno : Z)
| Other (msg : string)
| InvalidData (msg : string)
| NotFound (msg : string)
| Unwound.  (** a panic, which unwinds through the same destructors *)

(** Open descriptors with their paths, mappings with their lengths. *)
Record world := World {
  fds : gmap Z string;
  maps : gmap Z Z
}.

Record os := {
  read_dir : string -> result io_error (list (result io_error (option string)));
  read_file : string -> result io_error (list Z);
  sys_open : string -> result io_error unit;
  sys_read : string -> result io_error (list Z);
  next_fd : world -> Z;
  sys_mmap : world -> Z -> Z -> Z -> option Z;
  page_size : result io_error (option Z)
}.

Definition MAP_FAILED : Z := 2 ^ 64 - 1.

(** open(2): the new descriptor is not in use.  mmap(2): a zero length fails; a
    mapping with no address hint is placed at a non-null address where no
    mapping starts. *)
Class OsLaws (o : os) := {
  next_fd_unused w : fds w !! next_fd o w = None;
  mmap_placed w len fd off a :
    sys_mmap o w len fd off = Some a ->
    0 < len /\ 0 < a /\ a <> MAP_FAILED /\ maps w !! a = None
}.

(** ** The manager *)

(** The four fields the source keeps per ring. *)
Record region := Region {
  audit_size : Z;
  cir_buffer : Z;
  total_count : Z;
  succeed : bool
}.

Definition unmapped : region := Region 0 0 0 false.

Record ZcopyMgr := Mgr {
  uio_fd : option Z;
  in_netlog_audit_addr : Z;
  in_netlog : region;
  out_netlog : region;
  openport_netlog : region;
  dns_netlog : region;
  process_audit : region;
  file_audit : region
}.

Definition initial : ZcopyMgr :=
  Mgr None 0 unmapped unmapped unmapped unmapped unmapped unmapped.

Definition set_uio_fd (fd : Z) (m : ZcopyMgr) : ZcopyMgr :=
  Mgr (Some fd) (in_netlog_audit_addr m) (in_netlog m) (out_netlog m) (openport_netlog m)
    (dns_netlog m) (process_audit m) (file_audit m).

Definition set_out_netlog (r : region) (m : ZcopyMgr) : ZcopyMgr :=
  Mgr (uio_fd m) (in_netlog_audit_addr m) (in_netlog m) r (openport_netlog m)
    (dns_netlog m) (process_audit m) (file_audit m).

(** The [match map_name] of [map_buffer]. *)
Definition store_map (map_name : string) (addr : Z) (r : region) (m : ZcopyMgr) : ZcopyMgr :=
  if bool_decide (map_name = "map0") then
    Mgr (uio_fd m) addr r (out_netlog m) (openport_netlog m)
      (dns_netlog m) (process_audit m) (file_audit m)
  else if bool_decide (map_name = "map1") then
    Mgr (uio_fd m) (in_netlog_audit_addr m) (in_netlog m) (out_netlog m) r
      (dns_netlog m) (process_audit m) (file_audit m)
  else if bool_decide (map_name = "map2") then
    Mgr (uio_fd m) (in_netlog_audit_addr m) (in_netlog m) (out_netlog m) (openport_netlog m)
      r (process_audit m) (file_audit m)
  else if bool_decide (map_name = "map3") then
    Mgr (uio_fd m) (in_netlog_audit_addr m) (in_netlog m) (out_netlog m) (openport_netlog m)
      (dns_netlog m) r (file_audit m)
  else if bool_decide (map_name = "map4") then
    Mgr (uio_fd m) (in_netlog_audit_addr m) (in_netlog m) (out_netlog m) (openport_netlog m)
      (dns_netlog m) (process_audit m) r
  else m.

(** *** Record access *)

(** [buffer.add((idx % count) * size_of)], guarded as every getter is: the
    address of the record, or a panic for a remainder by zero. *)
Definition ring_get (r : region) (size idx : Z) : outcome (option Z) :=
  if negb (succeed r) || (cir_buffer r =? 0) then Done None
  else if total_count r =? 0 then Panic
  else Done (Some (cir_buffer r + (idx mod total_count r) * size)).

Definition get_in_netlog_audit_data (m : ZcopyMgr) (idx : Z) : outcome (option Z) :=
  ring_get (in_netlog m) (size_of OsecNetworkReport_layout) idx.
Definition get_out_netlog_audit_data (m : ZcopyMgr) (idx : Z) : outcome (option Z) :=
  ring_get (out_netlog m) (size_of OsecNetworkReport_layout) idx.
Definition get_openport_log_audit_data (m : ZcopyMgr) (idx : Z) : outcome (option Z) :=
  ring_get (openport_netlog m) (size_of OsecOpenportReport_layout) idx.
Definition get_dns_log_audit_data (m : ZcopyMgr) (idx : Z) : outcome (option Z) :=
  ring_get (dns_netlog m) (size_of OsecDnsReport_layout) idx.
Definition get_process_audit_data (m : ZcopyMgr) (idx : Z) : outcome (option Z) :=
  ring_get (process_audit m) (size_of AvProcessInfo_layout) idx.
Definition get_file_audit_data (m : ZcopyMgr) (idx : Z) : outcome (option Z) :=
  ring_get (file_audit m) (size_of AvFileInfo_layout) idx.

(** *** Construction *)

Section manager.
Context (o : os).

Definition UIO_BASE_PATH : string := "/sys/class/uio/".
Definition UIO_DEV_PREFIX : string := "/dev/uio".

(** The loop of [find_uio_device] over the directory entries. *)
Fixpoint find_in (driver_name : string) (entries : list (result io_error (option string)))
    : result io_error string :=
  match entries with
  | [] => Err (NotFound ("UIO device for driver " +:+ driver_name +:+ " not found"))
  | Err e :: _ => Err e
  | Ok None :: _ => Err (InvalidData "Invalid directory entry")
  | Ok (Some name) :: entries =>
    if negb (starts_with "uio" name) then find_in driver_name entries
    else match read_file o (UIO_BASE_PATH +:+ "/" +:+ name +:+ "/name") with
         | Err e => Err e
         | Ok bytes =>
           match from_utf8 bytes with
           | None => Err (InvalidData "stream did not contain valid UTF-8")
           | Some name_buf =>
             if bool_decide (trim name_buf = driver_name)
             then Ok (UIO_DEV_PREFIX +:+ trim_start_matches "uio" name)
             else find_in driver_name entries
           end
         end
  end.

Definition find_uio_device (driver_name : string) : result io_error string :=
  entries ← read_dir o UIO_BASE_PATH; find_in driver_name entries.

(** The descriptor calls of [nix]. *)
Definition open_fd (p : string) : io (ZcopyMgr * world) (result io_error Z) :=
  fun '(m, w) =>
    match sys_open o p with
    | Ok _ => let fd := next_fd o w in (Ok fd, (m, World (<[fd := p]> (fds w)) (maps w)))
    | Err e => (Err e, (m, w))
    end.

Definition close_fd (fd : Z) : io (ZcopyMgr * world) (result io_error unit) :=
  fun '(m, w) =>
    match fds w !! fd with
    | Some _ => (Ok tt, (m, World (delete fd (fds w)) (maps w)))
    | None => (Err (OsError 9), (m, w))
    end.

(** [read] into a buffer of 32 bytes. *)
Definition read_fd (fd : Z) : io (ZcopyMgr * world) (result io_error (list Z)) :=
  fun '(m, w) =>
    match fds w !! fd with
    | Some p => (take 32 <$> sys_read o p, (m, w))
    | None => (Err (OsError 9), (m, w))
    end.

Definition pure {A} (r : result io_error A) : io (ZcopyMgr * world) (result io_error A) :=
  fun s => (r, s).

(** The text of the two readers, which differ in their messages only. *)
Definition read_hex (what : string) (fd : Z) : io (ZcopyMgr * world) (result io_error Z) :=
  let? buf := read_fd fd in
  pure (match buf with
        | [] => Err (Other ("Failed to read " +:+ what))
        | _ =>
          match from_utf8 buf with
          | None => Err (InvalidData ("Invalid " +:+ what +:+ " string"))
          | Some s =>
            ok_or (InvalidData ("Invalid " +:+ what +:+ " string"))
              (from_str_radix16 64 (trim_start_matches "0x" (trim s)))
          end
        end).

Definition read_addr := read_hex "address".
Definition read_size := read_hex "size".

(** [mmap] through [uio_fd.unwrap()]. *)
Definition mmap_region (size offset : Z) : io (ZcopyMgr * world) (result io_error Z) :=
  fun '(m, w) =>
    match uio_fd m with
    | None => (Err Unwound, (m, w))
    | Some fd =>
      match sys_mmap o w size fd offset with
      | Some a => (Ok a, (m, World (fds w) (<[a := size]> (maps w))))
      | None => (Ok MAP_FAILED, (m, w))
      end
    end.

Definition modify (f : ZcopyMgr -> ZcopyMgr) : io (ZcopyMgr * world) (result io_error unit) :=
  fun '(m, w) => (Ok tt, (f m, w)).

Definition map_buffer (uio_sys_path map_name : string) (offset : Z) (count_calculator : Z -> Z)
    : io (ZcopyMgr * world) (result io_error unit) :=
  let? addr_fd := open_fd (uio_sys_path +:+ "/" +:+ map_name +:+ "/addr") in
  let? size_fd := open_fd (uio_sys_path +:+ "/" +:+ map_name +:+ "/size") in
  let? addr := read_addr addr_fd in
  let? size := read_size size_fd in
  let? buffer := mmap_region size offset in
  if buffer =? MAP_FAILED then
    let? _ := close_fd addr_fd in
    let? _ := close_fd size_fd in
    pure (Err (Other "mmap failed"))
  else
    let? _ := modify (store_map map_name addr (Region size buffer (count_calculator size) true)) in
    let? _ := close_fd addr_fd in
    let? _ := close_fd size_fd in
    pure (Ok tt).

(** The outgoing ring is the second half of the incoming one. *)
Definition share_out_netlog (m : ZcopyMgr) : ZcopyMgr :=
  let r := in_netlog m in
  if succeed r
  then set_out_netlog
         (Region (audit_size (out_netlog m))
            (cir_buffer r + total_count r * size_of OsecNetworkReport_layout) (total_count r) true) m
  else m.

Definition new_body : io (ZcopyMgr * world) (result io_error unit) :=
  let? uio_dev := pure (find_uio_device "uio_zcopy") in
  let? fd := open_fd uio_dev in
  let? _ := modify (set_uio_fd fd) in
  let? page := pure (p ← page_size o; ok_or (Other "Failed to get page size") p) in
  let uio_sys_path :=
    "/sys/class/uio/uio" +:+ trim_start_matches UIO_DEV_PREFIX uio_dev +:+ "/maps/" in
  let? _ := map_buffer uio_sys_path "map0" 0 (fun size => size / size_of OsecNetworkReport_layout / 2) in
  let? _ := modify share_out_netlog in
  let? _ := map_buffer uio_sys_path "map1" page (fun size => size / size_of OsecOpenportReport_layout) in
  let? _ := map_buffer uio_sys_path "map2" (2 * page) (fun size => size / size_of OsecDnsReport_layout) in
  let? _ := map_buffer uio_sys_path "map3" (3 * page)
              (fun size => size / size_of AvProcessInfo_layout) in
  map_buffer uio_sys_path "map4" (4 * page) (fun size => size / size_of AvFileInfo_layout).

(** *** Destruction *)

(** [munmap] of a whole mapping. *)
Definition munmap (a len : Z) (ms : gmap Z Z) : gmap Z Z :=
  if bool_decide (ms !! a = Some len) then delete a ms else ms.

Definition is_mapped (r : region) : bool :=
  negb (cir_buffer r =? MAP_FAILED) && negb (cir_buffer r =? 0).

Definition drop_region (r : region) (ms : gmap Z Z) : gmap Z Z :=
  if is_mapped r then munmap (cir_buffer r) (audit_size r) ms else ms.

Definition drop_mgr (m : ZcopyMgr) (w : world) : world :=
  World
    match uio_fd m with Some fd => delete fd (fds w) | None => fds w end
    (drop_region (file_audit m) (drop_region (process_audit m) (drop_region (dns_netlog m)
      (drop_region (openport_netlog m) (drop_region (in_netlog m) (maps w)))))).

(** [ZcopyMgr::new]: an early return drops the half-built manager. *)
Definition new (w : world) : result io_error ZcopyMgr * world :=
  match new_body (initial, w) with
  | (Ok _, (m, w')) => (Ok m, w')
  | (Err e, (m, w')) => (Err e, drop_mgr m w')
  end.

End manager.

(** ** What construction and destruction do to descriptors and mappings *)

(** The regions [drop] visits, in its order. *)
Definition slots (m : ZcopyMgr) : list region :=
  [in_netlog m; openport_netlog m; dns_netlog m; process_audit m; file_audit m].

Definition owned (l : list region) : list Z := cir_buffer <$> retain is_mapped l.

(** [owns l ms0 ms]: [ms] is [ms0] plus one mapping for each mapped region of
    [l], of the recorded length. *)
Definition owns (l : list region) (ms0 ms : gmap Z Z) : Prop :=
  NoDup (owned l)
  /\ Forall (fun r => ms !! cir_buffer r = Some (audit_size r)) (retain is_mapped l)
  /\ forall k, ms0 !! k = if decide (k ∈ owned l) then None else ms !! k.

Lemma owned_app l1 l2 : owned (l1 ++ l2) = owned l1 ++ owned l2.
Proof. unfold owned, retain. by rewrite List.filter_app, fmap_app. Qed.

Lemma owns_add l1 l2 size buf count ms0 ms :
  owns (l1 ++ unmapped :: l2) ms0 ms ->
  0 < buf -> buf <> MAP_FAILED -> ms !! buf = None ->
  owns (l1 ++ Region size buf count true :: l2) ms0 (<[buf := size]> ms).
Proof.
  intros (Hn & Hl & Hk) Hp Hf Hb. set (r := Region size buf count true).
  assert (is_mapped r = true) as Hr.
  { unfold is_mapped. simpl. by rewrite !(proj2 (Z.eqb_neq _ _)) by lia. }
  assert (retain is_mapped (l1 ++ unmapped :: l2) = retain is_mapped l1 ++ retain is_mapped l2) as E0.
  { unfold retain. by rewrite List.filter_app. }
  assert (retain is_mapped (l1 ++ r :: l2) = retain is_mapped l1 ++ r :: retain is_mapped l2) as E1.
  { unfold retain. rewrite List.filter_app. simpl. by rewrite Hr. }
  assert (buf ∉ owned (l1 ++ unmapped :: l2)) as Hnew.
  { intros (r' & -> & Hr')%list_elem_of_fmap.
    rewrite Forall_forall in Hl. rewrite (Hl _ Hr') in Hb. done. }
  unfold owns, owned in *. rewrite E1. rewrite E0 in *. rewrite fmap_app, fmap_cons in *.
  split_and!.
  - rewrite <- Permutation_middle. apply NoDup_cons. done.
  - rewrite <- Permutation_middle. constructor; [apply lookup_insert_eq|].
    eapply Forall_impl; [exact Hl|]. simpl. intros r' Hr'.
    rewrite lookup_insert_ne; [done|]. intros ->. by rewrite Hb in Hr'.
  - intros k. rewrite Hk. destruct (decide (k = buf)) as [->|Hne].
    + rewrite (decide_True (P := buf ∈ _ ++ _ :: _)) by set_solver. by case_decide.
    + rewrite lookup_insert_ne by done.
      apply decide_ext. set_solver.
Qed.

Lemma drop_all l ms0 ms :
  owns l ms0 ms -> foldl (fun ms r => drop_region r ms) ms l = ms0.
Proof.
  revert ms0 ms. induction l as [|r l IH]; intros ms0 ms (Hn & Hl & Hk); simpl.
  { apply map_eq. intros k. rewrite Hk. by rewrite decide_False by set_solver. }
  apply IH. unfold owns, owned, drop_region in *. simpl in *. destruct (is_mapped r); [|done].
  rewrite fmap_cons in *. apply NoDup_cons in Hn as [Hr Hn]. apply Forall_cons in Hl as [Hm Hl].
  unfold munmap. rewrite bool_decide_eq_true_2 by done. split_and!; [done| |].
  - apply Forall_forall. intros r' Hr'. rewrite lookup_delete_ne.
    + rewrite Forall_forall in Hl. by apply Hl.
    + intros E. apply Hr. rewrite E. apply list_elem_of_fmap. by exists r'.
  - intros k. rewrite Hk. destruct (decide (k = cir_buffer r)) as [->|].
    + rewrite decide_True by set_solver. rewrite lookup_delete_eq. by case_decide.
    + rewrite lookup_delete_ne by done. apply decide_ext. set_solver.
Qed.

(** What a complete manager looks like. *)
Definition ring_ok (ms : gmap Z Z) (r : region) : Prop :=
  succeed r = true /\ 0 < cir_buffer r /\ 0 < audit_size r
  /\ ms !! cir_buffer r = Some (audit_size r).

Definition mgr_ok (m : ZcopyMgr) (ms : gmap Z Z) : Prop :=
  Forall (ring_ok ms) (slots m)
  /\ total_count (in_netlog m) = audit_size (in_netlog m) / 176 / 2
  /\ out_netlog m = Region 0 (cir_buffer (in_netlog m) + total_count (in_netlog m) * 176)
                      (total_count (in_netlog m)) true
  /\ total_count (openport_netlog m) = audit_size (openport_netlog m) / 200
  /\ total_count (dns_netlog m) = audit_size (dns_netlog m) / 460
  /\ total_count (process_audit m) = audit_size (process_audit m) / 536
  /\ total_count (file_audit m) = audit_size (file_audit m) / 1184.

Definition new_post (w : world) (r : result io_error unit) (m : ZcopyMgr) (w' : world) : Prop :=
  owns (slots m) (maps w) (maps w') /\
  match r with
  | Ok _ => (exists fd p, uio_fd m = Some fd /\ fds w !! fd = None /\ fds w' = <[fd := p]> (fds w))
            /\ mgr_ok m (maps w')
  | Err _ => fds w ⊆ fds w' /\ forall fd, uio_fd m = Some fd -> fds w !! fd = None
  end.

Lemma owns_initial fd ms : owns (slots (Mgr fd 0 unmapped unmapped unmapped unmapped unmapped unmapped)) ms ms.
Proof. split_and!; [constructor|constructor|]. intros k. by rewrite decide_False by set_solver. Qed.

Lemma owns_ring_ok l ms0 ms size buf count :
  owns l ms0 ms -> Region size buf count true ∈ l ->
  0 < size -> 0 < buf -> buf <> MAP_FAILED -> ring_ok ms (Region size buf count true).
Proof.
  intros (_ & Hl & _) Hin Hs Hb Hf. repeat split; [done..|]. simpl.
  rewrite Forall_forall in Hl. apply (Hl (Region size buf count true)).
  apply elem_of_retain. split; [|done].
  unfold is_mapped. simpl. by rewrite !(proj2 (Z.eqb_neq _ _)) by lia.
Qed.

(** A record of [size] bytes at [p] lies inside one mapping. *)
Definition within (ms : gmap Z Z) (p size : Z) : Prop :=
  exists base len, ms !! base = Some len /\ base <= p /\ p + size <= base + len.

Lemma ring_get_range r size idx p :
  ring_get r size idx = Done (Some p) -> 0 < size -> 0 <= total_count r ->
  cir_buffer r <= p /\ p + size <= cir_buffer r + total_count r * size.
Proof.
  unfold ring_get. case_match; [done|]. case_match; [done|]. intros [= <-] Hs Hc. bool_to_prop.
  pose proof (Z.mod_pos_bound idx (total_count r)). nia.
Qed.

Lemma ring_get_within ms r size idx base len :
  succeed r = true -> 0 < cir_buffer r -> 0 < size -> 0 <= total_count r ->
  ms !! base = Some len -> base <= cir_buffer r ->
  cir_buffer r + total_count r * size <= base + len ->
  ring_get r size idx = Panic /\ total_count r = 0 \/
  exists p, ring_get r size idx = Done (Some p) /\ within ms p size.
Proof.
  intros Hs Hb Hsz Hc Hm Hlo Hhi.
  destruct (ring_get r size idx) as [[p|]|] eqn:E.
  - right. exists p. split; [done|]. destruct (ring_get_range _ _ _ _ E Hsz Hc) as [? ?].
    exists base, len. split; [done|lia].
  - unfold ring_get in E. rewrite Hs, (proj2 (Z.eqb_neq _ _)) in E by lia. simpl in E. by case_match.
  - left. unfold ring_get in E. split; [done|]. repeat (case_match; [done|]).
    by case_match; bool_to_prop.
Qed.

(** A region divided into records of one size. *)
Lemma whole_region_within ms r size idx :
  ring_ok ms r -> 0 < size -> total_count r = audit_size r / size ->
  ring_get r size idx = Panic /\ total_count r = 0 \/
  exists p, ring_get r size idx = Done (Some p) /\ within ms p size.
Proof.
  intros (Hs & Hb & Ha & Hm) Hsz Hc.
  pose proof (Z.mul_div_le (audit_size r) size Hsz).
  eapply ring_get_within; try done; [rewrite Hc; apply Z.div_pos; lia|lia].
Qed.

Section manager_facts.
Context (o : os) `{!OsLaws o}.

Lemma read_hex_state what fd s : (read_hex o what fd s).2 = s.
Proof.
  destruct s as [m w]. unfold read_hex, bind_ok, read_fd, pure.
  by repeat (case_match; simplify_eq/=).
Qed.

(** Opening, then closing, two descriptors. *)
Lemma open_close_two w p1 p2 :
  let w1 := World (<[next_fd o w := p1]> (fds w)) (maps w) in
  let w2 := World (<[next_fd o w1 := p2]> (fds w1)) (maps w1) in
  fds w2 !! next_fd o w = Some p1
  /\ delete (next_fd o w) (fds w2) !! next_fd o w1 = Some p2
  /\ delete (next_fd o w1) (delete (next_fd o w) (fds w2)) = fds w
  /\ fds w ⊆ fds w1 /\ fds w1 ⊆ fds w2.
Proof.
  intros w1 w2.
  pose proof (next_fd_unused w) as F1. pose proof (next_fd_unused w1) as F2.
  assert (next_fd o w <> next_fd o w1) as Hne.
  { intros E. rewrite <- E in F2. simpl in F2. by rewrite lookup_insert_eq in F2. }
  simpl. split_and!.
  - rewrite lookup_insert_ne by done. apply lookup_insert_eq.
  - rewrite lookup_delete_ne by done. apply lookup_insert_eq.
  - rewrite (delete_insert_ne _ (next_fd o w) (next_fd o w1)) by done.
    rewrite (delete_insert_id (fds w)) by done. rewrite delete_insert_id; [done|].
    simpl in F2. by rewrite lookup_insert_ne in F2.
  - by apply insert_subseteq.
  - by apply insert_subseteq.
Qed.

Definition map_buffer_post (map_name : string) (calc : Z -> Z) (m : ZcopyMgr) (w : world)
    (r : result io_error unit) (m' : ZcopyMgr) (w' : world) : Prop :=
  match r with
  | Ok _ => exists addr size buf,
      m' = store_map map_name addr (Region size buf (calc size) true) m
      /\ fds w' = fds w /\ maps w' = <[buf := size]> (maps w)
      /\ 0 < size /\ 0 < buf /\ buf <> MAP_FAILED /\ maps w !! buf = None
  | Err _ => m' = m /\ fds w ⊆ fds w' /\ maps w' = maps w
  end.

Lemma map_buffer_spec path map_name offset calc m w r m' w' :
  map_buffer o path map_name offset calc (m, w) = (r, (m', w')) ->
  map_buffer_post map_name calc m w r m' w'.
Proof.
  unfold map_buffer, bind_ok, open_fd.
  destruct (sys_open o (path +:+ "/" +:+ map_name +:+ "/addr")); [|by intros [= <- <- <-]].
  set (p1 := path +:+ "/" +:+ map_name +:+ "/addr").
  set (p2 := path +:+ "/" +:+ map_name +:+ "/size").
  destruct (open_close_two w p1 p2) as (L1 & L2 & L3 & S1 & S2). simpl in *.
  set (w1 := World (<[next_fd o w := p1]> (fds w)) (maps w)) in *.
  destruct (sys_open o p2); [|by intros [= <- <- <-]].
  set (w2 := World (<[next_fd o w1 := p2]> (fds w1)) (maps w1)) in *.
  assert (fds w ⊆ fds w2) as S3 by (by etrans).
  unfold read_addr, read_size.
  pose proof (read_hex_state "address" (next_fd o w) (m, w2)) as Ra.
  destruct (read_hex o "address" _ _) as [[addr|] ?]; simpl in Ra; subst; [|by intros [= <- <- <-]].
  pose proof (read_hex_state "size" (next_fd o w1) (m, w2)) as Rs.
  destruct (read_hex o "size" _ _) as [[size|] ?]; simpl in Rs; subst; [|by intros [= <- <- <-]].
  unfold mmap_region. destruct (uio_fd m) as [fd|]; [|by intros [= <- <- <-]].
  destruct (sys_mmap o w2 size fd offset) as [buf|] eqn:Em.
  - destruct (mmap_placed _ _ _ _ _ Em) as (Hs & Hb & Hf & Hm).
    rewrite (proj2 (Z.eqb_neq _ _) Hf). simpl.
    rewrite L1. simpl. rewrite L2. intros [= <- <- <-].
    exists addr, size, buf. simpl. rewrite L3. auto 10.
  - rewrite Z.eqb_refl. simpl. rewrite L1. simpl. rewrite L2.
    intros [= <- <- <-]. simpl. by rewrite L3.
Qed.

(** One [map_buffer] of [new]: when it fails the manager so far is what [drop]
    gets; when it succeeds the new region joins the owned ones. *)
Ltac map_stage Howns Hsub l1 l2 :=
  match goal with
  | |- context [map_buffer o ?p ?n ?off ?c ?st] =>
    let E := fresh "E" in let Hfds := fresh "Hfds" in let Hmaps := fresh "Hmaps" in
    let Hfree := fresh in let Hs := fresh "Hs" in let Hb := fresh "Hb" in let Hf := fresh "Hf" in
    let addr := fresh "addr" in let size := fresh "size" in let buf := fresh "buf" in
    destruct (map_buffer o p n off c st) as [[[]|] [? ?]] eqn:E;
    apply map_buffer_spec in E; simpl in E;
    [ destruct E as (addr & size & buf & -> & Hfds & Hmaps & Hs & Hb & Hf & Hfree);
      apply (owns_add l1 l2 size buf (c size)) in Howns; [|exact Hb|exact Hf|exact Hfree];
      rewrite <- Hmaps in Howns; rewrite <- Hfds in Hsub; clear Hmaps Hfree; cbv beta in Howns
    | destruct E as (-> & Hfds & Hmaps); intros [= <- <- <-];
      split; [rewrite Hmaps; exact Howns
             |split; [exact (transitivity Hsub Hfds)|by intros ? [= <-]]] ]
  end.

Lemma new_body_spec w r m w' :
  new_body o (initial, w) = (r, (m, w')) -> new_post w r m w'.
Proof.
  unfold new_body, bind_ok, pure at 1.
  destruct (find_uio_device o "uio_zcopy") as [dev|e];
    [|intros [= <- <- <-]; split; [apply owns_initial|done]].
  unfold open_fd. destruct (sys_open o dev) as [u|e];
    [|intros [= <- <- <-]; split; [apply owns_initial|done]].
  set (fd := next_fd o w). pose proof (next_fd_unused w : fds w !! fd = None) as Hfd.
  assert (fds w ⊆ <[fd:=dev]> (fds w)) as Hsub by (by apply insert_subseteq).
  pose proof (owns_initial (Some fd) (maps w)) as Howns.
  unfold modify at 1, pure. cbv beta iota.
  destruct (mbind _ (page_size o)) as [page|e];
    [|intros [= <- <- <-]; split; [exact Howns|]; split; [done|by intros ? [= <-]]].
  change (maps w) with (maps (World (<[fd := dev]> (fds w)) (maps w))) in Howns at 2.
  set (w1 := World (<[fd := dev]> (fds w)) (maps w)) in *.
  change (<[fd := dev]> (fds w)) with (fds w1) in Hsub.
  assert (fds w1 = <[fd := dev]> (fds w)) as E1 by done. clearbody w1.
  map_stage Howns Hsub (@nil region) [unmapped; unmapped; unmapped; unmapped].
  set (r0 := Region _ _ _ _) in Howns. cbn [modify].
  map_stage Howns Hsub [r0] [unmapped; unmapped; unmapped]. set (r1 := Region _ _ _ _) in Howns.
  map_stage Howns Hsub [r0; r1] [unmapped; unmapped]. set (r2 := Region _ _ _ _) in Howns.
  map_stage Howns Hsub [r0; r1; r2] [unmapped]. set (r3 := Region _ _ _ _) in Howns.
  map_stage Howns Hsub [r0; r1; r2; r3] (@nil region). set (r4 := Region _ _ _ _) in Howns.
  intros [= <- <- <-]. split; [exact Howns|]. split.
  - exists fd, dev. split_and!; [done..|congruence].
  - split; [|by repeat split].
    repeat (apply Forall_cons; split; [eapply owns_ring_ok; [exact Howns|set_solver|done..]|]).
    constructor.
Qed.

Lemma drop_mgr_maps m w : maps (drop_mgr m w) = foldl (fun ms r => drop_region r ms) (maps w) (slots m).
Proof. done. Qed.

(** The manager gives back what it took.  After a successful [new],
    dropping the manager restores exactly the descriptors and mappings there
    were before; when [new] fails, at whichever of its steps, the half-built
    manager's mappings are all released and no descriptor of the caller is
    closed. *)
Theorem new_drop_releases w r w' :
  new o w = (r, w') ->
  match r with
  | Ok m => drop_mgr m w' = w
  | Err _ => maps w' = maps w /\ fds w ⊆ fds w'
  end.
Proof.
  unfold new. destruct (new_body o (initial, w)) as [r' [m w1]] eqn:E.
  apply new_body_spec in E as [Howns Hr].
  destruct r' as [[]|e]; intros [= <- <-].
  - destruct Hr as [(fd & p & Hfd & Hfree & Hfds) _].
    destruct w as [f ms]. unfold drop_mgr. rewrite Hfd, Hfds. simpl in *. f_equal.
    + by rewrite delete_insert_id.
    + exact (drop_all _ _ _ Howns).
  - destruct Hr as [Hsub Hfd]. rewrite drop_mgr_maps, (drop_all _ _ _ Howns). split; [done|].
    unfold drop_mgr. simpl. destruct (uio_fd m) as [fd|]; [|done].
    rewrite <- (delete_id (fds w) fd) by auto. by apply delete_mono.
Qed.

(** C7: No ring index reads outside shared memory.  For a manager [new]
    returned, each of the six getters gives, for every index, a record that
    lies inside a mapping of the manager, except that it panics when the
    region is too small for one record; and the records of the incoming and
    the outgoing network ring, which share a mapping, never overlap. *)
Theorem ring_access_in_bounds w m w' :
  new o w = (Ok m, w') ->
  Forall (fun '(get, r, size) => forall idx,
            get m idx = Panic /\ total_count r = 0 \/
            exists p, get m idx = Done (Some p) /\ within (maps w') p size)
    [(get_in_netlog_audit_data, in_netlog m, size_of OsecNetworkReport_layout);
     (get_out_netlog_audit_data, out_netlog m, size_of OsecNetworkReport_layout);
     (get_openport_log_audit_data, openport_netlog m, size_of OsecOpenportReport_layout);
     (get_dns_log_audit_data, dns_netlog m, size_of OsecDnsReport_layout);
     (get_process_audit_data, process_audit m, size_of AvProcessInfo_layout);
     (get_file_audit_data, file_audit m, size_of AvFileInfo_layout)]
  /\ forall i j p q, get_in_netlog_audit_data m i = Done (Some p) ->
       get_out_netlog_audit_data m j = Done (Some q) -> p + size_of OsecNetworkReport_layout <= q.
Proof.
  unfold new. destruct (new_body o (initial, w)) as [r' [m1 w1]] eqn:E.
  apply new_body_spec in E as [_ Hr]. destruct r' as [[]|e]; intros [= <- <-].
  destruct Hr as [_ (Hrings & Hin & Hout & Hop & Hdns & Hpr & Hfi)].
  unfold slots in Hrings. rewrite !Forall_cons in Hrings.
  destruct Hrings as ((S0 & B0 & A0 & M0) & R1 & R2 & R3 & R4 & _).
  change (size_of OsecNetworkReport_layout) with 176.
  assert (0 <= total_count (in_netlog m1) /\
          2 * (total_count (in_netlog m1) * 176) <= audit_size (in_netlog m1)) as [Hc0 Hc1]
    by (rewrite Hin; Z.to_euclidean_division_equations; lia).
  split.
  - repeat (apply Forall_cons; split); [| | | | | |constructor]; intros idx.
    3-6: by apply whole_region_within.
    + eapply ring_get_within; try done; lia.
    + unfold get_out_netlog_audit_data. rewrite Hout. eapply ring_get_within; simpl; try done; lia.
  - intros i j p q Hp Hq. apply ring_get_range in Hp as [_ Hp]; [|done..].
    unfold get_out_netlog_audit_data in Hq. rewrite Hout in Hq.
    apply ring_get_range in Hq as [Hq _]; [|done..].
    change (size_of OsecNetworkReport_layout) with 176 in *. simpl in Hq. lia.
Qed.
End manager_facts.

(** ** A concrete system

    Descriptors and addresses are chosen above those in use; sysfs has one UIO
    device whose maps are 8 KiB long. *)

Definition above {A} (lo : Z) (m : gmap Z A) : Z := map_fold (fun k _ n => Z.max n (k + 1)) lo m.

Lemma above_fresh {A} lo (m : gmap Z A) : lo <= above lo m /\ m !! above lo m = None.
Proof.
  assert (lo <= above lo m /\ forall k, is_Some (m !! k) -> k < above lo m) as [H1 H2].
  { unfold above. apply (map_fold_weak_ind (fun n m => lo <= n /\ forall k, is_Some (m !! k) -> k < n)).
    - split; [lia|]. intros k. by rewrite lookup_empty, is_Some_alt.
    - intros i x m' n Hi [Hlo IH]. split; [lia|]. intros k [y Hy].
      destruct (decide (k = i)) as [->|]; [lia|].
      rewrite lookup_insert_ne in Hy by done. specialize (IH k (ex_intro _ y Hy)). lia. }
  split; [done|]. apply eq_None_not_Some. intros Hs. specialize (H2 _ Hs). lia.
Qed.

Fixpoint ascii_bytes (s : string) : list Z :=
  match s with EmptyString => [] | String a s => ascii_code a :: ascii_bytes s end.

Definition sample_os (read : string -> result io_error (list Z)) : os := {|
  read_dir := fun _ => Ok [Ok (Some "uio0")];
  read_file := fun _ => Ok (ascii_bytes "uio_zcopy");
  sys_open := fun _ => Ok tt;
  sys_read := read;
  next_fd := fun w => above 3 (fds w);
  sys_mmap := fun w len _ _ =>
    let a := above 4096 (maps w) in
    if (0 <? len) && (a <? MAP_FAILED) then Some a else None;
  page_size := Ok (Some 4096)
|}.

#[global] Instance sample_os_laws read : OsLaws (sample_os read).
Proof.
  constructor; simpl.
  - intros w. apply above_fresh.
  - intros w len fd off a. case_match; [|done]. intros [= <-]. bool_to_prop.
    destruct (above_fresh 4096 (maps w)). split_and!; [done|lia|lia|done].
Qed.

Definition sample_read (_ : string) : result io_error (list Z) := Ok (ascii_bytes "0x2000").
Definition no_world : world := World ∅ ∅.
Definition sample_world : world := (new (sample_os sample_read) no_world).2.

Lemma ring_access_in_bounds_witness :
  exists m, new (sample_os sample_read) no_world = (Ok m, sample_world)
    /\ total_count (in_netlog m) = 23
    /\ exists p, get_in_netlog_audit_data m 23 = Done (Some p)
                /\ within (maps sample_world) p (size_of OsecNetworkReport_layout).
Proof.
  eexists. split; [vm_compute; reflexivity|]. split; [reflexivity|].
  edestruct (ring_access_in_bounds (sample_os sample_read) no_world) as [H _];
    [vm_compute; reflexivity|].
  apply Forall_cons in H as [H _]. destruct (H 23) as [[E _]|H']; [discriminate E|exact H'].
Defined.

Lemma new_drop_releases_witness :
  exists m, new (sample_os sample_read) no_world = (Ok m, sample_world)
    /\ drop_mgr m sample_world = no_world.
Proof.
  eexists. split; [vm_compute; reflexivity|].
  refine (new_drop_releases (sample_os sample_read) no_world (Ok _) sample_world _).
  vm_compute; reflexivity.
Defined.

(** A region whose size cannot be read: [new] fails and both descriptors of
    the region stay open, for nothing closes them on that path. *)
Example unreadable_size_leaks :
  (new (sample_os (fun _ => Ok [])) no_world).2 =
  World {[4 := "/sys/class/uio/uio0/maps//map0/addr"; 5 := "/sys/class/uio/uio0/maps//map0/size"]} ∅.
Proof. vm_compute. reflexivity. Qed.

(** An IPv4 address as the kernel lays it out (twelve zero bytes, then the
    address) is not recognised as IPv4 and prints as an IPv6 address. *)
Example kernel_ipv4_not_mapped :
  is_ipv4_mapped [0;0;0;0;0;0;0;0;0;0;0;0;192;168;1;7] = false
  /\ extract_ipv4 [0;0;0;0;0;0;0;0;0;0;0;0;192;168;1;7] = 0.
Proof. by split. Qed.
