(* ===== verification/Md5Cache.v ===== *)
(** * The MD5 cache of executables

    [crates/process_mgr/src/md5_cache.rs]: [get_md5] hashes a file and keeps
    the digest under the file's path with its modification time in seconds; a
    later call with the same modification time answers from the cache.  Asked
    for a file that does not exist, it first creates one with a random UUID.

    The file system is state: a path has a modification time and, when it can
    be read to its end, its bytes.  The digest ([hex::encode] of [Md5]), the
    UUID source and the permission to create are parameters. *)

From S2P Require Import Prelude RustStr Bytes.

Inductive file_kind := RegularFile | Directory | Special.

Record node := Node {
  kind : file_kind;
  modified : Z;               (** seconds since the epoch *)
  content : option (list Z)   (** [None]: cannot be opened or read *)
}.

Record CacheEntry := {
  mtime : Z;
  entry_md5 : string
}.

Record md5_state := Md5State {
  fs : gmap string node;
  cache : gmap string CacheEntry
}.

Section cache.
Context (md5_hex : list Z -> string).
Context (can_create : string -> bool) (uuid : gmap string node -> list Z) (now : Z).

(** [path.exists()]. *)
Definition file_exists (s : md5_state) (path : string) : bool :=
  bool_decide (is_Some (fs s !! path)).

Definition write_uuid_if_needed (path : string) : io md5_state (result string unit) := fun s =>
  if negb (file_exists s path) then
    if can_create path
    then (Ok tt, Md5State (<[path := Node RegularFile now (Some (uuid (fs s) ++ [10]))]> (fs s)) (cache s))
    else (Err "create", s)
  else (Ok tt, s).

Definition compute_md5 (path : string) : io md5_state (result string string) := fun s =>
  (match fs s !! path with
   | Some n => match content n with
               | Some bytes => Ok (md5_hex bytes)
               | None => Err "read"
               end
   | None => Err "open"
   end, s).

(** [fs::metadata(&path)?.modified()?] in seconds. *)
Definition mtime_of (path : string) : io md5_state (result string Z) := fun s =>
  (ok_or "metadata" (modified <$> fs s !! path), s).

Definition get_md5 (path : string) : io md5_state (result string string) :=
  let? t := (fun s => match mtime_of path s with
                      | (Ok t, s') => (Ok t, s')
                      | (Err _, s') => (let? _ := write_uuid_if_needed path in mtime_of path) s'
                      end) in
  fun s =>
    let recompute :=
      (let? md5 := compute_md5 path in
       fun s => (Ok md5, Md5State (fs s) (<[path := {| mtime := t; entry_md5 := md5 |}]> (cache s)))) in
    match cache s !! path with
    | Some entry => if mtime entry =? t then (Ok (entry_md5 entry), s) else recompute s
    | None => recompute s
    end.

(** ** Correctness *)

(** Every cached digest is the digest of the file it was computed for as long
    as that file keeps its modification time. *)
Definition cache_ok (s : md5_state) : Prop :=
  forall path entry n,
    cache s !! path = Some entry -> fs s !! path = Some n -> modified n = mtime entry ->
    exists bytes, content n = Some bytes /\ entry_md5 entry = md5_hex bytes.

(** The file system [get_md5] leaves: the file, created when it was missing. *)
Definition fs_after (s : md5_state) (path : string) : gmap string node :=
  if file_exists s path then fs s
  else if can_create path then <[path := Node RegularFile now (Some (uuid (fs s) ++ [10]))]> (fs s)
  else fs s.

(** The part of [get_md5] after the modification time is known. *)
Lemma get_md5_existing path s n :
  fs s !! path = Some n ->
  get_md5 path s =
    match cache s !! path with
    | Some entry =>
      if mtime entry =? modified n then (Ok (entry_md5 entry), s)
      else match content n with
           | Some b => (Ok (md5_hex b), Md5State (fs s)
                          (<[path := {| mtime := modified n; entry_md5 := md5_hex b |}]> (cache s)))
           | None => (Err "read", s)
           end
    | None => match content n with
              | Some b => (Ok (md5_hex b), Md5State (fs s)
                             (<[path := {| mtime := modified n; entry_md5 := md5_hex b |}]> (cache s)))
              | None => (Err "read", s)
              end
    end.
Proof.
  intros Hn. unfold get_md5, bind_ok, mtime_of, compute_md5. rewrite Hn. simpl.
  destruct (cache s !! path) as [e|]; [destruct (mtime e =? modified n); [done|]|];
    rewrite ?Hn; by destruct (content n).
Qed.

Lemma get_md5_missing path s :
  fs s !! path = None ->
  get_md5 path s =
    if can_create path then get_md5 path (Md5State (fs_after s path) (cache s))
    else (Err "create", s).
Proof.
  intros Hn. unfold fs_after, file_exists. rewrite Hn, bool_decide_eq_false_2 by by intros [].
  unfold get_md5, bind_ok, mtime_of at 1, write_uuid_if_needed, file_exists.
  rewrite Hn, bool_decide_eq_false_2 by by intros []. simpl.
  destruct (can_create path); [|done]. simpl. unfold mtime_of. simpl.
  rewrite !lookup_insert_eq. simpl. by rewrite !lookup_insert_eq.
Qed.

Lemma get_md5_existing_ok path s n h s' :
  cache_ok s -> fs s !! path = Some n -> get_md5 path s = (Ok h, s') ->
  cache_ok s' /\ fs s' = fs s /\ exists bytes, content n = Some bytes /\ h = md5_hex bytes.
Proof.
  intros Hc Hn. rewrite (get_md5_existing _ _ _ Hn).
  assert (forall b, content n = Some b -> cache_ok (Md5State (fs s)
            (<[path := {| mtime := modified n; entry_md5 := md5_hex b |}]> (cache s)))) as Hnew.
  { intros b Hb p e n'. simpl. destruct (decide (p = path)) as [->|Hp].
    - rewrite lookup_insert_eq. intros [= <-] Hn' _. simplify_eq. by exists b.
    - rewrite lookup_insert_ne by done. apply Hc. }
  destruct (cache s !! path) as [entry|] eqn:He.
  - destruct (mtime entry =? modified n) eqn:Et; bool_to_prop.
    + intros [= <- <-]. split_and!; [done|done|]. by apply (Hc path entry n).
    + destruct (content n) as [b|] eqn:Hb; [|done]. intros [= <- <-].
      split_and!; [by apply Hnew|done|by exists b].
  - destruct (content n) as [b|] eqn:Hb; [|done]. intros [= <- <-].
    split_and!; [by apply Hnew|done|by exists b].
Qed.

Lemma create_cache_ok path s :
  cache_ok s -> fs s !! path = None ->
  (forall entry, cache s !! path = Some entry -> mtime entry <> now) ->
  cache_ok (Md5State (fs_after s path) (cache s)).
Proof.
  intros Hc Hn Hfresh p e n. simpl. unfold fs_after, file_exists.
  rewrite Hn, bool_decide_eq_false_2 by by intros [].
  destruct (can_create path); [|apply Hc].
  destruct (decide (p = path)) as [->|Hp].
  - rewrite lookup_insert_eq. intros He [= <-] Ht. simpl in Ht. by destruct (Hfresh e).
  - rewrite lookup_insert_ne by done. apply Hc.
Qed.

(** The cache never changes an answer.  While cached digests belong to
    unchanged files, and no cached entry of a deleted file has the current
    second as its time, [get_md5] keeps that invariant, leaves every other
    file alone, and what it returns is the digest of the file's present
    content, the file having been created first when it was missing. *)
Theorem get_md5_correct path s h s' :
  cache_ok s ->
  (fs s !! path = None -> forall entry, cache s !! path = Some entry -> mtime entry <> now) ->
  get_md5 path s = (Ok h, s') ->
  cache_ok s' /\ fs s' = fs_after s path /\
  exists n bytes, fs s' !! path = Some n /\ content n = Some bytes /\ h = md5_hex bytes.
Proof.
  intros Hc Hfresh E. unfold fs_after at 1, file_exists.
  destruct (fs s !! path) as [n|] eqn:Hn.
  - rewrite bool_decide_eq_true_2 by done.
    destruct (get_md5_existing_ok _ _ _ _ _ Hc Hn E) as (H1 & H2 & b & Hb & ->).
    split_and!; [done..|]. exists n, b. by rewrite H2.
  - rewrite (get_md5_missing _ _ Hn) in E. rewrite bool_decide_eq_false_2 by by intros [].
    destruct (can_create path) eqn:Hcc; [|done].
    assert (fs_after s path = <[path := Node RegularFile now (Some (uuid (fs s) ++ [10]))]> (fs s)) as Hfs.
    { unfold fs_after, file_exists. by rewrite Hn, bool_decide_eq_false_2, Hcc by by intros []. }
    destruct (get_md5_existing_ok path _ (Node RegularFile now (Some (uuid (fs s) ++ [10]))) h s'
                (create_cache_ok _ _ Hc Hn (Hfresh eq_refl))) as (H1 & H2 & b & Hb & ->);
      [simpl; by rewrite Hfs, lookup_insert_eq|done|].
    split_and!; [done|by rewrite H2|]. eexists _, b. split; [|done].
    rewrite H2. simpl. by rewrite Hfs, lookup_insert_eq.
Qed.

(** A readable file always has a digest. *)
Lemma get_md5_total path s n bytes :
  fs s !! path = Some n -> content n = Some bytes -> exists h, (get_md5 path s).1 = Ok h.
Proof.
  intros Hn Hb. rewrite (get_md5_existing _ _ _ Hn), Hb. repeat case_match; by eexists.
Qed.
End cache.

(** ** Witness and the limit of the cache *)

Definition sample_digest (bytes : list Z) : string := dec (foldr Z.add 0 bytes).
Definition sample_get := get_md5 sample_digest (fun _ => true) (fun _ => [65]) 1000.
Definition one_file : md5_state :=
  Md5State {[ "/bin/a" := Node RegularFile 5 (Some [1; 2; 3]) ]} ∅.

Lemma get_md5_correct_witness :
  (sample_get "/bin/b" one_file).1 = Ok "75"
  /\ cache_ok sample_digest (sample_get "/bin/b" one_file).2.
Proof.
  split; [vm_compute; reflexivity|].
  refine (proj1 (get_md5_correct sample_digest (fun _ => true) (fun _ => [65]) 1000
                   "/bin/b" one_file "75" _ _ _ _)).
  - intros p e n H. discriminate H.
  - intros _ entry H. discriminate H.
  - vm_compute. reflexivity.
Defined.

(** Two versions of a file within one second: the second is answered with the
    digest of the first. *)
Example same_second_is_stale :
  let s := (sample_get "/bin/a" one_file).2 in
  let s := Md5State {[ "/bin/a" := Node RegularFile 5 (Some [9]) ]} (cache s) in
  (sample_get "/bin/a" s).1 = Ok (sample_digest [1; 2; 3]).
Proof. vm_compute. reflexivity. Qed.
