(* ===== verification/Reporter.v ===== *)
(** * The audit reporter: file and process audit

    [crates/reporter/src/lib.rs], [netlink_msg.rs], [file_audit.rs],
    [process_audit.rs] and the entry builders of [build_json.rs].  A zero-copy
    notification carries a window of ring indices; the handlers walk it, read
    each record out of shared memory, turn it into log entries and hand these
    to the alert channel (file audit) or post them (process audit).

    The handlers run in a state with the MD5 cache and its file system, the
    bounded alert channel and what was posted so far.  What [serde_json] makes
    of the entries is not modelled: a post carries the entries themselves. *)

From Stdlib Require Import Ascii.
From S2P Require Import Prelude RustStr Bytes Zcopy Md5Cache.

(** ** Notifications *)

Record NetlinkNetlog := {
  start_idx : Z;
  end_idx : Z;
  max_idx : Z
}.

Definition NetlinkNetlog_layout : list (Z * Z) := [u32_field; u32_field; u32_field].

(** [ptr::read_unaligned(data as *const NetlinkNetlog)]: undefined, here a
    panic, when [data] is shorter than the structure. *)
Definition read_netlog (t : target) (data : list Z) : outcome NetlinkNetlog :=
  a ← slice 0 4 data; b ← slice 4 8 data; c ← slice 8 12 data;
  mret {| start_idx := from_ne_bytes t a; end_idx := from_ne_bytes t b;
          max_idx := from_ne_bytes t c |}.

(** [start..end] on [u32]. *)
Definition range (a b : Z) : list Z := seqZ a (b - a).

(** The index walk the four zero-copy handlers share. *)
Definition pending (n : NetlinkNetlog) : result string (list Z) :=
  if max_idx n =? 0 then
    if end_idx n <=? start_idx n
    then Err ("无效索引范围: start_idx=" +:+ dec (start_idx n) +:+ " >= end_idx="
              +:+ dec (end_idx n))
    else Ok (range (start_idx n) (end_idx n))
  else Ok (range 0 (start_idx n) ++ range (end_idx n) (max_idx n)).

Definition too_short (data_len : Z) : string :=
  "数据长度太小，期望至少 " +:+ dec (size_of NetlinkNetlog_layout) +:+ " 字节，实际是 "
  +:+ dec data_len +:+ " 字节".

Lemma range_elem a b i : i ∈ range a b <-> a <= i < b.
Proof. unfold range. rewrite elem_of_seqZ. lia. Qed.

(** The index walk is exact: for a window whose wrapped parts do not
    overlap it visits every pending index once and no other, an empty
    unwrapped window is refused, and a wrapped one never is. *)
Theorem pending_exact n l :
  pending n = Ok l -> (max_idx n <> 0 -> start_idx n <= end_idx n) ->
  NoDup l /\ (max_idx n = 0 -> l <> []) /\
  forall i, i ∈ l <->
    if max_idx n =? 0 then start_idx n <= i < end_idx n
    else 0 <= i < start_idx n \/ end_idx n <= i < max_idx n.
Proof.
  unfold pending. intros Hp Hov. destruct (max_idx n =? 0) eqn:Em; bool_to_prop.
  - destruct (end_idx n <=? start_idx n) eqn:Es; [done|]. bool_to_prop. simplify_eq.
    split_and!; [apply NoDup_seqZ| |intros i; apply range_elem].
    intros _ E. assert (start_idx n ∈ range (start_idx n) (end_idx n)) as H by (apply range_elem; lia).
    rewrite E in H. set_solver.
  - simplify_eq. specialize (Hov Em). split_and!; [|done|].
    + apply NoDup_app. split_and!; [apply NoDup_seqZ| |apply NoDup_seqZ].
      intros i. rewrite !range_elem. lia.
    + intros i. rewrite elem_of_app, !range_elem. done.
Qed.

Lemma pending_exact_witness :
  pending {| start_idx := 2; end_idx := 6; max_idx := 8 |} = Ok [0; 1; 6; 7] /\ NoDup [0; 1; 6; 7].
Proof.
  split; [reflexivity|].
  refine (proj1 (pending_exact {| start_idx := 2; end_idx := 6; max_idx := 8 |} _ _ _)).
  - reflexivity.
  - simpl. lia.
Defined.

(** ** Log entries *)

Inductive RulesType := SelfProtectionType | LesouProtectionType | TamperProtectionType.

Definition RulesType_from_u32 (value : Z) : option RulesType :=
  match value with
  | 0 => Some SelfProtectionType
  | 1 => Some LesouProtectionType
  | 2 => Some TamperProtectionType
  | _ => None
  end.

Record AuditLogInfo := {
  file_path : option string;
  rename_dir : option string;
  exception_process : option string;
  log_md5 : option string;
  n_type : Z;   (** u16 *)
  n_level : Z;  (** u32 *)
  n_time : Z;
  notice_remark : option string;
  peripheral_name : option string;
  peripheral_remark : option string;
  peripheral_eid : option string;
  p_param : option string
}.

Record EdrProcessLog := {
  edr_uid : string;
  edr_hash : string;
  edr_p_id : Z;
  edr_p_dir : string;
  edr_p_param : option string;
  edr_pp_hash : string;
  edr_pp_id : Z;
  edr_pp_dir : string;
  edr_pp_param : option string;
  edr_time : Z;
  edr_log_type : Z
}.

(** The fields of [AuditProcess] the agent fills; the others are constants. *)
Record AuditProcess := {
  n_process_id : Z;  (** u32 *)
  n_parent_id : Z;   (** u32 *)
  str_executable_path : string;
  str_user : string;
  ap_hash : string
}.

(** ** Posts *)

(** [build_alert_log_json]: one [LogEntry] per log. *)
Record LogEntry := {
  le_level : Z;
  le_time : Z;
  le_type : Z;
  le_dir : option string;
  le_hash : option string;
  le_rename_dir : option string;
  le_notice_remark : option string;
  le_exception_process : option string;
  le_peripheral_name : option string;
  le_peripheral_remark : option string;
  le_peripheral_eid : option string;
  le_p_param : option string
}.

Definition alert_entry (log : AuditLogInfo) : LogEntry := {|
  le_level := n_level log;
  le_time := n_time log;
  le_type := n_type log;
  le_dir := file_path log;
  le_hash := log_md5 log;
  le_rename_dir := rename_dir log;
  le_notice_remark := notice_remark log;
  le_exception_process := exception_process log;
  le_peripheral_name := peripheral_name log;
  le_peripheral_remark := peripheral_remark log;
  le_peripheral_eid := peripheral_eid log;
  le_p_param := match p_param log with Some p => Some p | None => file_path log end
|}.

Definition build_alert_log_json (logs : list AuditLogInfo) : result string (list LogEntry) :=
  match alert_entry <$> logs with
  | [] => Err "No valid log entries"
  | entries => Ok entries
  end.

Record ProcessEntry := {
  pe_id : Z;
  pe_user : string;
  pe_dir : string;
  pe_hash : string
}.

Record EdrLogEntry := {
  ee_uid : string;
  ee_hash : string;
  ee_p_id : Z;   (** u32 *)
  ee_p_dir : string;
  ee_p_param : string;
  ee_pp_hash : string;
  ee_pp_id : Z;  (** u32 *)
  ee_pp_dir : string;
  ee_pp_param : string;
  ee_log_type : Z;
  ee_time : Z
}.

Definition edr_entry (log : EdrProcessLog) : EdrLogEntry := {|
  ee_uid := edr_uid log;
  ee_hash := edr_hash log;
  ee_p_id := wrap 32 (edr_p_id log);
  ee_p_dir := edr_p_dir log;
  ee_p_param := default (edr_p_dir log) (edr_p_param log);
  ee_pp_hash := edr_pp_hash log;
  ee_pp_id := wrap 32 (edr_pp_id log);
  ee_pp_dir := edr_pp_dir log;
  ee_pp_param := default "" (edr_pp_param log);
  ee_log_type := wrap 32 (edr_log_type log);
  ee_time := edr_time log
|}.

Definition build_batch_process_edr_json (logs : list EdrProcessLog)
    : result string (list EdrLogEntry) :=
  match edr_entry <$> logs with
  | [] => Err "No valid EDR log entries"
  | entries => Ok entries
  end.

Inductive upload :=
| Processes (url : string) (entries : list ProcessEntry)
| Alerts (url : string) (entries : list LogEntry)
| Edr (url : string) (entries : list EdrLogEntry).

(** ** State *)

Record state := State {
  md5s : md5_state;
  queue : list AuditLogInfo;  (** the channel to the alert worker *)
  capacity : nat;
  receiver_alive : bool;
  posted : list upload        (** newest last *)
}.

Definition set_md5s (m : md5_state) (s : state) : state :=
  State m (queue s) (capacity s) (receiver_alive s) (posted s).

(** [mpsc::Sender::try_send]. *)
Definition try_send (log : AuditLogInfo) : io state (result string unit) := fun s =>
  if negb (receiver_alive s) then (Err "channel closed", s)
  else if bool_decide (length (queue s) < capacity s)%nat
  then (Ok tt, State (md5s s) (queue s ++ [log]) (capacity s) (receiver_alive s) (posted s))
  else (Err "no available capacity", s).

Definition post (u : upload) : io state unit := fun s =>
  (tt, State (md5s s) (queue s) (capacity s) (receiver_alive s) (posted s ++ [u])).

(** The settings of [NETINFO_CONFIG] the audit reads. *)
Record NetInfo := {
  proc_switch : bool;
  proc_protect : bool;
  syslog_process_switch : bool
}.

Section audit.
Context (t : target) (mem : memory) (mgr : ZcopyMgr).
Context (md5_hex : list Z -> string) (can_create : string -> bool).
Context (uuid : gmap string node -> list Z) (now : Z).

Definition get_md5_global (p : string) : io state (result string string) := fun s =>
  let '(r, m) := get_md5 md5_hex can_create uuid now p (md5s s) in (r, set_md5s m s).

(** ** File audit *)

Definition FILE_MODIFY : Z := 1.
Definition G_RUN_FILE_MODE : nat := 0.
Definition G_WARN_LOG_TYPE : list (list (list Z)) :=
  [[[3001; 3002; 3003; 3004; 3005]; [3101; 3102; 3103; 3104; 3105]];
   [[2001; 2002; 2003; 2004; 2005]; [2101; 2102; 2103; 2104; 2105]]].

(** The bit fields of a file record. *)
Definition rules_type (i : AvFileInfo) : Z := Z.land (Z.shiftr (fi_flags i) 6) 15.
Definition log_level (i : AvFileInfo) : Z := Z.land (Z.shiftr (fi_flags i) 10) 7.
Definition file_is_dir (i : AvFileInfo) : Z := Z.land (fi_flags i) 7.
Definition file_oper (i : AvFileInfo) : Z := Z.land (Z.shiftr (fi_flags i) 3) 7.

(** [CStr::from_bytes_until_nul(..)?.to_str()?]. *)
Definition c_field (what : string) (bytes : list Z) : result string string :=
  match until_nul bytes with
  | None => Err ("无效 " +:+ what)
  | Some b => ok_or ("无效 UTF-8 " +:+ what) (from_utf8 b)
  end.

Definition audit_file_oper_rename (info : AvFileInfo) (level pos : Z)
    : io state (result string unit) := fun s =>
  match (path ← c_field "path" (fi_path info);
         dst_path ← c_field "dst_path" (fi_dst_path info);
         comm ← c_field "comm" (fi_comm info); mret (path, dst_path, comm)) with
  | Err e => (Err e, s)
  | Ok (path, dst_path, comm) =>
    let '(file_path, rename_dir) :=
      if pos =? 0 then (path, if str_is_empty dst_path then None else Some dst_path)
      else (dst_path, if str_is_empty path then None else Some path) in
    let '(md5, s) := get_md5_global comm s in
    (Ok tt, (try_send {|
       file_path := Some file_path; rename_dir := rename_dir; exception_process := Some comm;
       log_md5 := ok md5; n_type := fi_log_type info; n_level := level; n_time := 1692760326;
       notice_remark := None; peripheral_name := None; peripheral_remark := None;
       peripheral_eid := None; p_param := None |} s).2)
  end.

(** [G_WARN_LOG_TYPE[file_mode][G_RUN_FILE_MODE][type_]]: panics out of range. *)
Definition warn_log_type (file_mode type_ : Z) : outcome Z :=
  match G_WARN_LOG_TYPE !! Z.to_nat file_mode with
  | None => Panic
  | Some modes =>
    match modes !! G_RUN_FILE_MODE with
    | None => Panic
    | Some types => match types !! Z.to_nat type_ with Some w => Done w | None => Panic end
    end
  end.

(** What [fs::metadata(path)] says of a directory or a file overrides the
    record's own mode; a modified directory is not reported. *)
Definition tamper_mode (info : AvFileInfo) (path : string) (s : state) : Z * bool :=
  match kind <$> Md5Cache.fs (md5s s) !! path with
  | Some Directory => (1, file_oper info =? FILE_MODIFY)
  | Some RegularFile => (0, false)
  | _ => (file_is_dir info, false)
  end.

Definition with_log_type (info : AvFileInfo) (ty : Z) : AvFileInfo := {|
  fi_pid := fi_pid info; fi_ppid := fi_ppid info; fi_uid := fi_uid info;
  fi_comm := fi_comm info; fi_comm_p := fi_comm_p info; fi_path := fi_path info;
  fi_dst_path := fi_dst_path info; fi_log_type := wrap 16 ty; fi_flags := fi_flags info |}.

Definition rename_tamper_protect_match (info : AvFileInfo)
    : io state (outcome (result string unit)) := fun s =>
  match c_field "path" (fi_path info) with
  | Err e => (Done (Err e), s)
  | Ok path =>
    let '(file_mode, flag_special) := tamper_mode info path s in
    if flag_special then (Done (Ok tt), s)
    else match warn_log_type file_mode (file_oper info) with
         | Panic => (Panic, s)
         | Done w =>
           let '(r, s) := audit_file_oper_rename (with_log_type info w) (log_level info) 0 s in
           (Done r, s)
         end
  end.

(** One record of [audit_file_oper_new]; the accumulator is [rc]. *)
Definition audit_one (rc : result string unit) (report : AvFileInfo)
    : io state (outcome (result string unit)) := fun s =>
  match RulesType_from_u32 (rules_type report) with
  | Some LesouProtectionType =>
    let '(r, s) := audit_file_oper_rename report (log_level report) 0 s in
    (Done (match r with Err e => Err e | Ok _ => rc end), s)
  | Some TamperProtectionType =>
    (let! r := rename_tamper_protect_match report in
     fun s => (Done (match r with Err e => Err e | Ok _ => rc end), s)) s
  | _ => (Done rc, s)
  end.

Definition audit_file_oper_new (reports : list AvFileInfo)
    : io state (outcome (result string unit)) :=
  fold_done audit_one (Ok tt) reports.

(** The records at the indices; one that cannot be had is logged and skipped. *)
Fixpoint collect {R} (get : Z -> outcome (option Z)) (load : Z -> R) (idxs : list Z)
    : outcome (list R) :=
  match idxs with
  | [] => Done []
  | i :: idxs =>
    r ← get i; rs ← collect get load idxs;
    mret (match r with Some p => load p :: rs | None => rs end)
  end.

Definition handle_file_zcopy_oper (data : list Z) (data_len : Z)
    : io state (outcome (result string unit)) := fun s =>
  if data_len <? size_of NetlinkNetlog_layout then (Done (Err (too_short data_len)), s)
  else match read_netlog t data with
       | Panic => (Panic, s)
       | Done netlog =>
         if negb (succeed (file_audit mgr))
         then (Done (Err "ZcopyMgr file audit not initialized"), s)
         else match pending netlog with
              | Err e => (Done (Err e), s)
              | Ok idxs =>
                match collect (get_file_audit_data mgr) (load_file t mem) idxs with
                | Panic => (Panic, s)
                | Done reports => audit_file_oper_new reports s
                end
              end
       end.

(** ** Process audit *)

Context (cfg : NetInfo).
(** [users::get_user_by_uid] and the target of [/proc/<pid>/exe]. *)
Context (get_user_by_uid : Z -> option string) (get_process_path : Z -> option string).
(** The base URL when [NetClient::new] succeeds. *)
Context (net_client : option string).

Definition get_user_name (uid : Z) : string := default "root" (get_user_by_uid uid).

Definition bin_to_hex (data : list Z) : string := String.concat "" (hex02x <$> data).

(** The reconciliation of the kernel's type and level with the configured mode. *)
Definition reconcile (protect : bool) (ty level : Z) : Z * Z :=
  if protect then
    if (level =? 2) || (ty =? 1001) || (ty =? 1002)
    then (if ty =? 1001 then 1101 else if ty =? 1002 then 1102 else ty, 3)
    else (ty, level)
  else
    if (level =? 3) || (ty =? 1101) || (ty =? 1102)
    then (if ty =? 1101 then 1001 else if ty =? 1102 then 1002 else ty, 2)
    else (ty, level).

Definition acc : Type := list AuditProcess * list AuditLogInfo * list EdrProcessLog.

(** The alert and process entries of one record, under [proc_switch]. *)
Definition push_process (i : AvProcessInfo) (p_dir hash : string) (a : acc) : acc :=
  let '(processvec, loginfo, edr_logs) := a in
  let processvec :=
    if (type_ i =? 1101) || (type_ i =? 1001)
    then processvec ++ [{|
           n_process_id := wrap 32 (pid t i); n_parent_id := wrap 32 (ppid t i);
           str_executable_path := p_dir; str_user := get_user_name (wrap 32 (uid t i));
           ap_hash := hash |}]
    else processvec in
  let '(ty, level) :=
    reconcile (proc_protect cfg) (wrap 16 (type_ i)) (level (flags_parsed i)) in
  let loginfo :=
    if (0 <? level) && (0 <? ty)
    then loginfo ++ [{|
           file_path := Some p_dir; rename_dir := None; exception_process := None;
           log_md5 := Some hash; n_type := ty; n_level := level; n_time := 1692760326;
           notice_remark := None; peripheral_name := None; peripheral_remark := None;
           peripheral_eid := None; p_param := None |}]
    else loginfo in
  (processvec, loginfo, edr_logs).

(** The parent's path and digest; [None] is an early return. *)
Definition parent_of (parts : list string) (i : AvProcessInfo)
    : io state (option (string * string)) := fun s =>
  let digest p s :=
    match get_md5_global p s with
    | (Ok h, s) => (Some (p, h), s)
    | (Err _, s) => (None, s)
    end in
  match parts with
  | _ :: p :: _ => if file_exists (md5s s) p then digest p s else (Some (p, ""), s)
  | _ =>
    match get_process_path (wrap 32 (ppid t i)) with
    | Some p => if file_exists (md5s s) p then digest p s else (Some ("", ""), s)
    | None => (Some ("", ""), s)
    end
  end.

Definition push_edr (parts : list string) (i : AvProcessInfo) (p_dir hash : string) (a : acc)
    : io state acc := fun s =>
  let '(processvec, loginfo, edr_logs) := a in
  match parent_of parts i s with
  | (None, s) => (a, s)
  | (Some (pp_dir, pp_hash), s) =>
    if str_is_empty pp_hash then (a, s)
    else ((processvec, loginfo, edr_logs ++ [{|
             edr_uid := dec_signed (uid t i); edr_hash := hash; edr_p_id := pid t i;
             edr_p_dir := p_dir; edr_p_param := None; edr_pp_hash := pp_hash;
             edr_pp_id := ppid t i; edr_pp_dir := pp_dir; edr_pp_param := None;
             edr_time := 1692760326; edr_log_type := 4 |}]), s)
  end.

(** The executable path and its digest, or an early return. *)
Definition executable_of (i : AvProcessInfo) (parts : list string)
    : io state (option (string * string)) := fun s =>
  let p_dir := default "" (parts !! 0%nat) in
  let is_docker := is_docker_process (flags_parsed i) in
  if negb is_docker && (str_is_empty p_dir || negb (file_exists (md5s s) p_dir)) then (None, s)
  else if is_docker then (Some (p_dir +:+ ";docker", bin_to_hex (md5 i)), s)
  else match get_md5_global p_dir s with
       | (Ok h, s) => (Some (p_dir, h), s)
       | (Err _, s) => (None, s)
       end.

(** [process_one]; a path without NUL is read past its end. *)
Definition process_one (a : acc) (i : AvProcessInfo) : io state (outcome acc) := fun s =>
  match get_path_str i with
  | None => (Panic, s)
  | Some None => (Done a, s)
  | Some (Some path_str) =>
    let parts := split_char ";"%char path_str in
    match executable_of i parts s with
    | (None, s) => (Done a, s)
    | (Some (p_dir, hash), s) =>
      let a := if proc_switch cfg then push_process i p_dir hash a else a in
      if negb (is_docker_process (flags_parsed i)) && syslog_process_switch cfg
      then let '(a, s) := push_edr parts i p_dir hash a s in (Done a, s)
      else (Done a, s)
    end
  end.

(** One index of [iterate]. *)
Definition iterate_one (a : acc) (idx : Z) : io state (outcome acc) := fun s =>
  match get_process_audit_data mgr idx with
  | Panic => (Panic, s)
  | Done None => (Done a, s)
  | Done (Some p) => process_one a (load_process t mem p) s
  end.

(** [build_auto_process_list_json]: a missing digest is computed again. *)
Fixpoint process_entries (l : list AuditProcess) : io state (list ProcessEntry) := fun s =>
  match l with
  | [] => ([], s)
  | p :: l =>
    let '(hash, s) :=
      if str_is_empty (ap_hash p)
      then let '(r, s) := get_md5_global (str_executable_path p) s in (default "" (ok r), s)
      else (ap_hash p, s) in
    let '(entries, s) := process_entries l s in
    ({| pe_id := n_process_id p; pe_user := str_user p; pe_dir := str_executable_path p;
        pe_hash := hash |} :: entries, s)
  end.

(** The three uploads at the end of the handler, each for a batch that is not
    empty; the outcome of a post is only logged. *)
Definition upload_processes (base : string) (processvec : list AuditProcess) : io state unit :=
  fun s =>
    match processvec with
    | [] => (tt, s)
    | _ => let '(entries, s) := process_entries processvec s in
           post (Processes (base +:+ "/v1/autouploadprocess") entries) s
    end.

Definition upload_alerts (base : string) (loginfo : list AuditLogInfo) : io state unit := fun s =>
  match build_alert_log_json loginfo with
  | Ok entries => post (Alerts (base +:+ "/v1/alertupload") entries) s
  | Err _ => (tt, s)
  end.

Definition upload_edr (base : string) (edr_logs : list EdrProcessLog) : io state unit := fun s =>
  match build_batch_process_edr_json edr_logs with
  | Ok entries => post (Edr (base +:+ "/v1/putsyslog") entries) s
  | Err _ => (tt, s)
  end.

Definition upload_all (base : string) (a : acc) : io state unit :=
  upload_processes base a.1.1 ≫= fun _ =>
  upload_alerts base a.1.2 ≫= fun _ => upload_edr base a.2.

Definition handle_process_zcopy_oper (data : list Z) (data_len : Z)
    : io state (outcome (result string unit)) := fun s =>
  if data_len <? size_of NetlinkNetlog_layout then (Done (Err (too_short data_len)), s)
  else match read_netlog t data with
       | Panic => (Panic, s)
       | Done netlog =>
         if negb (succeed (process_audit mgr))
         then (Done (Err "ZcopyMgr file audit not initialized"), s)
         else match pending netlog with
              | Err e => (Done (Err e), s)
              | Ok idxs =>
                match fold_done iterate_one ([], [], []) idxs s with
                | (Panic, s) => (Panic, s)
                | (Done a, s) =>
                  match net_client with
                  | None => (Done (Err "创建 NetClient 失败"), s)
                  | Some base => (Done (Ok tt), (upload_all base a s).2)
                  end
                end
              end
       end.

(** ** Properties of the file audit *)

(** Hashing touches the cache and its file system only. *)
Lemma get_md5_global_frame p s : exists m, (get_md5_global p s).2 = set_md5s m s.
Proof.
  unfold get_md5_global. destruct (get_md5 _ _ _ _ p (md5s s)) as [r m]. by exists m.
Qed.

(** [log] is what the handler should say of the record [i]. *)
Definition describes (i : AvFileInfo) (log : AuditLogInfo) : Prop :=
  (exists path, c_field "path" (fi_path i) = Ok path /\ file_path log = Some path)
  /\ n_level log = log_level i
  /\ match RulesType_from_u32 (rules_type i) with
     | Some LesouProtectionType => n_type log = fi_log_type i
     | Some TamperProtectionType =>
       file_oper i <= 4 /\ n_type log ∈ [3001 + file_oper i; 2001 + file_oper i]
     | _ => False
     end.

(** The queue grew by logs satisfying [P], within its capacity. *)
Definition queued (P : AuditLogInfo -> Prop) (s s' : state) : Prop :=
  capacity s' = capacity s /\ posted s' = posted s
  /\ (length (queue s') <= Nat.max (capacity s) (length (queue s)))%nat
  /\ exists logs, queue s' = queue s ++ logs /\ Forall P logs.

Lemma queued_refl P s : queued P s s.
Proof. split_and!; [done..|lia|]. exists []. by rewrite app_nil_r. Qed.

Lemma queued_md5s P m s : queued P s (set_md5s m s).
Proof. exact (queued_refl P s). Qed.

Lemma queued_trans P s1 s2 s3 : queued P s1 s2 -> queued P s2 s3 -> queued P s1 s3.
Proof.
  intros (C1 & P1 & L1 & l1 & Q1 & F1) (C2 & P2 & L2 & l2 & Q2 & F2).
  split_and!; [congruence|congruence|lia|]. exists (l1 ++ l2).
  rewrite Q2, Q1, app_assoc. split; [done|by apply Forall_app].
Qed.

Lemma rename_queued (P : AuditLogInfo -> Prop) info level pos s :
  (forall log path, c_field "path" (fi_path info) = Ok path -> pos = 0 ->
     file_path log = Some path -> n_type log = fi_log_type info -> n_level log = level -> P log) ->
  pos = 0 -> queued P s (audit_file_oper_rename info level pos s).2.
Proof.
  intros HP ->. unfold audit_file_oper_rename.
  destruct (c_field "path" _) as [path|] eqn:Ep; [|apply queued_refl]. simpl.
  destruct (c_field "dst_path" _); [|apply queued_refl]. simpl.
  destruct (c_field "comm" _) as [comm|]; [|apply queued_refl]. simpl.
  destruct (get_md5_global_frame comm s) as [m Hm].
  destruct (get_md5_global comm s) as [r s1]. simpl in *. subst s1. unfold try_send.
  repeat case_match; simpl; try apply queued_md5s; bool_to_prop.
  all: unfold queued; simpl; split_and!; [done..|rewrite length_app; simpl in *; lia|].
  all: eexists [_]; split; [done|]; apply Forall_singleton; by eapply HP.
Qed.

Lemma file_oper_range i : 0 <= file_oper i < 8.
Proof.
  unfold file_oper. change 7 with (2 ^ 3 - 1). rewrite land_ones_mod by lia.
  apply Z.mod_pos_bound. lia.
Qed.

Lemma file_is_dir_range i : 0 <= file_is_dir i < 8.
Proof.
  unfold file_is_dir. change 7 with (2 ^ 3 - 1). rewrite land_ones_mod by lia.
  apply Z.mod_pos_bound. lia.
Qed.

(** The table row by row. *)
Lemma warn_log_type_spec m ty :
  0 <= m -> 0 <= ty < 8 ->
  warn_log_type m ty =
    if (m <? 2) && (ty <? 5) then Done (if m =? 0 then 3001 + ty else 2001 + ty) else Panic.
Proof.
  intros Hm Ht. unfold warn_log_type.
  assert (m = 0 \/ m = 1 \/ 2 <= m) as [-> | [-> | Hm2]] by lia.
  1-2: assert (ty = 0 \/ ty = 1 \/ ty = 2 \/ ty = 3 \/ ty = 4 \/ ty = 5 \/ ty = 6 \/ ty = 7)
         as Hty by lia; destruct_or! Hty; subst; reflexivity.
  rewrite (proj2 (Z.ltb_ge m 2)) by lia. simpl.
  by rewrite lookup_ge_None_2 by (simpl; lia).
Qed.

Lemma tamper_mode_range info path s m sp :
  tamper_mode info path s = (m, sp) -> 0 <= m.
Proof.
  unfold tamper_mode. pose proof (file_is_dir_range info).
  repeat case_match; intros [= <- <-]; lia.
Qed.

Lemma tamper_queued info s :
  RulesType_from_u32 (rules_type info) = Some TamperProtectionType ->
  queued (describes info) s (rename_tamper_protect_match info s).2.
Proof.
  intros Hr. unfold rename_tamper_protect_match.
  destruct (c_field "path" _) as [path|] eqn:Ep; [|apply queued_refl].
  destruct (tamper_mode info path s) as [m sp] eqn:Em. destruct sp; [apply queued_refl|].
  rewrite warn_log_type_spec by eauto using tamper_mode_range, file_oper_range.
  pose proof (file_oper_range info) as Ho.
  destruct ((m <? 2) && (file_oper info <? 5)) eqn:Eb; [|apply queued_refl]. bool_to_prop.
  match goal with |- context [with_log_type info ?w] => set (wt := w) end.
  match goal with |- context [audit_file_oper_rename ?i ?l ?p s] =>
    pose proof (rename_queued (describes info) i l p s) as Hq;
    destruct (audit_file_oper_rename i l p s) as [r s1] end.
  simpl in *. apply Hq; [|done]. intros log path' Hp _ Hf Ht Hl.
  split_and!; [by exists path'|done|]. rewrite Hr. split; [lia|]. rewrite Ht.
  subst wt. unfold wrap. case_match; bool_to_prop; rewrite Z.mod_small by lia; set_solver.
Qed.

Lemma audit_one_queued rc info s :
  queued (describes info) s (audit_one rc info s).2.
Proof.
  unfold audit_one. destruct (RulesType_from_u32 (rules_type info)) as [[| |]|] eqn:Hr;
    try apply queued_refl.
  - pose proof (rename_queued (describes info) info (log_level info) 0 s) as Hq.
    destruct (audit_file_oper_rename info (log_level info) 0 s) as [r s1]. simpl in *.
    apply Hq; [|done]. intros log path Hp _ Hf Ht Hl. split_and!; [by exists path|done|].
    by rewrite Hr.
  - pose proof (tamper_queued info s Hr) as Hq. unfold bind_done.
    by destruct (rename_tamper_protect_match info s) as [[r|] s1].
Qed.

(** The record [i] is one the notification announces. *)
Definition announced (data : list Z) (i : AvFileInfo) : Prop :=
  exists n idxs idx p, read_netlog t data = Done n /\ pending n = Ok idxs /\ idx ∈ idxs
    /\ get_file_audit_data mgr idx = Done (Some p) /\ i = load_file t mem p.

Lemma collect_elem {R} get (load : Z -> R) idxs rs r :
  collect get load idxs = Done rs -> r ∈ rs ->
  exists idx p, idx ∈ idxs /\ get idx = Done (Some p) /\ r = load p.
Proof.
  revert rs. induction idxs as [|i idxs IH]; intros rs; simpl; [intros [= <-]; set_solver|].
  destruct (get i) as [o|] eqn:Eg; [|done]. simpl.
  destruct (collect get load idxs) as [rs1|]; [|done]. simpl. intros [= <-] Hin.
  assert (r ∈ rs1 \/ exists p, o = Some p /\ r = load p) as [H | (p & -> & ->)].
  { destruct o; [apply elem_of_cons in Hin as [->|]; eauto|by left]. }
  - destruct (IH rs1 eq_refl H) as (idx & p & ? & ? & ?). exists idx, p. set_solver.
  - exists i, p. set_solver.
Qed.

(** A file notification, however it ends, only appends to the alert queue
    and posts nothing; the queue never outgrows its capacity; and every
    appended log describes a record the notification announces: its path, its
    level, and the type the rule family prescribes (the record's own for
    ransomware rules, the warning table's for tamper rules). *)
Theorem file_audit_logs data data_len s :
  queued (fun log => exists i, announced data i /\ describes i log)
    s (handle_file_zcopy_oper data data_len s).2.
Proof.
  unfold handle_file_zcopy_oper. case_match; [apply queued_refl|].
  destruct (read_netlog t data) as [n|] eqn:En; [|apply queued_refl].
  case_match; [apply queued_refl|].
  destruct (pending n) as [idxs|] eqn:Ep; [|apply queued_refl].
  destruct (collect _ _ idxs) as [reports|] eqn:Ec; [|apply queued_refl].
  apply (fold_done_state (queued _ s)); [|apply queued_refl].
  intros rc i s1 Hi Hs1. eapply queued_trans; [exact Hs1|].
  destruct (collect_elem _ _ _ _ _ Ec Hi) as (idx & p & Hidx & Hg & ->).
  destruct (audit_one_queued rc (load_file t mem p) s1) as (C & P & L & logs & Q & F).
  split_and!; [done..|]. exists logs. split; [done|].
  eapply Forall_impl; [exact F|]. intros log Hlog. exists (load_file t mem p).
  split; [|done]. by exists n, idxs, idx, p.
Qed.

(** The tamper report of a record with a readable path panics exactly when
    the warning table has no entry for it: an operation code of 5 or more, or
    a mode of 2 or more for a path that is neither a file nor a directory; a
    modified directory is dropped before the table is consulted. *)
Theorem tamper_panics_iff info s :
  (rename_tamper_protect_match info s).1 = Panic <->
  exists path, c_field "path" (fi_path info) = Ok path
    /\ (tamper_mode info path s).2 = false
    /\ (2 <= (tamper_mode info path s).1 \/ 5 <= file_oper info).
Proof.
  unfold rename_tamper_protect_match.
  destruct (c_field "path" _) as [path|] eqn:Ep; [|split; [done|by intros (? & ? & ?)]].
  destruct (tamper_mode info path s) as [m sp] eqn:Em.
  trans (sp = false /\ (2 <= m \/ 5 <= file_oper info)).
  2: { split; [intros H; exists path; by rewrite Em|intros (p & [= <-] & H); by rewrite Em in H]. }
  destruct sp; [split; [done|by intros []]|].
  rewrite warn_log_type_spec by eauto using tamper_mode_range, file_oper_range.
  destruct ((m <? 2) && (file_oper info <? 5)) eqn:Eb.
  - bool_to_prop. split; [|lia]. by destruct (audit_file_oper_rename _ _ _ s).
  - split; [|done]. intros _. apply andb_false_iff in Eb as [Eb|Eb]; bool_to_prop; split; auto.
Qed.

(** ** Properties of the process audit *)

(** An alert that fits the configured mode. *)
Definition mode_ok (ty level : Z) : Prop :=
  0 < ty /\ 0 < level /\
  if proc_protect cfg then ty <> 1001 /\ ty <> 1002 /\ level <> 2
  else ty <> 1101 /\ ty <> 1102 /\ level <> 3.

Lemma reconcile_ok ty level ty' level' :
  reconcile (proc_protect cfg) ty level = (ty', level') -> 0 < ty' -> 0 < level' -> mode_ok ty' level'.
Proof.
  unfold reconcile, mode_ok. destruct (proc_protect cfg).
  - destruct ((level =? 2) || (ty =? 1001) || (ty =? 1002)) eqn:E.
    + repeat case_match; intros [= <- <-]; bool_to_prop; lia.
    + intros [= <- <-]. bool_to_prop. lia.
  - destruct ((level =? 3) || (ty =? 1101) || (ty =? 1102)) eqn:E.
    + repeat case_match; intros [= <- <-]; bool_to_prop; lia.
    + intros [= <- <-]. bool_to_prop. lia.
Qed.

Definition alerts_ok (a : acc) : Prop :=
  Forall (fun log => mode_ok (n_type log) (n_level log)) a.1.2.

Lemma push_process_ok i p_dir hash a : alerts_ok a -> alerts_ok (push_process i p_dir hash a).
Proof.
  destruct a as [[pv li] el]. unfold alerts_ok, push_process. simpl. intros Ha.
  destruct (reconcile _ _ _) as [ty lv] eqn:E.
  destruct ((0 <? lv) && (0 <? ty)) eqn:Eb; [|done]. simpl. bool_to_prop.
  apply Forall_app. split; [done|]. apply Forall_singleton. by eapply reconcile_ok.
Qed.

(** Nothing is posted before the uploads at the end. *)
Definition quiet (s s' : state) : Prop := posted s' = posted s /\ queue s' = queue s.

Lemma get_md5_global_quiet p s r s' : get_md5_global p s = (r, s') -> quiet s s'.
Proof.
  intros E. destruct (get_md5_global_frame p s) as [m Hm]. rewrite E in Hm. simpl in Hm.
  by subst.
Qed.

Lemma quiet_trans s1 s2 s3 : quiet s1 s2 -> quiet s2 s3 -> quiet s1 s3.
Proof. intros [? ?] [? ?]. split; congruence. Qed.

Lemma executable_of_quiet i parts s : quiet s (executable_of i parts s).2.
Proof.
  unfold executable_of. case_match; [done|]. case_match; [done|].
  destruct (get_md5_global _ s) as [[h|e] s1] eqn:E; by eapply get_md5_global_quiet.
Qed.

Lemma parent_of_quiet parts i s : quiet s (parent_of parts i s).2.
Proof.
  assert (forall p, quiet s (match get_md5_global p s with
                             | (Ok h, s) => (Some (p, h), s) | (Err _, s) => (None, s) end).2) as Hd.
  { intros p. destruct (get_md5_global p s) as [[h|e] s1] eqn:E; by eapply get_md5_global_quiet. }
  unfold parent_of. destruct parts as [|p0 [|p1 parts]].
  1-2: destruct (get_process_path _) as [p|]; [|done].
  all: destruct (file_exists _ _); [apply Hd|done].
Qed.

Lemma push_edr_quiet parts i p_dir hash a s : quiet s (push_edr parts i p_dir hash a s).2.
Proof.
  destruct a as [[pv li] el]. unfold push_edr. pose proof (parent_of_quiet parts i s) as H.
  destruct (parent_of parts i s) as [[[pp hh]|] s1]; [case_match|]; exact H.
Qed.

Lemma push_edr_ok parts i p_dir hash a s :
  alerts_ok a -> alerts_ok (push_edr parts i p_dir hash a s).1.
Proof.
  destruct a as [[pv li] el]. unfold push_edr, alerts_ok. intros Ha.
  destruct (parent_of parts i s) as [[[pp hh]|] s1]; [case_match|]; exact Ha.
Qed.

Lemma process_one_quiet a i s : quiet s (process_one a i s).2.
Proof.
  unfold process_one. destruct (get_path_str i) as [[p|]|]; [|done..].
  pose proof (executable_of_quiet i (split_char ";"%char p) s) as He.
  destruct (executable_of i _ s) as [[[d h]|] s1]; [|exact He].
  case_match; [|exact He].
  match goal with |- context [push_edr ?ps i d h ?a1 s1] =>
    pose proof (push_edr_quiet ps i d h a1 s1) as Hp;
    destruct (push_edr ps i d h a1 s1) as [a2 s2] end.
  exact (quiet_trans _ _ _ He Hp).
Qed.

Lemma process_one_ok a i s a' s' :
  process_one a i s = (Done a', s') -> alerts_ok a -> alerts_ok a'.
Proof.
  unfold process_one. intros E Ha. destruct (get_path_str i) as [[p|]|]; [|by simplify_eq|done].
  destruct (executable_of i _ s) as [[[d h]|] s1]; [|by simplify_eq].
  assert (alerts_ok (if proc_switch cfg then push_process i d h a else a)) as Ha1.
  { destruct (proc_switch cfg); [by apply push_process_ok|done]. }
  destruct (negb _ && _); [|by injection E as <- <-].
  match goal with _ : context [push_edr ?ps i d h ?a1 s1] |- _ =>
    pose proof (push_edr_ok ps i d h a1 s1 Ha1) as Hp;
    destruct (push_edr ps i d h a1 s1) as [a2 s2] end.
  by simplify_eq.
Qed.

Lemma process_entries_quiet l s r s' : process_entries l s = (r, s') -> quiet s s'.
Proof.
  revert s r s'. induction l as [|p l IH]; intros s r s'; simpl; [by intros [= <- <-]|].
  destruct (str_is_empty (ap_hash p)).
  - destruct (get_md5_global _ s) as [h s1] eqn:E1. apply get_md5_global_quiet in E1 as [? ?].
    destruct (process_entries l s1) as [es s2] eqn:E2. apply IH in E2 as [? ?].
    intros [= <- <-]. split; congruence.
  - destruct (process_entries l s) as [es s2] eqn:E2. apply IH in E2. by intros [= <- <-].
Qed.

Definition upload_ok (u : upload) : Prop :=
  match u with
  | Processes _ entries => entries <> []
  | Alerts _ entries => entries <> [] /\ Forall (fun e => mode_ok (le_type e) (le_level e)) entries
  | Edr _ entries => entries <> []
  end.

Definition posts_ok (s s' : state) : Prop :=
  queue s' = queue s /\ exists us, posted s' = posted s ++ us /\ Forall upload_ok us.

Lemma quiet_posts s s' : quiet s s' -> posts_ok s s'.
Proof. intros [E ?]. split; [done|]. exists []. by rewrite app_nil_r. Qed.

Lemma posts_trans s1 s2 s3 : posts_ok s1 s2 -> posts_ok s2 s3 -> posts_ok s1 s3.
Proof.
  intros [Q1 (u1 & P1 & F1)] [Q2 (u2 & P2 & F2)]. split; [congruence|].
  exists (u1 ++ u2). rewrite P2, P1, app_assoc. split; [done|by apply Forall_app].
Qed.

Lemma post_ok u s : upload_ok u -> posts_ok s (post u s).2.
Proof. intros Hu. split; [done|]. exists [u]. split; [done|by apply Forall_singleton]. Qed.

Lemma upload_processes_ok base l s : posts_ok s (upload_processes base l s).2.
Proof.
  destruct l as [|p l]; [by apply quiet_posts|]. unfold upload_processes.
  destruct (process_entries (p :: l) s) as [es s1] eqn:E.
  eapply posts_trans; [eapply quiet_posts, process_entries_quiet, E|].
  apply post_ok. simpl in E. repeat (case_match; simplify_eq/=); done.
Qed.

Lemma upload_alerts_ok base l s :
  Forall (fun log => mode_ok (n_type log) (n_level log)) l -> posts_ok s (upload_alerts base l s).2.
Proof.
  intros Hl. unfold upload_alerts, build_alert_log_json.
  destruct l as [|p l]; simpl; [by apply quiet_posts|].
  apply post_ok. split; [done|]. rewrite <- fmap_cons. apply Forall_fmap. exact Hl.
Qed.

Lemma upload_edr_ok base l s : posts_ok s (upload_edr base l s).2.
Proof.
  unfold upload_edr, build_batch_process_edr_json.
  destruct l as [|p l]; simpl; [by apply quiet_posts|by apply post_ok].
Qed.

Lemma upload_all_ok base a s : alerts_ok a -> posts_ok s (upload_all base a s).2.
Proof.
  intros Ha. unfold upload_all, mbind, io_bind.
  pose proof (upload_processes_ok base a.1.1 s) as H1.
  destruct (upload_processes _ _ s) as [[] s1]. simpl in H1.
  pose proof (upload_alerts_ok base a.1.2 s1 Ha) as H2.
  destruct (upload_alerts _ _ s1) as [[] s2]. simpl in H2.
  eapply posts_trans; [exact H1|]. eapply posts_trans; [exact H2|]. apply upload_edr_ok.
Qed.

(** C11: A process notification never reports against the configured mode:
    whatever type and level the kernel wrote, every alert posted in protection
    mode is not a monitoring type (1001, 1002) nor level 2, and every alert
    posted in monitoring mode is not a protection type (1101, 1102) nor level
    3; types and levels are positive, no empty batch is posted, and the file
    audit's queue is untouched. *)
Theorem process_alerts_fit_mode data data_len s :
  posts_ok s (handle_process_zcopy_oper data data_len s).2.
Proof.
  assert (posts_ok s s) as Hrefl by (by apply quiet_posts).
  unfold handle_process_zcopy_oper. case_match; [done|].
  destruct (read_netlog t data) as [n|]; [|done]. case_match; [done|].
  destruct (pending n) as [idxs|]; [|done].
  assert (quiet s (fold_done iterate_one ([], [], []) idxs s).2) as Hq.
  { apply (fold_done_state (quiet s)); [|done]. intros a idx s1 _ Hs1.
    unfold iterate_one. repeat case_match; try exact Hs1.
    exact (quiet_trans _ _ _ Hs1 (process_one_quiet _ _ _)). }
  destruct (fold_done iterate_one ([], [], []) idxs s) as [[a|] s1] eqn:E; [|by apply quiet_posts].
  assert (alerts_ok a) as Ha.
  { refine (fold_done_invariant (fun a _ => alerts_ok a) iterate_one idxs _ _ _ _ _ _ E).
    - intros b x s2 b' s3 _ Hb. unfold iterate_one. repeat case_match; intros E1; simplify_eq; [|done].
      by eapply process_one_ok.
    - constructor. }
  destruct net_client as [base|]; [|by apply quiet_posts].
  eapply posts_trans; [apply quiet_posts, Hq|]. by apply upload_all_ok.
Qed.
End audit.
