(* ===== verification/Shell.v ===== *)
(** * External commands

    The two command runners of [crates/rules_jump_mgr/src/utils.rs] that the
    address and password jumps are built on.  What a command does to the
    machine is the business of the programs it names: the class [Os] is a
    machine state [W] and the effect of spawning one command on it.  A [shell]
    is that state with the trace of the commands spawned, oldest first. *)

From S2P Require Import Prelude RustStr Bytes.
From Stdlib Require Import Ascii.

Record command := Cmd { program : string; args : list string }.

#[global] Instance command_eq_dec : EqDecision command.
Proof. solve_decision. Defined.

(** [std::process::Output]; [status_text] is the [Display] of the status. *)
Record output := Output {
  success : bool;
  status_text : string;
  stdout : list Z;
  stderr : list Z
}.

(** [Command::new(cmd).args(args)], run to completion; [Err] is the text of the
    error when the program cannot be started. *)
Class Os (W : Type) := { spawn : command -> W -> result string output * W }.

Record shell (W : Type) := Shell { world : W; trace : list command }.
Arguments Shell {W} _ _.
Arguments world {W} _.
Arguments trace {W} _.

(** ** The [Debug] form of an argument list

    Escapes of [str::escape_debug] for ASCII; bytes above 127 belong to
    characters that are printed as they are. *)
Definition quote_mark : ascii := "034"%char.
Definition backslash : ascii := "092"%char.

Definition escape_char (a : ascii) : string :=
  if bool_decide (a = quote_mark) || bool_decide (a = backslash) then
    String backslash (String a "")
  else if ascii_code a =? 0 then String backslash "0"
  else if ascii_code a =? 9 then String backslash "t"
  else if ascii_code a =? 10 then String backslash "n"
  else if ascii_code a =? 13 then String backslash "r"
  else if (ascii_code a <? 32) || (ascii_code a =? 127) then
    String backslash ("u{" +:+ hex_x (ascii_code a) +:+ "}")
  else String a "".

Fixpoint escape (s : string) : string :=
  match s with EmptyString => "" | String a s => escape_char a +:+ escape s end.

Definition debug_str (s : string) : string :=
  String quote_mark (escape s +:+ String quote_mark "").

Definition debug_args (l : list string) : string := "[" +:+ join ", " (debug_str <$> l) +:+ "]".

Example debug_args_ip : debug_args ["addr"; "a" +:+ String "009" "b"] =
  "[" +:+ String quote_mark ("addr" +:+ String quote_mark (", " +:+
    String quote_mark ("a" +:+ String backslash ("tb" +:+ String quote_mark "]")))).
Proof. reflexivity. Qed.

(** ** The runners *)

Section run.
Context {W : Type} `{Os W}.

Definition exec (c : command) : io (shell W) (result string output) := fun s =>
  let '(r, w) := spawn c (world s) in (r, Shell w (trace s ++ [c])).

Definition exec_error (c : command) (e : string) : string :=
  "failed exec " +:+ program c +:+ " " +:+ debug_args (args c) +:+ ": " +:+ e.

Definition run_cmd_capture (cmd : string) (argv : list string)
    : io (shell W) (result string string) :=
  let c := Cmd cmd argv in
  let? o := with_err (exec_error c) (exec c) in
  if success o then mret (Ok (from_utf8_lossy (stdout o)))
  else mret (Err (cmd +:+ " " +:+ debug_args argv +:+ " failed: "
                  +:+ from_utf8_lossy (stderr o))).

Definition run_cmd_status (cmd : string) (argv : list string)
    : io (shell W) (result string unit) :=
  let c := Cmd cmd argv in
  let? o := with_err (exec_error c) (exec c) in
  if success o then mret (Ok tt)
  else mret (Err (cmd +:+ " " +:+ debug_args argv +:+ " exit code: " +:+ status_text o)).

(** ** What was run

    [ran P s s']: [s'] extends the trace of [s] with commands that satisfy [P]. *)
Definition ran (P : command -> Prop) (s s' : shell W) : Prop :=
  exists t, trace s' = trace s ++ t /\ Forall P t.

Lemma ran_refl P s : ran P s s.
Proof. exists []. by rewrite app_nil_r. Qed.

Lemma ran_trans P s1 s2 s3 : ran P s1 s2 -> ran P s2 s3 -> ran P s1 s3.
Proof.
  intros (t1 & E1 & H1) (t2 & E2 & H2). exists (t1 ++ t2).
  rewrite E2, E1, app_assoc. split; [done|]. by apply Forall_app.
Qed.

Lemma ran_mono (P Q : command -> Prop) s s' :
  (forall c, P c -> Q c) -> ran P s s' -> ran Q s s'.
Proof. intros HPQ (t & E & Ht). exists t. split; [done|]. eapply Forall_impl; eauto. Qed.

Lemma run_cmd_capture_trace cmd argv s :
  trace (run_cmd_capture cmd argv s).2 = trace s ++ [Cmd cmd argv].
Proof.
  unfold run_cmd_capture, bind_ok, with_err, exec.
  destruct (spawn _ _) as [[o|e] w]; simpl; [by destruct (success o)|done].
Qed.

Lemma run_cmd_status_trace cmd argv s :
  trace (run_cmd_status cmd argv s).2 = trace s ++ [Cmd cmd argv].
Proof.
  unfold run_cmd_status, bind_ok, with_err, exec.
  destruct (spawn _ _) as [[o|e] w]; simpl; [by destruct (success o)|done].
Qed.
End run.

#[global] Instance ran_preorder {W} P : PreOrder (@ran W P).
Proof. split; [intros s; apply ran_refl|intros s1 s2 s3; apply ran_trans]. Qed.

(** ** A machine for examples: a fixed reply to every command *)

Definition reply (text : list Z) : result string output := Ok (Output true "exit status: 0" text []).
Definition refuse (text : string) : result string output := Ok (Output false text [] []).
