(* ===== verification/Host.v ===== *)
(** * The machine under the agent

    Configuration and tasks run commands and write files, among them the
    [/proc] files and the netlink socket of the kernel module.  The machine is
    an abstract state [W]: [Os] says what a command does to it, [Files] what a
    write does.  A [host] is that state with the commands spawned and the
    writes that were accepted, oldest first. *)

From S2P Require Import Prelude RustStr Shell.

(** [fs::write(path, content)], or one netlink message. *)
Inductive write :=
| WriteFile (path content : string)
| SendNetlink (msg_type : Z) (payload : list Z).

#[global] Instance write_eq_dec : EqDecision write.
Proof. solve_decision. Defined.

Class Files (W : Type) := { put : write -> W -> result string unit * W }.

Record host (W : Type) := Host { h_shell : shell W; h_written : list write }.
Arguments Host {W} _ _.
Arguments h_shell {W} _.
Arguments h_written {W} _.

Section host.
Context {W : Type}.

Definition on_shell {A} (m : io (shell W) A) : io (host W) A := fun h =>
  let '(a, s) := m (h_shell h) in (a, Host s (h_written h)).

Context `{Files W}.

Definition write_out (w : write) : io (host W) (result string unit) := fun h =>
  let '(r, world') := put w (world (h_shell h)) in
  (r, Host (Shell world' (trace (h_shell h)))
        (match r with Ok _ => h_written h ++ [w] | Err _ => h_written h end)).

(** An accepted write is the newest one; a refused one leaves no mark. *)
Lemma write_out_written w h :
  h_written (write_out w h).2 =
    match (write_out w h).1 with Ok _ => h_written h ++ [w] | Err _ => h_written h end.
Proof. unfold write_out. by destruct (put w _) as [[] ?]. Qed.

Lemma write_out_trace w h : trace (h_shell (write_out w h).2) = trace (h_shell h).
Proof. unfold write_out. by destruct (put w _). Qed.
End host.

(** ** The disk *)

Inductive fs_op :=
| RemoveDirAll (p : string)
| CreateDirAll (p : string)
| WriteBytes (p : string) (bytes : list Z)
| Rename (a b : string)
| Copy (a b : string)
| SetMode (p : string) (mode : Z)
| RemoveFile (p : string).

Class Disk (W : Type) := {
  disk : fs_op -> W -> result string unit * W;
  path_exists : string -> W -> bool;
  (** [fs::read_dir]: the names in a directory. *)
  read_dir : string -> W -> result string (list string);
  (** [ZipArchive::new(bytes)], then [extract] into a directory. *)
  unzip : list Z -> string -> W -> result string unit * W;
  read_text : string -> W -> result string string
}.

(** ** The server *)

Class Http (W : Type) := {
  (** [post_data_async(url, body, _, token)]. *)
  http_post : string -> string -> option string -> W -> result string string * W;
  (** [download_file_async(url, _, token)]. *)
  http_download : string -> option string -> W -> result string (list Z) * W;
  (** [NetClient::new(Some(url), true)]. *)
  new_client : string -> result string unit
}.

Section machine.
Context {W : Type} `{Os W} `{Disk W}.

Abbreviation st := (host W).

Definition on_world {A} (f : W -> A * W) : io st A := fun h =>
  let '(a, w) := f (world (h_shell h)) in (a, Host (Shell w (trace (h_shell h))) (h_written h)).
Definition look {A} (f : W -> A) : io st A := fun h => (f (world (h_shell h)), h).
Lemma look_bind {A B} (f : W -> A) (k : A -> io st B) h : (look f ≫= k) h = k (f (world (h_shell h))) h.
Proof. done. Qed.

Definition do_disk (o : fs_op) : io st (result string unit) := on_world (disk o).

(** [Command::new(..).status().await.map(|s| s.success()).unwrap_or(false)]. *)
Definition succeeds (cmd : string) (argv : list string) : io st bool := fun h =>
  let '(r, s) := exec (Cmd cmd argv) (h_shell h) in
  (match r with Ok o => success o | Err _ => false end, Host s (h_written h)).
(** [let _ = Command::new(..).status().await]. *)
Definition run_quietly (cmd : string) (argv : list string) : io st unit :=
  ignore (succeeds cmd argv).
(** [Command::new(..).output()]. *)
Definition output_of (cmd : string) (argv : list string) : io st (result string output) :=
  on_shell (exec (Cmd cmd argv)).

Context `{Files W}.

(** A process that leaves its number in a file: it goes on, unless the file
    names a process that runs. *)
Definition single_instance (file : string) (pid : Z) : io st bool :=
  there ← look (path_exists file);
  r ← (if (there : bool) then look (read_text file) else mret (Err ""));
  let old := match r with Ok content => parse_uint 32 (trim content) | Err _ => None end in
  running ← match old with
            | Some p => look (path_exists ("/proc/" +:+ dec p))
            | None => mret false
            end;
  if (running : bool) then mret false
  else _ ← ignore (write_out (WriteFile file (dec pid))); mret true.

(** A start that left something written wrote its number. *)
Lemma single_instance_wrote file pid (h h1 : host W) :
  single_instance file pid h = (true, h1) -> h_written h1 <> h_written h ->
  exists w', put (WriteFile file (dec pid)) (world (h_shell h)) = (Ok tt, w') /\ world (h_shell h1) = w'.
Proof.
  intros E Hw. assert ((ignore (write_out (WriteFile file (dec pid))) h).2 = h1) as <-.
  { revert E. unfold single_instance. rewrite look_bind.
    destruct (path_exists file _); [rewrite look_bind; destruct (read_text file _) as [t|]; [destruct (parse_uint 32 (trim t))|]|].
    1: rewrite look_bind; destruct (path_exists (_ +:+ _) _).
    all: rewrite ?io_bind_run; cbn [fst snd mret io_ret]; try done; rewrite ?io_bind_run; cbn [fst snd mret io_ret]; by intros [= <-]. }
  revert Hw. unfold ignore, write_out, mbind, io_bind. destruct (put _ _) as [[[]|] w']; [eauto|done].
Qed.

(** Once the number of a process is in the file, another start goes on exactly
    when that process has ended. *)
Lemma single_instance_named file pid pid' (h : host W) :
  is_uint 32 pid -> path_exists file (world (h_shell h)) = true ->
  read_text file (world (h_shell h)) = Ok (dec pid) ->
  if path_exists ("/proc/" +:+ dec pid) (world (h_shell h)) then single_instance file pid' h = (false, h)
  else (single_instance file pid' h).1 = true.
Proof.
  intros Hp He Hr. unfold single_instance. rewrite look_bind, He, look_bind, Hr.
  rewrite trim_id by apply no_space_dec. rewrite parse_uint_dec by done. rewrite look_bind.
  destruct (path_exists ("/proc/" +:+ dec pid) _); [done|]. unfold mbind, io_bind, ignore. by destruct (write_out _ h).
Qed.
End machine.

(** The content last written to a file. *)
Definition last_written (path : string) (l : list write) : option string :=
  foldl (fun acc w => match w with
                      | WriteFile p c => if bool_decide (p = path) then Some c else acc
                      | SendNetlink _ _ => acc
                      end) None l.

Lemma last_written_app path l w :
  last_written path (l ++ [w]) =
    match w with
    | WriteFile p c => if bool_decide (p = path) then Some c else last_written path l
    | SendNetlink _ _ => last_written path l
    end.
Proof. unfold last_written. rewrite foldl_app. by destruct w. Qed.
