(* ===== verification/NetApp.v ===== *)
(** * Listening services

    [crates/hostinfo/src/net_app]: which process listens on which port, from
    the kernel's socket tables and the sockets the processes hold
    ([parser_netstat.rs], [utils.rs]), the ports of address translation and of
    containers ([parser_dnat.rs], [parser_docker.rs]), and the list of ports
    the agent hands to the kernel module ([model.rs]).  The texts of [/proc]
    and of the listing commands are arguments. *)

From Stdlib Require Import Ascii.
From stdpp Require Import sorting.
From S2P Require Import Prelude RustStr Bytes Shell Host.

(** ** State *)

Record PortBusinessInfo := PortInfo {
  pb_time : Z;
  pb_protocol : string;
  pb_local_ip : string;
  pb_local_port : Z;   (** u16 *)
  pb_remote_ip : string;
  pb_remote_port : string;
  pb_status : string;
  pb_pid : Z;          (** i32 *)
  pb_process_path : string
}.

Record NetAppState := NetApp {
  port_map : gmap Z PortBusinessInfo;
  port_str_map : gmap string PortBusinessInfo
}.

Definition add_port_info (port : Z) (info : PortBusinessInfo) (s : NetAppState) : NetAppState :=
  NetApp (<[port := info]> (port_map s))
    (<[pb_local_ip info +:+ ":" +:+ dec port := info]> (port_str_map s)).
Definition get_port_info (port : Z) (s : NetAppState) : option PortBusinessInfo := port_map s !! port.
Definition clear_ports (_ : NetAppState) : NetAppState := NetApp ∅ ∅.

(** ** Addresses of the socket tables *)

(** [u32::swap_bytes], and [u32::from_be] on the target. *)
Definition swap_bytes (x : Z) : Z := from_le_bytes (rev (to_le_bytes 4 x)).
Definition from_be (t : target) (x : Z) : Z := if big_endian t then x else swap_bytes x.

Definition parse_hex16 (s : string) : Z := default 0 (from_str_radix16 16 s).

Definition hex_to_ip_port (hex : string) : string * string :=
  match split_char ":" hex with
  | [ip_raw; port_hex] =>
    let ip := default 0 (from_str_radix16 32 ip_raw) in
    (ipv4_to_string (swap_bytes ip), dec (parse_hex16 port_hex))
  | _ => ("0.0.0.0", "0")
  end.

(** [s] in chunks of [n] characters; [cur] is what the current chunk has. *)
Fixpoint str_chunks (n : nat) (cur : string) (k : nat) (s : string) : list string :=
  match s with
  | EmptyString => if str_is_empty cur then [] else [cur]
  | String a s =>
    let cur := cur +:+ String a "" in
    if (S k =? n)%nat then cur :: str_chunks n "" 0 s else str_chunks n cur (S k) s
  end.

(** The two groups of one word; a word that is no number leaves them zero. *)
Definition segment_pair (t : target) (chunk : string) : list Z :=
  match from_str_radix16 32 chunk with
  | Some val => let host_val := from_be t val in
                [Z.land (Z.shiftr host_val 16) 65535; Z.land host_val 65535]
  | None => [0; 0]
  end.

Definition hex_to_ipv6_port_compressed (t : target) (hex : string) : string * string :=
  match split_char ":" hex with
  | [ip_raw; port_hex] =>
    if negb (String.length ip_raw =? 32)%nat then ("::", "0")
    else (ipv6_to_string (str_chunks 8 EmptyString 0 ip_raw ≫= segment_pair t), dec (parse_hex16 port_hex))
  | _ => ("::", "0")
  end.

Definition proc_net_status_to_str (status_hex : string) : string :=
  if bool_decide (status_hex = "0A") then "LISTEN"
  else if bool_decide (status_hex = "01") then "ESTABLISHED"
  else "--".

(** ** Sockets and processes *)

(** An entry of [/proc]: what its links and files say, as far as they can be read. *)
Record proc_dir := ProcDir {
  pd_name : string;
  pd_exe : option string;
  pd_cmdline : option string;
  pd_comm : option string;
  pd_fds : option (list (option string))
}.

(** Between the first brackets of [socket:[inode]]. *)
Definition extract_socket_inode (link : string) : option Z :=
  rest ← strip_prefix "socket:[" link;
  if ends_with "]" link then x ← split_once "]" rest; parse_uint 32 x.1 else None.

Definition get_process_info (pid : Z) (d : proc_dir) : string :=
  let from_comm := match pd_comm d with
                   | Some comm => "[comm:" +:+ trim comm +:+ "]"
                   | None => "[process:" +:+ dec_signed pid +:+ "]"
                   end in
  match pd_exe d with
  | Some path => path
  | None =>
    match pd_cmdline d with
    | Some cmdline =>
      match retain (fun s => negb (str_is_empty s)) (split_char zero cmdline) with
      | arg :: _ => arg
      | [] => from_comm
      end
    | None => from_comm
    end
  end.

Abbreviation inode_map := (gmap Z (Z * string)).

Definition add_sockets (pid : Z) (info : string) (fds : list (option string)) (m : inode_map) : inode_map :=
  foldl (fun m fd => match link ← fd; extract_socket_inode link with
                     | Some inode => <[inode := (pid, info)]> m
                     | None => m
                     end) m fds.

Definition build_inode_to_pid_map (proc : list proc_dir) : inode_map :=
  foldl (fun m d => match parse_int 32 (pd_name d) with
                    | Some pid => add_sockets pid (get_process_info pid d) (default [] (pd_fds d)) m
                    | None => m
                    end) ∅ proc.

(** ** The socket tables *)

Section tables.
Context (inode_to_pid : inode_map) (now : Z).

(** One row, for either table: [decode] reads an address, [loopback] is the one
    whose high ports are left out. *)
Definition listening_row (decode : string -> string * string) (loopback protocol : string)
    (line : string) : option PortBusinessInfo :=
  let cols := split_whitespace line in
  if (length cols <? 10)%nat then None
  else
    let '(local_ip, local_port) := decode (nth 1 cols "") in
    let '(remote_ip, remote_port) := decode (nth 2 cols "") in
    let port := default 0 (parse_uint 16 local_port) in
    if bool_decide (local_ip = loopback) && (6000 <=? port) then None
    else if negb (bool_decide (nth 3 cols "" = "0A")) then None
    else
      let inode := default 0 (parse_uint 32 (nth 9 cols "")) in
      let '(pid, process_path) := default (0, "--") (inode_to_pid !! inode) in
      Some (PortInfo now protocol local_ip port remote_ip remote_port
              (proc_net_status_to_str (nth 3 cols "")) pid process_path).

Definition port_key (i : PortBusinessInfo) : string :=
  pb_local_ip i +:+ ":" +:+ dec (pb_local_port i).

(** An entry that is there is kept. *)
Definition insert_new {K} `{Countable K} (k : K) (i : PortBusinessInfo) (m : gmap K PortBusinessInfo) :=
  match m !! k with Some _ => m | None => <[k := i]> m end.

Definition add_listener (s : NetAppState) (i : PortBusinessInfo) : NetAppState :=
  NetApp (insert_new (pb_local_port i) i (port_map s)) (insert_new (port_key i) i (port_str_map s)).

Definition parse_table (decode : string -> string * string) (loopback protocol : string)
    (content : option string) (s : NetAppState) : NetAppState :=
  match content with
  | None => s
  | Some text => foldl add_listener s (omap (listening_row decode loopback protocol) (drop 1 (lines text)))
  end.

Definition parse_proc_net_tcp : option string -> NetAppState -> NetAppState :=
  parse_table hex_to_ip_port "127.0.0.1" "tcp".
Definition parse_proc_net_tcp6 (t : target) : option string -> NetAppState -> NetAppState :=
  parse_table (hex_to_ipv6_port_compressed t) "::1" "tcp6".
End tables.

(** The maps are cleared and filled again, IPv4 first. *)
Definition update_netstat_info (t : target) (proc : list proc_dir) (tcp tcp6 : option string) (now : Z)
    (s : NetAppState) : NetAppState :=
  let inode_to_pid := build_inode_to_pid_map proc in
  parse_proc_net_tcp6 inode_to_pid now t tcp6
    (parse_proc_net_tcp inode_to_pid now tcp (clear_ports s)).

(** ** Translated and container ports *)

Definition put_port (key : string) (i : PortBusinessInfo) (s : NetAppState) : NetAppState :=
  NetApp (<[pb_local_port i := i]> (port_map s)) (<[key := i]> (port_str_map s)).

Definition dnat_line (now : Z) (s : NetAppState) (line : string) : NetAppState :=
  let tokens := split_whitespace line in
  if (length tokens <? 11)%nat then s
  else match rsplit_once ":" (nth 10 tokens "") with
       | Some (_, port_str) =>
         match parse_uint 16 port_str with
         | Some port => put_port port_str (PortInfo now (nth 9 tokens "") "0.0.0.0" port "" "" "--" 0
                                             "iptableDNAT") s
         | None => s
         end
       | None => s
       end.

Definition docker_line (now : Z) (s : NetAppState) (line : string) : NetAppState :=
  match parse_uint 16 (trim line) with
  | Some port => put_port (dec port) (PortInfo now "tcp" "0.0.0.0" port "" "" "LISTEN" 0
                                        "dockerBusinessPort") s
  | None => s
  end.

(** [update_dnat_info] and [update_docker_info], from what the commands answer. *)
Definition update_dnat_info (now : Z) (listing : result string output) (s : NetAppState) : NetAppState :=
  match listing with
  | Ok o => if success o then foldl (dnat_line now) s (lines (from_utf8_lossy (stdout o))) else s
  | Err _ => s
  end.

Definition update_docker_info (now : Z) (which listing : result string output) (s : NetAppState)
    : NetAppState :=
  match which with
  | Err _ => s
  | Ok w =>
    if negb (success w) then s
    else match listing with
         | Ok o => foldl (docker_line now) s (lines (from_utf8_lossy (stdout o)))
         | Err _ => s
         end
  end.

(** ** What is sent *)

Record PortBusinessInfoJson := PortJson {
  pj_type : string;
  pj_ip : string;
  pj_port : string;
  pj_process : string
}.

(** [to_json]; [values] is the order of the map. *)
Definition to_json (values : gmap string PortBusinessInfo -> list PortBusinessInfo) (s : NetAppState)
    : result string (list PortBusinessInfoJson) :=
  match (fun i => PortJson (pb_protocol i) (pb_local_ip i) (dec (pb_local_port i)) (pb_process_path i))
          <$> values (port_str_map s) with
  | [] => Err "No valid port entries"
  | l => Ok l
  end.

(** ** The ports of the kernel module *)

Definition BUSINESS_PORTS : string := "/proc/osec/business_ports".
Definition ports_text (ports : list Z) : string := join "," (dec <$> ports).

(** The keys in ascending order. *)
Definition sorted_ports (s : NetAppState) : list Z :=
  merge_sort Z.le (elements (dom (port_map s))).

Section ports.
Context {W : Type} `{Files W}.

Record ports_state := PortsState { ps_host : host W; LAST_PORTS : list Z }.

(** With no ports the text is empty: the file is opened and closed, and nothing
    is written to it. *)
Definition write_business_ports_to_proc (s : NetAppState) : io ports_state unit := fun st =>
  let ports := sorted_ports s in
  if bool_decide (LAST_PORTS st = ports) then (tt, st)
  else match write_out (WriteFile BUSINESS_PORTS (ports_text ports)) (ps_host st) with
       | (Ok _, h) => (tt, PortsState h ports)
       | (Err _, h) => (tt, PortsState h (LAST_PORTS st))
       end.
End ports.
Arguments ports_state : clear implicits.

(** ** Reading back what the kernel prints *)

(** [%08X] of a word and [%04X] of a port. *)
Definition hex_bytes (l : list Z) : string := foldr (fun b s => hex02X b +:+ s) "" l.
Definition hex08X (w : Z) : string := hex_bytes (rev (to_le_bytes 4 w)).
Definition hex04X (p : Z) : string := hex_bytes (rev (to_le_bytes 2 p)).

(** Reflection of a statement about one hexadecimal digit. *)
Lemma each_digit (P : Z -> Prop) d : is_uint 4 d -> Forall P (seqZ 0 16) -> P d.
Proof.
  intros [H0 H1] HP. change (2 ^ 4) with 16 in H1. rewrite Forall_forall in HP. apply HP.
  apply elem_of_seqZ. lia.
Qed.

Lemma hex_val_digit d acc s :
  is_uint 4 d -> hex_val acc (String (upper_hex_digit d) s) = hex_val (acc * 16 + d) s.
Proof.
  intros Hd. cbn [hex_val].
  assert (hex_digit_val (upper_hex_digit d) = Some d) as ->; [|done].
  apply (each_digit (fun d => hex_digit_val (upper_hex_digit d) = Some d)); [done|].
  by repeat constructor.
Qed.

Lemma high_digit b : is_uint 8 b -> is_uint 4 (b / 16).
Proof.
  intros [H0 H1]. change (2 ^ 8) with 256 in H1. split; [apply Z.div_pos; lia|].
  change (2 ^ 4) with 16. apply Z.div_lt_upper_bound; lia.
Qed.

Lemma low_digit b : is_uint 4 (b mod 16).
Proof. by apply Z.mod_pos_bound. Qed.

Lemma hex_bytes_cons b l :
  hex_bytes (b :: l)
  = String (upper_hex_digit (b / 16)) (String (upper_hex_digit (b mod 16)) (hex_bytes l)).
Proof. reflexivity. Qed.

Lemma hex_val_bytes l acc s :
  bytes_ok l ->
  hex_val acc (hex_bytes l +:+ s) = hex_val (foldl (fun a b => a * 256 + b) acc l) s.
Proof.
  intros Hl. revert acc. induction Hl as [|b l Hb Hl IH]; intros acc; [done|].
  rewrite hex_bytes_cons, !str_app_cons. cbn [foldl].
  rewrite !hex_val_digit, IH by auto using high_digit, low_digit.
  f_equal. f_equal. pose proof (Z.div_mod b 16 ltac:(lia)). lia.
Qed.

Lemma from_le_bytes_snoc l b : from_le_bytes (l ++ [b]) = from_le_bytes l + 256 ^ blen l * b.
Proof.
  unfold blen. induction l as [|c l IH]; [simpl; lia|]. cbn [app from_le_bytes]. rewrite IH.
  cbn [length]. rewrite Nat2Z.inj_succ, Z.pow_succ_r by lia. lia.
Qed.

Lemma foldl_be l acc :
  foldl (fun a b => a * 256 + b) acc l = acc * 256 ^ blen l + from_le_bytes (rev l).
Proof.
  revert acc. induction l as [|b l IH]; intros acc; [unfold blen; simpl; lia|].
  cbn [foldl rev]. rewrite IH, from_le_bytes_snoc. unfold blen. rewrite length_rev. cbn [length].
  rewrite Nat2Z.inj_succ, Z.pow_succ_r by lia. lia.
Qed.

Lemma hex_head_plus a s l : hex_bytes l = String a s -> bytes_ok l -> a <> "+"%char.
Proof.
  destruct l as [|b l]; [done|]. rewrite hex_bytes_cons. intros [= <- _] [Hb _]%Forall_cons.
  apply (each_digit (fun d => upper_hex_digit d <> "+"%char)); [by apply high_digit|].
  by repeat constructor.
Qed.

Lemma from_str_radix16_bytes n w l :
  bytes_ok l -> length l = n -> (0 < n)%nat -> w = 8 * Z.of_nat n ->
  from_str_radix16 w (hex_bytes l) = Some (from_le_bytes (rev l)).
Proof.
  intros Hl Hlen Hn Hw. unfold from_str_radix16.
  assert (match hex_bytes l with String "+" s' => s' | _ => hex_bytes l end = hex_bytes l) as Hbody.
  { destruct (hex_bytes l) as [|a s] eqn:E; [done|]. pose proof (hex_head_plus a s l E Hl) as Ha.
    destruct a as [[] [] [] [] [] [] [] []]; done. }
  rewrite Hbody. assert (hex_bytes l <> "") as Hne.
  { destruct l; [simpl in Hlen; lia|done]. }
  unfold str_is_empty. rewrite bool_decide_false by done.
  rewrite <- (str_app_nil_r (hex_bytes l)), hex_val_bytes by done. cbn [hex_val mbind option_bind].
  rewrite foldl_be, Z.mul_0_l, Z.add_0_l.
  destruct (from_le_bytes_uint (rev l) (bytes_ok_rev l Hl)) as [_ Hu].
  unfold blen in Hu. rewrite length_rev, Hlen, <- Hw in Hu. by rewrite (proj2 (Z.ltb_lt _ _)).
Qed.

Lemma hex_bytes_colon l : bytes_ok l -> str_mem ":" (hex_bytes l) = false.
Proof.
  intros Hl. induction Hl as [|b l Hb Hl IH]; [done|]. rewrite hex_bytes_cons. cbn [str_mem].
  assert (forall d, is_uint 4 d -> upper_hex_digit d <> ":"%char) as Hd.
  { intros d Hd. apply (each_digit (fun d => upper_hex_digit d <> ":"%char)); [done|].
    by repeat constructor. }
  pose proof (Hd _ (high_digit b Hb)). pose proof (Hd _ (low_digit b)).
  by rewrite !bool_decide_false by congruence.
Qed.

Lemma length_hex_bytes l : String.length (hex_bytes l) = (2 * length l)%nat.
Proof. induction l as [|b l IH]; [done|]. rewrite hex_bytes_cons. simpl. lia. Qed.

Lemma str_chunks_cut n cur k s r :
  (0 < String.length s)%nat -> (k + String.length s = n)%nat ->
  str_chunks n cur k (s +:+ r) = (cur +:+ s) :: str_chunks n "" 0 r.
Proof.
  revert cur k. induction s as [|a s IH]; intros cur k Hs Hn; simpl in Hs; [lia|].
  rewrite str_app_cons. cbn [str_chunks]. cbn [String.length] in Hn.
  destruct s as [|b s].
  - simpl in Hn. rewrite (proj2 (Nat.eqb_eq _ _)) by lia. by rewrite str_app_nil_l.
  - rewrite (proj2 (Nat.eqb_neq _ _)) by (simpl in Hn; lia).
    rewrite IH by (simpl in *; lia). by rewrite str_app_assoc.
Qed.

(** An address in memory is the network order of its octets; the table prints
    the word the target reads there. *)
Definition memory_word (t : target) (a : Z) : Z := from_ne_bytes t (octets a).
Definition kernel_v4 (t : target) (a port : Z) : string :=
  hex08X (memory_word t a) +:+ ":" +:+ hex04X port.
Definition kernel_v6 (t : target) (a b c d port : Z) : string :=
  hex08X (memory_word t a) +:+ hex08X (memory_word t b) +:+ hex08X (memory_word t c)
  +:+ hex08X (memory_word t d) +:+ ":" +:+ hex04X port.
Definition halves (w : Z) : list Z := [Z.land (Z.shiftr w 16) 65535; Z.land w 65535].

Lemma octets_ok a : bytes_ok (octets a).
Proof. repeat constructor; apply octet_uint. Qed.

Lemma from_le_octets a : is_uint 32 a -> from_le_bytes (rev (octets a)) = a.
Proof.
  intros Ha. pose proof (of_octets_octets a Ha) as E. unfold of_octets, octets in *. simpl. lia.
Qed.

Lemma memory_word_uint t a : is_uint 32 (memory_word t a).
Proof. apply (from_ne_bytes_uint t (octets a)), octets_ok. Qed.

Lemma to_le_le l : bytes_ok l -> length l = 4%nat -> to_le_bytes 4 (from_le_bytes l) = l.
Proof. intros Hl <-. by apply to_from_le_bytes. Qed.

(** Swapping undoes the byte order of a little-endian target, and only that. *)
Lemma swap_memory_word t a :
  is_uint 32 a ->
  swap_bytes (memory_word t a) = if big_endian t then swap_bytes a else a.
Proof.
  intros Ha. unfold memory_word, from_ne_bytes. destruct (big_endian t).
  - by rewrite from_le_octets.
  - unfold swap_bytes. rewrite to_le_le by (done || apply octets_ok). by apply from_le_octets.
Qed.

Lemma from_be_memory_word t a : is_uint 32 a -> from_be t (memory_word t a) = a.
Proof.
  intros Ha. unfold from_be. destruct (big_endian t) eqn:E.
  - unfold memory_word, from_ne_bytes. rewrite E. by apply from_le_octets.
  - rewrite swap_memory_word by done. by rewrite E.
Qed.

Lemma parse_hex_word n w x :
  (0 < n)%nat -> w = 8 * Z.of_nat n -> is_uint w x ->
  from_str_radix16 w (hex_bytes (rev (to_le_bytes n x))) = Some x.
Proof.
  intros Hn Hw Hx. rewrite (from_str_radix16_bytes n); [|apply bytes_ok_rev, to_le_bytes_ok| |done..].
  - rewrite List.rev_involutive, from_to_le_bytes, <- Hw. f_equal. by apply wrap_id.
  - by rewrite length_rev, length_to_le_bytes.
Qed.

Lemma parse_hex08X w : is_uint 32 w -> from_str_radix16 32 (hex08X w) = Some w.
Proof. apply parse_hex_word; lia. Qed.

Lemma parse_hex04X p : is_uint 16 p -> parse_hex16 (hex04X p) = p.
Proof. intros Hp. unfold parse_hex16, hex04X. by rewrite parse_hex_word by (done || lia). Qed.

Lemma hex_word_colon n x : str_mem ":" (hex_bytes (rev (to_le_bytes n x))) = false.
Proof. apply hex_bytes_colon, bytes_ok_rev, to_le_bytes_ok. Qed.

Lemma length_hex08X x : String.length (hex08X x) = 8%nat.
Proof. unfold hex08X. by rewrite length_hex_bytes, length_rev, length_to_le_bytes. Qed.

Lemma decode_v4 t a port :
  is_uint 32 a -> is_uint 16 port ->
  hex_to_ip_port (kernel_v4 t a port)
  = (ipv4_to_string (if big_endian t then swap_bytes a else a), dec port).
Proof.
  intros Ha Hp. unfold hex_to_ip_port, kernel_v4.
  change (hex08X (memory_word t a) +:+ ":" +:+ hex04X port)
    with (hex08X (memory_word t a) +:+ String ":" (hex04X port)).
  rewrite split_char_app, split_char_none by apply hex_word_colon.
  rewrite parse_hex08X by apply memory_word_uint. cbn [from_option id].
  by rewrite parse_hex04X, swap_memory_word.
Qed.

Lemma segments_word t w s :
  is_uint 32 w ->
  str_chunks 8 "" 0 (hex08X (memory_word t w) +:+ s) ≫= segment_pair t
  = halves w ++ (str_chunks 8 "" 0 s ≫= segment_pair t).
Proof.
  intros Hw. rewrite str_chunks_cut by (rewrite length_hex08X; lia).
  rewrite str_app_nil_l. cbn [mbind list_bind]. f_equal. unfold segment_pair.
  rewrite parse_hex08X by apply memory_word_uint. by rewrite from_be_memory_word.
Qed.

Lemma decode_v6 t a b c d port :
  Forall (is_uint 32) [a; b; c; d] -> is_uint 16 port ->
  hex_to_ipv6_port_compressed t (kernel_v6 t a b c d port)
  = (ipv6_to_string ([a; b; c; d] ≫= halves), dec port).
Proof.
  rewrite !Forall_cons. intros (Ha & Hb & Hc & Hd & _) Hp.
  unfold hex_to_ipv6_port_compressed, kernel_v6.
  set (text := hex08X (memory_word t a) +:+ hex08X (memory_word t b) +:+ hex08X (memory_word t c)
               +:+ hex08X (memory_word t d)).
  assert (hex08X (memory_word t a) +:+ hex08X (memory_word t b) +:+ hex08X (memory_word t c)
            +:+ hex08X (memory_word t d) +:+ ":" +:+ hex04X port = text +:+ String ":" (hex04X port)) as ->.
  { unfold text. by rewrite !str_app_assoc. }
  rewrite split_char_app, split_char_none.
  - rewrite (proj2 (Nat.eqb_eq (String.length text) 32)).
    2:{ unfold text. by rewrite !str_length_app, !length_hex08X. }
    cbn [negb]. rewrite parse_hex04X by done. f_equal. f_equal. unfold text.
    rewrite !segments_word by done. rewrite <- (str_app_nil_r (hex08X (memory_word t d))).
    by rewrite segments_word by done.
  - apply hex_word_colon.
  - unfold text. rewrite !str_mem_app. unfold hex08X. by rewrite !hex_word_colon.
Qed.

(** the addresses of the kernel's socket tables are read as they are: an
    IPv6 address on every target, an IPv4 address on little-endian ones.  On a
    big-endian target the octets of an IPv4 address come out reversed, because
    they are swapped whatever the target. *)
Theorem addresses_decoded t a b c d port :
  Forall (is_uint 32) [a; b; c; d] -> is_uint 16 port ->
  hex_to_ipv6_port_compressed t (kernel_v6 t a b c d port)
    = (ipv6_to_string ([a; b; c; d] ≫= halves), dec port)
  /\ hex_to_ip_port (kernel_v4 t a port)
    = (ipv4_to_string (if big_endian t then swap_bytes a else a), dec port).
Proof.
  intros Hw Hp. split; [by apply decode_v6|]. apply decode_v4; [|done].
  by apply Forall_cons in Hw as [? _].
Qed.

(** ** The maps *)

(** The first listener with a given key. *)
Definition first_with {K} `{EqDecision K} (key : PortBusinessInfo -> K) (k : K)
    (l : list PortBusinessInfo) : option PortBusinessInfo :=
  List.find (fun i => bool_decide (key i = k)) l.

Lemma insert_new_lookup {K} `{Countable K} (k k' : K) i m :
  insert_new k i m !! k' = match m !! k' with
                           | Some j => Some j
                           | None => if bool_decide (k = k') then Some i else None
                           end.
Proof.
  unfold insert_new. destruct (m !! k) as [j|] eqn:E; case_bool_decide as Hk; subst.
  - by rewrite E.
  - by destruct (m !! k').
  - by rewrite lookup_insert_eq, E.
  - rewrite lookup_insert_ne by done. by destruct (m !! k').
Qed.

Lemma add_listeners_lookup l s :
  (forall p, port_map (foldl add_listener s l) !! p
             = match port_map s !! p with Some i => Some i | None => first_with pb_local_port p l end)
  /\ forall k, port_str_map (foldl add_listener s l) !! k
             = match port_str_map s !! k with Some i => Some i | None => first_with port_key k l end.
Proof.
  revert s. induction l as [|i l IH]; intros s; cbn [foldl].
  - split; intros k; by destruct (_ !! k).
  - destruct (IH (add_listener s i)) as [H1 H2].
    split; intros k; [rewrite H1|rewrite H2]; unfold add_listener; cbn [port_map port_str_map];
      rewrite insert_new_lookup; unfold first_with; cbn [List.find];
      destruct (_ !! k); try done; by case_bool_decide.
Qed.

(** The listeners of a table, in its order. *)
Definition table_rows (m : inode_map) (now : Z) (decode : string -> string * string)
    (loopback protocol : string) (content : option string) : list PortBusinessInfo :=
  omap (listening_row m now decode loopback protocol) (drop 1 (lines (default "" content))).

Lemma parse_table_rows m now decode loopback protocol content s :
  parse_table m now decode loopback protocol content s
  = foldl add_listener s (table_rows m now decode loopback protocol content).
Proof. by destruct content. Qed.

(** C31: the two maps are what a search of the tables finds: for every port, and
    for every pair of address and port, the first listener in the IPv4 table,
    or else the first in the IPv6 table, and nothing for a port on which no row
    listens; whatever the maps held before. *)
Theorem listeners_found t proc tcp tcp6 now s :
  let m := build_inode_to_pid_map proc in
  let rows := table_rows m now hex_to_ip_port "127.0.0.1" "tcp" tcp
              ++ table_rows m now (hex_to_ipv6_port_compressed t) "::1" "tcp6" tcp6 in
  let s' := update_netstat_info t proc tcp tcp6 now s in
  (forall p, port_map s' !! p = first_with pb_local_port p rows)
  /\ forall k, port_str_map s' !! k = first_with port_key k rows.
Proof.
  intros m rows s'. unfold s', update_netstat_info, parse_proc_net_tcp, parse_proc_net_tcp6.
  rewrite !parse_table_rows, <- foldl_app. fold m. fold rows.
  destruct (add_listeners_lookup rows (NetApp ∅ ∅)) as [H1 H2].
  split; [intros p; rewrite H1|intros k; rewrite H2]; cbn [port_map port_str_map];
    by rewrite lookup_empty.
Qed.

(** A listener names the process that holds its socket, the last of them in the
    order of [/proc]. *)
Definition holds_socket (d : proc_dir) (inode : Z) : bool :=
  existsb (fun fd => bool_decide ((link ← fd; extract_socket_inode link) = Some inode))
    (default [] (pd_fds d)).

Lemma add_sockets_lookup pid info fds m inode :
  add_sockets pid info fds m !! inode
  = if existsb (fun fd => bool_decide ((link ← fd; extract_socket_inode link) = Some inode)) fds
    then Some (pid, info) else m !! inode.
Proof.
  unfold add_sockets. revert m. induction fds as [|fd fds IH]; intros m; [done|]. cbn [foldl existsb].
  rewrite IH. destruct (fd ≫= extract_socket_inode) as [i|] eqn:E.
  - destruct (existsb _ fds); [by rewrite orb_true_r|]. rewrite orb_false_r.
    destruct (decide (i = inode)) as [->|Hi].
    + rewrite bool_decide_true by done. apply (lookup_insert_eq m).
    + rewrite bool_decide_false by congruence. by apply (lookup_insert_ne m).
  - by rewrite bool_decide_false.
Qed.

Definition owner (inode : Z) (d : proc_dir) : option (Z * string) :=
  pid ← parse_int 32 (pd_name d);
  if holds_socket d inode then Some (pid, get_process_info pid d) else None.

Lemma inode_owner proc inode :
  build_inode_to_pid_map proc !! inode = last (omap (owner inode) proc).
Proof.
  unfold build_inode_to_pid_map. induction proc as [|d proc IH] using rev_ind; [apply lookup_empty|].
  rewrite foldl_app, omap_app. cbn [foldl omap list_omap]. unfold owner at 2.
  destruct (parse_int 32 (pd_name d)) as [pid|]; cbn [mbind option_bind].
  - rewrite add_sockets_lookup. fold (holds_socket d inode).
    destruct (holds_socket d inode); [by rewrite last_snoc|]. by rewrite app_nil_r.
  - by rewrite app_nil_r.
Qed.

(** ** The kernel's list of ports *)

Lemma sorted_ports_elem s p : p ∈ sorted_ports s <-> is_Some (port_map s !! p).
Proof.
  unfold sorted_ports. rewrite merge_sort_Permutation, elem_of_elements, elem_of_dom. done.
Qed.

Lemma sorted_ports_sorted s : StronglySorted Z.lt (sorted_ports s).
Proof.
  assert (NoDup (sorted_ports s)) as Hnd.
  { unfold sorted_ports. rewrite merge_sort_Permutation. apply NoDup_elements. }
  assert (StronglySorted Z.le (sorted_ports s)) as Hs by (apply (StronglySorted_merge_sort Z.le)).
  revert Hnd. induction Hs as [|x l Hs IH Hall]; intros Hnd; constructor.
  - apply IH. by apply NoDup_cons in Hnd as [_ ?].
  - apply NoDup_cons in Hnd as [Hx _]. rewrite Forall_forall in Hall |- *. intros y Hy.
    specialize (Hall y Hy). assert (x <> y) by (by intros ->). lia.
Qed.

Lemma sorted_ports_nil s : sorted_ports s = [] <-> port_map s = ∅.
Proof.
  split; intros E.
  - apply map_empty. intros p. apply eq_None_not_Some. rewrite <- sorted_ports_elem, E. by apply not_elem_of_nil.
  - destruct (sorted_ports s) as [|p l] eqn:El; [done|]. assert (p ∈ sorted_ports s) as Hp by (rewrite El; by left).
    apply sorted_ports_elem in Hp as [x Hx]. by rewrite E, lookup_empty in Hx.
Qed.

Section mirrored.
Context {W : Type} `{Files W}.

(** What the module was last given: an empty text is no write. *)
Definition is_written (w : write) : bool :=
  match w with WriteFile _ c => negb (str_is_empty c) | SendNetlink _ _ => true end.
Definition module_text (st : ports_state W) : option string :=
  last_written BUSINESS_PORTS (retain is_written (h_written (ps_host st))).

(** The module has the list that was last sent, unless that was empty. *)
Definition ports_mirrored (st : ports_state W) : Prop :=
  StronglySorted Z.lt (LAST_PORTS st)
  /\ (LAST_PORTS st <> [] -> module_text st = Some (ports_text (LAST_PORTS st))).

Lemma ports_text_empty l : str_is_empty (ports_text l) = bool_decide (l = []).
Proof.
  destruct l as [|p l]; [done|]. unfold str_is_empty, ports_text. rewrite !bool_decide_eq_false_2; [done|done|].
  destruct (dec p) as [|a x] eqn:E; [by apply dec_nonempty in E|].
  destruct l as [|q l]; rewrite fmap_cons, E; [done|]. cbn [fmap list_fmap join]. by rewrite str_app_cons.
Qed.

(** The module's text after an accepted write of a list. *)
Lemma module_text_written l h (st : ports_state W) last :
  h_written h = h_written (ps_host st) ++ [WriteFile BUSINESS_PORTS (ports_text l)] ->
  module_text (PortsState h last) = if bool_decide (l = []) then module_text st else Some (ports_text l).
Proof.
  intros E. unfold module_text. cbn [ps_host]. rewrite E. unfold retain. rewrite List.filter_app.
  cbn [List.filter is_written]. rewrite ports_text_empty.
  case_bool_decide; cbn [negb]; [by rewrite app_nil_r|]. by rewrite last_written_app, bool_decide_true.
Qed.

Lemma write_ports_mirrored s st :
  ports_mirrored st -> ports_mirrored (write_business_ports_to_proc s st).2.
Proof.
  intros [Hs Hm]. unfold write_business_ports_to_proc. case_bool_decide; [done|].
  pose proof (write_out_written (WriteFile BUSINESS_PORTS (ports_text (sorted_ports s))) (ps_host st)) as Hw.
  destruct (write_out _ _) as [[[]|e] h]; cbn [fst snd] in *; split; cbn [LAST_PORTS ps_host].
  - apply sorted_ports_sorted.
  - intros Hn. by rewrite (module_text_written _ _ _ _ Hw), bool_decide_false.
  - done.
  - unfold module_text. cbn [ps_host]. by rewrite Hw.
Qed.

(** A write that is accepted, or not needed, leaves the module with the ports
    of the map. *)
Lemma write_ports_current s (st : ports_state W) :
  (forall w x, is_ok (put w x).1 = true) -> ports_mirrored st ->
  let st' := (write_business_ports_to_proc s st).2 in
  LAST_PORTS st' = sorted_ports s
  /\ module_text st' = if bool_decide (sorted_ports s = []) then module_text st
                       else Some (ports_text (sorted_ports s)).
Proof.
  intros Hok [_ Hm]. unfold write_business_ports_to_proc. case_bool_decide as E.
  { cbn [snd]. rewrite <- E. split; [done|]. case_bool_decide; [done|by apply Hm]. }
  specialize (Hok (WriteFile BUSINESS_PORTS (ports_text (sorted_ports s))) (world (h_shell (ps_host st)))).
  pose proof (write_out_written (WriteFile BUSINESS_PORTS (ports_text (sorted_ports s))) (ps_host st)) as Hw.
  unfold write_out in *. destruct (put _ _) as [[] ?]; [|done]. cbn [fst snd] in *.
  split; [done|]. by apply module_text_written.
Qed.
End mirrored.

(** C20: over any sequence of collections and whatever writes are refused: the
    ports the agent remembers are in ascending order without repetition, and
    when there are any the module was last given exactly them (a refused list
    is not remembered and is sent again).  While all are accepted, the agent
    remembers exactly the ports of the last collection, and the module was last
    given those too if there are any; if there are none, nothing is written,
    and the module keeps the list it had before that collection. *)
Theorem business_ports_mirrored {W} `{Files W} (ss : list NetAppState) s (st : ports_state W) :
  LAST_PORTS st = [] ->
  let st1 := (for_each write_business_ports_to_proc ss st).2 in
  let st' := (for_each write_business_ports_to_proc (ss ++ [s]) st).2 in
  ports_mirrored st'
  /\ ((forall w x, is_ok (put w x).1 = true) ->
      (forall p, p ∈ LAST_PORTS st' <-> is_Some (port_map s !! p))
      /\ module_text st' = if bool_decide (port_map s = ∅) then module_text st1
                           else Some (ports_text (LAST_PORTS st'))).
Proof.
  intros Hl. cbv zeta. rewrite for_each_app.
  set (st1 := (for_each write_business_ports_to_proc ss st).2).
  assert (ports_mirrored st1) as H1.
  { apply (for_each_invariant ports_mirrored).
    - intros x st2 _ Hst2. by apply write_ports_mirrored.
    - unfold ports_mirrored. rewrite Hl. split; [constructor|done]. }
  cbn [for_each]. unfold mbind, io_bind. destruct (write_business_ports_to_proc s st1) as [[] st2] eqn:E.
  cbn [snd mret io_ret]. assert (st2 = (write_business_ports_to_proc s st1).2) as -> by (by rewrite E).
  split; [by apply write_ports_mirrored|]. intros Hok. destruct (write_ports_current s st1 Hok H1) as [-> ->].
  split; [intros p; apply sorted_ports_elem|]. by rewrite (bool_decide_ext _ _ (sorted_ports_nil s)).
Qed.

(** ** Instances *)

Module NetAppDemo.

Lemma addresses_decoded_witness :
  hex_to_ip_port "0100007F:1F90" = ("127.0.0.1", "8080")
  /\ hex_to_ip_port (kernel_v4 (Target true 64) 2130706433 8080) = ("1.0.0.127", "8080")
  /\ hex_to_ipv6_port_compressed le64 "0000000000000000FFFF00000100007F:0050"
     = ("::ffff:127.0.0.1", "80").
Proof.
  split_and!.
  - refine (proj2 (addresses_decoded le64 2130706433 0 0 0 8080 _ _)); [|done].
    by repeat apply Forall_cons_2.
  - refine (proj2 (addresses_decoded (Target true 64) 2130706433 0 0 0 8080 _ _)); [|done].
    by repeat apply Forall_cons_2.
  - refine (proj1 (addresses_decoded le64 0 0 65535 2130706433 80 _ _)); [|done].
    by repeat apply Forall_cons_2.
Defined.

Definition header : string := "  sl  local_address rem_address   st" +:+ String line_feed "".
Definition sshd : proc_dir :=
  ProcDir "812" (Some "/usr/sbin/sshd") None None (Some [None; Some "pipe:[4]"; Some "socket:[991]"]).
Definition ssh_row : string := "0: 00000000:0016 00000000:0000 0A 0:0 0:0 0 0 0 991 1".
Definition ssh_row6 : string :=
  "0: 00000000000000000000000000000000:0016 00000000000000000000000000000000:0000 0A 0:0 0:0 0 0 0 992 1".
Definition closed_row : string := "1: 0100007F:1770 00000000:0000 0A 0:0 0:0 0 0 0 7 1".

(** ssh on both families: the port is that of the IPv4 row; a high loopback
    port is left out. *)
Example ssh_listens :
  let s := update_netstat_info le64 [sshd] (Some (header +:+ ssh_row +:+ String line_feed closed_row))
             (Some (header +:+ ssh_row6)) 9 (NetApp ∅ ∅) in
  port_map s = {[22 := PortInfo 9 "tcp" "0.0.0.0" 22 "0.0.0.0" "0" "LISTEN" 812 "/usr/sbin/sshd"]}
  /\ port_str_map s !! ":::22" = Some (PortInfo 9 "tcp6" "::" 22 "::" "0" "LISTEN" 0 "--").
Proof. by vm_compute. Qed.

#[local] Instance busy : Files bool := {|
  put _ (free : bool) := (if free then Ok tt else Err "busy", true) |}.

Definition open (p : Z) : NetAppState :=
  NetApp {[p := PortInfo 0 "tcp" "0.0.0.0" p "" "" "LISTEN" 0 "--"]} ∅.

(** The first write is refused. *)
Definition start : ports_state bool := PortsState (Host (Shell false []) []) [].

Lemma business_ports_mirrored_witness :
  let st' := (for_each write_business_ports_to_proc ([open 22] ++ [open 22]) start).2 in
  ports_mirrored st' /\ module_text st' = Some "22".
Proof.
  split; [|by vm_compute].
  exact (proj1 (business_ports_mirrored [open 22] (open 22) start eq_refl)).
Defined.

(** The last port closed, the agent has none and the module still has it. *)
Example closed_port_kept :
  let st' := (for_each write_business_ports_to_proc [open 22; open 22; NetApp ∅ ∅] start).2 in
  LAST_PORTS st' = [] /\ module_text st' = Some "22".
Proof. by vm_compute. Qed.

End NetAppDemo.
