(* ===== verification/NetReport.v ===== *)
(** * The audit reporter: network logs

    [crates/reporter/src/fake_port_audit.rs] (connections to decoy ports) and
    [net_service_log.rs] (inbound and outbound connections), with the builders
    of [build_json.rs] they use.  Whether a connection is to a service of this
    host is looked up in the port table of [NetApp].

    All three handlers walk the same kind of index window as the file and
    process audit; the connection handlers drop a record that does not differ
    from the last one they kept. *)

From S2P Require Import Prelude RustStr Bytes NetApp Zcopy Md5Cache Reporter.

(** ** Addresses *)

Definition ip46_address_is_ip4 (addr : list Z) : bool := all_zero (take 12 addr).

Inductive IpAddr := V4 (a : Z) | V6 (groups : list Z).

Definition ip_to_string (ip : IpAddr) : string :=
  match ip with V4 a => ipv4_to_string a | V6 g => ipv6_to_string g end.

(** [u32::from_be(addr.v4.ip4)]: a native load, swapped on little-endian targets. *)
Definition from_be32 (t : target) (x : Z) : Z :=
  if big_endian t then x else from_le_bytes (rev (to_le_bytes 4 x)).
Definition v4_of (t : target) (addr : list Z) : Z :=
  from_be32 t (from_ne_bytes t (drop 12 addr)).

(** [Ipv6Addr::from([u8; 16])]. *)
Fixpoint be_groups (l : list Z) : list Z :=
  match l with
  | a :: b :: l => a * 256 + b :: be_groups l
  | _ => []
  end.

Definition to_ipaddr_host_order (t : target) (addr : list Z) : IpAddr :=
  if ip46_address_is_ip4 addr then V4 (v4_of t addr) else V6 (be_groups addr).

(** [u16::to_be]. *)
Definition to_be16 (t : target) (x : Z) : Z := from_be16 t x.

(** ** Entries and posts *)

Record OpenPortLog := {
  weight : Z;         (** i32 *)
  time : Z;
  attack_ip : string;
  destination_ip : string;
  open_port : Z;
  redirect_ip : string;
  redirect_port : Z
}.

Record SysNetLog := {
  net_uid : option string;
  p_id : Z;           (** i32 *)
  p_dir : option string;
  res_ip : option string;
  rs_port : Z;
  proto : Z;
  net_time : Z;
  log_type : Z;
  net_hash : option string;
  source_ip : option string;
  source_port : Z
}.

Inductive net_upload :=
| OpenPorts (url : string) (logs : list OpenPortLog)
| NetLogs (url : string) (logs : list SysNetLog).

(** The non-empty checks of [build_open_port_json] and
    [build_batch_syslog_net_json]. *)
Definition build_open_port_json (logs : list OpenPortLog) : result string (list OpenPortLog) :=
  match logs with [] => Err "No valid open port log entries" | _ => Ok logs end.
Definition build_batch_syslog_net_json (logs : list SysNetLog) : result string (list SysNetLog) :=
  match logs with [] => Err "No valid log entries" | _ => Ok logs end.

(** ** The handlers *)

Record nstate := NState {
  nmd5s : md5_state;
  nposted : list net_upload
}.

Definition npost (u : net_upload) : io nstate unit := fun s =>
  (tt, NState (nmd5s s) (nposted s ++ [u])).

Section net.
Context (t : target) (mem : memory) (mgr : ZcopyMgr).
Context (md5_hex : list Z -> string) (can_create : string -> bool).
Context (uuid : gmap string node -> list Z) (now : Z).
Context (net_client : option string).

(** *** Decoy ports *)

Definition render_ip (addr : list Z) : string :=
  if ip46_address_is_ip4 addr then ipv4_to_string (v4_of t addr)
  else ip_to_string (to_ipaddr_host_order t addr).

(** The redirect address, blank for the broadcast and the unspecified one. *)
Definition render_redirect (addr : list Z) : string :=
  if ip46_address_is_ip4 addr then
    let ip_str := ipv4_to_string (v4_of t addr) in
    if bool_decide (ip_str = "255.255.255.255") then "" else ip_str
  else
    let ip_str := ip_to_string (to_ipaddr_host_order t addr) in
    if bool_decide (ip_str = "::") then "" else ip_str.

Definition open_port_log (report : OsecOpenportReport) : OpenPortLog := {|
  weight := to_signed 32 (op_type report);
  time := 1692760326;
  attack_ip := render_ip (op_src_ip report);
  destination_ip := render_ip (op_attack_dest_ip report);
  open_port := op_src_port report;
  redirect_ip := render_redirect (op_dest_ip report);
  redirect_port := op_dest_port report
|}.

(** The guard reads the process ring's flag. *)
Definition handle_fake_port_zcopy_oper (data : list Z) (data_len : Z)
    : io nstate (outcome (result string unit)) := fun s =>
  if data_len <? size_of NetlinkNetlog_layout then (Done (Err (too_short data_len)), s)
  else match read_netlog t data with
       | Panic => (Panic, s)
       | Done netlog =>
         if negb (succeed (process_audit mgr))
         then (Done (Err "ZcopyMgr file audit not initialized"), s)
         else match pending netlog with
              | Err e => (Done (Err e), s)
              | Ok idxs =>
                match collect (get_openport_log_audit_data mgr) (load_openport t mem) idxs with
                | Panic => (Panic, s)
                | Done reports =>
                  match net_client with
                  | None => (Done (Err "创建 NetClient 失败"), s)
                  | Some base =>
                    match build_open_port_json (open_port_log <$> reports) with
                    | Ok logs => (Done (Ok tt), (npost (OpenPorts (base +:+ "/v1/upOpenPort") logs) s).2)
                    | Err _ => (Done (Ok tt), s)
                    end
                  end
                end
              end
       end.

(** *** Connections *)

(** [as_u64] compares the 16 bytes of an address in two halves. *)
Definition is_change (last current : OsecNetworkReport) : bool :=
  negb (bool_decide (nr_src last = nr_src current))
  || negb (bool_decide (nr_dst last = nr_dst current))
  || negb (to_be16 t (nr_src_port last) =? to_be16 t (nr_src_port current))
  || negb (to_be16 t (nr_dest_port last) =? to_be16 t (nr_dest_port current))
  || negb (nr_pid last =? nr_pid current).

Definition get_md5_net (p : string) : io nstate (result string string) := fun s =>
  let '(r, m) := get_md5 md5_hex can_create uuid now p (nmd5s s) in (r, NState m (nposted s)).

(** The entry before the port table and the digest are consulted; [None] when
    the command has no NUL and is read past its end. *)
Definition base_log (ty current_time : Z) (report : OsecNetworkReport) : option SysNetLog :=
  comm ← until_nul (nr_comm report);
  Some {|
    net_uid := None; p_id := to_signed 32 (nr_pid report);
    p_dir := Some (from_utf8_lossy comm);
    res_ip := Some (ip_to_string (to_ipaddr_host_order t (nr_dst report)));
    rs_port := to_be16 t (nr_dest_port report); proto := 6; net_time := current_time;
    log_type := ty; net_hash := None;
    source_ip := Some (ip_to_string (to_ipaddr_host_order t (nr_src report)));
    source_port := to_be16 t (nr_src_port report) |}.

Definition with_owner (log : SysNetLog) (pid : Z) (dir hash : option string) : SysNetLog := {|
  net_uid := net_uid log; p_id := pid; p_dir := dir; res_ip := res_ip log;
  rs_port := rs_port log; proto := proto log; net_time := net_time log; log_type := log_type log;
  net_hash := hash; source_ip := source_ip log; source_port := source_port log |}.

(** The digest of the owner's path, when there is a path. *)
Definition hash_owner (dir : option string) : io nstate (option string) := fun s =>
  match dir with
  | Some p => if str_is_empty p then (None, s)
              else let '(r, s) := get_md5_net p s in (ok r, s)
  | None => (None, s)
  end.

(** Inbound: the owner is looked up by the source port, then the remote port. *)
Definition inbound_log (ports : NetAppState) (current_time : Z) (report : OsecNetworkReport)
    : io nstate (outcome SysNetLog) := fun s =>
  match base_log 3 current_time report with
  | None => (Panic, s)
  | Some log =>
    match match get_port_info (source_port log) ports with
          | Some b => Some b
          | None => get_port_info (rs_port log) ports
          end with
    | Some business =>
      let pid := if 0 <? pb_pid business then pb_pid business else p_id log in
      let dir := Some (pb_process_path business) in
      let '(hash, s) := hash_owner dir s in
      (Done (with_owner log pid dir hash), s)
    | None => (Done log, s)
    end
  end.

(** Outbound: the owner is the command of the record. *)
Definition outbound_log (current_time : Z) (report : OsecNetworkReport)
    : io nstate (outcome SysNetLog) := fun s =>
  match base_log 2 current_time report with
  | None => (Panic, s)
  | Some log =>
    let '(hash, s) := hash_owner (p_dir log) s in
    (Done (with_owner log (p_id log) (p_dir log) hash), s)
  end.

(** One index of a loop: [pre_report] is the last record kept. *)
Definition net_step (get : Z -> outcome (option Z))
    (make : OsecNetworkReport -> io nstate (outcome SysNetLog))
    (a : option OsecNetworkReport * list SysNetLog) (idx : Z)
    : io nstate (outcome (option OsecNetworkReport * list SysNetLog)) := fun s =>
  match get idx with
  | Panic => (Panic, s)
  | Done None => (Done a, s)
  | Done (Some p) =>
    let report := load_network t mem p in
    let keep := match a.1 with Some pre => is_change report pre | None => true end in
    if keep then
      match make report s with
      | (Panic, s) => (Panic, s)
      | (Done log, s) => (Done (Some report, a.2 ++ [log]), s)
      end
    else (Done a, s)
  end.

Definition upload_net (logs : list SysNetLog) : io nstate (outcome (result string unit)) := fun s =>
  match logs with
  | [] => (Done (Ok tt), s)
  | _ =>
    match net_client with
    | None => (Done (Err "创建 NetClient 失败"), s)
    | Some base =>
      match build_batch_syslog_net_json logs with
      | Ok logs => (Done (Ok tt), (npost (NetLogs (base +:+ "/v1/putsyslog") logs) s).2)
      | Err _ => (Done (Ok tt), s)
      end
    end
  end.

(** The common frame of both handlers; [walk] is the loops.  The guard reads
    the file ring's flag. *)
Definition net_handler
    (walk : NetlinkNetlog -> io nstate (outcome (option OsecNetworkReport * list SysNetLog)))
    (data : list Z) (data_len : Z) : io nstate (outcome (result string unit)) := fun s =>
  if data_len <? size_of NetlinkNetlog_layout then (Done (Err (too_short data_len)), s)
  else match read_netlog t data with
       | Panic => (Panic, s)
       | Done netlog =>
         if negb (succeed (file_audit mgr))
         then (Done (Err "ZcopyMgr file audit not initialized"), s)
         else match pending netlog with
              | Err e => (Done (Err e), s)
              | Ok _ =>
                match walk netlog s with
                | (Panic, s) => (Panic, s)
                | (Done a, s) => upload_net a.2 s
                end
              end
       end.

Definition handle_internal_communication_log (ports : NetAppState) (current_time : Z)
    (data : list Z) (data_len : Z) : io nstate (outcome (result string unit)) :=
  let step := net_step (get_in_netlog_audit_data mgr) (inbound_log ports current_time) in
  net_handler (fun n =>
    if max_idx n =? 0 then fold_done step (None, []) (range (start_idx n) (end_idx n))
    else let! a := fold_done step (None, []) (range 0 (start_idx n)) in
         fold_done step a (range (end_idx n) (max_idx n))) data data_len.

(** The two loops over a wrapped window read the inbound ring. *)
Definition handle_external_communication_log (current_time : Z)
    (data : list Z) (data_len : Z) : io nstate (outcome (result string unit)) :=
  let out_step := net_step (get_out_netlog_audit_data mgr) (outbound_log current_time) in
  let in_step := net_step (get_in_netlog_audit_data mgr) (outbound_log current_time) in
  net_handler (fun n =>
    if max_idx n =? 0 then fold_done out_step (None, []) (range (start_idx n) (end_idx n))
    else let! a := fold_done in_step (None, []) (range 0 (start_idx n)) in
         fold_done in_step a (range (end_idx n) (max_idx n))) data data_len.

(** ** What the inbound handler reports *)

(** The reference: a record is dropped when it does not differ from the last
    one kept. *)
Fixpoint changed (pre : option OsecNetworkReport) (l : list OsecNetworkReport)
    : list OsecNetworkReport :=
  match l with
  | [] => []
  | r :: l =>
    if match pre with Some p => is_change r p | None => true end
    then r :: changed (Some r) l else changed pre l
  end.

(** Neighbours of the kept records differ. *)
Lemma changed_adjacent pre l i a b :
  match pre with
  | Some p => (p :: changed pre l) !! i = Some a /\ (p :: changed pre l) !! S i = Some b
  | None => changed pre l !! i = Some a /\ changed pre l !! S i = Some b
  end -> is_change b a = true.
Proof.
  revert pre i. induction l as [|r l IH]; intros pre i; simpl.
  { destruct pre as [p|]; intros [_ H]; by destruct i. }
  destruct pre as [p|].
  - destruct (is_change r p) eqn:E; [|by apply (IH (Some p))].
    destruct i as [|i]; simpl; [by intros [[= <-] [= <-]]|]. apply (IH (Some r) i).
  - apply (IH (Some r) i).
Qed.

(** [log] names the endpoints of [r]. *)
Definition reports (ty : Z) (r : OsecNetworkReport) (log : SysNetLog) : Prop :=
  source_ip log = Some (ip_to_string (to_ipaddr_host_order t (nr_src r)))
  /\ res_ip log = Some (ip_to_string (to_ipaddr_host_order t (nr_dst r)))
  /\ source_port log = to_be16 t (nr_src_port r) /\ rs_port log = to_be16 t (nr_dest_port r)
  /\ log_type log = ty.

Definition terminated (r : OsecNetworkReport) : Prop := is_Some (until_nul (nr_comm r)).

Lemma hash_owner_posted dir s : nposted (hash_owner dir s).2 = nposted s.
Proof.
  unfold hash_owner, get_md5_net. destruct dir as [p|]; [|done]. case_match; [done|].
  by destruct (get_md5 _ _ _ _ p (nmd5s s)).
Qed.

#[local] Arguments hash_owner : simpl never.

Lemma inbound_log_spec ports ct r s :
  terminated r -> exists log s', inbound_log ports ct r s = (Done log, s')
    /\ reports 3 r log /\ nposted s' = nposted s.
Proof.
  intros [comm Hc]. unfold inbound_log, base_log. rewrite Hc. simpl.
  destruct (match get_port_info _ ports with Some b => Some b | None => _ end) as [b|].
  - pose proof (hash_owner_posted (Some (pb_process_path b)) s) as Hh.
    destruct (hash_owner (Some (pb_process_path b)) s) as [h s1].
    eexists _, s1. split; [done|]. split; [by repeat split|done].
  - eexists _, s. split; [done|]. split; [by repeat split|done].
Qed.

Lemma net_walk get make ty idxs rs pre acc s :
  (forall r s, terminated r -> exists log s', make r s = (Done log, s')
     /\ reports ty r log /\ nposted s' = nposted s) ->
  collect get (load_network t mem) idxs = Done rs -> Forall terminated rs ->
  exists pre' logs s', fold_done (net_step get make) (pre, acc) idxs s = (Done (pre', acc ++ logs), s')
    /\ Forall2 (reports ty) (changed pre rs) logs /\ nposted s' = nposted s.
Proof.
  intros Hmake. revert rs pre acc s. induction idxs as [|i idxs IH]; intros rs pre acc s; simpl.
  { intros [= <-] _. exists pre, [], s. by rewrite app_nil_r. }
  unfold bind_done, net_step at 1. destruct (get i) as [[p|]|]; [| |done]; simpl;
    (destruct (collect get (load_network t mem) idxs) as [rs1|]; [|done]); simpl; intros [= <-] Hrs.
  - apply Forall_cons in Hrs as [Hr Hrs]. simpl.
    destruct (match pre with Some p0 => is_change (load_network t mem p) p0 | None => true end).
    + destruct (Hmake (load_network t mem p) s Hr) as (log & s1 & -> & Hrep & Hp).
      destruct (IH rs1 (Some (load_network t mem p)) (acc ++ [log]) s1 eq_refl Hrs)
        as (pre' & logs & s2 & -> & HF & Hp2).
      exists pre', (log :: logs), s2. split_and!; [by rewrite <- app_assoc|by constructor|congruence].
    + by apply IH.
  - by apply IH.
Qed.

(** C36: The inbound connection handler reports exactly the changes: for a
    well-formed notification it posts one batch whose entries are, in order,
    the endpoints of the announced records with consecutive repetitions
    removed, where neighbouring kept records differ in an address, a port or
    the process; an empty batch is not posted. *)
Theorem internal_reports_changes ports ct data data_len s n idxs rs base :
  net_client = Some base -> size_of NetlinkNetlog_layout <= data_len ->
  read_netlog t data = Done n -> pending n = Ok idxs -> succeed (file_audit mgr) = true ->
  collect (get_in_netlog_audit_data mgr) (load_network t mem) idxs = Done rs ->
  Forall terminated rs ->
  exists logs s', handle_internal_communication_log ports ct data data_len s = (Done (Ok tt), s')
    /\ nposted s' = nposted s ++ match logs with [] => [] | _ => [NetLogs (base +:+ "/v1/putsyslog") logs] end
    /\ Forall2 (reports 3) (changed None rs) logs
    /\ forall i a b, changed None rs !! i = Some a -> changed None rs !! S i = Some b ->
         is_change b a = true.
Proof.
  intros Hc Hl Hn Hp Hs Hcol Hterm.
  unfold handle_internal_communication_log, net_handler.
  rewrite (proj2 (Z.ltb_ge _ _) Hl), Hn, Hs, Hp. simpl negb. cbv iota.
  set (step := net_step _ _).
  assert ((if max_idx n =? 0 then fold_done step (None, []) (range (start_idx n) (end_idx n))
           else let! a := fold_done step (None, []) (range 0 (start_idx n)) in
                fold_done step a (range (end_idx n) (max_idx n))) s
          = fold_done step (None, []) idxs s) as ->.
  { unfold pending in Hp. destruct (max_idx n =? 0).
    - destruct (end_idx n <=? start_idx n); by simplify_eq.
    - simplify_eq. by rewrite fold_done_app. }
  destruct (net_walk (get_in_netlog_audit_data mgr) (inbound_log ports ct) 3 idxs rs None [] s
              (inbound_log_spec ports ct) Hcol Hterm) as (pre' & logs & s1 & E & HF & Hpost).
  subst step. rewrite E. simpl. exists logs, (upload_net logs s1).2.
  split_and!; [| |done|intros i a b Ha Hb; by apply (changed_adjacent None rs i)].
  - unfold upload_net. rewrite Hc. by destruct logs.
  - unfold upload_net. rewrite Hc. destruct logs; simpl; rewrite Hpost; [by rewrite app_nil_r|done].
Qed.
End net.

(** The outbound handler takes a wrapped window from the wrong ring: when
    the notification wraps, its whole behaviour (result, posts and cache) is
    the same whatever the outbound ring of the manager is, for both loops read
    the inbound one. *)
Theorem external_wrapped_ignores_outbound t mem mgr r md5_hex can_create uuid now net_client
    ct data data_len s n :
  read_netlog t data = Done n -> max_idx n <> 0 ->
  handle_external_communication_log t mem (set_out_netlog r mgr) md5_hex can_create uuid now
    net_client ct data data_len s =
  handle_external_communication_log t mem mgr md5_hex can_create uuid now
    net_client ct data data_len s.
Proof.
  intros Hn Hm. unfold handle_external_communication_log, net_handler. rewrite Hn.
  by rewrite (proj2 (Z.eqb_neq _ _) Hm).
Qed.

(** ** Witnesses: an all-zero ring of the sample manager *)

Definition sample_mgr : ZcopyMgr :=
  match (new (sample_os sample_read) no_world).1 with Ok m => m | Err _ => initial end.
Definition window (a b c : Z) : list Z := to_le_bytes 4 a ++ to_le_bytes 4 b ++ to_le_bytes 4 c.
Definition no_files : nstate := NState (Md5State ∅ ∅) [].
Definition no_ports : NetAppState := {| port_map := ∅; port_str_map := ∅ |}.
Definition zero_report : OsecNetworkReport := load_network le64 (fun _ => 0) 0.

Lemma internal_reports_changes_witness :
  collect (get_in_netlog_audit_data sample_mgr) (load_network le64 (fun _ => 0)) [0; 1; 2]
    = Done [zero_report; zero_report; zero_report]
  /\ exists logs s',
       handle_internal_communication_log le64 (fun _ => 0) sample_mgr sample_digest (fun _ => true)
         (fun _ => [65]) 7 (Some "https://c") no_ports 7 (window 0 3 0) 12 no_files = (Done (Ok tt), s')
       /\ length logs = 1%nat /\ nposted s' = [NetLogs "https://c/v1/putsyslog" logs].
Proof.
  split; [vm_compute; reflexivity|].
  destruct (internal_reports_changes le64 (fun _ => 0) sample_mgr sample_digest (fun _ => true)
              (fun _ => [65]) 7 (Some "https://c") no_ports 7 (window 0 3 0) 12 no_files
              {| start_idx := 0; end_idx := 3; max_idx := 0 |} [0; 1; 2]
              [zero_report; zero_report; zero_report] "https://c") as (logs & s' & E & P & F & _).
  1-6: vm_compute; reflexivity || discriminate.
  - repeat constructor; by eexists.
  - apply Forall2_length in F. vm_compute in F. destruct logs as [|l [|]]; try discriminate F.
    exists [l], s'. split; [exact E|]. split; [reflexivity|exact P].
Defined.

Lemma external_wrapped_ignores_outbound_witness :
  handle_external_communication_log le64 (fun _ => 0) (set_out_netlog unmapped sample_mgr)
      sample_digest (fun _ => true) (fun _ => [65]) 7 (Some "https://c") 7 (window 2 6 8) 12 no_files
    = handle_external_communication_log le64 (fun _ => 0) sample_mgr
      sample_digest (fun _ => true) (fun _ => [65]) 7 (Some "https://c") 7 (window 2 6 8) 12 no_files.
Proof.
  apply (external_wrapped_ignores_outbound le64 (fun _ => 0) sample_mgr unmapped sample_digest
           (fun _ => true) (fun _ => [65]) 7 (Some "https://c") 7 (window 2 6 8) 12 no_files
           {| start_idx := 2; end_idx := 6; max_idx := 8 |}).
  - vm_compute. reflexivity.
  - discriminate.
Defined.
