(* ===== verification/Json.v ===== *)
(** * Reading JSON values

    The agent reads server replies through the accessors of
    [serde_json::Value].  Their implementation is a third-party crate; the
    class lists the accessors the agent calls, and every parser of the
    development is written against it. *)

From S2P Require Import Prelude RustStr.

Class JsonValue (V : Type) := {
  as_array : V -> option (list V);
  as_str : V -> option string;
  as_u64 : V -> option Z;
  as_i64 : V -> option Z;
  as_bool : V -> option bool;
  get_field : V -> string -> option V
}.

(** [as_u64] returns a [u64]. *)
Class JsonNumbers (V : Type) `{JsonValue V} :=
  as_u64_range : forall v n, as_u64 v = Some n -> is_uint 64 n.

(** [serde_json::from_str], [Value::is_object], [Value]'s [Display], and the
    text of the error when a value is not of the named type. *)
Class JsonText (V : Type) := {
  from_str : string -> result string V;
  is_object : V -> bool;
  to_text : V -> string;
  de_error : string -> V -> string
}.

Section accessors.
Context {V : Type} `{JsonValue V}.

(** [v["k"].as_u64().unwrap_or(0) as uW], [v.get("k").and_then(Value::as_u64)...]. *)
Definition uint_field (w : Z) (v : V) (k : string) : Z :=
  wrap w (default 0 (get_field v k ≫= as_u64)).
Definition str_field (v : V) (k : string) : string := default "" (get_field v k ≫= as_str).
Definition opt_str_field (v : V) (k : string) : option string := get_field v k ≫= as_str.
Definition array_field (v : V) (k : string) : list V := default [] (get_field v k ≫= as_array).

Lemma uint_field_range w v k : 0 <= w -> is_uint w (uint_field w v k).
Proof. intros. by apply wrap_uint. Qed.
End accessors.

(** A concrete value type for witnesses: [serde_json]'s constructors with
    integers for numbers and association lists for objects. *)
Inductive value :=
| Null
| Bool (b : bool)
| Number (n : Z)
| Str (s : string)
| Array (l : list value)
| Object (fields : list (string * value)).

Definition assoc {A} (k : string) (l : list (string * A)) : option A :=
  snd <$> List.find (fun '(k', _) => bool_decide (k' = k)) l.

#[global] Instance value_json : JsonValue value := {|
  as_array v := match v with Array l => Some l | _ => None end;
  as_str v := match v with Str s => Some s | _ => None end;
  as_u64 v := match v with
              | Number n => if bool_decide (is_uint 64 n) then Some n else None
              | _ => None
              end;
  as_i64 v := match v with
              | Number n => if bool_decide (- 2 ^ 63 <= n < 2 ^ 63) then Some n else None
              | _ => None
              end;
  as_bool v := match v with Bool b => Some b | _ => None end;
  get_field v k := match v with Object l => assoc k l | _ => None end
|}.

#[global] Instance value_numbers : JsonNumbers value.
Proof. intros [] m; simpl; try done. case_bool_decide; naive_solver. Qed.
