(* ===== verification/Pattern.v ===== *)
(** * File protection patterns

    [crates/pattern/src/lib.rs] and [pattern_rules_mgr.rs]: the manager that
    renders trusted directories, file-type rules and protected directories as
    pattern and rule lines and loads them into the kernel through
    [/proc/osec/dpi].

    A pattern has a name and the rules refer to patterns by name; the model
    keeps both as data and renders them, so that the reference structure of
    the text can be stated.  Of a [/proc] file the model
    keeps every attempt to open and write it, with the system's answer (which
    the agent ignores); the kernel's table is what the chunks that arrived make
    of it: ["c"] clears it, ["b"] builds it, any other chunk adds lines. *)

From Stdlib Require Import Ascii.
From S2P Require Import Prelude RustStr Bytes Json.

(** ** Patterns and rules *)

(** [name=NAME<attrs>] *)
Record pattern := Pat {
  pat_name : string;
  pat_attrs : string
}.

(** [target=TARGET<before>,pattern=REF>REF<after>] *)
Record rule := Rule {
  rule_target : string;
  rule_before : string;
  rule_refs : list string;
  rule_after : string
}.

Definition newline : string := String line_feed "".

Definition render_pattern (p : pattern) : string :=
  "name=" +:+ pat_name p +:+ pat_attrs p +:+ newline.
Definition render_rule (r : rule) : string :=
  "target=" +:+ rule_target r +:+ rule_before r +:+ ",pattern=" +:+ join ">" (rule_refs r)
  +:+ rule_after r +:+ newline.

(** Pushing text after text. *)
Fixpoint push_all (l : list string) : string :=
  match l with [] => "" | x :: l => x +:+ push_all l end.
Definition pattern_text (l : list pattern) : string := push_all (render_pattern <$> l).
Definition rule_text (l : list rule) : string := push_all (render_rule <$> l).

(** ** Policies *)

Record GlobalTrustDir := {
  dir : string;
  typ : Z;        (** u8 *)
  is_extend : Z   (** u8 *)
}.

(** [map_comm] is the hash map in its iteration order. *)
Record POLICY_EXIPOR_PROTECT := {
  file_type : string;
  ex_typ : Z;
  map_comm : list (string * string)
}.

Record POLICY_PROTECT_DIR := {
  pd_id : Z;
  pd_dir : string;
  protect_rw : Z;
  pd_typ : Z;
  pd_is_extend : Z;
  include_file : string;
  file_ext : string;
  is_white : string;
  white_hash : string
}.

(** *** Policies from JSON *)

Section parse.
Context {V : Type} `{JsonValue V}.

(** [HashMap::insert] on the entries in iteration order. *)
Fixpoint map_insert (k v : string) (l : list (string * string)) : list (string * string) :=
  match l with
  | [] => [(k, v)]
  | (k', v') :: l => if bool_decide (k' = k) then (k, v) :: l else (k', v') :: map_insert k v l
  end.

(** Processes with both a name and a hash, keyed by hash. *)
Definition trusted_processes (item : V) : list (string * string) :=
  foldl (fun l p => match opt_str_field p "name", opt_str_field p "hash" with
                    | Some name, Some hash => map_insert hash name l
                    | _, _ => l
                    end) [] (array_field item "process").

Definition parse_exipor (item : V) : POLICY_EXIPOR_PROTECT := {|
  file_type := str_field item "file_suffix";
  ex_typ := uint_field 8 item "type";
  map_comm := trusted_processes item
|}.

Definition parse_exipor_policy_from_json (data : V) : result string (list POLICY_EXIPOR_PROTECT) :=
  match as_array data with
  | None => Err "data is not an array"
  | Some array => Ok (parse_exipor <$> array)
  end.

Definition white_hashes (item : V) : list string :=
  omap (fun p => opt_str_field p "hash") (array_field item "process").

Definition parse_policy (item : V) : POLICY_PROTECT_DIR := {|
  pd_id := uint_field 32 item "id";
  pd_dir := str_field item "dir";
  protect_rw := uint_field 8 item "protect_rw";
  pd_typ := uint_field 8 item "type";
  pd_is_extend := uint_field 8 item "is_extend";
  include_file := str_field item "include_file";
  file_ext := str_field item "protect_file";
  is_white := str_field item "protect_folder";
  white_hash := join "," (white_hashes item)
|}.

Definition parse_policy_from_json (data : V) : result string (list POLICY_PROTECT_DIR) :=
  match as_array data with
  | None => Err "data is not an array"
  | Some array => Ok (parse_policy <$> array)
  end.
End parse.

(** *** Self protection: constants *)

Definition const_patterns : list pattern :=
  [Pat "self_1" ",key=/var/lib/dpkg/info/osec.";
   Pat "self_2" ",key=/opt/osec,pkt_len=-1,case_offset=1";
   Pat "self_3" ",key=/opt/osec/,case_offset=1";
   Pat "self_4" ",key=/etc/systemd/system/multi-user.target.wants/osec.";
   Pat "self_5" ",key=/etc/systemd/system/multi-user.target.wants/agent_manager."].

Definition const_rules : list rule :=
  (fun n => Rule "self" "" [n] ",type=3") <$> ["self_1"; "self_2"; "self_3"; "self_4"; "self_5"].

(** *** Trusted directories *)

Definition trust_name (i : nat) : string := "trueDir_" +:+ dec (Z.of_nat i).

Definition trust_pattern (i : nat) (d : GlobalTrustDir) : pattern :=
  Pat (trust_name i)
    (",key=" +:+ dir d
     +:+ (if is_extend d =? 0 then ",isnot_extend=1" else "")
     +:+ (if typ d =? 1 then ",depth=" +:+ dec (str_len (dir d)) else ",pkt_len=-1")
     +:+ ",case_offset=1").

Definition trust_rule (i : nat) : rule := Rule "TDir_rule" ",type=0" [trust_name i] "".

(** [iter().enumerate().take(50)]. *)
Definition first50 {A} (l : list A) : list (nat * A) := enumerate (take 50 l).

(** *** File types *)

Definition export_name (i : nat) : string := "exiportInfo_" +:+ dec (Z.of_nat i).

Definition export_pattern (i : nat) (e : POLICY_EXIPOR_PROTECT) : pattern :=
  Pat (export_name i)
    (if ex_typ e =? 1
     then ",key=." +:+ file_type e +:+ ",offset=" +:+ dec_signed (- (str_len (file_type e) + 1))
     else ",case_offset=1,key=" +:+ file_type e +:+ ",depth=" +:+ dec (str_len (file_type e))).

(** [tp]: the number of trusted-process groups so far; the rule names its own
    group when the entry has trusted processes. *)
Definition export_rule (i : nat) (tp : Z) (e : POLICY_EXIPOR_PROTECT) : rule :=
  Rule (export_name i) "" [export_name i]
    ((if ex_typ e =? 1 then ",action=3" else "")
     +:+ (if bool_decide (map_comm e = []) then "" else ",TPNC=" +:+ dec tp)
     +:+ ",type=1").

Definition next_group (has : bool) (tp : Z) : Z := if has then tp + 1 else tp.

Fixpoint export_rules (tp : Z) (l : list (nat * POLICY_EXIPOR_PROTECT)) : list rule :=
  match l with
  | [] => []
  | (i, e) :: l =>
    let tp := next_group (negb (bool_decide (map_comm e = []))) tp in
    export_rule i tp e :: export_rules tp l
  end.

Fixpoint export_processes (tp : Z) (l : list (nat * POLICY_EXIPOR_PROTECT)) : list string :=
  match l with
  | [] => []
  | (i, e) :: l =>
    let tp := next_group (negb (bool_decide (map_comm e = []))) tp in
    ((fun '(k, _) => k +:+ "," +:+ dec tp +:+ ",99" +:+ newline) <$> map_comm e)
    ++ export_processes tp l
  end.

(** *** Protected directories *)

Definition num (i : nat) : string := dec (Z.of_nat i).
Definition protect_name (i : nat) : string := "ProtectDir_" +:+ num i.
Definition exclude_dir_name (i j : nat) : string := "protectExcludeDir_" +:+ num i +:+ "_" +:+ num j.
Definition inc_name (i j : nat) : string := "protectIncFileExe_" +:+ num i +:+ "_" +:+ num j.
Definition exc_name (i j : nat) : string := "protectExcFileExe_" +:+ num i +:+ "_" +:+ num j.

(** The parts of a ['|']-separated field, none for an empty field. *)
Definition parts (s : string) : list (nat * string) :=
  if str_is_empty s then [] else enumerate (split_char "|"%char s).

Definition protect_pattern (i : nat) (d : POLICY_PROTECT_DIR) : pattern :=
  Pat (protect_name i)
    (",type=2,key=" +:+ pd_dir d
     +:+ (if pd_typ d =? 1
          then (if pd_is_extend d =? 0 then ",isnot_extend=1" else "")
               +:+ ",depth=" +:+ dec (str_len (pd_dir d)) +:+ ",case_offset=1"
          else ",case_offset=1,pkt_len=-1")).

Definition has_white_hash (d : POLICY_PROTECT_DIR) : bool := negb (str_is_empty (white_hash d)).

Definition tpnc (tp : Z) (d : POLICY_PROTECT_DIR) : string :=
  if has_white_hash d then ",TPNC=" +:+ dec tp else "".

Definition suffix_pattern (name : string) (suffix : string) : pattern :=
  Pat name (",key=." +:+ suffix +:+ ",offset=-" +:+ dec (str_len suffix + 1)).

(** Excluded directories. *)
Definition white_patterns (i : nat) (d : POLICY_PROTECT_DIR) : list pattern :=
  (fun '(j, p) => Pat (exclude_dir_name i j) (",key=" +:+ p)) <$> parts (is_white d).
Definition white_rules (i : nat) (d : POLICY_PROTECT_DIR) : list rule :=
  (fun '(j, _) => Rule "protectExcludeDir" "" [exclude_dir_name i j]
                    (",type=2,action=1,rule_idx=" +:+ num i +:+ ",level=1")) <$> parts (is_white d).

(** Included suffixes, when there are any. *)
Definition include_patterns (i : nat) (d : POLICY_PROTECT_DIR) : list pattern :=
  (fun '(j, s) => suffix_pattern (inc_name i j) s) <$> parts (include_file d).
Definition include_rules (i : nat) (tp : Z) (d : POLICY_PROTECT_DIR) : list rule :=
  (fun '(j, _) => Rule ("protectIncFileExe_" +:+ num i) "" [protect_name i; inc_name i j]
                    (",rule_idx=" +:+ num i +:+ ",action=3,protect_rw=" +:+ dec (protect_rw d)
                     +:+ tpnc tp d +:+ ",type=2")) <$> parts (include_file d).

(** Excluded suffixes, looked at only without included ones. *)
Definition excluded (d : POLICY_PROTECT_DIR) : list (nat * string) :=
  if str_is_empty (include_file d) then parts (file_ext d) else [].
Definition exclude_patterns (i : nat) (d : POLICY_PROTECT_DIR) : list pattern :=
  (fun '(j, s) => suffix_pattern (exc_name i j) s) <$> excluded d.
Definition exclude_rules (i : nat) (d : POLICY_PROTECT_DIR) : list rule :=
  (fun '(j, _) => Rule (exc_name i j) "" [protect_name i; exc_name i j]
                    (",rule_idx=" +:+ num i +:+ ",action=2,type=2")) <$> excluded d.

(** The directory rule itself, absent when suffixes are included. *)
Definition dir_rules (i : nat) (tp : Z) (d : POLICY_PROTECT_DIR) : list rule :=
  if str_is_empty (include_file d)
  then [Rule (protect_name i) "" [protect_name i]
          (",rule_idx=" +:+ num i +:+ ",protect_rw=" +:+ dec (protect_rw d)
           +:+ tpnc tp d +:+ ",type=2")]
  else [].

Definition process_lines (tp : Z) (d : POLICY_PROTECT_DIR) : list string :=
  if has_white_hash d
  then (fun h => h +:+ "," +:+ dec tp +:+ ",88" +:+ newline) <$> split_char ","%char (white_hash d)
  else [].

(** A per-directory contribution over all directories, with the group count. *)
Fixpoint gather {A} (f : nat -> Z -> POLICY_PROTECT_DIR -> list A) (tp : Z)
    (l : list (nat * POLICY_PROTECT_DIR)) : list A :=
  match l with
  | [] => []
  | (i, d) :: l =>
    let tp := next_group (has_white_hash d) tp in f i tp d ++ gather f tp l
  end.

(** ** The manager *)

(** The sixteen texts of the manager, patterns and rules in pairs. *)
Record texts := {
  const_file_patterns : string;
  const_file_rules : string;
  global_trust_dir_patterns : string;
  global_trust_dir_rules : string;
  exiport_dir_patterns : string;
  exiport_dir_rules : string;
  protect_dir_patterns : string;
  protect_dir_rules : string;
  protect_dir_white_patterns : string;
  protect_dir_white_rules : string;
  protect_dir_include_exe_patterns : string;
  protect_dir_include_exe_rules : string;
  protect_dir_exclude_exe_patterns : string;
  protect_dir_exclude_exe_rules : string;
  exiport_true_process : string;
  protect_true_process : string
}.

(** The nine texts of the [pre_] fields, in their order. *)
Definition watched (x : texts) : list string :=
  [global_trust_dir_patterns x; exiport_dir_patterns x; const_file_patterns x;
   protect_dir_patterns x; protect_dir_white_patterns x; protect_dir_include_exe_patterns x;
   protect_dir_exclude_exe_patterns x; exiport_true_process x; protect_true_process x].

Record PatternRulesMgr := Mgr {
  now : texts;
  pre : list string;
  inited : bool
}.

Definition no_texts : texts := Build_texts "" "" "" "" "" "" "" "" "" "" "" "" "" "" "" "".
Definition new : PatternRulesMgr := Mgr no_texts (watched no_texts) false.

(** ** The kernel's files *)

Definition FILE_PATTERNS : string := "/proc/osec/dpi/file_patterns".
Definition RULES : string := "/proc/osec/dpi/rules".
Definition TRUE_PROCESS : string := "/proc/osec/dpi/true_process_rt".

(** What the system answers to an attempt to write one of the module's files:
    the file is not there, the opening or the write fails (after the module has
    already taken some of the bytes, possibly none), or all is taken. *)
Inductive answer :=
| Taken
| Missing
| Refused (bytes : nat).

(** One attempt of the agent, with the answer it had. *)
Record attempt := Attempt {
  at_path : string;
  at_text : string;
  at_answer : answer
}.

(** What the tables were filled with before, the agent's attempts, oldest
    first, and the answers to the coming ones (all taken once they are used
    up). *)
Record world := World {
  proc_before : gmap string (list string);
  proc_attempts : list attempt;
  proc_answers : list answer
}.

Definition proc_write (path content : string) : io world answer := fun w =>
  let a := default Taken (head (proc_answers w)) in
  (a, World (proc_before w) (proc_attempts w ++ [Attempt path content a]) (tail (proc_answers w))).

Definition write_to_proc_file (path content : string) : io world (result string unit) := fun w =>
  let '(a, w) := proc_write path content w in
  (match a with
   | Taken => Ok tt
   | Missing => Err ("File " +:+ path +:+ " does not exist")
   | Refused _ => Err "write failed"
   end, w).

(** [File::create] and [write_all]: it asks nothing about the file first. *)
Definition create_and_write (path content : string) : io world (result string unit) := fun w =>
  let '(a, w) := proc_write path content w in
  (match a with
   | Taken => Ok tt
   | Missing | Refused _ => Err "create failed"
   end, w).

Definition clear_chunk : string := "c" +:+ newline.
Definition build_chunk : string := "b" +:+ newline.

Definition clear_file_pattern := create_and_write FILE_PATTERNS clear_chunk.
Definition clear_dpi_rules := create_and_write RULES clear_chunk.
Definition clear_true_process := create_and_write TRUE_PROCESS clear_chunk.
Definition build_file_pattern := create_and_write FILE_PATTERNS build_chunk.

Definition unless_empty (s : string) (writes : list (string * string)) : list (string * string) :=
  if str_is_empty s then [] else writes.

(** The guarded writes of [load_pattern_rules]. *)
Definition load_writes (x : texts) : list (string * string) :=
  unless_empty (const_file_patterns x)
    [(FILE_PATTERNS, const_file_patterns x); (RULES, const_file_rules x)]
  ++ unless_empty (global_trust_dir_patterns x)
    [(FILE_PATTERNS, global_trust_dir_patterns x); (RULES, global_trust_dir_rules x)]
  ++ unless_empty (exiport_dir_patterns x)
    [(FILE_PATTERNS, exiport_dir_patterns x); (RULES, exiport_dir_rules x)]
  ++ unless_empty (protect_dir_patterns x) [(FILE_PATTERNS, protect_dir_patterns x)]
  ++ unless_empty (protect_dir_rules x) [(RULES, protect_dir_rules x)]
  ++ unless_empty (protect_dir_white_patterns x)
    [(FILE_PATTERNS, protect_dir_white_patterns x); (RULES, protect_dir_white_rules x)]
  ++ unless_empty (protect_dir_include_exe_patterns x)
    [(FILE_PATTERNS, protect_dir_include_exe_patterns x); (RULES, protect_dir_include_exe_rules x)]
  ++ unless_empty (protect_dir_exclude_exe_patterns x)
    [(FILE_PATTERNS, protect_dir_exclude_exe_patterns x); (RULES, protect_dir_exclude_exe_rules x)]
  ++ unless_empty (protect_true_process x) [(TRUE_PROCESS, protect_true_process x)]
  ++ unless_empty (exiport_true_process x) [(TRUE_PROCESS, exiport_true_process x)].

Definition load_pattern_rules (x : texts) : io world unit :=
  for_each (fun '(path, content) => ignore (write_to_proc_file path content)) (load_writes x)
  ≫= fun _ => ignore build_file_pattern.

Definition patterns_has_changed (m : PatternRulesMgr) : bool :=
  negb (bool_decide (pre m = watched (now m))).

Definition patterns_backup (m : PatternRulesMgr) : PatternRulesMgr :=
  Mgr (now m) (watched (now m)) (inited m).

Definition set_pattern_rules (m : PatternRulesMgr) (w : world) : PatternRulesMgr * world :=
  if patterns_has_changed m then
    let w := (ignore clear_file_pattern w).2 in
    let w := (ignore clear_dpi_rules w).2 in
    let w := (ignore clear_true_process w).2 in
    let w := (load_pattern_rules (now m) w).2 in
    (patterns_backup m, w)
  else (m, w).

(** ** The operations *)

Definition with_const (p r : string) (x : texts) : texts :=
  Build_texts p r (global_trust_dir_patterns x) (global_trust_dir_rules x)
    (exiport_dir_patterns x) (exiport_dir_rules x) (protect_dir_patterns x) (protect_dir_rules x)
    (protect_dir_white_patterns x) (protect_dir_white_rules x)
    (protect_dir_include_exe_patterns x) (protect_dir_include_exe_rules x)
    (protect_dir_exclude_exe_patterns x) (protect_dir_exclude_exe_rules x)
    (exiport_true_process x) (protect_true_process x).

Definition with_trust (p r : string) (x : texts) : texts :=
  Build_texts (const_file_patterns x) (const_file_rules x) p r
    (exiport_dir_patterns x) (exiport_dir_rules x) (protect_dir_patterns x) (protect_dir_rules x)
    (protect_dir_white_patterns x) (protect_dir_white_rules x)
    (protect_dir_include_exe_patterns x) (protect_dir_include_exe_rules x)
    (protect_dir_exclude_exe_patterns x) (protect_dir_exclude_exe_rules x)
    (exiport_true_process x) (protect_true_process x).

Definition with_export (p r tp : string) (x : texts) : texts :=
  Build_texts (const_file_patterns x) (const_file_rules x)
    (global_trust_dir_patterns x) (global_trust_dir_rules x) p r
    (protect_dir_patterns x) (protect_dir_rules x)
    (protect_dir_white_patterns x) (protect_dir_white_rules x)
    (protect_dir_include_exe_patterns x) (protect_dir_include_exe_rules x)
    (protect_dir_exclude_exe_patterns x) (protect_dir_exclude_exe_rules x)
    tp (protect_true_process x).

Definition with_protect (dp dr wp wr ip ir ep er tp : string) (x : texts) : texts :=
  Build_texts (const_file_patterns x) (const_file_rules x)
    (global_trust_dir_patterns x) (global_trust_dir_rules x)
    (exiport_dir_patterns x) (exiport_dir_rules x) dp dr wp wr ip ir ep er
    (exiport_true_process x) tp.

Definition protect_texts (dirs : list POLICY_PROTECT_DIR) (x : texts) : texts :=
  let l := first50 dirs in
  with_protect
    (pattern_text (gather (fun i _ d => [protect_pattern i d]) 0 l))
    (rule_text (gather dir_rules 0 l))
    (pattern_text (gather (fun i _ => white_patterns i) 0 l))
    (rule_text (gather (fun i _ => white_rules i) 0 l))
    (pattern_text (gather (fun i _ => include_patterns i) 0 l))
    (rule_text (gather include_rules 0 l))
    (pattern_text (gather (fun i _ => exclude_patterns i) 0 l))
    (rule_text (gather (fun i _ => exclude_rules i) 0 l))
    (push_all (gather (fun _ => process_lines) 0 l)) x.

Inductive op :=
| init
| add_file_pattern (enable : bool)
| set_global_trust_dir (dirs : list GlobalTrustDir)
| set_exiport_dir (exports : list POLICY_EXIPOR_PROTECT)
| clear_exiport_dir
| set_protect_dir (dirs : list POLICY_PROTECT_DIR)
| clear_protect_dir.

(** The texts an operation leaves, before the reload. *)
Definition edit (o : op) (x : texts) : texts :=
  match o with
  | init | add_file_pattern false => x
  | add_file_pattern true => with_const (pattern_text const_patterns) (rule_text const_rules) x
  | set_global_trust_dir dirs =>
    with_trust (pattern_text ((fun '(i, d) => trust_pattern i d) <$> first50 dirs))
      (rule_text ((fun '(i, _) => trust_rule i) <$> first50 dirs)) x
  | set_exiport_dir exports =>
    with_export (pattern_text ((fun '(i, e) => export_pattern i e) <$> first50 exports))
      (rule_text (export_rules 0 (first50 exports)))
      (push_all (export_processes 0 (first50 exports))) x
  | clear_exiport_dir => with_export "" "" (exiport_true_process x) x
  | set_protect_dir dirs => protect_texts dirs x
  | clear_protect_dir => with_protect "" "" "" "" "" "" "" "" "" x
  end.

(** One call on the manager. *)
Definition run_op (o : op) (m : PatternRulesMgr) (w : world) : PatternRulesMgr * world :=
  match o with
  | init => (if inited m then m else Mgr (now m) (pre m) true, w)
  | add_file_pattern false => (m, w)
  | _ => set_pattern_rules (Mgr (edit o (now m)) (pre m) (inited m)) w
  end.

Fixpoint run (ops : list op) (m : PatternRulesMgr) (w : world) : PatternRulesMgr * world :=
  match ops with
  | [] => (m, w)
  | o :: ops => let '(m, w) := run_op o m w in run ops m w
  end.

(** ** What the kernel holds *)

(** The chunks after the last clear. *)
Fixpoint since_clear (chunks : list string) : list string :=
  match chunks with
  | [] => []
  | c :: chunks => if bool_decide (clear_chunk ∈ chunks) then since_clear chunks
                   else if bool_decide (c = clear_chunk) then chunks else c :: chunks
  end.

Definition nonempty (l : list string) : list string := retain (fun s => negb (str_is_empty s)) l.

(** What reaches the module: an empty text writes nothing. *)
Definition arrived (a : attempt) : list string :=
  nonempty [match at_answer a with
            | Taken => at_text a
            | Missing => ""
            | Refused n => String.substring 0 n (at_text a)
            end].

(** The attempts on one file. *)
Definition on_file (path : string) (l : list attempt) : list attempt :=
  retain (fun a => bool_decide (at_path a = path)) l.

Definition chunks (w : world) (path : string) : list string :=
  default [] (proc_before w !! path) ++ (on_file path (proc_attempts w) ≫= arrived).

(** The lines a file's table was filled with. *)
Definition table (w : world) (path : string) : list string :=
  retain (fun c => negb (bool_decide (c = build_chunk))) (since_clear (chunks w path)).

(** The last loading of a file: the attempts on it from the last one to clear
    its table on, none when the agent never tried. *)
Definition is_clear (a : attempt) : bool := bool_decide (at_text a = clear_chunk).

Fixpoint last_clear (l : list attempt) : list attempt :=
  match l with
  | [] => []
  | a :: l => match last_clear l with
              | [] => if is_clear a then a :: l else []
              | l => l
              end
  end.

Definition last_load (w : world) (path : string) : list attempt :=
  last_clear (on_file path (proc_attempts w)).

Definition taken (a : attempt) : Prop := at_answer a = Taken.

(** A file stands for [l]: its table holds exactly [l] when every attempt of
    its last loading was taken, and [l] is empty when it was never loaded. *)
Definition stands_for (w : world) (path : string) (l : list string) : Prop :=
  match last_load w path with
  | [] => l = []
  | load => Forall taken load -> table w path = l
  end.

(** The chunks of [load_writes] for one file. *)
Definition loads_for (path : string) (x : texts) : list string :=
  (retain (fun '(p, _) => bool_decide (p = path)) (load_writes x)).*2.

(** ** The kernel mirrors the patterns *)

Definition pattern_texts (x : texts) : list string :=
  [const_file_patterns x; global_trust_dir_patterns x; exiport_dir_patterns x;
   protect_dir_patterns x; protect_dir_white_patterns x; protect_dir_include_exe_patterns x;
   protect_dir_exclude_exe_patterns x].

Definition process_texts (x : texts) : list string :=
  [protect_true_process x; exiport_true_process x].

Definition for_path (path : string) (l : list (string * string)) : list string :=
  (retain (fun '(p, _) => bool_decide (p = path)) l).*2.

Lemma for_path_app path l1 l2 : for_path path (l1 ++ l2) = for_path path l1 ++ for_path path l2.
Proof. unfold for_path, retain. by rewrite List.filter_app, fmap_app. Qed.

Lemma nonempty_cons s l : nonempty (s :: l) = nonempty [s] ++ nonempty l.
Proof. unfold nonempty. simpl. by destruct (negb _). Qed.

(** What one guarded group contributes to a file. *)
Lemma for_path_unless s l path :
  for_path path (unless_empty s l) = if str_is_empty s then [] else for_path path l.
Proof. unfold unless_empty. by destruct (str_is_empty s). Qed.

Lemma loads_for_patterns x : loads_for FILE_PATTERNS x = nonempty (pattern_texts x).
Proof.
  change (loads_for FILE_PATTERNS x) with (for_path FILE_PATTERNS (load_writes x)).
  unfold load_writes, pattern_texts. rewrite !for_path_app, !for_path_unless.
  rewrite !(nonempty_cons _ (_ :: _)).
  assert (forall s (l : list string), (if str_is_empty s then [] else s :: l)
            = nonempty [s] ++ if str_is_empty s then [] else l) as Hs.
  { intros s l. unfold nonempty. simpl. by destruct (str_is_empty s). }
  unfold for_path. simpl. rewrite !Hs.
  assert (forall b : bool, (if b then [] else []) = @nil string) as Hif by by intros [].
  rewrite !Hif, !app_nil_r. done.
Qed.

Lemma loads_for_processes x : loads_for TRUE_PROCESS x = nonempty (process_texts x).
Proof.
  change (loads_for TRUE_PROCESS x) with (for_path TRUE_PROCESS (load_writes x)).
  unfold load_writes, process_texts. rewrite !for_path_app, !for_path_unless.
  assert (forall b : bool, (if b then [] else []) = @nil string) as Hif by by intros [].
  unfold nonempty. simpl. rewrite !Hif. simpl.
  by repeat (destruct (str_is_empty _); simpl).
Qed.

(** *** A sequence of attempts *)

(** [asks l w w']: from [w] to [w'] the agent tried the writes [l], in order. *)
Definition asks (l : list (string * string)) (w w' : world) : Prop :=
  proc_before w' = proc_before w
  /\ exists new, proc_attempts w' = proc_attempts w ++ new
     /\ (fun a => (at_path a, at_text a)) <$> new = l.

Lemma asks_nil w : asks [] w w.
Proof. split; [done|]. exists []. by rewrite app_nil_r. Qed.

Lemma asks_app l1 l2 w1 w2 w3 : asks l1 w1 w2 -> asks l2 w2 w3 -> asks (l1 ++ l2) w1 w3.
Proof.
  intros [B1 (n1 & A1 & <-)] [B2 (n2 & A2 & <-)]. split; [congruence|].
  exists (n1 ++ n2). by rewrite fmap_app, A2, A1, app_assoc.
Qed.

Lemma asks_write path content w : asks [(path, content)] w (proc_write path content w).2.
Proof. split; [done|]. by eexists [_]. Qed.

Lemma asks_file path content w :
  asks [(path, content)] w (ignore (write_to_proc_file path content) w).2.
Proof. apply asks_write. Qed.

Lemma asks_create path content w :
  asks [(path, content)] w (ignore (create_and_write path content) w).2.
Proof. apply asks_write. Qed.

Lemma asks_writes l w :
  asks l w (for_each (fun '(path, content) => ignore (write_to_proc_file path content)) l w).2.
Proof.
  revert w. induction l as [|[path content] l IH]; intros w; [apply asks_nil|].
  cbn [for_each]. rewrite io_bind_run. apply (asks_app [_] l _ _ _ (asks_file path content w) (IH _)).
Qed.

(** What one such sequence leaves of each file. *)
Lemma on_file_app p l1 l2 : on_file p (l1 ++ l2) = on_file p l1 ++ on_file p l2.
Proof. apply List.filter_app. Qed.

Lemma on_file_texts p l :
  at_text <$> on_file p l = for_path p ((fun a => (at_path a, at_text a)) <$> l).
Proof.
  unfold on_file, for_path, retain. induction l as [|a l IH]; [done|].
  rewrite fmap_cons. cbn [List.filter]. destruct (bool_decide (at_path a = p)); [|exact IH].
  rewrite fmap_cons. cbn. by f_equal.
Qed.

Lemma last_clear_app l1 a l2 :
  is_clear a = true -> Forall (fun a => is_clear a = false) l2 -> last_clear (l1 ++ a :: l2) = a :: l2.
Proof.
  intros Ha H2. assert (last_clear l2 = []) as E.
  { induction H2 as [|b l2 Hb _ IH]; simpl; [done|]. by rewrite IH, Hb. }
  induction l1 as [|b l1 IH]; simpl; [by rewrite E, Ha|]. by rewrite IH.
Qed.

Lemma taken_arrived l :
  Forall taken l -> Forall (fun s => str_is_empty s = false) (at_text <$> l) ->
  l ≫= arrived = at_text <$> l.
Proof.
  intros Ht Hs. induction Ht as [|a l Ha _ IH]; [done|]. apply Forall_cons in Hs as [Hs1 Hs2].
  change ((a :: l) ≫= arrived) with (arrived a ++ (l ≫= arrived)). rewrite (IH Hs2).
  unfold arrived. rewrite Ha. unfold nonempty, retain. simpl. by rewrite Hs1.
Qed.

(** Chunks the kernel takes for lines. *)
Definition line_chunk (s : string) : Prop := s <> clear_chunk /\ s <> build_chunk.

(** A table read back from what was written after a clear. *)
Lemma since_clear_app c l : clear_chunk ∉ l -> since_clear (c ++ clear_chunk :: l) = l.
Proof.
  intros Hl. induction c as [|x c IH]; simpl.
  - by rewrite bool_decide_eq_false_2.
  - rewrite bool_decide_eq_true_2 by set_solver. done.
Qed.

(** The share of one file in a loading: a clear, lines, and for a pattern
    file the order to build. *)
Lemma loaded_stands_for writes w w' p l (b : bool) :
  asks writes w w' -> for_path p writes = clear_chunk :: l ++ (if b then [build_chunk] else []) ->
  Forall line_chunk l -> Forall (fun s => str_is_empty s = false) l -> stands_for w' p l.
Proof.
  intros [HB (new & HA & <-)] Hw Hl He. rewrite <- on_file_texts in Hw.
  unfold stands_for, last_load, table, chunks. rewrite HA, on_file_app.
  destruct (on_file p new) as [|a rest]; [done|].
  rewrite fmap_cons in Hw. injection Hw as Ha Hr.
  assert (Forall (fun s => s <> clear_chunk /\ str_is_empty s = false) (at_text <$> rest)) as Hrest.
  { rewrite Hr. rewrite Forall_forall in Hl, He. apply Forall_app. split.
    - apply Forall_forall. intros s Hs. split; [by apply Hl|by apply He].
    - destruct b; repeat constructor; discriminate. }
  rewrite Forall_fmap in Hrest.
  rewrite last_clear_app.
  2: { unfold is_clear. by apply bool_decide_eq_true_2. }
  2: { eapply Forall_impl; [exact Hrest|]. intros x [Hx _]. by apply bool_decide_eq_false_2. }
  intros Ht. rewrite bind_app, (taken_arrived (a :: rest)); [|done|].
  2: { rewrite fmap_cons, Ha. constructor; [done|].
       apply Forall_fmap. eapply Forall_impl; [exact Hrest|]. by intros x [_ Hx]. }
  rewrite fmap_cons, Ha, Hr, app_assoc, since_clear_app.
  - unfold retain. rewrite List.filter_app.
    fold (retain (fun c => negb (bool_decide (c = build_chunk))) l).
    rewrite retain_true by (rewrite Forall_forall in Hl; intros x Hx;
      apply negb_true_iff, bool_decide_eq_false_2; by apply Hl).
    destruct b; simpl; by rewrite ?app_nil_r.
  - rewrite elem_of_app. rewrite Forall_forall in Hl. intros [H|H]; [by apply Hl in H as []|].
    destruct b; set_solver.
Qed.

(** Attempts on other files do not matter to a file. *)
Lemma asks_other writes w w' p l :
  asks writes w w' -> for_path p writes = [] -> stands_for w p l -> stands_for w' p l.
Proof.
  intros [HB (new & HA & <-)] Hn. rewrite <- on_file_texts in Hn. apply fmap_nil_inv in Hn.
  unfold stands_for, last_load, table, chunks. by rewrite HB, HA, on_file_app, Hn, app_nil_r.
Qed.

(** *** A reload *)

Definition reload_writes (x : texts) : list (string * string) :=
  [(FILE_PATTERNS, clear_chunk); (RULES, clear_chunk); (TRUE_PROCESS, clear_chunk)]
  ++ load_writes x ++ [(FILE_PATTERNS, build_chunk)].

Lemma reload_asks m w :
  patterns_has_changed m = true -> asks (reload_writes (now m)) w (set_pattern_rules m w).2.
Proof.
  intros Hc. unfold set_pattern_rules, clear_file_pattern, clear_dpi_rules, clear_true_process.
  rewrite Hc. cbn [snd]. apply (asks_app [_] _ _ _ _ (asks_create _ _ _)).
  apply (asks_app [_] _ _ _ _ (asks_create _ _ _)). apply (asks_app [_] _ _ _ _ (asks_create _ _ _)).
  unfold load_pattern_rules. rewrite io_bind_run.
  apply (asks_app _ [_] _ _ _ (asks_writes _ _)), asks_create.
Qed.

Lemma reload_share x p :
  p ∈ [FILE_PATTERNS; RULES; TRUE_PROCESS] ->
  for_path p (reload_writes x) =
    clear_chunk :: loads_for p x ++ if bool_decide (FILE_PATTERNS = p) then [build_chunk] else [].
Proof.
  intros Hp. unfold reload_writes. rewrite !for_path_app.
  rewrite !elem_of_cons, elem_of_nil in Hp. destruct_or! Hp; subst; done.
Qed.

Lemma set_pattern_rules_pre m w :
  pre (set_pattern_rules m w).1 = watched (now m) /\ now (set_pattern_rules m w).1 = now m.
Proof.
  unfold set_pattern_rules, patterns_has_changed.
  destruct (bool_decide (pre m = watched (now m))) eqn:E; bool_to_prop; done.
Qed.

(** *** Every text is made of lines *)

Lemma pattern_text_line l : pattern_text l = "" \/ line_chunk (pattern_text l).
Proof.
  destruct l as [|p l]; [by left|right]. unfold pattern_text. rewrite fmap_cons. simpl.
  unfold render_pattern. by rewrite !str_app_cons.
Qed.

Definition process_line (s : string) : Prop := str_mem ","%char s = true.

Lemma push_all_process l :
  Forall process_line l -> push_all l = "" \/ line_chunk (push_all l).
Proof.
  intros Hl. destruct Hl as [|s l Hs _]; [by left|right]. simpl.
  assert (str_mem ","%char (s +:+ push_all l) = true) as Hm by (by rewrite str_mem_app, Hs).
  split; intros E; rewrite E in Hm; discriminate Hm.
Qed.

Lemma gather_Forall {A} (P : A -> Prop) f tp l :
  (forall i tp d, Forall P (f i tp d)) -> Forall P (gather f tp l).
Proof.
  intros Hf. revert tp. induction l as [|[i d] l IH]; intros tp; simpl; [constructor|].
  apply Forall_app. by split.
Qed.

Lemma comma_line h tail : process_line (h +:+ "," +:+ tail).
Proof. unfold process_line. by rewrite str_mem_app, orb_true_r. Qed.

Lemma process_lines_ok tp d : Forall process_line (process_lines tp d).
Proof.
  unfold process_lines. case_match; [|constructor]. apply Forall_fmap, Forall_true.
  intros h. apply comma_line.
Qed.

Lemma export_processes_ok tp l : Forall process_line (export_processes tp l).
Proof.
  revert tp. induction l as [|[i e] l IH]; intros tp; simpl; [constructor|].
  apply Forall_app. split; [|apply IH]. apply Forall_fmap, Forall_true.
  intros [k v]. apply comma_line.
Qed.

(** The texts an operation can leave are empty or lines. *)
Definition texts_ok (x : texts) : Prop :=
  Forall (fun s => s = "" \/ line_chunk s) (pattern_texts x ++ process_texts x).

Lemma edit_ok o x : texts_ok x -> texts_ok (edit o x).
Proof.
  unfold texts_ok, pattern_texts, process_texts. simpl. rewrite !Forall_cons.
  intros (H1 & H2 & H3 & H4 & H5 & H6 & H7 & H8 & H9 & _).
  destruct o as [|[]|dirs|exports| |dirs|]; simpl; split_and!; auto using pattern_text_line;
    apply push_all_process; auto using export_processes_ok, gather_Forall, process_lines_ok.
Qed.

Lemma nonempty_lines l : Forall (fun s => s = "" \/ line_chunk s) l -> Forall line_chunk (nonempty l).
Proof.
  intros Hl. apply Forall_forall. intros s [Hs Hin]%elem_of_retain.
  rewrite Forall_forall in Hl. destruct (Hl s Hin) as [->|]; [discriminate Hs|done].
Qed.

Lemma nonempty_nonempty l : Forall (fun s => str_is_empty s = false) (nonempty l).
Proof. apply Forall_forall. intros s [Hs _]%elem_of_retain. by apply negb_true_iff. Qed.

(** The invariant of the manager and the two pattern tables. *)
Definition mirrored (m : PatternRulesMgr) (w : world) : Prop :=
  texts_ok (now m) /\ pre m = watched (now m)
  /\ stands_for w FILE_PATTERNS (nonempty (pattern_texts (now m)))
  /\ stands_for w TRUE_PROCESS (nonempty (process_texts (now m))).

Lemma watched_texts x y :
  watched x = watched y -> pattern_texts x = pattern_texts y /\ process_texts x = process_texts y.
Proof. unfold watched, pattern_texts, process_texts. intros [= ? ? ? ? ? ? ? ? ?]. split; congruence. Qed.

Lemma reload_mirrored x m w :
  mirrored m w -> texts_ok x ->
  mirrored (set_pattern_rules (Mgr x (pre m) (inited m)) w).1
           (set_pattern_rules (Mgr x (pre m) (inited m)) w).2.
Proof.
  intros (_ & Hpre & Hf & Ht) Hx. set (m' := Mgr x (pre m) (inited m)).
  destruct (set_pattern_rules_pre m' w) as [Hp1 Hn1].
  apply Forall_app in Hx as Hx'. destruct Hx' as [Hxp Hxt]. unfold mirrored. rewrite Hn1.
  split_and!; [done|done| |]; destruct (patterns_has_changed m') eqn:Hc.
  - eapply (loaded_stands_for _ _ _ _ _ true); [by apply reload_asks| | |apply nonempty_nonempty].
    + rewrite reload_share by set_solver. by rewrite loads_for_patterns.
    + by apply nonempty_lines.
  - unfold set_pattern_rules. rewrite Hc. unfold patterns_has_changed in Hc. bool_to_prop.
    simpl in Hc. rewrite Hpre in Hc. destruct (watched_texts _ _ Hc) as [E _]. cbn [snd]. change (now m') with x. by rewrite <- E.
  - eapply (loaded_stands_for _ _ _ _ _ false); [by apply reload_asks| | |apply nonempty_nonempty].
    + rewrite reload_share by set_solver. by rewrite loads_for_processes.
    + by apply nonempty_lines.
  - unfold set_pattern_rules. rewrite Hc. unfold patterns_has_changed in Hc. bool_to_prop.
    simpl in Hc. rewrite Hpre in Hc. destruct (watched_texts _ _ Hc) as [_ E]. cbn [snd]. change (now m') with x. by rewrite <- E.
Qed.

Lemma run_op_mirrored o m w : mirrored m w -> mirrored (run_op o m w).1 (run_op o m w).2.
Proof.
  intros Hm. pose proof (edit_ok o (now m) (proj1 Hm)) as Hok.
  destruct o as [|[]|dirs|exports| |dirs|]; try (by apply reload_mirrored); [|done].
  unfold run_op. destruct (inited m); exact Hm.
Qed.

(** The start: nothing was tried yet, whatever the tables hold. *)
Definition untried (w : world) : Prop := proc_attempts w = [].

Lemma new_mirrored w : untried w -> mirrored new w.
Proof.
  intros Hu. assert (forall p l, l = [] -> stands_for w p l) as H
    by (intros p l ->; unfold stands_for, last_load; by rewrite Hu).
  split_and!; [|done|by apply H..]. repeat constructor; by left.
Qed.

(** C4: whatever sequence of operations is run on a new manager, with whatever in
    the module's tables before and whatever the system answers to each of its
    openings and writes (missing files and failures, all of which the agent
    ignores), afterwards: if every write of the last loading of the pattern
    table was taken, that table holds exactly the manager's current pattern
    texts, and likewise the trusted-process table the current process texts,
    both in load order and without the empty ones; if a file was never loaded,
    the manager has no text for it. *)
Theorem patterns_mirrored ops w :
  untried w -> mirrored (run ops new w).1 (run ops new w).2.
Proof.
  intros Hm%new_mirrored. revert w Hm. generalize new.
  induction ops as [|o ops IH]; intros m w Hm; [done|].
  simpl. pose proof (run_op_mirrored o m w Hm) as H. destruct (run_op o m w). by apply IH.
Qed.

(** A module whose tables are empty, which answers as told. *)
Definition fresh_proc (l : list answer) : world := World ∅ [] l.
Definition empty_proc : world := fresh_proc [].

Definition sample_dir (rw : Z) : POLICY_PROTECT_DIR := {|
  pd_id := 1; pd_dir := "/srv"; protect_rw := rw; pd_typ := 1; pd_is_extend := 0;
  include_file := ""; file_ext := "txt|log"; is_white := "/srv/tmp"; white_hash := "aa,bb" |}.

Lemma patterns_mirrored_witness :
  mirrored (run [set_protect_dir [sample_dir 1]] new empty_proc).1
           (run [set_protect_dir [sample_dir 1]] new empty_proc).2
  /\ length (table (run [set_protect_dir [sample_dir 1]] new empty_proc).2 FILE_PATTERNS) = 3%nat.
Proof.
  split; [|vm_compute; reflexivity].
  apply (patterns_mirrored [set_protect_dir [sample_dir 1]] empty_proc); vm_compute; reflexivity.
Defined.

(** A text refused during a loading stays out of the table: the manager takes
    its texts for loaded and does not try them again. *)
Example refused_load_not_repeated :
  let ops := [set_protect_dir [sample_dir 1]; set_protect_dir [sample_dir 1]] in
  let w := fresh_proc [Taken; Taken; Taken; Refused 0] in
  let '(m, w) := run ops new w in
  length (pattern_texts (now m)) = 7%nat /\ length (nonempty (pattern_texts (now m))) = 3%nat
  /\ length (table w FILE_PATTERNS) = 2%nat
  /\ (run [set_protect_dir [sample_dir 1]] m w).2 = w.
Proof. vm_compute. split_and!; reflexivity. Qed.

(** ** A change of rules alone is not loaded *)

(** Two directories that differ in [protect_rw] only. *)
Definition same_but_rw (d d' : POLICY_PROTECT_DIR) : Prop :=
  d' = {| pd_id := pd_id d; pd_dir := pd_dir d; protect_rw := protect_rw d'; pd_typ := pd_typ d;
          pd_is_extend := pd_is_extend d; include_file := include_file d; file_ext := file_ext d;
          is_white := is_white d; white_hash := white_hash d |}.

Lemma gather_ext {A} (f : nat -> Z -> POLICY_PROTECT_DIR -> list A) tp l l' :
  (forall i tp d d', same_but_rw d d' -> f i tp d = f i tp d') ->
  Forall2 (fun x y => x.1 = y.1 /\ same_but_rw x.2 y.2) l l' -> gather f tp l = gather f tp l'.
Proof.
  intros Hf Hl. revert tp. induction Hl as [|[i d] [i' d'] l l' [Hi Hd] _ IH]; intros tp; [done|].
  simpl in *. subst i'. replace (has_white_hash d') with (has_white_hash d) by (by rewrite Hd).
  by rewrite IH, (Hf _ _ _ _ Hd).
Qed.

Lemma first50_rel dirs dirs' :
  Forall2 same_but_rw dirs dirs' ->
  Forall2 (fun x y => x.1 = y.1 /\ same_but_rw x.2 y.2) (first50 dirs) (first50 dirs').
Proof.
  intros H. unfold first50, enumerate. apply (Forall2_take _ _ _ 50) in H. revert H.
  generalize (take 50 dirs) (take 50 dirs'). intros l l' H. apply Forall2_lookup. intros k.
  rewrite !list_lookup_imap. apply (Forall2_lookup_lr _ _ _ k) in H || idtac.
  destruct (Forall2_lookup same_but_rw l l') as [Hl _]. specialize (Hl H k).
  destruct Hl; simpl; constructor. by split.
Qed.

Lemma watched_protect dirs dirs' x :
  Forall2 same_but_rw dirs dirs' -> watched (protect_texts dirs' x) = watched (protect_texts dirs x).
Proof.
  intros H%first50_rel. unfold watched, protect_texts. simpl.
  rewrite (gather_ext (fun i _ d => [protect_pattern i d]) 0 _ _) with (2 := H)
    by (intros i tp d d' ->; done).
  rewrite (gather_ext (fun i _ => white_patterns i) 0 _ _) with (2 := H)
    by (intros i tp d d' ->; done).
  rewrite (gather_ext (fun i _ => include_patterns i) 0 _ _) with (2 := H)
    by (intros i tp d d' ->; done).
  rewrite (gather_ext (fun i _ => exclude_patterns i) 0 _ _) with (2 := H)
    by (intros i tp d d' ->; done).
  rewrite (gather_ext (fun _ => process_lines) 0 _ _) with (2 := H)
    by (intros i tp d d' ->; done).
  done.
Qed.

(** Protected directories sent again with another [protect_rw] never reach
    the kernel: the manager's own rule text changes, but its change test looks
    at patterns only, so nothing is written to any file. *)
Theorem protect_rw_change_not_loaded dirs dirs' m w :
  Forall2 same_but_rw dirs dirs' ->
  let '(m1, w1) := run_op (set_protect_dir dirs) m w in
  let '(m2, w2) := run_op (set_protect_dir dirs') m1 w1 in
  w2 = w1 /\ protect_dir_rules (now m2) = protect_dir_rules (protect_texts dirs' (now m)).
Proof.
  intros Hd. unfold run_op. simpl.
  set (ma := Mgr (protect_texts dirs (now m)) (pre m) (inited m)).
  destruct (set_pattern_rules_pre ma w) as [Hp Hn].
  destruct (set_pattern_rules ma w) as [m1 w1]. simpl in Hp, Hn.
  unfold set_pattern_rules, patterns_has_changed. simpl.
  rewrite Hp, Hn. subst ma. simpl.
  replace (watched (protect_texts dirs' (protect_texts dirs (now m))))
    with (watched (protect_texts dirs (now m)))
    by (rewrite (watched_protect dirs dirs' _ Hd); done).
  by rewrite bool_decide_eq_true_2.
Qed.

Lemma protect_rw_change_not_loaded_witness :
  let '(m1, w1) := run_op (set_protect_dir [sample_dir 1]) new empty_proc in
  let '(m2, w2) := run_op (set_protect_dir [sample_dir 3]) m1 w1 in
  w2 = w1 /\ protect_dir_rules (now m2) = protect_dir_rules (protect_texts [sample_dir 3] (now new)).
Proof.
  apply (protect_rw_change_not_loaded [sample_dir 1] [sample_dir 3] new empty_proc).
  constructor; [reflexivity|constructor].
Defined.

(** The kernel goes on with the old rule. *)
Example stale_rule :
  let '(m, w) := run [set_protect_dir [sample_dir 1]; set_protect_dir [sample_dir 3]] new empty_proc in
  head (table w RULES) = Some (protect_dir_rules (protect_texts [sample_dir 1] (now new)))
  /\ protect_dir_rules (now m) <> protect_dir_rules (protect_texts [sample_dir 1] (now new)).
Proof. vm_compute. split; [reflexivity|discriminate]. Qed.

(** Clearing the file types leaves their trusted processes in the kernel. *)
Example cleared_types_keep_processes :
  let e := {| file_type := "doc"; ex_typ := 1; map_comm := [("aa", "word")] |} in
  let '(m, w) := run [set_exiport_dir [e]; clear_exiport_dir] new empty_proc in
  table w FILE_PATTERNS = [] /\ table w TRUE_PROCESS = ["aa,1,99" +:+ newline].
Proof. vm_compute. split; reflexivity. Qed.

(** ** References resolve *)

(** The patterns and rules [protect_texts] renders, text by text. *)
Definition protect_patterns (dirs : list POLICY_PROTECT_DIR) : list pattern :=
  let l := first50 dirs in
  gather (fun i _ d => [protect_pattern i d]) 0 l ++ gather (fun i _ => white_patterns i) 0 l
  ++ gather (fun i _ => include_patterns i) 0 l ++ gather (fun i _ => exclude_patterns i) 0 l.
Definition protect_rules (dirs : list POLICY_PROTECT_DIR) : list rule :=
  let l := first50 dirs in
  gather dir_rules 0 l ++ gather (fun i _ => white_rules i) 0 l
  ++ gather include_rules 0 l ++ gather (fun i _ => exclude_rules i) 0 l.

Lemma gather_app {A} (f g : nat -> Z -> POLICY_PROTECT_DIR -> list A) tp l :
  gather f tp l ++ gather g tp l ≡ₚ gather (fun i tp d => f i tp d ++ g i tp d) tp l.
Proof.
  revert tp. induction l as [|[i d] l IH]; intros tp; simpl; [done|].
  rewrite <- IH. rewrite <- !app_assoc. f_equiv. by rewrite !app_assoc, (Permutation_app_comm (gather f _ l)).
Qed.

Lemma gather_elim {A} f tp l (a : A) :
  a ∈ gather f tp l -> exists i tp' d, (i, d) ∈ l /\ a ∈ f i tp' d.
Proof.
  revert tp. induction l as [|[i d] l IH]; intros tp; simpl; [set_solver|].
  rewrite elem_of_app. intros [H|(i' & tp' & d' & ? & ?)%IH].
  - exists i, (next_group (has_white_hash d) tp), d. set_solver.
  - exists i', tp', d'. set_solver.
Qed.

Lemma gather_intro {A} (f : nat -> POLICY_PROTECT_DIR -> list A) tp l a i d :
  (i, d) ∈ l -> a ∈ f i d -> a ∈ gather (fun i _ d => f i d) tp l.
Proof.
  revert tp. induction l as [|[i' d'] l IH]; intros tp; simpl; [set_solver|].
  rewrite elem_of_cons, elem_of_app. intros [[= -> ->]|Hin] Ha; [by left|right; by apply IH].
Qed.

Lemma gather_NoDup {A} (g : A -> string) (f : nat -> POLICY_PROTECT_DIR -> list A) tp l :
  NoDup l.*1 -> (forall i d, NoDup (g <$> f i d)) ->
  (forall i i' d d' a a', a ∈ f i d -> a' ∈ f i' d' -> g a = g a' -> i = i') ->
  NoDup (g <$> gather (fun i _ d => f i d) tp l).
Proof.
  intros Hl Hf Hd. revert tp. induction l as [|[i d] l IH]; intros tp; simpl; [constructor|].
  simpl in Hl. apply NoDup_cons in Hl as [Hi Hl]. rewrite fmap_app. apply NoDup_app.
  split_and!; [apply Hf| |by apply IH].
  intros s (a & -> & Ha)%list_elem_of_fmap (a' & E & Ha')%list_elem_of_fmap.
  apply gather_elim in Ha' as (i' & _ & d' & Hin & Ha'). apply Hi.
  rewrite (Hd _ _ _ _ _ _ Ha Ha' E). apply list_elem_of_fmap. by exists (i', d').
Qed.

(** Names are prefix, number and number separated by underscores. *)
Definition name_of (parts : list string) : string := join "_" parts.

Lemma num_no_underscore i : str_mem "_"%char (num i) = false.
Proof. by apply dec_mem. Qed.

Lemma name_parts l l' :
  Forall (fun s => str_mem "_"%char s = false) l -> Forall (fun s => str_mem "_"%char s = false) l' ->
  l <> [] -> l' <> [] -> name_of l = name_of l' -> l = l'.
Proof.
  intros Hl Hl' Hn Hn' E. rewrite <- (split_join "_"%char l), <- (split_join "_"%char l') by done.
  f_equal. exact E.
Qed.

(** The parts of the name of a directory's pattern. *)
Definition key_of (i : nat) (k : list string) : Prop :=
  k = ["ProtectDir"; num i] \/
  exists j prefix, prefix ∈ ["protectExcludeDir"; "protectIncFileExe"; "protectExcFileExe"]
    /\ k = [prefix; num i; num j].

Definition dir_patterns (i : nat) (d : POLICY_PROTECT_DIR) : list pattern :=
  protect_pattern i d :: white_patterns i d ++ include_patterns i d ++ exclude_patterns i d.

Lemma key_no_underscore i k : key_of i k -> Forall (fun s => str_mem "_"%char s = false) k /\ k <> [].
Proof.
  intros [-> | (j & prefix & Hp & ->)]; split; try done; rewrite !Forall_cons;
    split_and!; auto using num_no_underscore.
  rewrite !elem_of_cons, elem_of_nil in Hp. by destruct_or! Hp; subst.
Qed.

Lemma dir_pattern_key i d p :
  p ∈ dir_patterns i d -> exists k, key_of i k /\ pat_name p = name_of k.
Proof.
  unfold dir_patterns. rewrite elem_of_cons, !elem_of_app. intros [->|[H|[H|H]]].
  - exists ["ProtectDir"; num i]. split; [by left|done].
  - apply list_elem_of_fmap in H as ([j s] & -> & _).
    exists ["protectExcludeDir"; num i; num j]. split; [right; exists j, "protectExcludeDir"; set_solver|done].
  - apply list_elem_of_fmap in H as ([j s] & -> & _).
    exists ["protectIncFileExe"; num i; num j]. split; [right; exists j, "protectIncFileExe"; set_solver|done].
  - apply list_elem_of_fmap in H as ([j s] & -> & _).
    exists ["protectExcFileExe"; num i; num j]. split; [right; exists j, "protectExcFileExe"; set_solver|done].
Qed.

Lemma num_inj i j : num i = num j -> i = j.
Proof. intros E. apply dec_inj in E; lia. Qed.

Lemma enumerate_indices {A} (l : list A) : (enumerate l).*1 = seq 0 (length l).
Proof.
  unfold enumerate. apply list_eq. intros k. rewrite list_lookup_fmap, list_lookup_imap.
  destruct (decide (k < length l)%nat) as [Hk|Hk].
  - destruct (lookup_lt_is_Some_2 l k Hk) as [x ->]. simpl. by rewrite lookup_seq_lt.
  - rewrite (lookup_ge_None_2 l k) by lia. simpl. by rewrite lookup_seq_ge by lia.
Qed.

Lemma parts_indices s : NoDup (parts s).*1.
Proof.
  unfold parts. case_match; [constructor|]. rewrite enumerate_indices. apply NoDup_seq.
Qed.

Definition sub_keys (prefix : string) (i : nat) (l : list (nat * string)) : list (list string) :=
  (fun '(j, _) => [prefix; num i; num j]) <$> l.

Lemma sub_keys_NoDup prefix i l : NoDup l.*1 -> NoDup (sub_keys prefix i l).
Proof.
  intros Hl. unfold sub_keys. induction l as [|[j s] l IH]; simpl in *; [constructor|].
  apply NoDup_cons in Hl as [Hj Hl]. apply NoDup_cons. split; [|by apply IH].
  intros ([j' s'] & [= E%num_inj] & Hin)%list_elem_of_fmap. subst. apply Hj.
  apply list_elem_of_fmap. by exists (j', s').
Qed.

Lemma sub_keys_head prefix i l k : k ∈ sub_keys prefix i l -> head k = Some prefix.
Proof. by intros ([j s] & -> & _)%list_elem_of_fmap. Qed.

Definition dir_keys (i : nat) (d : POLICY_PROTECT_DIR) : list (list string) :=
  ["ProtectDir"; num i] :: sub_keys "protectExcludeDir" i (parts (is_white d))
  ++ sub_keys "protectIncFileExe" i (parts (include_file d))
  ++ sub_keys "protectExcFileExe" i (excluded d).

Lemma dir_keys_NoDup i d : NoDup (dir_keys i d).
Proof.
  unfold dir_keys. apply NoDup_cons. split.
  { rewrite !elem_of_app. intros [H|[H|H]]; by apply sub_keys_head in H. }
  assert (NoDup (excluded d).*1) by (unfold excluded; case_match; [apply parts_indices|constructor]).
  apply NoDup_app. split_and!; [apply sub_keys_NoDup, parts_indices| |apply NoDup_app; split_and!].
  - intros k H1%sub_keys_head. rewrite elem_of_app. intros [H2|H2]; apply sub_keys_head in H2; congruence.
  - apply sub_keys_NoDup, parts_indices.
  - intros k H1%sub_keys_head H2%sub_keys_head. congruence.
  - by apply sub_keys_NoDup.
Qed.

Lemma dir_patterns_names i d : pat_name <$> dir_patterns i d = name_of <$> dir_keys i d.
Proof.
  unfold dir_patterns, dir_keys, sub_keys. rewrite !fmap_cons, !fmap_app. f_equal.
  unfold white_patterns, include_patterns, exclude_patterns.
  rewrite <- !list_fmap_compose. apply (f_equal2 app); [|apply (f_equal2 app)].
  all: apply list_fmap_ext; by intros ? [j s].
Qed.

Lemma dir_keys_key i d k : k ∈ dir_keys i d -> key_of i k.
Proof.
  unfold dir_keys. rewrite elem_of_cons, !elem_of_app. intros [->|[H|[H|H]]]; [by left|..];
    apply list_elem_of_fmap in H as ([j s] & -> & _); right; exists j; eexists; (split; [|done]);
    set_solver.
Qed.

Lemma dir_patterns_NoDup i d : NoDup (pat_name <$> dir_patterns i d).
Proof.
  rewrite dir_patterns_names. apply NoDup_fmap_2_strong; [|apply dir_keys_NoDup].
  intros k k' [? ?]%dir_keys_key%key_no_underscore [? ?]%dir_keys_key%key_no_underscore.
  by apply name_parts.
Qed.

Lemma key_index i i' k : key_of i k -> key_of i' k -> i = i'.
Proof.
  intros [-> | (j & prefix & _ & ->)] [E | (j' & prefix' & _ & E)]; simplify_eq; by apply num_inj.
Qed.

Definition all_dir_rules (i : nat) (tp : Z) (d : POLICY_PROTECT_DIR) : list rule :=
  dir_rules i tp d ++ white_rules i d ++ include_rules i tp d ++ exclude_rules i d.

Lemma elem_of_dir_patterns i d p :
  p ∈ dir_patterns i d <->
  p = protect_pattern i d \/ p ∈ white_patterns i d \/ p ∈ include_patterns i d
  \/ p ∈ exclude_patterns i d.
Proof. unfold dir_patterns. by rewrite elem_of_cons, !elem_of_app. Qed.

(** Within one directory. *)
Lemma rule_ref_resolves i tp d r n :
  r ∈ all_dir_rules i tp d -> n ∈ rule_refs r -> exists p, p ∈ dir_patterns i d /\ pat_name p = n.
Proof.
  intros Hr Hn.
  assert (n = protect_name i -> exists p, p ∈ dir_patterns i d /\ pat_name p = n) as Hself.
  { intros ->. exists (protect_pattern i d). rewrite elem_of_dir_patterns. auto. }
  unfold all_dir_rules in Hr. rewrite !elem_of_app in Hr. destruct Hr as [H|[H|[H|H]]].
  { unfold dir_rules in H. case_match; [|set_solver]. apply list_elem_of_singleton in H as ->.
    apply Hself. set_solver. }
  all: apply list_elem_of_fmap in H as ([j s] & -> & Hj); simpl in Hn;
    rewrite ?elem_of_cons, elem_of_nil in Hn.
  - destruct Hn as [->|[]]. exists (Pat (exclude_dir_name i j) (",key=" +:+ s)).
    rewrite elem_of_dir_patterns. split; [|done]. right; left. apply list_elem_of_fmap. by exists (j, s).
  - destruct Hn as [->|[->|[]]]; [by apply Hself|]. exists (suffix_pattern (inc_name i j) s).
    rewrite elem_of_dir_patterns. split; [|done]. right; right; left. apply list_elem_of_fmap. by exists (j, s).
  - destruct Hn as [->|[->|[]]]; [by apply Hself|]. exists (suffix_pattern (exc_name i j) s).
    rewrite elem_of_dir_patterns. split; [|done]. right; right; right. apply list_elem_of_fmap. by exists (j, s).
Qed.

(** The rules of protected directories hang together: every pattern name a
    rule refers to is the name of a pattern loaded with it, and no two
    patterns share a name, for any list of directories (of which the first
    fifty count). *)
Theorem protect_references_resolve dirs :
  NoDup (pat_name <$> protect_patterns dirs) /\
  forall r n, r ∈ protect_rules dirs -> n ∈ rule_refs r ->
    exists p, p ∈ protect_patterns dirs /\ pat_name p = n.
Proof.
  assert (protect_patterns dirs ≡ₚ gather (fun i _ => dir_patterns i) 0 (first50 dirs)) as Hp.
  { unfold protect_patterns. by rewrite !gather_app. }
  assert (protect_rules dirs ≡ₚ gather all_dir_rules 0 (first50 dirs)) as Hr.
  { unfold protect_rules. by rewrite !gather_app. }
  split.
  - rewrite Hp. apply (gather_NoDup pat_name dir_patterns).
    + unfold first50. rewrite enumerate_indices. apply NoDup_seq.
    + apply dir_patterns_NoDup.
    + intros i i' d d' p p' (k & Hk & Ek)%dir_pattern_key (k' & Hk' & Ek')%dir_pattern_key E.
      assert (k = k') as <-; [|by eapply key_index].
      destruct (key_no_underscore _ _ Hk), (key_no_underscore _ _ Hk').
      apply name_parts; [done..|congruence].
  - intros r n. rewrite Hr. intros (i & tp & d & Hin & Hri)%gather_elim Hn.
    destruct (rule_ref_resolves i tp d r n Hri Hn) as (p & Hpi & <-).
    exists p. split; [|done]. rewrite Hp. by apply (gather_intro dir_patterns 0 _ p i d).
Qed.

(** ** From the policy message to the trusted-process lines *)

(** The hashes of a parsed policy, joined with commas when parsed and split
    again when rendered, come out one line per hash. *)
Lemma parsed_hash_lines {V} `{JsonValue V} (item : V) tp :
  Forall (fun h => str_mem ","%char h = false) (white_hashes item) ->
  white_hash (parse_policy item) <> "" ->
  process_lines tp (parse_policy item) =
    (fun h => h +:+ "," +:+ dec tp +:+ ",88" +:+ newline) <$> white_hashes item.
Proof.
  intros Hc Hne. unfold process_lines, has_white_hash, str_is_empty.
  rewrite bool_decide_eq_false_2 by done. simpl in *. rewrite (split_join ","%char); [done| |done].
  intros E. by rewrite E in Hne.
Qed.
