(* ===== verification/ProcessPattern.v ===== *)
(** * Process protection patterns

    [crates/pattern/src/process_pattern_rules_mgr.rs]: the manager of
    [/proc/osec/process_dpi], with its built-in table of trusted processes.
    It renders and loads like the file manager of [Pattern.v], whose patterns,
    rules, [/proc] chunks and tables it shares (the file writer is the same
    code but for the language of its message); it has fewer texts, and the
    theorem here is stronger: both its pattern and its rule table mirror the
    manager. *)

From Stdlib Require Import Ascii.
From S2P Require Import Prelude RustStr Bytes Json Pattern.

Definition FILE_PATTERNS_PROC_FILE : string := "/proc/osec/process_dpi/file_patterns".
Definition DPI_RULE_PROC_FILE : string := "/proc/osec/process_dpi/rules".

Record ProcessPattern := PP {
  key : string;
  pp_typ : Z;
  param : string
}.

Definition PROCESS_PATTERNS : list ProcessPattern :=
  [PP "bin/sudo" 0 "";
   PP "/lib/command-not-found" 0 ",pkt_len=-1";
   PP "systemd-cgroups-agent" 0 ",pkt_len=-1";
   PP "/opt/osec/MagicArmor_cli" 0 ",match_full_path=1";
   PP "/opt/osec/MagicArmor_0" 0 ",match_full_path=1";
   PP "/bin/dbus-daemon" 1 ",match_full_path=1";
   PP "/sbin/init" 1 ",match_full_path=1";
   PP "/sbin/NetworkManager" 1 ",match_full_path=1";
   PP "/sbin/lightdm" 1 ",match_full_path=1";
   PP "/sbin/alsactl" 1 ",match_full_path=1";
   PP "/lib/systemd/systemd-journald" 1 ",match_full_path=1";
   PP "/lib/systemd/systemd-udevd" 1 ",match_full_path=1";
   PP "/lib/systemd/systemd-timesyncd" 1 ",match_full_path=1";
   PP "/lib/systemd/systemd-logind" 1 ",match_full_path=1";
   PP "/usr/lib/accountsservice/accounts-daemon" 1 ",match_full_path=1";
   PP "/usr/lib/xorg/Xorg" 1 ",match_full_path=1";
   PP "/usr/lib/policykit-1/polkitd" 1 ",match_full_path=1";
   PP "/lib/systemd/systemd" 1 ",match_full_path=1";
   PP "/usr/sbin/rsyslogd" 1 ",match_full_path=1";
   PP "/bin/login" 1 ",match_full_path=1";
   PP "bin/du" 1 ",pkt_len=-1";
   PP "bin/dash" 1 ",pkt_len=-1";
   PP "/bin/run-parts" 1 ",match_full_path=1";
   PP "/sbin/dhclient-script" 1 ",match_full_path=1";
   PP "bin/sort" 1 ",pkt_len=-1";
   PP "bin/sudo" 1 ",pkt_len=-1";
   PP "bin/apt-get" 1 ",pkt_len=-1";
   PP "bin/dpkg-preconfigure" 1 ",pkt_len=-1";
   PP "bin/dpkg-split" 1 ",pkt_len=-1";
   PP "bin/apt-extracttemplates" 1 ",pkt_len=-1";
   PP "bin/stty" 1 ",pkt_len=-1";
   PP "bin/lsmod" 1 ",pkt_len=-1";
   PP "bin/rmmod" 1 ",pkt_len=-1";
   PP "bin/unzip" 1 ",pkt_len=-1";
   PP "bin/reboot" 1 ",pkt_len=-1";
   PP "/usr/bin/systemctl" 1 ",match_full_path=1";
   PP "/usr/sbin/service" 1 ",match_full_path=1";
   PP "/shutdown" 1 ",pkt_len=-1";
   PP "/halt" 1 ",pkt_len=-1";
   PP "/poweroff" 1 ",pkt_len=-1";
   PP "/systemd" 1 ",pkt_len=-1";
   PP "lsof" 1 ",pkt_len=-1";
   PP "awk" 1 ",pkt_len=-1";
   PP "/opt/osec/MagicArmorAgent" 0 ",match_full_path=1"].

Record ProcessPatternRulesMgr := PMgr {
  p_const_file_patterns : string;
  p_const_file_rules : string;
  p_global_trust_dir_patterns : string;
  p_global_trust_dir_rules : string;
  pre_global_trust_dir_patterns : string;
  pre_const_file_patterns : string;
  p_inited : bool
}.

Definition p_new : ProcessPatternRulesMgr := PMgr "" "" "" "" "" "" false.

(** The built-in table, numbered from 1. *)
Definition const_name (i : nat) (p : ProcessPattern) : string :=
  (if pp_typ p =? 0 then "true_process_" else "sys_true_process_") +:+ dec (Z.of_nat i + 1).
Definition const_pattern (i : nat) (p : ProcessPattern) : pattern :=
  Pat (const_name i p) (",key=" +:+ key p +:+ param p).
Definition const_rule (i : nat) (p : ProcessPattern) : rule :=
  Rule (if pp_typ p =? 0 then "true_process" else "sys_true_process") "" [const_name i p]
    (",type=" +:+ dec (pp_typ p)).

Definition process_const_patterns : string :=
  pattern_text ((fun '(i, p) => const_pattern i p) <$> enumerate PROCESS_PATTERNS).
Definition process_const_rules : string :=
  rule_text ((fun '(i, p) => const_rule i p) <$> enumerate PROCESS_PATTERNS).

(** [isnot_extend] only for directories matched by depth, unlike [Pattern.v]. *)
Definition p_trust_pattern (i : nat) (d : GlobalTrustDir) : pattern :=
  Pat (trust_name i)
    (",key=" +:+ dir d
     +:+ (if typ d =? 1
          then (if is_extend d =? 0 then ",isnot_extend=1" else "")
               +:+ ",depth=" +:+ dec (str_len (dir d))
          else ",pkt_len=-1")
     +:+ ",case_offset=1").

Definition p_trust_patterns (dirs : list GlobalTrustDir) : list pattern :=
  (fun '(i, d) => p_trust_pattern i d) <$> first50 dirs.
Definition p_trust_rules (dirs : list GlobalTrustDir) : list rule :=
  (fun '(i, _) => trust_rule i) <$> first50 dirs.

Definition p_load_writes (m : ProcessPatternRulesMgr) : list (string * string) :=
  unless_empty (p_const_file_patterns m)
    [(FILE_PATTERNS_PROC_FILE, p_const_file_patterns m); (DPI_RULE_PROC_FILE, p_const_file_rules m)]
  ++ unless_empty (p_global_trust_dir_patterns m)
    [(FILE_PATTERNS_PROC_FILE, p_global_trust_dir_patterns m);
     (DPI_RULE_PROC_FILE, p_global_trust_dir_rules m)].

Definition p_load_pattern_rules (m : ProcessPatternRulesMgr) : io world unit :=
  for_each (fun '(path, content) => ignore (write_to_proc_file path content)) (p_load_writes m)
  ≫= fun _ => ignore (create_and_write FILE_PATTERNS_PROC_FILE build_chunk).

Definition p_patterns_has_changed (m : ProcessPatternRulesMgr) : bool :=
  negb (bool_decide (pre_global_trust_dir_patterns m = p_global_trust_dir_patterns m))
  || negb (bool_decide (pre_const_file_patterns m = p_const_file_patterns m)).

Definition p_patterns_backup (m : ProcessPatternRulesMgr) : ProcessPatternRulesMgr :=
  PMgr (p_const_file_patterns m) (p_const_file_rules m) (p_global_trust_dir_patterns m)
    (p_global_trust_dir_rules m) (p_global_trust_dir_patterns m) (p_const_file_patterns m)
    (p_inited m).

Definition p_set_pattern_rules (m : ProcessPatternRulesMgr) (w : world)
    : ProcessPatternRulesMgr * world :=
  if p_patterns_has_changed m then
    let w := (ignore (create_and_write FILE_PATTERNS_PROC_FILE clear_chunk) w).2 in
    let w := (ignore (create_and_write DPI_RULE_PROC_FILE clear_chunk) w).2 in
    let w := (p_load_pattern_rules m w).2 in
    (p_patterns_backup m, w)
  else (m, w).

Definition add_const_process_pattern (m : ProcessPatternRulesMgr) (w : world)
    : ProcessPatternRulesMgr * world :=
  p_set_pattern_rules
    (PMgr process_const_patterns process_const_rules (p_global_trust_dir_patterns m)
       (p_global_trust_dir_rules m) (pre_global_trust_dir_patterns m) (pre_const_file_patterns m)
       (p_inited m)) w.

Definition p_init (m : ProcessPatternRulesMgr) (w : world) : ProcessPatternRulesMgr * world :=
  if p_inited m then (m, w)
  else add_const_process_pattern
         (PMgr (p_const_file_patterns m) (p_const_file_rules m) (p_global_trust_dir_patterns m)
            (p_global_trust_dir_rules m) (pre_global_trust_dir_patterns m)
            (pre_const_file_patterns m) true) w.

Definition p_set_global_trust_dir (dirs : list GlobalTrustDir) (m : ProcessPatternRulesMgr)
    (w : world) : ProcessPatternRulesMgr * world :=
  p_set_pattern_rules
    (PMgr (p_const_file_patterns m) (p_const_file_rules m) (pattern_text (p_trust_patterns dirs))
       (rule_text (p_trust_rules dirs)) (pre_global_trust_dir_patterns m)
       (pre_const_file_patterns m) (p_inited m)) w.

(** ** The kernel mirrors both texts *)

Inductive p_op := PInit | PTrust (dirs : list GlobalTrustDir).

Definition p_run_op (o : p_op) (m : ProcessPatternRulesMgr) (w : world) :=
  match o with PInit => p_init m w | PTrust dirs => p_set_global_trust_dir dirs m w end.

Fixpoint p_run (ops : list p_op) (m : ProcessPatternRulesMgr) (w : world)
    : ProcessPatternRulesMgr * world :=
  match ops with
  | [] => (m, w)
  | o :: ops => let '(m, w) := p_run_op o m w in p_run ops m w
  end.

(** *** Equal pattern texts have equally many lines *)

Fixpoint count (c : ascii) (s : string) : nat :=
  match s with
  | EmptyString => 0
  | String a s => (if bool_decide (a = c) then 1 else 0) + count c s
  end.

Lemma count_app c s t : count c (s +:+ t) = (count c s + count c t)%nat.
Proof. induction s as [|a s IH]; [done|]. rewrite str_app_cons. simpl. rewrite IH. lia. Qed.

Lemma count_none c s : str_mem c s = false -> count c s = 0%nat.
Proof.
  induction s as [|a s IH]; [done|]. simpl. intros [H1 H2]%orb_false_iff. by rewrite H1, IH.
Qed.

Lemma count_dec n : count line_feed (dec n) = 0%nat.
Proof. by apply count_none, dec_mem. Qed.

Definition one_line (d : GlobalTrustDir) : Prop := str_mem line_feed (dir d) = false.

Lemma p_trust_pattern_lines i d :
  one_line d -> count line_feed (render_pattern (p_trust_pattern i d)) = 1%nat.
Proof.
  intros Hd%count_none. unfold render_pattern, p_trust_pattern, trust_name. simpl.
  rewrite !count_app, Hd. destruct (typ d =? 1), (is_extend d =? 0);
    rewrite ?count_app, ?count_dec; reflexivity.
Qed.

Lemma trust_texts_lines dirs :
  Forall one_line dirs ->
  count line_feed (pattern_text (p_trust_patterns dirs)) = length (first50 dirs).
Proof.
  intros Hd. unfold p_trust_patterns, first50, pattern_text, enumerate.
  apply (Forall_take _ 50%nat) in Hd. revert Hd. generalize (take 50 dirs) as l. intros l Hl.
  assert (forall f : nat -> nat, count line_feed (push_all (render_pattern <$>
            ((fun '(i, d) => p_trust_pattern i d) <$> imap (fun i => pair (f i)) l)))
          = length (imap (fun i => @pair nat GlobalTrustDir (f i)) l)) as H; [|apply (H id)].
  induction Hl as [|d l Hd Hl IH]; intros f; [done|].
  rewrite imap_cons, !fmap_cons. cbn [push_all length].
  rewrite count_app, (p_trust_pattern_lines _ _ Hd). f_equal. apply (IH (f ∘ S)).
Qed.

Lemma p_trust_rules_length dirs dirs' :
  length (first50 dirs) = length (first50 dirs') -> p_trust_rules dirs = p_trust_rules dirs'.
Proof.
  assert (forall ds, p_trust_rules ds = trust_rule <$> seq 0 (length (first50 ds))) as H.
  { intros ds. unfold p_trust_rules, first50.
    transitivity (trust_rule <$> (enumerate (take 50 ds)).*1).
    - rewrite <- list_fmap_compose. apply list_fmap_ext. by intros ? [i d].
    - rewrite enumerate_indices. do 2 f_equal. unfold enumerate. by rewrite length_imap. }
  intros E. by rewrite !H, E.
Qed.

Lemma trust_texts_rules dirs dirs' :
  Forall one_line dirs -> Forall one_line dirs' ->
  pattern_text (p_trust_patterns dirs) = pattern_text (p_trust_patterns dirs') ->
  p_trust_rules dirs = p_trust_rules dirs'.
Proof.
  intros H1%trust_texts_lines H2%trust_texts_lines E. apply p_trust_rules_length. congruence.
Qed.

Lemma rule_text_line l : rule_text l = "" \/ line_chunk (rule_text l).
Proof.
  destruct l as [|r l]; [by left|right]. unfold rule_text. rewrite fmap_cons. simpl.
  unfold render_rule. by rewrite !str_app_cons.
Qed.

(** The managers a run can reach. *)
Definition p_shape (m : ProcessPatternRulesMgr) : Prop :=
  ((p_const_file_patterns m = "" /\ p_const_file_rules m = "")
   \/ (p_const_file_patterns m = process_const_patterns
      /\ p_const_file_rules m = process_const_rules))
  /\ exists dirs, Forall one_line dirs
     /\ p_global_trust_dir_patterns m = pattern_text (p_trust_patterns dirs)
     /\ p_global_trust_dir_rules m = rule_text (p_trust_rules dirs).

Definition p_backed_up (m : ProcessPatternRulesMgr) : Prop :=
  pre_global_trust_dir_patterns m = p_global_trust_dir_patterns m
  /\ pre_const_file_patterns m = p_const_file_patterns m.

Definition p_patterns (m : ProcessPatternRulesMgr) : list string :=
  nonempty [p_const_file_patterns m; p_global_trust_dir_patterns m].
Definition p_rules (m : ProcessPatternRulesMgr) : list string :=
  nonempty [p_const_file_rules m; p_global_trust_dir_rules m].

Definition p_mirrored (m : ProcessPatternRulesMgr) (w : world) : Prop :=
  p_shape m /\ p_backed_up m
  /\ stands_for w FILE_PATTERNS_PROC_FILE (p_patterns m)
  /\ stands_for w DPI_RULE_PROC_FILE (p_rules m).

Lemma trust_empty dirs :
  str_is_empty (pattern_text (p_trust_patterns dirs)) = str_is_empty (rule_text (p_trust_rules dirs)).
Proof. by destruct dirs. Qed.

Lemma p_shape_texts m :
  p_shape m ->
  Forall (fun s => s = "" \/ line_chunk s)
    [p_const_file_patterns m; p_global_trust_dir_patterns m; p_const_file_rules m;
     p_global_trust_dir_rules m]
  /\ str_is_empty (p_const_file_patterns m) = str_is_empty (p_const_file_rules m)
  /\ str_is_empty (p_global_trust_dir_patterns m) = str_is_empty (p_global_trust_dir_rules m).
Proof.
  intros [Hc (dirs & _ & -> & ->)].
  split_and!; [|destruct Hc as [[-> ->]|[-> ->]]; reflexivity|apply trust_empty].
  destruct Hc as [[-> ->]|[-> ->]]; repeat apply Forall_cons_2; try apply Forall_nil_2;
    first [apply pattern_text_line | apply rule_text_line | by left].
Qed.

(** What is loaded, file by file. *)
Lemma p_loads m :
  p_shape m ->
  for_path FILE_PATTERNS_PROC_FILE (p_load_writes m) = p_patterns m
  /\ for_path DPI_RULE_PROC_FILE (p_load_writes m) = p_rules m.
Proof.
  intros (_ & H1 & H2)%p_shape_texts. unfold p_load_writes, p_patterns, p_rules, nonempty.
  rewrite !for_path_app, !for_path_unless. simpl. rewrite <- H1, <- H2.
  split; by destruct (str_is_empty (p_const_file_patterns m)),
    (str_is_empty (p_global_trust_dir_patterns m)).
Qed.

Definition p_reload_writes (m : ProcessPatternRulesMgr) : list (string * string) :=
  [(FILE_PATTERNS_PROC_FILE, clear_chunk); (DPI_RULE_PROC_FILE, clear_chunk)]
  ++ p_load_writes m ++ [(FILE_PATTERNS_PROC_FILE, build_chunk)].

Lemma p_reload_asks m w :
  p_patterns_has_changed m = true -> asks (p_reload_writes m) w (p_set_pattern_rules m w).2.
Proof.
  intros Hc. unfold p_set_pattern_rules. rewrite Hc. cbn [snd].
  apply (asks_app [_] _ _ _ _ (asks_create _ _ _)). apply (asks_app [_] _ _ _ _ (asks_create _ _ _)).
  unfold p_load_pattern_rules. rewrite io_bind_run.
  apply (asks_app _ [_] _ _ _ (asks_writes _ _)), asks_create.
Qed.

Lemma p_reload_share m :
  p_shape m ->
  for_path FILE_PATTERNS_PROC_FILE (p_reload_writes m) = clear_chunk :: p_patterns m ++ [build_chunk]
  /\ for_path DPI_RULE_PROC_FILE (p_reload_writes m) = clear_chunk :: p_rules m ++ [].
Proof. intros [L1 L2]%p_loads. unfold p_reload_writes. rewrite !for_path_app, L1, L2. done. Qed.

Lemma p_lines m :
  p_shape m -> Forall line_chunk (p_patterns m) /\ Forall line_chunk (p_rules m).
Proof.
  intros [H _]%p_shape_texts. rewrite !Forall_cons in H. destruct H as (? & ? & ? & ? & _).
  split; apply nonempty_lines; repeat apply Forall_cons_2; try apply Forall_nil_2; done.
Qed.

(** The reload of a manager whose texts changed to another reachable shape. *)
Lemma p_reload_mirrored m m' w :
  p_mirrored m w -> p_shape m' ->
  pre_global_trust_dir_patterns m' = pre_global_trust_dir_patterns m ->
  pre_const_file_patterns m' = pre_const_file_patterns m ->
  p_mirrored (p_set_pattern_rules m' w).1 (p_set_pattern_rules m' w).2.
Proof.
  intros (Hs & [Hb1 Hb2] & Hf & Hr) Hs' E1 E2.
  destruct (p_patterns_has_changed m') eqn:Hc.
  - destruct (p_reload_share m' Hs') as [L1 L2]. destruct (p_lines m' Hs') as [C1 C2].
    pose proof (p_reload_asks m' w Hc) as Ha.
    assert ((p_set_pattern_rules m' w).1 = p_patterns_backup m') as ->
      by (unfold p_set_pattern_rules; by rewrite Hc).
    split_and!; [exact Hs'|done| |].
    + by apply (loaded_stands_for _ _ _ _ _ true Ha); [..|apply nonempty_nonempty].
    + by apply (loaded_stands_for _ _ _ _ _ false Ha); [..|apply nonempty_nonempty].
  - unfold p_set_pattern_rules. rewrite Hc. simpl.
    unfold p_patterns_has_changed in Hc. bool_to_prop.
    assert (p_const_file_patterns m' = p_const_file_patterns m) as Ep by congruence.
    assert (p_global_trust_dir_patterns m' = p_global_trust_dir_patterns m) as Et by congruence.
    assert (p_const_file_rules m' = p_const_file_rules m) as Er.
    { destruct Hs as [[[A B]|[A B]] _], Hs' as [[[A' B']|[A' B']] _]; rewrite A, A' in Ep;
        first [congruence | discriminate Ep]. }
    assert (p_global_trust_dir_rules m' = p_global_trust_dir_rules m) as Etr.
    { destruct Hs as [_ (d & D1 & D2 & D3)], Hs' as [_ (d' & D1' & D2' & D3')].
      rewrite D3, D3'. f_equal. apply trust_texts_rules; [done..|congruence]. }
    unfold p_mirrored, p_patterns, p_rules. rewrite Ep, Et, Er, Etr. by split_and!.
Qed.

Definition p_op_ok (o : p_op) : Prop :=
  match o with PInit => True | PTrust dirs => Forall one_line dirs end.

Lemma p_run_op_mirrored o m w :
  p_op_ok o -> p_mirrored m w -> p_mirrored (p_run_op o m w).1 (p_run_op o m w).2.
Proof.
  intros Ho Hm. pose proof Hm as ([Hc Ht] & _ & _ & _). destruct o as [|dirs]; simpl.
  - unfold p_init. destruct (p_inited m); [done|]. unfold add_const_process_pattern.
    apply (p_reload_mirrored m); [done| |done|done]. split; [by right|]. exact Ht.
  - apply (p_reload_mirrored m); [done| |done|done]. split; [exact Hc|]. by exists dirs.
Qed.

Lemma p_new_mirrored w : untried w -> p_mirrored p_new w.
Proof.
  intros Hu. assert (forall p l, l = [] -> stands_for w p l) as H
    by (intros p l ->; unfold stands_for, last_load; by rewrite Hu).
  split_and!; [|done|by apply H..]. split; [by left|]. by exists [].
Qed.

(** whatever sequence of initialisations and trusted-directory updates (of
    directories without a line break) is run on a new manager, and whatever
    the system answers to its openings and writes, afterwards the module's
    process pattern table and its rule table each hold exactly the manager's
    texts if every write of that file's last loading was taken; a file never
    loaded has no text in the manager. *)
Theorem process_patterns_mirrored ops w :
  Forall p_op_ok ops -> untried w ->
  p_mirrored (p_run ops p_new w).1 (p_run ops p_new w).2.
Proof.
  intros Hops Hm%p_new_mirrored. revert w Hm. generalize p_new.
  induction Hops as [|o ops Ho _ IH]; intros m w Hm; [done|].
  simpl. pose proof (p_run_op_mirrored o m w Ho Hm) as H. destruct (p_run_op o m w). by apply IH.
Qed.

Lemma process_patterns_mirrored_witness :
  let ops := [PInit; PTrust [{| dir := "/opt"; typ := 1; is_extend := 0 |}]; PTrust []] in
  p_mirrored (p_run ops p_new empty_proc).1 (p_run ops p_new empty_proc).2
  /\ table (p_run ops p_new empty_proc).2 DPI_RULE_PROC_FILE = [process_const_rules].
Proof.
  intros ops. split; [|vm_compute; reflexivity].
  apply (process_patterns_mirrored ops empty_proc); [|vm_compute; reflexivity..].
  repeat constructor.
Defined.
