(* ===== verification/Usb.v ===== *)
(** * USB storage control

    [crates/udisk]: the black and white lists ([list.rs]), the identity of a
    device and its entry in sysfs ([utils.rs]), and the hot-plug callbacks that
    block or report storage devices ([monitor.rs]).

    Sysfs is state: the entries of [/sys/bus/usb/devices] in directory order,
    each with its attribute texts.  The MD5 of the identity string and what
    [rusb] reads from a device are parameters. *)

From S2P Require Import Prelude RustStr Reporter.

(** ** Devices and lists *)

Record UsbInfo := {
  perpheral_eid : string;
  perpheral_name : string;
  intro : string;
  usb_type : string;
  allow : bool
}.

Inductive DeviceListStatus := InWhitelist | InBlacklist | NotInAnyList.

Record BlackWhiteList := Lists {
  blacklist : list UsbInfo;
  whitelist : list UsbInfo;
  black_eids : gset string;
  white_eids : gset string
}.

Definition eids (l : list UsbInfo) : gset string := list_to_set (perpheral_eid <$> l).

Definition new_lists : BlackWhiteList := Lists [] [] ∅ ∅.
Definition from_vecs (black white : list UsbInfo) : BlackWhiteList :=
  Lists black white (eids black) (eids white).

Definition get_device_list_status (l : BlackWhiteList) (eid : string) : DeviceListStatus :=
  if bool_decide (eid ∈ black_eids l) then InBlacklist
  else if bool_decide (eid ∈ white_eids l) then InWhitelist
  else NotInAnyList.

Definition is_allowed (l : BlackWhiteList) (eid : string) : bool :=
  if bool_decide (eid ∈ black_eids l) then false
  else if bool_decide (white_eids l = ∅) then true
  else bool_decide (eid ∈ white_eids l).

Definition not_in (s : gset string) (u : UsbInfo) : bool := negb (bool_decide (perpheral_eid u ∈ s)).

Definition update_whitelist (new_whitelist : list UsbInfo) (l : BlackWhiteList) : BlackWhiteList :=
  let new_white_eids := eids new_whitelist in
  let black := retain (not_in new_white_eids) (blacklist l) in
  Lists black new_whitelist (eids black) new_white_eids.

(** The new lists and the newly blacklisted identities, which a spawned thread
    disables. *)
Definition update_blacklist (new_blacklist : list UsbInfo) (l : BlackWhiteList)
    : BlackWhiteList * gset string :=
  let new_black_eids := eids new_blacklist in
  let added := new_black_eids ∖ black_eids l in
  let white := retain (not_in new_black_eids) (whitelist l) in
  (Lists new_blacklist white new_black_eids (eids white), added).

(** ** Sysfs *)

(** An entry of the directory: the texts of its attributes, as far as they can be
    read, and the [bInterfaceClass] of each sub-directory.  The driver may refuse
    a few writes of [authorized] before it accepts one, or all of them. *)
Record device := {
  idVendor : option string;
  idProduct : option string;
  bDeviceClass : option string;
  sub_dirs : list (option string);
  manufacturer : option string;
  serial : option string;
  authorized : option string;
  refusals : option nat      (** [None]: every write, or the attribute is missing *)
}.

Abbreviation sysfs := (list (string * device)).

Definition read_sysfs_string (text : option string) : string := trim (default "" text).

Definition has_mass_storage_interface (d : device) : bool :=
  existsb (fun class => bool_decide (read_sysfs_string class = "08")) (sub_dirs d).

Definition set_authorized (text : option string) (n : option nat) (d : device) : device := {|
  idVendor := idVendor d; idProduct := idProduct d; bDeviceClass := bDeviceClass d;
  sub_dirs := sub_dirs d; manufacturer := manufacturer d; serial := serial d;
  authorized := text; refusals := n |}.

(** A device that is no longer authorized has no configuration: the directories
    of its interfaces are gone. *)
Definition deauthorized (d : device) : device := {|
  idVendor := idVendor d; idProduct := idProduct d; bDeviceClass := bDeviceClass d;
  sub_dirs := retain (fun class => match class with None => true | Some _ => false end) (sub_dirs d);
  manufacturer := manufacturer d; serial := serial d;
  authorized := Some "0"; refusals := Some 0%nat |}.

(** One attempt to write [0]. *)
Definition try_deauthorize (d : device) : bool * device :=
  match refusals d with
  | Some 0%nat => (true, deauthorized d)
  | Some (S n) => (false, set_authorized (authorized d) (Some n) d)
  | None => (false, d)
  end.

(** Up to [n] attempts, a pause after each that fails. *)
Fixpoint attempts (n : nat) (d : device) : bool * device :=
  match n with
  | O => (false, d)
  | S n => let '(ok, d) := try_deauthorize d in if ok then (true, d) else attempts n d
  end.

Section usb.
Context (md5_hex : string -> string).

Definition generate_eid (vendor product serial : string) : string :=
  md5_hex (product +:+ "_" +:+ vendor).

(** The text of an attribute, or the vendor and product when it is empty. *)
Definition or_vid_pid (text vendor product : string) : string :=
  if str_is_empty text then "vid" +:+ vendor +:+ "_pid" +:+ product else text.

Definition vendor (d : device) : string := read_sysfs_string (idVendor d).
Definition product (d : device) : string := read_sysfs_string (idProduct d).

Definition device_eid (d : device) : string :=
  generate_eid (vendor d) (product d) (or_vid_pid (read_sysfs_string (serial d)) (vendor d) (product d)).

Definition is_storage (d : device) : bool :=
  bool_decide (read_sysfs_string (bDeviceClass d) = "08") || has_mass_storage_interface d.

Definition has_ids (d : device) : bool :=
  negb (str_is_empty (vendor d) || str_is_empty (product d)).

Definition get_all_local_usb_devices (fs : sysfs) : list UsbInfo :=
  (fun '(_, d) =>
     let name := or_vid_pid (read_sysfs_string (manufacturer d)) (vendor d) (product d) in
     {| perpheral_eid := device_eid d; perpheral_name := name; intro := name;
        usb_type := "usb_mass_storage"; allow := bool_decide (read_sysfs_string (authorized d) = "1") |})
  <$> retain (fun '(_, d) => has_ids d && is_storage d) fs.

(** [EID_TO_DEVICE_INFO] after the devices were listed; nothing reads it. *)
Definition update_device_cache (devices : list UsbInfo) : gmap string UsbInfo :=
  foldl (fun eid_map u => <[perpheral_eid u := u]> eid_map) ∅ devices.

(** [disable_usb_device]: by the bus and port name, five attempts. *)
Fixpoint disable_usb_device (name : string) (fs : sysfs) : bool * sysfs :=
  match fs with
  | [] => (false, [])
  | (n, d) :: fs =>
    if bool_decide (n = name) then let '(ok, d) := attempts 5 d in (ok, (n, d) :: fs)
    else let '(r, fs) := disable_usb_device name fs in (r, (n, d) :: fs)
  end.

(** [disable_device_via_sysfs]: the first entry with the identity decides; three
    attempts. *)
Fixpoint disable_device_via_sysfs (eid : string) (fs : sysfs) : bool * sysfs :=
  match fs with
  | [] => (false, [])
  | (n, d) :: fs =>
    if has_ids d && bool_decide (device_eid d = eid) then
      let '(ok, d) := attempts 3 d in (ok, (n, d) :: fs)
    else let '(r, fs) := disable_device_via_sysfs eid fs in (r, (n, d) :: fs)
  end.

Fixpoint handle_blacklist_update (blacklist_eids : list string) (fs : sysfs)
    : list string * sysfs :=
  match blacklist_eids with
  | [] => ([], fs)
  | eid :: l =>
    let '(disabled, fs) := disable_device_via_sysfs eid fs in
    let '(rest, fs) := handle_blacklist_update l fs in
    ((if disabled then eid :: rest else rest), fs)
  end.

(** ** Hot-plug *)

(** What [rusb] says of a device. *)
Record usb_device := {
  bus_number : Z;
  address : Z;
  port_numbers : option (list Z);
  descriptor_ok : bool;
  vendor_id : Z;   (** u16 *)
  product_id : Z;  (** u16 *)
  class_code : Z;
  interface_classes : option (list Z);  (** of the active configuration *)
  usb_serial : option string;
  usb_manufacturer : option string
}.

Definition sysfs_device_name (dev : usb_device) : string :=
  match default [] (port_numbers dev) with
  | [] => dec (bus_number dev)
  | ports => dec (bus_number dev) +:+ "-" +:+ join "." (dec <$> ports)
  end.

Definition is_usb_storage (dev : usb_device) : bool :=
  if class_code dev =? 8 then true
  else match interface_classes dev with
       | Some classes => existsb (fun class => class =? 8) classes
       | None => false
       end.

Record monitor := Monitor {
  lists : BlackWhiteList;
  seen_devices : list string;
  device_info_cache : gmap (Z * Z) (string * string);
  devices : sysfs;
  audit : list AuditLogInfo;  (** logs handed to a sending task *)
  signals : nat               (** hot-plug signals in the channel *)
}.

(** [{:04x}]. *)
Definition hex04x (n : Z) : string := hex02x (n / 256) +:+ hex02x (n mod 256).

(** [read_device_info_from_sysfs]: the first entry of the same model. *)
Definition read_device_info_from_sysfs (vid pid : Z) (fs : sysfs) : option (string * string) :=
  (fun '(_, d) => (or_vid_pid (read_sysfs_string (manufacturer d)) (hex04x vid) (hex04x pid),
                   or_vid_pid (read_sysfs_string (serial d)) (hex04x vid) (hex04x pid)))
  <$> List.find (fun '(_, d) => bool_decide (vendor d = hex04x vid)
                                && bool_decide (product d = hex04x pid)) fs.

Definition name_and_serial (dev : usb_device) (fs : sysfs) : string * string :=
  let vid := hex04x (vendor_id dev) in
  let pid := hex04x (product_id dev) in
  default (default ("vid" +:+ vid +:+ "_pid" +:+ pid) (usb_manufacturer dev),
           default ("vid" +:+ vid +:+ "_pid" +:+ pid) (usb_serial dev))
    (read_device_info_from_sysfs (vendor_id dev) (product_id dev) fs).

Definition usb_log (ty level now : Z) (name eid : string) : AuditLogInfo := {|
  file_path := None; rename_dir := None; exception_process := None; log_md5 := None;
  n_type := ty; n_level := level; n_time := now; notice_remark := None;
  peripheral_name := Some name; peripheral_remark := Some name; peripheral_eid := Some eid;
  p_param := None |}.

(** A device that is not on the white list: block it in protection mode, and
    report it. *)
Definition block_and_report (usb_protect : bool) (ty_report ty_block now : Z)
    (dev : usb_device) (name eid : string) (m : monitor) : monitor :=
  let '(log, fs) :=
    if usb_protect
    then (usb_log ty_block 3 now name eid, (disable_usb_device (sysfs_device_name dev) (devices m)).2)
    else (usb_log ty_report 2 now name eid, devices m) in
  Monitor (lists m) (seen_devices m) (device_info_cache m) fs (audit m ++ [log]) (signals m).

(** [try_send] on a channel of 100: a signal is dropped when it is full. *)
Definition send_signal (n : nat) : nat := if (n <? 100)%nat then S n else n.

Definition arrived_eid (dev : usb_device) (fs : sysfs) : string :=
  generate_eid (hex04x (vendor_id dev)) (hex04x (product_id dev)) (name_and_serial dev fs).2.

Definition device_arrived (usb_switch usb_protect : bool) (now : Z) (dev : usb_device)
    (m : monitor) : monitor :=
  if negb usb_switch then m
  else if negb (descriptor_ok dev) then m
  else if negb (is_usb_storage dev) then m
  else
    let name := (name_and_serial dev (devices m)).1 in
    let eid := arrived_eid dev (devices m) in
    let seen := if bool_decide (eid ∈ seen_devices m) then seen_devices m
                else seen_devices m ++ [eid] in
    let m := Monitor (lists m) seen
               (<[(bus_number dev, address dev) := (eid, name)]> (device_info_cache m))
               (devices m) (audit m) (signals m) in
    let m := match get_device_list_status (lists m) eid with
             | InWhitelist => m
             | InBlacklist => block_and_report usb_protect 9004 9006 now dev name eid m
             | NotInAnyList => block_and_report usb_protect 9003 9005 now dev name eid m
             end in
    Monitor (lists m) (seen_devices m) (device_info_cache m) (devices m) (audit m) (send_signal (signals m)).

Definition device_left (usb_switch usb_protect : bool) (now : Z) (dev : usb_device)
    (m : monitor) : monitor :=
  if negb usb_switch then m
  else
    let key := (bus_number dev, address dev) in
    let m1 := Monitor (lists m) (seen_devices m) (delete key (device_info_cache m)) (devices m)
                (audit m) (send_signal (signals m)) in
    match device_info_cache m !! key with
    | None => m1
    | Some (eid, name) =>
      let m2 := Monitor (lists m1) (retain (fun e => negb (bool_decide (e = eid))) (seen_devices m1))
                  (device_info_cache m1) (devices m1) (audit m1) (signals m1) in
      match get_device_list_status (lists m2) eid with
      | InWhitelist => m2
      | _ =>
        Monitor (lists m2) (seen_devices m2) (device_info_cache m2) (devices m2)
          (audit m2 ++ [usb_log (if usb_protect then 9007 else 9008) (if usb_protect then 3 else 2)
                          now name eid]) (signals m2)
      end
    end.

(** ** Properties *)

(** The directory entry of a port, and the entries of the others. *)
Definition entry (name : string) (fs : sysfs) : option device :=
  snd <$> List.find (fun '(n, _) => bool_decide (n = name)) fs.
Definition others (name : string) (fs : sysfs) : sysfs :=
  retain (fun '(n, _) => negb (bool_decide (n = name))) fs.

(** What [n] attempts come to: the authorization is withdrawn, and with it the
    device's interfaces, when one of them is accepted, and otherwise nothing but the patience of the driver changes. *)
Definition after_attempts (n : nat) (d : device) : device :=
  match refusals d with
  | Some k => if (k <? n)%nat then deauthorized d
              else set_authorized (authorized d) (Some (k - n)%nat) d
  | None => d
  end.

Lemma attempts_after n d : (attempts n d).2 = after_attempts n d.
Proof.
  unfold after_attempts. revert d. induction n as [|n IH]; intros d; simpl.
  - destruct d as [? ? ? ? ? ? ? [k|]]; simpl; [|done]. unfold set_authorized. simpl. by rewrite Nat.sub_0_r.
  - unfold try_deauthorize. destruct d as [? ? ? ? ? ? ? [[|k]|]]; simpl; [done| |].
    + rewrite IH. simpl. done.
    + rewrite IH. done.
Qed.

Lemma disable_entry name fs :
  entry name (disable_usb_device name fs).2 = after_attempts 5 <$> entry name fs
  /\ others name (disable_usb_device name fs).2 = others name fs.
Proof.
  unfold entry, others. induction fs as [|[n d] fs IH]; cbn [disable_usb_device]; [done|].
  destruct (bool_decide (n = name)) eqn:E.
  - pose proof (attempts_after 5 d) as Ha. destruct (attempts 5 d) as [ok d']. simpl in Ha. subst d'.
    simpl. rewrite E. done.
  - destruct (disable_usb_device name fs) as [r fs']. simpl in *. rewrite E. simpl.
    destruct IH as [-> ->]. done.
Qed.

(** C12: With USB control and protection on, a storage device that arrives is
    let alone exactly when its identity is white-listed.  Otherwise the
    authorization of its port is withdrawn unless five writes of the attribute
    are refused, no other port changes, and one alert of level 3 is handed on,
    of type 9006 for a black-listed device and 9005 for an unlisted one. *)
Theorem arrival_enforced now dev m :
  descriptor_ok dev = true -> is_usb_storage dev = true ->
  let eid := arrived_eid dev (devices m) in
  let name := (name_and_serial dev (devices m)).1 in
  let m' := device_arrived true true now dev m in
  match get_device_list_status (lists m) eid with
  | InWhitelist => devices m' = devices m /\ audit m' = audit m
  | status =>
    entry (sysfs_device_name dev) (devices m') =
      after_attempts 5 <$> entry (sysfs_device_name dev) (devices m)
    /\ others (sysfs_device_name dev) (devices m') = others (sysfs_device_name dev) (devices m)
    /\ audit m' = audit m ++ [usb_log (match status with InBlacklist => 9006 | _ => 9005 end)
                                3 now name eid]
  end.
Proof.
  intros Hd Hs. unfold device_arrived. rewrite Hd, Hs. simpl.
  destruct (disable_entry (sysfs_device_name dev) (devices m)) as [He Ho].
  destruct (get_device_list_status (lists m) _); simpl; by split_and!.
Qed.

(** *** The lists *)

Inductive list_op := WhiteList (l : list UsbInfo) | BlackList (l : list UsbInfo).

Definition update (o : list_op) (l : BlackWhiteList) : BlackWhiteList :=
  match o with WhiteList nw => update_whitelist nw l | BlackList nb => (update_blacklist nb l).1 end.

Definition lists_ok (l : BlackWhiteList) : Prop :=
  black_eids l = eids (blacklist l) /\ white_eids l = eids (whitelist l)
  /\ black_eids l ## white_eids l.

Lemma retained_disjoint s l : eids (retain (not_in s) l) ## s.
Proof.
  unfold eids. intros e He Hs. apply elem_of_list_to_set, list_elem_of_fmap in He as (u & -> & Hu).
  apply elem_of_retain in Hu as [Hu _]. unfold not_in in Hu. bool_to_prop. done.
Qed.

Lemma update_ok o l : lists_ok (update o l).
Proof.
  destruct o as [nw|nb]; split_and!; try done; simpl.
  - apply retained_disjoint.
  - symmetry. apply retained_disjoint.
Qed.

Lemma elem_of_eids u l : u ∈ l -> perpheral_eid u ∈ eids l.
Proof. intros Hu. apply elem_of_list_to_set, list_elem_of_fmap. by exists u. Qed.

(** After any sequence of list updates the identity sets are those of the
    lists and no identity is on both; and the last update wins: every device
    of a new white list is then white-listed and every device of a new black
    list black-listed, whatever was on the other list. *)
Theorem list_updates_consistent ops o u :
  u ∈ match o with WhiteList l | BlackList l => l end ->
  let l := update o (foldl (fun l o => update o l) new_lists ops) in
  lists_ok (foldl (fun l o => update o l) new_lists ops) /\ lists_ok l
  /\ get_device_list_status l (perpheral_eid u)
     = match o with WhiteList _ => InWhitelist | BlackList _ => InBlacklist end.
Proof.
  intros Hu. simpl.
  assert (lists_ok (foldl (fun l o => update o l) new_lists ops)) as Hok.
  { assert (forall l, lists_ok l -> lists_ok (foldl (fun l o => update o l) l ops)) as H.
    { induction ops as [|o' ops IH]; intros l Hl; [done|]. apply IH, update_ok. }
    apply H. by repeat split. }
  split_and!; [done|apply update_ok|]. clear Hok.
  set (l0 := foldl _ _ _). pose proof (update_ok o l0) as (_ & _ & Hdis).
  unfold get_device_list_status. destruct o as [nw|nb].
  - rewrite bool_decide_eq_false_2, bool_decide_eq_true_2; [done|by apply elem_of_eids|].
    intros H. apply (Hdis _ H). by apply elem_of_eids.
  - by rewrite bool_decide_eq_true_2 by by apply elem_of_eids.
Qed.
End usb.

Definition stick (eid : string) : UsbInfo :=
  {| perpheral_eid := eid; perpheral_name := "disk"; intro := ""; usb_type := ""; allow := true |}.

Lemma list_updates_consistent_witness :
  get_device_list_status (update (BlackList [stick "a"]) (update (WhiteList [stick "a"]) new_lists)) "a"
  = InBlacklist.
Proof.
  exact (proj2 (proj2 (list_updates_consistent [WhiteList [stick "a"]] (BlackList [stick "a"])
                         (stick "a") (list_elem_of_here _ _)))).
Defined.

Definition sample_stick : usb_device := {|
  bus_number := 1; address := 4; port_numbers := Some [2]; descriptor_ok := true; vendor_id := 1921;
  product_id := 21878; class_code := 0; interface_classes := Some [8];
  usb_serial := Some "S1"; usb_manufacturer := None |}.
Definition sample_entry : device := {|
  idVendor := Some "0781"; idProduct := Some "5576"; bDeviceClass := Some "00";
  sub_dirs := [None; Some "08"]; manufacturer := Some "Disk"; serial := Some "S1";
  authorized := Some "1"; refusals := Some 2%nat |}.
Definition sample_monitor : monitor := Monitor new_lists [] ∅ [("1-2", sample_entry)] [] 0.

Lemma arrival_enforced_witness :
  entry "1-2" (devices (device_arrived id true true 9 sample_stick sample_monitor))
    = Some (deauthorized sample_entry).
Proof.
  exact (proj1 (arrival_enforced id 9 sample_stick sample_monitor eq_refl eq_refl)).
Defined.

(** Two devices of one model have one identity: the serial number does not
    enter it. *)
Example serial_not_identifying :
  generate_eid id "0781" "5576" "S1" = generate_eid id "0781" "5576" "S2".
Proof. reflexivity. Qed.

(** Black-listing the only white-listed device empties the white list, after
    which [is_allowed] admits devices it refused before. *)
Example blacklisting_opens :
  let l := update (WhiteList [stick "a"]) new_lists in
  is_allowed l "c" = false /\ is_allowed (update (BlackList [stick "a"]) l) "c" = true.
Proof. vm_compute. split; reflexivity. Qed.
