(* ===== verification/IpAddr.v ===== *)
(** * Reading IP addresses

    [str::parse] at the types [Ipv6Addr] and [IpAddr] of the standard library:
    a reader that takes a number, a group or an embedded IPv4 address off the
    front of the text, as [core::net::parser] does. *)

From S2P Require Import Prelude RustStr.
From Stdlib Require Import Ascii.

(** The digits at the front: their value, how many there are, the rest. *)
Fixpoint take_digits (digit : ascii -> option Z) (radix acc : Z) (n : nat) (s : string)
    : Z * nat * string :=
  match s with
  | EmptyString => (acc, n, s)
  | String a s' =>
    match digit a with
    | Some d => take_digits digit radix (acc * radix + d) (S n) s'
    | None => (acc, n, s)
    end
  end.

Definition dec_digit (a : ascii) : option Z := digits_val 0 (String a "").

(** [read_number]: at least one digit, at most [max], below [bound]; a leading
    zero only where it is allowed. *)
Definition read_number (digit : ascii -> option Z) (radix : Z) (max : nat) (zero_prefix : bool)
    (bound : Z) (s : string) : option (Z * string) :=
  let '(v, n, rest) := take_digits digit radix 0 0 s in
  if bool_decide (n = 0)%nat || bool_decide (max < n)%nat then None
  else if negb zero_prefix && starts_with "0" s && bool_decide (1 < n)%nat then None
  else if v <? bound then Some (v, rest) else None.

(** [read_separator]: the separator comes before every element but the first. *)
Definition read_sep (sep : string) (i : nat) (s : string) : option string :=
  if bool_decide (i = 0)%nat then Some s else strip_prefix sep s.

Definition read_octet (i : nat) (s : string) : option (Z * string) :=
  s ← read_sep "." i s; read_number dec_digit 10 3 false 256 s.

Definition read_v4 (s : string) : option (Z * string) :=
  '(a, s) ← read_octet 0 s; '(b, s) ← read_octet 1 s;
  '(c, s) ← read_octet 2 s; '(d, s) ← read_octet 3 s;
  Some (of_octets a b c d, s).

Definition read_group (i : nat) (s : string) : option (Z * string) :=
  s ← read_sep ":" i s; read_number hex_digit_val 16 4 true 65536 s.
Definition read_embedded_v4 (i : nat) (s : string) : option (Z * string) :=
  s ← read_sep ":" i s; read_v4 s.

(** [read_groups]: up to [remaining] groups, the last two possibly an IPv4
    address; whether they were, and the rest. *)
Fixpoint read_groups (i remaining : nat) (s : string) : list Z * bool * string :=
  match remaining with
  | O => ([], false, s)
  | S r =>
    match (if bool_decide (r = 0)%nat then None else read_embedded_v4 i s) with
    | Some (a, s') => ([a / 65536; a mod 65536], true, s')
    | None =>
      match read_group i s with
      | Some (g, s') => let '(gs, v4, s'') := read_groups (S i) r s' in (g :: gs, v4, s'')
      | None => ([], false, s)
      end
    end
  end.

(** [str::parse::<Ipv6Addr>]: the eight groups. *)
Definition parse_ipv6 (s : string) : option (list Z) :=
  let '(front, v4, s1) := read_groups 0 8 s in
  let n := length front in
  if bool_decide (n = 8)%nat then (if str_is_empty s1 then Some front else None)
  else if v4 then None
  else
    s2 ← strip_prefix "::" s1;
    let '(back, _, s3) := read_groups 0 (7 - n) s2 in
    if str_is_empty s3 then Some (front ++ repeat 0 (8 - n - length back) ++ back) else None.

(** [str::parse::<IpAddr>]. *)
Inductive IpAddr := V4 (a : Z) | V6 (groups : list Z).

Definition parse_ip (s : string) : option IpAddr :=
  match parse_ipv4 s with
  | Some a => Some (V4 a)
  | None => V6 <$> parse_ipv6 s
  end.

(** [netblock::ip_policy::is_ipv6]. *)
Definition is_ipv6 (ip : string) : bool :=
  match parse_ip ip with Some (V6 _) => true | _ => false end.

Example parse_samples :
  parse_ipv6 "::1" = Some [0; 0; 0; 0; 0; 0; 0; 1]
  /\ parse_ipv6 "2001:DB8::1:0:0:a" = Some [8193; 3512; 0; 0; 1; 0; 0; 10]
  /\ parse_ipv6 "::ffff:192.168.0.1" = Some [0; 0; 0; 0; 0; 65535; 49320; 1]
  /\ parse_ipv6 "1:2:3:4:5:6:7:8" = Some [1; 2; 3; 4; 5; 6; 7; 8]
  /\ parse_ipv6 "1:2:3:4:5:6:7::" = Some [1; 2; 3; 4; 5; 6; 7; 0]
  /\ parse_ipv6 "1::2::3" = None /\ parse_ipv6 "12345::" = None /\ parse_ipv6 "1:2" = None
  /\ parse_ipv6 "1.2.3.4::" = None /\ parse_ipv6 "::" = Some (repeat 0 8)
  /\ parse_ip "10.0.0.1" = Some (V4 167772161) /\ parse_ip "10.0.0.01" = None.
Proof. vm_compute. repeat split. Qed.

(** An IPv6 address that is read has eight groups of 16 bits. *)
Lemma take_digits_nonneg digit radix :
  (forall a d, digit a = Some d -> 0 <= d) -> 0 <= radix ->
  forall s acc n, 0 <= acc -> 0 <= (take_digits digit radix acc n s).1.1.
Proof.
  intros Hd Hr. induction s as [|a s IH]; intros acc n Hacc; [done|]. simpl.
  destruct (digit a) as [d|] eqn:E; [|done]. apply IH. apply Hd in E. nia.
Qed.

Lemma hex_digit_nonneg a d : hex_digit_val a = Some d -> 0 <= d.
Proof. unfold hex_digit_val. intros E. repeat case_match; simplify_eq; bool_to_prop; lia. Qed.

Lemma read_group_uint s g s' :
  read_number hex_digit_val 16 4 true 65536 s = Some (g, s') -> is_uint 16 g.
Proof.
  unfold read_number.
  pose proof (take_digits_nonneg hex_digit_val 16 hex_digit_nonneg) as Hpos.
  specialize (Hpos ltac:(lia) s 0 0%nat ltac:(lia)).
  destruct (take_digits _ _ _ _ s) as [[v n] rest]. simpl in *. intros E.
  repeat case_match; simplify_eq; bool_to_prop; unfold is_uint; lia.
Qed.

Lemma dec_digit_nonneg a d : dec_digit a = Some d -> 0 <= d.
Proof. unfold dec_digit. simpl. intros (n & _ & E)%bind_Some. simplify_eq. lia. Qed.

Lemma read_octet_uint i s v s' : read_octet i s = Some (v, s') -> is_uint 8 v.
Proof.
  unfold read_octet, read_number. intros (s1 & _ & E)%bind_Some.
  pose proof (take_digits_nonneg dec_digit 10 dec_digit_nonneg ltac:(lia) s1 0 0%nat ltac:(lia))
    as Hpos.
  destruct (take_digits _ _ _ _ s1) as [[w n] rest]. simpl in *.
  repeat case_match; simplify_eq; bool_to_prop; unfold is_uint; lia.
Qed.

Lemma read_v4_uint s a s' : read_v4 s = Some (a, s') -> is_uint 32 a.
Proof.
  unfold read_v4. intros ([a1 s1] & H1%read_octet_uint & E)%bind_Some.
  apply bind_Some in E as ([a2 s2] & H2%read_octet_uint & E).
  apply bind_Some in E as ([a3 s3] & H3%read_octet_uint & E).
  apply bind_Some in E as ([a4 s4] & H4%read_octet_uint & E). simplify_eq.
  by apply of_octets_uint.
Qed.

Lemma read_groups_ok r : forall i s,
  Forall (is_uint 16) (read_groups i r s).1.1 /\ (length (read_groups i r s).1.1 <= r)%nat.
Proof.
  induction r as [|r IH]; intros i s; [by split|]. simpl.
  destruct (if bool_decide (r = 0%nat) then _ else _) as [[a s']|] eqn:E4.
  { case_bool_decide; [done|]. apply bind_Some in E4 as (s1 & _ & Ha%read_v4_uint).
    unfold is_uint in Ha. simpl. split; [|lia].
    repeat apply Forall_cons_2; [| |constructor]; unfold is_uint;
      change (2 ^ 16) with 65536; change (2 ^ 32) with 4294967296 in Ha.
    - split; [apply Z.div_pos; lia|apply Z.div_lt_upper_bound; lia].
    - apply Z.mod_pos_bound. lia. }
  destruct (read_group i s) as [[g s']|] eqn:Eg; [|simpl; split; [constructor|lia]].
  apply bind_Some in Eg as (s1 & _ & Hg%read_group_uint).
  destruct (IH (S i) s') as [Hall Hlen]. destruct (read_groups (S i) r s') as [[gs v4] s''].
  simpl in *. split; [by constructor|lia].
Qed.

Lemma parse_ipv6_ok s g : parse_ipv6 s = Some g -> length g = 8%nat /\ Forall (is_uint 16) g.
Proof.
  unfold parse_ipv6. intros E.
  destruct (read_groups_ok 8 0 s) as [H1 L1]. destruct (read_groups 0 8 s) as [[front v4] s1].
  simpl in H1, L1. case_bool_decide as Hn; [case_match; by simplify_eq|].
  destruct v4; [done|]. apply bind_Some in E as (s2 & _ & E).
  destruct (read_groups_ok (7 - length front) 0 s2) as [H2 L2].
  destruct (read_groups 0 (7 - length front) s2) as [[back b] s3]. simpl in H2, L2.
  case_match; [|done]. simplify_eq. rewrite !length_app, repeat_length. split; [lia|].
  apply Forall_app. split; [done|]. apply Forall_app. split; [|done].
  apply Forall_forall. intros x Hx%list_elem_of_In%repeat_spec. by subst.
Qed.
