(* ===== verification/NetInfo.v ===== *)
(** * The agent's configuration

    [crates/config/src/net_info.rs]: the settings record, its rendering as an
    INI file and the reading of that file at start-up, when the decoy-port
    switch is passed on to the kernel and the main interface is looked up.
    The INI parser is the third-party crate [configparser]: a loaded file is
    the function that answers [get(section, key)]. *)

From S2P Require Import Prelude RustStr Bytes Json IpAddr Shell Host.
From Stdlib Require Import Ascii.

Record NetInfoConfig := {
  app_path : string;
  mid : string;
  ver : string;
  com_time : Z;
  cron_time : Z;
  extortion_protect : bool;
  extortion_switch : bool;
  self_protect_switch : bool;
  fast_time : Z;
  file_protect : bool;
  file_switch : bool;
  dynamic_switch : bool;
  log_ip_port : option string;
  log_proto : Z;
  log_sent : Z;
  cli_port : Z;
  module_switch : Z;
  open_port_switch : bool;
  proc_protect : bool;
  proc_switch : bool;
  scan_file_time : Z;
  scan_proc_time : Z;
  server_ip_port : string;
  server_ip : string;
  server_port : Z;
  usb_protect : bool;
  usb_switch : bool;
  syslog_dns_switch : bool;
  syslog_outer_switch : bool;
  syslog_inner_switch : bool;
  syslog_process_switch : bool;
  syslog_login_switch : bool;
  internet_switch : bool;
  baseline_switch : bool;
  baseline_time : Z;
  outreach_switch : bool;
  outreach_time : Z;
  hardware_switch : bool;
  hardware_time : Z;
  user_id : string;
  dev_uid : string;
  macid : string;
  ips : string;
  ifcfg : string;
  os : string;
  memsize : string;
  cpu : string;
  hdsize : string;
  auth : string;
  host_name : string;
  mod_ver : string;
  arch_type : Z;          (* u8 *)
  is_offline_mode : bool
}.

(** [u32] fields hold a [u32]. *)
Definition config_typed (c : NetInfoConfig) : Prop :=
  Forall (is_uint 32)
    [com_time c; cron_time c; fast_time c; log_proto c; log_sent c; cli_port c; module_switch c;
     scan_file_time c; scan_proc_time c; server_port c; baseline_time c; outreach_time c;
     hardware_time c] /\ is_uint 8 (arch_type c).

(** ** Writing the file *)

Definition flag_digit (b : bool) : string := if b then "1" else "0".

(** Section by section, the lines of [to_ini] in their order. *)
Definition ini_sections (c : NetInfoConfig) : list (string * list (string * string)) :=
  [("CLIENTINFO", [("MID", mid c)]);
   ("SERVERINFO",
     [("USER_ID", user_id c);
      ("COMTIME", dec (com_time c));
      ("CRONTIME", dec (cron_time c));
      ("EXTORTION_PROTECT", flag_digit (extortion_protect c));
      ("EXTORTION_SWITCH", flag_digit (extortion_switch c));
      ("SELF_PROTECT_SWITCH", flag_digit (self_protect_switch c));
      ("FASTTIME", dec (fast_time c));
      ("FILE_PROTECT", flag_digit (file_protect c));
      ("FILE_SWITCH", flag_digit (file_switch c));
      ("LOGIPPORT", default "" (log_ip_port c));
      ("LOGPROTO", dec (log_proto c));
      ("LOGSENT", dec (log_sent c));
      ("CLI_SERVER_PORT", dec (cli_port c));
      ("MODULE_SWITCH", dec (module_switch c));
      ("OPEN_PORT_SWITCH", flag_digit (open_port_switch c));
      ("PROC_PROTECT", flag_digit (proc_protect c));
      ("PROC_SWITCH", flag_digit (proc_switch c));
      ("DYNAMIC_SWITCH", flag_digit (dynamic_switch c));
      ("SCANFILETIME", dec (scan_file_time c));
      ("SCANPROCTIME", dec (scan_proc_time c));
      ("SERVERIPPORT", server_ip_port c);
      ("SERVER_IP", server_ip c);
      ("SERVER_PORT", dec (server_port c));
      ("USB_PROTECT", flag_digit (usb_protect c));
      ("USB_SWITCH", flag_digit (usb_switch c));
      ("DNS_SWITCH", flag_digit (syslog_dns_switch c));
      ("INTERNAL_COMMUNICATION_SWITCH", flag_digit (syslog_inner_switch c));
      ("EXTERNAL_COMMUNICATION_SWITCH", flag_digit (syslog_outer_switch c));
      ("SYSLOG_PROCESS_SWITCH", flag_digit (syslog_process_switch c));
      ("SYSLOG_LOGIN_SWITCH", flag_digit (syslog_login_switch c));
      ("INTERNET_SWITCH", flag_digit (internet_switch c));
      ("OFFLINE_MODE", flag_digit (is_offline_mode c));
      ("BASELINE_SWITCH", flag_digit (baseline_switch c));
      ("BASELINE_TIME", dec (baseline_time c));
      ("HARDWARE_SWITCH", flag_digit (hardware_switch c));
      ("HARDWARE_TIME", dec (hardware_time c));
      ("OUTREACH_SWITCH", flag_digit (outreach_switch c));
      ("OUTREACH_TIME", dec (outreach_time c));
      ("VERSION", ver c)]);
   ("HOSTINFO",
     [("DEV_UID", dev_uid c);
      ("MACID", macid c);
      ("CPU", cpu c);
      ("AUTH", auth c);
      ("HOSTNAME", host_name c)])].

(** The lines of a file, and the text [writeln!] makes of them. *)
Definition ini_lines (secs : list (string * list (string * string))) : list string :=
  secs ≫= fun '(name, kvs) =>
    ("[" +:+ name +:+ "]") :: ((fun '(k, v) => k +:+ "=" +:+ v) <$> kvs).
Definition ini_text (c : NetInfoConfig) : string := unlines (ini_lines (ini_sections c)).

Section config.
Context {W : Type} `{Os W} `{Files W}.
(** [dev\s+(\S+)] on a line of [ip route get]. *)
Context (dev_re : string -> option string).

Definition to_ini (file_name : string) (c : NetInfoConfig) : io (host W) (result string unit) :=
  write_out (WriteFile file_name (ini_text c)).

(** ** Rules for the kernel *)

Inductive NetRule :=
| ServerIpV4 (ip : string)
| ServerPort (port : Z)
| LogIpPort (log_ip_port : string)
| VirtualOpenPort (open_port_state : bool).

Definition ip_str_to_u32 (ip : string) : result string Z :=
  ok_or "invalid IPv4 address syntax" (parse_ipv4 ip).

Definition NET_RULES : string := "/proc/osec/net_rules".

(** [format!("{} {}\n", rule_type, value)]. *)
Definition rule_line (rule_type value : string) : string :=
  rule_type +:+ " " +:+ value +:+ String line_feed "".

Definition write_raw (rule_type value : string) : io (host W) (result string unit) :=
  with_err (fun e => "Failed to write to /proc/osec/net_rules: " +:+ e)
    (write_out (WriteFile NET_RULES (rule_line rule_type value))).

Definition write_net_rule (rule : NetRule) : io (host W) (result string unit) :=
  match rule with
  | ServerIpV4 ip =>
    match ip_str_to_u32 ip with
    | Ok n => write_raw "server_ipv4 " (dec n)
    | Err e => mret (Err e)
    end
  | ServerPort port => write_raw "server_port " (dec port)
  | LogIpPort s => write_raw "log_ip_port " s
  | VirtualOpenPort b => write_raw "vir_open_port_switch " (if b then "1" else "0")
  end.

(** ** Looking up the main interface *)

(** The variant of [run_cmd_capture] of this crate: other texts, trimmed output. *)
Definition run_cmd_capture (cmd : string) (argv : list string) : io (host W) (result string string) :=
  on_shell (fun s =>
    match exec (Cmd cmd argv) s with
    | (Err e, s) => (Err ("Failed to execute " +:+ cmd +:+ ": " +:+ e), s)
    | (Ok o, s) =>
      if success o then (Ok (trim (from_utf8_lossy (stdout o))), s)
      else (Err ("Command " +:+ cmd +:+ " failed with status " +:+ status_text o +:+ ": "
                 +:+ from_utf8_lossy (stderr o)), s)
    end).

Definition get_main_interface (ip : string) : io (host W) (result string string) :=
  let? out := with_err (fun e => "ip route get " +:+ ip +:+ " failed: " +:+ e)
                (run_cmd_capture "ip" ["route"; "get"; ip]) in
  let iface line := i ← dev_re line; if bool_decide (i = "lo") then None else Some i in
  mret (ok_or ("No valid interface found for server_ip " +:+ ip) (head (omap iface (lines out)))).

Definition strip_scheme (input : string) : string :=
  match strip_prefix "http://" input with
  | Some s => s
  | None => default input (strip_prefix "https://" input)
  end.

(** The host part: inside brackets, or up to the first colon. *)
Definition host_part (s : string) : string :=
  match s with
  | String "[" rest => match split_once "]"%char rest with Some (h, _) => h | None => s end
  | _ => default s (head (split_char ":"%char s))
  end.

Definition extract_ip (input : string) : option string :=
  let h := host_part (strip_scheme input) in
  match parse_ip h with Some _ => Some h | None => None end.

(** ** Reading the file *)

Abbreviation ini := (string -> string -> option string).

Definition is_one (v : string) : bool := bool_decide (trim v = "1").

Definition ini_flag (i : ini) (k : string) : bool :=
  match i "SERVERINFO" k with Some v => is_one v | None => false end.
Definition ini_u32 (i : ini) (k : string) : Z :=
  match i "SERVERINFO" k with Some v => default 0 (parse_uint 32 v) | None => 0 end.
Definition ini_str (i : ini) (sec k : string) : string := default "" (i sec k).

Definition main_interface (ip : string) : io (host W) string :=
  if str_is_empty ip then mret ""
  else
    r ← get_main_interface (default ip (extract_ip ip));
    mret (match r with Ok iface => iface | Err _ => "eth0" end).

Definition from_ini (i : ini) : io (host W) NetInfoConfig :=
  _ ← match i "SERVERINFO" "OPEN_PORT_SWITCH" with
      | Some v => ignore (write_net_rule (VirtualOpenPort (is_one v)))
      | None => mret tt
      end;
  iface ← match i "SERVERINFO" "SERVER_IP" with
          | Some ip => main_interface ip
          | None => mret ""
          end;
  mret {|
    app_path := "";
    mid := ini_str i "CLIENTINFO" "MID";
    ver := default "3.0.1_R4_B1" (i "SERVERINFO" "VERSION");
    com_time := ini_u32 i "COMTIME";
    cron_time := ini_u32 i "CRONTIME";
    extortion_protect := ini_flag i "EXTORTION_PROTECT";
    extortion_switch := ini_flag i "EXTORTION_SWITCH";
    self_protect_switch := ini_flag i "SELF_PROTECT_SWITCH";
    fast_time := ini_u32 i "FASTTIME";
    file_protect := ini_flag i "FILE_PROTECT";
    file_switch := ini_flag i "FILE_SWITCH";
    dynamic_switch := ini_flag i "DYNAMIC_SWITCH";
    log_ip_port := i "SERVERINFO" "LOGIPPORT";
    log_proto := ini_u32 i "LOGPROTO";
    log_sent := ini_u32 i "LOGSENT";
    cli_port := ini_u32 i "CLI_SERVER_PORT";
    module_switch := ini_u32 i "MODULE_SWITCH";
    open_port_switch := ini_flag i "OPEN_PORT_SWITCH";
    proc_protect := ini_flag i "PROC_PROTECT";
    proc_switch := ini_flag i "PROC_SWITCH";
    scan_file_time := ini_u32 i "SCANFILETIME";
    scan_proc_time := ini_u32 i "SCANPROCTIME";
    server_ip_port := ini_str i "SERVERINFO" "SERVERIPPORT";
    server_ip := ini_str i "SERVERINFO" "SERVER_IP";
    server_port := ini_u32 i "SERVER_PORT";
    usb_protect := ini_flag i "USB_PROTECT";
    usb_switch := ini_flag i "USB_SWITCH";
    syslog_dns_switch := ini_flag i "DNS_SWITCH";
    syslog_outer_switch := ini_flag i "EXTERNAL_COMMUNICATION_SWITCH";
    syslog_inner_switch := ini_flag i "INTERNAL_COMMUNICATION_SWITCH";
    syslog_process_switch := ini_flag i "SYSLOG_PROCESS_SWITCH";
    syslog_login_switch := ini_flag i "SYSLOG_LOGIN_SWITCH";
    internet_switch := ini_flag i "INTERNET_SWITCH";
    baseline_switch := ini_flag i "BASELINE_SWITCH";
    baseline_time := ini_u32 i "BASELINE_TIME";
    outreach_switch := ini_flag i "OUTREACH_SWITCH";
    outreach_time := ini_u32 i "OUTREACH_TIME";
    hardware_switch := ini_flag i "HARDWARE_SWITCH";
    hardware_time := ini_u32 i "HARDWARE_TIME";
    user_id := ini_str i "SERVERINFO" "USER_ID";
    dev_uid := ini_str i "HOSTINFO" "DEV_UID";
    macid := ini_str i "HOSTINFO" "MACID";
    ips := ini_str i "HOSTINFO" "IPS";
    ifcfg := iface;
    os := ini_str i "HOSTINFO" "OS";
    memsize := ini_str i "HOSTINFO" "MEMSIZE";
    cpu := ini_str i "HOSTINFO" "CPU";
    hdsize := ini_str i "HOSTINFO" "HDSIZE";
    auth := ini_str i "HOSTINFO" "AUTH";
    host_name := ini_str i "HOSTINFO" "HOSTNAME";
    mod_ver := "";
    arch_type := 0;
    is_offline_mode := ini_flag i "OFFLINE_MODE"
  |}.
End config.

(** ** Facts about the host

    What the functions of [hostinfo] return; an error is replaced by the text
    the code has for it. *)
Record host_facts := Facts {
  mgs_guid : option string;
  mac_found : option string;
  computer_name : option string;
  computer_version : option string;
  cpu_cores : option string;
  memory_size : option string;
  disk_size : option string;
  ip_found : option string
}.

(** A field that is set is kept; only [dev_uid] is always taken afresh. *)
Definition fill (old : string) (fact : option string) (unknown : string) : string :=
  if str_is_empty old then default unknown fact else old.

Definition acquire_host_info (f : host_facts) (c : NetInfoConfig) : NetInfoConfig := {|
  app_path := app_path c; mid := mid c; ver := ver c; com_time := com_time c;
  cron_time := cron_time c; extortion_protect := extortion_protect c;
  extortion_switch := extortion_switch c; self_protect_switch := self_protect_switch c;
  fast_time := fast_time c; file_protect := file_protect c; file_switch := file_switch c;
  dynamic_switch := dynamic_switch c; log_ip_port := log_ip_port c; log_proto := log_proto c;
  log_sent := log_sent c; cli_port := cli_port c; module_switch := module_switch c;
  open_port_switch := open_port_switch c; proc_protect := proc_protect c;
  proc_switch := proc_switch c; scan_file_time := scan_file_time c;
  scan_proc_time := scan_proc_time c; server_ip_port := server_ip_port c;
  server_ip := server_ip c; server_port := server_port c; usb_protect := usb_protect c;
  usb_switch := usb_switch c; syslog_dns_switch := syslog_dns_switch c;
  syslog_outer_switch := syslog_outer_switch c; syslog_inner_switch := syslog_inner_switch c;
  syslog_process_switch := syslog_process_switch c; syslog_login_switch := syslog_login_switch c;
  internet_switch := internet_switch c; baseline_switch := baseline_switch c;
  baseline_time := baseline_time c; outreach_switch := outreach_switch c;
  outreach_time := outreach_time c; hardware_switch := hardware_switch c;
  hardware_time := hardware_time c; user_id := user_id c;
  dev_uid := default "unknown" (mgs_guid f);
  macid := fill (macid c) (mac_found f) "unknown";
  ips := fill (ips c) (ip_found f) "unknown";
  ifcfg := ifcfg c;
  os := fill (os c) (computer_version f) "Unknown";
  memsize := fill (memsize c) (memory_size f) "Unknown";
  cpu := fill (cpu c) (cpu_cores f) "Unknown";
  hdsize := fill (hdsize c) (disk_size f) "Unknown";
  auth := if str_is_empty (auth c) then "123123" else auth c;
  host_name := fill (host_name c) (computer_name f) "Unknown";
  mod_ver := mod_ver c; arch_type := arch_type c; is_offline_mode := is_offline_mode c
|}.

(** ** Reading back what was written

    [configparser] reads a file of sections and [KEY=VALUE] lines; [Ini::new]
    compares names without case, values are trimmed, [;] and [#] start a
    comment.  The law is about files whose names are in capitals and whose
    values have none of those, and about any names of ASCII that are asked for. *)

Definition upper_char (a : ascii) : bool :=
  ((65 <=? ascii_code a) && (ascii_code a <=? 90)) || bool_decide (a = "_"%char).
Fixpoint str_all (p : ascii -> bool) (s : string) : bool :=
  match s with EmptyString => true | String a s => p a && str_all p s end.
Definition upper_name (s : string) : bool := negb (str_is_empty s) && str_all upper_char s.
Definition clean_value (s : string) : Prop :=
  trim s = s /\ single_line s /\ str_mem ";"%char s = false /\ str_mem "#"%char s = false.

Definition ini_ok (secs : list (string * list (string * string))) : Prop :=
  NoDup secs.*1 /\
  Forall (fun '(name, kvs) => upper_name name = true /\ NoDup kvs.*1
            /\ Forall (fun '(k, v) => upper_name k = true /\ clean_value v) kvs) secs.

Definition ascii_name (s : string) : bool := str_all (fun a => ascii_code a <? 128) s.

Definition same_name (a b : string) : bool := bool_decide (to_lowercase a = to_lowercase b).
Definition find_named {A} (k : string) (l : list (string * A)) : option A :=
  snd <$> List.find (fun p => same_name p.1 k) l.
Definition ini_find (secs : list (string * list (string * string))) (s k : string)
    : option string := kvs ← find_named s secs; find_named k kvs.

Class IniParser (load : string -> string -> string -> option string) : Prop :=
  load_written secs s k :
    ini_ok secs -> ascii_name s = true -> ascii_name k = true ->
    load (unlines (ini_lines secs)) s k = ini_find secs s k.

(** Of names in capitals the case tells nothing. *)
Definition ini_lookup (secs : list (string * list (string * string))) (s k : string)
    : option string := kvs ← assoc s secs; assoc k kvs.

Lemma lower_upper_char a b : upper_char a = true -> upper_char b = true -> ascii_lower a = ascii_lower b -> a = b.
Proof.
  set (back a := if (97 <=? ascii_code a) && (ascii_code a <=? 122) then ascii_of_N (Z.to_N (ascii_code a - 32)) else a).
  assert (forall a, upper_char a = true -> back (ascii_lower a) = a) as Hb.
  { intros [[] [] [] [] [] [] [] []]; by vm_compute. }
  intros Ha Hb' E. by rewrite <- (Hb a Ha), E, Hb.
Qed.

Lemma same_upper a b : upper_name a = true -> upper_name b = true -> same_name a b = bool_decide (a = b).
Proof.
  unfold upper_name. intros [_ Ha]%andb_true_iff [_ Hb]%andb_true_iff.
  apply bool_decide_ext. split; [|by intros ->]. revert b Hb.
  induction a as [|x a IH]; intros [|y b] Hb; try done. simpl in *. apply andb_true_iff in Ha as [Hx Ha], Hb as [Hy Hb].
  intros [= Exy E]. f_equal; [by apply lower_upper_char|by apply IH].
Qed.

Lemma upper_ascii s : upper_name s = true -> ascii_name s = true.
Proof.
  unfold upper_name, ascii_name. intros [_ Hs]%andb_true_iff. induction s as [|a s IH]; [done|]. simpl in *.
  apply andb_true_iff in Hs as [Ha Hs]. apply andb_true_iff. split; [|by apply IH].
  clear -Ha. destruct a as [[] [] [] [] [] [] [] []]; by vm_compute in *.
Qed.

Lemma find_named_upper {A} k (l : list (string * A)) :
  upper_name k = true -> Forall (fun p => upper_name p.1 = true) l -> find_named k l = assoc k l.
Proof.
  intros Hk Hl. unfold find_named, assoc. f_equal. induction Hl as [|[k' v] l Hk' Hl IH]; [done|]. simpl.
  rewrite same_upper by done. by rewrite IH.
Qed.

Lemma assoc_elem {A} k (l : list (string * A)) v : assoc k l = Some v -> (k, v) ∈ l.
Proof.
  unfold assoc. destruct (List.find _ l) as [[k' v']|] eqn:E; [|done]. intros [= <-].
  apply List.find_some in E as [Hin Hb]. apply bool_decide_eq_true_1 in Hb as <-. by apply list_elem_of_In.
Qed.

Lemma ini_find_upper secs s k :
  ini_ok secs -> upper_name s = true -> upper_name k = true -> ini_find secs s k = ini_lookup secs s k.
Proof.
  intros [_ Hall] Hs Hk. unfold ini_find, ini_lookup.
  rewrite find_named_upper; [|done|eapply Forall_impl; [exact Hall|]; by intros [] [? _]].
  destruct (assoc s secs) as [kvs|] eqn:E; [|done]. simpl.
  apply assoc_elem in E. rewrite Forall_forall in Hall. apply Hall in E as (_ & _ & Hkv).
  apply find_named_upper; [done|]. eapply Forall_impl; [exact Hkv|]. by intros [] [? _].
Qed.

Lemma load_upper load `{!IniParser load} secs s k :
  ini_ok secs -> upper_name s = true -> upper_name k = true ->
  load (unlines (ini_lines secs)) s k = ini_lookup secs s k.
Proof. intros Hok Hs Hk. rewrite load_written by auto using upper_ascii. by apply ini_find_upper. Qed.

(** *** What is kept across a restart *)

Definition flags_kept (c : NetInfoConfig) : list bool :=
  [extortion_protect c; extortion_switch c; self_protect_switch c; file_protect c; file_switch c;
   dynamic_switch c; open_port_switch c; proc_protect c; proc_switch c; usb_protect c;
   usb_switch c; syslog_dns_switch c; syslog_outer_switch c; syslog_inner_switch c;
   syslog_process_switch c; syslog_login_switch c; internet_switch c; baseline_switch c;
   outreach_switch c; hardware_switch c; is_offline_mode c].
Definition numbers_kept (c : NetInfoConfig) : list Z :=
  [com_time c; cron_time c; fast_time c; log_proto c; log_sent c; cli_port c; module_switch c;
   scan_file_time c; scan_proc_time c; server_port c; baseline_time c; outreach_time c;
   hardware_time c].
Definition strings_kept (c : NetInfoConfig) : list string :=
  [mid c; ver c; default "" (log_ip_port c); server_ip_port c; server_ip c; user_id c; dev_uid c;
   macid c; cpu c; auth c; host_name c].
Definition strings_lost (c : NetInfoConfig) : list string :=
  [app_path c; ips c; os c; memsize c; hdsize c; mod_ver c].

Definition config_clean (c : NetInfoConfig) : Prop := Forall clean_value (strings_kept c).

Lemma clean_dec n : clean_value (dec n).
Proof.
  split; [apply trim_id, no_space_dec|]. unfold single_line. by rewrite !dec_mem.
Qed.

Lemma clean_flag b : clean_value (flag_digit b).
Proof. by destruct b. Qed.

Lemma ini_sections_ok c : config_clean c -> ini_ok (ini_sections c).
Proof.
  intros Hc. unfold config_clean, strings_kept in Hc. rewrite !Forall_cons in Hc.
  destruct_and! Hc. split; [by_decide|].
  repeat apply Forall_cons_2; [..|constructor]; (split_and!; [reflexivity|by_decide|]);
    (repeat apply Forall_cons_2; [..|constructor]); (split; [reflexivity|]);
    auto using clean_dec, clean_flag.
Qed.

Lemma ini_flag_read i k b :
  i "SERVERINFO" k = Some (flag_digit b) -> ini_flag i k = b.
Proof. unfold ini_flag. intros ->. by destruct b. Qed.

Lemma ini_u32_read i k n :
  i "SERVERINFO" k = Some (dec n) -> is_uint 32 n -> ini_u32 i k = n.
Proof. unfold ini_u32. intros -> Hn. by rewrite parse_uint_dec. Qed.

Section restart.
Context {W : Type} `{Os W} `{Files W} (dev_re : string -> option string).
Context (load : string -> string -> string -> option string) `{!IniParser load}.

Definition same_written (h h' : host W) : Prop := h_written h' = h_written h.

#[local] Instance same_written_preorder : PreOrder same_written.
Proof. split; [done|]. intros h1 h2 h3 E1 E2. unfold same_written in *. congruence. Qed.

Lemma on_shell_same {A} (m : io (shell W) A) : keeps same_written (on_shell m).
Proof. intros h. unfold on_shell. by destruct (m (h_shell h)). Qed.

Lemma main_interface_same ip : keeps same_written (main_interface (W:=W) dev_re ip).
Proof.
  assert (forall cmd argv, keeps same_written (run_cmd_capture (W:=W) cmd argv))
    by (intros; apply on_shell_same).
  unfold main_interface, get_main_interface. keeps_auto.
Qed.

Lemma virtual_open_written b (h : host W) :
  exists t, h_written (write_net_rule (VirtualOpenPort b) h).2 = h_written h ++ t
    /\ (t = [] \/ t = [WriteFile NET_RULES (rule_line "vir_open_port_switch " (flag_digit b))]).
Proof.
  unfold write_net_rule, write_raw, with_err. set (w := WriteFile _ _).
  pose proof (write_out_written w h) as Hw. destruct (write_out w h) as [[[]|e] h']; simpl in *.
  - exists [w]. split; [done|]. right. by destruct b.
  - exists []. rewrite app_nil_r. auto.
Qed.

(** C30: for a parser that reads names without case (the law [IniParser]): a
    configuration whose numbers fit 32 bits and whose 11 texts have no line
    break, no [;] or [#] and no blanks around them, written by [to_ini] and read
    by [from_ini], comes back: all 21 switches, all 13 numbers and the 11 texts
    of the file.  What the file
    has no line for (host facts and the module version) comes back empty, and
    an absent log server comes back as a present, empty one.  Reading writes at
    most one thing to the kernel, the decoy-port switch. *)
Theorem config_roundtrip c (h : host W) :
  config_typed c -> config_clean c ->
  let '(c', h') := from_ini dev_re (load (ini_text c)) h in
  flags_kept c' = flags_kept c /\ numbers_kept c' = numbers_kept c
  /\ strings_kept c' = strings_kept c
  /\ Forall (fun s => s = "") (strings_lost c')
  /\ log_ip_port c' = Some (default "" (log_ip_port c))
  /\ exists t, h_written h' = h_written h ++ t
     /\ (t = [] \/ t = [WriteFile NET_RULES
                          (rule_line "vir_open_port_switch " (flag_digit (open_port_switch c)))]).
Proof.
  intros [Hn _] Hc.
  assert (forall s k, upper_name s = true -> upper_name k = true ->
            load (ini_text c) s k = ini_lookup (ini_sections c) s k) as Hl.
  { intros s k. by apply load_upper, ini_sections_ok, Hc. }
  set (i := load (ini_text c)) in *.
  rewrite !Forall_cons in Hn. destruct_and! Hn.
  unfold from_ini, mbind, io_bind. rewrite !Hl by reflexivity.
  change (ini_lookup (ini_sections c) "SERVERINFO" "OPEN_PORT_SWITCH")
    with (Some (flag_digit (open_port_switch c))).
  change (ini_lookup (ini_sections c) "SERVERINFO" "SERVER_IP") with (Some (server_ip c)).
  unfold ignore.
  destruct (main_interface dev_re (server_ip c) _) as [iface h2] eqn:E2.
  simpl. split_and!.
  - unfold flags_kept; simpl. repeat f_equal; apply ini_flag_read; rewrite Hl by reflexivity; reflexivity.
  - unfold numbers_kept; simpl. repeat f_equal; apply ini_u32_read; try done; rewrite Hl by reflexivity; reflexivity.
  - unfold strings_kept, ini_str; simpl. rewrite !Hl by reflexivity. reflexivity.
  - unfold strings_lost, ini_str; simpl. rewrite !Hl by reflexivity. by repeat constructor.
  - reflexivity.
  - apply (keeps_run _ _ _ _ _ (main_interface_same _)) in E2. rewrite E2.
    replace (is_one (flag_digit (open_port_switch c))) with (open_port_switch c)
      by by destruct (open_port_switch c).
    apply virtual_open_written.
Qed.
End restart.

Lemma upper_name_mem c s : upper_name s = true -> upper_char c = false -> str_mem c s = false.
Proof.
  unfold upper_name. intros [_ Hs]%andb_true_iff Hc.
  induction s as [|a s IH]; [done|]. simpl in *. apply andb_true_iff in Hs as [Ha Hs].
  rewrite IH by done. case_bool_decide; [congruence|done].
Qed.

Lemma name_no_bracket s t : upper_name s = true -> strip_prefix "[" (s +:+ t) = None.
Proof.
  intros Hs. pose proof (upper_name_mem "["%char s Hs eq_refl) as Hm.
  destruct s as [|a s]; [done|]. rewrite str_app_cons. simpl in *.
  apply orb_false_iff in Hm as [Ha _]. apply bool_decide_eq_false_1 in Ha.
  rewrite bool_decide_eq_false_2 by congruence. done.
Qed.

Lemma name_single s : upper_name s = true -> single_line s.
Proof. intros Hs. split; by apply (upper_name_mem _ _ Hs). Qed.

Lemma ini_lines_single secs : ini_ok secs -> Forall single_line (ini_lines secs).
Proof.
  intros [_ Hall]. induction Hall as [|[name kvs] secs (Hn & _ & Hkv) Hall IH]; [constructor|].
  unfold ini_lines. cbn [mbind list_bind]. apply Forall_app. split; [|exact IH].
  apply name_single in Hn as [H1 H2]. constructor.
  - split; rewrite !str_mem_app, ?H1, ?H2; done.
  - apply Forall_fmap. eapply Forall_impl; [exact Hkv|]. intros [k v] [Hk (_ & [V1 V2] & _)].
    apply name_single in Hk as [K1 K2].
    split; simpl; rewrite !str_mem_app, ?K1, ?K2, ?V1, ?V2; done.
Qed.

(** ** A parser that satisfies the law

    Sections, [KEY=VALUE] lines, names without case, trimmed values. *)

Module DemoIni.
Fixpoint scan (cur : string) (ls : list string) (s k : string) : option string :=
  match ls with
  | [] => None
  | line :: ls =>
    match strip_prefix "[" line, split_once "="%char line with
    | Some rest, _ =>
      scan (match split_once "]"%char rest with Some (name, _) => name | None => rest end) ls s k
    | None, Some (k', v) =>
      if same_name cur s && same_name k' k then Some (trim v) else scan cur ls s k
    | None, None => scan cur ls s k
    end
  end.

Definition load (text s k : string) : option string := scan "" (lines text) s k.

Lemma scan_keys cur kvs rest s k :
  Forall (fun '(k, v) => upper_name k = true /\ clean_value v) kvs ->
  scan cur (((fun '(k, v) => k +:+ "=" +:+ v) <$> kvs) ++ rest) s k =
    match (if same_name cur s then find_named k kvs else None) with
    | Some v => Some v
    | None => scan cur rest s k
    end.
Proof.
  induction 1 as [|[k' v] kvs [Hk Hv] Hl IH]; [by destruct (same_name cur s)|].
  rewrite fmap_cons. cbn [app scan].
  rewrite (name_no_bracket _ _ Hk).
  change (k' +:+ "=" +:+ v) with (k' +:+ String "="%char v).
  rewrite split_once_app by by apply (upper_name_mem _ _ Hk).
  destruct Hv as (Ht & _). rewrite Ht, IH. unfold find_named. cbn [List.find fst].
  destruct (same_name cur s); simpl; [|done]. by destruct (same_name k' k).
Qed.

Lemma find_named_cons {A} k k' (v : A) l :
  find_named k ((k', v) :: l) = if same_name k' k then Some v else find_named k l.
Proof. unfold find_named. simpl. by destruct (same_name k' k). Qed.

(** A name in capitals that is no other's is found under no other. *)
Lemma find_named_None {A} name s (l : list (string * A)) :
  upper_name name = true -> name ∉ l.*1 -> Forall (fun p => upper_name p.1 = true) l ->
  same_name name s = true -> find_named s l = None.
Proof.
  intros Hn Hnew Hl Hs. unfold find_named. destruct (List.find _ l) as [[k v]|] eqn:E; [|done].
  apply List.find_some in E as [Hin Hb]. apply list_elem_of_In in Hin. rewrite Forall_forall in Hl.
  pose proof (Hl _ Hin) as Hk. simpl in Hk, Hb. apply bool_decide_eq_true in Hb, Hs.
  assert (same_name name k = true) as Hnk by (apply bool_decide_eq_true; congruence).
  rewrite same_upper in Hnk by done. apply bool_decide_eq_true in Hnk as ->.
  exfalso. apply Hnew. by apply (list_elem_of_fmap_2 fst) in Hin.
Qed.

Lemma sections_upper secs : ini_ok secs -> Forall (fun p => upper_name p.1 = true) secs.
Proof. intros [_ Hall]. eapply Forall_impl; [exact Hall|]. by intros [] [? _]. Qed.

Lemma scan_sections secs cur s k :
  ini_ok secs -> (same_name cur s = true -> find_named s secs = None) ->
  scan cur (ini_lines secs) s k = ini_find secs s k.
Proof.
  intros Hok. pose proof (sections_upper _ Hok) as Hup. destruct Hok as [Hnd Hall]. revert cur Hnd.
  induction Hall as [|[name kvs] secs (Hn & _ & Hkv) Hall IH]; intros cur Hnd Hcur; [done|].
  apply NoDup_cons in Hnd as [Hnew Hnd]. apply Forall_cons in Hup as [_ Hup].
  unfold ini_lines. cbn [mbind list_bind].
  change (mbind _ secs) with (ini_lines secs). cbn [app scan].
  change (strip_prefix "[" ("[" +:+ name +:+ "]")) with (Some (name +:+ String "]"%char "")).
  cbn iota. rewrite split_once_app by by apply (upper_name_mem _ _ Hn).
  rewrite scan_keys by done. unfold ini_find. rewrite find_named_cons.
  pose proof (find_named_None name s secs Hn Hnew Hup) as Hnone.
  destruct (same_name name s) eqn:Hs.
  - simpl. destruct (find_named k kvs) eqn:E; [done|]. rewrite IH; [|done..|auto].
    unfold ini_find. by rewrite Hnone.
  - apply IH; [done|done|]. congruence.
Qed.

#[global] Instance load_parser : IniParser load.
Proof.
  intros secs s k Hok _ _. unfold load. rewrite lines_unlines by by apply ini_lines_single.
  apply scan_sections; [done|]. intros Hs. apply sections_upper in Hok.
  assert (s = "") as -> by (destruct s; [done|]; by apply bool_decide_eq_true in Hs).
  unfold find_named. destruct (List.find _ secs) as [[name kvs]|] eqn:E; [|done].
  apply List.find_some in E as [Hin Hb]. apply list_elem_of_In in Hin. rewrite Forall_forall in Hok.
  apply Hok in Hin. destruct name; [done|]. by apply bool_decide_eq_true in Hb.
Qed.
End DemoIni.

(** ** A configuration of a real host *)

Module Demo.
Definition sample_with (log_server : option string) : NetInfoConfig := {|
  app_path := "/opt/osec"; mid := "a1"; ver := "3.0.1"; com_time := 60; cron_time := 30;
  extortion_protect := true; extortion_switch := false; self_protect_switch := true;
  fast_time := 0; file_protect := true; file_switch := true; dynamic_switch := false;
  log_ip_port := log_server; log_proto := 1; log_sent := 0; cli_port := 8000; module_switch := 3;
  open_port_switch := true; proc_protect := false; proc_switch := true; scan_file_time := 0;
  scan_proc_time := 4294967295; server_ip_port := "https://10.0.0.2:443"; server_ip := "10.0.0.2";
  server_port := 443; usb_protect := true; usb_switch := true; syslog_dns_switch := false;
  syslog_outer_switch := false; syslog_inner_switch := true; syslog_process_switch := false;
  syslog_login_switch := false; internet_switch := false; baseline_switch := false;
  baseline_time := 0; outreach_switch := false; outreach_time := 0; hardware_switch := false;
  hardware_time := 0; user_id := "7"; dev_uid := "d0"; macid := "00:11"; ips := "10.0.0.9";
  ifcfg := "ens3"; os := "Linux"; memsize := "8G"; cpu := "4"; hdsize := "100 GB";
  auth := "123123"; host_name := "h"; mod_ver := "1.0"; arch_type := 1;
  is_offline_mode := false |}.
Definition sample : NetInfoConfig := sample_with None.

(** No commands work; every write is accepted. *)
#[local] Instance no_os : Os unit := {| spawn _ w := (Err "no such program", w) |}.
#[local] Instance all_writes : Files unit := {| put _ w := (Ok tt, w) |}.

Definition restarted := from_ini (fun _ => None) (DemoIni.load (ini_text sample))
                          (Host (Shell tt []) []).

Lemma config_roundtrip_witness :
  flags_kept restarted.1 = flags_kept sample /\ numbers_kept restarted.1 = numbers_kept sample
  /\ strings_kept restarted.1 = strings_kept sample /\ ifcfg restarted.1 = "eth0"
  /\ log_ip_port restarted.1 = Some "".
Proof.
  destruct restarted as [c' h'] eqn:E.
  pose proof (config_roundtrip (fun _ => None) DemoIni.load sample (Host (Shell tt []) [])) as H.
  unfold restarted in E. rewrite E in H. destruct H as (H1 & H2 & H3 & _ & H4 & _).
  - by_decide.
  - repeat constructor.
  - simpl. split_and!; [done..| |done].
    change c' with (c', h').1. rewrite <- E. vm_compute. reflexivity.
Defined.
End Demo.
