(* ===== verification/TaskConf.v ===== *)
(** * Switches from the server

    [update_config_from_json] and [apply_config_diff] of
    [crates/task/src/task_fetcher.rs]: the server's settings are merged into
    the configuration, saved, and every switch whose value differs from the
    one last acted upon is passed on to the kernel module through [/proc],
    netlink or the pattern manager. *)

From S2P Require Import Prelude RustStr Bytes Json Pattern Shell Host NetInfo.

(** ** Reading numbers and switches *)

Section read.
Context {V : Type} `{JsonValue V}.

Definition missing (key : string) : string := "Missing or invalid field: " +:+ key.

Definition get_u32 (map : V) (key : string) : result string Z :=
  ok_or (missing key)
    (v ← get_field map key; n ← as_u64 v; if n <? 2 ^ 32 then Some n else None).

Definition get_bool (map : V) (key : string) : result string bool :=
  ok_or (missing key) (v ← get_field map key; n ← as_u64 v; Some (negb (n =? 0))).

(** [try_update!]: a field that is absent or malformed keeps its value. *)
Definition upd {A} (r : result string A) (old : A) : A :=
  match r with Ok v => v | Err _ => old end.

Definition merge_config (conf : V) (c : NetInfoConfig) : NetInfoConfig := {|
  app_path := app_path c;
  mid := mid c;
  ver := ver c;
  com_time := com_time c;
  cron_time := upd (get_u32 conf "crontime") (cron_time c);
  extortion_protect := upd (get_bool conf "extortion_protect") (extortion_protect c);
  extortion_switch := upd (get_bool conf "extortion_switch") (extortion_switch c);
  self_protect_switch := upd (get_bool conf "self_protect_switch") (self_protect_switch c);
  fast_time := fast_time c;
  file_protect := upd (get_bool conf "file_protect") (file_protect c);
  file_switch := upd (get_bool conf "file_switch") (file_switch c);
  dynamic_switch := upd (get_bool conf "dynamic_switch") (dynamic_switch c);
  log_ip_port :=
    match get_field conf "logipport" with
    | Some v => s ← as_str v; if str_is_empty s then None else Some s
    | None => log_ip_port c
    end;
  log_proto := upd (get_u32 conf "logproto") (log_proto c);
  log_sent := upd (get_u32 conf "logsent") (log_sent c);
  cli_port := upd (get_u32 conf "debug_switch") (cli_port c);
  module_switch := upd (get_u32 conf "module_switch") (module_switch c);
  open_port_switch := upd (get_bool conf "open_port_switch") (open_port_switch c);
  proc_protect := upd (get_bool conf "proc_protect") (proc_protect c);
  proc_switch := upd (get_bool conf "proc_switch") (proc_switch c);
  scan_file_time := scan_file_time c;
  scan_proc_time := scan_proc_time c;
  server_ip_port := server_ip_port c;
  server_ip := server_ip c;
  server_port := server_port c;
  usb_protect := upd (get_bool conf "usb_protect") (usb_protect c);
  usb_switch := upd (get_bool conf "usb_switch") (usb_switch c);
  syslog_dns_switch := upd (get_bool conf "syslog_dns_switch") (syslog_dns_switch c);
  syslog_outer_switch := upd (get_bool conf "syslog_outer_switch") (syslog_outer_switch c);
  syslog_inner_switch := upd (get_bool conf "syslog_inner_switch") (syslog_inner_switch c);
  syslog_process_switch := upd (get_bool conf "syslog_process_switch") (syslog_process_switch c);
  syslog_login_switch := upd (get_bool conf "syslog_login_switch") (syslog_login_switch c);
  internet_switch := upd (get_bool conf "internet_switch") (internet_switch c);
  baseline_switch := upd (get_bool conf "baseline_switch") (baseline_switch c);
  baseline_time := upd (get_u32 conf "baseline_time") (baseline_time c);
  outreach_switch := upd (get_bool conf "outreach_switch") (outreach_switch c);
  outreach_time := upd (get_u32 conf "outreach_time") (outreach_time c);
  hardware_switch := upd (get_bool conf "hardware_switch") (hardware_switch c);
  hardware_time := upd (get_u32 conf "hardware_time") (hardware_time c);
  user_id := user_id c;
  dev_uid := dev_uid c;
  macid := macid c;
  ips := ips c;
  ifcfg := ifcfg c;
  os := os c;
  memsize := memsize c;
  cpu := cpu c;
  hdsize := hdsize c;
  auth := auth c;
  host_name := host_name c;
  mod_ver := mod_ver c;
  arch_type := arch_type c;
  is_offline_mode := is_offline_mode c
|}.
End read.

(** ** The defence word *)

Definition bit_of (b : bool) (shift : Z) : Z := Z.shiftl (Z.b2z b) shift.

(** The switches of the array, with their bit positions. *)
Definition defense_bits (c : NetInfoConfig) : list (bool * Z) :=
  [(open_port_switch c, 14); (internet_switch c, 13); (syslog_dns_switch c, 12);
   (syslog_outer_switch c, 11); (syslog_inner_switch c, 10); (proc_switch c, 9);
   (file_switch c, 8); (extortion_switch c, 7); (proc_protect c, 6); (file_protect c, 5);
   (extortion_protect c, 4)].

Definition enable_flag (c : NetInfoConfig) : Z :=
  Z.b2z (file_switch c || extortion_switch c) * 2 + Z.b2z (proc_switch c).

Definition defense_switch (c : NetInfoConfig) : Z :=
  Z.lor (foldl (fun acc '(flag, shift) => Z.lor acc (bit_of flag shift)) 0 (defense_bits c))
    (enable_flag c).

(** ** State *)

(** What the fetcher last acted upon. *)
Record prev_switches := Prev {
  prev_defense_switch : option Z;
  prev_open_port_switch : bool;
  prev_file_switch : bool;
  prev_extortion_switch : bool;
  prev_proc_switch : bool;
  prev_syslog_process_switch : bool;
  prev_dynamic_switch : bool;
  prev_self_protect_switch : bool
}.

Definition prev_new : prev_switches := Prev None false false false false false false false.

Record conf_state (W : Type) := ConfState {
  prevs : prev_switches;
  config : NetInfoConfig;                       (* NETINFO_CONFIG *)
  patterns : PatternRulesMgr * Pattern.world;   (* pattern_mgr and its files *)
  c_host : host W
}.
Arguments ConfState {W} _ _ _ _.
Arguments prevs {W} _.
Arguments config {W} _.
Arguments patterns {W} _.
Arguments c_host {W} _.

Section conf.
Context {W : Type} `{Files W} {V : Type} `{JsonValue V}.
(** The byte order of the target, and whether a netlink socket was opened. *)
Context (t : target) (nl_sock : bool).

Abbreviation st := (conf_state W).

Definition on_host {A} (m : io (host W) A) : io st A := fun s =>
  let '(a, h) := m (c_host s) in (a, ConfState (prevs s) (config s) (patterns s) h).
Definition set_prevs (f : prev_switches -> prev_switches) : io st unit := fun s =>
  (tt, ConfState (f (prevs s)) (config s) (patterns s) (c_host s)).
Definition get_prevs : io st prev_switches := fun s => (prevs s, s).
Definition pattern_op (o : op) : io st unit := fun s =>
  (tt, ConfState (prevs s) (config s) (run_op o (patterns s).1 (patterns s).2) (c_host s)).

(** *** Passing a switch on *)

Definition DEFENSE_SWITCH : string := "/proc/osec/defense_switch".
Definition BLOCK_SWITCH : string := "/proc/osec/osec_conn/block_switch".

Inductive NetRule :=
| VirtualOpenPort (open_port_state : bool)
| DefenseSwitch (defense_state : Z)
| SelfProtect (self_protect_state : Z)
| NetLogPolicy (syslog_process_switch proc_switch : bool)
| NetBlockSwitch (block_switch : Z).

Definition send (msg_type : Z) (payload : list Z) : io (host W) (result string unit) :=
  if nl_sock then write_out (SendNetlink msg_type payload)
  else mret (Err "Netlink socket not initialized").

(** The rules [apply_config_diff] uses; [ServerIpV4], [ServerPort] and
    [LogIpPort] are never built in this crate. *)
Definition write_net_rule (rule : NetRule) : io (host W) (result string unit) :=
  match rule with
  | VirtualOpenPort b => NetInfo.write_net_rule (NetInfo.VirtualOpenPort b)
  | DefenseSwitch n =>
    with_err (fun e => "Failed to write to /proc/osec/defense_switch: " +:+ e)
      (write_out (WriteFile DEFENSE_SWITCH (rule_line "defense_switch " (dec n))))
  | SelfProtect n => send 259 (* 0x103 *) (to_ne_bytes t 4 n)
  | NetLogPolicy a b => send 1794 (* 0x702 *) [Z.b2z a; Z.b2z b; 0; 0]
  | NetBlockSwitch n =>
    with_err (fun e => "Failed to write to /proc/osec/osec_conn/block_switch: " +:+ e)
      (write_out (WriteFile BLOCK_SWITCH (dec n +:+ String line_feed "")))
  end.

Definition rule_out (rule : NetRule) : io st (result string unit) := on_host (write_net_rule rule).

(** *** The blocks of [apply_config_diff] *)

Definition when (b : bool) (m : io st (result string unit)) : io st (result string unit) :=
  if b then m else mret (Ok tt).

Definition module_loaded (new : NetInfoConfig) : bool := negb (str_is_empty (mod_ver new)).

Definition diff_self_protect (new : NetInfoConfig) : io st (result string unit) :=
  p ← get_prevs;
  when (negb (Bool.eqb (self_protect_switch new) (prev_self_protect_switch p)))
    (_ ← set_prevs (fun p => Prev (prev_defense_switch p) (prev_open_port_switch p)
           (prev_file_switch p) (prev_extortion_switch p) (prev_proc_switch p)
           (prev_syslog_process_switch p) (prev_dynamic_switch p) (self_protect_switch new));
     when (module_loaded new)
       (_ ← pattern_op (add_file_pattern (self_protect_switch new));
        rule_out (SelfProtect (Z.b2z (self_protect_switch new))))).

Definition diff_open_port (new : NetInfoConfig) : io st (result string unit) :=
  p ← get_prevs;
  when (negb (Bool.eqb (open_port_switch new) (prev_open_port_switch p)))
    (_ ← set_prevs (fun p => Prev (prev_defense_switch p) (open_port_switch new)
           (prev_file_switch p) (prev_extortion_switch p) (prev_proc_switch p)
           (prev_syslog_process_switch p) (prev_dynamic_switch p) (prev_self_protect_switch p));
     when (module_loaded new) (rule_out (VirtualOpenPort (open_port_switch new)))).

Definition diff_dynamic (new : NetInfoConfig) : io st (result string unit) :=
  p ← get_prevs;
  when (negb (Bool.eqb (dynamic_switch new) (prev_dynamic_switch p)))
    (_ ← set_prevs (fun p => Prev (prev_defense_switch p) (prev_open_port_switch p)
           (prev_file_switch p) (prev_extortion_switch p) (prev_proc_switch p)
           (prev_syslog_process_switch p) (dynamic_switch new) (prev_self_protect_switch p));
     rule_out (NetBlockSwitch (Z.b2z (dynamic_switch new)))).

Definition diff_file (new : NetInfoConfig) : io st (result string unit) :=
  p ← get_prevs;
  when (negb (Bool.eqb (file_switch new) (prev_file_switch p)))
    (_ ← (if module_loaded new && negb (file_switch new) then pattern_op clear_protect_dir
          else mret tt);
     _ ← set_prevs (fun p => Prev (prev_defense_switch p) (prev_open_port_switch p)
           (file_switch new) (prev_extortion_switch p) (prev_proc_switch p)
           (prev_syslog_process_switch p) (prev_dynamic_switch p) (prev_self_protect_switch p));
     mret (Ok tt)).

Definition diff_extortion (new : NetInfoConfig) : io st (result string unit) :=
  p ← get_prevs;
  when (negb (Bool.eqb (extortion_protect new) (prev_extortion_switch p)))
    (_ ← (if module_loaded new && negb (extortion_protect new) then pattern_op clear_exiport_dir
          else mret tt);
     _ ← set_prevs (fun p => Prev (prev_defense_switch p) (prev_open_port_switch p)
           (prev_file_switch p) (extortion_protect new) (prev_proc_switch p)
           (prev_syslog_process_switch p) (prev_dynamic_switch p) (prev_self_protect_switch p));
     mret (Ok tt)).

Definition diff_process_log (new : NetInfoConfig) : io st (result string unit) :=
  p ← get_prevs;
  when (negb (Bool.eqb (proc_switch new) (prev_proc_switch p))
        || negb (Bool.eqb (syslog_process_switch new) (prev_syslog_process_switch p)))
    (let? _ := rule_out (NetLogPolicy (syslog_process_switch new) (proc_switch new)) in
     _ ← set_prevs (fun p => Prev (prev_defense_switch p) (prev_open_port_switch p)
           (prev_file_switch p) (prev_extortion_switch p) (proc_switch new)
           (syslog_process_switch new) (prev_dynamic_switch p) (prev_self_protect_switch p));
     mret (Ok tt)).

Definition diff_defense (new : NetInfoConfig) : io st (result string unit) :=
  p ← get_prevs;
  when (negb (bool_decide (prev_defense_switch p = Some (defense_switch new))))
    (_ ← set_prevs (fun p => Prev (Some (defense_switch new)) (prev_open_port_switch p)
           (prev_file_switch p) (prev_extortion_switch p) (prev_proc_switch p)
           (prev_syslog_process_switch p) (prev_dynamic_switch p) (prev_self_protect_switch p));
     when (module_loaded new) (rule_out (DefenseSwitch (defense_switch new)))).

Definition apply_config_diff (new : NetInfoConfig) : io st (result string unit) :=
  let? _ := diff_self_protect new in
  let? _ := diff_open_port new in
  let? _ := diff_dynamic new in
  let? _ := diff_file new in
  let? _ := diff_extortion new in
  let? _ := diff_process_log new in
  diff_defense new.

Definition set_config (c : NetInfoConfig) : io st unit := fun s =>
  (tt, ConfState (prevs s) c (patterns s) (c_host s)).
Definition get_config : io st NetInfoConfig := fun s => (config s, s).

Definition update_config_from_json (conf : V) : io st (result string unit) :=
  old ← get_config;
  let new := merge_config conf old in
  _ ← set_config new;
  _ ← on_host (ignore (to_ini (app_path new +:+ "/net_info.ini") new));
  apply_config_diff new.
End conf.

(** ** The defence word carries every switch *)

Lemma testbit_bit_of b s i : 0 <= s -> Z.testbit (bit_of b s) i = b && (i =? s).
Proof.
  intros Hs. unfold bit_of. destruct (Z.ltb_spec i 0).
  { rewrite Z.testbit_neg_r by done. destruct (Z.eqb_spec i s); [lia|by rewrite andb_false_r]. }
  rewrite Z.shiftl_spec by done. destruct b; simpl; [|apply Z.bits_0].
  destruct (Z.eqb_spec i s) as [->|Hne].
  - by rewrite Z.sub_diag.
  - destruct (Z.ltb_spec (i - s) 0); [by rewrite Z.testbit_neg_r|].
    change 1 with (2 ^ 0). apply Z.pow2_bits_false. lia.
Qed.

Lemma testbit_fold l acc i :
  Forall (fun '(_, s) => 0 <= s) l ->
  Z.testbit (foldl (fun acc '(flag, shift) => Z.lor acc (bit_of flag shift)) acc l) i =
    Z.testbit acc i || existsb (fun '(flag, s) => flag && (i =? s)) l.
Proof.
  intros Hl. revert acc. induction Hl as [|[b s] l Hs Hl IH]; intros acc; simpl.
  - by rewrite orb_false_r.
  - by rewrite IH, Z.lor_spec, testbit_bit_of, orb_assoc.
Qed.

Lemma fold_nonneg l acc :
  0 <= acc ->
  0 <= foldl (fun acc '(flag, shift) => Z.lor acc (bit_of flag shift)) acc l.
Proof.
  revert acc. induction l as [|[b s] l IH]; intros acc Hacc; [done|]. simpl. apply IH.
  apply Z.lor_nonneg. split; [done|]. apply Z.shiftl_nonneg. by destruct b.
Qed.

(** Every switch of the word and the bit it has. *)
Definition defense_table (c : NetInfoConfig) : list (bool * Z) :=
  defense_bits c ++ [(file_switch c || extortion_switch c, 1); (proc_switch c, 0)].

Lemma testbit_enable c i :
  0 <= i -> Z.testbit (enable_flag c) i =
    (file_switch c || extortion_switch c) && (i =? 1) || proc_switch c && (i =? 0).
Proof.
  intros Hi. unfold enable_flag. generalize (file_switch c || extortion_switch c) as a.
  intros a. generalize (proc_switch c) as b. intros b.
  destruct (Z.eqb_spec i 0) as [->|H0]; [by destruct a, b|].
  destruct (Z.eqb_spec i 1) as [->|H1]; [by destruct a, b|].
  rewrite !andb_false_r. apply Z.bits_above_log2; destruct a, b; simpl; lia.
Qed.

Lemma defense_testbit c i :
  0 <= i -> Z.testbit (defense_switch c) i =
            existsb (fun '(flag, s) => flag && (i =? s)) (defense_table c).
Proof.
  intros Hi. unfold defense_switch, defense_table.
  rewrite Z.lor_spec, testbit_fold, existsb_app, testbit_enable by by repeat constructor.
  rewrite Z.bits_0, orb_false_l. simpl. by rewrite !orb_false_r.
Qed.

(** the word sent to the kernel is a 15-bit number from which every switch
    can be read: bit by bit it has the switches at the positions of the table,
    and no other bit is set. *)
Theorem defense_switch_decodes c :
  is_uint 15 (defense_switch c) /\
  Forall (fun '(flag, shift) => Z.testbit (defense_switch c) shift = flag) (defense_table c) /\
  (forall i, 0 <= i -> i ∉ (defense_table c).*2 -> Z.testbit (defense_switch c) i = false).
Proof.
  assert (forall i, 0 <= i -> i ∉ (defense_table c).*2 -> Z.testbit (defense_switch c) i = false)
    as Hout.
  { intros i Hi Hn. rewrite defense_testbit by done. apply not_true_iff_false.
    intros ([b s] & Hin & Hb)%existsb_exists. apply andb_true_iff in Hb as [_ ->%Z.eqb_eq].
    apply Hn. apply list_elem_of_In in Hin. by apply (list_elem_of_fmap_2 snd) in Hin. }
  split_and!; [| |done].
  - assert (0 <= defense_switch c) as Hpos.
    { apply Z.lor_nonneg. split; [apply fold_nonneg; lia|].
      unfold enable_flag. destruct (_ || _), (proc_switch c); simpl; lia. }
    split; [done|]. apply Z.log2_lt_cancel. rewrite Z.log2_pow2 by lia.
    destruct (Z.eq_dec (defense_switch c) 0) as [->|Hne]; [done|].
    apply Z.nle_gt. intros Hge.
    assert (Z.testbit (defense_switch c) (Z.log2 (defense_switch c)) = true) as Hb
      by (apply Z.bit_log2; lia).
    rewrite Hout in Hb; [done|lia|]. simpl. rewrite !elem_of_cons. set_unfold. lia.
  - repeat apply Forall_cons_2; [..|constructor]; rewrite defense_testbit by lia; simpl;
      rewrite ?andb_true_r, ?andb_false_r, ?orb_false_r; done.
Qed.

(** ** What the kernel has been told *)

(** The last write that [f] recognises. *)
Definition last_such {A} (f : write -> option A) (l : list write) : option A :=
  foldl (fun acc w => match f w with Some a => Some a | None => acc end) None l.

Lemma last_such_snoc {A} (f : write -> option A) l w :
  last_such f (l ++ [w]) = match f w with Some a => Some a | None => last_such f l end.
Proof. unfold last_such. by rewrite foldl_app. Qed.

Definition file_content (path : string) (keep : string -> bool) (w : write) : option string :=
  match w with
  | WriteFile p c => if bool_decide (p = path) && keep c then Some c else None
  | SendNetlink _ _ => None
  end.
Definition netlink_payload (ty : Z) (w : write) : option (list Z) :=
  match w with
  | SendNetlink n p => if n =? ty then Some p else None
  | WriteFile _ _ => None
  end.

Definition open_port_line (b : bool) : string := rule_line "vir_open_port_switch " (flag_digit b).
Definition block_line (b : bool) : string := dec (Z.b2z b) +:+ String line_feed "".
Definition defense_line (n : Z) : string := rule_line "defense_switch " (dec n).
Definition log_policy (syslog proc : bool) : list Z := [Z.b2z syslog; Z.b2z proc; 0; 0].

(** What the module last heard of each switch; before the first message a
    switch is off. *)
Record kernel_view := KernelView {
  k_self_protect : list Z;
  k_open_port : string;
  k_block : string;
  k_log_policy : list Z;
  k_defense : option string
}.

Definition view (t : target) (l : list write) : kernel_view := {|
  k_self_protect := default (to_ne_bytes t 4 0) (last_such (netlink_payload 259) l);
  k_open_port := default (open_port_line false)
                   (last_such (file_content NET_RULES (starts_with "vir_open_port_switch ")) l);
  k_block := default (block_line false) (last_such (file_content BLOCK_SWITCH (fun _ => true)) l);
  k_log_policy := default (log_policy false false) (last_such (netlink_payload 1794) l);
  k_defense := last_such (file_content DEFENSE_SWITCH (fun _ => true)) l
|}.

(** What it should have heard. *)
Definition view_of_prevs (t : target) (p : prev_switches) : kernel_view := {|
  k_self_protect := to_ne_bytes t 4 (Z.b2z (prev_self_protect_switch p));
  k_open_port := open_port_line (prev_open_port_switch p);
  k_block := block_line (prev_dynamic_switch p);
  k_log_policy := log_policy (prev_syslog_process_switch p) (prev_proc_switch p);
  k_defense := defense_line <$> prev_defense_switch p
|}.

Definition view_of_config (t : target) (c : NetInfoConfig) : kernel_view := {|
  k_self_protect := to_ne_bytes t 4 (Z.b2z (self_protect_switch c));
  k_open_port := open_port_line (open_port_switch c);
  k_block := block_line (dynamic_switch c);
  k_log_policy := log_policy (syslog_process_switch c) (proc_switch c);
  k_defense := Some (defense_line (defense_switch c))
|}.

(** The write a rule amounts to. *)
Definition write_of (t : target) (r : NetRule) : write :=
  match r with
  | VirtualOpenPort b => WriteFile NET_RULES (open_port_line b)
  | DefenseSwitch n => WriteFile DEFENSE_SWITCH (defense_line n)
  | SelfProtect n => SendNetlink 259 (to_ne_bytes t 4 n)
  | NetLogPolicy a b => SendNetlink 1794 (log_policy a b)
  | NetBlockSwitch n => WriteFile BLOCK_SWITCH (dec n +:+ String line_feed "")
  end.

(** A rule changes exactly its own part of the view. *)
Definition tell (t : target) (r : NetRule) (v : kernel_view) : kernel_view :=
  match r with
  | VirtualOpenPort b =>
    KernelView (k_self_protect v) (open_port_line b) (k_block v) (k_log_policy v) (k_defense v)
  | DefenseSwitch n =>
    KernelView (k_self_protect v) (k_open_port v) (k_block v) (k_log_policy v)
      (Some (defense_line n))
  | SelfProtect n =>
    KernelView (to_ne_bytes t 4 n) (k_open_port v) (k_block v) (k_log_policy v) (k_defense v)
  | NetLogPolicy a b =>
    KernelView (k_self_protect v) (k_open_port v) (k_block v) (log_policy a b) (k_defense v)
  | NetBlockSwitch n =>
    KernelView (k_self_protect v) (k_open_port v) (dec n +:+ String line_feed "")
      (k_log_policy v) (k_defense v)
  end.

Lemma view_snoc t l r : view t (l ++ [write_of t r]) = tell t r (view t l).
Proof. unfold view. rewrite !last_such_snoc. destruct r as [[]| | | |]; reflexivity. Qed.

(** The settings file is none of the module's files. *)
Lemma settings_file_other dir path :
  path = NET_RULES \/ path = BLOCK_SWITCH \/ path = DEFENSE_SWITCH ->
  dir +:+ "/net_info.ini" <> path.
Proof.
  intros Hp E. apply (f_equal String.rev) in E. rewrite rev_app in E.
  by destruct Hp as [->|[->| ->]].
Qed.

Lemma view_settings t l dir c :
  view t (l ++ [WriteFile (dir +:+ "/net_info.ini") c]) = view t l.
Proof.
  unfold view. rewrite !last_such_snoc. unfold file_content.
  rewrite !bool_decide_eq_false_2 by (apply settings_file_other; auto). reflexivity.
Qed.

Section told.
Context {W : Type} `{Files W} {V : Type} `{JsonValue V} (t : target).

(** The rules the machine accepts: at least all but the defence word. *)
Context (ok : NetRule -> bool).
Context (Hacc : forall r m, ok r = true -> (put (write_of t r) m).1 = Ok tt).

Lemma rule_accepted r (s : conf_state W) :
  ok r = true ->
  exists h', rule_out t true r s = (Ok tt, ConfState (prevs s) (config s) (patterns s) h')
             /\ h_written h' = h_written (c_host s) ++ [write_of t r].
Proof.
  intros Hr.
  assert (exists h', write_out (write_of t r) (c_host s) = (Ok tt, h')
                     /\ h_written h' = h_written (c_host s) ++ [write_of t r])
    as (h' & E & Hw).
  { unfold write_out. specialize (Hacc r (world (h_shell (c_host s))) Hr).
    destruct (put (write_of t r) _) as [x m]. simpl in Hacc. subst x. eauto. }
  exists h'. split; [|done]. unfold rule_out, on_host.
  destruct r as [[]| | | |]; unfold write_net_rule, NetInfo.write_net_rule, send, write_raw, with_err;
    match goal with |- context [write_out ?w (c_host s)] =>
      replace (write_out w (c_host s)) with (@Ok string unit tt, h') by (symmetry; exact E) end;
    reflexivity.
Qed.

(** One block: it succeeds, leaves the configuration alone, and keeps what was
    written since [l0] in step with the memory. *)
Definition in_step (l0 : list write) (s : conf_state W) : Prop :=
  exists l, h_written (c_host s) = l0 ++ l /\ view t l = view_of_prevs t (prevs s).

Context (l0 : list write).

Lemma in_step_tell r s p h' :
  in_step l0 s -> h_written h' = h_written (c_host s) ++ [write_of t r] ->
  view_of_prevs t p = tell t r (view_of_prevs t (prevs s)) ->
  forall c ps, in_step l0 (ConfState p c ps h').
Proof.
  intros (l & Hl & Hv) Hw Hp c ps. exists (l ++ [write_of t r]). cbn [c_host prevs].
  by rewrite Hw, Hl, <- app_assoc, view_snoc, Hv, Hp.
Qed.

Definition block_ok (m : io (conf_state W) (result string unit)) (f : prev_switches -> prev_switches)
    : Prop :=
  forall s, in_step l0 s -> exists s', m s = (Ok tt, s') /\ in_step l0 s' /\ prevs s' = f (prevs s)
                                    /\ config s' = config s.

Lemma block_seq m1 m2 f1 f2 :
  block_ok m1 f1 -> block_ok m2 f2 -> block_ok (let? _ := m1 in m2) (f2 ∘ f1).
Proof.
  intros H1 H2 s Hs. destruct (H1 s Hs) as (s1 & E1 & I1 & P1 & C1).
  destruct (H2 s1 I1) as (s2 & E2 & I2 & P2 & C2).
  exists s2. unfold bind_ok. rewrite E1. split_and!; [done..| |congruence].
  simpl. congruence.
Qed.

(** The memory after each block. *)
Definition p_self (c : NetInfoConfig) (p : prev_switches) : prev_switches :=
  Prev (prev_defense_switch p) (prev_open_port_switch p) (prev_file_switch p)
    (prev_extortion_switch p) (prev_proc_switch p) (prev_syslog_process_switch p)
    (prev_dynamic_switch p) (self_protect_switch c).
Definition p_open (c : NetInfoConfig) (p : prev_switches) : prev_switches :=
  Prev (prev_defense_switch p) (open_port_switch c) (prev_file_switch p)
    (prev_extortion_switch p) (prev_proc_switch p) (prev_syslog_process_switch p)
    (prev_dynamic_switch p) (prev_self_protect_switch p).
Definition p_dynamic (c : NetInfoConfig) (p : prev_switches) : prev_switches :=
  Prev (prev_defense_switch p) (prev_open_port_switch p) (prev_file_switch p)
    (prev_extortion_switch p) (prev_proc_switch p) (prev_syslog_process_switch p)
    (dynamic_switch c) (prev_self_protect_switch p).
Definition p_file (c : NetInfoConfig) (p : prev_switches) : prev_switches :=
  Prev (prev_defense_switch p) (prev_open_port_switch p) (file_switch c)
    (prev_extortion_switch p) (prev_proc_switch p) (prev_syslog_process_switch p)
    (prev_dynamic_switch p) (prev_self_protect_switch p).
Definition p_extortion (c : NetInfoConfig) (p : prev_switches) : prev_switches :=
  Prev (prev_defense_switch p) (prev_open_port_switch p) (prev_file_switch p)
    (extortion_protect c) (prev_proc_switch p) (prev_syslog_process_switch p)
    (prev_dynamic_switch p) (prev_self_protect_switch p).
Definition p_log (c : NetInfoConfig) (p : prev_switches) : prev_switches :=
  Prev (prev_defense_switch p) (prev_open_port_switch p) (prev_file_switch p)
    (prev_extortion_switch p) (proc_switch c) (syslog_process_switch c)
    (prev_dynamic_switch p) (prev_self_protect_switch p).
Definition p_defense (c : NetInfoConfig) (p : prev_switches) : prev_switches :=
  Prev (Some (defense_switch c)) (prev_open_port_switch p) (prev_file_switch p)
    (prev_extortion_switch p) (prev_proc_switch p) (prev_syslog_process_switch p)
    (prev_dynamic_switch p) (prev_self_protect_switch p).

(** A block that finds nothing to do. *)
Lemma idle_block (f : prev_switches -> prev_switches) s :
  in_step l0 s -> f (prevs s) = prevs s ->
  exists s', (mret (Ok (E:=string) tt) : io (conf_state W) _) s = (Ok tt, s') /\ in_step l0 s'
             /\ prevs s' = f (prevs s) /\ config s' = config s.
Proof. intros Hs Hf. exists s. by rewrite Hf. Qed.

(** A block that records a value and passes it on. *)
Lemma telling_block f r ps s :
  ok r = true -> in_step l0 s -> view_of_prevs t (f (prevs s)) = tell t r (view_of_prevs t (prevs s)) ->
  exists s', rule_out t true r (ConfState (f (prevs s)) (config s) ps (c_host s)) = (Ok tt, s')
             /\ in_step l0 s' /\ prevs s' = f (prevs s) /\ config s' = config s.
Proof.
  intros Hr Hs Hv.
  destruct (rule_accepted r (ConfState (f (prevs s)) (config s) ps (c_host s)) Hr)
    as (h' & E & Ev). eexists. split; [exact E|]. split_and!; [|done..].
  by eapply in_step_tell.
Qed.

Ltac block :=
  let s := fresh "s" in let Hs := fresh "Hs" in let Hsame := fresh "Hsame" in
  intros s Hs; unfold mbind, io_bind, when; simpl;
  match goal with |- context [Bool.eqb ?a ?b] => destruct (Bool.eqb_spec a b) as [Hsame|] end; simpl;
  [apply idle_block; [done|]; unfold p_self, p_open, p_dynamic, p_file, p_extortion;
   rewrite Hsame; by destruct (prevs s)|].

Definition is_defense (r : NetRule) : bool := match r with DefenseSwitch _ => true | _ => false end.

Context (Hok : forall r, is_defense r = false -> ok r = true).
Context (c : NetInfoConfig) (Hmod : module_loaded c = true).

Lemma self_block : block_ok (diff_self_protect t true c) (p_self c).
Proof.
  unfold diff_self_protect. rewrite Hmod. block.
  apply (telling_block (p_self c) (SelfProtect (Z.b2z (self_protect_switch c)))); [by apply Hok|done..].
Qed.
Lemma open_block : block_ok (diff_open_port t true c) (p_open c).
Proof.
  unfold diff_open_port. rewrite Hmod. block.
  apply (telling_block (p_open c) (VirtualOpenPort (open_port_switch c))); [by apply Hok|done..].
Qed.
Lemma dynamic_block : block_ok (diff_dynamic t true c) (p_dynamic c).
Proof.
  unfold diff_dynamic. block.
  apply (telling_block (p_dynamic c) (NetBlockSwitch (Z.b2z (dynamic_switch c)))); [by apply Hok|done..].
Qed.
Lemma file_block : block_ok (diff_file c) (p_file c).
Proof.
  unfold diff_file. block. destruct (_ && _); simpl; eexists; by split_and!.
Qed.
Lemma extortion_block : block_ok (diff_extortion c) (p_extortion c).
Proof.
  unfold diff_extortion. block. destruct (_ && _); simpl; eexists; by split_and!.
Qed.
Lemma log_block : block_ok (diff_process_log t true c) (p_log c).
Proof.
  intros s Hs. unfold diff_process_log, mbind, io_bind, when. simpl.
  destruct (negb _ || negb _) eqn:Eq.
  - destruct (rule_accepted (NetLogPolicy (syslog_process_switch c) (proc_switch c)) s
      (Hok (NetLogPolicy (syslog_process_switch c) (proc_switch c)) eq_refl)) as (h' & E & Ev).
    unfold bind_ok. rewrite E. simpl. eexists. split; [reflexivity|]. split_and!; [|done..].
    by eapply in_step_tell.
  - apply idle_block; [done|]. apply orb_false_iff in Eq as [E1 E2].
    apply negb_false_iff, Bool.eqb_prop in E1, E2. destruct (prevs s); simpl in *; by subst.
Qed.

(** The first six blocks, then the defence word. *)
Definition before_defense : io (conf_state W) (result string unit) :=
  let? _ := diff_self_protect t true c in
  let? _ := diff_open_port t true c in
  let? _ := diff_dynamic t true c in
  let? _ := diff_file c in
  let? _ := diff_extortion c in
  diff_process_log t true c.
Definition p_before : prev_switches -> prev_switches :=
  p_log c ∘ p_extortion c ∘ p_file c ∘ p_dynamic c ∘ p_open c ∘ p_self c.

Lemma apply_config_diff_split s :
  apply_config_diff t true c s = (let? _ := before_defense in diff_defense t true c) s.
Proof.
  unfold apply_config_diff, before_defense, bind_ok.
  repeat (match goal with |- context [match ?m s with _ => _ end] =>
            destruct (m s) as [[[]|] ?] end; try done).
  repeat (match goal with |- context [match ?m ?x with _ => _ end] =>
            destruct (m x) as [[[]|] ?] end; try done).
Qed.

Lemma before_defense_block : block_ok before_defense p_before.
Proof.
  unfold before_defense, p_before.
  repeat (apply block_seq;
    [first [exact self_block|exact open_block|exact dynamic_block|exact file_block
           |exact extortion_block]|]). exact log_block.
Qed.

Lemma defense_block n :
  n = defense_switch c -> ok (DefenseSwitch n) = true -> block_ok (diff_defense t true c) (p_defense c).
Proof.
  intros -> Hd s Hs. unfold diff_defense. rewrite Hmod. unfold mbind, io_bind, when. simpl.
  case_bool_decide as Hp; simpl.
  - apply idle_block; [done|]. unfold p_defense. destruct (prevs s); simpl in *; by subst.
  - by apply (telling_block (p_defense c) (DefenseSwitch (defense_switch c))).
Qed.

Lemma apply_config_diff_ok s :
  ok (DefenseSwitch (defense_switch c)) = true -> in_step l0 s ->
  exists s', apply_config_diff t true c s = (Ok tt, s') /\ config s' = config s /\ in_step l0 s'
             /\ view_of_prevs t (prevs s') = view_of_config t c.
Proof.
  intros Hd Hs. rewrite apply_config_diff_split.
  destruct (block_seq _ _ _ _ before_defense_block (defense_block _ eq_refl Hd) s Hs)
    as (s' & E & I & P & C).
  exists s'. split_and!; [done..|]. by rewrite P.
Qed.
End told.

(** ** Any sequence of downloads *)

Section downloads.
Context {W : Type} `{Files W} {V : Type} `{JsonValue V} (t : target).

Fixpoint downloads (nl_sock : bool) (confs : list V) (s : conf_state W) : conf_state W :=
  match confs with
  | [] => s
  | conf :: confs => downloads nl_sock confs (update_config_from_json t nl_sock conf s).2
  end.

(** The configurations after each of them. *)
Fixpoint merges (c : NetInfoConfig) (confs : list V) : list NetInfoConfig :=
  match confs with
  | [] => []
  | conf :: confs => merge_config conf c :: merges (merge_config conf c) confs
  end.

Lemma merges_app c confs conf :
  merges c (confs ++ [conf])
  = merges c confs ++ [merge_config conf (foldl (fun c conf => merge_config conf c) c confs)].
Proof. revert c. induction confs as [|x confs IH]; intros c; [done|]. simpl. by rewrite IH. Qed.

(** The file of the settings does not concern the module. *)
Lemma saved_in_step l0 (s : conf_state W) c c' dir :
  in_step t l0 s ->
  in_step t l0 (on_host (ignore (to_ini (dir +:+ "/net_info.ini") c'))
               (ConfState (prevs s) c (patterns s) (c_host s))).2.
Proof.
  unfold in_step, on_host, ignore, to_ini. simpl. intros (l & Hl & Hv).
  rewrite write_out_written. destruct (write_out _ _).1; [|by exists l].
  eexists. split; [by rewrite Hl, <- app_assoc|]. by rewrite view_settings.
Qed.

(** The module takes every rule. *)
Definition accepts_rules : Prop := forall r m, (put (W:=W) (write_of t r) m).1 = Ok tt.

Lemma update_config_ok l0 conf (s : conf_state W) :
  accepts_rules -> module_loaded (config s) = true -> in_step t l0 s ->
  exists s', update_config_from_json t true conf s = (Ok tt, s')
    /\ config s' = merge_config conf (config s) /\ in_step t l0 s'
    /\ view_of_prevs t (prevs s') = view_of_config t (config s').
Proof.
  intros Hacc Hmod Hs. set (c := merge_config conf (config s)).
  set (s1 := (on_host (ignore (to_ini (app_path c +:+ "/net_info.ini") c))
                (ConfState (prevs s) c (patterns s) (c_host s))).2).
  assert (update_config_from_json t true conf s = apply_config_diff t true c s1) as -> by done.
  destruct (apply_config_diff_ok t (fun _ => true) (fun r m _ => Hacc r m) l0
              (fun _ _ => eq_refl) c Hmod s1 eq_refl (saved_in_step l0 s c c _ Hs))
    as (s' & E & C & I & P).
  change (config s1) with c in C. exists s'. rewrite C. by split_and!.
Qed.

(** Nothing written is taken back. *)
Definition writes_more (s s' : conf_state W) : Prop :=
  h_written (c_host s) `prefix_of` h_written (c_host s').
#[local] Instance writes_more_preorder : PreOrder writes_more.
Proof.
  unfold writes_more. split; [intros s; reflexivity|]. intros a b c Hab Hbc. by etrans.
Qed.

Lemma written_more (w : write) : keeps writes_more (on_host (write_out w)).
Proof.
  intros s. unfold writes_more, on_host, write_out. destruct (put w _) as [[] ?]; simpl.
  - by apply prefix_app_r.
  - done.
Qed.

Lemma update_writes_more conf : keeps writes_more (update_config_from_json t true conf).
Proof.
  assert (forall f, keeps writes_more (set_prevs (W:=W) f)) as Hp by (intros f s; unfold writes_more; reflexivity).
  assert (keeps writes_more (get_prevs (W:=W))) as Hg by (intros s; unfold writes_more; reflexivity).
  assert (keeps writes_more (get_config (W:=W))) as Hc by (intros s; unfold writes_more; reflexivity).
  assert (forall c, keeps writes_more (set_config (W:=W) c)) as Hsc by (intros c s; unfold writes_more; reflexivity).
  assert (forall o, keeps writes_more (pattern_op (W:=W) o)) as Ho by (intros o s; unfold writes_more; reflexivity).
  assert (forall r, keeps writes_more (rule_out t true r)) as Hr.
  { intros r s. unfold rule_out, on_host, write_net_rule, NetInfo.write_net_rule, send, write_raw, with_err.
    destruct r as [[]| | | |]; unfold mbind, io_bind;
      match goal with |- context [write_out ?w (c_host s)] =>
        pose proof (written_more w s) as Hw; unfold on_host in Hw; by destruct (write_out w (c_host s)) end. }
  assert (forall p c, keeps writes_more (on_host (ignore (to_ini p c)))) as Hi.
  { intros p c s. unfold to_ini, ignore.
    pose proof (written_more (WriteFile p (ini_text c)) s) as Hw. unfold on_host in *.
    by destruct (write_out _ (c_host s)). }
  unfold update_config_from_json, apply_config_diff, diff_self_protect, diff_open_port,
    diff_dynamic, diff_file, diff_extortion, diff_process_log, diff_defense, when.
  keeps_auto.
Qed.

(** *** The switches that are sent on a change only *)

Inductive channel := SelfProtectChannel | OpenPortChannel | BlockChannel | LogChannel.

Definition field (ch : channel) (v : kernel_view) : list Z + string :=
  match ch with
  | SelfProtectChannel => inl (k_self_protect v)
  | OpenPortChannel => inr (k_open_port v)
  | BlockChannel => inr (k_block v)
  | LogChannel => inl (k_log_policy v)
  end.

(** The switch of the configuration that travels on a channel. *)
Definition switched_on (ch : channel) (c : NetInfoConfig) : bool :=
  match ch with
  | SelfProtectChannel => self_protect_switch c
  | OpenPortChannel => open_port_switch c
  | BlockChannel => dynamic_switch c
  | LogChannel => syslog_process_switch c || proc_switch c
  end.

(** What the module holds before it is told anything. *)
Definition all_off : kernel_view := view t [].

Lemma last_such_app {A} (f : write -> option A) l1 l2 :
  last_such f (l1 ++ l2) = match last_such f l2 with Some a => Some a | None => last_such f l1 end.
Proof.
  induction l2 as [|w l2 IH] using rev_ind; [by rewrite app_nil_r|].
  rewrite app_assoc, !last_such_snoc, IH. by destruct (f w).
Qed.

(** Whether a list of writes has a message for a channel. *)
Definition sent (ch : channel) (l : list write) : bool :=
  let some {A} (x : option A) := match x with Some _ => true | None => false end in
  match ch with
  | SelfProtectChannel => some (last_such (netlink_payload 259) l)
  | OpenPortChannel => some (last_such (file_content NET_RULES (starts_with "vir_open_port_switch ")) l)
  | BlockChannel => some (last_such (file_content BLOCK_SWITCH (fun _ => true)) l)
  | LogChannel => some (last_such (netlink_payload 1794) l)
  end.

Lemma field_app ch l1 l2 :
  field ch (view t (l1 ++ l2)) = if sent ch l2 then field ch (view t l2) else field ch (view t l1).
Proof. destruct ch; unfold view, field, sent; simpl; rewrite last_such_app; by case_match. Qed.

Lemma field_unsent ch l : sent ch l = false -> field ch (view t l) = field ch all_off.
Proof. destruct ch; unfold view, field, sent; simpl; by case_match. Qed.

Lemma sent_app ch l1 l2 : sent ch l1 = true -> sent ch (l1 ++ l2) = true.
Proof. destruct ch; unfold sent; rewrite last_such_app; by repeat case_match. Qed.

Lemma field_on ch c : switched_on ch c = true -> field ch (view_of_config t c) <> field ch all_off.
Proof.
  assert (to_ne_bytes t 4 1 <> to_ne_bytes t 4 0) by (by destruct t as [[] ?]).
  destruct ch; simpl; [intros ->; simpl; congruence|intros ->; discriminate..|].
  destruct (syslog_process_switch c), (proc_switch c); done.
Qed.

(** A session that began with [l0] written: what was written since is in step
    with the memory, and has a message for every channel in [told]. *)
Definition session (l0 : list write) (told : channel -> bool) (s : conf_state W) : Prop :=
  in_step t l0 s
  /\ forall l ch, h_written (c_host s) = l0 ++ l -> told ch = true -> sent ch l = true.

Lemma update_session l0 told conf (s : conf_state W) :
  accepts_rules -> module_loaded (config s) = true -> session l0 told s ->
  exists s', update_config_from_json t true conf s = (Ok tt, s')
    /\ config s' = merge_config conf (config s)
    /\ session l0 (fun ch => told ch || switched_on ch (config s')) s'
    /\ exists l, h_written (c_host s') = l0 ++ l /\ view t l = view_of_config t (config s').
Proof.
  intros Hacc Hmod [Hin Hs]. destruct (update_config_ok l0 conf s Hacc Hmod Hin) as (s' & E & C & I & P).
  exists s'. pose proof (update_writes_more conf s) as [k Hk]. rewrite E in Hk. cbn [snd] in Hk.
  pose proof I as (l' & Hl' & Hv). rewrite P in Hv. split_and!; [done|done| |by exists l'].
  split; [done|]. intros l ch Hl Ht. rewrite Hl' in Hl. apply app_inv_head in Hl as <-.
  apply orb_true_iff in Ht as [Ht|Ht].
  - destruct Hin as (l & Hl & _). specialize (Hs l ch Hl Ht).
    rewrite Hl', Hl, <- app_assoc in Hk. apply app_inv_head in Hk as ->. by apply sent_app.
  - destruct (sent ch l') eqn:Es; [done|]. apply field_unsent in Es. rewrite Hv in Es.
    by apply field_on in Ht.
Qed.

Lemma downloads_session l0 confs told (s : conf_state W) :
  accepts_rules -> module_loaded (config s) = true -> session l0 told s ->
  let s' := downloads true confs s in
  session l0 (fun ch => told ch || existsb (switched_on ch) (merges (config s) confs)) s'
  /\ config s' = foldl (fun c conf => merge_config conf c) (config s) confs
  /\ module_loaded (config s') = true.
Proof.
  intros Hacc. revert told s. induction confs as [|conf confs IH]; intros told s Hmod Hs.
  { split_and!; [|done..]. destruct Hs as [? Hs]. split; [done|]. intros l ch Hl.
    simpl. rewrite orb_false_r. by apply Hs. }
  simpl. destruct (update_session l0 told conf s Hacc Hmod Hs) as (s' & E & C & I & _).
  rewrite E. cbn [snd]. rewrite <- C. destruct (IH _ s' ltac:(by rewrite C) I) as ([J1 J2] & K1 & K2).
  split_and!; [|done..]. split; [done|]. intros l ch Hl Ht. apply J2; [done|].
  by rewrite <- orb_assoc.
Qed.

Lemma new_session (s : conf_state W) :
  prevs s = prev_new -> session (h_written (c_host s)) (fun _ => false) s.
Proof. intros Hp. split; [|done]. exists []. by rewrite app_nil_r, Hp. Qed.

(** C3: a session begins with a new fetcher, which remembers no switch, while the
    module may hold whatever earlier sessions and the start of the agent told
    it.  On an agent whose settings name a loaded module, whose netlink socket
    is open, and whose module takes every rule it is given, after any non-empty
    sequence of downloads of the session: the configuration is the merge of all
    of them; the module has last heard exactly the configuration's defence
    word; and of self protection, decoy ports, blocking and process logging it
    has last heard exactly the configuration's value, although only changes are
    sent, if the switch was on after some download of the session or the module
    held it off when the session began. *)
Theorem switches_reach_kernel confs conf (s : conf_state W) :
  accepts_rules -> module_loaded (config s) = true -> prevs s = prev_new ->
  let '(r, s') := update_config_from_json t true conf (downloads true confs s) in
  let before := view t (h_written (c_host s)) in
  let now := view t (h_written (c_host s')) in
  r = Ok tt
  /\ config s' = foldl (fun c conf => merge_config conf c) (config s) (confs ++ [conf])
  /\ k_defense now = Some (defense_line (defense_switch (config s')))
  /\ forall ch,
       existsb (switched_on ch) (merges (config s) (confs ++ [conf])) = true
       \/ field ch before = field ch all_off ->
       field ch now = field ch (view_of_config t (config s')).
Proof.
  intros Hacc Hmod Hs%new_session. set (l0 := h_written (c_host s)) in *.
  destruct (downloads_session l0 confs _ s Hacc Hmod Hs) as (I1 & C1 & M1).
  destruct (update_session l0 _ conf _ Hacc M1 I1) as (s' & E & C & [_ I] & l & Hl & Hv). rewrite E.
  cbv zeta. rewrite Hl. split_and!; [done|by rewrite C, C1, foldl_app| |].
  - unfold view at 1. cbn [k_defense]. rewrite last_such_app. apply (f_equal k_defense) in Hv.
    unfold view in Hv. cbn [k_defense] in Hv. by rewrite Hv.
  - intros ch Hch. rewrite field_app. specialize (I l ch Hl). destruct (sent ch l) eqn:Es; [by rewrite Hv|].
    destruct Hch as [Hch|Hch].
    + rewrite merges_app, existsb_app, <- C1, <- C in Hch. simpl in Hch.
      rewrite orb_false_r in Hch. discriminate (I Hch).
    + by rewrite Hch, <- Hv, field_unsent.
Qed.
End downloads.

(** ** A refused write is forgotten *)

Section refused.
Context {W : Type} `{Files W} (t : target).

(** The memory of a fetcher that has acted on [c]. *)
Definition settled (c : NetInfoConfig) : prev_switches :=
  Prev (Some (defense_switch c)) (open_port_switch c) (file_switch c) (extortion_protect c)
    (proc_switch c) (syslog_process_switch c) (dynamic_switch c) (self_protect_switch c).

Lemma bind_idle {A B} (m : io (conf_state W) (result string A)) a
    (f : A -> io (conf_state W) (result string B)) s :
  m s = (Ok a, s) -> bind_ok m f s = f a s.
Proof. intros E. unfold bind_ok. by rewrite E. Qed.

Lemma apply_config_diff_settled nl c (s : conf_state W) :
  prevs s = settled c -> apply_config_diff t nl c s = (Ok tt, s).
Proof.
  intros Hp. unfold apply_config_diff.
  repeat (rewrite (bind_idle _ tt);
    [|unfold diff_self_protect, diff_open_port, diff_dynamic, diff_file, diff_extortion,
        diff_process_log, mbind, io_bind, get_prevs; rewrite Hp; unfold settled; cbn iota;
      cbn [prev_self_protect_switch prev_open_port_switch prev_dynamic_switch prev_file_switch
           prev_extortion_switch prev_proc_switch prev_syslog_process_switch];
      by rewrite ?Bool.eqb_reflx]).
  unfold diff_defense, mbind, io_bind, get_prevs. rewrite Hp. cbn.
  by rewrite bool_decide_eq_true_2.
Qed.

(** A machine that takes everything but the defence word. *)
Definition refuses_defense (e : string) : Prop :=
  forall r m, (put (write_of t r) m).1 = if is_defense r then Err e else Ok tt.

(** the memory of the defence word is set before the word is written: when
    that write is refused the task fails, but applying the same settings again
    succeeds without writing anything, so the module never hears of them. *)
Theorem refused_defense_forgotten e c (s : conf_state W) :
  refuses_defense e -> module_loaded c = true -> in_step t [] s ->
  prev_defense_switch (prevs s) <> Some (defense_switch c) ->
  let '(r, s') := apply_config_diff t true c s in
  r = Err ("Failed to write to /proc/osec/defense_switch: " +:+ e)
  /\ apply_config_diff t true c s' = (Ok tt, s')
  /\ k_defense (view t (h_written (c_host s'))) = defense_line <$> prev_defense_switch (prevs s).
Proof.
  intros Href Hmod Hs Hne. rewrite (apply_config_diff_split t c).
  assert (forall r, is_defense r = false -> negb (is_defense r) = true) as Hok by by intros [].
  assert (forall r m, negb (is_defense r) = true -> (put (write_of t r) m).1 = Ok tt) as Hacc.
  { intros r m Hr%negb_true_iff. by rewrite Href, Hr. }
  destruct (before_defense_block t _ Hacc [] Hok c Hmod s Hs) as (s1 & E1 & I1 & P1 & C1).
  unfold bind_ok. rewrite E1. unfold diff_defense, mbind, io_bind, when. rewrite Hmod. simpl.
  rewrite P1. simpl. rewrite bool_decide_eq_false_2 by done. simpl.
  pose proof (Href (DefenseSwitch (defense_switch c)) (world (h_shell (c_host s1)))) as Hd.
  unfold rule_out, on_host, write_net_rule, with_err, write_out, mbind, io_bind. simpl.
  simpl in Hd. unfold defense_line in Hd.
  destruct (put _ _) as [x m]. simpl in Hd. subst x. simpl. split_and!; [done| |].
  - apply apply_config_diff_settled. simpl. by rewrite P1.
  - destruct I1 as (l & Hl & Hv). apply (f_equal k_defense) in Hv. rewrite P1 in Hv. by rewrite Hl.
Qed.
End refused.

(** ** Types and untouched fields *)

Lemma get_u32_typed {V} `{JsonNumbers V} (v : V) k old :
  is_uint 32 old -> is_uint 32 (upd (get_u32 v k) old).
Proof.
  intros Ho. unfold get_u32, ok_or. destruct (get_field v k) as [x|]; [simpl|done].
  destruct (as_u64 x) as [n|] eqn:E; [simpl|done]. apply as_u64_range in E as [? _].
  destruct (Z.ltb_spec n (2 ^ 32)); [by split|done].
Qed.

Lemma merge_config_typed {V} `{JsonNumbers V} (v : V) c :
  config_typed c -> config_typed (merge_config v c).
Proof.
  unfold config_typed. intros [Hn Ha]. split; [|done].
  repeat (apply Forall_cons in Hn as [? Hn]).
  repeat apply Forall_cons_2; simpl; auto using get_u32_typed.
Qed.

Section typed.
Context {W : Type} `{Files W} {V : Type} `{JsonNumbers V} (t : target).

(** A step that leaves the configuration as it is. *)
Definition same_config (s s' : conf_state W) : Prop := config s' = config s.
#[local] Instance same_config_preorder : PreOrder same_config.
Proof. split; [done|]. unfold same_config. intros ???. congruence. Qed.

Lemma same_host {A} (m : io (host W) A) : keeps same_config (on_host m).
Proof. intros s. unfold on_host. by destruct (m _). Qed.

Lemma apply_config_diff_same nl c : keeps same_config (apply_config_diff t nl c).
Proof.
  unfold apply_config_diff, diff_self_protect, diff_open_port, diff_dynamic, diff_file,
    diff_extortion, diff_process_log, diff_defense, when, rule_out.
  repeat first [apply keeps_bind_ok; [apply _| |intros ?] | apply keeps_bind; [apply _| |intros ?]
               | apply same_host | case_match | done].
Qed.

(** After an update the configuration is the merged one, and the pattern tables
    still mirror the manager. *)
Lemma update_config_config nl (conf : V) (s : conf_state W) :
  config (update_config_from_json t nl conf s).2 = merge_config conf (config s).
Proof.
  unfold update_config_from_json, mbind, io_bind. simpl.
  by rewrite (apply_config_diff_same nl (merge_config conf (config s))).
Qed.

Definition patterns_ok (s s' : conf_state W) : Prop :=
  mirrored (patterns s).1 (patterns s).2 -> mirrored (patterns s').1 (patterns s').2.
#[local] Instance patterns_ok_preorder : PreOrder patterns_ok.
Proof. split; [intros s Hs; exact Hs|intros a b c Hab Hbc Ha; auto]. Qed.

Lemma pattern_op_ok o : keeps patterns_ok (pattern_op (W:=W) o).
Proof. intros s Hs. by apply run_op_mirrored. Qed.

Lemma update_config_mirrored nl (conf : V) : keeps patterns_ok (update_config_from_json t nl conf).
Proof.
  assert (forall A (m : io (host W) A), keeps patterns_ok (on_host m)) as Hh.
  { intros A m s Hs. unfold on_host. destruct (m _). exact Hs. }
  assert (forall f, keeps patterns_ok (set_prevs (W:=W) f)) as Hp by (intros f s Hs; exact Hs).
  assert (keeps patterns_ok (get_prevs (W:=W))) as Hg by (intros s Hs; exact Hs).
  assert (keeps patterns_ok (get_config (W:=W))) as Hc by (intros s Hs; exact Hs).
  assert (forall c, keeps patterns_ok (set_config (W:=W) c)) as Hsc by (intros c s Hs; exact Hs).
  pose proof pattern_op_ok.
  unfold update_config_from_json, apply_config_diff, diff_self_protect, diff_open_port,
    diff_dynamic, diff_file, diff_extortion, diff_process_log, diff_defense, when, rule_out.
  keeps_auto.
Qed.
End typed.

(** ** Two downloads on a real host *)

Module Demo.
#[local] Instance all_writes : Files unit := {| put _ w := (Ok tt, w) |}.

Definition start : conf_state unit :=
  ConfState prev_new NetInfo.Demo.sample (Pattern.new, empty_proc) (Host (Shell tt []) []).

Definition first : value := Object [("open_port_switch", Number 1); ("proc_switch", Number 0)].
Definition second : value := Object [("open_port_switch", Number 0); ("crontime", Number (2 ^ 32))].

Lemma start_in_step : in_step le64 [] start.
Proof. exists []. split; [reflexivity|vm_compute; reflexivity]. Qed.

Lemma switches_reach_kernel_witness :
  let s' := (update_config_from_json le64 true second (downloads le64 true [first] start)).2 in
  k_open_port (view le64 (h_written (c_host s'))) =
    "vir_open_port_switch  0" +:+ String line_feed ""
  /\ cron_time (config s') = 30 /\ length (h_written (c_host s')) = 7%nat.
Proof.
  pose proof (switches_reach_kernel le64 [first] second start
    (fun _ _ => eq_refl) eq_refl eq_refl) as H.
  destruct (update_config_from_json _ _ _ _) as [r s'] eqn:E. cbn zeta. cbn [snd].
  destruct H as (_ & C & _ & Hv).
  specialize (Hv OpenPortChannel (or_introl eq_refl)). injection Hv as Hv.
  change (k_open_port (view le64 (h_written (c_host s'))) = open_port_line (open_port_switch (config s'))) in Hv.
  rewrite Hv, C.
  split_and!; [reflexivity..|].
  change s' with (r, s').2. rewrite <- E. vm_compute. reflexivity.
Defined.

(** A new session that finds the decoy ports on in the module and off in the
    settings sends nothing: they stay on. *)
Definition reconnected : conf_state unit :=
  let s := (update_config_from_json le64 true first start).2 in
  ConfState prev_new (config s) (patterns s) (c_host s).

Example switched_off_unheard :
  let s' := (update_config_from_json le64 true second reconnected).2 in
  open_port_switch (config s') = false
  /\ k_open_port (view le64 (h_written (c_host s'))) = open_port_line true.
Proof. vm_compute. split; reflexivity. Qed.

(** A module that will not take the defence word. *)
Definition deaf : Files unit := {| put w m :=
  (match w with
   | WriteFile p _ => if bool_decide (p = DEFENSE_SWITCH) then Err "EIO" else Ok tt
   | SendNetlink _ _ => Ok tt
   end, m) |}.

Lemma refused_defense_forgotten_witness :
  let diff := @apply_config_diff unit deaf le64 true NetInfo.Demo.sample in
  (diff start).1 = Err "Failed to write to /proc/osec/defense_switch: EIO"
  /\ (diff (diff start).2).1 = Ok tt.
Proof.
  pose proof (@refused_defense_forgotten unit deaf le64 "EIO" NetInfo.Demo.sample start) as H.
  cbn zeta. destruct (apply_config_diff _ _ _ start) as [r s'].
  destruct H as (-> & E & _); [by intros [[]| | | |] []|done|exact start_in_step|done|].
  cbn [snd]. by rewrite E.
Defined.
End Demo.
