(* ===== verification/IpJump.v ===== *)
(** * The address jump

    [crates/rules_jump_mgr]: the address helpers of [utils.rs] and the jump
    manager of [ip_manager.rs], which moves the primary address of the main
    interface to a new one, keeps the old address as a secondary one for a few
    ticks, and puts the old configuration back when a step fails.

    The [ip], [nmcli] and [which] programs are reached through [Shell].  The
    crates [regex] and [ipnet], and the HTTP client, are the class [JumpEnv]:
    the capture groups of each pattern, the parser of a network, one POST. *)

From S2P Require Import Prelude RustStr Json Shell.
From Stdlib Require Import Ascii.

(** ** Data *)

Record PutIpJumpInfo := PutInfo {
  info_source_ip : string;
  info_target_ip : string;
  info_gateway : string;
  info_agent_ip : string;
  info_status : Z;
  info_reason : string
}.

Record IpJumpConfig := JumpConfig { source_ip : string; target_ip : string; gateway : string }.

Record SecondaryIPInfo := Secondary {
  interface : string;
  ip : string;
  netmask : string;
  prefix_len : Z;
  added_tick : Z
}.

Record NetworkBackup := Backup {
  b_ip : string;
  b_netmask : string;
  b_gateway : option string;
  b_interface : string
}.

Record IpJumpInstruction := Instr {
  i_source_ip : string;
  i_target_ip : string;
  i_gateway : string;
  i_active_time : Z
}.

Definition AGING_TICKS : Z := 2.

Class JumpEnv (W : Type) := {
  (** [^\d+:\s+([^:\s]+)\s+inet\s+(\d+\.\d+\.\d+\.\d+)/(\d+)], with or without
      the optional [secondary] at its end: interface, address, prefix length. *)
  addr_line : string -> option (string * string * string);
  (** [inet\s+(\d+\.\d+\.\d+\.\d+)/\d+] and [src\s+(\d+\.\d+\.\d+\.\d+)]. *)
  inet_re : string -> option string;
  src_re : string -> option string;
  (** [str::parse::<Ipv4Net>]: address and prefix length, or the error text. *)
  parse_net : string -> result string (Z * Z);
  (** [Ipv4Net::contains]. *)
  net_contains : Z * Z -> Z -> bool;
  (** [NetClient::new] on a base URL, then [post_data_async] of a body. *)
  net_client : string -> result string unit;
  post_data : string -> string -> W -> result string string * W;
  (** [json!(..).to_string()]. *)
  json_text : value -> string
}.

Record jump_state (W : Type) := JumpState {
  secondary_ips : list SecondaryIPInfo;
  tick_counter : Z;
  last_upload_failed : bool;
  sh : shell W
}.
Arguments JumpState {W} _ _ _ _.
Arguments secondary_ips {W} _.
Arguments tick_counter {W} _.
Arguments last_upload_failed {W} _.
Arguments sh {W} _.

(** ** Addresses and masks *)

Definition count_ones (w : nat) (x : Z) : Z :=
  Z.of_nat (length (List.filter (fun i => Z.testbit x (Z.of_nat i)) (seq 0 w))).

Definition netmask_to_prefix (netmask : string) : result string Z :=
  match parse_ipv4 netmask with
  | Some mask => Ok (wrap 8 (count_ones 32 mask))
  | None => Err "invalid IPv4 address syntax"
  end.

(** [u32::checked_shl]: [None] when the shift is 32 or more. *)
Definition checked_shl (x k : Z) : option Z :=
  if k <? 32 then Some (wrap 32 (Z.shiftl x k)) else None.

Definition prefix_to_netmask (prefix : Z) : result string string :=
  if 32 <? prefix then Err "invalid prefix"
  else
    let mask := if prefix =? 0 then 0 else default 0 (checked_shl (2 ^ 32 - 1) (32 - prefix)) in
    let a := Z.land (Z.shiftr mask 24) 255 in
    let b := Z.land (Z.shiftr mask 16) 255 in
    let c := Z.land (Z.shiftr mask 8) 255 in
    let d := Z.land mask 255 in
    Ok (dec a +:+ "." +:+ dec b +:+ "." +:+ dec c +:+ "." +:+ dec d).

(** [ip_list.split(',').map(trim).any(|item| item == ip)]. *)
Definition ip_list_contains (ip_list ip : string) : bool :=
  existsb (fun item => bool_decide (trim item = ip)) (split_char ","%char ip_list).

Definition strip_ip_prefix (ip : string) : string :=
  match split_once "/"%char ip with Some (a, _) => a | None => ip end.

(** [Vec::<String>::sort_unstable] (byte order) and [dedup]. *)
Fixpoint insert_sorted (x : string) (l : list string) : list string :=
  match l with
  | [] => [x]
  | y :: l' => if String.leb x y then x :: l else y :: insert_sorted x l'
  end.
Definition sort_strings (l : list string) : list string := foldr insert_sorted [] l.
Fixpoint dedup (l : list string) : list string :=
  match l with
  | x :: (y :: _) as l' => if bool_decide (x = y) then dedup l' else x :: dedup l'
  | _ => l
  end.

(** [/proc/net/tcp] has the remote address as a host-order hexadecimal word;
    [None] when it cannot be read. *)
Definition has_established_connection (proc_net_tcp : option string) (target : string) : bool :=
  match proc_net_tcp, parse_ipv4 target with
  | Some content, Some a =>
    let hex := hex02X (octet 0 a) +:+ hex02X (octet 1 a) +:+ hex02X (octet 2 a)
               +:+ hex02X (octet 3 a) in
    existsb (fun line =>
      match split_whitespace line with
      | _ :: _ :: rem_addr :: st :: _ => starts_with hex rem_addr && bool_decide (st = "01")
      | _ => false
      end) (drop 1 (lines content))
  | _, _ => false
  end.

(** Interfaces the address report leaves out. *)
Definition BAD_IFACES : list string :=
  ["lo"; "docker"; "veth"; "br-"; "cni"; "flannel"; "kube"; "virbr"].

(** One line of [ip -o addr show]: interface and address of a line with at
    least four words and a prefix, unless the interface is a virtual one. *)
Definition local_line (line : string) : option string :=
  match split_whitespace line with
  | _ :: iface :: _ :: cidr :: _ =>
    if existsb (fun bad => starts_with bad iface) BAD_IFACES then None
    else fst <$> split_once "/"%char cidr
  | _ => None
  end.

Definition local_v6 (line : string) : option string :=
  ip ← local_line line;
  if bool_decide (ip = "::1") || starts_with "fe80:" ip || starts_with "ff" ip
  then None else Some ip.

Definition global_v4 (ip : string) : bool :=
  negb (bool_decide (ip = "127.0.0.1")) && negb (starts_with "169.254." ip).

(** A prefix length goes to its mask and back; longer ones are refused. *)
Lemma netmask_prefix_roundtrip p :
  is_uint 8 p ->
  match prefix_to_netmask p with
  | Ok mask => p <= 32 /\ netmask_to_prefix mask = Ok p
  | Err _ => 32 < p
  end.
Proof.
  intros [Hp _]. destruct (Z.ltb_spec 32 p) as [Hlt|Hle].
  { unfold prefix_to_netmask. rewrite (proj2 (Z.ltb_lt 32 p)) by done. done. }
  assert (forallb (fun n => match prefix_to_netmask (Z.of_nat n) with
                            | Ok mask => bool_decide (netmask_to_prefix mask = Ok (Z.of_nat n))
                            | Err _ => false
                            end) (seq 0 33) = true) as Hall by (vm_compute; reflexivity).
  rewrite forallb_forall in Hall. specialize (Hall (Z.to_nat p)).
  rewrite Z2Nat.id, in_seq in Hall by lia.
  destruct (prefix_to_netmask p) as [mask|].
  - split; [lia|]. eapply bool_decide_eq_true_1, Hall. lia.
  - assert (false = true) by (apply Hall; lia). done.
Qed.

(** ** The manager *)

Section manager.
Context {W : Type} `{Os W} `{JumpEnv W}.
Context (main_interface : string).

Abbreviation st := (jump_state W).

(** Run a shell action on the manager's state. *)
Definition lift {A} (m : io (shell W) A) : io st A := fun s =>
  let '(a, h) := m (sh s) in
  (a, JumpState (secondary_ips s) (tick_counter s) (last_upload_failed s) h).

Definition capture (cmd : string) (argv : list string) : io st (result string string) :=
  lift (run_cmd_capture cmd argv).
Definition status (cmd : string) (argv : list string) : io st (result string unit) :=
  lift (run_cmd_status cmd argv).
Definition run_ip_cmd (argv : list string) : io st (result string unit) := status "ip" argv.

(** The lock-guarded list, one access each. *)
Definition get_list : io st (list SecondaryIPInfo) := fun s => (secondary_ips s, s).
Definition set_list (l : list SecondaryIPInfo) : io st unit := fun s =>
  (tt, JumpState l (tick_counter s) (last_upload_failed s) (sh s)).
Definition retain_list (p : SecondaryIPInfo -> bool) : io st unit :=
  l ← get_list; set_list (retain p l).

Definition parse_cidr (cidr : string) : result string (string * Z) :=
  (fun '(a, p) => (ipv4_to_string a, p)) <$> parse_net cidr.

Definition ip_exists_on_iface (iface ip : string) : io st bool :=
  r ← capture "ip" ["-4"; "addr"; "show"; "dev"; iface];
  mret (match r with Ok out => contains ip out | Err _ => false end).

Definition get_local_ips_all : io st (option string) :=
  out4 ← capture "ip" ["-o"; "-4"; "addr"; "show"];
  out6 ← capture "ip" ["-o"; "-6"; "addr"; "show"];
  let v4 := match out4 with Ok out => omap local_line (lines out) | Err _ => [] end in
  let v6 := match out6 with Ok out => omap local_v6 (lines out) | Err _ => [] end in
  mret (match v4 ++ v6 with [] => None | ips => Some (join "," ips) end).

(** The source address of the default route, when no address was found. *)
Definition route_src : io st (list string) :=
  r ← capture "ip" ["route"; "get"; "1.1.1.1"];
  mret (match r with
        | Ok out => match src_re out with
                    | Some ip => if global_v4 ip then [ip] else []
                    | None => []
                    end
        | Err _ => []
        end).

Definition local_ips (keep : string -> bool) : io st (list string) :=
  r ← capture "ip" ["-o"; "-4"; "addr"; "show"; "scope"; "global"];
  let ips := match r with
             | Ok out => retain (fun ip => global_v4 ip && keep ip) (omap inet_re (lines out))
             | Err _ => []
             end in
  ips ← match ips with [] => route_src | _ => mret ips end;
  mret (dedup (sort_strings ips)).

Definition get_local_ip : io st (option string) :=
  ips ← local_ips (fun _ => true); mret (head ips).
Definition get_local_ips_exclude (excluded_ip : string) : io st (list string) :=
  local_ips (fun ip => negb (bool_decide (ip = excluded_ip))).

Definition increment_tick : io st Z := fun s =>
  let tick := wrapping_add 64 (tick_counter s) 1 in
  (tick, JumpState (secondary_ips s) tick (last_upload_failed s) (sh s)).

(** *** Reading the configuration *)

Record scan := Scan { primary_ip : option string; found : bool; is_secondary : bool }.

(** One iteration of the loop of [get_primary_ip]. *)
Definition scan_line (source : string) (acc : scan) (line : string) : scan :=
  match addr_line line with
  | None => acc
  | Some (_, addr, _) =>
    let secondary := contains "secondary" line in
    let acc :=
      if bool_decide (addr = source) then
        if secondary then Scan (primary_ip acc) true true
        else Scan (Some addr) true (is_secondary acc)
      else acc in
    match primary_ip acc with
    | None => if secondary then acc else Scan (Some addr) (found acc) (is_secondary acc)
    | Some _ => acc
    end
  end.

Definition get_primary_ip (source : string) : io st (result string (string * string)) :=
  let? out := with_err (fun e => "ip addr show dev " +:+ main_interface +:+ " failed: " +:+ e)
                (capture "ip" ["-o"; "-4"; "addr"; "show"; "dev"; main_interface]) in
  let r := foldl (scan_line source) (Scan None false false) (lines out) in
  mret (if found r && negb (is_secondary r) then Ok (source, main_interface)
        else match primary_ip r with
             | Some primary => Ok (primary, main_interface)
             | None => Err ("No primary IP found on interface " +:+ main_interface)
             end).

Definition default_via (line : string) : option string :=
  match split_whitespace line with
  | d :: v :: gw :: _ => if bool_decide (d = "default") && bool_decide (v = "via") then Some gw
                         else None
  | _ => None
  end.

Definition get_default_gateway : io st (result string string) :=
  let? out := capture "ip" ["route"; "show"; "default"] in
  mret (ok_or "no default gateway" (head (omap default_via (lines out)))).

Definition addr_of (ip line : string) : option (string * Z) :=
  '(iface, addr, prefix) ← addr_line line;
  if bool_decide (addr = ip) then Some (iface, default 24 (parse_uint 8 prefix)) else None.

Definition backup_interface (ip : string) : io st (result string NetworkBackup) :=
  let? out := with_err (fun e => "ip addr show failed: " +:+ e)
                (capture "ip" ["-o"; "-4"; "addr"; "show"]) in
  match head (omap (addr_of ip) (lines out)) with
  | None => mret (Err ("interface for ip " +:+ ip +:+ " not found"))
  | Some (iface, prefix) =>
    match prefix_to_netmask prefix with
    | Err e => mret (Err e)
    | Ok mask => gw ← get_default_gateway; mret (Ok (Backup ip mask (ok gw) iface))
    end
  end.

Definition get_primary_ip_of_main_interface : io st (result string string) :=
  let? out := with_err (fun e => "ip addr show failed: " +:+ e)
                (capture "ip" ["-o"; "-4"; "addr"; "show"; "dev"; main_interface]) in
  let primary line :=
    '(_, addr, _) ← addr_line line; if contains "secondary" line then None else Some addr in
  mret (ok_or ("No primary IP found on interface " +:+ main_interface)
          (head (omap primary (lines out)))).

Definition find_iface_for_gateway (gw : string) : io st (option string) :=
  r ← capture "ip" ["-o"; "-4"; "addr"; "show"];
  let on_line line :=
    match split_whitespace line with
    | _ :: iface :: _ :: cidr :: _ =>
      match parse_net cidr, parse_ipv4 gw with
      | Ok net, Some a => if net_contains net a then Some iface else None
      | _, _ => None
      end
    | _ => None
    end in
  mret (match r with Ok out => head (omap on_line (lines out)) | Err _ => None end).

(** *** Changing the configuration *)

Definition set_gateway (gw iface : string) : io st (result string unit) :=
  _ ← status "ip" ["route"; "del"; "default"; "dev"; iface];
  with_err (fun e => "set_gateway failed: " +:+ e)
    (status "ip" ["route"; "add"; "default"; "via"; gw; "dev"; iface]).

(** [format!("{}/{}", ip, prefix)]. *)
Definition with_prefix (ip : string) (prefix : Z) : string := ip +:+ "/" +:+ dec prefix.

Definition restore_backup (b : NetworkBackup) : io st (result string unit) :=
  match netmask_to_prefix (b_netmask b) with
  | Err e => mret (Err e)
  | Ok prefix =>
    _ ← run_ip_cmd ["addr"; "add"; with_prefix (b_ip b) prefix; "dev"; b_interface b];
    match b_gateway b with
    | Some gw => _ ← set_gateway gw (b_interface b); mret (Ok tt)
    | None => mret (Ok tt)
    end
  end.

(** A deletion took effect: it was accepted and the address is no longer listed. *)
Definition gone_after (iface ip : string) (r : result string string) : io st bool :=
  match r with
  | Ok _ => still ← ip_exists_on_iface iface ip; mret (negb still)
  | Err _ => mret false
  end.

Definition try_remove_ip_from_system (iface ip : string) (prefix : Z)
    : io st (result string unit) :=
  present ← ip_exists_on_iface iface ip;
  if negb present then mret (Ok tt)
  else
    r ← capture "ip" ["addr"; "del"; with_prefix ip prefix; "dev"; iface];
    gone ← gone_after iface ip r;
    if (gone : bool) then mret (Ok tt)
    else
      r ← capture "ip" ["addr"; "del"; ip; "dev"; iface];
      match r with
      | Ok _ =>
        still ← ip_exists_on_iface iface ip;
        if negb still then mret (Ok tt)
        else mret (Err ("fallback delete executed but IP still present: " +:+ ip +:+ " on "
                        +:+ iface))
      | Err e => mret (Err ("both delete attempts failed or ineffective: " +:+ e))
      end.

Definition same_key (iface ip : string) (x : SecondaryIPInfo) : bool :=
  bool_decide (interface x = iface) && bool_decide (IpJump.ip x = ip).

Definition cleanup_one (keep_ip : string) (entry : SecondaryIPInfo) : io st unit :=
  if bool_decide (ip entry = keep_ip) then mret tt
  else
    _ ← try_remove_ip_from_system (interface entry) (ip entry) (prefix_len entry);
    retain_list (fun x => negb (bool_decide (ip x = ip entry))
                          || negb (bool_decide (interface x = interface entry))).

Definition cleanup_old_secondary (keep_ip : string) : io st unit :=
  snapshot ← get_list; for_each (cleanup_one keep_ip) snapshot.

(** The first entry of a key gets the new tick. *)
Fixpoint touch (iface ip : string) (tick : Z) (l : list SecondaryIPInfo)
    : option (list SecondaryIPInfo) :=
  match l with
  | [] => None
  | x :: l =>
    if same_key iface ip x
    then Some (Secondary (interface x) (IpJump.ip x) (netmask x) (prefix_len x) tick :: l)
    else cons x <$> touch iface ip tick l
  end.

Definition add_secondary_ip (iface ip mask : string) (prefix tick : Z)
    : io st (result string unit) :=
  l ← get_list;
  match touch iface ip tick l with
  | Some l' => _ ← set_list l'; mret (Ok tt)
  | None =>
    _ ← set_list (l ++ [Secondary iface ip mask prefix tick]);
    present ← ip_exists_on_iface iface ip;
    if (present : bool) then mret (Ok tt)
    else with_err (fun e => "failed to add secondary ip to system: " +:+ e)
           (run_ip_cmd ["addr"; "add"; with_prefix ip prefix; "dev"; iface])
  end.

Definition remove_secondary_ip (iface ip : string) : io st (result string unit) :=
  l ← get_list;
  let prefix := match List.find (same_key iface ip) l with
                | Some x => prefix_len x
                | None => 0
                end in
  let? _ := try_remove_ip_from_system iface ip prefix in
  _ ← retain_list (fun x => negb (same_key iface ip x)); mret (Ok tt).

(** *** The jump *)

(** The steps from the removal of the source address on; every failure that
    leaves the interface changed goes through [restore_backup]. *)
Definition jump_steps (cfg : IpJumpConfig) (b : NetworkBackup) (src_prefix : Z)
    (target : string) (target_prefix : Z) : io st (result string unit) :=
  let fail_with (text e : string) : io st (result string unit) :=
    _ ← restore_backup b; mret (Err (text +:+ e)) in
  r ← run_ip_cmd ["addr"; "del"; with_prefix (source_ip cfg) src_prefix; "dev"; b_interface b];
  match r with
  | Err e => fail_with "addr del failed: " e
  | Ok _ =>
    r ← run_ip_cmd ["addr"; "add"; with_prefix target target_prefix; "dev"; b_interface b];
    match r with
    | Err e => fail_with "addr add failed: " e
    | Ok _ =>
      tick ← increment_tick;
      _ ← add_secondary_ip (b_interface b) (source_ip cfg) (b_netmask b) src_prefix tick;
      if str_is_empty (trim (gateway cfg)) then mret (Ok tt)
      else
        r ← set_gateway (gateway cfg) (b_interface b);
        match r with
        | Err e => fail_with "set gateway failed: " e
        | Ok _ => mret (Ok tt)
        end
    end
  end.

Definition do_ip_jump (config : IpJumpConfig) : io st (result string PutIpJumpInfo) :=
  let? (source, _) := get_primary_ip (source_ip config) in
  let cfg := JumpConfig source (target_ip config) (gateway config) in
  _ ← cleanup_old_secondary (source_ip cfg);
  let? b := backup_interface (source_ip cfg) in
  match netmask_to_prefix (b_netmask b), parse_cidr (target_ip cfg) with
  | Err e, _ | Ok _, Err e => mret (Err e)
  | Ok src_prefix, Ok (target, target_prefix) =>
    let? _ := jump_steps cfg b src_prefix target target_prefix in
    agent_ips ← get_local_ips_exclude (source_ip cfg);
    mret (Ok (PutInfo (source_ip cfg) (target_ip cfg) (gateway cfg) (join "," agent_ips) 1
                "IP jump completed"))
  end.

(** [info] is written at the end of a successful jump only. *)
Definition do_ip_jump_async (config : IpJumpConfig) (info : PutIpJumpInfo)
    : io st (result string unit * PutIpJumpInfo) := fun s =>
  match do_ip_jump config s with
  | (Ok info', s') => ((Ok tt, info'), s')
  | (Err e, s') => ((Err e, info), s')
  end.

(** *** Reporting *)

Definition post_json (base_url path : string) (body : value) (new_text post_text : string -> string)
    : io st (result string string) := fun s =>
  match net_client base_url with
  | Err e => (Err (new_text e), s)
  | Ok _ =>
    let '(r, w) := post_data (base_url +:+ path) (json_text body) (world (sh s)) in
    (map_err post_text r,
     JumpState (secondary_ips s) (tick_counter s) (last_upload_failed s)
          (Shell w (trace (sh s))))
  end.

Definition build_upload_agent_ip_json (agent_ip : string) : value :=
  Object [("ip", Str agent_ip)].

Definition upload_ip_jump_periodic_result (base_url agent_ip : string)
    : io st (result string unit) :=
  let? _ := post_json base_url "/v1/uploadIp" (build_upload_agent_ip_json agent_ip)
                 (fun e => "创建 NetClient 失败: " +:+ e) (fun e => "发送指标失败: " +:+ e) in
  mret (Ok tt).

Definition build_upload_ip_jump_json (info : PutIpJumpInfo) : value :=
  Object [("source_ip", Str (info_source_ip info)); ("target_ip", Str (info_target_ip info));
          ("gateway", Str (info_gateway info)); ("agent_ip", Str (info_agent_ip info));
          ("status", Number (info_status info)); ("reason", Str (info_reason info))].

Definition upload_result_direct (base_url : string) (info : PutIpJumpInfo)
    : io st (result string unit) :=
  match net_client base_url with
  | Err e => mret (Err e)
  | Ok _ => _ ← post_json base_url "/v1/putIpJump" (build_upload_ip_jump_json info) id id;
            mret (Ok tt)
  end.

(** *** Ageing *)

Definition aged (tick : Z) (x : SecondaryIPInfo) : bool :=
  AGING_TICKS <=? saturating_sub tick (added_tick x).

(** The removal loop: [true] when at least one entry was removed. *)
Fixpoint remove_expired (expired : list (string * string * Z)) (any_removed : bool)
    : io st bool :=
  match expired with
  | [] => mret any_removed
  | (iface, ip, prefix) :: expired =>
    r ← try_remove_ip_from_system iface ip prefix;
    match r with
    | Ok _ => _ ← retain_list (fun x => negb (same_key iface ip x)); remove_expired expired true
    | Err _ => remove_expired expired any_removed
    end
  end.

Definition get_upload_failed : io st bool := fun s => (last_upload_failed s, s).
Definition set_upload_failed (b : bool) : io st unit := fun s =>
  (tt, JumpState (secondary_ips s) (tick_counter s) b (sh s)).

Definition expired_keys (tick : Z) (l : list SecondaryIPInfo) : list (string * string * Z) :=
  (fun x => (interface x, ip x, prefix_len x)) <$> retain (aged tick) l.

Definition upload_if (need_upload : bool) (base_url : string) : io st unit :=
  if need_upload then
    local ← get_local_ips_all;
    match local with
    | None => mret tt
    | Some agent_ip =>
      r ← upload_ip_jump_periodic_result base_url agent_ip;
      set_upload_failed (negb (is_ok r))
    end
  else mret tt.

Definition do_periodic_cleanup (base_url : string) : io st unit :=
  tick ← increment_tick;
  l ← get_list;
  any_removed ← remove_expired (expired_keys tick l) false;
  failed ← get_upload_failed;
  upload_if (any_removed || failed) base_url.
End manager.

(** ** What the operations do to the machine *)

(** A command that changes addresses or routes, as opposed to a query. *)
Definition changes (c : command) : bool :=
  match args c with
  | what :: verb :: _ =>
    (bool_decide (what = "addr") || bool_decide (what = "route"))
    && (bool_decide (verb = "add") || bool_decide (verb = "del"))
  | _ => false
  end.
Definition query (c : command) : Prop := changes c = false.

Definition addr_del (ip iface : string) : command := Cmd "ip" ["addr"; "del"; ip; "dev"; iface].
Definition addr_add (ip iface : string) : command := Cmd "ip" ["addr"; "add"; ip; "dev"; iface].

Definition is_addr_del (c : command) : bool :=
  match args c with
  | what :: verb :: _ => bool_decide (what = "addr") && bool_decide (verb = "del")
  | _ => false
  end.

(** The two forms in which an entry is deleted. *)
Definition deletes (x : SecondaryIPInfo) (c : command) : Prop :=
  c = addr_del (with_prefix (ip x) (prefix_len x)) (interface x)
  \/ c = addr_del (ip x) (interface x).

Definition key (x : SecondaryIPInfo) : string * string := (interface x, ip x).

Section effects.
Context {W : Type} `{Os W} `{JumpEnv W}.
Context (main_interface : string).

Definition same_lists (s s' : jump_state W) : Prop :=
  secondary_ips s' = secondary_ips s /\ tick_counter s' = tick_counter s
  /\ last_upload_failed s' = last_upload_failed s.
Definition runs (P : command -> Prop) (s s' : jump_state W) : Prop := ran P (sh s) (sh s').
Definition reads (s s' : jump_state W) : Prop := same_lists s s' /\ runs query s s'.

#[local] Instance same_lists_preorder : PreOrder same_lists.
Proof. split; [done|]. intros s1 s2 s3 (?&?&?) (?&?&?). split_and!; congruence. Qed.
#[local] Instance runs_preorder P : PreOrder (runs P).
Proof. split; [intros s; apply ran_refl|intros s1 s2 s3; apply ran_trans]. Qed.
#[local] Instance reads_preorder : PreOrder reads.
Proof. split; [done|]. intros s1 s2 s3 [??] [??]. split; by etrans. Qed.

Lemma lift_same_lists {A} (m : io (shell W) A) : keeps same_lists (lift m).
Proof. intros s. unfold lift. by destruct (m (sh s)). Qed.
Lemma capture_same_lists cmd argv : keeps same_lists (capture (W:=W) cmd argv).
Proof. apply lift_same_lists. Qed.
Lemma status_same_lists cmd argv : keeps same_lists (status (W:=W) cmd argv).
Proof. apply lift_same_lists. Qed.

Lemma capture_trace cmd argv s :
  trace (sh (capture (W:=W) cmd argv s).2) = trace (sh s) ++ [Cmd cmd argv].
Proof.
  unfold capture, lift. pose proof (run_cmd_capture_trace cmd argv (sh s)) as E.
  by destruct (run_cmd_capture _ _ _).
Qed.
Lemma status_trace cmd argv s :
  trace (sh (status (W:=W) cmd argv s).2) = trace (sh s) ++ [Cmd cmd argv].
Proof.
  unfold status, lift. pose proof (run_cmd_status_trace cmd argv (sh s)) as E.
  by destruct (run_cmd_status _ _ _).
Qed.

Lemma capture_runs (P : command -> Prop) cmd argv :
  P (Cmd cmd argv) -> keeps (runs P) (capture (W:=W) cmd argv).
Proof. intros HP s. exists [Cmd cmd argv]. split; [apply capture_trace|by constructor]. Qed.
Lemma status_runs (P : command -> Prop) cmd argv :
  P (Cmd cmd argv) -> keeps (runs P) (status (W:=W) cmd argv).
Proof. intros HP s. exists [Cmd cmd argv]. split; [apply status_trace|by constructor]. Qed.
Lemma capture_reads cmd argv : query (Cmd cmd argv) -> keeps reads (capture (W:=W) cmd argv).
Proof. intros Hq s. split; [apply capture_same_lists|by apply capture_runs]. Qed.

#[local] Hint Resolve capture_reads capture_same_lists status_same_lists : agent.
#[local] Hint Extern 1 (query _) => reflexivity : agent.

Lemma ip_exists_reads iface a : keeps reads (ip_exists_on_iface (W:=W) iface a).
Proof. unfold ip_exists_on_iface. keeps_auto. Qed.

Lemma get_primary_ip_reads source : keeps reads (get_primary_ip (W:=W) main_interface source).
Proof. unfold get_primary_ip. keeps_auto. Qed.

Lemma backup_interface_reads a : keeps reads (backup_interface (W:=W) a).
Proof. unfold backup_interface, get_default_gateway. keeps_auto. Qed.

Lemma local_ips_reads keep : keeps reads (local_ips (W:=W) keep).
Proof. unfold local_ips, route_src. keeps_auto. Qed.

Lemma get_local_ips_all_reads : keeps reads (get_local_ips_all (W:=W)).
Proof. unfold get_local_ips_all. keeps_auto. Qed.

#[local] Hint Resolve ip_exists_reads : agent.

Lemma gone_after_reads iface a r : keeps reads (gone_after (W:=W) iface a r).
Proof. unfold gone_after. keeps_auto. Qed.

Lemma reads_same {A} (m : io (jump_state W) A) : keeps reads m -> keeps same_lists m.
Proof. intros Hm s. apply Hm. Qed.

Lemma reads_runs {A} (P : command -> Prop) (m : io (jump_state W) A) :
  (forall c, query c -> P c) -> keeps reads m -> keeps (runs P) m.
Proof. intros HP Hm s. eapply ran_mono; [exact HP|]. apply Hm. Qed.

(** Deleting one address: the lists stay, and only the two deletions of that
    address are run. *)
Definition try_del (iface a : string) (prefix : Z) (c : command) : Prop :=
  query c \/ c = addr_del (with_prefix a prefix) iface \/ c = addr_del a iface.

Lemma try_remove_same iface a prefix :
  keeps same_lists (try_remove_ip_from_system (W:=W) iface a prefix).
Proof.
  pose proof (reads_same _ (ip_exists_reads iface a)).
  unfold try_remove_ip_from_system, gone_after. keeps_auto.
Qed.

Lemma try_remove_runs iface a prefix :
  keeps (runs (try_del iface a prefix)) (try_remove_ip_from_system (W:=W) iface a prefix).
Proof.
  assert (keeps (runs (try_del iface a prefix)) (ip_exists_on_iface (W:=W) iface a))
    by (apply reads_runs; [by left|apply ip_exists_reads]).
  unfold try_remove_ip_from_system, gone_after. keeps_auto; apply capture_runs; unfold try_del; auto.
Qed.

(** A refused deletion has been tried both ways. *)
Definition tried (iface a : string) (prefix : Z) (t : list command) : Prop :=
  addr_del (with_prefix a prefix) iface ∈ t /\ addr_del a iface ∈ t.

Lemma exists_ext iface a s b s' :
  ip_exists_on_iface (W:=W) iface a s = (b, s') ->
  exists t, trace (sh s') = trace (sh s) ++ t.
Proof.
  intros E. destruct (keeps_run reads _ _ _ _ (ip_exists_reads iface a) E) as [_ (t & Et & _)].
  by exists t.
Qed.

Lemma capture_ext cmd argv s r s' :
  capture (W:=W) cmd argv s = (r, s') -> trace (sh s') = trace (sh s) ++ [Cmd cmd argv].
Proof. intros E. pose proof (capture_trace cmd argv s) as Ht. by rewrite E in Ht. Qed.

Lemma status_ext cmd argv s r s' :
  status (W:=W) cmd argv s = (r, s') -> trace (sh s') = trace (sh s) ++ [Cmd cmd argv].
Proof. intros E. pose proof (status_trace cmd argv s) as Ht. by rewrite E in Ht. Qed.

Lemma try_remove_err iface a prefix s e s' :
  try_remove_ip_from_system (W:=W) iface a prefix s = (Err e, s') ->
  exists t, trace (sh s') = trace (sh s) ++ t /\ tried iface a prefix t.
Proof.
  unfold try_remove_ip_from_system, mbind, io_bind. intros E.
  destruct (ip_exists_on_iface iface a s) as [[] s1] eqn:E1; [|done].
  apply exists_ext in E1 as (t1 & T1). simpl in E.
  destruct (capture _ _ s1) as [r2 s2] eqn:E2. apply capture_ext in E2 as T2.
  destruct (gone_after iface a r2 s2) as [gone s3] eqn:E3.
  destruct (keeps_run reads _ _ _ _ (gone_after_reads iface a r2) E3) as [_ (t3 & T3 & _)].
  destruct gone; [done|].
  destruct (capture _ _ s3) as [r4 s4] eqn:E4. apply capture_ext in E4 as T4.
  assert (exists t5, trace (sh s') = trace (sh s4) ++ t5) as (t5 & T5).
  { unfold mret, io_ret in E. destruct r4; [|exists []; simplify_eq/=; by rewrite app_nil_r].
    destruct (ip_exists_on_iface iface a s4) as [b s5] eqn:E5.
    apply exists_ext in E5. destruct b; by simplify_eq/=. }
  exists (t1 ++ [addr_del (with_prefix a prefix) iface] ++ t3 ++ [addr_del a iface] ++ t5).
  split; [|unfold tried; set_solver].
  rewrite T5, T4, T3, T2, T1. by rewrite <-!app_assoc.
Qed.

(** ** Ageing *)

Definition key_of (k : string * string * Z) : string * string := (k.1.1, k.1.2).

Lemma same_key_key iface a x : same_key iface a x = bool_decide (key x = (iface, a)).
Proof.
  unfold same_key, key. rewrite <-bool_decide_and. apply bool_decide_ext. naive_solver.
Qed.

Lemma remove_expired_spec ks any s b s' :
  remove_expired (W:=W) ks any s = (b, s') ->
  tick_counter s' = tick_counter s /\
  exists gone t,
    gone ⊆ ks /\
    secondary_ips s' = retain (fun x => bool_decide (key x ∉ key_of <$> gone)) (secondary_ips s) /\
    trace (sh s') = trace (sh s) ++ t /\
    Forall (fun c => exists k, k ∈ ks /\ try_del k.1.1 k.1.2 k.2 c) t /\
    (forall k, k ∈ ks -> k ∈ gone \/ tried k.1.1 k.1.2 k.2 t).
Proof.
  revert any s. induction ks as [|[[iface a] p] ks IH]; intros any s E; simpl in E.
  { unfold mret, io_ret in E. simplify_eq/=. split; [done|]. exists [], []. split_and!; [done| |by rewrite app_nil_r|done|].
    - symmetry. apply retain_true. intros x _. apply bool_decide_eq_true. set_solver.
    - set_solver. }
  unfold mbind, io_bind in E.
  destruct (try_remove_ip_from_system iface a p s) as [r s1] eqn:E1.
  destruct (keeps_run _ _ _ _ _ (try_remove_same iface a p) E1) as (L1 & K1 & _).
  destruct (keeps_run _ _ _ _ _ (try_remove_runs iface a p) E1) as (t1 & T1 & P1).
  assert (forall t2, Forall (fun c => exists k, k ∈ ks /\ try_del k.1.1 k.1.2 k.2 c) t2 ->
    Forall (fun c => exists k, k ∈ (iface, a, p) :: ks /\ try_del k.1.1 k.1.2 k.2 c) (t1 ++ t2))
    as HP.
  { intros t2 P2. apply Forall_app. split.
    - eapply Forall_impl; [exact P1|]. intros c Hc. exists (iface, a, p). set_solver.
    - eapply Forall_impl; [exact P2|]. intros c (k & Hk & Hc). exists k. set_solver. }
  destruct r as [[]|e].
  - apply IH in E as (K & gone & t & Hsub & L & T & P & Hall). simpl in *.
    split; [congruence|]. exists ((iface, a, p) :: gone), (t1 ++ t).
    split_and!; [set_solver| |by rewrite T, T1, app_assoc|by apply HP|].
    + rewrite L, L1, retain_retain. unfold retain. apply List.filter_ext. intros x.
      rewrite same_key_key. case_bool_decide; case_bool_decide; case_bool_decide; set_solver.
    + intros k [->|Hk]%elem_of_cons; [set_solver|].
      destruct (Hall k Hk) as [?|[??]]; [set_solver|]. right. split; set_solver.
  - apply IH in E as (K & gone & t & Hsub & L & T & P & Hall).
    split; [congruence|]. exists gone, (t1 ++ t).
    split_and!; [set_solver|by rewrite L, L1|by rewrite T, T1, app_assoc|by apply HP|].
    apply try_remove_err in E1 as (t' & T' & Ht'). rewrite T1 in T'. simplify_eq/=.
    intros k [->|Hk]%elem_of_cons; [right; unfold tried in *; set_solver|].
    destruct (Hall k Hk) as [?|[??]]; [by left|]. right. split; set_solver.
Qed.

(** Reporting leaves the list and the clock alone and only queries the machine. *)
Definition reports (s s' : jump_state W) : Prop :=
  secondary_ips s' = secondary_ips s /\ tick_counter s' = tick_counter s /\ runs query s s'.

#[local] Instance reports_preorder : PreOrder reports.
Proof.
  split; [intros s; split_and!; reflexivity|].
  intros s1 s2 s3 (?&?&?) (?&?&?). split_and!; [congruence..|by etrans].
Qed.

Lemma post_json_reports base path body f g :
  keeps reports (post_json (W:=W) base path body f g).
Proof.
  intros s. unfold post_json. destruct (net_client base); [|reflexivity].
  destruct (post_data _ _ _). split_and!; [done..|]. exists []. by rewrite app_nil_r.
Qed.

Lemma set_upload_failed_reports b : keeps reports (set_upload_failed (W:=W) b).
Proof. intros s. split_and!; [done..|]. exists []. by rewrite app_nil_r. Qed.

Lemma get_local_ips_all_reports : keeps reports (get_local_ips_all (W:=W)).
Proof. intros s. destruct (get_local_ips_all_reads s) as [(?&?&?) ?]. by split_and!. Qed.

Lemma upload_if_reports need base : keeps reports (upload_if (W:=W) need base).
Proof.
  pose proof get_local_ips_all_reports. pose proof post_json_reports.
  pose proof set_upload_failed_reports.
  unfold upload_if, upload_ip_jump_periodic_result. keeps_auto.
Qed.

Lemma elem_of_expired tick l k :
  k ∈ expired_keys tick l <->
  exists x, x ∈ l /\ aged tick x = true /\ k = (interface x, ip x, prefix_len x).
Proof.
  unfold expired_keys. rewrite list_elem_of_fmap. setoid_rewrite elem_of_retain. naive_solver.
Qed.

(** one tick of the ageing task.  With one entry per interface and address
    it advances the clock, keeps every entry younger than two ticks, drops
    every older entry unless the machine refused both forms of its deletion,
    and deletes no address but those of older entries. *)
Theorem periodic_cleanup_ages base_url (s s' : jump_state W) :
  NoDup (key <$> secondary_ips s) ->
  do_periodic_cleanup base_url s = (tt, s') ->
  let tick := wrapping_add 64 (tick_counter s) 1 in
  tick_counter s' = tick /\
  secondary_ips s' ⊆ secondary_ips s /\
  exists t, trace (sh s') = trace (sh s) ++ t /\
    (forall x, x ∈ secondary_ips s -> aged tick x = false -> x ∈ secondary_ips s') /\
    (forall x, x ∈ secondary_ips s -> aged tick x = true ->
       x ∉ secondary_ips s' \/ tried (interface x) (ip x) (prefix_len x) t) /\
    (forall c, c ∈ t -> changes c = true ->
       exists x, x ∈ secondary_ips s /\ aged tick x = true /\ deletes x c).
Proof.
  intros Hnd E. unfold do_periodic_cleanup, mbind, io_bind in E. simpl in E.
  set (tick := wrapping_add 64 (tick_counter s) 1) in *.
  destruct (remove_expired _ _ _) as [b s1] eqn:E1. simpl in E.
  apply remove_expired_spec in E1 as (K1 & gone & t1 & Hsub & L1 & T1 & P1 & Hall).
  destruct (keeps_run _ _ _ _ _ (upload_if_reports _ _) E) as (L2 & K2 & t2 & T2 & P2).
  simpl in *. split; [congruence|]. rewrite L2, L1.
  split; [intros x [_ ?]%elem_of_retain; done|].
  exists (t1 ++ t2). split; [by rewrite T2, T1, app_assoc|]. split_and!.
  - intros x Hx Hage. apply elem_of_retain. split; [|done]. apply bool_decide_eq_true.
    intros (k & Hk & Hin)%list_elem_of_fmap.
    apply Hsub, elem_of_expired in Hin as (y & Hy & Hay & ->).
    assert (x = y) as -> by (eapply NoDup_fmap_inj; eauto). congruence.
  - intros x Hx Hage.
    destruct (Hall (interface x, ip x, prefix_len x)) as [Hg|[??]].
    + apply elem_of_expired. eauto.
    + left. intros [Hn%bool_decide_eq_true _]%elem_of_retain. apply Hn.
      apply list_elem_of_fmap. eexists. split; [|exact Hg]. done.
    + right. split; set_solver.
  - intros c [Hc|Hc]%elem_of_app Hch; rewrite Forall_forall in P1, P2.
    + apply P1 in Hc as (k & (x & Hx & Hax & ->)%elem_of_expired & [Hq|Hd]).
      * unfold query in Hq. congruence.
      * exists x. split_and!; [done..|]. exact Hd.
    + apply P2 in Hc. unfold query in Hc. congruence.
Qed.

(** ** The jump *)

(** Commands before the interface is touched: queries, and deletions of
    recorded secondary addresses other than [source]. *)
Definition prepares (source : string) (l : list SecondaryIPInfo) (c : command) : Prop :=
  query c \/ exists x, x ∈ l /\ ip x <> source /\ deletes x c.

Lemma cleanup_old_runs source s s' :
  cleanup_old_secondary (W:=W) source s = (tt, s') ->
  runs (prepares source (secondary_ips s)) s s'.
Proof.
  unfold cleanup_old_secondary, mbind, io_bind. simpl. intros E.
  eapply (keeps_run _ _ _ _ _ _ E). Unshelve.
  apply keeps_for_each; [apply _|]. intros x Hx. unfold cleanup_one. case_bool_decide.
  { apply keeps_ret. apply _. }
  apply keeps_bind; [apply _| |].
  - intros s1. eapply ran_mono; [|apply try_remove_runs].
    intros c [?|?]; [by left|]. right. exists x. by split_and!.
  - intros _ s1. exists []. simpl. by rewrite app_nil_r.
Qed.

(** No address is deleted. *)
Definition no_del (c : command) : Prop := is_addr_del c = false.

Lemma query_no_del c : query c -> no_del c.
Proof.
  unfold query, no_del, changes, is_addr_del. destruct (args c) as [|a [|b l]]; try done.
  repeat case_bool_decide; done.
Qed.

Lemma set_gateway_runs gw iface : keeps (runs no_del) (set_gateway (W:=W) gw iface).
Proof. unfold set_gateway. keeps_auto; by apply status_runs. Qed.

Lemma add_secondary_runs iface a mask prefix tick :
  keeps (runs no_del) (add_secondary_ip (W:=W) iface a mask prefix tick).
Proof.
  assert (keeps (runs no_del) (ip_exists_on_iface (W:=W) iface a))
    by (apply reads_runs; [apply query_no_del|apply ip_exists_reads]).
  assert (forall l, keeps (runs no_del) (set_list (W:=W) l)).
  { intros l s. exists []. simpl. by rewrite app_nil_r. }
  assert (keeps (runs no_del) (get_list (W:=W))) by (intros s; reflexivity).
  unfold add_secondary_ip, run_ip_cmd. keeps_auto; by apply status_runs.
Qed.

Lemma increment_tick_runs P : keeps (runs P) (increment_tick (W:=W)).
Proof. intros s. exists []. simpl. by rewrite app_nil_r. Qed.

(** A trace that takes an address off an interface and puts it back. *)
Definition puts_back (a iface : string) (t : list command) : Prop :=
  exists u v, t = addr_del a iface :: u ++ addr_add a iface :: v /\ Forall no_del (u ++ v).

Lemma restore_backup_trace b p s r s' :
  netmask_to_prefix (b_netmask b) = Ok p ->
  restore_backup (W:=W) b s = (r, s') ->
  exists v, trace (sh s') = trace (sh s) ++ addr_add (with_prefix (b_ip b) p) (b_interface b) :: v
            /\ Forall no_del v.
Proof.
  intros Hp E. unfold restore_backup in E. rewrite Hp in E.
  unfold mbind, io_bind, mret, io_ret in E.
  destruct (run_ip_cmd _ s) as [r1 s1] eqn:E1. apply status_ext in E1.
  assert (runs no_del s1 s') as (v & T & Hv).
  { destruct (b_gateway b) as [gw|]; [|simplify_eq/=; reflexivity].
    destruct (set_gateway gw (b_interface b) s1) as [r2 s2] eqn:E2.
    apply (keeps_run _ _ _ _ _ (set_gateway_runs _ _)) in E2. by simplify_eq/=. }
  exists v. split; [|done]. by rewrite T, E1, <-app_assoc.
Qed.

(** Giving up after the source was removed, whatever ran in between. *)
Lemma fail_puts_back b p text e (s0 s1 s2 : jump_state W) r s' :
  netmask_to_prefix (b_netmask b) = Ok p ->
  trace (sh s1) = trace (sh s0) ++ [addr_del (with_prefix (b_ip b) p) (b_interface b)] ->
  runs no_del s1 s2 ->
  (restore_backup (W:=W) b ≫= fun _ => mret (Err (A:=unit) (text +:+ e))) s2 = (r, s') ->
  exists t, trace (sh s') = trace (sh s0) ++ t
            /\ puts_back (with_prefix (b_ip b) p) (b_interface b) t.
Proof.
  intros Hp T1 (u & T2 & Hu) E. unfold mbind, io_bind, mret, io_ret in E.
  destruct (restore_backup b s2) as [r3 s3] eqn:E3.
  apply (restore_backup_trace b p) in E3 as (v & T3 & Hv); [|done]. simplify_eq/=.
  eexists. split; [by rewrite T3, T2, T1, <-!app_assoc|]. exists u, v.
  split; [done|]. by apply Forall_app.
Qed.

Lemma jump_steps_err cfg b p target tp s e s' :
  netmask_to_prefix (b_netmask b) = Ok p -> b_ip b = source_ip cfg ->
  jump_steps (W:=W) cfg b p target tp s = (Err e, s') ->
  exists t, trace (sh s') = trace (sh s) ++ t
            /\ puts_back (with_prefix (source_ip cfg) p) (b_interface b) t.
Proof.
  intros Hp Hip E. rewrite <-Hip in *. unfold jump_steps in E. rewrite <-Hip in E.
  unfold mbind at 1, io_bind at 1 in E.
  destruct (run_ip_cmd _ s) as [r1 s1] eqn:E1. apply status_ext in E1 as T1.
  destruct r1 as [[]|e1]; [|eapply fail_puts_back; eauto; reflexivity].
  unfold mbind at 1, io_bind at 1 in E.
  destruct (run_ip_cmd _ s1) as [r2 s2] eqn:E2.
  assert (runs no_del s1 s2) as R2.
  { eapply keeps_run; [|exact E2]. by apply status_runs. }
  destruct r2 as [[]|e2]; [|eapply fail_puts_back; eauto].
  unfold mbind at 1, io_bind at 1 in E. simpl in E.
  unfold mbind at 1, io_bind at 1 in E.
  destruct (add_secondary_ip _ _ _ _ _ _) as [r3 s3] eqn:E3.
  assert (runs no_del s1 s3) as R3.
  { etrans; [exact R2|]. apply (keeps_run _ _ _ _ _ (add_secondary_runs _ _ _ _ _)) in E3.
    exact E3. }
  destruct (str_is_empty _); [done|].
  unfold mbind at 1, io_bind at 1 in E.
  destruct (set_gateway _ _ s3) as [r4 s4] eqn:E4.
  assert (runs no_del s1 s4) as R4.
  { etrans; [exact R3|]. exact (keeps_run _ _ _ _ _ (set_gateway_runs _ _) E4). }
  destruct r4 as [[]|e4]; [done|]. eapply fail_puts_back; eauto.
Qed.

Lemma query_prepares source l s s' : runs query s s' -> runs (prepares source l) s s'.
Proof. apply ran_mono. by left. Qed.

Lemma early_exit source l (s s' : jump_state W) :
  runs (prepares source l) s s' ->
  exists source t1 t2, trace (sh s') = trace (sh s) ++ t1 ++ t2 /\ Forall (prepares source l) t1 /\
    (t2 = [] \/ exists prefix iface, puts_back (with_prefix source prefix) iface t2).
Proof.
  intros (t & T & Ht). exists source, t, []. rewrite app_nil_r. auto.
Qed.

Lemma backup_interface_ip a s b s' :
  backup_interface (W:=W) a s = (Ok b, s') -> b_ip b = a.
Proof.
  unfold backup_interface, bind_ok, with_err, mbind, io_bind, mret, io_ret. intros E.
  repeat (case_match; simplify_eq/=; try done).
Qed.

(** C23: a jump that fails reports nothing about the new address, and its
    commands split in two: first queries and deletions of recorded secondary
    addresses other than the source; then either nothing, or the removal of the
    source followed by its restoration on the same interface with the same
    prefix length and no later removal. *)
Theorem failed_jump_restores config info (s : jump_state W) e info' s' :
  do_ip_jump_async main_interface config info s = ((Err e, info'), s') ->
  info' = info /\
  exists source t1 t2, trace (sh s') = trace (sh s) ++ t1 ++ t2 /\
    Forall (prepares source (secondary_ips s)) t1 /\
    (t2 = [] \/ exists prefix iface, puts_back (with_prefix source prefix) iface t2).
Proof.
  unfold do_ip_jump_async. destruct (do_ip_jump _ _ s) as [[?|e'] s''] eqn:E; [done|].
  intros [= -> <- ->]. split; [done|]. unfold do_ip_jump, bind_ok in E.
  destruct (get_primary_ip _ _ s) as [r1 s1] eqn:E1.
  destruct (keeps_run _ _ _ _ _ (get_primary_ip_reads _) E1) as [(L1 & _) R1].
  destruct r1 as [[source iface]|e1]; [|simplify_eq; by apply (early_exit ""), query_prepares].
  simpl in E. unfold mbind at 1, io_bind at 1 in E.
  destruct (cleanup_old_secondary source s1) as [[] s2] eqn:E2.
  apply cleanup_old_runs in E2 as R2. rewrite L1 in R2.
  destruct (backup_interface source s2) as [r3 s3] eqn:E3.
  destruct (keeps_run _ _ _ _ _ (backup_interface_reads _) E3) as [_ R3].
  assert (runs (prepares source (secondary_ips s)) s s3) as R.
  { etrans; [by apply query_prepares|]. etrans; [exact R2|by apply query_prepares]. }
  destruct r3 as [b|e3]; [|simplify_eq; by eapply early_exit].
  apply backup_interface_ip in E3 as Hip. unfold mret, io_ret in E. simpl in E.
  destruct (netmask_to_prefix _) as [p|] eqn:Hp; [|simplify_eq/=; by eapply early_exit].
  destruct (parse_cidr _) as [[target tp]|]; [|simplify_eq/=; by eapply early_exit].
  destruct (jump_steps _ _ _ _ _ s3) as [[[]|e4] s4] eqn:E4.
  { unfold mbind, io_bind in E. by destruct (get_local_ips_exclude _ _). }
  injection E as <- <-. apply jump_steps_err in E4 as (t2 & T2 & Ht2); [|done..].
  destruct R as (t1 & T1 & P1). exists source, t1, t2. split_and!; [|done|].
  - by rewrite T2, T1, app_assoc.
  - right. by exists p, (b_interface b).
Qed.

(** ** One entry per interface and address

    The hypothesis of [periodic_cleanup_ages] holds initially and after every
    operation of the manager. *)

Definition keys_unique (s s' : jump_state W) : Prop :=
  NoDup (key <$> secondary_ips s) -> NoDup (key <$> secondary_ips s').

#[local] Instance keys_unique_preorder : PreOrder keys_unique.
Proof. unfold keys_unique. split; [by intros s Hs|intros s1 s2 s3; auto]. Qed.

Lemma same_lists_unique {A} (m : io (jump_state W) A) :
  keeps same_lists m -> keeps keys_unique m.
Proof. intros Hm s Hs. destruct (Hm s) as (E & _). by rewrite E. Qed.

Lemma retain_list_unique p : keeps keys_unique (retain_list (W:=W) p).
Proof. intros s Hs. by apply NoDup_fmap_retain. Qed.

Lemma touch_keys iface a tick l l' : touch iface a tick l = Some l' -> key <$> l' = key <$> l.
Proof.
  revert l'. induction l as [|x l IH]; intros l' E; [done|]. simpl in E.
  destruct (same_key iface a x); [injection E as <-; done|].
  destruct (touch iface a tick l) as [l1|] eqn:E1; simplify_eq/=. f_equal. by apply IH.
Qed.

Lemma touch_none iface a tick l : touch iface a tick l = None -> (iface, a) ∉ key <$> l.
Proof.
  induction l as [|x l IH]; intros E; simpl in *; [set_solver|].
  rewrite same_key_key in E. case_bool_decide as Hx; [done|].
  destruct (touch iface a tick l); [done|]. specialize (IH eq_refl). set_solver.
Qed.

Lemma add_secondary_unique iface a mask prefix tick :
  keeps keys_unique (add_secondary_ip (W:=W) iface a mask prefix tick).
Proof.
  intros s Hs. unfold add_secondary_ip, mbind, io_bind. simpl.
  destruct (touch iface a tick (secondary_ips s)) as [l|] eqn:E; simpl.
  { by rewrite (touch_keys _ _ _ _ _ E). }
  set (s1 := JumpState _ _ _ _).
  assert (NoDup (key <$> secondary_ips s1)) as Hs1.
  { subst s1. simpl. rewrite fmap_app. apply NoDup_app. split_and!; [done| |apply NoDup_singleton].
    intros k Hk ->%list_elem_of_singleton. by apply (touch_none _ _ _ _ E). }
  destruct (ip_exists_on_iface iface a s1) as [b s2] eqn:E1.
  destruct (keeps_run reads _ _ _ _ (ip_exists_reads iface a) E1) as [(L2 & _) _].
  destruct b; simpl; [by rewrite L2|].
  unfold with_err, run_ip_cmd.
  pose proof (status_same_lists "ip" ["addr"; "add"; with_prefix a prefix; "dev"; iface] s2)
    as (L3 & _).
  destruct (status _ _ s2) as [r s3]. simpl in *. by rewrite L3, L2.
Qed.

#[local] Hint Resolve retain_list_unique add_secondary_unique : agent.

Lemma capture_unique cmd argv : keeps keys_unique (capture (W:=W) cmd argv).
Proof. apply same_lists_unique, capture_same_lists. Qed.
Lemma status_unique cmd argv : keeps keys_unique (status (W:=W) cmd argv).
Proof. apply same_lists_unique, status_same_lists. Qed.
Lemma reads_unique {A} (m : io (jump_state W) A) : keeps reads m -> keeps keys_unique m.
Proof. intros Hm. by apply same_lists_unique, reads_same. Qed.
Lemma try_remove_unique iface a prefix :
  keeps keys_unique (try_remove_ip_from_system (W:=W) iface a prefix).
Proof. apply same_lists_unique, try_remove_same. Qed.
#[local] Hint Resolve capture_unique status_unique try_remove_unique : agent.

Lemma get_list_unique : keeps keys_unique (get_list (W:=W)).
Proof. intros s. reflexivity. Qed.
Lemma increment_tick_unique : keeps keys_unique (increment_tick (W:=W)).
Proof. by intros s Hs. Qed.
#[local] Hint Resolve get_list_unique increment_tick_unique : agent.

Lemma remove_expired_unique ks any : keeps keys_unique (remove_expired (W:=W) ks any).
Proof.
  revert any. induction ks as [|[[iface a] p] ks IH]; intros any; simpl; keeps_auto.
Qed.

Lemma periodic_cleanup_unique base : keeps keys_unique (do_periodic_cleanup (W:=W) base).
Proof.
  assert (forall need, keeps keys_unique (upload_if (W:=W) need base)).
  { intros need s Hs. destruct (upload_if_reports need base s) as (L & _). by rewrite L. }
  assert (keeps keys_unique (get_upload_failed (W:=W))) by (intros s Hs; exact Hs).
  pose proof remove_expired_unique. unfold do_periodic_cleanup. keeps_auto.
Qed.

Lemma remove_secondary_unique iface a : keeps keys_unique (remove_secondary_ip (W:=W) iface a).
Proof. unfold remove_secondary_ip. keeps_auto. Qed.

Lemma ip_jump_unique config info :
  keeps keys_unique (do_ip_jump_async (W:=W) main_interface config info).
Proof.
  assert (keeps keys_unique (do_ip_jump (W:=W) main_interface config)) as Hj.
  { pose proof (fun a => reads_unique _ (get_primary_ip_reads a)).
    pose proof (fun a => reads_unique _ (backup_interface_reads a)).
    pose proof (fun a => reads_unique _ (local_ips_reads a)).
    unfold do_ip_jump, cleanup_old_secondary, jump_steps, restore_backup, set_gateway, run_ip_cmd,
      get_local_ips_exclude.
    keeps_auto. apply keeps_for_each; [apply _|]. intros x _. unfold cleanup_one. keeps_auto. }
  intros s. unfold do_ip_jump_async. specialize (Hj s). by destruct (do_ip_jump _ _ s) as [[]].
Qed.
End effects.

(** ** A machine for the witnesses

    The addresses of one interface [eth0], each with its prefix, the first one
    primary.  The network 10.9.0.0/16 is refused, and so is the gateway
    10.9.0.1. *)

Module Demo.
Definition machine : Type := list string.

Fixpoint show (first : bool) (l : list string) : string :=
  match l with
  | [] => ""
  | cidr :: l =>
    "2: eth0 inet " +:+ cidr +:+ (if first then " eth0" else " secondary eth0")
    +:+ String line_feed (show false l)
  end.

Definition bytes (s : string) : list Z := ascii_code <$> Stdlib.Strings.String.list_ascii_of_string s.

Definition ip_cmd (argv : list string) (m : machine) : result string output * machine :=
  match argv with
  | ["addr"; "del"; a; "dev"; _] =>
    if bool_decide (a ∈ m) then (reply [], retain (fun x => negb (bool_decide (x = a))) m)
    else (refuse "exit status: 2", m)
  | ["addr"; "add"; a; "dev"; _] =>
    if starts_with "10.9." a then (refuse "exit status: 2", m) else (reply [], m ++ [a])
  | ["route"; "add"; "default"; "via"; gw; "dev"; _] =>
    (if bool_decide (gw = "10.9.0.1") then refuse "exit status: 2" else reply [], m)
  | _ => (reply (bytes (show true m)), m)
  end.

#[global] Instance demo_os : Os machine := {| spawn c m := ip_cmd (args c) m |}.
#[global] Instance demo_env : JumpEnv machine := {|
  addr_line line :=
    match split_whitespace line with
    | _ :: iface :: _ :: cidr :: _ => '(a, p) ← split_once "/"%char cidr; Some (iface, a, p)
    | _ => None
    end;
  inet_re line := match split_whitespace line with
                  | _ :: _ :: _ :: cidr :: _ => fst <$> split_once "/"%char cidr
                  | _ => None
                  end;
  src_re _ := None;
  parse_net s :=
    match ('(a, p) ← split_once "/"%char s; a ← parse_ipv4 a; p ← parse_uint 8 p;
           if p <=? 32 then Some (a, p) else None) with
    | Some n => Ok n
    | None => Err "invalid IP address syntax"
    end;
  net_contains net a := Z.shiftr net.1 (32 - net.2) =? Z.shiftr a (32 - net.2);
  net_client _ := Ok tt;
  post_data _ _ m := (Ok "", m);
  json_text _ := ""
|}.

Definition start : jump_state machine :=
  JumpState [Secondary "eth0" "10.0.0.7" "255.255.255.0" 24 3] 4 false
    (Shell ["10.0.0.1/24"; "10.0.0.7/24"] []).
Definition no_info : PutIpJumpInfo := PutInfo "" "" "" "" 0 "".

Definition jump (target gw : string) :=
  do_ip_jump_async "eth0" (JumpConfig "10.0.0.1" target gw) no_info start.

(** A jump that succeeds, and what the machine looks like afterwards. *)
Example jump_succeeds :
  (jump "10.0.0.2/24" "").1 =
    (Ok tt, PutInfo "10.0.0.1" "10.0.0.2/24" "" "10.0.0.2" 1 "IP jump completed")
  /\ world (sh (jump "10.0.0.2/24" "").2) = ["10.0.0.2/24"; "10.0.0.1/24"]
  /\ secondary_ips (jump "10.0.0.2/24" "").2 =
       [Secondary "eth0" "10.0.0.1" "255.255.255.0" 24 5].
Proof. vm_compute. repeat split. Qed.

(** A refused target: the source is back, after the secondary address. *)
Definition refused : jump_state machine := (jump "10.9.0.2/16" "").2.

Lemma failed_jump_restores_witness :
  world (sh refused) = ["10.0.0.1/24"] /\
  (no_info = no_info /\
   exists source t1 t2, trace (sh refused) = trace (sh start) ++ t1 ++ t2 /\
     Forall (prepares source (secondary_ips start)) t1 /\
     (t2 = [] \/ exists prefix iface, puts_back (with_prefix source prefix) iface t2)).
Proof.
  split; [vm_compute; reflexivity|].
  apply (failed_jump_restores "eth0" (JumpConfig "10.0.0.1" "10.9.0.2/16" "") no_info start
           (match (jump "10.9.0.2/16" "").1.1 with Err e => e | Ok _ => "" end)).
  vm_compute. reflexivity.
Defined.

(** A refused gateway: the jump fails with the target still on the interface. *)
Example refused_gateway_keeps_target :
  is_ok (jump "10.0.0.2/24" "10.9.0.1").1.1 = false /\
  "10.0.0.2/24" ∈ world (sh (jump "10.0.0.2/24" "10.9.0.1").2).
Proof. vm_compute. split; [reflexivity|]. constructor. Qed.

(** The presence test is a substring test: an address is taken for another one
    it is a prefix of. *)
Example presence_by_substring :
  (ip_exists_on_iface "eth0" "10.0.0.1"
     (JumpState [] 0 false (Shell ["10.0.0.12/24"] []))).1 = true.
Proof. vm_compute. reflexivity. Qed.

(** Two ticks after 3 the old address goes. *)
Definition aged_out : jump_state machine := (do_periodic_cleanup "http://server" start).2.

Lemma periodic_cleanup_ages_witness :
  secondary_ips aged_out = [] /\ world (sh aged_out) = ["10.0.0.1/24"] /\
  tick_counter aged_out = 5 /\ secondary_ips aged_out ⊆ secondary_ips start.
Proof.
  split; [vm_compute; reflexivity|]. split; [vm_compute; reflexivity|].
  destruct (periodic_cleanup_ages "http://server" start aged_out) as (Ht & Hl & _).
  - apply NoDup_singleton.
  - vm_compute. reflexivity.
  - exact (conj Ht Hl).
Defined.
End Demo.
