(* ===== verification/PwJump.v ===== *)
(** * The password jump

    [crates/rules_jump_mgr/src/pw_manager.rs]: change a user's password with
    [chpasswd], after saving the user's hash with [getent shadow]; a failed
    change puts the hash back with [usermod]. *)

From S2P Require Import Prelude RustStr Bytes Shell.
From Stdlib Require Import Ascii.

Record PutPwJumpInfo := PwInfo { user : string; pw : string; status : Z; reason : string }.

Section pw.
Context {W : Type} `{Os W}.
(** [std::env::var("USER")]. *)
Context (env_user : option string).

(** [s.split(':')], second field, when there are two. *)
Definition backup_shadow (u : string) : io (shell W) (result string (option string)) :=
  let? s := with_err (fun e => "getent shadow failed: " +:+ e)
              (run_cmd_capture "getent" ["shadow"; u]) in
  mret (Ok (match split_char ":"%char s with
            | _ :: hash :: _ => Some hash
            | _ => None
            end)).

Definition chpasswd_line (u newpw : string) : string :=
  "echo " +:+ String quote_mark (u +:+ ":" +:+ newpw +:+ String quote_mark " | chpasswd").

Definition set_password_plain (u newpw : string) : io (shell W) (result string unit) :=
  with_err (fun e => "chpasswd failed: " +:+ e)
    (run_cmd_status "bash" ["-c"; chpasswd_line u newpw]).

Definition restore_shadow_hash (u hash : string) : io (shell W) (result string unit) :=
  with_err (fun e => "usermod -p failed: " +:+ e) (run_cmd_status "usermod" ["-p"; hash; u]).

(** The user the jump is for: the one asked for, [$USER], or [whoami], whose
    exit status is not looked at. *)
Definition real_user (u : string) : io (shell W) (result string string) :=
  if str_is_empty (trim u) then
    match env_user with
    | Some v => mret (Ok v)
    | None =>
      let? o := with_err (fun e => "failed to run whoami: " +:+ e) (exec (Cmd "whoami" [])) in
      let v := trim (from_utf8_lossy (stdout o)) in
      mret (if str_is_empty v then Err "cannot determine current user" else Ok v)
    end
  else mret (Ok u).

Definition do_pw_jump_async (u newpw : string) (info : PutPwJumpInfo)
    : io (shell W) (result string unit * PutPwJumpInfo) :=
  r ← real_user u;
  match r with
  | Err e => mret (Err e, info)
  | Ok name =>
    let info := PwInfo name (pw info) (status info) (reason info) in
    r ← backup_shadow name;
    match r with
    | Err e => mret (Err e, info)
    | Ok orig_hash =>
      r ← set_password_plain name newpw;
      match r with
      | Err e =>
        _ ← match orig_hash with
            | Some h => ignore (restore_shadow_hash name h)
            | None => mret tt
            end;
        let text := "set_password failed: " +:+ e in
        mret (Err text, PwInfo name (pw info) 2 text)
      | Ok _ => mret (Ok tt, PwInfo name newpw 1 "password changed")
      end
    end
  end.

(** ** What is run *)

Definition chpasswd (u newpw : string) : command := Cmd "bash" ["-c"; chpasswd_line u newpw].
Definition usermod (u hash : string) : command := Cmd "usermod" ["-p"; hash; u].

Lemma real_user_runs u : keeps (ran (fun c => c = Cmd "whoami" [])) (real_user u).
Proof.
  assert (keeps (ran (fun c => c = Cmd "whoami" [])) (exec (W:=W) (Cmd "whoami" []))).
  { intros s. unfold exec. destruct (spawn _ _). exists [Cmd "whoami" []].
    split; [done|by constructor]. }
  unfold real_user. keeps_auto.
Qed.

Lemma backup_shadow_trace u s r s' :
  backup_shadow u s = (r, s') -> trace s' = trace s ++ [Cmd "getent" ["shadow"; u]].
Proof.
  unfold backup_shadow, bind_ok, with_err. intros E.
  pose proof (run_cmd_capture_trace "getent" ["shadow"; u] s) as Ht.
  destruct (run_cmd_capture _ _ s) as [[t|e] s1]; unfold mret, io_ret in E; by simplify_eq/=.
Qed.

Lemma with_status_trace (f : string -> string) cmd argv s r s' :
  with_err f (run_cmd_status (W:=W) cmd argv) s = (r, s') -> trace s' = trace s ++ [Cmd cmd argv].
Proof.
  unfold with_err. intros E. pose proof (run_cmd_status_trace cmd argv s) as Ht.
  destruct (run_cmd_status _ _ s). by simplify_eq/=.
Qed.

(** C40: the jump finds out who the user is (with [whoami] where it needs to),
    saves that user's hash and changes the password, in this order, and the
    report says which step it reached: success reports the new password with
    status 1; when the change is refused, the last command puts back the hash
    that was saved, if one was, and the report has status 2 and the error; an
    earlier failure has run nothing that changes the host and leaves the
    report's password, status and reason. *)
Theorem pw_jump_restores u newpw info s r info' s' :
  do_pw_jump_async u newpw info s = ((r, info'), s') ->
  exists who t, Forall (fun c => c = Cmd "whoami" []) who /\ trace s' = trace s ++ who ++ t /\
  match r with
  | Ok _ =>
    exists name, (real_user u s).1 = Ok name /\ t = [Cmd "getent" ["shadow"; name]; chpasswd name newpw]
                 /\ info' = PwInfo name newpw 1 "password changed"
  | Err e =>
    (exists name hash,
       (real_user u s).1 = Ok name /\ (backup_shadow name (real_user u s).2).1 = Ok hash
       /\ t = [Cmd "getent" ["shadow"; name]; chpasswd name newpw] ++
               match hash with Some h => [usermod name h] | None => [] end
       /\ info' = PwInfo name (pw info) 2 e)
    \/ (t = [] \/ exists name, t = [Cmd "getent" ["shadow"; name]])
       /\ pw info' = pw info /\ status info' = status info /\ reason info' = reason info
  end.
Proof.
  unfold do_pw_jump_async. unfold mbind at 1, io_bind at 1. intros E.
  destruct (real_user u s) as [r0 s0] eqn:E0. cbn [fst snd].
  destruct (keeps_run _ _ _ _ _ (real_user_runs u) E0) as (who & T0 & Hwho). exists who.
  destruct r0 as [name|e0]; unfold mret, io_ret in E; simpl in E.
  2:{ simplify_eq. exists []. rewrite app_nil_r. naive_solver. }
  unfold mbind at 1, io_bind at 1 in E.
  destruct (backup_shadow name s0) as [r1 s1] eqn:E1. apply backup_shadow_trace in E1 as T1.
  destruct r1 as [hash|e1]; simpl in E.
  2:{ simplify_eq. eexists. rewrite T1, T0, <-app_assoc. naive_solver. }
  unfold mbind at 1, io_bind at 1 in E.
  destruct (set_password_plain name newpw s1) as [r2 s2] eqn:E2. apply with_status_trace in E2 as T2.
  destruct r2 as [[]|e2]; simpl in E.
  { simplify_eq. eexists. rewrite T2, T1, T0, <-!app_assoc. naive_solver. }
  unfold mbind, io_bind in E.
  assert (trace s' = trace s2 ++ match hash with Some h => [usermod name h] | None => [] end) as T3.
  { destruct hash as [h|]; [|simplify_eq/=; by rewrite app_nil_r]. unfold ignore in E.
    destruct (restore_shadow_hash name h s2) as [r3 s3] eqn:E3. apply with_status_trace in E3.
    by simplify_eq/=. }
  assert (r = Err ("set_password failed: " +:+ e2) /\
    info' = PwInfo name (pw info) 2 ("set_password failed: " +:+ e2)) as [-> ->]
    by (destruct hash; unfold ignore in E; by simplify_eq/=).
  eexists. rewrite T3, T2, T1, T0, <-!app_assoc. split_and!; [done..|]. left.
  exists name, hash. split_and!; [done| |done|done]. by rewrite E1.
Qed.
End pw.

(** ** A machine whose [chpasswd] is refused *)

Module Demo.
Definition bytes (s : string) : list Z := ascii_code <$> Stdlib.Strings.String.list_ascii_of_string s.
#[local] Instance demo_os : Os unit := {|
  spawn c m :=
    (if bool_decide (program c = "getent") then reply (bytes "root:$6$abc:19000:0")
     else if bool_decide (program c = "bash") then refuse "exit status: 1" else reply [], m)
|}.

Definition result := do_pw_jump_async (Some "root") "" "new" (PwInfo "" "" 0 "") (Shell tt []).

(** The refused change ends with [usermod -p $6$abc root]. *)
Example refused_change_restores :
  trace result.2 = [Cmd "getent" ["shadow"; "root"]; chpasswd "root" "new"; usermod "root" "$6$abc"].
Proof. vm_compute. reflexivity. Qed.

Lemma pw_jump_restores_witness :
  is_ok result.1.1 = false /\ status result.1.2 = 2
  /\ exists who t, Forall (fun c => c = Cmd "whoami" []) who /\ trace result.2 = [] ++ who ++ t.
Proof.
  split; [vm_compute; reflexivity|]. split; [vm_compute; reflexivity|].
  destruct (pw_jump_restores (Some "root") "" "new" (PwInfo "" "" 0 "") (Shell tt [])
              result.1.1 result.1.2 result.2) as (who & t & Hw & Ht & _).
  - vm_compute. reflexivity.
  - exists who, t. exact (conj Hw Ht).
Defined.
End Demo.
