(* ===== verification/JumpDaemon.v ===== *)
(** * The address-jump daemon

    The second half of [crates/rules_jump_mgr/src/ip_manager.rs]: carrying out
    one instruction and making it permanent (netplan or NetworkManager), the
    [tokio::sync::watch] channel that hands instructions to the daemon, and the
    daemon's two loops as a transition system. *)

From S2P Require Import Prelude RustStr Bytes Json Shell Host IpJump.
From Stdlib Require Import Ascii.

(** ** The address list of a netplan file *)

Inductive AddrEntry := V4 (ip prefix : Z) | Other (s : string).

#[global] Instance AddrEntry_eq_dec : EqDecision AddrEntry.
Proof. solve_decision. Defined.

(** [u32::MAX << (32 - prefix)] for a [u8] prefix: neither the subtraction nor
    the shift is checked, the shift count is taken modulo 32. *)
Definition subnet_mask (prefix : Z) : Z :=
  wrap 32 (Z.shiftl (2 ^ 32 - 1) (wrap 8 (32 - prefix) mod 32)).

Definition same_subnet (a b prefix : Z) : bool :=
  if prefix =? 0 then false
  else Z.land a (subnet_mask prefix) =? Z.land b (subnet_mask prefix).

Definition parse_entry (item : string) : AddrEntry :=
  let item := trim item in
  match split_once "/"%char item with
  | Some (ip_str, pre_str) =>
    match parse_ipv4 ip_str with
    | Some v4 => V4 v4 (default 24 (parse_uint 8 pre_str))
    | None => Other item
    end
  | None => Other item
  end.

(** The choice made while the list is read: the last entry that is the source
    itself, else the first one in its subnet. *)
Definition choose (source : Z) (chosen : option nat) (ie : nat * AddrEntry) : option nat :=
  match ie.2 with
  | V4 v4 prefix =>
    if v4 =? source then Some ie.1
    else match chosen with
         | None => if same_subnet v4 source prefix then Some ie.1 else None
         | Some _ => chosen
         end
  | Other _ => chosen
  end.

Definition chosen_idx (source : Z) (l : list AddrEntry) : option nat :=
  foldl (choose source) None (enumerate l).

Definition put_primary (source primary : Z) (l : list AddrEntry) : list AddrEntry :=
  match chosen_idx source l with
  | Some i => match l !! i with
              | Some (V4 _ prefix) => <[i := V4 primary prefix]> l
              | _ => l
              end
  | None => l ++ [V4 primary 24]
  end.

Definition show_entry (e : AddrEntry) : string :=
  match e with
  | V4 ip prefix => ipv4_to_string ip +:+ "/" +:+ dec prefix
  | Other s => s
  end.

Definition new_addr_list (source primary : Z) (raw_list : string) : string :=
  join ", " (show_entry <$> put_primary source primary (parse_entry <$> split_char ","%char raw_list)).

(** ** Files and regular expressions of the netplan directory *)

Class NetplanFs (W : Type) := {
  (** [/etc/netplan] is a directory; its entries, each a path or an error. *)
  netplan_is_dir : W -> bool;
  netplan_entries : W -> result string (list (result string string));
  read_to_string : string -> W -> result string string;
  (** The regular expression of the bracketed list after [addresses:]: its first
      capture, the text between the brackets, and [replace]. *)
  addr_captures : string -> option string;
  addr_replace : string -> string -> string;
  (** The regular expression of a [gateway4:] line: [is_match] and [replace]. *)
  gw_is_match : string -> bool;
  gw_replace : string -> string -> string
}.

Definition is_yaml (path : string) : bool :=
  bool_decide (extension path = Some "yaml") || bool_decide (extension path = Some "yml").

Example yaml_names : is_yaml "/etc/netplan/01-netcfg.yaml" = true /\ is_yaml "/etc/netplan/.yml" = false.
Proof. split; reflexivity. Qed.

(** ** The [watch] channel *)

Record watch := Watch { w_value : option IpJumpInstruction; w_version : nat }.

Definition watch_new : watch := Watch None 0.
Definition watch_send (i : IpJumpInstruction) (w : watch) : watch := Watch (Some i) (S (w_version w)).

(** [send_instruction]: the channel exists once the daemon has started; its
    receiver lives as long as the daemon, which never returns. *)
Definition send_instruction (i : IpJumpInstruction) (tx : option watch)
    : result string unit * option watch :=
  match tx with
  | Some w => (Ok tt, Some (watch_send i w))
  | None => (Err "IP Jump daemon not initialized", None)
  end.

Section daemon.
Context {W : Type} `{Os W} `{JumpEnv W} `{NetplanFs W} `{Files W}.
Context {V : Type} `{JsonValue V} `{JsonText V}.
Context (main_interface : string).

Abbreviation st := (jump_state W).

Definition reading {A} (f : W -> A) : io st A := fun s => (f (world (sh s)), s).
Definition write_file (path content : string) : io st (result string unit) := fun s =>
  let '(r, w) := put (WriteFile path content) (world (sh s)) in
  (r, JumpState (secondary_ips s) (tick_counter s) (last_upload_failed s) (Shell w (trace (sh s)))).

(** *** Making an address permanent *)

Definition has_nmcli : io st bool := r ← status "which" ["nmcli"]; mret (is_ok r).

(** [while let Ok(Some(ent)) = ...]: an entry that cannot be read ends it. *)
Fixpoint any_yaml (l : list (result string string)) : bool :=
  match l with
  | Ok p :: l => is_yaml p || any_yaml l
  | _ => false
  end.

Definition is_netplan_system : io st bool :=
  is_dir ← reading netplan_is_dir;
  if (is_dir : bool) then
    rd ← reading netplan_entries;
    mret (match rd with Ok l => any_yaml l | Err _ => false end)
  else mret false.

Fixpoint find_target (iface : string) (l : list (result string string))
    : io st (result string (option string)) :=
  match l with
  | [] => mret (Ok None)
  | Err e :: _ => mret (Err e)
  | Ok path :: l =>
    if is_yaml path then
      r ← reading (read_to_string path);
      match r with
      | Err e => mret (Err ("read " +:+ debug_str path +:+ " failed: " +:+ e))
      | Ok content =>
        if contains (iface +:+ ":") content then mret (Ok (Some path)) else find_target iface l
      end
    else find_target iface l
  end.

Definition new_content (source primary : Z) (gw : option string) (raw_list content : string)
    : string :=
  let content := addr_replace content
    ("addresses: [" +:+ new_addr_list source primary raw_list +:+ "]") in
  match gw with
  | Some g => if gw_is_match content then gw_replace content ("      gateway4: " +:+ g) else content
  | None => content
  end.

Definition netplan_update_primary_ip (iface source_ip primary_ip : string) (gw : option string)
    : io st (result string unit) :=
  let? source := mret (ok_or ("invalid source_ip " +:+ source_ip) (parse_ipv4 source_ip)) in
  let? primary := mret (ok_or ("invalid primary_ip " +:+ primary_ip) (parse_ipv4 primary_ip)) in
  is_dir ← reading netplan_is_dir;
  if negb (is_dir : bool) then mret (Err "not a netplan system")
  else
    let? rd := with_err (fun e => "read /etc/netplan failed: " +:+ e) (reading netplan_entries) in
    let? target := find_target iface rd in
    match target with
    | None => mret (Err ("no netplan yaml contains interface " +:+ iface))
    | Some file =>
      let? content := with_err (fun e => "read " +:+ debug_str file +:+ " failed: " +:+ e)
                        (reading (read_to_string file)) in
      match addr_captures content with
      | None => mret (Err "addresses field not found")
      | Some raw_list =>
        let? _ := with_err (fun e => "write " +:+ debug_str file +:+ " failed: " +:+ e)
                    (write_file file (new_content source primary gw raw_list content)) in
        with_err (fun e => "netplan apply failed: " +:+ e) (status "netplan" ["apply"])
      end
    end.

Definition primary_prefix (ip line : string) : option Z :=
  '(_, addr, pre) ← addr_line line;
  if bool_decide (addr = ip) && negb (contains "secondary" line)
  then Some (default 24 (parse_uint 8 pre)) else None.

Definition connection_of (iface line : string) : option string :=
  match split_char ":"%char line with
  | [name; dev] => if bool_decide (dev = iface) then Some name else None
  | _ => None
  end.

Definition modify (conn_name field value what : string) : io st (result string unit) :=
  with_err (fun e => "nmcli modify " +:+ what +:+ " failed: " +:+ e)
    (status "nmcli" ["connection"; "modify"; conn_name; field; value]).

Definition nmcli_update_primary_ip (iface ip : string) (gateway : option string)
    : io st (result string unit) :=
  let? out := with_err (fun e => "ip addr show failed: " +:+ e)
                (capture "ip" ["-o"; "-4"; "addr"; "show"; "dev"; iface]) in
  let? prefix := mret (ok_or ("Cannot find primary IP " +:+ ip +:+ " on interface " +:+ iface)
                         (head (omap (primary_prefix ip) (lines out)))) in
  let? conn_out := with_err (fun e => "nmcli connection show failed: " +:+ e)
                     (capture "nmcli" ["-t"; "-f"; "NAME,DEVICE"; "connection"; "show"]) in
  let? conn_name := mret (ok_or ("No nmcli connection found for interface " +:+ iface)
                            (head (omap (connection_of iface) (lines conn_out)))) in
  let? _ := modify conn_name "ipv4.addresses" (with_prefix ip prefix) "ipv4.addresses" in
  let? _ := modify conn_name "ipv4.method" "manual" "ipv4.method" in
  match gateway with
  | Some gw => modify conn_name "ipv4.gateway" gw "ipv4.gateway"
  | None => mret (Ok tt)
  end.

(** *** One instruction *)

Definition persist (i : IpJumpInstruction) : io st unit :=
  let gw := if str_is_empty (i_gateway i) then None else Some (i_gateway i) in
  np ← is_netplan_system;
  if (np : bool) then
    p ← get_primary_ip_of_main_interface main_interface;
    match p with
    | Ok primary =>
      ignore (netplan_update_primary_ip main_interface (i_source_ip i) primary gw)
    | Err _ => mret tt
    end
  else
    nm ← has_nmcli;
    if (nm : bool) then
      p ← get_primary_ip_of_main_interface main_interface;
      match p with
      | Ok primary => ignore (nmcli_update_primary_ip main_interface primary gw)
      | Err _ => mret tt
      end
    else mret tt.

(** The addresses reported: the machine's, and the target when it is missing. *)
Definition with_target (target agent_ip : string) : string :=
  if str_is_empty target then agent_ip
  else
    let t := strip_ip_prefix target in
    if ip_list_contains agent_ip t then agent_ip
    else if str_is_empty agent_ip then t else agent_ip +:+ "," +:+ t.

Definition report_addresses (base_url : string) (i : IpJumpInstruction) : io st unit :=
  local ← get_local_ips_all;
  match local with
  | None => mret tt
  | Some agent_ip =>
    ignore (upload_ip_jump_periodic_result base_url (with_target (i_target_ip i) agent_ip))
  end.

Definition no_jump (i : IpJumpInstruction) : bool :=
  str_is_empty (i_source_ip i) && str_is_empty (i_target_ip i).

(** [jump_success] and the report of the jump. *)
Definition jump_and_status (i : IpJumpInstruction) : io st (bool * PutIpJumpInfo) :=
  let info := PutInfo "" "" "" "" 0 "" in
  if no_jump i then mret (false, info)
  else
    r ← do_ip_jump_async main_interface
          (JumpConfig (i_source_ip i) (i_target_ip i) (i_gateway i)) info;
    mret (match r with
          | (Ok _, x) => (true, PutInfo (info_source_ip x) (info_target_ip x) (info_gateway x)
                                  (info_agent_ip x) 1 (info_reason x))
          | (Err e, x) => (false, PutInfo (info_source_ip x) (info_target_ip x) (info_gateway x)
                                    (info_agent_ip x) 2 e)
          end).

Definition execute_instruction (base_url : string) (i : IpJumpInstruction) : io st unit :=
  r ← jump_and_status i;
  _ ← upload_result_direct base_url r.2;
  if (r.1 : bool) then _ ← persist i; report_addresses base_url i else mret tt.

(** *** Asking the server *)

Definition instruction_of (data : V) : IpJumpInstruction :=
  Instr (str_field data "source_ip") (str_field data "target_ip") (str_field data "gateway")
    (uint_field 32 data "active_time").

Definition fetch_latest_instruction (base_url : string)
    : io st (result string (option IpJumpInstruction)) := fun s =>
  match net_client base_url with
  | Err e => (Err e, s)
  | Ok _ =>
    let '(r, w) := post_data (base_url +:+ "/v1/getIpJump") "" (world (sh s)) in
    (match r with
     | Err e => Err e
     | Ok resp =>
       match from_str resp with
       | Err e => Err e
       | Ok parsed =>
         if bool_decide (opt_str_field parsed "code" = Some "000000") then
           Ok (data ← get_field parsed "data";
               if is_object data && negb (no_jump (instruction_of data))
               then Some (instruction_of data) else None)
         else Err "API error"
       end
     end,
     JumpState (secondary_ips s) (tick_counter s) (last_upload_failed s) (Shell w (trace (sh s))))
  end.
End daemon.

(** ** The daemon's loops

    The daemon is blocked on [rx.changed()] ([Waiting]), has just been woken
    and is about to read the channel ([Ready]), or is in [run_periodic_loop]
    with the given interval ([Periodic]).  Instructions may be sent at any
    point; the other events are the daemon's own. *)

Inductive phase := Waiting | Ready | Periodic (active_time : Z).

Inductive event := Send (i : IpJumpInstruction) | Wake | Take | Tick | Break.

Record daemon (W : Type) := Daemon {
  d_jump : jump_state W;
  d_chan : watch;
  d_seen : nat;                          (* the version [rx] has seen *)
  d_phase : phase;
  d_done : list IpJumpInstruction        (* instructions carried out, oldest first *)
}.
Arguments Daemon {W} _ _ _ _ _.
Arguments d_jump {W} _.
Arguments d_chan {W} _.
Arguments d_seen {W} _.
Arguments d_phase {W} _.
Arguments d_done {W} _.

Section loops.
Context {W : Type} `{Os W} `{JumpEnv W} `{NetplanFs W} `{Files W}.
Context {V : Type} `{JsonValue V} `{JsonText V}.
Context (main_interface base_url : string).

Abbreviation exec := (execute_instruction main_interface base_url).

Definition daemon_new (s : jump_state W) : daemon W := Daemon s watch_new 0 Waiting [].

Definition unseen (d : daemon W) : bool := negb (Nat.eqb (d_seen d) (w_version (d_chan d))).

(** The branch of [run_periodic_loop] on a tick. *)
Definition tick (t : Z) (d : daemon W) : daemon W :=
  match fetch_latest_instruction (V:=V) base_url (d_jump d) with
  | (Ok (Some i), s) =>
    Daemon (exec i s).2 (d_chan d) (d_seen d)
      (if i_active_time i =? 0 then Waiting else Periodic (i_active_time i)) (d_done d ++ [i])
  | (Ok None, s) => Daemon s (d_chan d) (d_seen d) (Periodic t) (d_done d)
  | (Err _, s) => Daemon s (d_chan d) (d_seen d) Waiting (d_done d)
  end.

(** The body of the daemon's loop once the channel has been read. *)
Definition carry_out (d : daemon W) : daemon W :=
  match w_value (d_chan d) with
  | None => Daemon (d_jump d) (d_chan d) (d_seen d) Waiting (d_done d)
  | Some i =>
    Daemon (exec i (d_jump d)).2 (d_chan d) (d_seen d)
      (if 0 <? i_active_time i then Periodic (i_active_time i) else Waiting) (d_done d ++ [i])
  end.

(** [rx.changed()] marks the current version as seen. *)
Definition see (p : phase) (d : daemon W) : option (daemon W) :=
  if unseen d then Some (Daemon (d_jump d) (d_chan d) (w_version (d_chan d)) p (d_done d)) else None.

Definition dstep (e : event) (d : daemon W) : option (daemon W) :=
  match e, d_phase d with
  | Send i, _ =>
    Some (Daemon (d_jump d) (watch_send i (d_chan d)) (d_seen d) (d_phase d) (d_done d))
  | Wake, Waiting => see Ready d
  | Take, Ready => Some (carry_out d)
  | Tick, Periodic t => Some (tick t d)
  | Break, Periodic _ => see Waiting d
  | _, _ => None
  end.

Fixpoint druns (es : list event) (d : daemon W) : option (daemon W) :=
  match es with
  | [] => Some d
  | e :: es => d ← dstep e d; druns es d
  end.

Lemma druns_app es1 es2 d : druns (es1 ++ es2) d = (d ← druns es1 d; druns es2 d).
Proof.
  revert d. induction es1 as [|e es1 IH]; intros d; [done|]. simpl.
  destruct (dstep e d); simpl; [apply IH|done].
Qed.

(** An interval of the periodic loop is positive, and the receiver is never
    ahead of the channel. *)
Definition d_ok (d : daemon W) : Prop :=
  (d_seen d <= w_version (d_chan d))%nat
  /\ match d_phase d with Periodic t => 0 < t | _ => True end.

Lemma fetched_active_time s i s' :
  fetch_latest_instruction (V:=V) base_url s = (Ok (Some i), s') -> 0 <= i_active_time i.
Proof.
  unfold fetch_latest_instruction. destruct (net_client base_url); [|done].
  destruct (post_data _ _ _) as [[resp|] w]; [|done]. destruct (from_str resp) as [v|]; [|done].
  case_bool_decide; [|done]. destruct (get_field v "data") as [data|]; simpl; [|done].
  destruct (_ && _); [|done]. intros [= <- _]. apply (uint_field_range 32). lia.
Qed.

Lemma dstep_ok e d d' : d_ok d -> dstep e d = Some d' -> d_ok d'.
Proof.
  intros [Hs Hp] E. destruct d as [j c seen p l]. unfold d_ok in *. simpl in *.
  destruct e, p as [| |t]; simpl in E; try done; unfold see, carry_out, tick in E; simpl in E.
  all: try (destruct (unseen _); simplify_eq; simpl; lia).
  all: try (simplify_eq; simpl; lia).
  - destruct (w_value c) as [i|]; simplify_eq; simpl; [|lia].
    split; [done|]. destruct (Z.ltb_spec 0 (i_active_time i)); done.
  - destruct (fetch_latest_instruction _ _) as [[[i|]|] s'] eqn:F; simplify_eq; simpl; try lia.
    split; [done|]. apply fetched_active_time in F.
    destruct (Z.eqb_spec (i_active_time i) 0); [done|lia].
Qed.

Lemma druns_ok es d d' : d_ok d -> druns es d = Some d' -> d_ok d'.
Proof.
  revert d. induction es as [|e es IH]; intros d Hd E; simpl in E; [by simplify_eq|].
  destruct (dstep e d) as [d1|] eqn:E1; [|done]. eapply IH; [|exact E]. by eapply dstep_ok.
Qed.

(** whatever is sent and whatever the server answers, the daemon never
    asks for an interval of zero seconds, on which [tokio::time::interval]
    panics. *)
Theorem daemon_interval_positive es (s : jump_state W) d t :
  druns es (daemon_new s) = Some d -> d_phase d = Periodic t -> 0 < t.
Proof.
  intros E Hp. assert (d_ok d) as [_ Ht] by (eapply druns_ok; [|exact E]; split; simpl; lia).
  by rewrite Hp in Ht.
Qed.

Lemma see_new p (d : daemon W) :
  (d_seen d < w_version (d_chan d))%nat ->
  see p d = Some (Daemon (d_jump d) (d_chan d) (w_version (d_chan d)) p (d_done d)).
Proof. intros Hv. unfold see, unseen. destruct (Nat.eqb_spec (d_seen d) (w_version (d_chan d))); [lia|done]. Qed.

(** Sending only. *)
Lemma druns_sends sent d :
  exists c, druns (Send <$> sent) d = Some (Daemon (d_jump d) c (d_seen d) (d_phase d) (d_done d))
    /\ (w_version (d_chan d) <= w_version c)%nat
    /\ (sent = [] -> c = d_chan d).
Proof.
  revert d. induction sent as [|i sent IH]; intros d; simpl.
  - exists (d_chan d). by destruct d.
  - destruct (IH (Daemon (d_jump d) (watch_send i (d_chan d)) (d_seen d) (d_phase d) (d_done d)))
      as (c & E & Hv & _). exists c. simpl in *. split_and!; [exact E|lia|done].
Qed.

(** The daemon's own events. *)
Definition own (e : event) : Prop := match e with Send _ => False | _ => True end.

(** C24: a waiting daemon gets to the newest instruction: after any sends of
    which [i] is the last, waking up and then reading the channel are the only
    steps it can take, they can be taken, and they carry out [i]. *)
Theorem waiting_daemon_executes es (s : jump_state W) d sent i :
  druns es (daemon_new s) = Some d -> d_phase d = Waiting ->
  exists d1 d2 d3,
    druns (Send <$> (sent ++ [i])) d = Some d1
    /\ (forall e d', own e -> dstep e d1 = Some d' -> e = Wake) /\ dstep Wake d1 = Some d2
    /\ (forall e d', own e -> dstep e d2 = Some d' -> e = Take) /\ dstep Take d2 = Some d3
    /\ d_done d3 = d_done d ++ [i] /\ d_jump d3 = (exec i (d_jump d)).2.
Proof.
  intros E Hp. assert (d_ok d) as [Hs _] by (eapply druns_ok; [|exact E]; split; simpl; lia).
  destruct (druns_sends sent d) as (c & E1 & Hv & _).
  exists (Daemon (d_jump d) (watch_send i c) (d_seen d) Waiting (d_done d)).
  eexists. eexists. split; [rewrite fmap_app, druns_app, E1; simpl; by rewrite Hp|].
  split; [by intros [] d' He E'|]. split.
  { cbn [dstep d_phase]. rewrite see_new by (simpl; lia). reflexivity. }
  split; [by intros [] d' He E'|]. simpl. split; [reflexivity|]. by split.
Qed.

(** an instruction that arrives in periodic mode is not carried out: it
    breaks the loop, but the daemon then waits for the next one, with no step
    of its own left, and it is that next instruction it carries out. *)
Theorem interrupting_instruction_skipped es (s : jump_state W) d t i j :
  druns es (daemon_new s) = Some d -> d_phase d = Periodic t ->
  exists d1 d2,
    druns [Send i; Break] d = Some d1 /\ (forall e, own e -> dstep e d1 = None)
    /\ druns [Send j; Wake; Take] d1 = Some d2 /\ d_done d2 = d_done d ++ [j].
Proof.
  intros E Hp. assert (d_ok d) as [Hs _] by (eapply druns_ok; [|exact E]; split; simpl; lia).
  destruct d as [s' c seen p l]. simpl in Hs, Hp. subst p.
  exists (Daemon s' (watch_send i c) (S (w_version c)) Waiting l). eexists. split_and!.
  - cbn [druns dstep d_phase d_jump d_chan d_seen d_done mbind option_bind].
    rewrite see_new by (simpl; lia). reflexivity.
  - intros []; simpl; try done. unfold see, unseen. simpl. by rewrite Nat.eqb_refl.
  - cbn [druns dstep d_phase d_jump d_chan d_seen d_done mbind option_bind].
    rewrite see_new by (simpl; lia). reflexivity.
  - reflexivity.
Qed.
End loops.

(** ** The address list of a netplan file, read back *)

(** Entries as [parse_entry] makes them. *)
Definition entry_ok (e : AddrEntry) : Prop :=
  match e with
  | V4 ip prefix => is_uint 32 ip /\ is_uint 8 prefix
  | Other s => str_mem ","%char s = false /\ parse_entry s = Other s
  end.

Lemma parse_entry_trim s : parse_entry (trim s) = parse_entry s.
Proof. unfold parse_entry. by rewrite trim_idem. Qed.

Lemma parse_entry_space s : parse_entry (String " "%char s) = parse_entry s.
Proof. reflexivity. Qed.

Lemma parse_entry_ok s : str_mem ","%char s = false -> entry_ok (parse_entry s).
Proof.
  intros Hs. unfold parse_entry at 1.
  assert (parse_entry s = Other (trim s) -> entry_ok (Other (trim s))) as Hother.
  { intros E. split; [by apply str_mem_trim|]. by rewrite parse_entry_trim. }
  unfold parse_entry in Hother.
  destruct (split_once _ (trim s)) as [[a p]|]; [|by apply Hother].
  destruct (parse_ipv4 a) as [v4|] eqn:E; [|by apply Hother]. split.
  - by eapply parse_ipv4_uint.
  - destruct (parse_uint 8 p) as [n|] eqn:En; [by eapply parse_uint_range|]. simpl. unfold is_uint. lia.
Qed.

Lemma show_parse e : entry_ok e -> parse_entry (show_entry e) = e.
Proof.
  destruct e as [a p|s]; [|by intros [_ ?]]. intros [Ha Hp]. unfold parse_entry. cbn [show_entry]. cbv zeta.
  rewrite trim_id.
  - change ("/" +:+ dec p) with (String "/"%char (dec p)).
    rewrite split_once_app by by apply ipv4_mem.
    by rewrite parse_ipv4_to_string, parse_uint_dec.
  - apply no_space_app; [apply no_space_ipv4|]. apply no_space_app; [|apply no_space_dec].
    intros c. simpl. by case_bool_decide; subst.
Qed.

Lemma show_no_comma e : entry_ok e -> str_mem ","%char (show_entry e) = false.
Proof.
  destruct e as [a p|s]; [|by intros [? _]]. intros _. cbn [show_entry].
  by rewrite !str_mem_app, ipv4_mem, dec_mem.
Qed.

Lemma join_comma_space x l : join ", " (x :: l) = join "," (x :: (String " "%char <$> l)).
Proof.
  revert x. induction l as [|y l IH]; intros x; [done|].
  change (join ", " (x :: y :: l)) with (x +:+ ", " +:+ join ", " (y :: l)).
  rewrite IH. change (String " " <$> y :: l) with (String " " y :: (String " "%char <$> l)).
  destruct (String " "%char <$> l); reflexivity.
Qed.

Lemma reread l : l <> [] -> Forall entry_ok l ->
  parse_entry <$> split_char ","%char (join ", " (show_entry <$> l)) = l.
Proof.
  intros Hne Hl. destruct Hl as [|e l He Hl]; [done|]. rewrite fmap_cons, join_comma_space.
  change "," with (String ","%char ""). rewrite split_join; [|done|].
  - rewrite fmap_cons, show_parse by done. f_equal.
    rewrite <- !list_fmap_compose. rewrite <- (list_fmap_id l) at 2.
    apply list_fmap_ext. intros i e' Hi. apply show_parse.
    rewrite Forall_forall in Hl. apply Hl. by eapply list_elem_of_lookup_2.
  - constructor; [by apply show_no_comma|]. rewrite !Forall_fmap.
    eapply Forall_impl; [exact Hl|]. intros e'. simpl. by apply show_no_comma.
Qed.

(** Where the new address goes. *)
Definition is_match (source : Z) (e : AddrEntry) : bool :=
  match e with V4 v4 prefix => (v4 =? source) || same_subnet v4 source prefix | Other _ => false end.

Lemma choose_spec source l k c :
  (forall i, c = Some i -> (i < k)%nat) ->
  match foldl (choose source) c (imap (fun i e => ((k + i)%nat, e)) l) with
  | Some i => c = Some i \/ exists j v4 prefix, i = (k + j)%nat /\ l !! j = Some (V4 v4 prefix)
                              /\ is_match source (V4 v4 prefix) = true
  | None => c = None /\ Forall (fun e => is_match source e = false) l
  end.
Proof.
  revert k c. induction l as [|e l IH]; intros k c Hc; simpl.
  - destruct c; [by left|done].
  - rewrite Nat.add_0_r.
    assert (imap ((fun i e => ((k + i)%nat, e)) ∘ S) l = imap (fun i e => ((S k + i)%nat, e)) l) as ->.
    { apply imap_ext. intros i x _. simpl. f_equal. lia. }
    set (c' := choose source c (k, e)).
    assert (forall i, c' = Some i -> (i < S k)%nat) as Hc'.
    { unfold c', choose. simpl. intros i Hi. destruct e as [v4 p|s].
      - destruct (v4 =? source); [simplify_eq; lia|]. destruct c; simplify_eq.
        + pose proof (Hc i eq_refl). lia.
        + destruct (same_subnet _ _ _); simplify_eq; lia.
      - pose proof (Hc i Hi). lia. }
    specialize (IH (S k) c' Hc').
    destruct (foldl _ c' _) as [i|].
    + destruct IH as [E|(j & v4 & p & -> & Hl & Hm)].
      * unfold c', choose in E. simpl in E. destruct e as [v4 p|s]; [|by left].
        destruct (v4 =? source) eqn:Ev.
        -- right. exists 0%nat, v4, p. simplify_eq. simpl. rewrite Ev. split; [lia|done].
        -- destruct c; [by left|]. destruct (same_subnet v4 source p) eqn:Es; simplify_eq.
           right. exists 0%nat, v4, p. simpl. rewrite Es, orb_true_r. split; [lia|done].
      * right. exists (S j), v4, p. split; [lia|done].
    + destruct IH as [E Hl]. unfold c', choose in E. simpl in E. destruct e as [v4 p|s].
      * destruct (v4 =? source) eqn:Ev; [done|]. destruct c; [done|].
        destruct (same_subnet v4 source p) eqn:Es; [done|]. split; [done|].
        constructor; [|done]. simpl. by rewrite Ev, Es.
      * split; [done|]. by constructor.
Qed.

(** The list after the update: one entry replaced in place, or one added. *)
Lemma put_primary_spec source primary l :
  (exists l1 v4 prefix l2, l = l1 ++ V4 v4 prefix :: l2
     /\ is_match source (V4 v4 prefix) = true
     /\ put_primary source primary l = l1 ++ V4 primary prefix :: l2)
  \/ (Forall (fun e => is_match source e = false) l
      /\ put_primary source primary l = l ++ [V4 primary 24]).
Proof.
  pose proof (choose_spec source l 0 None) as Hc. unfold put_primary, chosen_idx, enumerate.
  change (imap (fun i e => ((0 + i)%nat, e)) l) with (imap pair l) in Hc.
  destruct (foldl _ _ _) as [i|].
  - left. destruct Hc as [Hc|(j & v4 & p & -> & Hl & Hm)]; [done|done|]. simpl. rewrite Hl.
    exists (take j l), v4, p, (drop (S j) l). split_and!; [by rewrite take_drop_middle|done|].
    apply lookup_lt_Some in Hl. by rewrite insert_take_drop.
  - right. destruct Hc as [_ Hc]; [done|]. by split.
Qed.

Lemma put_primary_ok source primary l :
  is_uint 32 primary -> Forall entry_ok l -> Forall entry_ok (put_primary source primary l).
Proof.
  intros Hp Hl. destruct (put_primary_spec source primary l)
    as [(l1 & v4 & p & l2 & -> & _ & ->)|[_ ->]].
  - rewrite Forall_app, Forall_cons in *. destruct Hl as (H1 & [_ Hpre] & H2). by split_and!.
  - apply Forall_app. split; [done|]. constructor; [|constructor].
    split; [done|]. unfold is_uint. lia.
Qed.

(** the address list netplan gets is read back as the list before with the
    machine's new primary address put in place of one entry that was the
    source or in its subnet (with that entry's prefix length), or at the end
    with prefix length 24 when there was no such entry; every other entry,
    IPv6 ones too, is kept. *)
Theorem netplan_list_reread source primary raw_list :
  is_uint 32 primary ->
  let entries text := parse_entry <$> split_char ","%char text in
  let before := entries raw_list in
  let after := entries (new_addr_list source primary raw_list) in
  (exists l1 v4 prefix l2, before = l1 ++ V4 v4 prefix :: l2
     /\ is_match source (V4 v4 prefix) = true /\ after = l1 ++ V4 primary prefix :: l2)
  \/ (Forall (fun e => is_match source e = false) before /\ after = before ++ [V4 primary 24]).
Proof.
  intros Hp. cbv zeta. unfold new_addr_list.
  set (l := parse_entry <$> split_char _ raw_list).
  assert (Forall entry_ok l) as Hl.
  { apply Forall_fmap. eapply Forall_impl; [apply split_char_parts|]. apply parse_entry_ok. }
  rewrite reread; [apply put_primary_spec| |by apply put_primary_ok].
  destruct (put_primary_spec source primary l) as [(l1 & v4 & p & l2 & _ & _ & ->)|[_ ->]];
    [by destruct l1|by destruct l].
Qed.

(** ** A daemon on the machine of the address jump *)

Module DaemonDemo.
Import IpJump.Demo.

(** The same machine, with a server that always answers [again]. *)
Definition again : value :=
  Object [("code", Str "000000");
          ("data", Object [("target_ip", Str "10.0.0.2/24"); ("active_time", Number 30)])].

#[local] Instance demo_text : JsonText value := {|
  from_str _ := Ok again;
  is_object v := match v with Object _ => true | _ => false end;
  to_text _ := "";
  de_error _ _ := ""
|}.
#[local] Instance demo_netplan : NetplanFs machine := {|
  netplan_is_dir _ := false;
  netplan_entries _ := Ok [];
  read_to_string _ _ := Err "no such file";
  addr_captures _ := None;
  addr_replace c _ := c;
  gw_is_match _ := false;
  gw_replace c _ := c
|}.
#[local] Instance demo_files : Files machine := {| put _ m := (Ok tt, m) |}.

Definition once : IpJumpInstruction := Instr "10.0.0.1" "10.0.0.2/24" "" 0.
Definition every_minute : IpJumpInstruction := Instr "10.0.0.1" "10.0.0.2/24" "" 60.

Abbreviation run := (druns (W:=machine) (V:=value) "eth0" "http://server").

Definition periodic : daemon machine :=
  default (daemon_new start) (run [Send every_minute; Wake; Take; Tick] (daemon_new start)).

Lemma periodic_reached : run [Send every_minute; Wake; Take; Tick] (daemon_new start) = Some periodic.
Proof. vm_compute. reflexivity. Qed.

Lemma daemon_interval_positive_witness : d_phase periodic = Periodic 30 /\ 0 < 30.
Proof.
  assert (d_phase periodic = Periodic 30) as H by (vm_compute; reflexivity). split; [done|].
  by apply (daemon_interval_positive (V:=value) "eth0" "http://server" _ _ _ _ periodic_reached).
Defined.

Lemma waiting_daemon_executes_witness :
  exists d1 d2 d3,
    run [Send every_minute; Send once] (daemon_new start) = Some d1
    /\ dstep (V:=value) "eth0" "http://server" Wake d1 = Some d2
    /\ dstep (V:=value) "eth0" "http://server" Take d2 = Some d3 /\ d_done d3 = [once].
Proof.
  destruct (waiting_daemon_executes (V:=value) "eth0" "http://server" [] start (daemon_new start)
              [every_minute] once) as (d1 & d2 & d3 & E1 & _ & E2 & _ & E3 & D & _); [done..|].
  by exists d1, d2, d3.
Defined.

Lemma interrupting_instruction_skipped_witness :
  exists d1 d2,
    run [Send once; Break] periodic = Some d1
    /\ run [Send every_minute; Wake; Take] d1 = Some d2
    /\ d_done d2 = d_done periodic ++ [every_minute].
Proof.
  destruct (interrupting_instruction_skipped (V:=value) "eth0" "http://server" _ start periodic 30
              once every_minute periodic_reached) as (d1 & d2 & E1 & _ & E2 & D);
    [vm_compute; reflexivity|]. by exists d1, d2.
Defined.

(** 10.0.0.9, in the subnet of the source 10.0.0.1, gives way to 10.0.0.2. *)
Lemma netplan_list_reread_witness :
  new_addr_list (of_octets 10 0 0 1) (of_octets 10 0 0 2) "172.16.0.1/12,10.0.0.9/24 , fe80::1/64"
    = "172.16.0.1/12, 10.0.0.2/24, fe80::1/64"
  /\ (exists l1 v4 prefix l2,
        parse_entry <$> split_char ","%char "172.16.0.1/12,10.0.0.9/24 , fe80::1/64"
        = l1 ++ V4 v4 prefix :: l2).
Proof.
  split; [vm_compute; reflexivity|].
  destruct (netplan_list_reread (of_octets 10 0 0 1) (of_octets 10 0 0 2)
              "172.16.0.1/12,10.0.0.9/24 , fe80::1/64") as [(l1 & v4 & p & l2 & E & _)|[H _]].
  - unfold is_uint, of_octets. lia.
  - by exists l1, v4, p, l2.
  - exfalso. apply Forall_lookup with (i := 1%nat) (x := V4 (of_octets 10 0 0 9) 24) in H;
      [|vm_compute; reflexivity]. vm_compute in H. discriminate H.
Defined.
End DaemonDemo.
