(* ===== verification/TaskData.v ===== *)
(** * What the tasks download

    The rule types of [crates/task/src/virtual_port_rule.rs],
    [net_reach_rule.rs] and [scan_directory_task.rs] with their
    deserializers, the line a decoy-port rule is written as
    ([task_down_virtual_port] of [task_fetcher.rs]), the outreach probes and
    the directory listing. *)

From S2P Require Import Prelude RustStr Bytes Json Pattern Usb.
From Stdlib Require Import Ascii.

(** ** Derived deserializers

    A struct is read from an object by field name or from an array by position;
    unknown fields are ignored, a surplus of elements is an error, and so is a
    missing field without a default. *)

Section serde.
Context {V : Type} `{JsonValue V}.

Definition struct_field (n i : nat) (k : string) (v : V) : option V :=
  match as_array v with
  | Some l => if (length l <=? n)%nat then l !! i else None
  | None => get_field v k
  end.

Definition de_string (v : V) : option string := as_str v.
Definition de_uint (w : Z) (v : V) : option Z :=
  n ← as_u64 v; if n <? 2 ^ w then Some n else None.

(** [#[serde(default)]]: only an absent field takes the default. *)
Definition de_default {A} (f : V -> option A) (d : A) (v : option V) : option A :=
  match v with Some x => f x | None => Some d end.

Definition de_vec {A} (f : V -> option A) (v : V) : option (list A) := l ← as_array v; mapM f l.

Definition de_trust_dir (v : V) : option GlobalTrustDir :=
  let field := struct_field 3 in
  d ← field 0%nat "dir" v ≫= de_string;
  t ← field 1%nat "type" v ≫= de_uint 8;
  e ← field 2%nat "is_extend" v ≫= de_uint 8;
  Some {| dir := d; typ := t; is_extend := e |}.

Definition de_usb_info (v : V) : option UsbInfo :=
  let field := struct_field 5 in
  eid ← field 0%nat "perpheral_eid" v ≫= de_string;
  name ← field 1%nat "perpheral_name" v ≫= de_string;
  intro_ ← de_default de_string "" (field 2%nat "intro" v);
  ty ← de_default de_string "" (field 3%nat "type_" v);
  al ← de_default as_bool false (field 4%nat "allow" v);
  Some {| perpheral_eid := eid; perpheral_name := name; intro := intro_; usb_type := ty; allow := al |}.
End serde.

(** ** Decoy ports *)

Record VirtualPortRule := VPort {
  alarm_level : Z;
  dest_ip : string;
  dest_port : string;
  dest_port_type : Z;
  rule_id : Z;
  protocol : string;
  src_ip : string;
  source_port_range : Z * Z;
  rule_type : string
}.

Definition deserialize_port_range (s : string) : option (Z * Z) :=
  match split_char "-"%char s with
  | [a; b] =>
    start ← parse_uint 16 a;
    end_ ← parse_uint 16 b;
    if end_ <? start then None else Some (start, end_)
  | _ => None
  end.

Definition deserialize_dest_port (s : string) : string := if str_is_empty s then "0" else s.

Definition de_virtual_port {V} `{JsonValue V} (v : V) : option VirtualPortRule :=
  let field := struct_field 9 in
  level ← field 0%nat "alarm_level" v ≫= de_uint 32;
  dip ← field 1%nat "dest_ip" v ≫= de_string;
  dport ← field 2%nat "dest_port" v ≫= de_string;
  dtype ← field 3%nat "dest_port_type" v ≫= de_uint 32;
  i ← field 4%nat "id" v ≫= de_uint 32;
  proto ← field 5%nat "protocol" v ≫= de_string;
  sip ← field 6%nat "source_ip" v ≫= de_string;
  sport ← field 7%nat "source_port" v ≫= de_string;
  range ← deserialize_port_range sport;
  ty ← field 8%nat "type" v ≫= de_string;
  Some (VPort level dip (deserialize_dest_port dport) dtype i proto sip range ty).

Definition protocol_num (p : string) : Z :=
  if bool_decide (to_lowercase p = "tcp") then 1
  else if bool_decide (to_lowercase p = "udp") then 2 else 0.

Definition two_quotes : string := String "034" (String "034" "").

(** The numeric and the textual fields of a line, in order. *)
Definition port_fields (index total : nat) (r : VirtualPortRule) : list (string * string) :=
  [("index", dec (Z.of_nat index)); ("total", dec (Z.of_nat total)); ("id", dec (rule_id r));
   ("protocol", dec (protocol_num (protocol r))); ("type", rule_type r);
   ("is_ipv4", if str_mem ":"%char (dest_ip r) then "0" else "1");
   ("source_ip", src_ip r);
   ("start_port", dec (source_port_range r).1); ("end_port", dec (source_port_range r).2)].
Definition port_fields2 (r : VirtualPortRule) : list (string * string) :=
  [("dest_ip", if str_is_empty (trim (dest_ip r)) then two_quotes else dest_ip r);
   ("dest_port_type", dec (dest_port_type r));
   ("redirectPort",
      dec (if dest_port_type r =? 0 then default 0 (parse_uint 16 (dest_port r)) else 0));
   ("addr_type", dec (wrap 8 (Z.land (alarm_level r) 31)))].

Definition key_value (kv : string * string) : string := kv.1 +:+ "=" +:+ kv.2.

(** Two spaces separate [end_port] and [dest_ip]. *)
Definition port_line (index total : nat) (r : VirtualPortRule) : string :=
  "VIR_OPEN_PORT " +:+ join " " (key_value <$> port_fields index total r) +:+ "  "
  +:+ join " " (key_value <$> port_fields2 r) +:+ String line_feed "".

Definition valid_rules (conf : list VirtualPortRule) : list VirtualPortRule :=
  retain (fun r => negb (str_is_empty (src_ip r))) conf.

Definition port_lines (conf : list VirtualPortRule) : list string :=
  let l := valid_rules conf in
  (fun '(i, r) => port_line i (length l) r) <$> enumerate l.

Example port_line_sample :
  port_line 0 1 (VPort 33 "" "8080" 0 7 "TCP" "10.0.0.1" (1000, 2000) "1") =
  "VIR_OPEN_PORT index=0 total=1 id=7 protocol=1 type=1 is_ipv4=1 source_ip=10.0.0.1 start_port=1000 end_port=2000  dest_ip="
  +:+ two_quotes +:+ " dest_port_type=0 redirectPort=8080 addr_type=1" +:+ String line_feed "".
Proof. vm_compute. reflexivity. Qed.

(** ** Outreach detection *)

Record OutreachDetectRule := Outreach { addr : string; method : string; outreach_type : Z }.

Definition de_outreach {V} `{JsonValue V} (v : V) : option OutreachDetectRule :=
  let field := struct_field 3 in
  a ← field 0%nat "addr" v ≫= de_string;
  m ← field 1%nat "method" v ≫= de_string;
  t ← field 2%nat "type" v ≫= de_uint 32;
  Some (Outreach a m t).

Record DomainLog := DLog { n_time : Z; n_type : Z; n_level : Z; url : string; ipaddr : string }.

Definition probe_url (a : string) : string :=
  if starts_with "http://" a || starts_with "https://" a then a else "http://" +:+ a.

(** [get url] and [post url] are the client's requests: the response's body and
    the addresses of its host, or an error. *)
Definition probe (get post : string -> result string (string * list string)) (now : Z)
    (r : OutreachDetectRule) : option DomainLog :=
  let m := to_lowercase (method r) in
  let answer :=
    if bool_decide (m = "get") then Some (get (probe_url (addr r)))
    else if bool_decide (m = "post") then Some (post (probe_url (addr r)))
    else None in
  match answer with
  | Some (Ok (_, ips)) => Some (DLog now 4002 1 (addr r) (join "," ips))
  | _ => None
  end.

(** [buffer_unordered]: the logs of the probes that succeeded, in the order in
    which they finish: [order] is some permutation of the numbered rules.  Each
    probe takes the time when it starts, [now i] for the [i]-th rule. *)
Definition run_outreach_detection
    (order : list (nat * OutreachDetectRule) -> list (nat * OutreachDetectRule))
    (get post : string -> result string (string * list string)) (now : nat -> Z)
    (rules : list OutreachDetectRule) : list DomainLog :=
  omap (fun '(i, r) => probe get post (now i) r) (order (enumerate rules)).

Definition outreach_item (l : DomainLog) : value :=
  Object [("level", Number (n_level l)); ("time", Number (n_time l)); ("type", Number (n_type l));
          ("domain_name", Str (url l)); ("res_ip", Str (ipaddr l))].

Definition build_outreach_detect_list_json (text : value -> string) (logs : list DomainLog)
    : result string string :=
  match logs with
  | [] => Err "No valid domain log entries"
  | _ => Ok (text (Object [("alert", Str (text (Array (outreach_item <$> logs))))]))
  end.

(** ** Directory listings *)

Record DirectionScanRule := Scan { scan_dir : string; pid : Z; scan_typ : Z }.

Definition de_scan_rule {V} `{JsonValue V} (v : V) : option DirectionScanRule :=
  let field := struct_field 3 in
  d ← field 0%nat "dir" v ≫= de_string;
  p ← field 1%nat "pid" v ≫= de_uint 32;
  t ← field 2%nat "type" v ≫= de_uint 32;
  Some (Scan d p t).

(** [(a..=b).step_by(step)]. *)
Definition range_inclusive (a b step : Z) : list Z :=
  if b <? a then []
  else (fun k => a + step * Z.of_nat k) <$> seq 0 (Z.to_nat ((b - a) / step + 1)).

Definition mode_char (bits mask : Z) (c : string) : string := if Z.land bits mask =? 0 then "-" else c.

Definition mode_triple (mode i : Z) : string :=
  let bit := Z.land (Z.shiftr mode i) 7 in
  mode_char bit 4 "r" +:+ mode_char bit 2 "w" +:+ mode_char bit 1 "x".

Definition mode_to_string (mode : Z) : string :=
  foldl (fun s i => s +:+ mode_triple mode i) (mode_char mode 16384 (* 0o040000 *) "d")
    (range_inclusive 6 0 3).

(** What [symlink_metadata] gives for an entry, and the user and group names of
    the machine. *)
Record metadata := Meta {
  m_mode : Z; m_uid : Z; m_gid : Z; m_len : Z; m_ctime : Z; m_mtime : Z; m_is_dir : bool
}.

Record FileInfoUpload := FileInfo {
  fi_dir : string; rw : string; group : string; fi_user : string; size : string;
  starttime : string; updatetime : string; level : string; dirtype : string; hash : string;
  file_type : Z; fi_pid : Z
}.

Section scan.
(** [getpwuid] and [getgrgid], and [str::to_lowercase]. *)
Context (uid_to_name gid_to_name : Z -> option string) (lower : string -> string).

Definition file_record (pid : Z) (path : string) (m : metadata) : FileInfoUpload := {|
  fi_dir := path;
  rw := mode_to_string (m_mode m);
  group := default (dec (m_gid m)) (gid_to_name (m_gid m));
  fi_user := default (dec (m_uid m)) (uid_to_name (m_uid m));
  size := dec (m_len m);
  starttime := dec_signed (m_ctime m);
  updatetime := dec_signed (m_mtime m);
  level := "RW";
  dirtype := lower (default "unknown" (extension path));
  hash := "";
  file_type := if m_is_dir m then 1 else 2;
  fi_pid := pid
|}.

(** A directory: absent, unreadable, or its entries up to the first that cannot
    be read, each a path with its metadata when they can be had.  [read_dir]
    never yields [.] or [..]. *)
Inductive listing := NotADir | OpenError (e : string) | Entries (l : list (string * option metadata)).

Definition scan_single_dir (dir : string) (ls : listing) (pid : Z)
    : result string (list FileInfoUpload) :=
  match ls with
  | NotADir => Ok []
  | OpenError e => Err ("打开目录失败 " +:+ dir +:+ ": " +:+ e)
  | Entries l => Ok (omap (fun '(path, m) => file_record pid path <$> m) l)
  end.

(** The accumulation loop of [task_upload_dir]. *)
Definition MAX_FILES : nat := 1000.

Fixpoint scan_dirs (ls : string -> listing) (rules : list DirectionScanRule)
    (all_files : list FileInfoUpload) : list FileInfoUpload :=
  match rules with
  | [] => all_files
  | r :: rules =>
    if (MAX_FILES <=? length all_files)%nat then all_files
    else scan_dirs ls rules
           (match scan_single_dir (scan_dir r) (ls (scan_dir r)) (pid r) with
            | Ok files => all_files ++ take (MAX_FILES - length all_files)%nat files
            | Err _ => all_files
            end)
  end.
End scan.

(** The serialized record: an empty hash is skipped. *)
Definition file_json (f : FileInfoUpload) : value :=
  Object ([("dir", Str (fi_dir f)); ("rw", Str (rw f)); ("group", Str (group f));
           ("user", Str (fi_user f)); ("size", Str (size f)); ("starttime", Str (starttime f));
           ("updatetime", Str (updatetime f)); ("level", Str (level f));
           ("dirtype", Str (dirtype f))]
          ++ (if str_is_empty (hash f) then [] else [("hash", Str (hash f))])
          ++ [("type", Number (file_type f)); ("pid", Number (fi_pid f))]).

(** ** The programs of the system directories *)

Definition DIRS : list string :=
  ["/bin/"; "/usr/bin/"; "/usr/sbin/"; "/usr/local/bin/"; "/usr/lib/systemd/"].

Record LinuxDirProc := DirProc { dp_dir : string; dp_hash : string }.

Definition dir_proc_json (p : LinuxDirProc) : value :=
  Object [("dir", Str (dp_dir p)); ("hash", Str (dp_hash p)); ("introduce", Str "linux");
          ("copyright", Str "linux_gnu")].

Definition build_linux_dir_json (text : value -> string) (l : list LinuxDirProc) : string :=
  text (Object [("list", Str (text (Array (dir_proc_json <$> l))))]).

(** An entry: one that is skipped (a directory, a symbolic link, a name that is
    not UTF-8), one that cannot be read, or a file with its digest. *)
Inductive dir_entry :=
| Skipped
| EntryError (e : string)
| FileEntry (path : string) (md5 : result string string).

(** The loop over all entries: the batches posted, the records not posted yet,
    and the error that ended it. *)
Fixpoint dir_batches (entries : list dir_entry) (batches : list (list LinuxDirProc))
    (vec_info : list LinuxDirProc)
    : list (list LinuxDirProc) * result string (list LinuxDirProc) :=
  match entries with
  | [] => (batches, Ok vec_info)
  | Skipped :: entries => dir_batches entries batches vec_info
  | EntryError e :: _ => (batches, Err ("读取目录项失败: " +:+ e))
  | FileEntry path md5 :: entries =>
    match md5 with
    | Err e => (batches, Err ("计算 MD5 失败: " +:+ e))
    | Ok h =>
      let vec_info := vec_info ++ [DirProc path h] in
      if (200 <=? length vec_info)%nat then dir_batches entries (batches ++ [vec_info]) []
      else dir_batches entries batches vec_info
    end
  end.

Fixpoint all_dirs (read_dir : string -> result string (list dir_entry)) (dirs : list string)
    (batches : list (list LinuxDirProc)) (vec_info : list LinuxDirProc)
    : list (list LinuxDirProc) * result string (list LinuxDirProc) :=
  match dirs with
  | [] => (batches, Ok vec_info)
  | path :: dirs =>
    match read_dir path with
    | Err e => (batches, Err ("打开目录失败 " +:+ path +:+ ": " +:+ e))
    | Ok entries =>
      match dir_batches entries batches vec_info with
      | (batches, Ok vec_info) => all_dirs read_dir dirs batches vec_info
      | (batches, Err e) => (batches, Err e)
      end
    end
  end.

(** The bodies posted, and the result. *)
Definition process_all_dirs (read_dir : string -> result string (list dir_entry))
    : list (list LinuxDirProc) * result string unit :=
  match all_dirs read_dir DIRS [] [] with
  | (batches, Ok []) => (batches, Ok tt)
  | (batches, Ok vec_info) => (batches ++ [vec_info], Ok tt)
  | (batches, Err e) => (batches, Err e)
  end.

(** ** Properties *)

(** the permissions reported for a file are one character: the loop that
    should append the nine [rwx] letters runs over the empty range [6..=0]. *)
Theorem mode_to_string_no_permissions mode :
  mode_to_string mode = "-" \/ mode_to_string mode = "d".
Proof. unfold mode_to_string, mode_char. simpl. destruct (_ =? 0); auto. Qed.

Lemma take_cut {A} n (l1 l2 l3 : list A) :
  (length l1 <= n)%nat ->
  take n ((l1 ++ take (n - length l1) l2) ++ l3) = take n (l1 ++ l2 ++ l3).
Proof.
  intros Hl. rewrite <- app_assoc, !(take_app l1), !(take_ge l1) by done. f_equal.
  rewrite !take_app, take_take, length_take, Nat.min_id. do 2 f_equal. lia.
Qed.

(** What every directory alone would contribute. *)
Definition all_records un gn lo (ls : string -> listing) (rules : list DirectionScanRule)
    : list FileInfoUpload :=
  rules ≫= fun r => match scan_single_dir un gn lo (scan_dir r) (ls (scan_dir r)) (pid r) with
                    | Ok files => files
                    | Err _ => []
                    end.

(** a directory upload holds the first thousand records of the listed
    directories taken together, directories that cannot be read left out. *)
Theorem scan_dirs_first_1000 un gn lo ls rules :
  scan_dirs un gn lo ls rules [] = take MAX_FILES (all_records un gn lo ls rules).
Proof.
  assert (forall acc, (length acc <= MAX_FILES)%nat ->
    scan_dirs un gn lo ls rules acc = take MAX_FILES (acc ++ all_records un gn lo ls rules)) as H.
  { induction rules as [|r rules IH]; intros acc Hacc.
    - cbn. by rewrite app_nil_r, take_ge.
    - cbn [scan_dirs]. destruct (Nat.leb_spec MAX_FILES (length acc)) as [Hfull|Hroom].
      { rewrite take_app_length'; [done|lia]. }
      unfold all_records. rewrite bind_cons. fold (all_records un gn lo ls rules).
      destruct (scan_single_dir _ _ _ _ _ _) as [files|e]; [|by apply IH].
      rewrite IH by (rewrite length_app, length_take; lia). by rewrite take_cut, app_assoc by lia. }
  apply H. apply Nat.le_0_l.
Qed.

(** The records of a directory. *)
Definition file_entry (e : dir_entry) : option LinuxDirProc :=
  match e with FileEntry path (Ok h) => Some (DirProc path h) | _ => None end.
Definition dir_records (read_dir : string -> result string (list dir_entry)) (dirs : list string)
    : list LinuxDirProc :=
  dirs ≫= fun path => match read_dir path with Ok l => omap file_entry l | Err _ => [] end.

Definition full (b : list LinuxDirProc) : Prop := length b = 200%nat.

Lemma dir_batches_spec entries batches vec l :
  Forall full batches -> (length vec < 200)%nat ->
  concat batches ++ vec = l ->
  let '(batches', r) := dir_batches entries batches vec in
  Forall full batches'
  /\ match r with
     | Ok vec' => (length vec' < 200)%nat
                  /\ concat batches' ++ vec' = l ++ omap file_entry entries
     | Err _ => concat batches' `prefix_of` l ++ omap file_entry entries
     end.
Proof.
  revert batches vec l. induction entries as [|e entries IH]; intros batches vec l Hb Hv Hl;
    cbn [dir_batches].
  - split; [done|]. split; [done|]. simpl. by rewrite app_nil_r.
  - destruct e as [|e|path [h|e]].
    + by apply IH.
    + split; [done|]. rewrite <- Hl, <- app_assoc. by eexists.
    + change (omap file_entry (FileEntry path (Ok h) :: entries))
        with (DirProc path h :: omap file_entry entries).
      rewrite (cons_middle _ l), (app_assoc l).
      destruct (Nat.leb_spec 200 (length (vec ++ [DirProc path h]))) as [Hge|Hlt].
      * apply IH; [apply Forall_app; split; [done|]|simpl; lia|].
        -- constructor; [|constructor]. unfold full. rewrite length_app in *. simpl in *. lia.
        -- rewrite concat_app. simpl. by rewrite !app_nil_r, <- Hl, app_assoc.
      * apply IH; [done|done|]. by rewrite <- Hl, app_assoc.
    + split; [done|]. rewrite <- Hl, <- app_assoc. by eexists.
Qed.

Lemma all_dirs_spec read_dir dirs batches vec l :
  Forall full batches -> (length vec < 200)%nat -> concat batches ++ vec = l ->
  let '(batches', r) := all_dirs read_dir dirs batches vec in
  Forall full batches'
  /\ match r with
     | Ok vec' => (length vec' < 200)%nat
                  /\ concat batches' ++ vec' = l ++ dir_records read_dir dirs
     | Err _ => concat batches' `prefix_of` l ++ dir_records read_dir dirs
     end.
Proof.
  revert batches vec l. induction dirs as [|path dirs IH]; intros batches vec l Hb Hv Hl;
    cbn [all_dirs].
  - split; [done|]. split; [done|]. unfold dir_records. simpl. by rewrite app_nil_r.
  - unfold dir_records. rewrite bind_cons. fold (dir_records read_dir dirs).
    destruct (read_dir path) as [entries|e].
    + pose proof (dir_batches_spec entries batches vec l Hb Hv Hl) as Hd.
      destruct (dir_batches entries batches vec) as [b1 [v1|e]]; rewrite app_assoc.
      * destruct Hd as (H1 & H2 & H3). by apply IH.
      * destruct Hd as (H1 & H2). split; [done|]. by apply prefix_app_r.
    + split; [done|]. rewrite <- Hl, <- app_assoc. by eexists.
Qed.

(** the upload of the system directories sends every file once and in
    order, in batches of 200 with a last one of at most 200 and never an empty
    one; when it stops at an error, what was sent is a prefix of the list. *)
Theorem process_all_dirs_batches read_dir :
  let '(batches, r) := process_all_dirs read_dir in
  Forall (fun b => 0 < length b <= 200)%nat batches
  /\ match r with
     | Ok _ => concat batches = dir_records read_dir DIRS
     | Err _ => concat batches `prefix_of` dir_records read_dir DIRS
     end.
Proof.
  unfold process_all_dirs. pose proof (all_dirs_spec read_dir DIRS [] [] []) as Hd.
  destruct (all_dirs read_dir DIRS [] []) as [b [v|e]];
    destruct Hd as [Hf Hd]; [constructor|simpl; lia|done| |constructor|simpl; lia|done|];
    assert (Forall (fun b => 0 < length b <= 200)%nat b) as Hb
      by (eapply Forall_impl; [exact Hf|]; unfold full; simpl; lia).
  - destruct Hd as [Hlen Hd], v as [|x v]; [by rewrite app_nil_r in Hd|].
    rewrite concat_app. cbn [concat]. rewrite app_nil_r. split; [|done].
    apply Forall_app. split; [done|]. constructor; [|constructor]. simpl in *. lia.
  - by split.
Qed.
