(* ===== verification/Upgrade.v ===== *)
(** * Upgrading the agent

    The upgrade helpers at the end of [crates/task/src/task_fetcher.rs]: the
    self-protection handshake with the kernel module, stopping and starting
    the services, replacing the binary, and handing a command to the agent
    manager over its socket. *)

From S2P Require Import Prelude RustStr Bytes Shell Host.

(** The agent manager's socket: one attempt to connect, and one line sent. *)
Class AgentSocket (W : Type) := {
  connect : string -> W -> result string unit * W;
  send_line : string -> W -> result string unit * W
}.

Definition AGENT_SOCK : string := "/tmp/osec_agent.sock".
Definition TARGET : string := "/opt/osec/MagicArmorAgent".
Definition BACKUP : string := "/opt/osec/MagicArmorAgent.bak".
Definition PROC_SELF : string := "/proc/osec/self".

Section upgrade.
Context {W : Type} `{Os W} `{Files W} `{Disk W} `{AgentSocket W}.

Abbreviation st := (host W).

(** ** Talking to the agent manager *)

Definition MAX_RETRIES : nat := 30.

(** [n] attempts left. *)
Fixpoint send_attempts (n : nat) (cmd : string) : io st (result string unit) :=
  match n with
  | O => mret (Ok tt)
  | S n =>
    r ← on_world (connect AGENT_SOCK);
    match r with
    | Ok _ => with_err (fun e => "发送命令失败: " +:+ e)
                (on_world (send_line (cmd +:+ String line_feed "")))
    | Err e => match n with
               | O => mret (Err ("连接 agent_manager 失败: " +:+ e))
               | S _ => send_attempts n cmd
               end
    end
  end.

Definition send_command_to_agent (cmd : string) : io st (result string unit) :=
  send_attempts MAX_RETRIES cmd.

Fixpoint wait_socket_ready (socket_path : string) (max_retries : nat) : io st (result string unit) :=
  match max_retries with
  | O => mret (Ok tt)
  | S n =>
    r ← on_world (connect socket_path);
    match r with
    | Ok _ => mret (Ok tt)
    | Err e => match n with
               | O => mret (Err ("等待 socket 就绪超时: " +:+ e))
               | S _ => wait_socket_ready socket_path n
               end
    end
  end.

(** ** The handshake *)

(** [format!("{}{}{}", year, month, day)], without padding. *)
Definition date_digits (year month day : Z) : string := dec year +:+ dec month +:+ dec day.

Definition veda_line (year month day : Z) : result string string :=
  match parse_uint 64 (date_digits year month day) with
  | Some num => Ok ("veda " +:+ dec (wrapping_add 64 num 1) +:+ " 0" +:+ String line_feed "")
  | None => Err "日期拼接解析失败: number too large to fit in target type"
  end.

Definition write_proc_self (year month day : Z) : io st (result string unit) :=
  let? content := mret (veda_line year month day) in
  there ← look (path_exists PROC_SELF);
  if negb (there : bool) then mret (Ok tt)
  else
    let? _ := with_err (fun e => "写入失败: " +:+ e) (write_out (WriteFile PROC_SELF content)) in
    let? _ := with_err (fun e => "读取失败: " +:+ e) (look (read_text PROC_SELF)) in
    mret (Ok tt).

(** ** Stopping and starting *)

Definition is_process_running (name : string) : io st bool := succeeds "pgrep" ["-x"; name].
Definition service_exists (name : string) : io st bool := succeeds "systemctl" ["status"; name].
Definition kill9 (name : string) : io st unit := run_quietly "pkill" ["-9"; name].

Definition stop_service (has_systemctl : bool) (name : string) : io st unit :=
  svc ← (if has_systemctl then service_exists name else mret false);
  if (svc : bool) then run_quietly "systemctl" ["stop"; name]
  else
    p ← is_process_running name;
    if (p : bool) then kill9 name else mret tt.

(** The condition of the waiting loop, with its short circuits. *)
Definition any_running : io st bool :=
  a ← is_process_running "MagicArmorAgent";
  if (a : bool) then mret true
  else
    b ← is_process_running "agent_manager";
    if (b : bool) then mret true else is_process_running "osec_cli".

(** [polls] is the number of rounds that fit into [MAX_WAIT_SECONDS]. *)
Fixpoint wait_exit (polls : nat) : io st bool :=
  match polls with
  | O => mret false
  | S n => r ← any_running; if (r : bool) then wait_exit n else mret true
  end.

Definition kill_main : io st unit :=
  _ ← kill9 "MagicArmorAgent"; run_quietly "killall" ["-9"; "MagicArmorAgent"].

Definition stop_agent (polls : nat) : io st (result string unit) :=
  has ← succeeds "which" ["systemctl"];
  _ ← stop_service has "agent_manager";
  _ ← stop_service has "osec_cli";
  _ ← kill_main; _ ← kill_main; _ ← kill_main;
  done ← wait_exit polls;
  _ ← (if (done : bool) then mret tt
       else _ ← kill9 "MagicArmorAgent"; _ ← kill9 "agent_manager"; kill9 "osec_cli");
  there ← look (path_exists AGENT_SOCK);
  _ ← (if (there : bool) then ignore (do_disk (RemoveFile AGENT_SOCK)) else mret tt);
  mret (Ok tt).

Definition unit_dir : io st string :=
  a ← look (path_exists "/usr/lib/systemd/system");
  if (a : bool) then mret "/usr/lib/systemd/system"
  else
    b ← look (path_exists "/lib/systemd/system");
    mret (if (b : bool) then "/lib/systemd/system" else "/etc/systemd/system").

Definition install_service : io st (result string unit) :=
  dir ← unit_dir;
  src ← look (path_exists "/opt/osec/agent_manager.service");
  if (src : bool) then
    let? _ := with_err (fun e => "复制 service 文件失败: " +:+ e)
                (do_disk (Copy "/opt/osec/agent_manager.service" (dir +:+ "/agent_manager.service"))) in
    _ ← run_quietly "systemctl" ["daemon-reload"];
    _ ← run_quietly "systemctl" ["enable"; "agent_manager"];
    mret (Ok tt)
  else mret (Ok tt).

Definition spawn_status (cmd : string) (argv : list string) (f : string -> string)
    : io st (result string unit) := fun h =>
  let '(r, s) := exec (Cmd cmd argv) (h_shell h) in
  (match r with Ok _ => Ok tt | Err e => Err (f e) end, Host s (h_written h)).

Fixpoint wait_started (n : nat) : io st unit :=
  match n with
  | O => mret tt
  | S n => r ← is_process_running "MagicArmorAgent"; if (r : bool) then mret tt else wait_started n
  end.

Definition start_agent : io st (result string unit) :=
  has ← succeeds "which" ["systemctl"];
  let? _ :=
    (if (has : bool) then
       inst ← succeeds "systemctl" ["status"; "agent_manager.service"];
       let? _ := (if (inst : bool) then mret (Ok tt) else install_service) in
       spawn_status "systemctl" ["start"; "agent_manager"]
         (fun e => "执行 systemctl start 失败: " +:+ e)
     else
       svc ← succeeds "which" ["service"];
       if (svc : bool) then
         _ ← run_quietly "service" ["agent_manager"; "start"];
         _ ← wait_started 20;
         mret (Ok tt)
       else
         _ ← run_quietly "/opt/osec/MagicArmorAgent" ["--daemon"];
         mret (Ok tt)) in
  _ ← is_process_running "MagicArmorAgent";
  mret (Ok tt).

(** ** Replacing the binary *)

(** The target architecture, and its name when it is not a supported one. *)
Inductive arch := X86_64 | Aarch64 | OtherArch (name : string).

Definition arch_suffix (a : arch) : option string :=
  match a with X86_64 => Some "x86_64" | Aarch64 => Some "aarch64" | OtherArch _ => None end.

Definition new_binary (temp_dir suffix : string) : string :=
  temp_dir +:+ "/MagicArmorAgent." +:+ suffix.

(** The files named in the error message. *)
Definition actual_files (r : result string (list string)) : list string :=
  match r with Ok names => names | Err _ => [] end.

Definition replace_binary_with_arch_check (a : arch) (temp_dir : string)
    : io st (result string unit) :=
  match arch_suffix a with
  | None => mret (Err ("不支持的架构: " +:+ match a with OtherArch n => n | _ => "" end))
  | Some suffix =>
    let src := new_binary temp_dir suffix in
    there ← look (path_exists src);
    if negb (there : bool) then
      names ← look (read_dir temp_dir);
      mret (Err ("更新包缺少当前架构(" +:+ suffix +:+ ")的二进制！" +:+ String line_feed
                 ("期望: MagicArmorAgent." +:+ suffix +:+ String line_feed
                 ("实际包含: " +:+ debug_args (actual_files names)))))
    else
      let? _ := with_err (fun e => "创建目标目录 /opt/osec 失败: " +:+ e)
                  (do_disk (CreateDirAll "/opt/osec")) in
      old ← look (path_exists TARGET);
      let? _ :=
        (if (old : bool) then
           _ ← ignore (do_disk (RemoveFile BACKUP));
           with_err (fun e => "备份旧二进制失败: " +:+ e) (do_disk (Rename TARGET BACKUP))
         else mret (Ok tt)) in
      let? _ := with_err (fun e => "复制二进制失败: " +:+ e) (do_disk (Copy src TARGET)) in
      let? _ := with_err (fun e => "设置执行权限失败: " +:+ e) (do_disk (SetMode TARGET 493)) in
      _ ← ignore (do_disk (RemoveFile src));
      mret (Ok tt)
  end.

(** ** The update once the package has been downloaded *)

Definition TEMP_DIR : string := "/tmp/osec_update".

Definition ends_with (p s : string) : bool := starts_with (String.rev p) (String.rev s).

Definition installer (names : list string) : option string :=
  List.find (fun n => starts_with "osec-installer" n && ends_with ".sh" n) names.

Definition hot_upgrade (a : arch) (year month day : Z) (polls : nat) : io st (result string unit) :=
  let? _ := with_err (fun e => "write_proc_self 失败: " +:+ e) (write_proc_self year month day) in
  let? _ := stop_agent polls in
  let? _ := replace_binary_with_arch_check a TEMP_DIR in
  let? _ := start_agent in
  wait_socket_ready AGENT_SOCK 20.

Definition install_package (a : arch) (year month day : Z) (polls : nat) (alias : string)
    (zip_bytes : list Z) : io st (result string unit) :=
  _ ← ignore (do_disk (RemoveDirAll TEMP_DIR));
  let? _ := do_disk (CreateDirAll TEMP_DIR) in
  let? _ := do_disk (WriteBytes (TEMP_DIR +:+ "/" +:+ alias) zip_bytes) in
  let? _ := on_world (unzip zip_bytes TEMP_DIR) in
  let? names := look (read_dir TEMP_DIR) in
  match installer names with
  | None =>
    mret (Err ("未找到以 'osec-installer' 开头的脚本文件，临时目录文件列表: " +:+ debug_args names))
  | Some _ =>
    need ← (match arch_suffix a with
            | Some suffix => look (path_exists (new_binary TEMP_DIR suffix))
            | None => mret false
            end);
    let? _ := (if (need : bool) then hot_upgrade a year month day polls else mret (Ok tt)) in
    _ ← ignore (send_command_to_agent "update");
    mret (Ok tt)
  end.
End upgrade.

(** ** The old binary is never lost *)

(** What the disk operations do to the contents of files; a copy that fails may
    leave anything in its destination. *)
Class DiskLaws (W : Type) `{Disk W} (content : string -> W -> option (list Z)) := {
  content_exists p w : is_Some (content p w) -> path_exists p w = true;
  rename_ok a b w w' : disk (Rename a b) w = (Ok tt, w') -> a <> b ->
    content b w' = content a w /\ forall p, p <> a -> p <> b -> content p w' = content p w;
  rename_err a b w e w' : disk (Rename a b) w = (Err e, w') ->
    forall p, content p w' = content p w;
  copy_ok a b w w' : disk (Copy a b) w = (Ok tt, w') -> content b w' = content a w;
  copy_other a b w : forall p, p <> b -> content p (disk (Copy a b) w).2 = content p w;
  mode_same p m w : forall q, content q (disk (SetMode p m) w).2 = content q w;
  dir_same p w : forall q, content q (disk (CreateDirAll p) w).2 = content q w;
  remove_other p w : forall q, q <> p -> content q (disk (RemoveFile p) w).2 = content q w
}.

Section replace.
Context {W : Type} `{Os W} `{Files W} `{!Disk W} `{AgentSocket W}.
Context (content : string -> W -> option (list Z)) `{!DiskLaws W content}.

Definition file (p : string) (h : host W) : option (list Z) := content p (world (h_shell h)).

Lemma do_disk_run o (h : host W) :
  exists r w', disk o (world (h_shell h)) = (r, w')
    /\ do_disk o h = (r, Host (Shell w' (trace (h_shell h))) (h_written h)).
Proof.
  unfold do_disk, on_world. destruct (disk o _) as [r w']. by exists r, w'.
Qed.

Lemma disk_bind {A} (f : string -> string) o (k : unit -> io (host W) (result string A)) h r w' :
  disk o (world (h_shell h)) = (r, w') ->
  bind_ok (with_err f (do_disk o)) k h =
    let h' := Host (Shell w' (trace (h_shell h))) (h_written h) in
    match r with Ok _ => k tt h' | Err e => (Err (f e), h') end.
Proof.
  intros D. unfold bind_ok, with_err, do_disk, on_world. rewrite D. by destruct r as [[]|].
Qed.

(** The backup step. *)
Definition back_up : io (host W) (result string unit) :=
  _ ← ignore (do_disk (RemoveFile BACKUP));
  with_err (fun e => "备份旧二进制失败: " +:+ e) (do_disk (Rename TARGET BACKUP)).

Lemma back_up_spec old src (h : host W) :
  file TARGET h = Some old -> src <> TARGET -> src <> BACKUP ->
  let '(r, h') := back_up h in
  file src h' = file src h
  /\ match r with Ok _ => file BACKUP h' = Some old | Err _ => file TARGET h' = Some old end.
Proof.
  intros Ho Nt Nb. unfold back_up, ignore, with_err, mbind, io_bind.
  destruct (do_disk_run (RemoveFile BACKUP) h) as (r1 & w1 & D1 & ->). simpl.
  assert (forall p, p <> BACKUP -> content p w1 = file p h) as K1.
  { intros p Hp. change w1 with (r1, w1).2. rewrite <- D1. by apply (remove_other (content:=content)). }
  set (h1 := Host _ _). destruct (do_disk_run (Rename TARGET BACKUP) h1) as (r2 & w2 & D2 & ->).
  simpl in D2. destruct r2 as [[]|e]; simpl; unfold file; simpl.
  - destruct (rename_ok _ _ _ _ D2) as [Hb Hother]; [done|].
    split; [by rewrite Hother, K1|]. by rewrite Hb, K1.
  - rewrite !(rename_err _ _ _ _ _ D2). by rewrite !K1.
Qed.

(** The installation step. *)
Definition install (src : string) : io (host W) (result string unit) :=
  let? _ := with_err (fun e => "复制二进制失败: " +:+ e) (do_disk (Copy src TARGET)) in
  let? _ := with_err (fun e => "设置执行权限失败: " +:+ e) (do_disk (SetMode TARGET 493)) in
  _ ← ignore (do_disk (RemoveFile src));
  mret (Ok tt).

Lemma install_spec src (h : host W) :
  src <> TARGET -> src <> BACKUP ->
  let '(r, h') := install src h in
  file BACKUP h' = file BACKUP h
  /\ match r with Ok _ => file TARGET h' = file src h | Err _ => True end.
Proof.
  intros Nt Nb. unfold install, bind_ok, with_err, ignore, mbind, io_bind.
  destruct (do_disk_run (Copy src TARGET) h) as (r1 & w1 & D1 & ->).
  assert (content BACKUP w1 = file BACKUP h) as B1.
  { change w1 with (r1, w1).2. rewrite <- D1. by apply (copy_other (content:=content)). }
  destruct r1 as [[]|e]; [|by split]. simpl. apply copy_ok in D1.
  set (h1 := Host _ _). destruct (do_disk_run (SetMode TARGET 493) h1) as (r2 & w2 & D2 & ->).
  assert (forall p, content p w2 = content p w1) as K2.
  { intros p. change w2 with (r2, w2).2. rewrite <- D2. by apply (mode_same (content:=content)). }
  destruct r2 as [[]|e]; simpl; [|split; [unfold file at 1; simpl; congruence|done]].
  set (h2 := Host _ _). destruct (do_disk_run (RemoveFile src) h2) as (r3 & w3 & D3 & ->). simpl.
  assert (forall p, p <> src -> content p w3 = content p w2) as K3.
  { intros p Hp. change w3 with (r3, w3).2. rewrite <- D3. by apply (remove_other (content:=content)). }
  unfold file; simpl. rewrite !K3, !K2 by done. by split; [|rewrite D1].
Qed.

(** C8: replacing the agent's binary never loses the one in place: when it
    succeeds the new binary is installed and the old one is its backup, and at
    whatever point it fails the old one is still there, in place or as the
    backup. *)
Theorem replace_binary_keeps_old a temp_dir suffix old new (h : host W) :
  arch_suffix a = Some suffix ->
  let src := new_binary temp_dir suffix in
  src <> TARGET -> src <> BACKUP -> file TARGET h = Some old -> file src h = Some new ->
  let '(r, h') := replace_binary_with_arch_check a temp_dir h in
  match r with
  | Ok _ => file TARGET h' = Some new /\ file BACKUP h' = Some old
  | Err _ => file TARGET h' = Some old \/ file BACKUP h' = Some old
  end.
Proof.
  intros Ha src Nt Nb Ho Hn. unfold replace_binary_with_arch_check. rewrite Ha. cbv zeta.
  fold src. rewrite look_bind.
  rewrite (content_exists src) by (unfold file in Hn; by rewrite Hn). cbn [negb].
  destruct (do_disk_run (CreateDirAll "/opt/osec") h) as (r1 & w1 & D1 & _).
  rewrite (disk_bind _ _ _ _ _ _ D1). cbv zeta.
  assert (forall p, content p w1 = file p h) as K1.
  { intros p. change w1 with (r1, w1).2. rewrite <- D1. by apply (dir_same (content:=content)). }
  destruct r1 as [[]|e]; [|left; unfold file at 1; simpl; by rewrite K1].
  set (h1 := Host _ _). rewrite look_bind.
  rewrite (content_exists TARGET) by (simpl; rewrite K1, Ho; done). cbn iota beta.
  fold back_up. fold (install src).
  unfold bind_ok. pose proof (back_up_spec old src h1) as Hb.
  destruct (back_up h1) as [[[]|e] h2].
  - destruct Hb as [Hs Hbk]; [unfold file; simpl; by rewrite K1|done..|].
    pose proof (install_spec src h2 Nt Nb) as Hi.
    destruct (install src h2) as [[[]|e] h3]; destruct Hi as [Hi1 Hi2].
    + split; [|congruence]. rewrite Hi2, Hs. unfold file. simpl. by rewrite K1.
    + right. congruence.
  - left. apply Hb; [unfold file; simpl; by rewrite K1|done..].
Qed.

Definition same_trace (h h' : host W) : Prop := trace (h_shell h') = trace (h_shell h).
#[local] Instance same_trace_preorder : PreOrder same_trace.
Proof. split; [done|]. unfold same_trace. intros ???. congruence. Qed.

Lemma do_disk_trace o : keeps same_trace (do_disk o).
Proof. intros h. unfold do_disk, on_world. by destruct (disk o _). Qed.

Lemma look_trace {A} (f : W -> A) : keeps same_trace (look f).
Proof. done. Qed.
#[local] Hint Resolve do_disk_trace look_trace : agent.

Lemma replace_binary_trace a temp_dir : keeps same_trace (replace_binary_with_arch_check a temp_dir).
Proof.
  unfold replace_binary_with_arch_check. destruct (arch_suffix a); [|done]. cbv zeta. keeps_auto.
Qed.

(** when the binary cannot be replaced, the upgrade stops there: it fails
    after the services have been stopped and runs no further command, so the
    agent is not started again. *)
Theorem failed_replace_not_restarted a year month day polls (h h1 h2 h3 : host W) e :
  write_proc_self year month day h = (Ok tt, h1) ->
  stop_agent polls h1 = (Ok tt, h2) ->
  replace_binary_with_arch_check a TEMP_DIR h2 = (Err e, h3) ->
  hot_upgrade a year month day polls h = (Err e, h3) /\ trace (h_shell h3) = trace (h_shell h2).
Proof.
  intros E1 E2 E3. split; [|exact (keeps_run _ _ _ _ _ (replace_binary_trace a TEMP_DIR) E3)].
  unfold hot_upgrade, bind_ok, with_err. rewrite E1. simpl. by rewrite E2, E3.
Qed.
End replace.

(** ** An upgrade on a small disk *)

Module UpgradeDemo.
(** Files by path; an empty file cannot be copied. *)
Abbreviation machine := (gmap string (list Z)).

Definition small_disk (o : fs_op) (m : machine) : result string unit * machine :=
  match o with
  | Rename a b =>
    match m !! a with
    | Some c => (Ok tt, <[b := c]> (delete a m))
    | None => (Err "No such file or directory", m)
    end
  | Copy a b =>
    match m !! a with
    | Some (x :: c) => (Ok tt, <[b := x :: c]> m)
    | _ => (Err "Input/output error", m)
    end
  | RemoveFile p => (Ok tt, delete p m)
  | WriteBytes p c => (Ok tt, <[p := c]> m)
  | _ => (Ok tt, m)
  end.

#[global] Instance small : Disk machine := {|
  disk := small_disk;
  path_exists p m := bool_decide (is_Some (m !! p));
  read_dir _ _ := Ok [];
  unzip _ _ m := (Ok tt, m);
  read_text _ _ := Ok ""
|}.
#[global] Instance quiet_os : Os machine := {| spawn _ m := (refuse "exit status: 1", m) |}.
#[global] Instance all_writes : Files machine := {| put _ m := (Ok tt, m) |}.
#[global] Instance no_socket : AgentSocket machine :=
  {| connect _ m := (Ok tt, m); send_line _ m := (Ok tt, m) |}.

Definition content (p : string) (m : machine) : option (list Z) := m !! p.

#[global] Instance small_laws : DiskLaws machine content.
Proof.
  unfold content. split; simpl.
  - intros p w Hp. by apply bool_decide_eq_true_2.
  - intros a b w w' E Hab. destruct (w !! a) as [c|] eqn:Ea; simplify_eq. split.
    + by rewrite lookup_insert_eq.
    + intros p Ha Hb. by rewrite lookup_insert_ne, lookup_delete_ne.
  - intros a b w e w' E p. by destruct (w !! a); simplify_eq.
  - intros a b w w' E. destruct (w !! a) as [[|x c]|] eqn:Ea; simplify_eq.
    by rewrite lookup_insert_eq.
  - intros a b w p Hp. destruct (w !! a) as [[|x c]|]; simpl; [done|by rewrite lookup_insert_ne|done].
  - done.
  - done.
  - intros p w q Hq. by rewrite lookup_delete_ne.
Qed.

Definition before (new : list Z) : host machine :=
  Host (Shell {[ TARGET := [1]; new_binary TEMP_DIR "x86_64" := new ]} []) [].

Lemma replace_binary_keeps_old_witness :
  let '(r, h') := replace_binary_with_arch_check X86_64 TEMP_DIR (before [2]) in
  r = Ok tt /\ file content TARGET h' = Some [2] /\ file content BACKUP h' = Some [1].
Proof.
  pose proof (replace_binary_keeps_old content X86_64 TEMP_DIR "x86_64" [1] [2] (before [2])
                eq_refl) as H. cbv zeta in H.
  assert ((replace_binary_with_arch_check X86_64 TEMP_DIR (before [2])).1 = Ok tt) as Hr
    by (vm_compute; reflexivity).
  destruct (replace_binary_with_arch_check _ _ _) as [r h']. simpl in Hr. subst r.
  split; [done|]. apply H; first [done | vm_compute; reflexivity].
Defined.

(** The new binary cannot be copied: the old one is the backup, nothing runs. *)
Lemma failed_replace_not_restarted_witness :
  let '(r, h') := hot_upgrade X86_64 2024 11 1 3 (before []) in
  is_ok r = false /\ file content TARGET h' = None /\ file content BACKUP h' = Some [1]
  /\ length (trace (h_shell h')) = 12%nat.
Proof.
  pose (h1 := (write_proc_self 2024 11 1 (before [])).2). pose (h2 := (stop_agent 3 h1).2).
  pose (x := replace_binary_with_arch_check X86_64 TEMP_DIR h2).
  pose (e := match x.1 with Err e => e | Ok _ => "" end).
  destruct (failed_replace_not_restarted X86_64 2024 11 1 3 (before []) h1 h2 x.2 e) as [E T];
    [vm_compute; reflexivity..|].
  rewrite E. split_and!; [done|vm_compute; reflexivity|vm_compute; reflexivity|].
  rewrite T. vm_compute. reflexivity.
Defined.
End UpgradeDemo.

(** Dates are not padded: two dates of a year can give the same number. *)
Example veda_line_ambiguous : veda_line 2024 1 11 = veda_line 2024 11 1.
Proof. vm_compute. reflexivity. Qed.
