(* ===== verification/TaskFetcher.v ===== *)
(** * The task fetcher

    [crates/task/src/task_fetcher.rs]: the agent polls the server for a list of
    task numbers; each task reports its completion, downloads what it needs
    and hands it to the component it concerns.  The state is the state of all
    those components together; the server is an abstract part of the machine
    ([Http]), and the collections that upload tasks send are an interface
    ([Collect]). *)

From S2P Require Import Prelude RustStr Bytes Json Pattern ProcessPattern ProcessPolicy NetBlock Usb.
From S2P Require Import Shell IpAddr Host NetInfo TaskConf IpJump PwJump JumpDaemon TaskData Upgrade.

(** ** The server and the collectors *)

(** What other crates collect for an upload: the process list ([procinfo], with
    the error of the collection and that of the JSON), the listening services
    ([hostinfo]), directory contents, USB devices; snapshots ([snapman]). *)
Class Collect (W : Type) := {
  process_list : W -> result string (result string string);
  netapp_json : W -> result string string;
  dir_listing : W -> string -> listing;
  program_dir : W -> string -> result string (list dir_entry);
  usb_sysfs : W -> sysfs;
  create_snapshot : string -> string -> W -> result string string * W;
  restore_snapshot : string -> W -> result string unit * W;
  open_write : string -> W -> result string unit
}.

(** ** Tasks *)

Inductive TaskTypeEnum :=
| TaskUploadProcess | TaskUpdate | TaskUploadDir | TaskDownWhite | TaskDownDirPolicy
| TaskUploadConf | TaskDownConf | TaskDownBlack | TaskDownFileTtap | TaskUploadPort
| TaskDownVirtualPort | TaskAutoDownNetBlockPolicy | TaskAutoUploadNetBockPolicyy
| TaskDownNetBlockPolicy | TaskDownWhiteIpPolicy | TaskDownBlackIpPolicy | TaskDownUsbUpload
| TaskDownUsbDown | TaskDownExtort | TaskUploadProcessModule | TaskUploadAllProcessModule
| TaskUploadProcessWhiteModule | TaskUploadProcessBlackModule | TaskUninstall
| TaskGetWhitePeripherals | TaskGetBlackPeripherals | TaskUploadSample | TaskSyslogEnable
| TaskSyslogDisable | TaskGlobalProc | TaskGlobalDir | TaskUpdateUUI | TaskOutReachDetect
| TaskPwJump | TaskIpJump | TaskSystemBackup | TaskSystemRollback.

#[global] Instance TaskTypeEnum_eq_dec : EqDecision TaskTypeEnum.
Proof. solve_decision. Defined.

(** The discriminants. *)
Definition discriminants : list (TaskTypeEnum * Z) :=
  [(TaskUploadProcess, 0); (TaskUpdate, 1); (TaskUploadDir, 2); (TaskDownWhite, 3);
   (TaskDownDirPolicy, 4); (TaskUploadConf, 5); (TaskDownConf, 6); (TaskDownBlack, 7);
   (TaskDownFileTtap, 8); (TaskUploadPort, 9); (TaskDownVirtualPort, 10);
   (TaskAutoDownNetBlockPolicy, 11); (TaskAutoUploadNetBockPolicyy, 12);
   (TaskDownNetBlockPolicy, 13); (TaskDownWhiteIpPolicy, 14); (TaskDownBlackIpPolicy, 15);
   (TaskDownUsbUpload, 16); (TaskDownUsbDown, 17); (TaskDownExtort, 19);
   (TaskUploadProcessModule, 21); (TaskUploadAllProcessModule, 22);
   (TaskUploadProcessWhiteModule, 23); (TaskUploadProcessBlackModule, 24); (TaskUninstall, 25);
   (TaskGetWhitePeripherals, 26); (TaskGetBlackPeripherals, 27); (TaskUploadSample, 28);
   (TaskSyslogEnable, 29); (TaskSyslogDisable, 30); (TaskGlobalProc, 31); (TaskGlobalDir, 33);
   (TaskUpdateUUI, 34); (TaskOutReachDetect, 35); (TaskPwJump, 36); (TaskIpJump, 37);
   (TaskSystemBackup, 38); (TaskSystemRollback, 39)].

(** [TaskTypeEnum::from_u32], as derived. *)
Definition from_u32 (n : Z) : option TaskTypeEnum :=
  fst <$> List.find (fun '(_, d) => d =? n) discriminants.

(** ** Paths of the server *)

Definition api_interface : gmap string string :=
  foldl (fun m '(k, v) => <[k := v]> m) ∅
    [("closetask", "v1/closetask"); ("update", "v1/download"); ("getdirinfo", "v1/getdirinfo");
     ("putdir", "v1/putdir"); ("uninstall", "v1/uninstall");
     ("upload_process", "v1/upload_process"); ("download_white", "v1/getprocwl");
     ("download_black", "v1/getprocbl"); ("getconf", "v1/getconf"); ("getprotect", "v1/getprotect");
     ("getdirpolicy", "v1/getdirpolicy"); ("upload_process", "v1/uploadproc");
     ("gettrustdir", "v1/gettrustdir"); ("getvirtualport", "v1/getvirtualport");
     ("upload_gloabal_process", "v1/upload/suffix/exe"); ("getPlugging", "v1/getPlugging");
     ("getipblacklist", "v1/getipblacklist"); ("upserviceport", "v1/upserviceport");
     ("addperipherals", "v1/addperipherals"); ("getwhiteperipherals", "v1/getwhiteperipherals");
     ("getblackperipherals", "v1/getblackperipherals"); ("getPwJump", "v1/getPwJump");
     ("putPwJump", "v1/putPwJump"); ("getIpJump", "v1/getIpJump"); ("putIpJump", "v1/putIpJump");
     ("getBackups", "v1/getBackups"); ("getRollbacks", "v1/getRollbacks");
     ("uploadRollback", "v1/uploadRollback"); ("uploadBackup", "v1/uploadBackup");
     ("getOutreachDetect", "v1/getOutreachDetect")].

(** ** Bodies *)

Definition build_closetask_json (tasklist : Z) : value := Object [("tasklist", Number tasklist)].
Definition build_upload_backup_json (id : string) (state : Z) (size fail_reason : string) : value :=
  Object [("id", Str id); ("state", Number state); ("storage_dir", Str ""); ("file_name", Str "");
          ("file_size", Str size); ("fail_reason", Str fail_reason); ("param", Str "")].
Definition build_upload_rollback_json (id : string) (state : Z) (fail_reason : string) : value :=
  Object [("id", Str id); ("state", Number state); ("fail_reason", Str fail_reason)].
Definition build_upload_passwd_json (user pw : string) (state : Z) (fail_reason : string) : value :=
  Object [("status", Number state); ("user", Str user); ("pw", Str pw); ("reason", Str fail_reason)].
Definition usb_item (u : UsbInfo) : value :=
  Object [("peripheral_eid", Str (perpheral_eid u)); ("peripheral_name", Str (perpheral_name u));
          ("peripheral_intro", Str (intro u)); ("peripheral_type", Str (usb_type u))].
Definition build_usb_json (text : value -> string) (devices : list UsbInfo) : string :=
  text (Object [("data", Str (match devices with
                              | [] => "[]"
                              | _ => text (Array (usb_item <$> devices))
                              end))]).

(** ** State *)

(** [std::process::exit], or a panic of the fetcher's task. *)
Inductive ending := Exited (code : Z) | Panicked.

Record agent (W : Type) := Agent {
  conf : conf_state W;                              (* switches, config, file patterns, machine *)
  posts : list (string * string);                   (* url and body of every request, oldest first *)
  policy : ProcessPolicyManager * proc_files;       (* POLICY_MANAGER *)
  block : NetBlock.state;                           (* IP_POLICIES and the expiry tasks *)
  procs : ProcessPatternRulesMgr * Pattern.world;   (* PROCESS_PATTERN_RULES_MGR *)
  usb : BlackWhiteList;                             (* SHARED_USB_LIST *)
  usb_jobs : list (gset string);                    (* blacklist threads spawned *)
  outreach : list OutreachDetectRule;               (* GLOBAL_OUTREACH_RULES *)
  jump_tx : option watch;                           (* IP_JUMP_INSTRUCTION_TX *)
  ended : option ending                             (* the fetcher no longer runs *)
}.
Arguments Agent {W} _ _ _ _ _ _ _ _ _ _.
Arguments conf {W} _.
Arguments posts {W} _.
Arguments policy {W} _.
Arguments block {W} _.
Arguments procs {W} _.
Arguments usb {W} _.
Arguments usb_jobs {W} _.
Arguments outreach {W} _.
Arguments jump_tx {W} _.
Arguments ended {W} _.

Section fetcher.
Context {W : Type} `{Os W} `{Files W} `{Http W} `{Collect W} `{Disk W} `{AgentSocket W}.
Context {V : Type} `{JsonValue V} `{JsonText V}.

(** The target and the build, the fields of the fetcher that never change, the
    JSON printer, the digest of a USB identity, user names, [to_lowercase], the
    iteration orders of hash sets and maps, [$USER], the date, and the number of
    rounds of a wait. *)
Context (t : target) (cpu : arch) (nl_sock : bool) (base_url : string) (token : option string).
Context (text : value -> string) (md5_hex : string -> string).
Context (uid_to_name gid_to_name : Z -> option string) (lower : string -> string).
Context (order : nat -> gset string -> list string).
Context (values : gmap string IpPolicy -> list IpPolicy).
Context (env_user : option string) (year month day : Z) (polls : nat).

Abbreviation ag := (agent W).

(** *** Parts of the state *)

Definition on_conf {A} (m : io (conf_state W) A) : io ag A := fun a =>
  let '(x, c) := m (conf a) in
  (x, Agent c (posts a) (policy a) (block a) (procs a) (usb a) (usb_jobs a) (outreach a)
        (jump_tx a) (ended a)).
Definition on_machine {A} (m : io (host W) A) : io ag A := on_conf (on_host m).
Definition on_patterns (o : op) : io ag unit := on_conf (pattern_op o).
Definition machine_look {A} (f : W -> A) : io ag A := fun a =>
  (f (world (h_shell (c_host (conf a)))), a).

Definition on_policy (f : ProcessPolicyManager * proc_files -> ProcessPolicyManager * proc_files)
    : io ag unit := fun a =>
  (tt, Agent (conf a) (posts a) (f (policy a)) (block a) (procs a) (usb a) (usb_jobs a)
         (outreach a) (jump_tx a) (ended a)).
Definition on_block {A} (f : NetBlock.state -> A * NetBlock.state) : io ag A := fun a =>
  let '(x, b) := f (block a) in
  (x, Agent (conf a) (posts a) (policy a) b (procs a) (usb a) (usb_jobs a) (outreach a)
        (jump_tx a) (ended a)).
Definition on_procs (o : p_op) : io ag unit := fun a =>
  (tt, Agent (conf a) (posts a) (policy a) (block a) (p_run_op o (procs a).1 (procs a).2) (usb a)
         (usb_jobs a) (outreach a) (jump_tx a) (ended a)).
Definition on_usb (f : BlackWhiteList -> BlackWhiteList * list (gset string)) : io ag unit := fun a =>
  let '(l, jobs) := f (usb a) in
  (tt, Agent (conf a) (posts a) (policy a) (block a) (procs a) l (usb_jobs a ++ jobs) (outreach a)
         (jump_tx a) (ended a)).
Definition update_global_outreach_rules (rules : list OutreachDetectRule) : io ag unit := fun a =>
  (tt, Agent (conf a) (posts a) (policy a) (block a) (procs a) (usb a) (usb_jobs a) rules
         (jump_tx a) (ended a)).
Definition on_jump {A} (f : option watch -> A * option watch) : io ag A := fun a =>
  let '(x, tx) := f (jump_tx a) in
  (x, Agent (conf a) (posts a) (policy a) (block a) (procs a) (usb a) (usb_jobs a) (outreach a)
        tx (ended a)).
Definition end_with (e : ending) : io ag unit := fun a =>
  (tt, Agent (conf a) (posts a) (policy a) (block a) (procs a) (usb a) (usb_jobs a) (outreach a)
         (jump_tx a) (Some e)).

(** *** Requests *)

Definition note_post (url body : string) : io ag unit := fun a =>
  (tt, Agent (conf a) (posts a ++ [(url, body)]) (policy a) (block a) (procs a) (usb a)
         (usb_jobs a) (outreach a) (jump_tx a) (ended a)).

Definition post (url body : string) : io ag (result string string) :=
  _ ← note_post url body;
  on_machine (on_world (http_post url body token)).

Definition full_url (key : string) : result string string :=
  match api_interface !! key with
  | Some suffix => Ok (base_url +:+ "/" +:+ suffix)
  | None => Err ("URL key '" +:+ key +:+ "' not found")
  end.

(** A result that is only logged. *)
Definition report (key : string) (body : value) : io ag (result string unit) :=
  let? url := mret (full_url key) in
  _ ← ignore (post url (text body));
  mret (Ok tt).

Definition report_task_completion (task_type : Z) : io ag (result string unit) :=
  report "closetask" (build_closetask_json task_type).
Definition upload_backup (id : string) (state : Z) (size fail_reason : string)
    : io ag (result string unit) :=
  report "uploadBackup" (build_upload_backup_json id state size fail_reason).
Definition upload_rollback (id : string) (state : Z) (fail_reason : string)
    : io ag (result string unit) :=
  report "uploadRollback" (build_upload_rollback_json id state fail_reason).
Definition upload_passwd_result (user pw : string) (state : Z) (fail_reason : string)
    : io ag (result string unit) :=
  report "putPwJump" (build_upload_passwd_json user pw state fail_reason).

(** The url of a key, or the handler's own message. *)
Definition url_or (key none : string) : result string string :=
  match api_interface !! key with
  | Some u => Ok (base_url +:+ "/" +:+ u)
  | None => Err none
  end.

Definition fetch (key none : string) : io ag (result string string) :=
  let? url := mret (url_or key none) in
  post url "".

Definition parse (err : string -> string) (resp : string) : result string V :=
  map_err err (from_str resp).

Definition code_is (v : V) (code : string) : bool :=
  bool_decide (opt_str_field v "code" = Some code).

(** [v["k"]]: [Null] when absent, shown and read as such. *)
Definition index_text (v : V) (k : string) : string :=
  match get_field v k with Some x => to_text x | None => "null" end.
Definition index_array (v : V) (k : string) : option (list V) := get_field v k ≫= as_array.
Definition code_text (v : V) : string := default "unknown" (opt_str_field v "code").

(** *** Process lists *)

Definition hash_list (parsed : V) : result string (list string) :=
  match get_field parsed "data" ≫= fun d => index_array d "proclist" with
  | None => Err "Missing or invalid proclist in response"
  | Some l => match omap (fun item => opt_str_field item "hash") l with
              | [] => Err "No hashes found in the response"
              | hashes => Ok hashes
              end
  end.

Definition task_down_black (task_type : Z) : io ag (result string unit) :=
  let? _ := report_task_completion task_type in
  let? resp := fetch "download_black" "URL for download_white not found" in
  let? parsed := mret (parse (fun _ => "Failed to parse response.") resp) in
  if code_is parsed "000000" then
    let? hashes := mret (hash_list parsed) in
    _ ← on_policy (set_policy_process order hashes false);
    mret (Ok tt)
  else mret (Err "Invalid response code.").

Definition task_down_white (task_type : Z) : io ag (result string unit) :=
  let? _ := report_task_completion task_type in
  let? resp := fetch "download_white" "URL for download_white not found" in
  let? parsed := mret (parse (fun _ => "Failed to parse response.") resp) in
  if code_is parsed "000000" then
    let? hashes := mret (hash_list parsed) in
    _ ← on_policy (set_policy_process order hashes true);
    mret (Ok tt)
  else mret (Ok tt).

(** *** Directories *)

(** [f(&parsed["data"])] for a parser that wants an array. *)
Definition on_data {A} (f : V -> result string A) (parsed : V) : result string A :=
  match get_field parsed "data" with Some d => f d | None => Err "data is not an array" end.

Definition task_down_dir_policy (task_type : Z) : io ag (result string unit) :=
  let? _ := report_task_completion task_type in
  let? resp := fetch "getdirpolicy" "URL for download_white not found" in
  let? parsed := mret (parse (fun _ => "Failed to parse response.") resp) in
  if code_is parsed "000000" then
    let? rules := mret (on_data parse_policy_from_json parsed) in
    _ ← on_patterns (set_protect_dir rules);
    mret (Ok tt)
  else mret (Err "Invalid response code.").

Definition task_down_extort (task_type : Z) : io ag (result string unit) :=
  let? _ := report_task_completion task_type in
  let? resp := fetch "getprotect" "URL for download_white not found" in
  let? parsed := mret (parse (fun _ => "Failed to parse response.") resp) in
  if code_is parsed "000000" then
    let? rules := mret (on_data parse_exipor_policy_from_json parsed) in
    _ ← on_patterns (set_exiport_dir rules);
    mret (Ok tt)
  else mret (Err "Invalid response code.").

Definition task_global_dir (task_type : Z) : io ag (result string unit) :=
  let? _ := report_task_completion task_type in
  let? resp := fetch "gettrustdir" "URL for download_white not found" in
  let? parsed := mret (parse (fun _ => "Failed to parse response.") resp) in
  if code_is parsed "000000" then
    match get_field parsed "data" ≫= de_vec de_trust_dir with
    | None => mret (Err "Failed to deserialize data.")
    | Some trust_dirs =>
      _ ← on_procs (PTrust trust_dirs);
      _ ← on_patterns (set_global_trust_dir trust_dirs);
      mret (Ok tt)
    end
  else mret (Err "Invalid response code.").

(** *** Configuration *)

Definition task_down_conf (task_type : Z) : io ag (result string unit) :=
  let? _ := report_task_completion task_type in
  let? resp := fetch "getconf" "URL for download_white not found" in
  let? parsed := mret (parse (fun _ => "Failed to parse response.") resp) in
  if code_is parsed "000000" then
    match get_field parsed "data" ≫= fun d => get_field d "conf" with
    | Some c => if is_object c then on_conf (update_config_from_json t nl_sock c)
                else mret (Err "Missing 'conf' object in response")
    | None => mret (Err "Missing 'conf' object in response")
    end
  else mret (Err "Invalid response code.").

(** *** Block lists *)

(** [as_u64().map(|d| d as u32)]. *)
Definition index_u32 (v : V) (k : string) : option Z := wrap 32 <$> (get_field v k ≫= as_u64).

Definition netblock_entry (e : V) : option IpPolicy :=
  ip ← opt_str_field e "ip";
  direction ← index_u32 e "direction";
  duration ← get_field e "duration" ≫= as_u64;
  Some {| NetBlock.direction := direction; NetBlock.ip := ip; NetBlock.duration := duration;
          NetBlock.is_ipv6 := IpAddr.is_ipv6 ip |}.

Definition black_ip_entry (e : V) : option IpPolicy :=
  ip ← opt_str_field e "ip";
  direction ← index_u32 e "direction";
  Some {| NetBlock.direction := direction; NetBlock.ip := ip; NetBlock.duration := 0;
          NetBlock.is_ipv6 := IpAddr.is_ipv6 ip |}.

Definition policies_of (entry : V -> option IpPolicy) (parsed : V) : list IpPolicy :=
  omap entry (default [] (index_array parsed "data")).

Definition task_down_netblock_policy (task_type : Z) : io ag (result string unit) :=
  let? _ := report_task_completion task_type in
  let? resp := fetch "getPlugging" "未找到 netblock 策略的 URL" in
  let? parsed := mret (parse (fun _ => "解析 netblock 响应失败") resp) in
  if code_is parsed "000000" then
    on_block (update_and_write_policies values (policies_of netblock_entry parsed))
  else mret (Err "netblock 响应代码无效").

Definition task_down_black_ip_policy (task_type : Z) : io ag (result string unit) :=
  let? _ := report_task_completion task_type in
  let? resp := fetch "getipblacklist" "未找到 black IP 策略的 URL" in
  let? parsed := mret (parse (fun _ => "解析 black IP 响应失败") resp) in
  if code_is parsed "000000" then
    on_block (update_and_write_policies values (policies_of black_ip_entry parsed))
  else mret (Err "black IP 响应代码无效").

(** *** Decoy ports *)

(** The error text of the first item that is no rule. *)
Fixpoint de_all {A} (name : string) (err : string -> string) (f : V -> option A) (l : list V)
    : result string (list A) :=
  match l with
  | [] => Ok []
  | v :: l => match f v with
              | Some a => cons a <$> de_all name err f l
              | None => Err (err (de_error name v))
              end
  end.

(** [file.write_all] for every rule; the error of a write is reported there and
    not at the next call on the file. *)
Fixpoint write_lines (path : string) (ls : list string) : io (host W) (result string unit) :=
  match ls with
  | [] => mret (Ok tt)
  | l :: ls =>
    let? _ := with_err (fun e => "Failed to write rule: " +:+ e) (write_out (WriteFile path l)) in
    write_lines path ls
  end.

Definition task_down_virtual_port (task_type : Z) : io ag (result string unit) :=
  let? _ := report_task_completion task_type in
  let? resp := fetch "getvirtualport" "URL for getvirtualport not found" in
  let? parsed := mret (parse (fun e => "Failed to parse response JSON: " +:+ e) resp) in
  if negb (code_is parsed "000000") then
    mret (Err ("Invalid response code: " +:+ index_text parsed "code"))
  else
    let? items := mret (ok_or "Missing 'data' array in response" (index_array parsed "data")) in
    let? rules := mret (de_all "VirtualPortRule" (fun e => "Failed to parse VirtualPortRule: " +:+ e)
                          de_virtual_port items) in
    match port_lines rules with
    | [] => mret (Ok tt)
    | ls =>
      let? _ := with_err (fun e => "Failed to open /proc/osec/net_rules: " +:+ e)
                  (machine_look (open_write NET_RULES)) in
      on_machine (write_lines NET_RULES ls)
    end.

(** *** Outreach rules *)

(** [data["list"]] on a map panics when there is no such key. *)
Definition task_outreach_detect (task_type : Z) : io ag (result string unit) :=
  let? _ := report_task_completion task_type in
  let? resp := fetch "getOutreachDetect" "URL for getOutreachDetect not found" in
  let? parsed := mret (parse (fun e => "Failed to parse response JSON: " +:+ e) resp) in
  if negb (code_is parsed "000000") then
    mret (Err ("Invalid response code: " +:+ index_text parsed "code"))
  else
    match get_field parsed "data" with
    | Some data =>
      if is_object data then
        match get_field data "list" with
        | None => _ ← end_with Panicked; mret (Err "")
        | Some l =>
          let? items := mret (ok_or "Missing 'data' array in response" (as_array l)) in
          let? rules := mret (de_all "OutreachDetectRule"
                                (fun e => "Failed to parse VirtualPortRule: " +:+ e)
                                de_outreach items) in
          _ ← update_global_outreach_rules rules;
          mret (Ok tt)
        end
      else mret (Err "Missing 'data' object in response")
    | None => mret (Err "Missing 'data' object in response")
    end.

(** *** USB lists *)

Definition with_allow (b : bool) (u : UsbInfo) : UsbInfo :=
  {| perpheral_eid := perpheral_eid u; perpheral_name := perpheral_name u; intro := intro u;
     usb_type := usb_type u; allow := b |}.

Definition usb_list (b : bool) (parsed : V) : result string (list UsbInfo) :=
  match get_field parsed "data" ≫= de_vec de_usb_info with
  | Some l => Ok (with_allow b <$> l)
  | None => Err "反序列化失败"
  end.

Definition task_get_white_peripherals (task_type : Z) : io ag (result string unit) :=
  let? _ := report_task_completion task_type in
  let? resp := fetch "getwhiteperipherals" "URL for download_white not found" in
  let? parsed := mret (parse (fun _ => "Failed to parse response.") resp) in
  if code_is parsed "000000" then
    let? l := mret (usb_list true parsed) in
    _ ← on_usb (fun u => (update_whitelist l u, []));
    mret (Ok tt)
  else mret (Ok tt).

(** A thread is spawned when identities are new on the list. *)
Definition blacklist_update (l : list UsbInfo) (u : BlackWhiteList)
    : BlackWhiteList * list (gset string) :=
  let '(u, added) := update_blacklist l u in
  (u, if bool_decide (added = ∅) then [] else [added]).

Definition task_get_black_peripherals (task_type : Z) : io ag (result string unit) :=
  let? _ := report_task_completion task_type in
  let? resp := fetch "getblackperipherals" "URL for download_white not found" in
  let? parsed := mret (parse (fun _ => "Failed to parse response.") resp) in
  if code_is parsed "000000" then
    let? l := mret (usb_list false parsed) in
    _ ← on_usb (blacklist_update l);
    mret (Ok tt)
  else mret (Ok tt).

(** *** Jumps *)

Definition task_down_pwjump (task_type : Z) : io ag (result string unit) :=
  let? _ := report_task_completion task_type in
  let? resp := fetch "getPwJump" "URL for getPwJump not found" in
  let? parsed := mret (parse (fun _ => "Failed to parse response.") resp) in
  if negb (code_is parsed "000000") then
    mret (Err ("API error: " +:+ default "Unknown error" (opt_str_field parsed "msg")))
  else
    match get_field parsed "data" ≫= fun d => opt_str_field d "pw" with
    | None => mret (Err "Missing or invalid 'pw' field in response")
    | Some new_password =>
      r ← on_machine (on_shell (do_pw_jump_async env_user "" new_password (PwInfo "" "" 0 "")));
      match r with
      | (Ok _, info) => upload_passwd_result (user info) new_password 1 (reason info)
      | (Err e, info) => upload_passwd_result (user info) new_password 2 e
      end
    end.

Definition task_down_ipjump (task_type : Z) : io ag (result string unit) :=
  let? _ := report_task_completion task_type in
  let? resp := post (base_url +:+ "/" +:+ default "v1/getIpJump" (api_interface !! "getIpJump")) "" in
  let? parsed := mret (parse (fun _ => "Failed to parse response.") resp) in
  if negb (code_is parsed "000000") then
    mret (Err ("API error: " +:+ default "Unknown error" (opt_str_field parsed "msg")))
  else
    match get_field parsed "data" with
    | Some data =>
      if negb (is_object data) then mret (Err "Missing 'data' object in response")
      else if no_jump (instruction_of data) then
        let? _ := report_task_completion task_type in mret (Ok tt)
      else on_jump (send_instruction (instruction_of data))
    | None => mret (Err "Missing 'data' object in response")
    end.

(** *** Snapshots *)

Definition back_up_one (obj : V) : io ag unit :=
  match opt_str_field obj "id" with
  | None => mret tt
  | Some id =>
    r ← on_machine (on_world (create_snapshot id ""));
    match r with
    | Ok size => ignore (upload_backup id 1 size "")
    | Err e => ignore (upload_backup id 0 "" e)
    end
  end.

Definition task_get_system_backups (task_type : Z) : io ag (result string unit) :=
  let? _ := report_task_completion task_type in
  let? resp := fetch "getBackups" "URL for download_white not found" in
  let? parsed := mret (parse (fun _ => "Failed to parse response.") resp) in
  _ ← (if code_is parsed "000000" then
         for_each back_up_one (default [] (index_array parsed "data"))
       else mret tt);
  report_task_completion task_type.

(** [true] when the snapshot was restored. *)
Definition restore_one (obj : V) : io ag bool :=
  match opt_str_field obj "id" with
  | None => mret false
  | Some id =>
    r ← on_machine (on_world (restore_snapshot id));
    match r with
    | Ok _ => _ ← ignore (upload_rollback id 1 ""); mret true
    | Err e => _ ← ignore (upload_rollback id 0 e); mret false
    end
  end.

Fixpoint restore_all (l : list V) (has_success : bool) : io ag bool :=
  match l with
  | [] => mret has_success
  | obj :: l => b ← restore_one obj; restore_all l (has_success || b)
  end.

Definition spawned (cmd : string) (argv : list string) : io ag (result string unit) :=
  on_machine (spawn_status cmd argv id).

Definition reboot_system : io ag (result string unit) :=
  r ← spawned "systemctl" ["reboot"];
  match r with
  | Ok _ => mret (Ok tt)
  | Err _ => with_err (fun e => "reboot 命令启动失败: " +:+ e) (spawned "reboot" [])
  end.

Definition task_system_rollback (task_type : Z) : io ag (result string unit) :=
  let? _ := report_task_completion task_type in
  let? resp := with_err (fun e => "Error fetching task: " +:+ e)
                 (fetch "getRollbacks" "URL for getRollbacks not found") in
  let? parsed := mret (parse (fun _ => "Failed to parse response.") resp) in
  if negb (code_is parsed "000000") then mret (Err "API returned non-success code.")
  else
    has_success ← restore_all (default [] (index_array parsed "data")) false;
    if (has_success : bool) then reboot_system else mret (Ok tt).

(** *** Uploads *)

(** Post a body whose answer is only logged. *)
Definition upload (key none : string) (body : string) : io ag (result string unit) :=
  let? url := mret (url_or key none) in
  _ ← ignore (post url body);
  mret (Ok tt).

Definition task_upload_process (task_type : Z) : io ag (result string unit) :=
  let? _ := report_task_completion task_type in
  let none := "URL for upload_gloabal_process not found" in
  let? _ := mret (url_or "upload_process" none) in
  let? json := with_err (fun e => "Collection error: " +:+ e) (machine_look process_list) in
  match json with
  | Ok body => upload "upload_process" none body
  | Err _ => mret (Ok tt)
  end.

Definition task_upload_port (task_type : Z) : io ag (result string unit) :=
  let? _ := report_task_completion task_type in
  let none := "URL for upload_gloabal_process not found" in
  let? _ := mret (url_or "upserviceport" none) in
  let? body := with_err (fun e => "Failed to serialize port data to JSON: " +:+ e)
                 (machine_look netapp_json) in
  upload "upserviceport" none body.

Definition task_usb_upload (task_type : Z) : io ag (result string unit) :=
  let? _ := report_task_completion task_type in
  fs ← machine_look usb_sysfs;
  upload "addperipherals" "URL for upload_gloabal_process not found"
    (build_usb_json text (get_all_local_usb_devices md5_hex fs)).

(** The directories are read while the batches are sent; a request is taken not
    to change them. *)
Definition task_global_proc (task_type : Z) : io ag (result string unit) :=
  let? _ := report_task_completion task_type in
  let? url := mret (url_or "upload_gloabal_process" "URL for upload_gloabal_process not found") in
  let? _ := mret (map_err (fun e => "Failed to create NetClient: " +:+ e) (new_client base_url)) in
  dirs ← machine_look program_dir;
  let '(batches, r) := process_all_dirs dirs in
  _ ← for_each (fun b => ignore (post url (build_linux_dir_json text b))) batches;
  mret r.

Definition task_upload_dir (task_type : Z) : io ag (result string unit) :=
  let? _ := report_task_completion task_type in
  let? resp := fetch "getdirinfo" "未找到 getdirinfo 策略的 URL" in
  let? parsed := mret (parse (fun _ => "解析 getdirinfo 响应失败") resp) in
  let rules := omap de_scan_rule (default [] (index_array parsed "data")) in
  ls ← machine_look dir_listing;
  let all_files := scan_dirs uid_to_name gid_to_name lower ls rules [] in
  let? upload_url := mret (full_url "putdir") in
  let? _ := with_err (fun e => "上传目录信息失败: " +:+ e)
              (post upload_url (text (Object [("dir", Str (text (Array (file_json <$> all_files))))]))) in
  mret (Ok tt).

(** *** The agent itself *)

Definition download_info (key none : string) (parsed_err : string -> string)
    : io ag (result string V) :=
  let? url := mret (url_or key none) in
  let? resp := with_err (fun e => "Error fetching update info: " +:+ e) (post url "") in
  let? parsed := mret (parse (fun e => "Failed to parse response: " +:+ e) resp) in
  if code_is parsed "000000" then mret (Ok parsed)
  else mret (Err (parsed_err (code_text parsed))).

Definition task_update (task_type : Z) : io ag (result string unit) :=
  let? _ := report_task_completion task_type in
  let? parsed := download_info "update" "URL for download update not found"
                   (fun c => "Invalid response code: " +:+ c) in
  match get_field parsed "data" with
  | Some data =>
    if is_object data then
      let alias := default "update.zip" (opt_str_field data "alias") in
      let? link := mret (ok_or "Missing download url" (opt_str_field data "download")) in
      let? zip_bytes := with_err (fun e => "下载更新包失败: " +:+ e)
                          (on_machine (on_world (http_download link token))) in
      on_machine (install_package cpu year month day polls alias zip_bytes)
    else mret (Err "Missing 'data' object in response")
  | None => mret (Err "Missing 'data' object in response")
  end.

Definition task_uninstall (task_type : Z) : io ag (result string unit) :=
  let? _ := report_task_completion task_type in
  let? _ := download_info "uninstall" "URL for download uninstall not found"
              (fun c => "Invalid response code: " +:+ c) in
  _ ← ignore (on_machine (send_command_to_agent "uninstall"));
  mret (Ok tt).

Definition task_update_uuid (task_type : Z) : io ag (result string unit) :=
  let? _ := report_task_completion task_type in
  _ ← ignore (on_machine (do_disk (RemoveFile "/etc/.vedasystem")));
  _ ← end_with (Exited 1);
  mret (Ok tt).

(** *** Dispatch *)

(** The tasks that only print a message do nothing. *)
Definition handle_task (task_type : TaskTypeEnum) : io ag (result string unit) :=
  match task_type with
  | TaskUploadProcess => task_upload_process 0
  | TaskUpdate => task_update 1
  | TaskUploadDir => task_upload_dir 2
  | TaskDownWhite => task_down_white 3
  | TaskDownDirPolicy => task_down_dir_policy 4
  | TaskDownConf => task_down_conf 6
  | TaskDownBlack => task_down_black 7
  | TaskDownFileTtap => mret (Ok tt)
  | TaskUploadPort => task_upload_port 9
  | TaskDownVirtualPort => task_down_virtual_port 10
  | TaskDownNetBlockPolicy => task_down_netblock_policy 13
  | TaskDownExtort => task_down_extort 19
  | TaskDownBlackIpPolicy => task_down_black_ip_policy 15
  | TaskUploadProcessModule | TaskUploadAllProcessModule | TaskUploadProcessWhiteModule
  | TaskUploadProcessBlackModule => mret (Ok tt)
  | TaskUninstall => task_uninstall 25
  | TaskGetWhitePeripherals => task_get_white_peripherals 26
  | TaskGetBlackPeripherals => task_get_black_peripherals 27
  | TaskDownUsbUpload => task_usb_upload 16
  | TaskUploadSample => mret (Ok tt)
  | TaskGlobalProc => task_global_proc 31
  | TaskGlobalDir => task_global_dir 33
  | TaskUpdateUUI => task_update_uuid 34
  | TaskOutReachDetect => task_outreach_detect 35
  | TaskPwJump => task_down_pwjump 36
  | TaskIpJump => task_down_ipjump 37
  | TaskSystemBackup => task_get_system_backups 38
  | TaskSystemRollback => task_system_rollback 39
  | TaskUploadConf | TaskAutoDownNetBlockPolicy | TaskAutoUploadNetBockPolicyy
  | TaskDownWhiteIpPolicy | TaskDownUsbDown | TaskSyslogEnable | TaskSyslogDisable =>
    mret (Err "Unknown task type")
  end.

(** *** Polling *)

(** [as_u64().map(|n| n as u32)]. *)
Definition task_ids (parsed : V) : list Z :=
  omap (fun v => wrap 32 <$> as_u64 v)
    (default [] (get_field parsed "data" ≫= fun d => index_array d "tasklist")).

(** Nothing more runs once the process is gone. *)
Definition run_task (task_id : Z) : io ag unit := fun a =>
  match ended a, from_u32 task_id with
  | None, Some ty => ignore (handle_task ty) a
  | _, _ => (tt, a)
  end.

Inductive poll_result := Go | Stop (e : string).

Definition poll : io ag poll_result :=
  r ← post (base_url +:+ "/v1/gettask") "";
  match r with
  | Err _ => mret Go
  | Ok resp =>
    match from_str resp with
    | Err _ => mret Go
    | Ok parsed =>
      if code_is parsed "000000" then _ ← for_each run_task (task_ids parsed); mret Go
      else if code_is parsed "401" then mret (Stop "token 无效")
      else mret (Stop "无效响应码")
    end
  end.

Definition get_ended : io ag (option ending) := fun a => (ended a, a).

(** [n] rounds of the loop of [run]: [None] when it is still polling. *)
Fixpoint poll_loop (n : nat) : io ag (option string) :=
  match n with
  | O => mret None
  | S n =>
    r ← poll;
    match r with
    | Stop e => mret (Some e)
    | Go => e ← get_ended; match e with Some _ => mret None | None => poll_loop n end
    end
  end.

(** [TaskFetcher::new]: the process patterns are initialised, a client is made
    (a failure panics), and the memory of the switches starts empty.  The two
    tasks of the address jump it spawns are those of [JumpDaemon]. *)
Definition fetcher_new : io ag (outcome unit) :=
  _ ← on_procs PInit;
  match new_client base_url with
  | Err _ => mret Panic
  | Ok _ => _ ← on_conf (set_prevs (fun _ => prev_new)); mret (Done tt)
  end.

Definition get_cron_time : io ag Z := fun a => (cron_time (config (conf a)), a).

(** [run], once per session: the interval is made from the configured seconds,
    and [tokio::time::interval] panics on zero. *)
Definition run (n : nat) : io ag (outcome (option string)) :=
  let! _ := fetcher_new in
  seconds ← get_cron_time;
  if seconds =? 0 then mret Panic
  else r ← poll_loop n; mret (Done r).
End fetcher.

(** ** What every handler is made of

    A relation that every primitive step respects, every handler respects. *)

Section steps.
Context {W : Type} `{Os W} `{Files W} `{Http W} `{Collect W} `{Disk W} `{AgentSocket W}.
Context {V : Type} `{JsonValue V} `{JsonText V}.
Context (t : target) (cpu : arch) (nl_sock : bool) (base_url : string) (token : option string).
Context (text : value -> string) (md5_hex : string -> string).
Context (uid_to_name gid_to_name : Z -> option string) (lower : string -> string).
Context (order : nat -> gset string -> list string).
Context (values : gmap string IpPolicy -> list IpPolicy).
Context (env_user : option string) (year month day : Z) (polls : nat).

Abbreviation handle := (handle_task t cpu nl_sock base_url token text md5_hex uid_to_name
                          gid_to_name lower order values env_user year month day polls).

Context (R : relation (agent W)) `{!PreOrder R}.
Context (Rpost : forall url body, keeps R (note_post url body)).
Context (Rmachine : forall A (m : io (host W) A), keeps R (on_machine m)).

Lemma post_keeps url body : keeps R (post token url body).
Proof. unfold post. keeps_auto. Qed.

Lemma report_keeps key body : keeps R (report base_url token text key body).
Proof. pose proof post_keeps. unfold report. keeps_auto. Qed.

Lemma fetch_keeps key none : keeps R (fetch base_url token key none).
Proof. pose proof post_keeps. unfold fetch. keeps_auto. Qed.

Lemma look_keeps {A} (f : W -> A) : keeps R (machine_look f).
Proof. intros a. simpl. reflexivity. Qed.

Lemma upload_keeps key none body : keeps R (upload base_url token key none body).
Proof. pose proof post_keeps. unfold upload. keeps_auto. Qed.

(** The steps that change a component, as they occur in the handlers. *)
Context (Rpolicy : forall l w, keeps R (on_policy (set_policy_process order l w))).
Context (Rpattern : forall o, keeps R (on_patterns o)).
Context (Rprocs : forall v dirs, de_vec (V:=V) de_trust_dir v = Some dirs ->
                                 keeps R (on_procs (PTrust dirs))).
Context (Rblock : forall (e : V -> option IpPolicy) v,
           e = netblock_entry \/ e = black_ip_entry ->
           keeps R (on_block (update_and_write_policies values (policies_of e v)))).
Context (Rwhite : forall l, keeps R (on_usb (fun u => (update_whitelist l u, [])))).
Context (Rblack : forall l, keeps R (on_usb (blacklist_update l))).
Context (Routreach : forall l, keeps R (update_global_outreach_rules l)).
Context (Rjump : forall i, keeps R (on_jump (send_instruction i))).
Context (Rend : forall e, keeps R (end_with e)).
Context (Rconf : forall v : V, keeps R (on_conf (update_config_from_json t nl_sock v))).
Context (Rinit : keeps R (on_procs PInit)).
Context (Rnew : keeps R (on_conf (set_prevs (fun _ => prev_new)))).

#[local] Hint Resolve post_keeps report_keeps fetch_keeps look_keeps upload_keeps : agent.

Ltac handler := unfold report_task_completion, upload_backup, upload_rollback, upload_passwd_result,
  download_info, reboot_system, spawned; keeps_auto; try (progress (cbv zeta); keeps_auto).

Lemma back_up_keeps (v : V) : keeps R (back_up_one base_url token text v).
Proof. unfold back_up_one. handler. Qed.

Lemma restore_all_keeps (l : list V) b : keeps R (restore_all base_url token text l b).
Proof.
  revert b. induction l as [|v l IH]; intros b; simpl; [by apply keeps_ret|].
  unfold restore_one. handler.
Qed.

Lemma for_each_keeps {A} (f : A -> io (agent W) unit) l :
  (forall x, keeps R (f x)) -> keeps R (for_each f l).
Proof. intros Hf. apply keeps_for_each; [apply _|]. auto. Qed.

#[local] Hint Resolve back_up_keeps restore_all_keeps for_each_keeps : agent.

(** The tasks that do nothing: those that only print, and those not implemented. *)
Definition silent (ty : TaskTypeEnum) : bool :=
  match ty with
  | TaskDownFileTtap | TaskUploadProcessModule | TaskUploadAllProcessModule
  | TaskUploadProcessWhiteModule | TaskUploadProcessBlackModule | TaskUploadSample
  | TaskUploadConf | TaskAutoDownNetBlockPolicy | TaskAutoUploadNetBockPolicyy
  | TaskDownWhiteIpPolicy | TaskDownUsbDown | TaskSyslogEnable | TaskSyslogDisable => true
  | _ => false
  end.

Lemma silent_handle ty a : silent ty = true -> (handle ty a).2 = a.
Proof. by destruct ty. Qed.

(** Every other task reports its own number, then does its work. *)
Lemma handle_task_split ty :
  silent ty = false ->
  exists d k, (ty, d) ∈ discriminants
    /\ handle ty = bind_ok (report_task_completion base_url token text d) k
    /\ forall u, keeps R (k u).
Proof.
  destruct ty; intros Hs; try discriminate Hs; clear Hs; eexists _, _;
    (split; [|split; [reflexivity|intros u]]); try by_decide; handler.
  - apply Rblock. by left.
  - apply Rblock. by right.
  - apply for_each_keeps. intros b. apply keeps_ignore. auto with agent.
  - match goal with E : _ ≫= _ = Some _ |- _ => apply bind_Some in E as (d & _ & E) end.
    by eapply Rprocs.
Qed.

Lemma handle_task_keeps ty : keeps R (handle ty).
Proof.
  destruct (silent ty) eqn:E.
  - intros a. rewrite silent_handle by done. reflexivity.
  - destruct (handle_task_split ty E) as (d & k & _ & -> & Hk).
    apply keeps_bind_ok; [apply _|apply report_keeps|done].
Qed.

Lemma run_task_keeps id : keeps R (run_task (V:=V) t cpu nl_sock base_url token text md5_hex
  uid_to_name gid_to_name lower order values env_user year month day polls id).
Proof.
  intros a. unfold run_task. destruct (ended a), (from_u32 id); simpl; try reflexivity.
  apply handle_task_keeps.
Qed.

Lemma poll_loop_keeps n : keeps R (poll_loop (V:=V) t cpu nl_sock base_url token text md5_hex
  uid_to_name gid_to_name lower order values env_user year month day polls n).
Proof.
  induction n as [|n IH]; [by apply keeps_ret|]. cbn [poll_loop].
  apply keeps_bind; [apply _| |].
  - unfold poll. apply keeps_bind; [apply _|apply post_keeps|]. intros r.
    keeps_auto; auto using for_each_keeps, run_task_keeps.
  - intros []; [|by apply keeps_ret]. apply keeps_bind; [apply _|by intros a|].
    intros []; [by apply keeps_ret|done].
Qed.

Lemma run_keeps n : keeps R (run (V:=V) t cpu nl_sock base_url token text md5_hex
  uid_to_name gid_to_name lower order values env_user year month day polls n).
Proof.
  assert (keeps R (get_cron_time (W:=W))) as Hcron by (intros a; simpl; reflexivity).
  pose proof (poll_loop_keeps n). unfold run, fetcher_new. keeps_auto.
Qed.
End steps.

(** ** Invariants of the whole agent *)

Definition agent_ok {W} (a : agent W) : Prop :=
  in_sync (policy a) /\ wf (block a)
  /\ mirrored (patterns (conf a)).1 (patterns (conf a)).2
  /\ lists_ok (usb a) /\ config_typed (config (conf a)).

Section invariant.
Context {W : Type} `{Os W} `{Files W} `{Http W} `{Collect W} `{Disk W} `{AgentSocket W}.
Context {V : Type} `{JsonValue V} `{JsonText V} `{!JsonNumbers V}.
Context (t : target) (cpu : arch) (nl_sock : bool) (base_url : string) (token : option string).
Context (text : value -> string) (md5_hex : string -> string).
Context (uid_to_name gid_to_name : Z -> option string) (lower : string -> string).
Context (order : nat -> gset string -> list string).
Context (values : gmap string IpPolicy -> list IpPolicy).
Context (env_user : option string) (year month day : Z) (polls : nat).

Definition preserves (a a' : agent W) : Prop := agent_ok a -> agent_ok a'.
#[local] Instance preserves_preorder : PreOrder preserves.
Proof. split; [intros a Ha; exact Ha|intros a b c Hab Hbc Ha; auto]. Qed.

Lemma entries_nonneg (e : V -> option IpPolicy) v :
  e = netblock_entry \/ e = black_ip_entry ->
  Forall (fun p => 0 <= duration p) (policies_of e v).
Proof.
  intros He. apply Forall_forall. intros p (x & _ & Hx)%list_elem_of_omap.
  destruct He as [->| ->]; unfold netblock_entry, black_ip_entry in Hx.
  - apply bind_Some in Hx as (ip & _ & Hx). apply bind_Some in Hx as (d & _ & Hx).
    apply bind_Some in Hx as (n & Hn & [= <-]). apply bind_Some in Hn as (y & _ & Hn).
    by apply as_u64_range in Hn as [? _].
  - apply bind_Some in Hx as (ip & _ & Hx). apply bind_Some in Hx as (d & _ & [= <-]). done.
Qed.

Lemma update_config_agent_ok (v : V) : keeps preserves (on_conf (update_config_from_json t nl_sock v)).
Proof.
  intros a (Hp & Hb & Hm & Hu & Hc).
  pose proof (update_config_mirrored t nl_sock v (conf a) Hm) as Hm'.
  pose proof (update_config_config t nl_sock v (conf a)) as Hc'.
  unfold on_conf. destruct (update_config_from_json t nl_sock v (conf a)) as [r c]. simpl in *.
  split_and!; simpl; try tauto. rewrite Hc'. by apply merge_config_typed.
Qed.

(** C1: whatever the server answers to however many polls of a session, and
    whatever becomes of the tasks' writes to the module's files (failures are
    ignored by the agent and leave entries and tables behind, as [in_sync] and
    [mirrored] say), a session keeps every component consistent: the process
    lists remembered are those the rules tried so far ask for, with no path on
    both; the block list has one live timer per temporary address; each of the
    module's two pattern tables, if all writes of its last loading were taken,
    holds exactly the manager's texts; no USB identity is on both lists; every
    number of the configuration is within its type.  The hash sets and maps may
    be iterated in any order. *)
Theorem tasks_keep_invariants n (a : agent W) :
  order_ok order -> values_ok values -> agent_ok a ->
  agent_ok (run (V:=V) t cpu nl_sock base_url token text md5_hex uid_to_name gid_to_name lower order
              values env_user year month day polls n a).2.
Proof.
  intros Ho Hv. apply (run_keeps t cpu nl_sock base_url token text md5_hex uid_to_name gid_to_name
                         lower order values env_user year month day polls preserves); clear a n.
  all: unfold keeps, preserves, agent_ok; simpl.
  - done.
  - intros A m a. unfold on_machine, on_conf, on_host. by destruct (m _).
  - intros l w a (H1' & ?). split; [|done]. by apply set_policy_in_sync.
  - intros o a (Hp & Hb & Hm & ?). split_and!; try tauto; apply run_op_mirrored; done.
  - done.
  - intros e v He a (Hp & Hb & ?). unfold on_block.
    destruct (update_and_write_policies _ _ _) as [r b] eqn:E. simpl. split_and!; try tauto.
    change b with (r, b).2. rewrite <- E. eapply step_wf; [|exact Hb].
    apply step_update; [done|]. by apply entries_nonneg.
  - intros l a (Hp & Hb & Hm & Hu & Hc). pose proof (update_ok (WhiteList l) (usb a)) as Hok.
    simpl in Hok. tauto.
  - intros l a (Hp & Hb & Hm & Hu & Hc). pose proof (update_ok (BlackList l) (usb a)) as Hok.
    unfold on_usb, blacklist_update. simpl in Hok. destruct (update_blacklist l (usb a)).
    simpl in *. tauto.
  - done.
  - intros i a Ha. unfold on_jump. by destruct (send_instruction i (jump_tx a)).
  - done.
  - apply update_config_agent_ok.
  - done.
  - done.
Qed.
End invariant.

(** ** Completion, failure and the components *)

Section outcomes.
Context {W : Type} `{Os W} `{Files W} `{Http W} `{Collect W} `{Disk W} `{AgentSocket W}.
Context {V : Type} `{JsonValue V} `{JsonText V}.
Context (t : target) (cpu : arch) (nl_sock : bool) (base_url : string) (token : option string).
Context (text : value -> string) (md5_hex : string -> string).
Context (uid_to_name gid_to_name : Z -> option string) (lower : string -> string).
Context (order : nat -> gset string -> list string).
Context (values : gmap string IpPolicy -> list IpPolicy).
Context (env_user : option string) (year month day : Z) (polls : nat).

Abbreviation handle := (handle_task (V:=V) t cpu nl_sock base_url token text md5_hex uid_to_name
                          gid_to_name lower order values env_user year month day polls).

(** Requests are only ever added. *)
Definition posts_grow (a a' : agent W) : Prop := posts a `prefix_of` posts a'.
#[local] Instance posts_grow_preorder : PreOrder posts_grow.
Proof. unfold posts_grow. split; [by intros a|intros a b c; apply transitivity]. Qed.

Definition close_post (d : Z) : string * string :=
  (base_url +:+ "/v1/closetask", text (build_closetask_json d)).

Lemma on_conf_posts {A} (m : io (conf_state W) A) a : posts (on_conf m a).2 = posts a.
Proof. unfold on_conf. by destruct (m _). Qed.
Lemma on_machine_posts {A} (m : io (host W) A) a : posts (on_machine m a).2 = posts a.
Proof. apply on_conf_posts. Qed.
Lemma on_block_posts {A} (f : NetBlock.state -> A * NetBlock.state) a :
  posts (on_block (W:=W) f a).2 = posts a.
Proof. unfold on_block. by destruct (f _). Qed.
Lemma on_usb_posts f a : posts (on_usb (W:=W) f a).2 = posts a.
Proof. unfold on_usb. by destruct (f _). Qed.
Lemma on_jump_posts {A} (f : option watch -> A * option watch) a :
  posts (on_jump (W:=W) f a).2 = posts a.
Proof. unfold on_jump. by destruct (f _). Qed.

Lemma report_run d a :
  exists a1, report_task_completion base_url token text d a = (Ok tt, a1)
             /\ posts a1 = posts a ++ [close_post d].
Proof.
  unfold report_task_completion, report, bind_ok, full_url.
  change (api_interface !! "closetask") with (Some "v1/closetask").
  eexists. split; [reflexivity|]. unfold ignore, post. simpl. unfold mbind, io_bind. simpl.
  by rewrite on_machine_posts.
Qed.

(** every task the fetcher carries out is reported to the server as
    complete first, under its own number, before the task's own download and
    whether or not the task then succeeds; the tasks that do nothing report
    nothing and leave the agent alone. *)
Theorem completion_reported_first ty (a : agent W) :
  let a' := (handle ty a).2 in
  if silent ty then a' = a
  else exists d rest, (ty, d) ∈ discriminants /\ posts a' = posts a ++ close_post d :: rest.
Proof.
  simpl. destruct (silent ty) eqn:Es; [by apply silent_handle|].
  destruct (handle_task_split (V:=V) t cpu nl_sock base_url token text md5_hex uid_to_name gid_to_name
              lower order values env_user year month day polls posts_grow) with (ty := ty)
    as (d & k & Hd & -> & Hk); try done.
  all: try (intros; intros x; unfold posts_grow; first
    [ rewrite ?on_machine_posts, ?on_conf_posts, ?on_block_posts, ?on_usb_posts, ?on_jump_posts; done
    | simpl; by apply prefix_app_r ]).
  exists d. destruct (report_run d a) as (a1 & E & Hp). unfold bind_ok. rewrite E.
  destruct (Hk tt a1) as [rest Hr]. exists rest. split; [done|]. rewrite Hr, Hp.
  by rewrite <- app_assoc.
Qed.

(** *** Answers that are refused *)

(** The agent and its machine after the requests [l], and nothing else. *)
Definition after_post (w : W) (q : string * string) : W := (http_post q.1 q.2 token w).2.
Definition requested (l : list (string * string)) (a : agent W) : agent W :=
  let h := c_host (conf a) in
  Agent (ConfState (prevs (conf a)) (config (conf a)) (patterns (conf a))
           (Host (Shell (foldl after_post (world (h_shell h)) l) (trace (h_shell h))) (h_written h)))
    (posts a ++ l) (policy a) (block a) (procs a) (usb a) (usb_jobs a) (outreach a) (jump_tx a) (ended a).

Definition only_requests (a a' : agent W) : Prop := exists l, a' = requested l a.

Lemma requested_nil a : requested [] a = a.
Proof. unfold requested. rewrite app_nil_r. by destruct a as [[? ? ? [[] ?]]]. Qed.

Lemma requested_app l1 l2 a : requested l2 (requested l1 a) = requested (l1 ++ l2) a.
Proof. unfold requested. simpl. by rewrite foldl_app, app_assoc. Qed.

#[local] Instance only_requests_preorder : PreOrder only_requests.
Proof.
  split; [intros a; exists []; by rewrite requested_nil|].
  intros a b c [l1 ->] [l2 ->]. exists (l1 ++ l2). by rewrite requested_app.
Qed.

(** No answer, no JSON, or another code than success. *)
Definition refused (r : result string string) : Prop :=
  match r with
  | Ok resp => match from_str resp with Ok v => code_is (V:=V) v "000000" = false | Err _ => True end
  | Err _ => True
  end.

Definition server_refuses : Prop := forall url body tok (w : W), refused (http_post url body tok w).1.

(** A request under such a server. *)
Definition asks (m : io (agent W) (result string string)) : Prop :=
  keeps only_requests m /\ forall a, refused (m a).1.

Lemma post_run url body a : exists r, post token url body a = (r, requested [(url, body)] a).
Proof.
  unfold post, mbind, io_bind, on_machine, on_conf, on_host, on_world. simpl. unfold requested, after_post. simpl.
  destruct (http_post url body token (world (h_shell (c_host (conf a))))) as [r w]. eexists. reflexivity.
Qed.

Lemma post_same url body : keeps only_requests (post token url body).
Proof. intros a. destruct (post_run url body a) as [r ->]. by exists [(url, body)]. Qed.

Lemma report_same key body : keeps only_requests (report base_url token text key body).
Proof. pose proof post_same. unfold report. keeps_auto. Qed.

Lemma look_same {A} (f : W -> A) : keeps only_requests (machine_look f).
Proof. intros a. simpl. reflexivity. Qed.

Lemma upload_same key none body : keeps only_requests (upload base_url token key none body).
Proof. pose proof post_same. unfold upload. keeps_auto. Qed.

#[local] Hint Resolve post_same report_same look_same upload_same : agent.

Context (Hrefuse : server_refuses).

Lemma post_asks url body : asks (post token url body).
Proof.
  split; [apply post_same|]. intros a. unfold post, mbind, io_bind. simpl.
  unfold on_machine, on_conf, on_host, on_world. simpl.
  pose proof (Hrefuse url body token (world (h_shell (c_host (conf a))))) as Hr.
  by destruct (http_post _ _ _ _).
Qed.

Lemma fetch_asks key none : asks (fetch base_url token key none).
Proof.
  unfold fetch. destruct (url_or base_url key none) as [url|e]; [apply (post_asks url "")|].
  split; [|done]. by intros a.
Qed.

Lemma with_err_asks f m : asks m -> asks (with_err f m).
Proof.
  intros [Hk Hr]. split; [by apply keeps_with_err|]. intros a. unfold with_err.
  specialize (Hr a). by destruct (m a) as [[] ?].
Qed.

(** The common start of the handlers: ask, parse, and go on knowing that the
    code is not that of success. *)
Lemma refused_keeps {A} m e (K : V -> io (agent W) (result string A)) :
  asks m -> (forall v, code_is v "000000" = false -> keeps only_requests (K v)) ->
  keeps only_requests (let? resp := m in let? v := mret (parse e resp) in K v).
Proof.
  intros [Hm Hr] HK a. unfold bind_ok at 1. specialize (Hm a). specialize (Hr a).
  destruct (m a) as [[resp|err] a1]; simpl in *; [|done].
  unfold bind_ok, parse, mret, io_ret. destruct (from_str resp) as [v|err]; simpl; [|done].
  etrans; [exact Hm|]. by apply HK.
Qed.

(** An update is never announced. *)
Lemma download_info_refused {A} key none pe (K : V -> io (agent W) (result string A)) :
  keeps only_requests (let? v := download_info base_url token key none pe in K v).
Proof.
  intros a. unfold download_info, bind_ok. destruct (url_or base_url key none) as [url|e]; [|done].
  pose proof (post_asks url "") as [Hs Hr]. unfold with_err. specialize (Hs a). specialize (Hr a).
  unfold mret, io_ret. destruct (post token url "" a) as [[resp|e] a1]; simpl in *; [|done].
  unfold parse. destruct (from_str resp) as [v|e]; simpl; [|done]. by rewrite Hr.
Qed.

Ltac refuse_step :=
  first [ apply refused_keeps; [solve [auto using fetch_asks, post_asks, with_err_asks]|];
          let Hc := fresh "Hc" in intros ? Hc; try rewrite Hc; cbn [negb]
        | apply keeps_bind_ok; [apply _|solve [auto with agent]|intros ?] ].

Lemma handle_refused ty : ty <> TaskUpdateUUI -> keeps only_requests (handle ty).
Proof.
  intros Hty. destruct ty; cbn [handle_task]; try (by apply keeps_ret); try done;
    unfold task_upload_process, task_update, task_upload_dir, task_down_white, task_down_dir_policy,
      task_down_conf, task_down_black, task_upload_port, task_down_virtual_port,
      task_down_netblock_policy, task_down_extort, task_down_black_ip_policy, task_uninstall,
      task_get_white_peripherals, task_get_black_peripherals, task_usb_upload, task_global_proc,
      task_global_dir, task_outreach_detect, task_down_pwjump, task_down_ipjump,
      task_get_system_backups, task_system_rollback, report_task_completion.
  all: repeat refuse_step; try done; try apply download_info_refused.
  all: try (cbv zeta; keeps_auto; auto with agent).
  - apply keeps_for_each; [apply _|]. intros b _. apply keeps_ignore. auto with agent.
Qed.

(** while the server does not answer, answers no JSON or answers with any
    code but that of success, a task changes nothing: the agent's whole state
    and its machine are as they were, but for the requests the task made; the
    one exception is the task that renews the identity, which asks for no
    answer. *)
Theorem refused_answers_change_nothing ty (a : agent W) :
  ty <> TaskUpdateUUI -> exists l, (handle ty a).2 = requested l a.
Proof. intros Hty. exact (handle_refused ty Hty a). Qed.
End outcomes.

(** ** Particular tasks *)

Section particular.
Context {W : Type} `{Os W} `{Files W} `{Http W} `{Collect W} `{Disk W} `{AgentSocket W}.
Context {V : Type} `{JsonValue V} `{JsonText V}.
Context (t : target) (cpu : arch) (nl_sock : bool) (base_url : string) (token : option string).
Context (text : value -> string) (md5_hex : string -> string).
Context (uid_to_name gid_to_name : Z -> option string) (lower : string -> string).
Context (order : nat -> gset string -> list string).
Context (values : gmap string IpPolicy -> list IpPolicy).
Context (env_user : option string) (year month day : Z) (polls : nat).

(** The server answers every request with the JSON value [v]. *)
Definition answers (v : V) : Prop :=
  forall url body tok (w : W), exists resp, (http_post url body tok w).1 = Ok resp /\ from_str resp = Ok v.

Lemma on_machine_policy {A} (m : io (host W) A) a : policy (on_machine m a).2 = policy a.
Proof. unfold on_machine, on_conf, on_host. by destruct (m _). Qed.

Lemma post_answer v url body a :
  answers v -> exists resp a1, post token url body a = (Ok resp, a1) /\ from_str resp = Ok v
                               /\ policy a1 = policy a.
Proof.
  intros Hv. unfold post, mbind, io_bind. simpl. unfold on_machine, on_conf, on_host, on_world. simpl.
  destruct (Hv url body token (world (h_shell (c_host (conf a))))) as (resp & Hp & Hf).
  destruct (http_post _ _ _ _) as [r w]. simpl in Hp. subst r. by eexists _, _.
Qed.

Lemma report_policy d a :
  exists a1, report_task_completion base_url token text d a = (Ok tt, a1) /\ policy a1 = policy a.
Proof.
  eexists. split; [reflexivity|]. unfold ignore, post, mbind, io_bind. simpl.
  by rewrite on_machine_policy.
Qed.

(** The hashes of a process list. *)
Definition hashes_in (items : list V) : list string :=
  omap (fun item => opt_str_field item "hash") items.

Definition down (w : bool) : io (agent W) (result string unit) :=
  if w then task_down_white (V:=V) base_url token text order 3
  else task_down_black (V:=V) base_url token text order 7.

(** a downloaded process list with at least one hash becomes the list of its
    kind the module is asked to hold, its entries leaving the other one; but an empty list is
    refused as an error and changes nothing, so the server cannot take the last
    entry off a list. *)
Theorem process_list_task w v data items (a : agent W) :
  answers v -> code_is v "000000" = true -> get_field v "data" = Some data ->
  index_array data "proclist" = Some items -> order_ok order -> in_sync (policy a) ->
  let '(r, a') := down w a in
  match hashes_in items with
  | [] => r = Err "No hashes found in the response" /\ policy a' = policy a
  | hashes => r = Ok tt /\ in_sync (policy a')
              /\ asked (policy a').2 = set_policy_spec hashes w (asked (policy a).2)
  end.
Proof.
  intros Hv Hc Hd Hi Ho Hs.
  assert (hash_list v = match hashes_in items with
                        | [] => Err "No hashes found in the response" | l => Ok l end) as Hl.
  { unfold hash_list. rewrite Hd. simpl. by rewrite Hi. }
  destruct w; cbn [down].
  1: unfold task_down_white; destruct (report_policy 3 a) as (a1 & E1 & P1).
  2: unfold task_down_black; destruct (report_policy 7 a) as (a1 & E1 & P1).
  all: unfold bind_ok at 1; rewrite E1.
  1: change (fetch base_url token "download_white" _) with (post token (base_url +:+ "/v1/getprocwl") "").
  2: change (fetch base_url token "download_black" _) with (post token (base_url +:+ "/v1/getprocbl") "").
  1: destruct (post_answer v (base_url +:+ "/v1/getprocwl") "" a1 Hv) as (resp & a2 & E2 & F & P2).
  2: destruct (post_answer v (base_url +:+ "/v1/getprocbl") "" a1 Hv) as (resp & a2 & E2 & F & P2).
  all: unfold bind_ok at 1; rewrite E2; unfold bind_ok at 1, parse; rewrite F; simpl map_err;
    unfold mret at 1, io_ret at 1; rewrite Hc; unfold bind_ok at 1; rewrite Hl;
    unfold mret at 1, io_ret at 1; destruct (hashes_in items) as [|h hs]; [split; [done|congruence]|].
  all: simpl; rewrite P2, P1; split_and!; [done|by apply set_policy_in_sync|].
  all: by apply (set_policy_asked order).
Qed.

(** a polling interval of zero sent by the server is stored, and the next
    time the fetcher starts, with the settings it stored, it panics. *)
Theorem zero_crontime_panics n (v : V) (s : conf_state W) (a : agent W) :
  get_u32 v "crontime" = Ok 0 ->
  conf a = (update_config_from_json t nl_sock v s).2 ->
  (run (V:=V) t cpu nl_sock base_url token text md5_hex uid_to_name gid_to_name lower order values
     env_user year month day polls n a).1 = Panic.
Proof.
  intros Hz Ha. unfold run, bind_done.
  assert (config (conf (fetcher_new base_url a).2) = config (conf a)) as Hc
    by (unfold fetcher_new; by destruct (new_client base_url)).
  destruct (fetcher_new base_url a) as [[[]|] a1]; [|done]. cbn [snd] in Hc.
  unfold mbind, io_bind, get_cron_time. rewrite Hc, Ha, update_config_config. simpl. by rewrite Hz.
Qed.
End particular.

(** ** A fetcher and its server *)

Module FetcherDemo.
#[global] Instance demo_os : Os unit := {| spawn _ w := (reply [], w) |}.
#[global] Instance demo_files : Files unit := {| put _ w := (Ok tt, w) |}.
#[global] Instance demo_disk : Disk unit := {|
  disk _ w := (Ok tt, w); path_exists _ _ := false; read_dir _ _ := Ok [];
  unzip _ _ w := (Ok tt, w); read_text _ _ := Ok "" |}.
#[global] Instance demo_socket : AgentSocket unit :=
  {| connect _ w := (Ok tt, w); send_line _ w := (Ok tt, w) |}.
#[global] Instance demo_collect : Collect unit := {|
  process_list _ := Ok (Ok "[]"); netapp_json _ := Ok "[]"; dir_listing _ _ := NotADir;
  program_dir _ _ := Ok []; usb_sysfs _ := []; create_snapshot _ _ w := (Ok "1G", w);
  restore_snapshot _ w := (Ok tt, w); open_write _ _ := Ok tt |}.

(** Two answers: one with tasks 3 (white list), 13 (block list) and 33 (an
    error, since the data are no array), the other with an empty process list. *)
Definition work : value :=
  Object [("code", Str "000000");
          ("data", Object [("tasklist", Array [Number 3; Number 13; Number 33; Number 99]);
                           ("proclist", Array [Object [("hash", Str "a")]; Object []])])].
Definition nothing : value :=
  Object [("code", Str "000000"); ("data", Object [("proclist", Array [])])].

#[global] Instance demo_text : JsonText value := {|
  from_str s := if bool_decide (s = "work") then Ok work
                else if bool_decide (s = "nothing") then Ok nothing else Err "expected value";
  is_object v := match v with Object _ => true | _ => false end;
  to_text _ := ""; de_error _ _ := ""
|}.

Definition server (answer : result string string) : Http unit :=
  {| http_post _ _ _ w := (answer, w); http_download _ _ w := (Err "404", w);
     new_client _ := Ok tt |}.

Definition start : agent unit :=
  Agent TaskConf.Demo.start [] (ProcessPolicyManager_new true, open_files)
    (NetBlock.initial open_file open_file) (p_new, empty_proc) new_lists [] [] None None.

Lemma start_ok : agent_ok start.
Proof.
  split_and!; [by apply in_sync_new|apply wf_initial|by apply new_mirrored|done|by_decide].
Qed.

Definition no_name (_ : Z) : option string := None.
Definition digest (s : string) : string := s.

Abbreviation run_with answer := (run (V:=value) (H1:=server answer) le64 X86_64 true "http://s"
  (Some "t") (fun _ => "{}") digest no_name no_name id elements_order map_values None 2025 1 1 3).

Lemma tasks_keep_invariants_witness :
  agent_ok (run_with (Ok "work") 2%nat start).2
  /\ kernel_table (policy (run_with (Ok "work") 2%nat start).2).2 = ({["a"]}, ∅)
  /\ length (posts (run_with (Ok "work") 2%nat start).2) = 14%nat.
Proof.
  split; [|split; vm_compute; reflexivity].
  apply (tasks_keep_invariants (V:=value) (H1:=server (Ok "work")));
    [apply elements_order_ok|apply map_values_ok|apply start_ok].
Defined.

Lemma refused_answers_change_nothing_witness :
  (forall url body tok w, refused (V:=value) (@http_post _ (server (Err "timeout")) url body tok w).1)
  /\ exists l, (handle_task (V:=value) (H1:=server (Err "timeout")) le64 X86_64 true "http://s" None
       (fun _ => "{}") digest no_name no_name id elements_order map_values None 2025 1 1 3
       TaskUpdate start).2 = @requested unit (server (Err "timeout")) None l start.
Proof.
  split; [done|]. by apply (refused_answers_change_nothing (V:=value) (H1:=server (Err "timeout"))).
Defined.

Lemma process_list_task_witness :
  (down (V:=value) (H1:=server (Ok "nothing")) "http://s" None (fun _ => "{}") elements_order true
     start).1 = Err "No hashes found in the response".
Proof.
  pose proof (process_list_task (V:=value) (H1:=server (Ok "nothing")) "http://s" None
                (fun _ => "{}") elements_order true nothing (Object [("proclist", Array [])]) []
                start) as H.
  destruct (down _ _ _ _ _ _) as [r a']. 
  apply H; first [done | apply elements_order_ok | apply in_sync_new
                 | intros url body tok w; by exists "nothing"].
Defined.

Definition zero : value := Object [("crontime", Number 0)].
Definition stored : agent unit :=
  Agent (update_config_from_json le64 true zero TaskConf.Demo.start).2 [] (policy start) (block start)
    (procs start) new_lists [] [] None None.

Lemma zero_crontime_panics_witness : (run_with (Ok "work") 1%nat stored).1 = Panic.
Proof.
  by apply (zero_crontime_panics (V:=value) (H1:=server (Ok "work")) le64 X86_64 true "http://s"
              (Some "t") (fun _ => "{}") digest no_name no_name id elements_order map_values None
              2025 1 1 3 1%nat zero TaskConf.Demo.start stored).
Defined.
End FetcherDemo.
