(* ===== verification/FileTransfer.v ===== *)
(** * Files over the remote console

    The frame in which the two ends of the agent manager's remote console send
    each other files ([agent_manager/src/agent_cli_client.rs] and
    [agent_cli_server.rs], constants in [common.rs]): the senders, the server's
    receiver, which finds a frame inside what it just read, and the client's
    receiver, which is called with a header line.  Connections deliver bytes in
    pieces of any size, and the theorems are about every way to cut a frame. *)

From S2P Require Import Prelude RustStr Bytes Shell.
From Stdlib Require Import Ascii.

Definition FILE_START_MARKER : string := String "001" "FILE_START" +:+ String "001" "".
Definition FILE_END_MARKER : string := String "002" "FILE_END" +:+ String "002" "".
Definition BUFFER_SIZE : nat := Z.to_nat 4096.

(** ** A connection and the files of its end *)

(** [l_in]: what the peer sends, in the pieces in which it arrives; then the
    connection is closed, or fails.  Reading while nothing has arrived waits. *)
Record link := Link {
  l_in : list (list Z);
  l_end : result string unit;
  l_files : gmap string (list Z)
}.

Fixpoint read_piece (n : nat) (l : list (list Z)) : list Z * list (list Z) :=
  match l with
  | [] => ([], [])
  | [] :: l => read_piece n l
  | s :: l => (take n s, drop n s :: l)
  end.

(** [AsyncReadExt::read] into a buffer of [n] bytes: at most the next piece;
    nothing, once the connection is closed. *)
Definition read (n : nat) : io link (result string (list Z)) := fun s =>
  match read_piece n (l_in s) with
  | ([], l) => (match l_end s with Ok _ => Ok [] | Err e => Err e end,
                Link l (l_end s) (l_files s))
  | (b, l) => (Ok b, Link l (l_end s) (l_files s))
  end.

(** [AsyncReadExt::read_exact]. *)
Fixpoint read_rest (fuel : nat) (acc : list Z) (n : nat) : io link (result string (list Z)) :=
  match fuel, n with
  | _, O => mret (Ok acc)
  | O, _ => mret (Err "early eof")
  | S fuel, _ =>
    let? b := read n in
    match b with
    | [] => mret (Err "early eof")
    | _ => read_rest fuel (acc ++ b) (n - length b)
    end
  end.
Definition read_exact (n : nat) : io link (result string (list Z)) := read_rest n [] n.

(** What the receivers ask of the file system.  [refuses] answers with an error
    and, for an interrupted write, how many bytes had been written. *)
Inductive file_op :=
| MakeParents (p : string)               (* [create_dir_all] of the parent, if any *)
| CreateFile (p : string)
| Append (p : string) (b : list Z).

Definition file_effect (o : file_op) (m : gmap string (list Z)) : gmap string (list Z) :=
  match o with
  | MakeParents _ => m
  | CreateFile p => <[p := []]> m
  | Append p b => alter (fun c => c ++ b) p m
  end.

Definition partial_effect (o : file_op) (k : nat) (m : gmap string (list Z)) :=
  match o with Append p b => alter (fun c => c ++ take k b) p m | _ => m end.

(** ** Receiving *)

(** The first place where [m] occurs in [l]. *)
Fixpoint find_sub (m l : list Z) : option nat :=
  if bool_decide (take (length m) l = m) then Some 0%nat
  else match l with [] => None | _ :: l => S <$> find_sub m l end.

(** [for i in 0..=len.saturating_sub(m.len())] with a slice of [m.len()] bytes
    at [i]: the slice is out of range when there are fewer bytes than that. *)
Definition start_of (raw : list Z) : outcome (option nat) :=
  if (length raw <? String.length FILE_START_MARKER)%nat then Panic
  else Done (find_sub (as_bytes FILE_START_MARKER) raw).

Definition trim_end_cr (s : string) : string :=
  String.rev (trim_start_matches (String carriage_return "") (String.rev s)).

Section receive.
Context (refuses : file_op -> gmap string (list Z) -> option (string * nat)).

Definition file_do (o : file_op) : io link (result string unit) := fun s =>
  match refuses o (l_files s) with
  | Some (e, k) => (Err e, Link (l_in s) (l_end s) (partial_effect o k (l_files s)))
  | None => (Ok tt, Link (l_in s) (l_end s) (file_effect o (l_files s)))
  end.

(** [while received < size]: [limit] bounds one read.  Every read takes at
    least a byte, so that the bytes still to come are fuel enough. *)
Fixpoint copy_body (fuel : nat) (limit : Z -> nat) (p : string) (received size : Z)
    : io link (result string unit) :=
  match fuel with
  | O => mret (Ok tt)
  | S fuel =>
    if received <? size then
      let? b := read (limit (size - received)) in
      match b with
      | [] => mret (Ok tt)
      | _ => let? _ := file_do (Append p b) in
             copy_body fuel limit p (received + blen b) size
      end
    else mret (Ok tt)
  end.
Definition copy_rest (limit : Z -> nat) (p : string) (received size : Z)
    : io link (result string unit) := fun s =>
  copy_body (S (length (concat (l_in s)))) limit p received size s.

(** [min(BUFFER_SIZE, size - received)]. *)
Definition need (rest : Z) : nat := Z.to_nat (Z.min (Z.of_nat BUFFER_SIZE) rest).

(** [receive_file_from_bytes], from the marker on. *)
Definition receive_frame (data : list Z) : io link (result string unit) :=
  match find_sub [10] data with
  | None => mret (Err "header newline not found")
  | Some newline_pos =>
    match from_utf8 (take newline_pos data) with
    | None => mret (Err "header is not valid UTF-8")
    | Some header =>
      let? rest := mret (ok_or "header missing marker" (strip_prefix FILE_START_MARKER header)) in
      let? x := mret (ok_or "header bad format" (split_once ":" rest)) in
      let? size := mret (ok_or "header bad size" (parse_uint 64 x.1)) in
      let path := trim_end_cr x.2 in
      let? _ := file_do (MakeParents path) in
      let? _ := file_do (CreateFile path) in
      let available := take (Z.to_nat size) (drop (S newline_pos) data) in
      let? _ := match available with
                | [] => mret (Ok tt)
                | _ => file_do (Append path available)
                end in
      let? _ := copy_rest need path (blen available) size in
      let? end_marker := read_exact (String.length FILE_END_MARKER) in
      if bool_decide (end_marker = as_bytes FILE_END_MARKER) then mret (Ok tt)
      else mret (Err ("end marker mismatch: got " +:+ debug_str (from_utf8_lossy end_marker)))
    end
  end.

Definition receive_file_from_bytes (raw_data : list Z) : io link (outcome (result string unit)) :=
  fun s =>
  match start_of raw_data with
  | Panic => (Panic, s)
  | Done None => (Done (Err "FILE_START_MARKER not found in raw data"), s)
  | Done (Some i) => let '(r, s') := receive_frame (drop i raw_data) s in (Done r, s')
  end.

(** The client's [receive_file]: whole buffers are read, whatever is missing;
    a wrong end marker is logged. *)
Definition receive_file (header : string) : io link (result string unit) :=
  let? rest := mret (ok_or "bad marker" (strip_prefix FILE_START_MARKER header)) in
  let? x := mret (ok_or "bad format" (split_once ":" rest)) in
  let? size := mret (ok_or "bad size" (parse_uint 64 x.1)) in
  let? _ := file_do (MakeParents x.2) in
  let? _ := file_do (CreateFile x.2) in
  let? _ := copy_rest (fun _ => BUFFER_SIZE) x.2 0 size in
  let? end_marker := read_exact (String.length FILE_END_MARKER) in
  match from_utf8 end_marker with
  | None => mret (Err "invalid end marker")
  | Some _ => mret (Ok tt)
  end.
End receive.

(** ** Sending *)

Record meta := Meta { m_is_file : bool; m_is_dir : bool; m_len : Z }.

Section send.
(** [tokio::fs::metadata]; what opening a file and the successive reads of it
    give; whether the connection takes another write. *)
Context (metadata : string -> result string meta).
Context (open : string -> result string (list (result string (list Z)))).
Context (broken : list Z -> option string).

(** [AsyncWriteExt::write_all]; the state is what has been sent. *)
Definition write_all (b : list Z) : io (list Z) (result string unit) := fun out =>
  match broken out with Some e => (Err e, out) | None => (Ok tt, out ++ b) end.

Definition flush : io (list Z) (result string unit) := write_all [].

(** [dst] is looked up on the sender's machine. *)
Definition final_dst (src dst : string) : string :=
  match metadata dst with
  | Ok d => if m_is_dir d then path_join dst (file_name src) else dst
  | Err _ => dst
  end.

Fixpoint send_reads (reads : list (result string (list Z))) (sent size : Z)
    (write : list Z -> io (list Z) (result string unit)) : io (list Z) (result string unit) :=
  if sent <? size then
    match reads with
    | [] => mret (Ok tt)
    | Err e :: _ => mret (Err e)
    | Ok [] :: _ => mret (Ok tt)
    | Ok b :: reads =>
      let? _ := write b in
      send_reads reads (sent + blen b) size write
    end
  else mret (Ok tt).

Definition header_line (size : Z) (dst : string) : string :=
  FILE_START_MARKER +:+ dec size +:+ ":" +:+ dst.

(** The client's [send_file]. *)
Definition send_file (src dst : string) : io (list Z) (result string unit) :=
  let? m := mret (metadata src) in
  if negb (m_is_file m) then
    write_all (as_bytes ("Source path " +:+ src +:+ " must be a file" +:+ String line_feed ""))
  else
    let? _ := write_all (as_bytes (header_line (m_len m) (final_dst src dst)
                                   +:+ String line_feed "")) in
    let? reads := mret (open src) in
    let? _ := send_reads reads 0 (m_len m) write_all in
    let? _ := write_all (as_bytes FILE_END_MARKER) in
    flush.

(** The server's [send_file_to_client_with_writer]: the header has no line
    feed; other texts for a broken connection. *)
Definition write_or (msg : string) (b : list Z) : io (list Z) (result string unit) :=
  with_err (fun _ => msg) (write_all b).

Definition send_file_to_client_with_writer (src dst : string) : io (list Z) (result string unit) :=
  let? m := mret (metadata src) in
  if negb (m_is_file m) then mret (Ok tt)
  else
    let? reads := mret (open src) in
    let? _ := write_or "write header failed" (as_bytes (header_line (m_len m) (final_dst src dst))) in
    let? _ := send_reads reads 0 (m_len m) (write_or "write payload failed") in
    write_or "write end marker failed" (as_bytes FILE_END_MARKER).
End send.

(** ** Reading *)

(** What is still to come. *)
Definition pending (s : link) : list Z := concat (l_in s).

Lemma read_piece_spec n l b l' :
  read_piece (S n) l = (b, l') ->
  concat l = b ++ concat l' /\ (length b <= S n)%nat /\ (b = [] -> concat l = []).
Proof.
  induction l as [|[|x s] l IH]; simpl; intros E; simplify_eq; simpl.
  - split_and!; [done|lia|done].
  - by apply IH.
  - split_and!; [|rewrite length_take; lia|done].
    by rewrite (app_assoc (take n s)), take_drop.
Qed.

(** A read takes some of what is to come, and nothing only at the end. *)
Lemma read_spec n s : (0 < n)%nat ->
  match pending s with
  | [] => exists l, read n s = (match l_end s with Ok _ => Ok [] | Err e => Err e end,
                                Link l (l_end s) (l_files s)) /\ concat l = []
  | _ => exists b l, read n s = (Ok b, Link l (l_end s) (l_files s)) /\ b <> []
                     /\ (length b <= n)%nat /\ pending s = b ++ concat l
  end.
Proof.
  intros Hn. destruct n as [|n]; [lia|]. unfold read, pending.
  destruct (read_piece (S n) (l_in s)) as [b l] eqn:E.
  apply read_piece_spec in E as (E & Hb & Hnil). destruct b as [|x b].
  - rewrite Hnil by done. exists l. split; [done|]. rewrite Hnil in E by done. by symmetry in E.
  - rewrite E. simpl. by exists (x :: b), l.
Qed.

Lemma read_some n s : (0 < n)%nat -> pending s <> [] ->
  exists b l, read n s = (Ok b, Link l (l_end s) (l_files s)) /\ b <> []
              /\ (length b <= n)%nat /\ pending s = b ++ concat l.
Proof. intros Hn Hp. pose proof (read_spec n s Hn). by destruct (pending s). Qed.

(** Cutting a known prefix off what was read. *)
Lemma cut_prefix {A} (b x r l : list A) :
  b ++ r = x ++ l -> (length x <= length b)%nat ->
  x ++ drop (length x) b = b /\ drop (length x) b ++ r = l.
Proof.
  intros E Hle. split.
  - apply (f_equal (take (length x))) in E. rewrite take_app_length, take_app_le in E by done.
    rewrite <- E at 1. apply take_drop.
  - apply (f_equal (drop (length x))) in E. by rewrite drop_app_length, drop_app_le in E.
Qed.

Lemma read_rest_ok fuel acc m rest s :
  (length m <= fuel)%nat -> pending s = m ++ rest ->
  exists l, read_rest fuel acc (length m) s = (Ok (acc ++ m), Link l (l_end s) (l_files s))
            /\ concat l = rest.
Proof.
  revert acc m s. induction fuel as [|fuel IH]; intros acc m s Hf Hp.
  - destruct m; [|simpl in Hf; lia]. exists (l_in s). rewrite app_nil_r. by destruct s.
  - destruct m as [|x m].
    { exists (l_in s). rewrite app_nil_r. by destruct s. }
    destruct (read_some (length (x :: m)) s) as (b & l & E & Hb & Hlen & Hpe);
      [simpl; lia|by rewrite Hp|].
    simpl read_rest. unfold bind_ok. change (S (length m)) with (length (x :: m)). rewrite E.
    destruct b as [|y b]; [done|].
    rewrite Hp in Hpe. apply cut_prefix in Hpe as [Hm Hrest]; [|done].
    set (m' := drop (length (y :: b)) (x :: m)) in *.
    destruct (IH (acc ++ y :: b) m' (Link l (l_end s) (l_files s))) as (l' & E' & Hl').
    + subst m'. rewrite length_drop. simpl in *. lia.
    + by unfold pending.
    + exists l'. split; [|done]. simpl in E'. rewrite <- Hm at 2. rewrite app_assoc, <- E'. f_equal.
      subst m'. by rewrite length_drop.
Qed.

Lemma read_exact_ok m rest s :
  pending s = m ++ rest ->
  exists l, read_exact (length m) s = (Ok m, Link l (l_end s) (l_files s)) /\ concat l = rest.
Proof. intros Hp. by apply (read_rest_ok (length m) [] m rest s). Qed.

Lemma read_rest_short fuel acc n s :
  (length (pending s) < n)%nat ->
  exists e l, read_rest fuel acc n s = (Err e, Link l (l_end s) (l_files s)).
Proof.
  revert acc n s. induction fuel as [|fuel IH]; intros acc n s Hn; destruct n as [|n]; try lia.
  - exists "early eof", (l_in s). by destruct s.
  - simpl. unfold bind_ok. pose proof (read_spec (S n) s ltac:(lia)) as Hr.
    destruct (pending s) as [|x m] eqn:Hp.
    + destruct Hr as (l & -> & _). destruct (l_end s); eauto.
    + destruct Hr as (b & l & -> & Hb & Hlen & E). destruct b as [|y b]; [done|].
      apply (f_equal length) in E. rewrite length_app in E.
      apply (IH _ _ (Link l (l_end s) (l_files s))).
      unfold pending. cbn [l_in]. cbn [length] in *. lia.
Qed.

Lemma read_rest_keeps fuel acc n segs fin files r s :
  read_rest fuel acc n (Link segs fin files) = (r, s) -> exists l, s = Link l fin files.
Proof.
  revert acc n segs. induction fuel as [|fuel IH]; intros acc n segs; destruct n as [|n]; simpl;
    try (intros [= _ <-]; by eexists).
  unfold bind_ok, read. simpl l_in. destruct (read_piece (S n) segs) as [[|x b] l].
  - cbn [l_end]. destruct fin; intros [= _ <-]; by eexists.
  - apply IH.
Qed.

Lemma read_exact_keeps n segs fin files r s :
  read_exact n (Link segs fin files) = (r, s) -> exists l, s = Link l fin files.
Proof. apply read_rest_keeps. Qed.

(** ** The body of a frame *)

Section body.
Context (refuses : file_op -> gmap string (list Z) -> option (string * nat)).
Context (accepts : forall o m, refuses o m = None).

Lemma file_do_ok o s :
  file_do refuses o s = (Ok tt, Link (l_in s) (l_end s) (file_effect o (l_files s))).
Proof. unfold file_do. by rewrite accepts. Qed.

Lemma append_effect p b c (m : gmap string (list Z)) :
  m !! p = Some c -> file_effect (Append p b) m = <[p := c ++ b]> m.
Proof.
  intros Hp. simpl. apply map_eq. intros q. destruct (decide (q = p)) as [->|].
  - by rewrite lookup_alter_eq, lookup_insert_eq, Hp.
  - by rewrite lookup_alter_ne, lookup_insert_ne.
Qed.

(** The server's loop takes exactly what is missing, however it is cut. *)
Lemma copy_body_ok fuel p b received size c rest s :
  (length b < fuel)%nat -> size - received = blen b -> l_files s !! p = Some c ->
  pending s = b ++ rest ->
  exists l, copy_body refuses fuel need p received size s
              = (Ok tt, Link l (l_end s) (<[p := c ++ b]> (l_files s))) /\ concat l = rest.
Proof.
  revert b received c s. induction fuel as [|fuel IH]; intros b received c s Hf Hsize Hc Hp; [lia|].
  simpl. destruct (Z.ltb_spec received size) as [Hlt|Hge].
  - assert (b <> []) as Hb by (intros ->; unfold blen in Hsize; simpl in Hsize; lia).
    destruct (read_some (need (size - received)) s) as (x & l & E & Hx & Hlen & Hpe);
      [unfold need, BUFFER_SIZE; lia|rewrite Hp; by destruct b|].
    unfold bind_ok. rewrite E. destruct x as [|y x]; [done|]. rewrite file_do_ok. cbn [l_files l_in l_end].
    rewrite (append_effect _ _ _ _ Hc).
    assert (length (y :: x) <= length b)%nat as Hle by (unfold need, blen in *; lia).
    rewrite Hp in Hpe. apply cut_prefix in Hpe as [Ht Hd]; [|done].
    destruct (IH (drop (length (y :: x)) b) (received + blen (y :: x)) (c ++ y :: x)
                (Link l (l_end s) (<[p := c ++ y :: x]> (l_files s)))) as (l' & E' & Hl').
    + rewrite length_drop. simpl in *. lia.
    + rewrite blen_drop. unfold blen in *. lia.
    + simpl. by rewrite lookup_insert_eq.
    + unfold pending. simpl. done.
    + exists l'. split; [|done]. rewrite E'. cbn [l_end l_files].
      by rewrite insert_insert_eq, <- app_assoc, Ht.
  - exists (l_in s). assert (b = []) as ->.
    { destruct b; [done|]. unfold blen in Hsize. simpl in Hsize. lia. }
    rewrite app_nil_r, insert_id by done. by destruct s.
Qed.

Lemma copy_rest_ok p b received size c rest s :
  size - received = blen b -> l_files s !! p = Some c -> pending s = b ++ rest ->
  exists l, copy_rest refuses need p received size s
              = (Ok tt, Link l (l_end s) (<[p := c ++ b]> (l_files s))) /\ concat l = rest.
Proof.
  intros. unfold copy_rest. apply copy_body_ok; try done.
  change (concat (l_in s)) with (pending s). rewrite H1, length_app. lia.
Qed.
End body.

(** The fuel of [copy_rest] is enough: more of it changes nothing. *)
Lemma copy_body_fuel refuses limit p size fuel fuel' received s :
  (forall z, 0 < z -> (0 < limit z)%nat) ->
  (length (pending s) < fuel)%nat -> (fuel <= fuel')%nat ->
  copy_body refuses fuel' limit p received size s = copy_body refuses fuel limit p received size s.
Proof.
  intros Hlim. revert fuel' received s.
  induction fuel as [|fuel IH]; intros fuel' received s Hf Hle; [lia|].
  destruct fuel' as [|fuel']; [lia|]. simpl.
  destruct (Z.ltb_spec received size) as [Hlt|]; [|done].
  unfold bind_ok. pose proof (read_spec (limit (size - received)) s (Hlim (size - received) ltac:(lia))) as Hr.
  destruct (pending s) as [|x m] eqn:Hp.
  - destruct Hr as (l & -> & _). by destruct (l_end s).
  - destruct Hr as (b & l & -> & Hb & Hlen & E). destruct b as [|y b]; [done|].
    unfold file_do. cbn [l_files l_in l_end].
    destruct (refuses _ _) as [[e k]|]; [done|]. apply IH; [|lia].
    unfold pending. cbn [l_in]. apply (f_equal length) in E. rewrite length_app in E.
    cbn [length] in *. lia.
Qed.

(** ** Headers *)

Definition is_ascii (s : string) : Prop := forall a, str_mem a s = true -> ascii_code a < 128.

Lemma is_ascii_app s t : is_ascii s -> is_ascii t -> is_ascii (s +:+ t).
Proof. intros Hs Ht a. rewrite str_mem_app. intros [|]%orb_true_iff; auto. Qed.

Lemma is_ascii_dec n : is_ascii (dec n).
Proof.
  intros a Ha. destruct (Ascii.is_nat a) eqn:E; [|by rewrite dec_mem in Ha].
  clear Ha. by destruct a as [[] [] [] [] [] [] [] []].
Qed.

Lemma utf8_ascii_app s l : is_ascii s -> utf8_valid (as_bytes s ++ l) = utf8_valid l.
Proof.
  induction s as [|a s IH]; intros Hs; [done|]. simpl.
  rewrite (proj2 (Z.ltb_lt _ 128)).
  - apply IH. intros c Hc. apply Hs. simpl. by rewrite Hc, orb_true_r.
  - apply Hs. simpl. by rewrite bool_decide_true.
Qed.

(** Paths a frame can carry: valid UTF-8, as every [str], and one line. *)
Definition path_ok (p : string) : Prop :=
  str_mem line_feed p = false /\ str_mem carriage_return p = false
  /\ utf8_valid (as_bytes p) = true.

Lemma marker_ascii : is_ascii FILE_START_MARKER.
Proof.
  intros a. unfold FILE_START_MARKER. simpl. rewrite !orb_true_iff, !bool_decide_eq_true.
  intuition (subst; vm_compute; done).
Qed.

Lemma header_utf8 size p : path_ok p -> from_utf8 (as_bytes (header_line size p))
                                        = Some (header_line size p).
Proof.
  intros (_ & _ & Hp). unfold from_utf8, header_line. rewrite string_of_as_bytes.
  assert (is_ascii ":") as Hc.
  { intros a. simpl. rewrite orb_false_r, bool_decide_eq_true. by intros <-. }
  rewrite !as_bytes_app, (utf8_ascii_app _ _ marker_ascii), (utf8_ascii_app _ _ (is_ascii_dec size)).
  by rewrite (utf8_ascii_app _ _ Hc), Hp.
Qed.

Lemma header_one_line size p : path_ok p -> str_mem line_feed (header_line size p) = false.
Proof.
  intros (Hp & _). unfold header_line. rewrite !str_mem_app, dec_mem, Hp by done. done.
Qed.

Lemma split_header size p : split_once ":" (dec size +:+ ":" +:+ p) = Some (dec size, p).
Proof. rewrite str_app_cons, str_app_nil_l. apply split_once_app. by apply dec_mem. Qed.

Lemma find_newline h l :
  10 ∉ h -> find_sub [10] (h ++ 10 :: l) = Some (length h).
Proof.
  induction h as [|x h IH]; intros Hh; cbn [find_sub app take length].
  - by rewrite bool_decide_true.
  - rewrite not_elem_of_cons in Hh. rewrite bool_decide_false; [|intros [= ->]; tauto].
    by rewrite IH by tauto.
Qed.

Lemma trim_end_cr_id p : str_mem carriage_return p = false -> trim_end_cr p = p.
Proof.
  intros Hp. unfold trim_end_cr, trim_start_matches.
  rewrite <- str_mem_rev in Hp. etrans; [|apply rev_involutive]. apply (f_equal String.rev).
  destruct (String.rev p) as [|a q]; [reflexivity|]. cbn [String.length trim_matches_upto strip_prefix].
  cbn [str_mem] in Hp. apply orb_false_iff in Hp as [Ha _]. by rewrite bool_decide_false by
    (intros <-; by rewrite bool_decide_true in Ha).
Qed.

(** ** What the server makes of a frame *)

Section server.
Context (refuses : file_op -> gmap string (list Z) -> option (string * nat)).
Context (accepts : forall o m, refuses o m = None).

(** The end of [receive_frame]. *)
Definition check_end : io link (result string unit) :=
  let? end_marker := read_exact (String.length FILE_END_MARKER) in
  if bool_decide (end_marker = as_bytes FILE_END_MARKER) then mret (Ok tt)
  else mret (Err ("end marker mismatch: got " +:+ debug_str (from_utf8_lossy end_marker))).

(** The part of the body that came with the header. *)
Lemma body_in_first (h b1 b2 extra : list Z) :
  extra = [] \/ b2 = [] ->
  take (Z.to_nat (blen (b1 ++ b2))) (drop (S (length h)) (h ++ 10 :: b1 ++ extra)) = b1.
Proof.
  intros Hx. rewrite drop_app_ge by lia. replace (S (length h) - length h)%nat with 1%nat by lia.
  cbn [drop]. rewrite drop_0. unfold blen. rewrite Nat2Z.id. destruct Hx as [-> | ->].
  - rewrite app_nil_r, take_ge; [done|]. rewrite length_app. lia.
  - by rewrite app_nil_r, take_app_length.
Qed.

Lemma receive_frame_spec p b1 b2 extra rest fin files segs :
  path_ok p -> is_uint 64 (blen (b1 ++ b2)) -> (extra = [] \/ b2 = []) ->
  concat segs = b2 ++ rest ->
  exists segs', concat segs' = rest
    /\ receive_frame refuses
         (as_bytes (header_line (blen (b1 ++ b2)) p) ++ 10 :: b1 ++ extra) (Link segs fin files)
       = check_end (Link segs' fin (<[p := b1 ++ b2]> files)).
Proof.
  intros Hp Hsize Hx Hseg. unfold receive_frame.
  rewrite find_newline by (apply (as_bytes_mem line_feed); by apply header_one_line).
  rewrite take_app_length, header_utf8 by done.
  unfold bind_ok at 1. unfold header_line at 1. rewrite strip_prefix_app. cbn [ok_or mret io_ret].
  unfold bind_ok at 1. rewrite split_header. cbn [ok_or mret io_ret fst snd].
  unfold bind_ok at 1. rewrite parse_uint_dec by done. cbn [ok_or mret io_ret].
  rewrite trim_end_cr_id by apply Hp. rewrite body_in_first by done.
  unfold bind_ok at 1. rewrite file_do_ok by done. cbn [file_effect l_in l_end l_files].
  unfold bind_ok at 1. rewrite file_do_ok by done. cbn [file_effect l_in l_end l_files].
  destruct (copy_rest_ok refuses accepts p b2 (blen b1) (blen (b1 ++ b2)) b1 rest
              (Link segs fin (<[p := b1]> files))) as (l & E & Hl).
  { rewrite blen_app. lia. }
  { simpl. by rewrite lookup_insert_eq. }
  { done. }
  cbn [l_end l_files] in E. rewrite insert_insert_eq in E.
  exists l. split; [done|]. unfold bind_ok at 1.
  assert (match b1 with [] => mret (Ok tt) | _ => file_do refuses (Append p b1) end
            (Link segs fin (<[p := []]> files)) = (Ok tt, Link segs fin (<[p := b1]> files))) as ->.
  { destruct b1 as [|x b1]; [done|]. rewrite file_do_ok by done. cbn [l_files l_in l_end].
    rewrite (append_effect _ _ []) by by rewrite lookup_insert_eq. by rewrite insert_insert_eq. }
  unfold bind_ok at 1. rewrite E. reflexivity.
Qed.

Lemma check_end_ok rest segs fin files :
  concat segs = as_bytes FILE_END_MARKER ++ rest ->
  exists segs', check_end (Link segs fin files) = (Ok tt, Link segs' fin files)
                /\ concat segs' = rest.
Proof.
  intros E. destruct (read_exact_ok (as_bytes FILE_END_MARKER) rest (Link segs fin files)) as
    (l & Er & Hl); [done|]. exists l. split; [|done].
  unfold check_end, bind_ok. rewrite length_as_bytes in Er. rewrite Er.
  by rewrite bool_decide_true.
Qed.

Lemma start_of_app pre l :
  find_sub (as_bytes FILE_START_MARKER) (pre ++ l) = Some (length pre) ->
  (String.length FILE_START_MARKER <= length l)%nat ->
  start_of (pre ++ l) = Done (Some (length pre)).
Proof.
  intros E Hl. unfold start_of. rewrite E.
  rewrite (proj2 (Nat.ltb_ge _ _)); [done|]. rewrite length_app. lia.
Qed.

(** The server's receiver on [pre], which may hold earlier messages, and then a
    frame from its header on. *)
Lemma receive_bytes_spec pre p b1 b2 extra rest fin files segs :
  find_sub (as_bytes FILE_START_MARKER)
    (pre ++ as_bytes (header_line (blen (b1 ++ b2)) p) ++ 10 :: b1 ++ extra) = Some (length pre) ->
  path_ok p -> is_uint 64 (blen (b1 ++ b2)) -> (extra = [] \/ b2 = []) ->
  concat segs = b2 ++ rest ->
  exists segs', concat segs' = rest
    /\ receive_file_from_bytes refuses
         (pre ++ as_bytes (header_line (blen (b1 ++ b2)) p) ++ 10 :: b1 ++ extra)
         (Link segs fin files)
       = let '(r, s) := check_end (Link segs' fin (<[p := b1 ++ b2]> files)) in (Done r, s).
Proof.
  intros Hm Hp Hsize Hx Hseg. unfold receive_file_from_bytes. rewrite start_of_app; [|done|].
  - rewrite drop_app_length.
    destruct (receive_frame_spec p b1 b2 extra rest fin files segs) as (l & Hl & ->); eauto.
  - unfold header_line. rewrite as_bytes_app, !length_app, length_as_bytes. lia.
Qed.

Lemma send_reads_ok reads sent size out :
  Forall (fun b => b <> []) reads -> size = sent + blen (concat reads) ->
  send_reads (Ok <$> reads) sent size (write_all (fun _ => None)) out = (Ok tt, out ++ concat reads).
Proof.
  intros Hr. revert sent out. induction Hr as [|b l Hb Hl IH]; intros sent out Hs.
  - simpl. rewrite app_nil_r. by destruct (sent <? size).
  - cbn [concat] in Hs. rewrite blen_app in Hs. pose proof (blen_nonneg (concat l)).
    cbn [fmap list_fmap send_reads]. destruct b as [|x b]; [done|].
    assert (0 < blen (x :: b)) by (unfold blen; simpl; lia).
    rewrite (proj2 (Z.ltb_lt _ _)) by lia.
    unfold bind_ok, write_all at 1. fold (@fmap list _). rewrite IH by lia. by rewrite <- app_assoc.
Qed.

Section sent.
Context (metadata : string -> result string meta).
Context (open : string -> result string (list (result string (list Z)))).
Context (src dst : string) (reads : list (list Z)).
Context (Hm : metadata src = Ok (Meta true false (blen (concat reads)))).
Context (Ho : open src = Ok (Ok <$> reads)) (Hr : Forall (fun b => b <> []) reads).

Lemma send_file_ok out :
  send_file metadata open (fun _ => None) src dst out
  = (Ok tt, out ++ as_bytes (header_line (blen (concat reads)) (final_dst metadata src dst))
              ++ 10 :: concat reads ++ as_bytes FILE_END_MARKER).
Proof.
  unfold send_file, bind_ok. rewrite Hm, Ho. cbn [m_is_file negb mret io_ret m_len].
  unfold write_all at 1. rewrite (send_reads_ok reads 0) by (done || lia).
  unfold write_all, flush, write_all. rewrite app_nil_r. f_equal.
  rewrite as_bytes_app. cbn [as_bytes]. by rewrite <- !app_assoc.
Qed.
End sent.
End server.


(** a frame that arrives in one read with its end marker, as small files do,
    is stored but not accepted: the receiver has dropped the marker and takes
    the next ten bytes of the connection for it, which are lost to the next
    message; when the connection ends before, the transfer has failed. *)
Theorem small_file_eats_next refuses pre p content more segs fin files :
  (forall o m, refuses o m = None) ->
  path_ok p -> is_uint 64 (blen content) ->
  let raw := pre ++ as_bytes (header_line (blen content) p) ++ 10 :: content
               ++ as_bytes FILE_END_MARKER ++ more in
  find_sub (as_bytes FILE_START_MARKER) raw = Some (length pre) ->
  exists segs' r,
    receive_file_from_bytes refuses raw (Link segs fin files)
      = (Done r, Link segs' fin (<[p := content]> files))
    /\ if decide (10 <= length (concat segs))%nat
       then concat segs' = drop 10 (concat segs)
            /\ (r = Ok tt <-> take 10 (concat segs) = as_bytes FILE_END_MARKER)
       else is_ok r = false.
Proof.
  intros Hacc Hp Hsize raw Hf. subst raw.
  destruct (receive_bytes_spec refuses Hacc pre p content [] (as_bytes FILE_END_MARKER ++ more)
              (concat segs) fin files segs) as (l & Hl & E); rewrite ?app_nil_r; try done; [by right|].
  rewrite app_nil_r in E. rewrite E. unfold check_end, bind_ok. case_decide as Hlen.
  - destruct (read_exact_ok (take 10 (concat segs)) (drop 10 (concat segs))
                (Link l fin (<[p := content]> files))) as (l' & Er & Hl');
      [unfold pending; simpl; by rewrite Hl, take_drop|].
    rewrite length_take, Nat.min_l in Er by lia.
    change (String.length FILE_END_MARKER) with 10%nat. rewrite Er. cbn [l_end l_files].
    case_bool_decide as Hend; eexists l', _; (split; [done|split; [done|]]); by split.
  - destruct (read_rest_short 10 [] 10 (Link l fin (<[p := content]> files))) as (e & l' & Er);
      [unfold pending; simpl; rewrite Hl; lia|].
    change (String.length FILE_END_MARKER) with 10%nat. unfold read_exact. rewrite Er.
    by eexists l', _.
Qed.

(** ** What the client makes of a frame *)

Section client.
Context (refuses : file_op -> gmap string (list Z) -> option (string * nat)).
Context (accepts : forall o m, refuses o m = None).

Lemma read_whole n x l fin files :
  x <> [] -> (length x <= n)%nat ->
  read n (Link (x :: l) fin files) = (Ok x, Link ([] :: l) fin files).
Proof.
  intros Hx Hn. destruct x as [|y x]; [done|]. unfold read. simpl l_in. cbn [read_piece].
  rewrite take_ge, drop_ge by done. done.
Qed.

Lemma read_skip n l fin files : read n (Link ([] :: l) fin files) = read n (Link l fin files).
Proof. reflexivity. Qed.

Lemma copy_body_S fuel limit p received size s :
  copy_body refuses (S fuel) limit p received size s
  = (if received <? size then
       let? b := read (limit (size - received)) in
       match b with
       | [] => mret (Ok tt)
       | _ => let? _ := file_do refuses (Append p b) in
              copy_body refuses fuel limit p (received + blen b) size
       end
     else mret (Ok tt)) s.
Proof. reflexivity. Qed.

Lemma pieces_fuel (body : list (list Z)) x more :
  Forall (fun b => b <> []) (body ++ [x]) -> (length body < length (concat (body ++ x :: more)))%nat.
Proof.
  induction body as [|y body IH]; intros Hall; cbn [app concat length]; rewrite length_app;
    apply Forall_cons in Hall as [Hb Hall].
  - destruct x; [done|]. simpl. lia.
  - specialize (IH Hall). destruct y; [done|]. simpl length at 2. lia.
Qed.

(** Pieces that fit the buffer are stored whole, until there is enough. *)
Lemma copy_body_whole fuel p body x size received c fin files more pieces :
  (length body < fuel)%nat ->
  Forall (fun b => b <> [] /\ (length b <= BUFFER_SIZE)%nat) (body ++ [x]) ->
  received + blen (concat body) < size <= received + blen (concat (body ++ [x])) ->
  files !! p = Some c ->
  pieces = body ++ x :: more \/ pieces = [] :: body ++ x :: more ->
  copy_body refuses (S fuel) (fun _ => BUFFER_SIZE) p received size (Link pieces fin files)
  = (Ok tt, Link ([] :: more) fin (<[p := c ++ concat (body ++ [x])]> files)).
Proof.
  revert body received c files pieces. induction fuel as [|fuel IH];
    intros body received c files pieces Hf Hall Hsize Hc Hp; [lia|].
  rewrite copy_body_S. pose proof (blen_nonneg (concat body)).
  rewrite (proj2 (Z.ltb_lt _ _)) by lia. unfold bind_ok.
  assert (read BUFFER_SIZE (Link pieces fin files) = read BUFFER_SIZE (Link (body ++ x :: more) fin files))
    as -> by (destruct Hp as [-> | ->]; done).
  destruct body as [|y body].
  - apply Forall_cons in Hall as [[Hx Hn] _]. cbn [app]. rewrite read_whole by done.
    destruct x as [|z x]; [done|]. rewrite file_do_ok by done. cbn [l_in l_end l_files].
    rewrite (append_effect _ _ _ _ Hc). rewrite copy_body_S. cbn [concat app] in *.
    rewrite app_nil_r in *. rewrite (proj2 (Z.ltb_ge _ _)) by lia. done.
  - cbn [app] in *. apply Forall_cons in Hall as [[Hy Hn] Hall]. rewrite read_whole by done.
    destruct y as [|z y]; [done|]. rewrite file_do_ok by done. cbn [l_in l_end l_files].
    rewrite (append_effect _ _ _ _ Hc). cbn [concat] in Hsize. rewrite !blen_app in Hsize.
    rewrite (IH body _ (c ++ z :: y)).
    + by rewrite insert_insert_eq, <- app_assoc.
    + simpl in Hf. lia.
    + done.
    + lia.
    + by rewrite lookup_insert_eq.
    + by right.
Qed.
End client.

(** The client stores whole reads until it has at least the announced size:
    a file is exact only when some read ends where it ends, and then the marker
    is recognised; a read that goes further puts the start of what follows into
    the file. *)
Lemma client_stores_whole_reads refuses p size body x more pieces fin files :
  (forall o m, refuses o m = None) ->
  path_ok p -> is_uint 64 size ->
  Forall (fun b => b <> [] /\ (length b <= BUFFER_SIZE)%nat) (body ++ [x]) ->
  blen (concat body) < size <= blen (concat (body ++ [x])) ->
  pieces = body ++ x :: more \/ pieces = [] :: body ++ x :: more ->
  exists r segs',
    receive_file refuses (header_line size p) (Link pieces fin files)
      = (r, Link segs' fin (<[p := concat (body ++ [x])]> files))
    /\ forall rest, concat more = as_bytes FILE_END_MARKER ++ rest -> r = Ok tt /\ concat segs' = rest.
Proof.
  intros Hacc Hp Hu Hall Hsize Hpc. unfold receive_file.
  unfold bind_ok at 1. unfold header_line at 1. rewrite strip_prefix_app. cbn [ok_or mret io_ret].
  unfold bind_ok at 1. rewrite split_header. cbn [ok_or mret io_ret fst snd].
  unfold bind_ok at 1. rewrite parse_uint_dec by done. cbn [ok_or mret io_ret].
  unfold bind_ok at 1. rewrite file_do_ok by done. cbn [file_effect l_in l_end l_files].
  unfold bind_ok at 1. rewrite file_do_ok by done. cbn [file_effect l_in l_end l_files].
  unfold bind_ok at 1. unfold copy_rest. cbn [l_in].
  rewrite (copy_body_whole refuses Hacc _ p body x size 0 [] fin _ more); try done.
  - rewrite insert_insert_eq. cbn [app]. unfold bind_ok.
    set (files' := <[p := _]> files). destruct (read_exact _ _) as [r s] eqn:Er.
    assert (exists l, s = Link l fin files') as [l ->] by exact (read_exact_keeps _ _ _ _ _ _ Er).
    exists (b ← r; match from_utf8 b with None => Err "invalid end marker" | Some _ => Ok tt end), l.
    split; [by destruct r as [b|]; [simpl; destruct (from_utf8 b)|]|].
    intros rest Hmore.
    destruct (read_exact_ok (as_bytes FILE_END_MARKER) rest (Link ([] :: more) fin files')) as
      (l' & E & Hl'); [done|].
    rewrite length_as_bytes in E. rewrite E in Er. by simplify_eq.
  - destruct Hpc as [-> | ->]; cbn [concat app]; apply pieces_fuel;
      (eapply Forall_impl; [exact Hall|]; by intros ? [? _]).
  - by rewrite lookup_insert_eq.
Qed.

(** ** Instances *)

Module TransferDemo.

Definition accept (_ : file_op) (_ : gmap string (list Z)) : option (string * nat) := None.

Definition stat (p : string) : result string meta :=
  if bool_decide (p = "a.txt") then Ok (Meta true false 5) else Err "No such file or directory".
Definition contents (p : string) : result string (list (result string (list Z))) :=
  Ok [Ok (as_bytes "hel"); Ok (as_bytes "lo")].

Definition hello_header : list Z := as_bytes (header_line 5 "b.txt") ++ [10].


Lemma small_file_eats_next_witness :
  exists segs r,
    receive_file_from_bytes accept (hello_header ++ as_bytes "hello" ++ as_bytes FILE_END_MARKER)
      (Link [as_bytes "heartbeat"; [10]; as_bytes "next"] (Ok tt) ∅)
    = (Done r, Link segs (Ok tt) {["b.txt" := as_bytes "hello"]})
    /\ concat segs = as_bytes "next" /\ r <> Ok tt.
Proof.
  destruct (small_file_eats_next accept [] "b.txt" (as_bytes "hello") []
              [as_bytes "heartbeat"; [10]; as_bytes "next"] (Ok tt) ∅) as (segs & r & E & H);
    try (vm_compute; done).
  exists segs, r. split; [exact E|]. rewrite decide_True in H by (vm_compute; lia).
  destruct H as [H1 H2]. split; [exact H1|]. intros Hr. apply H2 in Hr. by vm_compute in Hr.
Defined.

(** The last read ends ten bytes after the file. *)
Example client_oversized_read :
  l_files (receive_file accept (header_line 5 "b.txt")
             (Link [as_bytes "hel"; as_bytes "lo" ++ as_bytes FILE_END_MARKER] (Ok tt) ∅)).2
  = {["b.txt" := as_bytes "hello" ++ as_bytes FILE_END_MARKER]}.
Proof. vm_compute. reflexivity. Qed.
End TransferDemo.
