(* ===== verification/CliClient.v ===== *)
(** * The console client

    The agent's side of the remote console: [agent_manager/src/common.rs], which
    reads where the server is from the file the agent's configuration is kept
    in, and [agent_cli_client.rs], whose session obeys the lines the server
    sends: commands for this host, and files. *)

From S2P Require Import Prelude RustStr Bytes Shell Host NetInfo Upgrade FileTransfer.
From Stdlib Require Import Ascii.

(** ** Where the server is *)

Record ClientConfigData := ClientConfig {
  cc_port : Z;
  cc_dev_uid : string;
  cc_server_ip : string
}.

(** One [KEY=VALUE] line of a section. *)
Definition ini_entry (section key value : string) (cfg : ClientConfigData)
    : result string ClientConfigData :=
  if bool_decide (section = "SERVERINFO") then
    if bool_decide (key = "CLI_SERVER_PORT") then
      match parse_uint 16 value with
      | Some port => Ok (ClientConfig port (cc_dev_uid cfg) (cc_server_ip cfg))
      | None => Err ("CLI_SERVER_PORT 无效: " +:+ value)
      end
    else if bool_decide (key = "SERVER_IP") then
      let ip := default value (strip_prefix "https://" value) in
      match parse_ipv4 ip with
      | Some _ => Ok (ClientConfig (cc_port cfg) (cc_dev_uid cfg) ip)
      | None => Err ("SERVER_IP 不是有效 IPv4: " +:+ value)
      end
    else if bool_decide (key = "DEV_UID") then
      Ok (ClientConfig (cc_port cfg) value (cc_server_ip cfg))
    else Ok cfg
  else if bool_decide (section = "HOSTINFO") && bool_decide (key = "DEV_UID") then
    Ok (ClientConfig (cc_port cfg) value (cc_server_ip cfg))
  else Ok cfg.

(** [line[1..line.len() - 1]] of a line in brackets. *)
Definition section_name (line : string) : option string :=
  rest ← strip_prefix "[" line;
  inner ← strip_prefix "]" (String.rev rest);
  Some (trim (String.rev inner)).

Fixpoint parse_ini_lines (ls : list string) (section : string) (cfg : ClientConfigData)
    : result string ClientConfigData :=
  match ls with
  | [] => Ok cfg
  | raw_line :: ls =>
    let line := trim raw_line in
    match section_name line with
    | Some s => parse_ini_lines ls s cfg
    | None =>
      match split_once "=" line with
      | Some (k, v) =>
        match ini_entry section (trim k) (trim v) cfg with
        | Ok cfg => parse_ini_lines ls section cfg
        | Err e => Err e
        end
      | None => parse_ini_lines ls section cfg
      end
    end
  end.

(** [parse_ini_file], from the text of the file. *)
Definition parse_ini_file (text : string) : result string ClientConfigData :=
  match parse_ini_lines (lines text) "" (ClientConfig 0 "" "") with
  | Err e => Err e
  | Ok cfg =>
    if str_is_empty (cc_dev_uid cfg) then Err "DEV_UID 未配置"
    else if str_is_empty (cc_server_ip cfg) then Err "SERVER_IP 未配置或无效"
    else Ok cfg
  end.

(** ** What the manager reads from the agent's configuration *)

Lemma upper_char_no_space a : upper_char a = true -> Ascii.is_space a = false.
Proof. by destruct a as [[] [] [] [] [] [] [] []]. Qed.

Lemma upper_name_no_space k : upper_name k = true -> no_space k.
Proof.
  unfold upper_name. intros [_ Hs]%andb_true_iff a. induction k as [|b k IH]; [done|]. simpl in *.
  apply andb_true_iff in Hs as [Hb Hk]. intros [E|E]%orb_true_iff; [|by apply IH].
  apply bool_decide_eq_true_1 in E as ->. by apply upper_char_no_space.
Qed.

Lemma trim_end_clean v : trim v = v -> trim_end v = v.
Proof.
  intros Hv. rewrite <- Hv at 1. unfold trim, trim_end.
  rewrite rev_involutive, trim_start_idem. exact Hv.
Qed.

(** A line of the file is its own trimmed form. *)
Lemma trim_entry k v :
  upper_name k = true -> trim v = v -> trim (k +:+ String "=" v) = k +:+ String "=" v.
Proof.
  intros Hk Hv. pose proof (upper_name_no_space k Hk) as Hs.
  assert (forall t, no_space t -> trim_end (t +:+ String "=" v) = t +:+ String "=" v) as He.
  { intros t Ht. induction t as [|a t IH].
    - rewrite str_app_nil_l, trim_end_cons by done. by rewrite trim_end_clean.
    - rewrite str_app_cons, trim_end_cons, IH; [done| |].
      + intros b Hb. apply Ht. simpl. by rewrite Hb, orb_true_r.
      + apply Ht. simpl. by rewrite bool_decide_true. }
  unfold trim. assert (trim_start (k +:+ String "=" v) = k +:+ String "=" v) as ->; [|by apply He].
  destruct k as [|a k]; [done|]. rewrite str_app_cons. simpl.
  rewrite (Hs a); [done|]. simpl. by rewrite bool_decide_true.
Qed.

Lemma entry_no_section k v : upper_name k = true -> section_name (k +:+ String "=" v) = None.
Proof.
  intros Hk. unfold section_name. by rewrite (name_no_bracket _ _ Hk).
Qed.

Fixpoint ini_entries (section : string) (kvs : list (string * string)) (cfg : ClientConfigData)
    : result string ClientConfigData :=
  match kvs with
  | [] => Ok cfg
  | (k, v) :: kvs => cfg ← ini_entry section k v cfg; ini_entries section kvs cfg
  end.

Lemma parse_entries section kvs rest cfg :
  Forall (fun '(k, v) => upper_name k = true /\ clean_value v) kvs ->
  parse_ini_lines (((fun '(k, v) => k +:+ "=" +:+ v) <$> kvs) ++ rest) section cfg
  = (cfg ← ini_entries section kvs cfg; parse_ini_lines rest section cfg).
Proof.
  intros Hall. revert cfg. induction Hall as [|[k v] kvs [Hk Hv] Hall IH]; intros cfg; [done|].
  rewrite fmap_cons. cbn [app parse_ini_lines ini_entries].
  change (k +:+ "=" +:+ v) with (k +:+ String "=" v). destruct Hv as [Hv _].
  rewrite trim_entry, entry_no_section by done.
  rewrite split_once_app by by apply (upper_name_mem _ _ Hk).
  rewrite (trim_id k) by by apply upper_name_no_space. rewrite Hv.
  destruct (ini_entry section k v cfg) as [cfg'|e]; [apply IH|done].
Qed.

Lemma parse_section name kvs rest section cfg :
  section_name (trim ("[" +:+ name +:+ "]")) = Some name ->
  Forall (fun '(k, v) => upper_name k = true /\ clean_value v) kvs ->
  parse_ini_lines (("[" +:+ name +:+ "]") :: ((fun '(k, v) => k +:+ "=" +:+ v) <$> kvs) ++ rest)
    section cfg
  = (cfg ← ini_entries name kvs cfg; parse_ini_lines rest name cfg).
Proof. intros Hn Hk. cbn [parse_ini_lines]. rewrite Hn. by apply parse_entries. Qed.

Definition special (k : string) : bool :=
  bool_decide (k = "CLI_SERVER_PORT") || bool_decide (k = "SERVER_IP") || bool_decide (k = "DEV_UID").

Lemma ini_entries_skip section k v kvs cfg :
  special k = false -> ini_entries section ((k, v) :: kvs) cfg = ini_entries section kvs cfg.
Proof.
  unfold special. rewrite !orb_false_iff. intros [[H1 H2] H3]. cbn [ini_entries].
  unfold ini_entry. rewrite H1, H2, H3. by repeat case_bool_decide.
Qed.

Ltac skip_entries := repeat (rewrite ini_entries_skip by reflexivity).

Lemma parse_uint_narrow w w' s n :
  parse_uint w s = Some n -> parse_uint w' s = if n <? 2 ^ w' then Some n else None.
Proof.
  unfold parse_uint. case_match; [done|]. destruct (digits_val 0 _) as [m|]; [|done]. simpl.
  destruct (m <? 2 ^ w); [|done]. by intros [= ->].
Qed.

Lemma port_entry n kvs cfg :
  is_uint 32 n ->
  ini_entries "SERVERINFO" (("CLI_SERVER_PORT", dec n) :: kvs) cfg
  = if 2 ^ 16 <=? n then Err ("CLI_SERVER_PORT 无效: " +:+ dec n)
    else ini_entries "SERVERINFO" kvs (ClientConfig n (cc_dev_uid cfg) (cc_server_ip cfg)).
Proof.
  intros Hn. cbn [ini_entries]. unfold ini_entry. rewrite !bool_decide_true by done.
  rewrite (parse_uint_narrow 32 16 _ n) by by apply parse_uint_dec.
  destruct (Z.leb_spec (2 ^ 16) n).
  - by rewrite (proj2 (Z.ltb_ge _ _)).
  - by rewrite (proj2 (Z.ltb_lt _ _)).
Qed.

Lemma server_entry v kvs cfg :
  ini_entries "SERVERINFO" (("SERVER_IP", v) :: kvs) cfg
  = match parse_ipv4 (default v (strip_prefix "https://" v)) with
    | Some _ => ini_entries "SERVERINFO" kvs (ClientConfig (cc_port cfg) (cc_dev_uid cfg)
                                                (default v (strip_prefix "https://" v)))
    | None => Err ("SERVER_IP 不是有效 IPv4: " +:+ v)
    end.
Proof.
  cbn [ini_entries]. unfold ini_entry. rewrite bool_decide_true, bool_decide_false, bool_decide_true
    by done. by destruct (parse_ipv4 _).
Qed.

Lemma uid_entry v kvs cfg :
  ini_entries "HOSTINFO" (("DEV_UID", v) :: kvs) cfg
  = ini_entries "HOSTINFO" kvs (ClientConfig (cc_port cfg) v (cc_server_ip cfg)).
Proof. reflexivity. Qed.

(** C34: what the console client learns from the file the agent writes for a
    configuration whose numbers fit 32 bits and whose texts have no line break,
    no [;] or [#] and no blanks around them ([config_clean]): the port and the
    identity of the configuration, and the server's address without its scheme.
    A port beyond 16 bits, a server that is not an IPv4 address, or an empty
    identity, in this order, makes the whole file unusable, so that the client
    never connects. *)
Theorem manager_reads_settings c :
  config_typed c -> config_clean c ->
  let ip := default (server_ip c) (strip_prefix "https://" (server_ip c)) in
  parse_ini_file (ini_text c) =
    if 2 ^ 16 <=? cli_port c then Err ("CLI_SERVER_PORT 无效: " +:+ dec (cli_port c))
    else match parse_ipv4 ip with
         | None => Err ("SERVER_IP 不是有效 IPv4: " +:+ server_ip c)
         | Some _ => if str_is_empty (dev_uid c) then Err "DEV_UID 未配置"
                     else Ok (ClientConfig (cli_port c) (dev_uid c) ip)
         end.
Proof.
  intros [Ht _] Hc ip. pose proof (ini_sections_ok c Hc) as Hok.
  unfold parse_ini_file, ini_text. rewrite lines_unlines by by apply ini_lines_single.
  destruct Hok as [_ Hall]. unfold ini_lines, ini_sections in *.
  apply Forall_cons in Hall as [(_ & _ & H1) Hall]. apply Forall_cons in Hall as [(_ & _ & H2) Hall].
  apply Forall_cons in Hall as [(_ & _ & H3) _]. cbn [mbind list_bind app].
  rewrite parse_section; [|reflexivity|exact H1]. skip_entries. cbn [ini_entries mbind result_bind].
  rewrite parse_section; [|reflexivity|exact H2]. skip_entries.
  rewrite port_entry by (rewrite !Forall_cons in Ht; tauto).
  destruct (Z.leb_spec (2 ^ 16) (cli_port c)) as [|Hp]; [done|]. skip_entries.
  rewrite server_entry. fold ip. destruct (parse_ipv4 ip) as [a|] eqn:Hip; [|done]. skip_entries.
  cbn [ini_entries mbind result_bind].
  rewrite parse_section; [|reflexivity|exact H3]. rewrite uid_entry. skip_entries.
  cbn [ini_entries mbind result_bind parse_ini_lines cc_dev_uid cc_server_ip cc_port].
  destruct (str_is_empty (dev_uid c)); [done|]. unfold str_is_empty. rewrite bool_decide_false; [done|].
  intros E. by rewrite E in Hip.
Qed.

(** ** The session *)

(** What a shell command leaves behind, within its ten seconds. *)
Inductive sh_end :=
| NotSpawned (e : string)
| Ran (out err : list Z)
| TimedOut.

Class Console (W : Type) := {
  (** [/bin/sh -c cmd] with both outputs read to their ends. *)
  sh_run : string -> W -> sh_end * W;
  (** [uname().release]. *)
  kernel_release : W -> result string string;
  file_meta : string -> W -> result string meta;
  file_reads : string -> W -> result string (list (result string (list Z)))
}.

(** The connection and what is stored from it; what was sent; the host. *)
Record session (W : Type) := Session { s_link : link; s_out : list Z; s_host : host W }.
Arguments Session {W} _ _ _.
Arguments s_link {W} _.
Arguments s_out {W} _.
Arguments s_host {W} _.

Section session.
Context {W : Type} `{Os W} `{Files W} `{Disk W} `{AgentSocket W} `{Console W}.
Context (broken : list Z -> option string).
Context (refuses : file_op -> gmap string (list Z) -> option (string * nat)).
Context (year month day : Z).
Context (cfg : ClientConfigData).

Abbreviation sess := (session W).

Definition on_link {A} (m : io link A) : io sess A := fun s =>
  let '(a, l) := m (s_link s) in (a, Session l (s_out s) (s_host s)).
Definition on_out {A} (m : io (list Z) A) : io sess A := fun s =>
  let '(a, o) := m (s_out s) in (a, Session (s_link s) o (s_host s)).
Definition on_machine {A} (m : io (host W) A) : io sess A := fun s =>
  let '(a, h) := m (s_host s) in (a, Session (s_link s) (s_out s) h).

Definition say (b : list Z) : io sess (result string unit) := on_out (write_all broken b).
Definition say_line (t : string) : io sess (result string unit) :=
  say (as_bytes (t +:+ String line_feed "")).

Definition send (src dst : string) : io sess (result string unit) := fun s =>
  let w := world (h_shell (s_host s)) in
  on_out (send_file (fun p => file_meta p w) (fun p => file_reads p w) broken src dst) s.

Definition zip_excludes : list string :=
  ["*.ko"; "*.ko.*"; "*/vmlinuz"; "*/System.map"; "*/.vmlinuz.hmac"; "*/symvers.gz"; "*/vdso/*";
   "*/dtb/*"; "*/updates/*"; "*/weak-updates/*"; "*/source/*"; "*/extra/*"].

(** The archive is made in [/lib/modules]. *)
Definition get_kernel_src : io sess (result string unit) :=
  let? kver := on_machine (with_err (fun e => "uname failed: " +:+ e) (look kernel_release)) in
  let modules_dir := "/lib/modules/" +:+ kver in
  there ← on_machine (look (path_exists modules_dir));
  if negb (there : bool) then
    mret (Err ("kernel modules directory not found: " +:+ debug_str modules_dir))
  else
    let zip_name := kver +:+ ".zip" in
    let zip_path := "/lib/modules/" +:+ zip_name in
    old ← on_machine (look (path_exists zip_path));
    let? _ := (if (old : bool) then
                 with_err (fun e => "remove old zip failed: " +:+ e)
                   (on_machine (do_disk (RemoveFile zip_path)))
               else mret (Ok tt)) in
    let? o := with_err (fun e => "failed to exec zip: " +:+ e)
                (on_machine (on_shell (exec (Cmd "zip" (["-r"; zip_name; kver]
                   ++ (zip_excludes ≫= fun x => ["-x"; x])))))) in
    if negb (success o) then mret (Err ("zip command failed with status: " +:+ status_text o))
    else
      let? _ := send zip_path zip_name in
      _ ← ignore (on_machine (do_disk (RemoveFile zip_path)));
      mret (Ok tt).

Definition run_shell (shell_cmd : string) : io sess (result string unit) :=
  r ← on_machine (on_world (sh_run shell_cmd));
  match r with
  | NotSpawned e => mret (Err ("Failed to spawn process: " +:+ e))
  | Ran out err =>
    let? _ := (match out with [] => mret (Ok tt) | _ => say out end) in
    let? _ := (match err with [] => mret (Ok tt) | _ => say err end) in
    say [10]
  | TimedOut => say_line "[WARN] Command timed out and was killed"
  end.

Definition rkill : io sess (result string unit) :=
  _ ← ignore (on_machine (write_proc_self year month day));
  _ ← on_machine (run_quietly "pkill" ["-9"; "MagicArmor_0"]);
  mret (Ok tt).

(** The action of a command and what follows it. *)
Definition act (action : string) (rest : list string) : io sess (result string unit) :=
  if bool_decide (action = "exit") then mret (Err "exit")
  else if bool_decide (action = "rkill") then rkill
  else if bool_decide (action = "get_file") then
    match rest with
    | src :: dst :: _ => send src dst
    | _ => say_line "get_file requires src and dst"
    end
  else if bool_decide (action = "get_kernel_src") then get_kernel_src
  else run_shell (join " " (action :: rest)).

Definition process_command (cmd : string) : io sess (result string unit) :=
  match strip_prefix "uid:" cmd with
  | None => mret (Ok tt)
  | Some after_uid =>
    match split_whitespace after_uid with
    | [] => say_line "Command error: missing UID"
    | uid :: parts =>
      if negb (bool_decide (uid = cc_dev_uid cfg)) then mret (Ok tt)
      else match parts with
           | [] => say_line "Command error: missing action"
           | action :: rest => act action rest
           end
    end
  end.

(** One trimmed line of what was read; [Err] ends the session. *)
Definition session_line (trimmed : string) : io sess (result string unit) :=
  if str_is_empty trimmed then mret (Ok tt)
  else if starts_with "uid:" trimmed then
    r ← process_command trimmed;
    match r with
    | Err e => if bool_decide (e = "exit") then mret (Err "exit") else mret (Ok tt)
    | Ok _ => mret (Ok tt)
    end
  else if starts_with FILE_START_MARKER trimmed then
    _ ← on_link (receive_file refuses trimmed);
    mret (Ok tt)
  else mret (Ok tt).

Fixpoint session_lines (ls : list string) : io sess (result string unit) :=
  match ls with
  | [] => mret (Ok tt)
  | l :: ls => let? _ := session_line (trim l) in session_lines ls
  end.

Definition session_data (buf : list Z) : io sess (result string unit) :=
  session_lines (lines (from_utf8_lossy buf)).

(** What ends the wait of one round: ten quiet seconds, or the connection. *)
Inductive wake := Quiet | Readable.

(** [handle_session] for the given rounds; [None] while it goes on. *)
Fixpoint handle_session (ws : list wake) : io sess (option (result string unit)) :=
  match ws with
  | [] => mret None
  | Quiet :: ws =>
    r ← say_line "heartbeat";
    match r with
    | Err _ => mret (Some (Ok tt))
    | Ok _ => handle_session ws
    end
  | Readable :: ws =>
    r ← on_link (read BUFFER_SIZE);
    match r with
    | Err _ | Ok [] => mret (Some (Ok tt))
    | Ok buf =>
      r ← session_data buf;
      match r with
      | Err e => mret (Some (Err e))
      | Ok _ => handle_session ws
      end
    end
  end.

(** ** Connecting *)

Definition GREETING : string := "I am agent client, my uid is ".

(** [BufReader::new(&mut stream).read_line]: the buffer takes what has arrived,
    up to 8192 bytes, and what follows the line is dropped with it. *)
Definition LINE_BUFFER : nat := Z.to_nat 8192.
Fixpoint read_line (fuel : nat) (acc : list Z) : io link (result string (list Z)) :=
  match fuel with
  | O => mret (Ok acc)
  | S fuel =>
    let? b := read LINE_BUFFER in
    match b with
    | [] => mret (Ok acc)
    | _ => match find_sub [10] b with
           | Some i => mret (Ok (acc ++ take (S i) b))
           | None => read_line fuel (acc ++ b)
           end
    end
  end.

(** [connect_and_auth] once the TLS connection stands. *)
Definition connect_and_auth : io sess (result string unit) :=
  let? _ := say_line (GREETING +:+ cc_dev_uid cfg) in
  let? _ := on_out (flush broken) in
  let? line := on_link (fun l => read_line (S (length (pending l))) [] l) in
  match from_utf8 line with
  | None => mret (Err "stream did not contain valid UTF-8")
  | Some line =>
    if bool_decide (line = "hello, " +:+ cc_dev_uid cfg +:+ String line_feed "") then mret (Ok tt)
    else mret (Err ("Authentication failed: received " +:+ debug_str line))
  end.
End session.

(** [start_client]: every five seconds the file is read again; a changed
    configuration starts a session, and no session is ever stopped.  [None] is
    a file that could not be read. *)
Definition ClientConfigData_changed (old : option ClientConfigData) (c : ClientConfigData) : bool :=
  match old with
  | None => true
  | Some o => negb (cc_port c =? cc_port o) || negb (bool_decide (cc_dev_uid c = cc_dev_uid o))
              || negb (bool_decide (cc_server_ip c = cc_server_ip o))
  end.

Definition watch_config (st : option ClientConfigData * list ClientConfigData)
    (r : result string ClientConfigData) : option ClientConfigData * list ClientConfigData :=
  match r with
  | Err _ => st
  | Ok c => (Some c, if ClientConfigData_changed st.1 c && negb (cc_port c =? 0)
                     then st.2 ++ [c] else st.2)
  end.
Definition start_client (rs : list (result string ClientConfigData))
    : option ClientConfigData * list ClientConfigData := foldl watch_config (None, []) rs.

(** Moving to another server and back leaves three sessions running. *)
Example sessions_accumulate :
  let a := ClientConfig 7000 "u" "10.0.0.1" in let b := ClientConfig 7000 "u" "10.0.0.2" in
  (start_client [Ok a; Ok a; Ok b; Err "INI error"; Ok b; Ok a]).2 = [a; b; a].
Proof. reflexivity. Qed.

(** ** Text in one read *)

Lemma lines_one t :
  t <> "" -> str_mem line_feed t = false -> str_mem carriage_return t = false -> lines t = [t].
Proof.
  intros Ht Hl Hc. unfold lines. rewrite split_char_none by done. cbn [last].
  destruct t as [|a t]; [done|]. change ([drop_last_cr (String a t)] = [String a t]).
  by rewrite drop_last_cr_id.
Qed.

(** A read without a line break is one line. *)
Lemma read_is_one_line t :
  path_ok t -> t <> "" -> lines (from_utf8_lossy (as_bytes t)) = [t].
Proof.
  intros (Hl & Hc & Hv) Ht. unfold from_utf8_lossy.
  rewrite utf8_lossy_valid, string_of_as_bytes by done. by apply lines_one.
Qed.

(** Text between two words without spaces is trimmed already. *)
Lemma trim_words x t y :
  no_space x -> x <> "" -> no_space y -> y <> "" -> trim (x +:+ t +:+ y) = x +:+ t +:+ y.
Proof.
  intros Hx Hxe Hy Hye. unfold trim.
  assert (trim_start (x +:+ t +:+ y) = x +:+ t +:+ y) as ->.
  { destruct x as [|a x]; [done|]. apply no_space_cons in Hx as [Ha _].
    rewrite str_app_cons. simpl. by rewrite Ha. }
  unfold trim_end. rewrite <- (str_app_assoc x t y), rev_app.
  assert (trim_start (String.rev y +:+ String.rev (x +:+ t))
          = String.rev y +:+ String.rev (x +:+ t)) as ->; [|by rewrite <- rev_app, rev_involutive].
  assert (no_space (String.rev y)) as Hr by (intros a; rewrite str_mem_rev; apply Hy).
  destruct (String.rev y) as [|a r] eqn:E.
  - apply (f_equal String.rev) in E. by rewrite rev_involutive in E.
  - apply no_space_cons in Hr as [Ha _]. rewrite str_app_cons. simpl. by rewrite Ha.
Qed.

Lemma utf8_valid_app l l' : utf8_valid l = true -> utf8_valid (l ++ l') = utf8_valid l'.
Proof.
  remember (length l) as n eqn:Hn. assert (length l <= n)%nat as Hle by lia. clear Hn.
  revert l Hle. induction n as [|n IH]; intros l Hle.
  { by destruct l; [|simpl in Hle; lia]. }
  destruct l as [|b l]; [done|]. simpl in Hle |- *. destruct (b <? 128); [apply IH; lia|].
  destruct l as [|c l]; [done|]. cbn [app]. destruct ((194 <=? b) && (b <? 224)).
  { intros [-> Hv]%andb_true_iff. apply IH; [simpl in Hle; lia|done]. }
  destruct l as [|d l]; [done|]. cbn [app]. destruct (b <? 240).
  - intros [[-> ->]%andb_true_iff Hv]%andb_true_iff. apply IH; [simpl in Hle; lia|done].
  - destruct l as [|e l]; [done|]. cbn [app].
    intros [[[-> ->]%andb_true_iff ->]%andb_true_iff Hv]%andb_true_iff.
    apply IH; [simpl in Hle; lia|done].
Qed.

Lemma utf8_space l : utf8_valid (ascii_code " " :: l) = utf8_valid l.
Proof. reflexivity. Qed.

(** A console line of three words: a prefix, and words apart by a space. *)
Lemma three_words_ok x y z :
  Forall (fun w => no_space w /\ utf8_valid (as_bytes w) = true) [x; y; z] ->
  path_ok (x +:+ String " " (y +:+ String " " z)).
Proof.
  rewrite !Forall_cons. intros ((Hx & Hxv) & (Hy & Hyv) & (Hz & Hzv) & _).
  assert (forall c, Ascii.is_space c = true -> c <> " "%char ->
            str_mem c (x +:+ String " " (y +:+ String " " z)) = false) as Hc.
  { intros c Hc Hsp. rewrite str_mem_app. cbn [str_mem]. rewrite str_mem_app. cbn [str_mem].
    rewrite !(no_space_mem c) by done. by rewrite !bool_decide_false by congruence. }
  split_and!; [by apply Hc..|]. rewrite as_bytes_app, utf8_valid_app by done. cbn [as_bytes].
  rewrite utf8_space, as_bytes_app, utf8_valid_app by done. cbn [as_bytes]. by rewrite utf8_space.
Qed.

(** ** What a session does with it *)

Section obey.
Context {W : Type} `{Os W} `{Files W} `{Disk W} `{AgentSocket W} `{Console W}.
Context (broken : list Z -> option string).
Context (refuses : file_op -> gmap string (list Z) -> option (string * nat)).
Context (year month day : Z) (cfg : ClientConfigData).

Abbreviation data := (session_data (W:=W) broken refuses year month day cfg).

(** Lines that are not for this host: another identity, or neither a command
    nor a file. *)
Definition foreign (l : string) : bool :=
  match strip_prefix "uid:" (trim l) with
  | Some rest => match split_whitespace rest with
                 | uid :: _ => negb (bool_decide (uid = cc_dev_uid cfg))
                 | [] => false
                 end
  | None => negb (starts_with FILE_START_MARKER (trim l))
  end.

(** a session does nothing for lines that are meant for another host, or
    are no commands: it runs nothing, stores nothing and answers nothing. *)
Theorem foreign_lines_ignored buf (s : session W) :
  Forall (fun l => foreign l = true) (lines (from_utf8_lossy buf)) -> data buf s = (Ok tt, s).
Proof.
  unfold session_data. intros Hall. induction Hall as [|l ls Hl Hall IH]; [done|]. cbn [session_lines].
  unfold bind_ok. assert (session_line broken refuses year month day cfg (trim l) s = (Ok tt, s)) as ->;
    [|exact IH].
  unfold foreign in Hl. unfold session_line, process_command, starts_with in *.
  destruct (str_is_empty (trim l)); [done|]. destruct (strip_prefix "uid:" (trim l)) as [rest|].
  - rewrite bool_decide_true by by eexists. destruct (split_whitespace rest) as [|uid p]; [done|].
    by rewrite Hl.
  - rewrite bool_decide_false by by intros [??]. by destruct (bool_decide _).
Qed.

(** What the server's console writes for a command. *)
Definition command_text (uid cmd : string) : string := "uid:" +:+ uid +:+ " " +:+ cmd.

(** two commands that arrive in one read are run as one: the server ends a
    command with nothing, so that the prefix of the second becomes part of the
    first one's word, and the shell is given both. *)
Theorem commands_run_together a b (s : session W) :
  let uid := cc_dev_uid cfg in
  Forall (fun x => x <> "" /\ no_space x /\ utf8_valid (as_bytes x) = true) [uid; a; b] ->
  data (as_bytes (command_text uid a +:+ command_text uid b)) s
  = (r ← run_shell broken ((a +:+ "uid:" +:+ uid) +:+ " " +:+ b);
     mret (match r with
           | Err e => if bool_decide (e = "exit") then Err "exit" else Ok tt
           | Ok _ => Ok tt
           end)) s.
Proof.
  intros uid Hall. rewrite !Forall_cons in Hall.
  destruct Hall as ((Hu & Hus & Huv) & (Ha & Has & Hav) & (Hb & Hbs & Hbv) & _).
  set (word := a +:+ "uid:" +:+ uid).
  assert (command_text uid a +:+ command_text uid b
          = "uid:" +:+ uid +:+ String " " (word +:+ String " " b)) as ->.
  { unfold command_text, word. rewrite !str_app_assoc. done. }
  assert (no_space "uid:") as Hp.
  { intros c. simpl. rewrite !orb_true_iff, !bool_decide_eq_true. by intuition subst. }
  assert (no_space word) as Hw by (by repeat apply no_space_app).
  assert (word <> "") as Hwe by (unfold word; by destruct a).
  unfold session_data. rewrite read_is_one_line; [|rewrite <- str_app_assoc|done].
  2: { apply three_words_ok. repeat apply Forall_cons_2; [| | |constructor]; split; try done.
       - by apply no_space_app.
       - unfold word. by rewrite !as_bytes_app, !utf8_valid_app. }
  cbn [session_lines]. unfold bind_ok.
  assert (trim ("uid:" +:+ uid +:+ String " " (word +:+ String " " b))
          = "uid:" +:+ uid +:+ String " " (word +:+ String " " b)) as ->.
  { assert ("uid:" +:+ uid +:+ String " " (word +:+ String " " b)
            = "uid:" +:+ (uid +:+ " " +:+ word +:+ " ") +:+ b) as ->
      by (rewrite !str_app_assoc; reflexivity).
    by apply trim_words. }
  unfold session_line, process_command, starts_with. rewrite strip_prefix_app.
  rewrite bool_decide_true by by eexists.
  rewrite words_word, words_word, words_one by done. rewrite bool_decide_true by done. cbn [negb].
  assert (act broken year month day word [b] = run_shell (W:=W) broken (word +:+ " " +:+ b)) as ->.
  { assert (forall t, str_mem ":" t = false -> bool_decide (word = t) = false) as Hn.
    { intros t Ht. apply bool_decide_eq_false_2. intros E. rewrite <- E in Ht. unfold word in Ht.
      rewrite !str_mem_app in Ht. cbn in Ht. by rewrite orb_true_r in Ht. }
    unfold act. by rewrite !Hn by done. }
  cbn [str_is_empty]. unfold mbind, io_bind. simpl.
  destruct (run_shell _ _ _) as [[[]|e] s']; [done|]. by case_bool_decide.
Qed.

Lemma header_no_space size p : no_space p -> no_space (header_line size p).
Proof.
  intros Hp. unfold header_line.
  apply no_space_app; [|apply no_space_app; [apply no_space_dec|apply no_space_app; [|done]]].
  - intros c. unfold FILE_START_MARKER. simpl. rewrite !orb_true_iff, !bool_decide_eq_true.
    by intuition subst.
  - intros c. simpl. rewrite orb_false_r, bool_decide_eq_true. by intros <-.
Qed.

Lemma header_path_ok size p : path_ok p -> path_ok (header_line size p).
Proof.
  intros Hp. split_and!.
  - by apply header_one_line.
  - destruct Hp as (_ & Hp & _). unfold header_line. by rewrite !str_mem_app, dec_mem, Hp.
  - pose proof (header_utf8 size p Hp) as Hh. unfold from_utf8 in Hh. by case_match.
Qed.

(** A read that starts a frame and has no line break is a file's header. *)
Lemma header_starts_file size p (s : session W) :
  path_ok p -> no_space p ->
  data (as_bytes (header_line size p)) s
  = let '(_, l) := receive_file refuses (header_line size p) (s_link s) in
    (Ok tt, Session l (s_out s) (s_host s)).
Proof.
  intros Hp Hs. unfold session_data.
  rewrite read_is_one_line by (try apply header_path_ok; done). cbn [session_lines]. unfold bind_ok.
  rewrite trim_id by by apply header_no_space. unfold session_line, starts_with.
  assert (strip_prefix "uid:" (header_line size p) = None) as -> by done.
  assert (is_Some (strip_prefix FILE_START_MARKER (header_line size p))) as Hm
    by (eexists; apply strip_prefix_app).
  rewrite bool_decide_false by by intros [??]. rewrite bool_decide_true by done.
  unfold mbind, io_bind, on_link. simpl. by destruct (receive_file _ _ _).
Qed.

Section from_server.
Context (metadata : string -> result string meta).
Context (open : string -> result string (list (result string (list Z)))).

Lemma write_or_ok msg b out : write_or (fun _ => None) msg b out = (Ok tt, out ++ b).
Proof. reflexivity. Qed.

Lemma send_reads_or msg reads sent size out :
  Forall (fun b => b <> []) reads -> size = sent + blen (concat reads) ->
  send_reads (Ok <$> reads) sent size (write_or (fun _ => None) msg) out
  = (Ok tt, out ++ concat reads).
Proof.
  intros Hr Hs. rewrite <- (send_reads_ok reads sent size out Hr Hs). clear.
  revert sent out. induction reads as [|b reads IH]; intros sent out; [done|].
  cbn [fmap list_fmap send_reads]. destruct (sent <? size); [|done]. destruct b as [|x b]; [done|].
  unfold bind_ok. rewrite write_or_ok. unfold write_all at 2. apply IH.
Qed.

Lemma send_to_client_ok src dst reads out :
  metadata src = Ok (Meta true false (blen (concat reads))) -> open src = Ok (Ok <$> reads) ->
  Forall (fun b => b <> []) reads ->
  send_file_to_client_with_writer metadata open (fun _ => None) src dst out
  = (Ok tt, out ++ as_bytes (header_line (blen (concat reads)) (final_dst metadata src dst))
              ++ concat reads ++ as_bytes FILE_END_MARKER).
Proof.
  intros Hm Ho Hr. unfold send_file_to_client_with_writer, bind_ok. rewrite Hm, Ho.
  cbn [m_is_file negb mret io_ret m_len]. rewrite write_or_ok.
  rewrite (send_reads_or _ reads 0) by (done || lia). rewrite write_or_ok. by rewrite <- !app_assoc.
Qed.
End from_server.
End obey.

(** a file the server sends reaches the client as the reads fall: with the
    text [t] that comes in the same read behind the header, which ends with
    nothing, as part of its name, and with whole reads as its content.  It is
    the file that was sent exactly when the header is read alone and some read
    ends where the content does; then what follows the frame stays unread. *)
Theorem server_file_as_read {W} `{Os W, Files W, Disk W, AgentSocket W, Console W}
    broken refuses year month day cfg metadata open src dst reads t body x more fin files out
    (h : host W) :
  (forall o m, refuses o m = None) ->
  metadata src = Ok (Meta true false (blen (concat reads))) -> open src = Ok (Ok <$> reads) ->
  Forall (fun b => b <> []) reads -> is_uint 64 (blen (concat reads)) ->
  let p := final_dst metadata src dst in
  let header := header_line (blen (concat reads)) p in
  path_ok (p +:+ t) -> no_space (p +:+ t) -> (String.length (header +:+ t) <= BUFFER_SIZE)%nat ->
  Forall (fun b => b <> [] /\ (length b <= BUFFER_SIZE)%nat) (body ++ [x]) ->
  blen (concat body) < blen (concat reads) <= blen (concat (body ++ [x])) ->
  send_file_to_client_with_writer metadata open (fun _ => None) src dst []
    = (Ok tt, as_bytes header ++ concat reads ++ as_bytes FILE_END_MARKER)
  /\ exists segs,
       handle_session broken refuses year month day cfg [Readable]
         (Session (Link (as_bytes (header +:+ t) :: body ++ x :: more) fin files) out h)
       = (None, Session (Link segs fin (<[p +:+ t := concat (body ++ [x])]> files)) out h)
       /\ forall rest, concat more = as_bytes FILE_END_MARKER ++ rest -> concat segs = rest.
Proof.
  intros Hacc Hm Ho Hr Hu p header Hp Hs Hlen Hall Hsize. split.
  { by rewrite send_to_client_ok with (reads := reads). }
  assert (header +:+ t = header_line (blen (concat reads)) (p +:+ t)) as Eh
    by (unfold header, header_line; by rewrite !str_app_assoc).
  rewrite Eh in *.
  destruct (client_stores_whole_reads refuses (p +:+ t) (blen (concat reads)) body x
              more ([] :: body ++ x :: more) fin files) as (r & segs & E & Hrest);
    try done; [by right|].
  exists segs. split; [|by intros rest Hm'; apply Hrest].
  cbn [handle_session]. unfold mbind, io_bind, on_link at 1. cbn [s_link].
  assert (as_bytes (header_line (blen (concat reads)) (p +:+ t)) <> []) as Hne by done.
  rewrite read_whole; [|done|by rewrite length_as_bytes].
  destruct (as_bytes (header_line _ _)) as [|b0 bs] eqn:Eb; [done|]. rewrite <- Eb.
  rewrite header_starts_file by done. cbn [s_link s_out s_host]. by rewrite E.
Qed.

(** the client accepts exactly the greeting with its own identity; whatever
    has arrived behind it in the same read, the first commands, is dropped with
    the line buffer. *)
Theorem greeting_drops_rest {W} `{Os W, Files W, Disk W, AgentSocket W, Console W}
    (cfg : ClientConfigData) uid extra segs fin files out (h : host W) :
  path_ok uid -> path_ok (cc_dev_uid cfg) ->
  let hello := as_bytes ("hello, " +:+ uid) ++ [10] in
  (length (hello ++ extra) <= LINE_BUFFER)%nat ->
  exists r, connect_and_auth (fun _ => None) cfg
              (Session (Link ((hello ++ extra) :: segs) fin files) out h)
            = (r, Session (Link ([] :: segs) fin files)
                    (out ++ as_bytes (GREETING +:+ cc_dev_uid cfg) ++ [10]) h)
            /\ (r = Ok tt <-> uid = cc_dev_uid cfg).
Proof.
  intros (Hl & _ & Hv) Hd hello Hlen.
  assert (hello ++ extra = as_bytes ("hello, " +:+ uid) ++ 10 :: extra) as Eh
    by (unfold hello; by rewrite <- app_assoc).
  assert (str_mem line_feed ("hello, " +:+ uid) = false) as Hm by (rewrite str_mem_app; by rewrite Hl).
  rewrite Eh in *. clear hello Eh. set (line := "hello, " +:+ uid) in *.
  unfold connect_and_auth, bind_ok, say_line, say, on_out, flush, write_all. cbn [s_out s_link s_host].
  unfold on_link. cbn [s_link]. set (n := length (pending _)). cbn [read_line]. unfold bind_ok.
  rewrite read_whole; [|done|done].
  destruct (as_bytes line ++ 10 :: extra) as [|b0 bs] eqn:Eb; [done|]. rewrite <- Eb.
  rewrite find_newline by by apply (as_bytes_mem line_feed). cbn [app].
  assert (take (S (length (as_bytes line))) (as_bytes line ++ 10 :: extra)
          = as_bytes (line +:+ String line_feed "")) as ->.
  { rewrite as_bytes_app. rewrite take_app_ge by lia.
    by replace (S (length (as_bytes line)) - length (as_bytes line))%nat with 1%nat by lia. }
  cbn [mret io_ret s_out s_host].
  assert (from_utf8 (as_bytes (line +:+ String line_feed "")) = Some (line +:+ String line_feed "")) as ->.
  { unfold from_utf8. rewrite string_of_as_bytes, as_bytes_app. unfold line.
    by rewrite as_bytes_app, <- app_assoc, utf8_valid_app, utf8_valid_app. }
  rewrite app_nil_r, as_bytes_app. unfold line. rewrite str_app_assoc.
  case_bool_decide as El; eexists; (split; [done|]); split; try done.
  - intros _. apply (f_equal as_bytes) in El. rewrite !as_bytes_app in El.
    apply app_inv_head, app_inv_tail in El. apply (f_equal string_of_bytes) in El.
    by rewrite !string_of_as_bytes in El.
  - intros ->. done.
Qed.

(** ** A client *)

Module ClientDemo.
Import UpgradeDemo.

(** A shell that prints the command it was given. *)
#[global] Instance echo : Console machine := {|
  sh_run c m := (Ran (as_bytes c) [], m);
  kernel_release _ := Ok "5.4";
  file_meta _ _ := Err "No such file or directory";
  file_reads _ _ := Err "No such file or directory"
|}.

Definition cfg : ClientConfigData := ClientConfig 7000 "7" "10.0.0.2".
Definition idle : session machine :=
  Session (Link [] (Ok tt) ∅) [] (Host (Shell ∅ []) []).
Definition whole (_ : list Z) : option string := None.

Lemma manager_reads_settings_witness :
  config_typed NetInfo.Demo.sample /\ config_clean NetInfo.Demo.sample
  /\ parse_ini_file (ini_text NetInfo.Demo.sample) = Ok (ClientConfig 8000 "d0" "10.0.0.2").
Proof.
  assert (config_typed NetInfo.Demo.sample) as H1 by by_decide.
  assert (config_clean NetInfo.Demo.sample) as H2 by repeat constructor.
  split_and!; [done..|]. rewrite (manager_reads_settings NetInfo.Demo.sample H1 H2). reflexivity.
Defined.

(** Without [config_clean] the client can misread the file: the agent stores a
    log server's address with a line break in it as it came, and what follows
    the break counts as a setting. *)
Definition broken_log_server : NetInfoConfig :=
  NetInfo.Demo.sample_with (Some ("10.0.0.3" +:+ String line_feed "SERVER_IP=foo")).

Example broken_line_misread :
  parse_ini_file (ini_text broken_log_server) = Err "SERVER_IP 不是有效 IPv4: foo".
Proof. reflexivity. Qed.

Lemma foreign_lines_ignored_witness :
  session_data whole TransferDemo.accept 2025 1 1 cfg (as_bytes "uid:8 reboot") idle = (Ok tt, idle).
Proof. apply foreign_lines_ignored. repeat constructor. Defined.

Lemma commands_run_together_witness :
  s_out (session_data whole TransferDemo.accept 2025 1 1 cfg
           (as_bytes (command_text "7" "ls" +:+ command_text "7" "pwd")) idle).2
  = as_bytes ("lsuid:7 pwd" +:+ String line_feed "").
Proof.
  rewrite (commands_run_together whole TransferDemo.accept 2025 1 1 cfg "ls" "pwd" idle).
  - vm_compute. reflexivity.
  - repeat apply Forall_cons_2; [| | |constructor]; (split_and!; [done| |reflexivity]); intros a; simpl;
      rewrite ?orb_true_iff, ?bool_decide_eq_true; by intuition subst.
Defined.

Lemma greeting_drops_rest_witness :
  exists r, connect_and_auth whole cfg
              (Session (Link [as_bytes ("hello, 7" +:+ String line_feed "uid:7 ls")] (Ok tt) ∅) []
                 (s_host idle))
            = (r, Session (Link [[]] (Ok tt) ∅)
                    (as_bytes (GREETING +:+ "7" +:+ String line_feed "")) (s_host idle))
            /\ r = Ok tt.
Proof.
  destruct (greeting_drops_rest cfg "7" (as_bytes "uid:7 ls") [] (Ok tt) ∅ [] (s_host idle))
    as (r & E & Hr); [done|done|vm_compute; lia|].
  exists r. split; [exact E|]. by apply Hr.
Defined.

(** The header is read with the first three bytes of the content. *)
Lemma server_file_as_read_witness :
  exists segs,
    handle_session whole TransferDemo.accept 2025 1 1 cfg [Readable]
      (Session (Link [as_bytes (header_line 5 "b.txt" +:+ "hel");
                      as_bytes "lo" ++ as_bytes FILE_END_MARKER] (Ok tt) ∅) [] (s_host idle))
    = (None, Session (Link segs (Ok tt)
                        {["b.txthel" := as_bytes "lo" ++ as_bytes FILE_END_MARKER]}) [] (s_host idle)).
Proof.
  destruct (server_file_as_read whole TransferDemo.accept 2025 1 1 cfg TransferDemo.stat
              TransferDemo.contents "a.txt" "b.txt" [as_bytes "hel"; as_bytes "lo"] "hel" []
              (as_bytes "lo" ++ as_bytes FILE_END_MARKER) [] (Ok tt) ∅ [] (s_host idle))
    as (_ & segs & E & _); try (vm_compute; done).
  - repeat constructor; done.
  - intros a. simpl. rewrite ?orb_true_iff, ?bool_decide_eq_true. by intuition subst.
  - vm_compute. lia.
  - apply Forall_cons_2; [split; [done|vm_compute; lia]|constructor].
  - by exists segs.
Defined.
End ClientDemo.
