(* ===== verification/CliServer.v ===== *)
(** * The console server

    The operator's side of the remote console,
    [agent_manager/src/agent_cli_server.rs]: the table of connected clients and
    the selected one, the console with its history, and the task that reads
    from one client.  Console commands and the tasks of the clients share the
    table; the interleavings are the transition system [sstep]. *)

From S2P Require Import Prelude RustStr Bytes Shell FileTransfer CliClient.
From Stdlib Require Import Ascii.

Record ClientInfo := Client {
  ci_id : nat;
  ci_uid : option string;
  ci_addr : string
}.

Record server := Server {
  clients : gmap nat ClientInfo;
  current : option nat;
  next_id : nat;
  history : list string;
  outs : gmap nat (list Z)               (* what was written to each client *)
}.

Definition HISTORY_SIZE : nat := 50.

Definition set_clients (m : gmap nat ClientInfo) (s : server) : server :=
  Server m (current s) (next_id s) (history s) (outs s).
Definition set_current (c : option nat) (s : server) : server :=
  Server (clients s) c (next_id s) (history s) (outs s).
Definition set_history (h : list string) (s : server) : server :=
  Server (clients s) (current s) (next_id s) h (outs s).

(** ** Text *)

Fixpoint str_filter (p : ascii -> bool) (s : string) : string :=
  match s with
  | EmptyString => ""
  | String a s => if p a then String a (str_filter p s) else str_filter p s
  end.

(** [is_ascii && !is_ascii_control], as the console reads its lines, and
    [is_ascii_graphic || is_ascii_whitespace]. *)
Definition printable (a : ascii) : bool := (32 <=? ascii_code a) && (ascii_code a <? 127).
Definition graphic_or_space (a : ascii) : bool :=
  ((33 <=? ascii_code a) && (ascii_code a <? 127))
  || bool_decide (ascii_code a ∈ [9; 10; 12; 13; 32]).

Definition is_digit (a : ascii) : bool := (48 <=? ascii_code a) && (ascii_code a <=? 57).
Fixpoint all_digits (s : string) : bool :=
  match s with EmptyString => true | String a s => is_digit a && all_digits s end.

(** ** History *)

(** The command a line stands for: [!!] the last one, [!n] the [n]-th; [None]
    when there is none. *)
Definition resolve (clean_cmd : string) (h : list string) : option string :=
  if bool_decide (clean_cmd = "!!") then List.find (fun c => negb (bool_decide (c = "!!"))) (rev h)
  else match strip_prefix "!" clean_cmd with
       | Some rest =>
         match parse_uint 64 rest with
         | Some idx => if (0 <? idx) && (idx <=? Z.of_nat (length h))
                       then h !! Z.to_nat (idx - 1) else None
         | None => Some clean_cmd
         end
       | None => Some clean_cmd
       end.

Definition ignored : list string :=
  ["history"; "list"; "clear"; "deselect"; "exit"; "quit"; "bye"; "help"; "?"; "!!"].

Definition recordable (cmd : string) : bool :=
  let lower := to_lowercase (trim cmd) in
  let is_history_op := bool_decide (lower = "!!")
                       || match strip_prefix "!" lower with Some r => all_digits r | None => false end in
  negb (is_history_op || bool_decide (lower ∈ ignored)).

Definition push_history (cmd : string) (h : list string) : list string :=
  if recordable cmd then (if (HISTORY_SIZE <=? length h)%nat then tail h else h) ++ [cmd] else h.

(** ** The console *)

Inductive verdict := Continue | Exit.

Section console.
(** The server's files; whether a client's connection takes another write; the
    order in which the table is searched. *)
Context (metadata : string -> result string meta).
Context (open : string -> result string (list (result string (list Z)))).
Context (broken : nat -> list Z -> option string).
Context (values : gmap nat ClientInfo -> list ClientInfo).

Definition modify (f : server -> server) : io server unit := fun s => (tt, f s).

Definition to_client {A} (id : nat) (m : io (list Z) A) : io server A := fun s =>
  let '(a, o) := m (default [] (outs s !! id)) in
  (a, Server (clients s) (current s) (next_id s) (history s) (<[id := o]> (outs s))).

(** The selected client and its identity, if it is in the table. *)
Definition selected (s : server) : option (nat * string) :=
  id ← current s; c ← clients s !! id; Some (id, default "" (ci_uid c)).

(** A command for the selected client; a client that cannot be written to is
    taken off the table. *)
Definition send_selected (msg : string -> string) : io server unit := fun s =>
  match selected s with
  | None => (tt, s)
  | Some (id, uid) =>
    match to_client id (write_all (broken id) (as_bytes (msg uid))) s with
    | (Ok _, s') => (tt, s')
    | (Err _, s') => (tt, set_clients (delete id (clients s')) s')
    end
  end.

Definition rename_client (id : nat) (uid : string) (s : server) : server :=
  match clients s !! id with
  | Some c => set_clients (<[id := Client (ci_id c) (Some uid) (ci_addr c)]> (clients s)) s
  | None => s
  end.

Definition auto_select (id : nat) (s : server) : server :=
  match current s with None => set_current (Some id) s | Some _ => s end.

Definition set_uid (id_str : string) (new_uid : option string) : io server unit := modify (fun s =>
  match parse_uint 64 id_str with
  | None => s
  | Some n =>
    let id := Z.to_nat n in
    match clients s !! id with
    | None => s
    | Some c =>
      match new_uid, ci_uid c with
      | Some u, _ => auto_select id (set_clients (<[id := Client (ci_id c) (Some u) (ci_addr c)]>
                                                     (clients s)) s)
      | None, Some _ => auto_select id s
      | None, None => s
      end
    end
  end).

Definition select_client (target : string) : io server unit := modify (fun s =>
  match parse_uint 64 target with
  | Some n => match clients s !! Z.to_nat n with
              | Some _ => set_current (Some (Z.to_nat n)) s
              | None => s
              end
  | None => match List.find (fun c => bool_decide (ci_uid c = Some target)) (values (clients s)) with
            | Some c => set_current (Some (ci_id c)) s
            | None => s
            end
  end).

Definition send_file_cmd (src dst : string) : io server unit := fun s =>
  match current s with
  | None => (tt, s)
  | Some id =>
    match clients s !! id with
    | None => (tt, s)
    | Some _ =>
      ignore (to_client id (send_file_to_client_with_writer metadata open (broken id) src dst)) s
    end
  end.

(** Where a file from the client is to be stored; [None] when the name or the
    directory is no good. *)
Definition local_dst (src dst : string) : option string :=
  name ← path_file_name src;
  match metadata dst with
  | Ok m => Some (if m_is_dir m then path_join dst name else dst)
  | Err _ => parent ← path_parent dst; if is_ok (metadata parent) then Some dst else None
  end.

Definition get_file_cmd (src dst : string) : io server unit :=
  match local_dst src dst with
  | None => mret tt
  | Some final_dst => send_selected (fun uid => command_text uid ("get_file " +:+ src +:+ " " +:+ final_dst))
  end.

Definition run_on_client (cmd : string) : io server unit :=
  send_selected (fun uid => command_text uid cmd).

(** The [match] on the words of a command. *)
Definition dispatch (cmd_to_run : string) : io server verdict :=
  let go m := m ≫= fun _ : unit => mret Continue in
  match split_whitespace cmd_to_run with
  | [a] =>
    if bool_decide (a ∈ ["history"; "h"; "list"; "help"; "?"]) then mret Continue
    else if bool_decide (a = "rkill") then go (run_on_client "rkill")
    else if bool_decide (a = "get_kernel_src") then go (run_on_client "get_kernel_src")
    else if bool_decide (a ∈ ["clear"; "deselect"]) then go (modify (set_current None))
    else if bool_decide (a ∈ ["exit"; "quit"; "bye"]) then
      _ ← modify (fun s => set_clients ∅ (set_current None s)); mret Exit
    else go (run_on_client cmd_to_run)
  | [a; b] =>
    if bool_decide (a ∈ ["select"; "use"]) then go (select_client b)
    else go (run_on_client cmd_to_run)
  | [a; b; c] =>
    if bool_decide (a = "set") && bool_decide (b = "uid") then go (set_uid c None)
    else if bool_decide (a = "send_file") then go (send_file_cmd b c)
    else if bool_decide (a = "get_file") then go (get_file_cmd b c)
    else go (run_on_client cmd_to_run)
  | [a; b; c; d] =>
    if bool_decide (a = "set") && bool_decide (b = "uid") then go (set_uid c (Some d))
    else go (run_on_client cmd_to_run)
  | _ => go (run_on_client cmd_to_run)
  end.

Definition handle_console (cmd : string) : io server verdict := fun s =>
  match resolve (str_filter graphic_or_space cmd) (history s) with
  | None => (Continue, s)
  | Some cmd_to_run => dispatch cmd_to_run (set_history (push_history cmd_to_run (history s)) s)
  end.

(** One line of the console, as [start_server] takes it. *)
Definition console_line (line : string) : io server verdict :=
  let cmd := str_filter printable (trim_end_cr (trim line)) in
  if str_is_empty cmd then mret Continue else handle_console cmd.

(** ** Reading from a client *)

(** An answer to a client that is in the table; failures are ignored. *)
Definition answer (id : nat) (t : string) : io server unit := fun s =>
  match clients s !! id with
  | Some _ => ignore (to_client id (write_all (broken id) (as_bytes t))) s
  | None => (tt, s)
  end.

(** Text that is no file: the greeting registers the identity, selects the
    client when none is selected, and is answered. *)
Definition on_text (id : nat) (data : string) : io server unit :=
  if starts_with GREETING data then
    let new_uid := trim (default "" (strip_prefix GREETING data)) in
    _ ← modify (rename_client id new_uid);
    _ ← modify (auto_select id);
    answer id ("hello, " +:+ new_uid +:+ String line_feed "")
  else mret tt.

(** How a read task ends: by itself, by its own [abort] at a place where it has
    to wait, or never, waiting for a lock that it holds. *)
Inductive ending := Ended | Aborted | Hangs.

#[global] Instance ending_eq_dec : EqDecision ending.
Proof. solve_decision. Defined.

(** The end of [client_read_loop].  A client in the table is taken off it and the
    task asks for its own abortion, which happens the next time it has to wait:
    [early], before it has looked at the selection.  A selected client is
    deselected, and [print_prompt] then waits for the lock of the selection,
    which the task holds: it is aborted there, which frees the lock, or waits
    for ever. *)
Definition disconnect (early : bool) (id : nat) (s : server) : ending * server :=
  match clients s !! id with
  | Some _ =>
    let s := set_clients (delete id (clients s)) s in
    if early then (Aborted, s)
    else if bool_decide (current s = Some id) then (Aborted, set_current None s)
    else (Ended, s)
  | None => if bool_decide (current s = Some id) then (Hangs, set_current None s) else (Ended, s)
  end.

Context (refuses : file_op -> gmap string (list Z) -> option (string * nat)).

Definition on_data (id : nat) (raw : list Z) : io (server * link) (outcome unit) := fun '(s, l) =>
  match find_sub (as_bytes FILE_START_MARKER) raw with
  | Some _ => match receive_file_from_bytes refuses raw l with
              | (Panic, l) => (Panic, (s, l))
              | (Done _, l) => (Done tt, (s, l))
              end
  | None => let '(_, s) := on_text id (from_utf8_lossy raw) s in (Done tt, (s, l))
  end.

(** [client_read_loop]; [None] only if the fuel does not last. *)
Fixpoint read_rounds (fuel : nat) (early : bool) (id : nat) (s : server) (l : link)
    : option (outcome ending * server * link) :=
  match fuel with
  | O => None
  | S fuel =>
    match read BUFFER_SIZE l with
    | (Err _, l) | (Ok [], l) => let '(e, s) := disconnect early id s in Some (Done e, s, l)
    | (Ok raw, l) =>
      match on_data id raw (s, l) with
      | (Panic, (s, l)) => Some (Panic, s, l)
      | (Done _, (s, l)) => read_rounds fuel early id s l
      end
    end
  end.
Definition client_read_loop (early : bool) (id : nat) (s : server) (l : link)
    : option (outcome ending * server * link) :=
  read_rounds (S (length (pending l))) early id s l.

(** What a console line does before it has to wait for the selection. *)
Definition console_before (line : string) (s : server) : server :=
  let cmd := str_filter printable (trim_end_cr (trim line)) in
  match resolve (str_filter graphic_or_space cmd) (history s) with
  | None => s
  | Some cmd_to_run =>
    let s := set_history (push_history cmd_to_run (history s)) s in
    match split_whitespace cmd_to_run with
    | [a; b; c; d] =>
      if bool_decide (a = "set") && bool_decide (b = "uid") then
        match parse_uint 64 c with Some n => rename_client (Z.to_nat n) d s | None => s end
      else s
    | _ => s
    end
  end.
End console.

(** ** The history invariant *)

Abbreviation clean := (str_filter graphic_or_space).

(** A history entry: clean text that stands for itself whatever the history. *)
Definition plain (c : string) : Prop := clean c = c /\ forall h, resolve c h = Some c.

Lemma str_filter_idem p s : str_filter p (str_filter p s) = str_filter p s.
Proof.
  induction s as [|a s IH]; [done|]. simpl. destruct (p a) eqn:E; [|done]. simpl. by rewrite E, IH.
Qed.

Lemma resolve_plain cmd h c :
  Forall plain h -> resolve (clean cmd) h = Some c -> plain c.
Proof.
  intros Hh. unfold resolve at 1. case_bool_decide as Hb.
  - intros [Hc _]%List.find_some. apply in_rev in Hc. apply list_elem_of_In in Hc.
    rewrite Forall_forall in Hh. by apply Hh.
  - destruct (strip_prefix "!" (clean cmd)) as [rest|] eqn:Es.
    + destruct (parse_uint 64 rest) as [idx|] eqn:Ep.
      * destruct (_ && _); [|done]. intros Hc%list_elem_of_lookup_2.
        rewrite Forall_forall in Hh. by apply Hh.
      * intros [= <-]. split; [apply str_filter_idem|]. intros h'. unfold resolve.
        by rewrite bool_decide_false, Es, Ep.
    + intros [= <-]. split; [apply str_filter_idem|]. intros h'. unfold resolve.
      by rewrite bool_decide_false, Es.
Qed.

Definition history_ok (h : list string) : Prop :=
  (length h <= HISTORY_SIZE)%nat /\ Forall (fun c => plain c /\ recordable c = true) h.

Lemma push_history_ok c h : plain c -> history_ok h -> history_ok (push_history c h).
Proof.
  intros Hc [Hl Hh]. unfold push_history. destruct (recordable c) eqn:Er; [|done]. split.
  - rewrite length_app. unfold HISTORY_SIZE in *.
    destruct (Nat.leb_spec 50 (length h)); [destruct h|]; cbn [length tail] in *; lia.
  - apply Forall_app. split; [|by constructor].
    destruct (HISTORY_SIZE <=? length h)%nat; [|done]. destruct h; [done|]. by apply Forall_cons in Hh as [_ ?].
Qed.

(** ** The table *)

Definition server_ok (s : server) : Prop :=
  map_Forall (fun i c => ci_id c = i /\ (i < next_id s)%nat) (clients s)
  /\ (forall i, current s = Some i -> (i < next_id s)%nat)
  /\ history_ok (history s).

(** What every operation but accepting keeps. *)
Definition tidy (s s' : server) : Prop := next_id s' = next_id s /\ (server_ok s -> server_ok s').

#[global] Instance tidy_preorder : PreOrder tidy.
Proof.
  split; [by split|]. intros a b c [E1 H1] [E2 H2]. split; [congruence|auto].
Qed.

Section kept.
Context (metadata : string -> result string meta).
Context (open : string -> result string (list (result string (list Z)))).
Context (broken : nat -> list Z -> option string).
Context (values : gmap nat ClientInfo -> list ClientInfo).
Context (Hvalues : forall m c, c ∈ values m -> exists i, m !! i = Some c).

Lemma to_client_tidy {A} id (m : io (list Z) A) : keeps tidy (to_client id m).
Proof. intros s. unfold to_client. by destruct (m _). Qed.

Lemma delete_tidy i s : tidy s (set_clients (delete i (clients s)) s).
Proof.
  split; [done|]. intros (Hc & Hcur & Hh). split_and!; [|done..].
  intros j c Hj. simpl in Hj. apply Hc. by apply lookup_delete_Some in Hj as [_ ?].
Qed.

Lemma rename_tidy i c u s :
  clients s !! i = Some c ->
  tidy s (set_clients (<[i := Client (ci_id c) u (ci_addr c)]> (clients s)) s).
Proof.
  intros Hi. split; [done|]. intros (Hc & Hcur & Hh). split_and!; [|done..].
  intros j d. simpl. destruct (decide (j = i)) as [->|].
  - rewrite lookup_insert_eq. intros [= <-]. exact (Hc i c Hi).
  - rewrite lookup_insert_ne by done. apply Hc.
Qed.

Lemma rename_client_tidy i u s : tidy s (rename_client i u s).
Proof. unfold rename_client. destruct (clients s !! i) as [c|] eqn:E; [by apply rename_tidy|done]. Qed.

Lemma select_tidy i c s : clients s !! i = Some c -> tidy s (set_current (Some i) s).
Proof.
  intros Hi. split; [done|]. intros (Hc & Hcur & Hh). split_and!; [done| |done].
  intros j [= <-]. by apply (Hc i c Hi).
Qed.

Lemma auto_select_tidy i c s : clients s !! i = Some c -> tidy s (auto_select i s).
Proof.
  intros Hi. unfold auto_select. destruct (current s); [done|]. by eapply select_tidy.
Qed.

Lemma send_selected_tidy msg : keeps tidy (send_selected broken msg).
Proof.
  intros s. unfold send_selected. destruct (selected s) as [[id uid]|]; [|done].
  pose proof (to_client_tidy id (write_all (broken id) (as_bytes (msg uid))) s) as Ht.
  destruct (to_client _ _ s) as [[[]|e] s']; [exact Ht|]. etrans; [exact Ht|apply delete_tidy].
Qed.

Lemma set_uid_tidy id_str u : keeps tidy (set_uid id_str u).
Proof.
  intros s. unfold set_uid, modify. simpl. destruct (parse_uint 64 id_str) as [n|]; [|done].
  destruct (clients s !! Z.to_nat n) as [c|] eqn:E; [|done].
  destruct u as [u|]; [|destruct (ci_uid c); [by eapply auto_select_tidy|done]].
  etrans; [apply (rename_tidy _ _ (Some u) _ E)|]. eapply auto_select_tidy. simpl.
  by rewrite lookup_insert_eq.
Qed.

Lemma select_client_tidy target : keeps tidy (select_client values target).
Proof.
  intros s. unfold select_client, modify. simpl. destruct (parse_uint 64 target) as [n|].
  - destruct (clients s !! Z.to_nat n) eqn:E; [by eapply select_tidy|done].
  - destruct (List.find _ _) as [c|] eqn:E; [|done]. apply List.find_some in E as [Hin _].
    apply list_elem_of_In, Hvalues in Hin as [i Hi]. split; [done|]. intros Hs.
    pose proof Hs as (Hc & _). destruct (Hc i c Hi) as [<- _].
    by apply (select_tidy (ci_id c) c s Hi).
Qed.

Lemma dispatch_tidy cmd : keeps tidy (dispatch metadata open broken values cmd).
Proof.
  assert (forall c, keeps tidy (run_on_client broken c)) by (intros; apply send_selected_tidy).
  assert (forall a b, keeps tidy (get_file_cmd metadata broken a b)).
  { intros a b. unfold get_file_cmd. destruct (local_dst metadata a b); [apply send_selected_tidy|done]. }
  assert (forall a b, keeps tidy (send_file_cmd metadata open broken a b)).
  { intros a b s. unfold send_file_cmd. destruct (current s) as [i|]; [|done].
    destruct (clients s !! i); [|done]. unfold ignore. simpl. apply to_client_tidy. }
  assert (keeps tidy (modify (set_current None))).
  { intros s. split; [done|]. intros (? & _ & ?). by split_and!. }
  assert (keeps tidy (modify (fun s => set_clients ∅ (set_current None s)))).
  { intros s. split; [done|]. intros (? & _ & ?). split_and!; [apply map_Forall_empty|done|done]. }
  unfold dispatch. cbv zeta.
  repeat (case_match || case_bool_decide);
    repeat first [ assumption | apply (keeps_ret tidy) | apply (keeps_bind tidy); [|intros]
                 | apply set_uid_tidy | apply select_client_tidy ]; auto.
Qed.

Lemma history_tidy cmd c s :
  resolve (clean cmd) (history s) = Some c -> tidy s (set_history (push_history c (history s)) s).
Proof.
  intros E. split; [done|]. intros (? & ? & Hl & Hh). split_and!; try done.
  apply push_history_ok; [|done]. eapply resolve_plain; [|exact E].
  eapply Forall_impl; [exact Hh|]. by intros ? [? _].
Qed.

Lemma handle_console_tidy cmd : keeps tidy (handle_console metadata open broken values cmd).
Proof.
  intros s. unfold handle_console. destruct (resolve _ _) as [c|] eqn:E; [|done].
  etrans; [by eapply history_tidy|apply dispatch_tidy].
Qed.

Lemma console_before_tidy line s : tidy s (console_before line s).
Proof.
  unfold console_before. destruct (resolve _ _) as [c|] eqn:E; [|done].
  etrans; [by eapply history_tidy|]. repeat (case_match; try done). apply rename_client_tidy.
Qed.
End kept.

(** ** Everything at once

    [accepting]: TLS handshakes under way; [joining]: read tasks started whose
    client is not in the table yet, because the task is spawned first;
    [reading]: running read tasks; [hung]: whether a read task that waits for
    itself has the lock of the selection for ever.  Everything else then gets no
    further than its first use of the selection ([s_greeting_waits],
    [s_end_waits], [s_line_waits]); that some of it keeps the lock of the table
    while it waits, which stops even more, is left out. *)
Record console_state := CState {
  srv : server;
  accepting : gset nat;
  joining : gset nat;
  reading : gset nat;
  hung : bool
}.

Definition on_srv (f : server -> server) (st : console_state) : console_state :=
  CState (f (srv st)) (accepting st) (joining st) (reading st) (hung st).

Section steps.
Context (metadata : string -> result string meta).
Context (open : string -> result string (list (result string (list Z)))).
Context (broken : nat -> list Z -> option string).
Context (values : gmap nat ClientInfo -> list ClientInfo).

Inductive sstep : console_state -> console_state -> Prop :=
| s_accept st :
    sstep st (CState (Server (clients (srv st)) (current (srv st)) (S (next_id (srv st)))
                        (history (srv st)) (outs (srv st)))
                ({[next_id (srv st)]} ∪ accepting st) (joining st) (reading st) (hung st))
| s_handshake_failed st id :
    id ∈ accepting st ->
    sstep st (CState (srv st) (accepting st ∖ {[id]}) (joining st) (reading st) (hung st))
| s_read_task st id :
    id ∈ accepting st ->
    sstep st (CState (srv st) (accepting st ∖ {[id]}) ({[id]} ∪ joining st) ({[id]} ∪ reading st) (hung st))
| s_join st id addr :
    id ∈ joining st ->
    sstep st (CState (set_clients (<[id := Client id None addr]> (clients (srv st))) (srv st))
                (accepting st) (joining st ∖ {[id]}) (reading st) (hung st))
| s_text st id data :
    hung st = false -> id ∈ reading st -> sstep st (on_srv (fun s => (on_text broken id data s).2) st)
| s_end st id early :
    hung st = false -> id ∈ reading st ->
    sstep st (CState (disconnect early id (srv st)).2 (accepting st) (joining st) (reading st ∖ {[id]})
                (bool_decide ((disconnect early id (srv st)).1 = Hangs)))
| s_console st line s' :
    hung st = false -> console_line metadata open broken values line (srv st) = (Continue, s') ->
    sstep st (on_srv (fun _ => s') st)
| s_greeting_waits st id uid :
    hung st = true -> id ∈ reading st ->
    sstep st (CState (rename_client id uid (srv st)) (accepting st) (joining st) (reading st ∖ {[id]}) true)
| s_end_waits st id :
    hung st = true -> id ∈ reading st ->
    sstep st (CState (set_clients (delete id (clients (srv st))) (srv st)) (accepting st) (joining st)
                (reading st ∖ {[id]}) true)
| s_line_waits st line :
    hung st = true -> sstep st (on_srv (console_before line) st).

Definition console_initial : console_state := CState (Server ∅ None 0 [] ∅) ∅ ∅ ∅ false.

Definition console_ok (st : console_state) : Prop :=
  server_ok (srv st)
  /\ set_Forall (fun i => (i < next_id (srv st))%nat) (accepting st ∪ joining st ∪ reading st).

Context (Hvalues : forall m c, c ∈ values m -> exists i, m !! i = Some c).

(** A read task may select its own number, which is an issued one. *)
Lemma on_text_tidy id data s :
  (id < next_id s)%nat -> tidy s (on_text broken id data s).2.
Proof.
  intros Hid. unfold on_text. destruct (starts_with _ _); [|done].
  unfold mbind, io_bind, modify. set (u := trim _).
  set (s1 := rename_client id u s). assert (tidy s s1) as T1 by apply rename_client_tidy.
  set (s2 := auto_select id s1). assert (tidy s1 s2) as T2.
  { unfold s2, auto_select. destruct (current s1); [done|]. split; [done|].
    intros (Hc & _ & Hh). split_and!; [done| |done]. intros j [= <-]. simpl.
    destruct T1 as [-> _]. done. }
  etrans; [exact T1|]. etrans; [exact T2|]. unfold answer. destruct (clients s2 !! id); [|done].
  unfold ignore. simpl. apply to_client_tidy.
Qed.

Lemma deselect_tidy s : tidy s (set_current None s).
Proof. split; [done|]. intros (? & _ & ?). by split_and!. Qed.

Lemma disconnect_tidy early id s : tidy s (disconnect early id s).2.
Proof.
  unfold disconnect. destruct (clients s !! id).
  - etrans; [apply (delete_tidy id)|]. destruct early; [done|]. case_bool_decide; [apply deselect_tidy|done].
  - case_bool_decide; [apply deselect_tidy|done].
Qed.

Lemma console_line_tidy line : keeps tidy (console_line metadata open broken values line).
Proof.
  unfold console_line. case_match; [apply (keeps_ret tidy)|]. by apply handle_console_tidy.
Qed.

Lemma tidy_ok st s' a j r b :
  tidy (srv st) s' -> console_ok st ->
  a ∪ j ∪ r ⊆ accepting st ∪ joining st ∪ reading st -> console_ok (CState s' a j r b).
Proof.
  intros [E Hs] [Hok Hall] Hsub. split; [by apply Hs|]. simpl. rewrite E.
  intros i Hi. apply Hall. set_solver.
Qed.

Lemma sstep_ok st st' : sstep st st' -> console_ok st -> console_ok st'.
Proof.
  intros Hstep Hok. pose proof Hok as [(Hc & Hcur & Hh) Hall].
  destruct Hstep as [st|st id Hid|st id Hid|st id addr Hid|st id data _ Hid|st id early _ Hid
    |st line s' _ E|st id uid _ Hid|st id _ Hid|st line _].
  - split; [split_and!|]; simpl in *.
    + intros i c Hi. destruct (Hc i c Hi). auto with lia.
    + intros i Hi. apply Hcur in Hi. lia.
    + done.
    + intros i Hi. assert (i = next_id (srv st) \/ (i < next_id (srv st))%nat) as [->|]; [|lia|lia].
      apply elem_of_union in Hi as [[[Hi%elem_of_singleton|Hi]%elem_of_union|Hi]%elem_of_union|Hi];
        [by left|right; apply Hall; set_solver..].
  - eapply tidy_ok; [|exact Hok|set_solver]. done.
  - eapply tidy_ok; [|exact Hok|set_solver]. done.
  - assert (id < next_id (srv st))%nat as Hlt by (apply Hall; set_solver). split; [split_and!|]; simpl.
    + apply map_Forall_insert_2; [done|exact Hc].
    + done.
    + done.
    + intros i Hi. apply Hall. set_solver.
  - eapply tidy_ok; [|exact Hok|done]. apply on_text_tidy. apply Hall. set_solver.
  - eapply tidy_ok; [apply disconnect_tidy|exact Hok|set_solver].
  - eapply tidy_ok; [|exact Hok|done]. pose proof (console_line_tidy line (srv st)) as Ht.
    by rewrite E in Ht.
  - eapply tidy_ok; [apply rename_client_tidy|exact Hok|set_solver].
  - eapply tidy_ok; [apply delete_tidy|exact Hok|set_solver].
  - eapply tidy_ok; [apply console_before_tidy|exact Hok|done].
Qed.
End steps.

(** C9: whatever the operator types and however the clients' tasks interleave,
    the table holds every client under its own number, numbers are those
    issued, also the selected one, and the history holds at most fifty
    commands, none of which is a reference into it or one of the commands that
    are not kept. *)
Theorem console_invariant metadata open broken values st :
  (forall m c, c ∈ values m -> exists i, m !! i = Some c) ->
  rtc (sstep metadata open broken values) console_initial st -> console_ok st.
Proof.
  intros Hv Hr. assert (console_ok console_initial) as H0.
  { split; [split_and!|]; simpl; [apply map_Forall_empty|done|split; [vm_compute; lia|constructor]|set_solver]. }
  revert H0. induction Hr as [|x y z Hxy Hyz IH]; [done|]. intros Hx. apply IH.
  by eapply sstep_ok.
Qed.

(** ** Particular commands *)

Section commands.
Context (metadata : string -> result string meta).
Context (open : string -> result string (list (result string (list Z)))).
Context (broken : nat -> list Z -> option string).
Context (values : gmap nat ClientInfo -> list ClientInfo).

Abbreviation console := (handle_console metadata open broken values).

Lemma clean_bang n : clean ("!" +:+ dec n) = "!" +:+ dec n.
Proof.
  rewrite str_app_cons, str_app_nil_l. simpl. f_equal.
  assert (forall s, (forall a, str_mem a s = true -> graphic_or_space a = true) -> clean s = s) as Hf.
  { induction s as [|a s IH]; intros Hs; [done|]. simpl.
    rewrite Hs by (simpl; by rewrite bool_decide_true). f_equal. apply IH.
    intros b Hb. apply Hs. simpl. by rewrite Hb, orb_true_r. }
  apply Hf. intros a Ha. destruct (Ascii.is_nat a) eqn:E; [|by rewrite dec_mem in Ha].
  clear Ha. by destruct a as [[] [] [] [] [] [] [] []].
Qed.

Lemma plain_not_bang c : plain c -> c <> "!!".
Proof. intros [_ Hc] ->. by specialize (Hc []). Qed.

(** a reference into the history does what the command it names does when
    typed: [!!] the last one, [!n] the [n]-th; one that names nothing does
    nothing. *)
Theorem history_reference s :
  server_ok s ->
  (forall c, last (history s) = Some c -> console "!!" s = console c s)
  /\ (forall n c, history s !! n = Some c -> console ("!" +:+ dec (Z.of_nat n + 1)) s = console c s)
  /\ (forall n, is_uint 64 n -> (n = 0 \/ Z.of_nat (length (history s)) < n) ->
        console ("!" +:+ dec n) s = (Continue, s)).
Proof.
  intros (_ & _ & Hl & Hh). unfold handle_console.
  assert (forall c, c ∈ history s -> plain c) as Hp.
  { intros c Hc. rewrite Forall_forall in Hh. by apply Hh. }
  assert (forall c, c ∈ history s -> resolve (clean c) (history s) = Some c) as Hr.
  { intros c Hc. destruct (Hp c Hc) as [-> Hx]. apply Hx. }
  assert (forall n, is_uint 64 n -> resolve ("!" +:+ dec n) (history s)
            = if (0 <? n) && (n <=? Z.of_nat (length (history s)))
              then history s !! Z.to_nat (n - 1) else None) as Hn.
  { intros n Hu. unfold resolve. rewrite bool_decide_false.
    - by rewrite strip_prefix_app, parse_uint_dec.
    - rewrite str_app_cons, str_app_nil_l. intros [= E].
      assert (str_mem "!" (dec n) = false) as Hm by by apply dec_mem. by rewrite E in Hm. }
  split_and!.
  - intros c Hc. assert (c ∈ history s) as Hin by by apply last_Some_elem_of.
    rewrite (Hr c Hin). apply last_Some in Hc as [h Hc]. rewrite Hc at 1.
    change (clean "!!") with "!!". unfold resolve. rewrite bool_decide_true, rev_app_distr by done.
    cbn [rev app List.find]. rewrite bool_decide_false by by apply plain_not_bang, Hp. done.
  - intros n c Hc. pose proof (lookup_lt_Some _ _ _ Hc) as Hlt. unfold HISTORY_SIZE in Hl.
    rewrite clean_bang, Hn by (unfold is_uint; lia). rewrite (Hr c) by by eapply list_elem_of_lookup_2.
    rewrite (proj2 (Z.ltb_lt _ _)), (proj2 (Z.leb_le _ _)) by lia. cbn [andb].
    replace (Z.to_nat (Z.of_nat n + 1 - 1)) with n by lia. by rewrite Hc.
  - intros n Hu Hout. rewrite clean_bang, Hn by done. destruct (Z.ltb_spec 0 n); [|done].
    rewrite (proj2 (Z.leb_gt _ _)) by lia. done.
Qed.
End commands.

(** ** The task of one client *)

(** Reading only ever uses up what is to come. *)
Definition consumes (l l' : link) : Prop := exists b, pending l = b ++ pending l'.

#[global] Instance consumes_preorder : PreOrder consumes.
Proof.
  split; [by exists []|]. intros x y z [b Hb] [c Hc]. exists (b ++ c). by rewrite Hb, Hc, app_assoc.
Qed.

Lemma read_consumes n : (0 < n)%nat -> keeps consumes (read n).
Proof.
  intros Hn l. pose proof (read_spec n l Hn) as Hr. unfold consumes.
  destruct (pending l) as [|x m] eqn:E.
  - destruct Hr as (k & -> & Hk). exists []. by unfold pending.
  - destruct Hr as (b & k & -> & _ & _ & Hk). by exists b.
Qed.

Lemma read_rest_consumes fuel : forall acc n, keeps consumes (read_rest fuel acc n).
Proof.
  induction fuel as [|fuel IH]; intros acc n; destruct n as [|n]; try apply (keeps_ret consumes).
  apply (keeps_bind_ok consumes); [apply read_consumes; lia|].
  intros [|x b]; [apply (keeps_ret consumes)|apply IH].
Qed.

Lemma read_exact_consumes n : keeps consumes (read_exact n).
Proof. apply read_rest_consumes. Qed.

Section reader.
Context (refuses : file_op -> gmap string (list Z) -> option (string * nat)).

Lemma file_do_consumes o : keeps consumes (file_do refuses o).
Proof. intros l. unfold file_do. destruct (refuses _ _) as [[e k]|]; by exists []. Qed.

Lemma copy_body_consumes fuel : forall p received size,
  keeps consumes (copy_body refuses fuel need p received size).
Proof.
  induction fuel as [|fuel IH]; intros p received size; [apply (keeps_ret consumes)|]. simpl.
  destruct (Z.ltb_spec received size); [|apply (keeps_ret consumes)].
  apply (keeps_bind_ok consumes); [apply read_consumes; unfold need, BUFFER_SIZE; lia|].
  intros [|x b]; [apply (keeps_ret consumes)|].
  apply (keeps_bind_ok consumes); [apply file_do_consumes|]. intros _. apply IH.
Qed.

Lemma receive_frame_consumes data : keeps consumes (receive_frame refuses data).
Proof.
  unfold receive_frame. destruct (find_sub [10] data) as [i|]; [|apply (keeps_ret consumes)].
  destruct (from_utf8 _) as [h|]; [|apply (keeps_ret consumes)].
  repeat first [ apply (keeps_ret consumes) | apply file_do_consumes | apply read_exact_consumes
               | apply (keeps_bind_ok consumes); [|intros ?] ].
  - destruct (take _ _); [apply (keeps_ret consumes)|apply file_do_consumes].
  - intros l. apply copy_body_consumes.
  - destruct (bool_decide _); apply (keeps_ret consumes).
Qed.

Lemma find_sub_length m l i : find_sub m l = Some i -> (length m <= length l)%nat.
Proof.
  revert i. induction l as [|x l IH]; intros i; simpl.
  - case_bool_decide as E; [|done]. rewrite <- E, take_nil. simpl. lia.
  - case_bool_decide as E.
    + intros _. rewrite <- E, length_take. simpl. lia.
    + destruct (find_sub m l) as [j|]; [|done]. intros _. specialize (IH j eq_refl). lia.
Qed.

(** A read that holds the marker does not make the receiver panic. *)
Lemma receive_bytes_total raw l :
  is_Some (find_sub (as_bytes FILE_START_MARKER) raw) ->
  exists r l', receive_file_from_bytes refuses raw l = (Done r, l') /\ consumes l l'.
Proof.
  intros [i Hi]. unfold receive_file_from_bytes, start_of. pose proof (find_sub_length _ _ _ Hi) as Hl.
  rewrite length_as_bytes in Hl. rewrite (proj2 (Nat.ltb_ge _ _)), Hi by done.
  pose proof (receive_frame_consumes (drop i raw) l) as Hc.
  destruct (receive_frame refuses _ l) as [r l']. by exists r, l'.
Qed.

Context (broken : nat -> list Z -> option string).

(** Whether the client is in the table, and whether it is selected, as the end of
    its task finds it. *)
Lemma on_text_keeps id data s :
  (clients (on_text broken id data s).2 !! id = None <-> clients s !! id = None)
  /\ (current s = Some id -> current (on_text broken id data s).2 = Some id).
Proof.
  unfold on_text. destruct (starts_with _ _); [|done]. unfold mbind, io_bind, modify. set (u := trim _).
  assert (forall t m, clients (answer broken id m t).2 = clients t /\ current (answer broken id m t).2 = current t)
    as Ha.
  { intros t m. unfold answer, ignore, to_client. destruct (clients t !! id); [|done]. by destruct (write_all _ _ _). }
  destruct (Ha (auto_select id (rename_client id u s)) ("hello, " +:+ u +:+ String line_feed "")) as [-> ->].
  unfold auto_select, rename_client. destruct (clients s !! id) as [c|] eqn:E; simpl.
  - destruct (current s) eqn:Ec; simpl; rewrite lookup_insert_eq; (split; [split|]; intros; congruence).
  - destruct (current s) eqn:Ec; simpl; rewrite E; (split; [split|]; intros; congruence).
Qed.

Lemma disconnect_ends early id s :
  let '(e, s') := disconnect early id s in
  clients s' !! id = None
  /\ (e = Hangs -> clients s !! id = None)
  /\ (clients s !! id = None -> current s = Some id -> e = Hangs)
  /\ (current s' = Some id -> e = Aborted /\ early = true).
Proof.
  unfold disconnect. destruct (clients s !! id) eqn:E; [destruct early|]; try case_bool_decide; simpl;
    rewrite ?lookup_delete_eq; split_and!; try done; naive_solver.
Qed.

End reader.

(** ** Instances *)

Module ServerDemo.

Definition no_file (p : string) : result string meta := Err "No such file or directory".
Definition no_reads (p : string) : result string (list (result string (list Z))) := Err "no file".
Definition never (_ : nat) (_ : list Z) : option string := None.
Definition in_order (m : gmap nat ClientInfo) : list ClientInfo := (map_to_list m).*2.

Lemma in_order_ok m c : c ∈ in_order m -> exists i, m !! i = Some c.
Proof.
  intros ([i d] & -> & Hin)%list_elem_of_fmap. exists i. by apply elem_of_map_to_list.
Qed.

Definition typed (lines : list string) (s : server) : server :=
  foldl (fun s line => (console_line no_file no_reads never in_order line s).2) s lines.

Definition one_client : console_state :=
  CState (set_clients {[0%nat := Client 0 None "10.0.0.9"]} (Server ∅ None 1 [] ∅)) ∅ ∅ {[0%nat]} false.

Lemma console_invariant_witness :
  console_ok (on_srv (fun s => (on_text never 0 (GREETING +:+ "u7") s).2) one_client).
Proof.
  apply (console_invariant no_file no_reads never in_order); [apply in_order_ok|].
  eapply rtc_l; [apply s_accept|]. eapply rtc_l; [apply (s_read_task _ _ _ _ _ 0); set_solver|].
  eapply rtc_l; [apply (s_join _ _ _ _ _ 0 "10.0.0.9"); set_solver|]. simpl.
  replace ({[0%nat]} ∪ ∅) with ({[0%nat]} : gset nat) by set_solver.
  replace ({[0%nat]} ∖ {[0%nat]}) with (∅ : gset nat) by set_solver.
  apply rtc_once, (s_text _ _ _ _ one_client 0); [done|]. set_solver.
Defined.

Definition busy : server :=
  typed ["ls -l"; "list"; "pwd"] (on_srv (fun s => (on_text never 0 (GREETING +:+ "u7") s).2) one_client).(srv).

Lemma history_reference_witness :
  history busy = ["ls -l"; "pwd"]
  /\ handle_console no_file no_reads never in_order "!!" busy
     = handle_console no_file no_reads never in_order "pwd" busy
  /\ outs busy !! 0%nat = Some (as_bytes ("hello, u7" +:+ String line_feed "uid:u7 ls -luid:u7 pwd")).
Proof.
  split; [by vm_compute|]. split; [|by vm_compute].
  assert (server_ok busy) as Hok.
  { split_and!.
    - by_decide.
    - intros i Hi. assert (current busy = Some 0%nat) as Hb by by vm_compute.
      rewrite Hb in Hi. injection Hi as <-.
      assert (next_id busy = 1%nat) as -> by by vm_compute. lia.
    - assert (history busy = ["ls -l"; "pwd"]) as -> by by vm_compute.
      split; [unfold HISTORY_SIZE; simpl; lia|].
      repeat apply Forall_cons_2; [| |constructor]; (split; [|reflexivity]);
        (split; [reflexivity|]); intros h; reflexivity. }
  by apply (history_reference no_file no_reads never in_order busy Hok).
Defined.

(** A greeting that is read before the client is in the table selects it but is
    neither recorded nor answered. *)
Example early_greeting :
  let s := (on_text never 0 (GREETING +:+ "u7") (Server ∅ None 1 [] ∅)).2 in
  current s = Some 0%nat /\ outs s = ∅.
Proof. done. Qed.

(** A command that cannot be written to the selected client takes it off the
    table and leaves it selected: when the client's task then comes to its end,
    it waits for ever with the lock of the selection, and the console with it. *)
Definition dead (_ : nat) (_ : list Z) : option string := Some "Broken pipe".

Example broken_client_hangs_console :
  exists st, rtc (sstep no_file no_reads dead in_order) console_initial st /\ hung st = true.
Proof.
  eexists. split.
  - eapply rtc_l; [apply s_accept|]. eapply rtc_l; [apply (s_read_task _ _ _ _ _ 0); by_decide|].
    eapply rtc_l; [apply (s_join _ _ _ _ _ 0 "10.0.0.9"); by_decide|].
    eapply rtc_l; [apply (s_text _ _ _ _ _ 0 (GREETING +:+ "u7")); [done|by_decide]|].
    eapply rtc_l; [apply (s_console _ _ _ _ _ "ls"); [done|vm_compute; reflexivity]|].
    eapply rtc_l; [apply (s_end _ _ _ _ _ 0 false); [done|by_decide]|]. reflexivity.
  - vm_compute. reflexivity.
Qed.

(** A relative file name is refused as destination: its parent is the empty path. *)
Example relative_destination : local_dst no_file "/etc/hosts" "hosts" = None.
Proof. reflexivity. Qed.
End ServerDemo.
