(* ===== verification/Manager.v ===== *)
(** * The agent manager

    [agent_manager/src/manager.rs], [unix_socket_server.rs] and the start of
    [main.rs]: a process beside the agent that takes commands over a socket and
    upgrades or uninstalls it.  The long part of a command is a task of its own
    ([job]); the handlers run one after the other. *)

From S2P Require Import Prelude RustStr Bytes Shell Host Upgrade.
From Stdlib Require Import Ascii.

(** ** Commands *)

Inductive AgentCommand := Update | Uninstall | Unknown (s : string).

(** [handle_client], from the line it has read. *)
Definition command_of_line (line : string) : AgentCommand :=
  let t := trim line in
  if bool_decide (t = "update") then Update
  else if bool_decide (t = "uninstall") then Uninstall
  else Unknown t.

Section manager.
Context {W : Type} `{Os W} `{Files W} `{Disk W}.

Abbreviation st := (host W).

Definition rm (p : string) : io st unit := ignore (do_disk (RemoveFile p)).
(** The manager's [write_proc_self]: the value is read back with [cat]. *)
Definition manager_write_proc_self (year month day : Z) : io st (result string unit) :=
  let? content := mret (veda_line year month day) in
  there ← look (path_exists PROC_SELF);
  if negb (there : bool) then mret (Ok tt)
  else
    let? _ := with_err (fun e => "写入失败: " +:+ e) (write_out (WriteFile PROC_SELF content)) in
    let? _ := with_err (fun e => "读取失败: " +:+ e) (output_of "cat" [PROC_SELF]) in
    mret (Ok tt).

Definition is_systemd_available : io st bool := look (path_exists "/run/systemd/system").

Definition SYSTEMD_DIRS : list string :=
  ["/usr/lib/systemd/system"; "/lib/systemd/system"; "/etc/systemd/system"].
Definition cleanup_all_service_files (service_name : string) : io st unit :=
  for_each (fun dir => rm (dir +:+ "/" +:+ service_name)) SYSTEMD_DIRS.

Definition rm_all (ps : list string) : io st unit := for_each rm ps.
Definition run_all (cs : list (string * list string)) : io st unit :=
  for_each (fun '(c, a) => run_quietly c a) cs.

(** *** Stopping the services *)

Definition stop_units : io st unit :=
  sys ← is_systemd_available;
  if (sys : bool) then
    _ ← run_quietly "systemctl" ["stop"; "osec"];
    _ ← rm_all ["/etc/init.d/osec"; "/etc/init.d/osecservicecentos"; "/opt/osec/osec.monitor";
                "/opt/osec/osecmonitor"];
    run_all [("chkconfig", ["--del"; "osec"]); ("chkconfig", ["--del"; "osecservicecentos"])]
  else
    _ ← run_all [("/opt/osec/osec.monitor", ["stop"]); ("pkill", ["-9"; "-f"; "osecmonitor"]);
                 ("service", ["osec"; "stop"])];
    rm_all ["/etc/init.d/osecservicecentos"; "/opt/osec/osecmonitor"].

Definition kill_leftovers : io st unit :=
  run_all [("pkill", ["-9"; "-f"; "MagicArmor_0"]); ("killall", ["-9"; "MagicArmor_0"]);
           ("pkill", ["-9"; "-f"; "osecmonitor"]); ("killall", ["-9"; "osecmonitor"]);
           ("pkill", ["-9"; "-f"; "MagicArmor_cli"]); ("killall", ["-9"; "MagicArmor_cli"]);
           ("pkill", ["-9"; "-f"; "osec_cli"])].

(** [polls] rounds fit into [MAX_WAIT_SECONDS]. *)
Fixpoint wait_gone (polls : nat) (name : string) : io st unit :=
  match polls with
  | O => mret tt
  | S n => r ← succeeds "pgrep" ["-f"; name]; if (r : bool) then wait_gone n name else mret tt
  end.

Definition remove_module_file : io st unit :=
  r ← output_of "uname" ["-r"];
  match r with
  | Ok o =>
    if success o then
      d ← do_disk (RemoveFile ("/lib/modules/" +:+ trim (from_utf8_lossy (stdout o))
                                 +:+ "/kernel/drivers/base_osec.ko"));
      match d with Ok _ => run_quietly "depmod" [] | Err _ => mret tt end
    else mret tt
  | Err _ => mret tt
  end.

(** After the wait. *)
Definition stop_rest (polls : nat) : io st (result string unit) :=
  _ ← wait_gone polls "MagicArmor_0";
  _ ← rm_all ["/var/run/osec_backend.pid"; "/var/run/osec.pid"; "/var/run/osec_monitor.pid";
              "/tmp/.osec_cli.pid"; "/tmp/.osec_cli.sock"];
  _ ← run_quietly "rmmod" ["osec_base"];
  _ ← remove_module_file;
  mret (Ok tt).

(** The listing of modules is unwrapped. *)
Definition stop_osec_services (polls : nat) : io st (outcome (result string unit)) :=
  _ ← stop_units;
  _ ← kill_leftovers;
  _ ← run_quietly "rmmod" ["-f"; "osec_base"];
  r ← output_of "bash" ["-c"; "lsmod | grep osec"];
  match r with
  | Err _ => mret Panic
  | Ok _ => r ← stop_rest polls; mret (Done r)
  end.

(** *** Traces of an older version *)

Definition DPKG_SED : string := "sed -i '/^Package: osec$/,/^$/d' /var/lib/dpkg/status".
Definition APT_SED : string :=
  "[ -f /var/lib/apt/extended_states ] && sed -i '/^Package: osec$/,/^$/d' "
  +:+ "/var/lib/apt/extended_states || true".
Definition ETC_SERVICE : string := "/etc/systemd/system/agent_manager.service".

Definition cleanup_c2r_bridge : io st unit :=
  rpm ← succeeds "rpm" ["-q"; "osec"];
  _ ← (if (rpm : bool) then
         run_quietly "rpm" ["-e"; "--justdb"; "--nodeps"; "--allmatches"; "osec"]
       else mret tt);
  deb ← succeeds "sh" ["-c"; "dpkg -l | grep -q '^[ri].*osec'"];
  _ ← (if (deb : bool) then
         run_all [("sh", ["-c"; DPKG_SED]); ("sh", ["-c"; "rm -f /var/lib/dpkg/info/osec.*"]);
                  ("sh", ["-c"; APT_SED])]
       else mret tt);
  etc ← look (path_exists ETC_SERVICE);
  if (etc : bool) then _ ← rm ETC_SERVICE; run_quietly "systemctl" ["daemon-reload"] else mret tt.

(** *** The jobs *)

Definition find_upgrade_script (dir : string) : io st (option string) :=
  r ← look (read_dir dir);
  mret (match r with
        | Ok names => (fun n => dir +:+ "/" +:+ n) <$> installer names
        | Err _ => None
        end).

(** The script's output goes to a log file. *)
Definition run_script_and_cleanup (script_path cleanup_dir : string) : io st unit :=
  _ ← run_quietly "chmod" ["+x"; script_path];
  r ← succeeds "/bin/bash" [script_path; "--upgrade"];
  if (r : bool) then ignore (do_disk (RemoveDirAll cleanup_dir)) else mret tt.

Definition upgrade_job : io st unit :=
  s ← find_upgrade_script TEMP_DIR;
  match s with
  | Some script => run_script_and_cleanup script TEMP_DIR
  | None => mret tt
  end.

Definition MODULE_FILENAME : string := "filename:".
Definition module_files (text : string) : list string :=
  omap (fun l => if starts_with MODULE_FILENAME l
                 then Some (trim (trim_start_matches MODULE_FILENAME l)) else None) (lines text).

Definition remove_module : io st unit :=
  r ← output_of "modinfo" ["osec_base"];
  match r with
  | Ok o =>
    if success o then
      _ ← run_quietly "rmmod" ["osec_base"];
      match from_utf8 (stdout o) with
      | Some text => rm_all (module_files text)
      | None => mret tt
      end
    else mret tt
  | Err _ => mret tt
  end.

Definition INIT_FILES : list string :=
  ["/etc/init.d/osec"; "/etc/init.d/agent_manager"; "/etc/init.d/osecservicecentos";
   "/opt/osec/osec.monitor"; "/opt/osec/agent_manager.monitor"; "/opt/osec/osecmonitor"].
Definition CHKCONFIG_DEL : list (string * list string) :=
  [("chkconfig", ["--del"; "osec"]); ("chkconfig", ["--del"; "agent_manager"]);
   ("chkconfig", ["--del"; "osecservicecentos"])].

Definition uninstall_units : io st unit :=
  sys ← is_systemd_available;
  if (sys : bool) then
    _ ← run_all [("systemctl", ["stop"; "osec"]); ("systemctl", ["disable"; "osec"]);
                 ("systemctl", ["disable"; "agent_manager"])];
    _ ← cleanup_all_service_files "osec.service";
    _ ← cleanup_all_service_files "agent_manager.service";
    _ ← cleanup_all_service_files "osec_cli.service";
    _ ← run_quietly "systemctl" ["daemon-reload"];
    _ ← rm_all INIT_FILES;
    run_all CHKCONFIG_DEL
  else
    _ ← run_all [("/opt/osec/osec.monitor", ["stop"]); ("service", ["osec"; "stop"]);
                 ("pkill", ["-9"; "-f"; "osecmonitor"]); ("chkconfig", ["--del"; "agent_manager"])];
    _ ← rm_all INIT_FILES;
    run_all CHKCONFIG_DEL.

Definition uninstall_all : io st unit :=
  _ ← uninstall_units;
  _ ← rm_all ["/var/run/osec_backend.pid"; "/var/run/agent_manager.pid"; "/var/run/osec.pid";
              "/var/run/agent_manager.pid"; "/var/run/osec_monitor.pid";
              "/var/run/agent_manager_monitor.pid"];
  _ ← remove_module;
  there ← look (path_exists "/opt/osec");
  if (there : bool) then run_quietly "rm" ["-rf"; "/opt/osec"] else mret tt.

Inductive job := UpgradeJob | UninstallJob.

(** [UninstallJob] ends the process. *)
Definition run_job (j : job) : io st unit :=
  match j with UpgradeJob => upgrade_job | UninstallJob => uninstall_all end.

(** *** The loop *)

Context (year month day : Z) (polls : nat).

(** One command: what is done at once, and the job that is spawned. *)
Definition manage (cmd : AgentCommand) : io st (outcome (option job)) :=
  match cmd with
  | Update =>
    _ ← ignore (manager_write_proc_self year month day);
    let! _ := stop_osec_services polls in
    _ ← cleanup_c2r_bridge;
    mret (Done (Some UpgradeJob))
  | Uninstall =>
    _ ← ignore (manager_write_proc_self year month day);
    let! _ := stop_osec_services polls in
    mret (Done (Some UninstallJob))
  | Unknown _ => mret (Done None)
  end.

(** The commands of the channel in order; the jobs spawned. *)
Fixpoint run_agent_manager (cmds : list AgentCommand) : io st (outcome (list job)) :=
  match cmds with
  | [] => mret (Done [])
  | c :: cmds =>
    let! j := manage c in
    let! js := run_agent_manager cmds in
    mret (Done (option_list j ++ js))
  end.

(** *** One instance *)

Definition MANAGER_PID : string := "/var/run/agent_manager.pid".

(** [ensure_single_instance]: whether the process goes on. *)
Definition ensure_single_instance (pid : Z) : io st bool := single_instance MANAGER_PID pid.
End manager.

(** ** The manager survives its own commands *)

(** The command line of the manager's process. *)
Definition MANAGER : string := "/opt/osec/MagicArmorAgent".

(** The lines given to a shell. *)
Definition SHELL_LINES : list string :=
  ["lsmod | grep osec"; "dpkg -l | grep -q '^[ri].*osec'"; DPKG_SED; "rm -f /var/lib/dpkg/info/osec.*"; APT_SED].

(** The commands that leave the manager's process alone: what only looks, or
    changes files, modules and the lists of services; the agent's own service
    and watcher; and the killing of processes by a pattern that the manager's
    command line does not match. *)
Definition spares (c : command) : bool :=
  let p := program c in
  if bool_decide (p ∈ ["pkill"; "killall"]) then
    match args c with
    | ["-9"; pat] | ["-9"; "-f"; pat] => negb (contains pat MANAGER)
    | _ => false
    end
  else if bool_decide (p = "systemctl") then
    bool_decide (args c ∈ [["stop"; "osec"]; ["disable"; "osec"]; ["disable"; "agent_manager"]; ["daemon-reload"]])
  else if bool_decide (p = "service") then bool_decide (args c = ["osec"; "stop"])
  else if bool_decide (p = "/opt/osec/osec.monitor") then bool_decide (args c = ["stop"])
  else if bool_decide (p ∈ ["sh"; "bash"]) then
    match args c with ["-c"; line] => bool_decide (line ∈ SHELL_LINES) | _ => false end
  else bool_decide (p ∈ ["cat"; "chkconfig"; "chmod"; "depmod"; "modinfo"; "pgrep"; "rm"; "rmmod"; "rpm"; "uname"]).

(** What the upgrade job starts: the installer it finds, if any, and nothing
    else. *)
Definition installer_run (names : result string (list string)) : list command :=
  match names with
  | Ok names =>
    match installer names with
    | Some n => [Cmd "chmod" ["+x"; TEMP_DIR +:+ "/" +:+ n]; Cmd "/bin/bash" [TEMP_DIR +:+ "/" +:+ n; "--upgrade"]]
    | None => []
    end
  | Err _ => []
  end.

Section spared.
Context {W : Type} `{Os W} `{Files W} `{Disk W}.

Definition spared (h h' : host W) : Prop :=
  ran (fun c => spares c = true) (h_shell h) (h_shell h').

#[global] Instance spared_preorder : PreOrder spared.
Proof. split; [intros h; apply ran_refl|intros a b c; apply ran_trans]. Qed.

Lemma output_spared cmd argv : spares (Cmd cmd argv) = true -> keeps spared (output_of cmd argv).
Proof.
  intros Hs h. unfold output_of, on_shell, exec. destruct (spawn _ _) as [r w]. simpl.
  exists [Cmd cmd argv]. split; [done|]. by constructor.
Qed.

Lemma succeeds_spared cmd argv : spares (Cmd cmd argv) = true -> keeps spared (succeeds cmd argv).
Proof.
  intros Hs h. unfold succeeds, exec. destruct (spawn _ _) as [r w]. simpl.
  exists [Cmd cmd argv]. split; [done|]. by constructor.
Qed.

Lemma run_all_spared cs :
  Forall (fun '(c, a) => spares (Cmd c a) = true) cs -> keeps spared (run_all cs).
Proof.
  intros Hall. apply (keeps_for_each spared). intros [c a] Hin.
  rewrite Forall_forall in Hall. apply (keeps_ignore spared), succeeds_spared.
  by apply (Hall (c, a)).
Qed.

Lemma disk_spared o : keeps spared (do_disk o).
Proof. intros h. unfold do_disk, on_world. destruct (disk _ _) as [r w].
  exists []. by rewrite app_nil_r. Qed.

Lemma look_spared {A} (f : W -> A) : keeps spared (look f).
Proof. intros h. apply ran_refl. Qed.

Lemma write_spared w : keeps spared (write_out w).
Proof. intros h. unfold spared, ran. exists []. by rewrite write_out_trace, app_nil_r. Qed.

Lemma rm_all_spared ps : keeps spared (rm_all ps).
Proof. apply (keeps_for_each spared). intros p _. apply (keeps_ignore spared), disk_spared. Qed.

Lemma wait_gone_spared n name : keeps spared (wait_gone n name).
Proof.
  induction n as [|n IH]; [apply (keeps_ret spared)|]. apply (keeps_bind spared).
  - by apply succeeds_spared.
  - intros []; [exact IH|apply (keeps_ret spared)].
Qed.

(** The commands and file operations of a computation, one by one. *)
Ltac spare :=
  repeat first
    [ apply (keeps_ret spared) | apply disk_spared | apply look_spared | apply write_spared
    | apply rm_all_spared | apply wait_gone_spared
    | match goal with
      | |- keeps _ (run_all _) => apply run_all_spared; repeat constructor
      | |- keeps _ (output_of _ _) => apply output_spared; reflexivity
      | |- keeps _ (succeeds _ _) => apply succeeds_spared; reflexivity
      | |- keeps _ (run_quietly _ _) => apply (keeps_ignore spared), succeeds_spared; reflexivity
      | |- keeps _ (ignore _) => apply (keeps_ignore spared)
      | |- keeps _ (with_err _ _) => apply keeps_with_err
      | |- keeps _ (bind_ok _ _) => apply (keeps_bind_ok spared); [|intros ?]
      | |- keeps _ (mbind _ _) => apply (keeps_bind spared); [|intros ?]
      end
    | case_match ].

Lemma stop_spared polls : keeps spared (stop_osec_services polls).
Proof.
  unfold stop_osec_services, stop_units, is_systemd_available, kill_leftovers, stop_rest,
    remove_module_file. spare.
Qed.

Lemma uninstall_spared : keeps spared (run_job UninstallJob).
Proof.
  assert (forall n, keeps spared (cleanup_all_service_files n)).
  { intros n. apply (keeps_for_each spared). intros d _. apply (keeps_ignore spared), disk_spared. }
  unfold run_job, uninstall_all, uninstall_units, is_systemd_available, remove_module; spare; auto.
Qed.

Lemma remove_dir_trace p (h : host W) : trace (h_shell (ignore (do_disk (RemoveDirAll p)) h).2) = trace (h_shell h).
Proof. unfold ignore, do_disk, on_world, mbind, io_bind. by destruct (disk _ _). Qed.

Lemma succeeds_trace cmd argv (h : host W) :
  trace (h_shell (succeeds cmd argv h).2) = trace (h_shell h) ++ [Cmd cmd argv].
Proof. unfold succeeds, exec. by destruct (spawn _ _). Qed.

Lemma script_trace script dir (h : host W) :
  trace (h_shell (run_script_and_cleanup script dir h).2)
  = trace (h_shell h) ++ [Cmd "chmod" ["+x"; script]; Cmd "/bin/bash" [script; "--upgrade"]].
Proof.
  unfold run_script_and_cleanup, run_quietly, mbind, io_bind. cbn [ignore].
  pose proof (succeeds_trace "chmod" ["+x"; script] h) as E1.
  change (ignore (succeeds "chmod" ["+x"; script]) h) with (tt, (succeeds "chmod" ["+x"; script] h).2).
  cbn iota. set (h1 := (succeeds "chmod" _ h).2) in *.
  pose proof (succeeds_trace "/bin/bash" [script; "--upgrade"] h1) as E2.
  destruct (succeeds "/bin/bash" _ h1) as [ok h2]. simpl in E2. rewrite E1, <- app_assoc in E2. simpl in E2. rewrite <- E2.
  destruct ok; [apply remove_dir_trace|done].
Qed.

Lemma upgrade_trace (h : host W) :
  trace (h_shell (run_job UpgradeJob h).2)
  = trace (h_shell h) ++ installer_run (read_dir TEMP_DIR (world (h_shell h))).
Proof.
  unfold run_job, upgrade_job, find_upgrade_script, look, mbind, io_bind, mret, io_ret. simpl.
  destruct (read_dir TEMP_DIR _) as [names|e]; simpl; [|by rewrite app_nil_r].
  destruct (installer names) as [n|]; simpl; [|by rewrite app_nil_r].
  apply script_trace.
Qed.

Lemma manage_spared year month day polls c : keeps spared (manage year month day polls c).
Proof.
  assert (keeps spared (manager_write_proc_self year month day)).
  { unfold manager_write_proc_self. spare. }
  assert (keeps spared cleanup_c2r_bridge) by (unfold cleanup_c2r_bridge, rm; spare).
  assert (forall B (k : result string unit -> io (host W) (outcome B)),
            (forall r, keeps spared (k r)) ->
            keeps spared (let! r := stop_osec_services polls in k r)) as Hk.
  { intros B k Hk h. unfold bind_done. pose proof (stop_spared polls h) as Hs.
    destruct (stop_osec_services polls h) as [[r|] h']; [|exact Hs]. etrans; [exact Hs|apply Hk]. }
  destruct c; unfold manage; spare; auto; (apply Hk; intros r; spare; auto).
Qed.


(** The jobs a list of commands asks for. *)
Definition jobs_of (cmds : list AgentCommand) : list job :=
  omap (fun c => match c with
                 | Update => Some UpgradeJob
                 | Uninstall => Some UninstallJob
                 | Unknown _ => None
                 end) cmds.

Definition LSMOD : command := Cmd "bash" ["-c"; "lsmod | grep osec"].

Lemma stop_outcome b polls (h : host W) :
  (forall w : W, is_ok (spawn LSMOD w).1 = b) ->
  exists r h', stop_osec_services polls h = (if b then Done r else Panic, h').
Proof.
  intros Hb. unfold stop_osec_services, mbind, io_bind.
  destruct (stop_units h) as [? h1]. destruct (kill_leftovers h1) as [? h2].
  destruct (run_quietly _ _ h2) as [? h3]. unfold output_of at 1, on_shell, exec.
  pose proof (Hb (world (h_shell h3))) as Hs. unfold LSMOD in Hs.
  destruct (spawn _ _) as [[o|e] w]; simpl in Hs; subst b; [|by eexists (Ok tt), _].
  destruct (stop_rest polls _) as [r h4]. by exists r, h4.
Qed.

(** the manager ends with a panic at the first update or uninstall when the
    listing of modules cannot be started, as on a host without bash; when it
    can, every command is carried out and its job spawned, in order. *)
Theorem manager_panics_without_bash year month day polls b cmds (h : host W) :
  (forall w : W, is_ok (spawn LSMOD w).1 = b) ->
  (run_agent_manager year month day polls cmds h).1
  = if b || bool_decide (jobs_of cmds = []) then Done (jobs_of cmds) else Panic.
Proof.
  intros Hb. revert h. induction cmds as [|c cmds IH]; intros h.
  { simpl. by rewrite orb_true_r. }
  assert (exists h', manage year month day polls c h
            = (if b || bool_decide (jobs_of [c] = []) then Done (head (jobs_of [c])) else Panic, h'))
    as [h' E].
  { destruct c; [| |by eexists; rewrite orb_true_r]; unfold manage, mbind, io_bind;
      destruct (ignore _ h) as [[] h1]; unfold bind_done;
      destruct (stop_outcome b polls h1 Hb) as (r & h2 & ->); destruct b; simpl;
      try destruct (cleanup_c2r_bridge h2) as [[] h3]; by eexists. }
  simpl. unfold bind_done. rewrite E. specialize (IH h').
  destruct (run_agent_manager _ _ _ _ cmds h') as [r h2]. simpl in IH. subst r.
  destruct b; simpl.
  - by destruct c.
  - destruct c; [done|done|]. change (jobs_of (Unknown s :: cmds)) with (jobs_of cmds).
    by destruct (bool_decide (jobs_of cmds = [])).
Qed.
End spared.

(** ** Instances *)

Module ManagerDemo.
Import UpgradeDemo.

(** Nothing can be started on this machine. *)
#[local] Instance bare : Os machine := {| spawn _ m := (Err "No such file or directory", m) |}.

Definition here : host machine := Host (Shell ∅ []) [].

Lemma manager_panics_without_bash_witness :
  (run_agent_manager 2025 1 1 3 [Unknown "status"; Update; Uninstall] here).1 = Panic.
Proof.
  rewrite (manager_panics_without_bash 2025 1 1 3 false [Unknown "status"; Update; Uninstall] here);
    [reflexivity|done].
Defined.

(** What the agent sends for an update is understood as one. *)
Example update_understood : command_of_line ("update" +:+ String line_feed "") = Update.
Proof. reflexivity. Qed.

(** The file names process 4711, which runs or not. *)
#[local] Instance pid_disk : Disk bool := {|
  disk _ w := (Ok tt, w);
  path_exists p w := bool_decide (p = MANAGER_PID) || (w && bool_decide (p = "/proc/4711"));
  read_dir _ _ := Ok [];
  unzip _ _ w := (Ok tt, w);
  read_text _ _ := Ok ("4711" +:+ String line_feed "")
|}.
#[local] Instance pid_files : Files bool := {| put _ w := (Ok tt, w) |}.

Example second_start_stops :
  ensure_single_instance 4712 (Host (Shell true []) []) = (false, Host (Shell true []) [])
  /\ ensure_single_instance 4712 (Host (Shell false []) [])
     = (true, Host (Shell false []) [WriteFile MANAGER_PID "4712"]).
Proof. by vm_compute. Qed.
End ManagerDemo.
