(* ===== verification/LogWorker.v ===== *)
(** * The alert worker and self protection

    [crates/reporter/src/log_worker.rs]: a task that takes the alerts of file
    audit and device control off the bounded channel, collects them, and posts
    what it has every thirty seconds; and [self_protect.rs], which reports an
    attempt on the agent's own files at once.  Producers, timer and worker
    interleave freely: the worker is a transition system over the channel of
    the audit reporter. *)

From Stdlib Require Import Ascii.
From S2P Require Import Prelude RustStr Bytes Zcopy Md5Cache Reporter.

(** ** The worker *)

(** One post: what was sent, and whether the server answered. *)
Definition batch : Type := list LogEntry * bool.

Record worker := Worker {
  w_chan : Reporter.state;               (* the channel [file_audit_log_rx] *)
  w_senders : bool;                      (* is a sender of it alive *)
  log_buffer : list AuditLogInfo;
  w_batches : list batch;                (* newest last *)
  w_result : option (result string string)
}.

(** What happens next: a producer hands in an alert, the last sender goes, the
    worker's [select!] takes the channel, or the timer. *)
Inductive event :=
| Produce (log : AuditLogInfo)
| SendersGone
| Receive
| Tick.

Definition set_queue (q : list AuditLogInfo) (alive : bool) (s : Reporter.state) : Reporter.state :=
  Reporter.State (md5s s) q (capacity s) alive (posted s).

Section worker.
(** Whether the server answers the next post. *)
Context (answers : list batch -> bool).

(** Build and post what is buffered; a failed post is only printed. *)
Definition flush_buffer (w : worker) : worker :=
  match log_buffer w with
  | [] => w
  | logs =>
    match build_alert_log_json logs with
    | Ok entries => Worker (w_chan w) (w_senders w) []
                      (w_batches w ++ [(entries, answers (w_batches w))]) (w_result w)
    | Err _ => w
    end
  end.

(** After the loop; the receiver is dropped when the task returns. *)
Definition finish (w : worker) : worker :=
  let w := flush_buffer w in
  Worker (set_queue (queue (w_chan w)) false (w_chan w)) (w_senders w) (log_buffer w) (w_batches w)
    (Some (Ok "后台告警任务正常退出")).

(** One event and, of a producer, what [try_send] answers; [None] while the
    event cannot happen. *)
Definition on_event (e : event) (w : worker) : option (worker * result string unit) :=
  match e with
  | Produce log =>
    if w_senders w then
      let '(r, c) := try_send log (w_chan w) in
      Some (Worker c (w_senders w) (log_buffer w) (w_batches w) (w_result w), r)
    else None
  | SendersGone => Some (Worker (w_chan w) false (log_buffer w) (w_batches w) (w_result w), Ok tt)
  | Receive =>
    match w_result w, queue (w_chan w) with
    | Some _, _ => None
    | None, log :: q =>
      Some (Worker (set_queue q (receiver_alive (w_chan w)) (w_chan w)) (w_senders w)
              (log_buffer w ++ [log]) (w_batches w) None, Ok tt)
    | None, [] => if w_senders w then None else Some (finish w, Ok tt)
    end
  | Tick => match w_result w with Some _ => None | None => Some (flush_buffer w, Ok tt) end
  end.

(** What the channel took. *)
Definition taken (e : event) (r : result string unit) : list AuditLogInfo :=
  match e, r with Produce log, Ok _ => [log] | _, _ => [] end.

(** The alerts the channel took during [es], in order, and the state after. *)
Fixpoint run_events (es : list event) (w : worker) : option (list AuditLogInfo * worker) :=
  match es with
  | [] => Some ([], w)
  | e :: es =>
    '(w', r) ← on_event e w;
    '(acc, w'') ← run_events es w';
    Some (taken e r ++ acc, w'')
  end.

(** [start_log_services]: without an HTTP client the task ends at once and the
    channel closes. *)
Definition start_log_services (base_url : option string) (s : Reporter.state) : worker :=
  match base_url with
  | None => Worker (set_queue (queue s) false s) true [] [] (Some (Err "创建 NetClient 失败"))
  | Some _ => Worker s true [] [] None
  end.
End worker.

(** ** Every alert is posted once *)

Definition unsent (w : worker) : list AuditLogInfo := log_buffer w ++ queue (w_chan w).

Section conserve.
Context (answers : list batch -> bool).

Lemma build_alert_log_json_ok log logs :
  build_alert_log_json (log :: logs) = Ok (alert_entry <$> log :: logs).
Proof. reflexivity. Qed.

(** A flush moves the buffer into one batch. *)
Lemma flush_buffer_spec w :
  exists b, flush_buffer answers w
            = Worker (w_chan w) (w_senders w) [] (w_batches w ++ b) (w_result w)
    /\ concat b.*1 = alert_entry <$> log_buffer w /\ Forall (fun x => x.1 <> []) b.
Proof.
  destruct w as [c sn [|log logs] bs r]; unfold flush_buffer; cbn [log_buffer].
  - exists []. by rewrite app_nil_r.
  - rewrite build_alert_log_json_ok. eexists. split; [done|]. split; [|by repeat constructor].
    simpl. by rewrite app_nil_r.
Qed.

(** One event: what the channel accepts joins what was not yet sent, and what
    leaves it is the front, posted in order. *)
Lemma on_event_conserves e w w' r :
  on_event answers e w = Some (w', r) ->
  exists b, w_batches w' = w_batches w ++ b
    /\ Forall (fun x => x.1 <> []) b
    /\ (alert_entry <$> unsent w ++ taken e r)
       = concat b.*1 ++ (alert_entry <$> unsent w').
Proof.
  destruct (flush_buffer_spec w) as (b & Ef & Hcat & Hne).
  assert (forall q, alert_entry <$> log_buffer w ++ q = concat b.*1 ++ (alert_entry <$> q)) as Hflush
    by (intros q; by rewrite fmap_app, Hcat).
  destruct e as [log| | |]; cbn [on_event]; intros E.
  - destruct (w_senders w); [|done]. unfold try_send in E. exists [].
    rewrite app_nil_r. destruct (receiver_alive (w_chan w)); simpl in E;
      [case_bool_decide|]; simplify_eq; (split; [done|]; split; [done|]);
      unfold unsent; simpl; by rewrite ?app_nil_r, <- ?app_assoc.
  - simplify_eq. exists []. by rewrite !app_nil_r.
  - destruct (w_result w); [done|]. destruct (queue (w_chan w)) as [|log q] eqn:Eq; simplify_eq.
    + destruct (w_senders w); [done|]. simplify_eq. exists b. unfold finish. rewrite Ef.
      split; [done|]. split; [done|]. unfold unsent. simpl. rewrite Eq, app_nil_r. apply Hflush.
    + exists []. rewrite !app_nil_r. split; [done|]. split; [done|].
      unfold unsent. simpl. by rewrite Eq, <- app_assoc.
  - destruct (w_result w); [done|]. simplify_eq. exists b. rewrite Ef. split; [done|].
    split; [done|]. unfold unsent. simpl. rewrite app_nil_r. apply Hflush.
Qed.

(** The channel stays within its bound, and a worker that has ended has nothing
    left and a closed channel. *)
Definition worker_ok (w : worker) : Prop :=
  (length (queue (w_chan w)) <= capacity (w_chan w))%nat
  /\ (w_result w <> None -> unsent w = [] /\ receiver_alive (w_chan w) = false).

Lemma on_event_ok e w w' r : on_event answers e w = Some (w', r) -> worker_ok w -> worker_ok w'.
Proof.
  intros E [Hcap Hend]. destruct (flush_buffer_spec w) as (b & Ef & _).
  destruct e as [log| | |]; cbn [on_event] in E.
  - destruct (w_senders w); [|done]. unfold try_send in E.
    destruct (receiver_alive (w_chan w)) eqn:Ea; simpl in E; [case_bool_decide|]; simplify_eq;
      (split; simpl; [rewrite ?length_app; simpl; lia|intros Hr; destruct (Hend Hr); first [congruence|by split]]).
  - by simplify_eq.
  - destruct (w_result w) eqn:Er; [done|]. destruct (queue (w_chan w)) as [|log q] eqn:Eq; simplify_eq.
    + destruct (w_senders w); [done|]. simplify_eq. unfold finish. rewrite Ef.
      split; unfold unsent; simpl; rewrite Eq; [simpl; lia|done].
    + split; simpl in *; [lia|done].
  - destruct (w_result w) eqn:Er; [done|]. simplify_eq. rewrite Ef. by split.
Qed.

Lemma run_events_conserves es w acc w' :
  run_events answers es w = Some (acc, w') -> worker_ok w ->
  exists b, w_batches w' = w_batches w ++ b
    /\ Forall (fun x => x.1 <> []) b
    /\ (alert_entry <$> unsent w ++ acc) = concat b.*1 ++ (alert_entry <$> unsent w')
    /\ worker_ok w'.
Proof.
  revert w acc. induction es as [|e es IH]; intros w acc Hrun Hok; simpl in Hrun.
  { simplify_eq. exists []. by rewrite !app_nil_r. }
  destruct (on_event answers e w) as [[w1 r]|] eqn:E1; [|done]. simpl in Hrun.
  destruct (run_events answers es w1) as [[acc1 w2]|] eqn:E2; [|done]. simpl in Hrun. simplify_eq.
  apply on_event_ok in E1 as Hok1; [|done].
  apply on_event_conserves in E1 as (b1 & Eb1 & Hf1 & H1).
  destruct (IH _ _ E2 Hok1) as (b2 & Eb2 & Hf2 & H2 & Hok2).
  exists (b1 ++ b2). rewrite Eb2, Eb1, app_assoc. split; [done|]. split; [by apply Forall_app|].
  split; [|done]. rewrite (app_assoc (unsent w)), (fmap_app _ (_ ++ _)), H1, fmap_app, concat_app, <- !app_assoc.
  f_equal. by rewrite <- fmap_app.
Qed.

Lemma run_events_app es1 es2 w :
  run_events answers (es1 ++ es2) w
  = '(a, w1) ← run_events answers es1 w; '(b, w2) ← run_events answers es2 w1; Some (a ++ b, w2).
Proof.
  revert w. induction es1 as [|e es1 IH]; intros w; simpl.
  { by destruct (run_events answers es2 w) as [[]|]. }
  destruct (on_event answers e w) as [[w1 r]|]; [simpl|done]. rewrite IH.
  destruct (run_events answers es1 w1) as [[a w2]|]; [simpl|done].
  destruct (run_events answers es2 w2) as [[b w3]|]; [simpl|done]. by rewrite app_assoc.
Qed.

(** The worker's own moves: the channel is read out, then the timer fires. *)
Lemma receive_all w :
  w_result w = None ->
  exists c, run_events answers (repeat Receive (length (queue (w_chan w)))) w
    = Some ([], Worker c (w_senders w) (unsent w) (w_batches w) None) /\ queue c = [].
Proof.
  destruct w as [c sn buf bs r]. unfold unsent. simpl. intros ->.
  remember (queue c) as q eqn:Eq. revert c buf Eq. induction q as [|log q IH]; intros c buf Eq; simpl.
  - exists c. by rewrite app_nil_r.
  - rewrite <- Eq. simpl. destruct (IH (set_queue q (receiver_alive c) c) (buf ++ [log])) as (c' & E & Hq);
      [done|]. exists c'. rewrite E. simpl. by rewrite <- app_assoc.
Qed.
End conserve.

(** C14: no alert is lost or repeated on its way to the server: whatever the
    producers, the timer and the worker do, and in which order, the alerts the
    channel accepted are the posted batches, one after the other, followed by
    what is still buffered or queued.  Batches are never empty, the channel
    stays within its bound, and a worker that has ended has posted everything. *)
Theorem alerts_posted_once answers es base s acc w :
  queue s = [] -> run_events answers es (start_log_services base s) = Some (acc, w) ->
  (alert_entry <$> acc) = concat (w_batches w).*1 ++ (alert_entry <$> unsent w)
  /\ Forall (fun b => b.1 <> []) (w_batches w)
  /\ (length (queue (w_chan w)) <= capacity (w_chan w))%nat
  /\ (w_result w <> None -> unsent w = []).
Proof.
  intros Hq Hrun. apply run_events_conserves in Hrun as (b & Eb & Hne & Hc & Hok).
  - assert (unsent (start_log_services base s) = []) as Hu by (by destruct base).
    assert (w_batches (start_log_services base s) = []) as Hb by (by destruct base).
    rewrite Hu in Hc. rewrite Hb in Eb. cbn [app] in *. rewrite Eb. destruct Hok as [Hcap Hend].
    split; [exact Hc|]. split; [done|]. split; [done|]. intros Hr. by apply Hend in Hr as [? _].
  - destruct base; split; simpl; rewrite ?Hq; simpl; try lia; done.
Qed.

(** nothing waits for ever: from any state of a running worker, its own
    moves alone, emptying the channel and one tick of the timer, lead to a state
    with nothing left to send, the waiting alerts being one batch.  The
    batch is not kept when the server does not answer it. *)
Theorem waiting_alerts_posted answers w :
  w_result w = None ->
  exists w', run_events answers (repeat Receive (length (queue (w_chan w))) ++ [Tick]) w = Some ([], w')
    /\ unsent w' = [] /\ w_result w' = None
    /\ w_batches w' = w_batches w
        ++ match unsent w with
           | [] => []
           | l => [(alert_entry <$> l, answers (w_batches w))]
           end.
Proof.
  intros Hr. destruct (receive_all answers w Hr) as (c & E & Hq).
  rewrite run_events_app, E. cbn [mbind option_bind run_events on_event w_result].
  eexists. split; [reflexivity|]. unfold flush_buffer. cbn [log_buffer w_batches].
  destruct (unsent w) as [|log l].
  - rewrite app_nil_r. unfold unsent. cbn [log_buffer w_chan]. by rewrite Hq.
  - rewrite build_alert_log_json_ok. unfold unsent. cbn [log_buffer w_chan]. by rewrite Hq.
Qed.

(** ** Self protection *)

Record AvSelfProtecNetlink := SelfProtec {
  sp_pid : Z;   (** i32 *)
  sp_ppid : Z;  (** i32 *)
  sp_uid : Z;   (** i32 *)
  sp_type : Z;  (** i32 *)
  sp_comm : list Z;
  sp_path : list Z
}.

Definition AvSelfProtecNetlink_layout : list (Z * Z) :=
  [u32_field; u32_field; u32_field; u32_field; u8s 128; u8s 128].

(** [AvSelfProtecNetlink::from_bytes]. *)
Definition self_protect_from_bytes (t : target) (data : list Z) : option AvSelfProtecNetlink :=
  if blen data <? size_of AvSelfProtecNetlink_layout then None
  else
    let i32 o := to_signed 32 (from_ne_bytes t (sub o 4 data)) in
    Some (SelfProtec (i32 0%nat) (i32 4%nat) (i32 8%nat) (i32 12%nat)
            (sub 16 128 data) (sub 144 128 data)).

Example self_protect_offsets :
  offsets_of AvSelfProtecNetlink_layout = [0; 4; 8; 12; 16; 144]
  /\ size_of AvSelfProtecNetlink_layout = 272.
Proof. by vm_compute. Qed.

(** [cstr_to_string]: without a NUL, the whole field. *)
Definition cstr_to_string (bytes : list Z) : string :=
  from_utf8_lossy (default bytes (until_nul bytes)).

Definition looks_like_path (s : string) : bool := starts_with "/" s.

Record SelfProtectLogInfo := SelfProtectLog {
  spl_file_dir : option string;
  spl_proc_dir : option string;
  spl_proc_hash : option string;
  spl_proc_param : option string;
  spl_target_dir : option string;
  spl_type : Z;   (** u16 *)
  spl_level : Z;
  spl_time : Z
}.

Definition non_empty (s : string) : option string := if str_is_empty s then None else Some s.

(** The agent of the handler: what the reporter keeps, and the alerts posted. *)
Record protect_state := PState {
  p_state : Reporter.state;
  p_posts : list (string * list SelfProtectLogInfo)
}.

Section protect.
Context (t : target).
Context (md5_hex : list Z -> string) (can_create : string -> bool).
Context (uuid : gmap string node -> list Z) (now : Z).
(** The base address of the HTTP client, when one can be made. *)
Context (net_client : option string).

Definition to_log_info (i : AvSelfProtecNetlink) : io Reporter.state SelfProtectLogInfo :=
  let proc_dir := cstr_to_string (sp_comm i) in
  hash ← (if looks_like_path proc_dir
          then r ← get_md5_global md5_hex can_create uuid now proc_dir; mret (ok r)
          else mret None);
  mret (SelfProtectLog (non_empty (cstr_to_string (sp_path i))) (non_empty proc_dir) hash None None
          (wrap 16 (sp_type i)) 3 1692760326).

(** [build_self_protect_alert_log_json]: one entry per log, the same fields. *)
Definition build_self_protect_alert_log_json (logs : list SelfProtectLogInfo)
    : result string (list SelfProtectLogInfo) :=
  match logs with [] => Err "No valid log entries" | _ => Ok logs end.

Definition handle_self_protect_oper (data : list Z) (_ : Z)
    : io protect_state (result string unit) := fun s =>
  match self_protect_from_bytes t data with
  | None => (Err "解析失败", s)
  | Some info =>
    let '(log, r) := to_log_info info (p_state s) in
    let s := PState r (p_posts s) in
    match net_client with
    | None => (Err "创建 NetClient 失败", s)
    | Some base =>
      match build_self_protect_alert_log_json [log] with
      | Ok entries => (Ok tt, PState r (p_posts s ++ [(base +:+ "/v1/alertupload", entries)]))
      | Err _ => (Ok tt, s)
      end
    end
  end.
End protect.

(** *** What the kernel sends *)

Definition field128 (s : string) : list Z := as_bytes s ++ repeat 0 (128 - String.length s).

(** The structure as the kernel lays it out. *)
Definition self_protect_event (t : target) (pid ppid uid ty : Z) (comm path : string) : list Z :=
  to_ne_bytes t 4 pid ++ to_ne_bytes t 4 ppid ++ to_ne_bytes t 4 uid ++ to_ne_bytes t 4 ty
  ++ field128 comm ++ field128 path.

(** Text that fits a field. *)
Definition fits_field (s : string) : Prop :=
  utf8_valid (as_bytes s) = true /\ str_mem zero s = false /\ (String.length s <= 128)%nat.

Lemma until_nul_clean l k : 0 ∉ l -> until_nul (l ++ repeat 0 k) = if (k =? 0)%nat then None else Some l.
Proof.
  induction l as [|b l IH]; intros Hl; simpl.
  - by destruct k.
  - apply not_elem_of_cons in Hl as [Hb Hl]. rewrite (proj2 (Z.eqb_neq b 0)), (IH Hl) by done.
    by destruct (k =? 0)%nat.
Qed.

Lemma cstr_field s : fits_field s -> cstr_to_string (field128 s) = s.
Proof.
  intros (Hv & Hz & Hl). unfold cstr_to_string, field128.
  assert (0 ∉ as_bytes s) as Hn by exact (as_bytes_mem zero s Hz).
  rewrite until_nul_clean by done. destruct (Nat.eqb_spec (128 - String.length s) 0) as [E|E]; simpl.
  - rewrite E. simpl. by rewrite app_nil_r, from_utf8_as_bytes.
  - by rewrite from_utf8_as_bytes.
Qed.

Lemma length_field128 s : (String.length s <= 128)%nat -> length (field128 s) = 128%nat.
Proof. intros Hl. unfold field128. rewrite length_app, length_as_bytes, repeat_length. lia. Qed.

Lemma self_protect_decodes t pid ppid uid ty comm path extra :
  fits_field comm -> fits_field path ->
  self_protect_from_bytes t (self_protect_event t pid ppid uid ty comm path ++ extra)
  = Some (SelfProtec (to_signed 32 pid) (to_signed 32 ppid)
            (to_signed 32 uid) (to_signed 32 ty) (field128 comm) (field128 path)).
Proof.
  intros (_ & _ & Hc) (_ & _ & Hp). apply length_field128 in Hc, Hp.
  unfold self_protect_from_bytes, self_protect_event.
  pose proof (length_to_ne_bytes t 4) as Hn. rewrite <- !app_assoc.
  rewrite (proj2 (Z.ltb_ge _ _)).
  2:{ change (size_of AvSelfProtecNetlink_layout) with 272. unfold blen.
      rewrite !length_app, !Hn, Hc, Hp. lia. }
  set (a := to_ne_bytes t 4 pid). set (b := to_ne_bytes t 4 ppid). set (c := to_ne_bytes t 4 uid).
  set (d := to_ne_bytes t 4 ty).
  assert (length a = 4%nat /\ length b = 4%nat /\ length c = 4%nat /\ length d = 4%nat)
    as (Ha & Hb & Hcc & Hd) by (split_and!; apply Hn).
  rewrite sub_front by done. rewrite (sub_parts a b) by done.
  rewrite (app_assoc a b), (sub_parts (a ++ b) c) by (rewrite ?length_app; lia).
  rewrite (app_assoc (a ++ b) c), (sub_parts ((a ++ b) ++ c) d) by (rewrite ?length_app; lia).
  rewrite (app_assoc _ d), (sub_parts (((a ++ b) ++ c) ++ d)) by (rewrite ?length_app; lia).
  rewrite (app_assoc _ (field128 comm)), (sub_parts _ (field128 path)) by (rewrite ?length_app; lia).
  unfold a, b, c, d. rewrite !from_to_ne_bytes. unfold to_signed. by rewrite !wrap_idemp.
Qed.

Lemma wrap16_signed x : wrap 16 (to_signed 32 x) = wrap 16 x.
Proof.
  unfold to_signed, wrap. assert ((x mod 2 ^ 32) mod 2 ^ 16 = x mod 2 ^ 16) as E.
  { symmetry. apply Znumtheory.Zmod_div_mod; [lia|lia|by exists (2 ^ 16)]. }
  case_match; [done|]. rewrite Zminus_mod, E. by rewrite Z.sub_0_r, Z.mod_mod.
Qed.

(** an attempt on the agent's files that the kernel reports becomes exactly
    one alert: with the process and the file the kernel named, the low sixteen
    bits of its type and the hash of the process's file when its name is a path;
    nothing goes to the batched channel.  A message shorter than the
    structure is refused and leaves the agent as it was. *)
Theorem self_protect_reported t md5_hex can_create uuid now base
    pid ppid uid ty comm path extra data_len s :
  fits_field comm -> fits_field path ->
  let handle := handle_self_protect_oper t md5_hex can_create uuid now (Some base) in
  (exists s', handle (self_protect_event t pid ppid uid ty comm path ++ extra) data_len s = (Ok tt, s')
    /\ p_posts s' = p_posts s ++
         [(base +:+ "/v1/alertupload",
           [SelfProtectLog (non_empty path) (non_empty comm)
              (if starts_with "/" comm
               then ok (get_md5_global md5_hex can_create uuid now comm (p_state s)).1 else None)
              None None (wrap 16 ty) 3 1692760326])]
    /\ quiet (p_state s) (p_state s'))
  /\ forall data, blen data < 272 -> handle data data_len s = (Err "解析失败", s).
Proof.
  intros Hc Hp handle. split.
  - unfold handle, handle_self_protect_oper. rewrite self_protect_decodes by done.
    unfold to_log_info. cbn [sp_comm sp_path sp_type]. rewrite !cstr_field, wrap16_signed by done.
    unfold looks_like_path. destruct (starts_with "/" comm).
    + unfold mbind, io_bind. cbn beta iota.
      destruct (get_md5_global md5_hex can_create uuid now comm (p_state s)) as [r m] eqn:E.
      eexists. split; [reflexivity|]. split; [done|]. by apply (get_md5_global_quiet _ _ _ _ _ _ _ _ E).
    + eexists. split; [reflexivity|]. by split.
  - intros data Hd. unfold handle, handle_self_protect_oper, self_protect_from_bytes.
    change (size_of AvSelfProtecNetlink_layout) with 272. by rewrite (proj2 (Z.ltb_lt _ _)).
Qed.

(** ** Instances *)

Module WorkerDemo.

Definition log (path : string) : AuditLogInfo := {|
  file_path := Some path; rename_dir := None; exception_process := None; log_md5 := None;
  n_type := 3001; n_level := 3; n_time := 1692760326; notice_remark := None;
  peripheral_name := None; peripheral_remark := None; peripheral_eid := None; p_param := None |}.

Definition idle : Reporter.state := Reporter.State (Md5State ∅ ∅) [] 2 true [].

(** The server answers the first post only. *)
Definition once (h : list batch) : bool := bool_decide (h = []).

(** A full channel, two batches and the end of the agent. *)
Definition day : list event :=
  [Tick; Produce (log "/a"); Produce (log "/b"); Produce (log "/lost"); Receive; Tick;
   Receive; Produce (log "/c"); SendersGone; Receive; Receive].

(** What the server got of [day]: the batch it did not answer is gone. *)
Example outage_loses_alerts :
  exists acc w, run_events once day (start_log_services (Some "https://s") idle) = Some (acc, w)
    /\ map file_path acc = [Some "/a"; Some "/b"; Some "/c"]
    /\ map (fun b : batch => (map le_dir b.1, b.2)) (w_batches w)
       = [([Some "/a"], true); ([Some "/b"; Some "/c"], false)]
    /\ unsent w = [] /\ w_result w = Some (Ok "后台告警任务正常退出").
Proof. eexists _, _. by vm_compute. Qed.

Lemma alerts_posted_once_witness :
  (alert_entry <$> [log "/a"; log "/b"; log "/c"])
  = concat [[alert_entry (log "/a")]; [alert_entry (log "/b"); alert_entry (log "/c")]] ++ [].
Proof.
  destruct (run_events once day (start_log_services (Some "https://s") idle)) as [[acc w]|] eqn:E;
    [|by vm_compute in E].
  pose proof (alerts_posted_once once day (Some "https://s") idle acc w eq_refl E) as [H _].
  vm_compute in E. injection E as <- <-. exact H.
Defined.

Lemma waiting_alerts_posted_witness :
  exists w', run_events once [Receive; Tick]
      (Worker (set_queue [log "/b"] true idle) true [log "/a"] [] None) = Some ([], w')
    /\ w_batches w' = [([alert_entry (log "/a"); alert_entry (log "/b")], true)].
Proof.
  destruct (waiting_alerts_posted once
    (Worker (set_queue [log "/b"] true idle) true [log "/a"] [] None) eq_refl)
    as (w' & E & _ & _ & Hb).
  exists w'. split; [exact E|exact Hb].
Defined.

Lemma self_protect_reported_witness :
  exists s', handle_self_protect_oper le64 (fun _ => "0cc1") (fun _ => false) (fun _ => []) 0
      (Some "https://s") (self_protect_event le64 7 1 0 65537 "vi" "/opt/osec/x") 272
      (PState idle []) = (Ok tt, s')
    /\ p_posts s' = [("https://s/v1/alertupload",
         [SelfProtectLog (Some "/opt/osec/x") (Some "vi") None None None 1 3 1692760326])].
Proof.
  destruct (self_protect_reported le64 (fun _ => "0cc1") (fun _ => false) (fun _ => []) 0 "https://s"
    7 1 0 65537 "vi" "/opt/osec/x" [] 272 (PState idle [])) as [(s' & E & Hp & _) _].
  - split_and!; [reflexivity|reflexivity|simpl; lia].
  - split_and!; [reflexivity|reflexivity|simpl; lia].
  - exists s'. rewrite app_nil_r in E. split; [exact E|exact Hp].
Defined.

End WorkerDemo.
