(* ===== verification/SshLogin.v ===== *)
(** * Logins

    [crates/task/src/ssh_login_task.rs]: every minute the collector reads what
    was added to the two login databases ([/var/log/btmp], failed, and
    [/var/log/wtmp], successful), turns the records of ssh logins into logs,
    leaves out those it has reported before, and posts the rest.  It keeps how
    far it has read in each file and the keys of what it has reported. *)

From Stdlib Require Import Ascii.
From S2P Require Import Prelude RustStr Bytes Zcopy NetReport IpAddr.

(** ** Records *)

Definition Utmp_layout : list (Z * Z) :=
  [u16_field; u32_field; u8s 32; u8s 4; u8s 32; u8s 256; (4, 2); u32_field; (8, 4); (16, 4); u8s 20].

Definition UTMP_SIZE : nat := Z.to_nat (size_of Utmp_layout).
Definition USER_PROCESS : Z := 7.

Example Utmp_offsets :
  offsets_of Utmp_layout = [0; 4; 8; 40; 44; 76; 332; 336; 340; 348; 364] /\ UTMP_SIZE = 384%nat.
Proof. by vm_compute. Qed.

(** The fields the collector looks at. *)
Record Utmp := {
  ut_type : Z;    (** i16 *)
  ut_line : list Z;
  ut_user : list Z;
  ut_host : list Z;
  tv_sec : Z      (** i32 *)
}.

Record SyslogSshLog := SshLog {
  ssh_ip : string;
  ssh_username : string;
  login_type : string;
  ssh_status : Z;
  ssh_log_type : Z;
  ssh_time : Z
}.

Section records.
Context (t : target).

(** [ptr::read] of the buffer. *)
Definition load_utmp (b : list Z) : Utmp := {|
  ut_type := to_signed 16 (from_ne_bytes t (sub 0 2 b));
  ut_line := sub 8 32 b;
  ut_user := sub 44 32 b;
  ut_host := sub 76 256 b;
  tv_sec := to_signed 32 (from_ne_bytes t (sub 340 4 b))
|}.

(** [from_utf8_lossy(..).trim_end_matches('\0')]. *)
Definition trim_nul (b : list Z) : string :=
  String.rev (trim_start_matches (String zero "") (String.rev (from_utf8_lossy b))).

Definition is_valid_ip (ip : string) : bool := bool_decide (is_Some (parse_ip ip)).

Definition parse_utmp_entry (u : Utmp) (is_btmp : bool) : option SyslogSshLog :=
  let username := trim_nul (ut_user u) in
  if str_is_empty username then None
  else
    let ip := trim_nul (ut_host u) in
    if str_is_empty ip || bool_decide (ip = "0.0.0.0") then None
    else
      let tty := trim_nul (ut_line u) in
      if negb (starts_with "pts/" tty) && negb (contains "ssh" tty) then None
      else if negb (is_valid_ip ip) then None
      else Some (SshLog ip username "SSH" (if is_btmp then 0 else 1) 5 (tv_sec u)).

(** One record: only logins are looked at. *)
Definition utmp_log (is_btmp : bool) (b : list Z) : option SyslogSshLog :=
  let u := load_utmp b in if ut_type u =? USER_PROCESS then parse_utmp_entry u is_btmp else None.

(** [read_exact] in a loop until it fails: the whole records of what is left.
    A record takes at least a byte, so that the length is fuel enough. *)
Fixpoint whole_records (fuel : nat) (l : list Z) : list (list Z) :=
  match fuel with
  | O => []
  | S fuel => if (length l <? UTMP_SIZE)%nat then []
              else take UTMP_SIZE l :: whole_records fuel (drop UTMP_SIZE l)
  end.

Definition read_logs (is_btmp : bool) (l : list Z) : list SyslogSshLog :=
  omap (utmp_log is_btmp) (whole_records (length l) l).

(** ** The collector *)

(** A login database: not there, not to be opened, or its bytes. *)
Inductive login_file := Missing | Unreadable (e : string) | Holds (l : list Z).

Record collector := Collector {
  btmp_offset : Z;
  wtmp_offset : Z;
  last_records : gset string
}.

Definition get_file_end (f : login_file) : Z := match f with Holds l => blen l | _ => 0 end.

(** [SshLoginCollector::new]: only what is written from now on. *)
Definition collector_new (btmp wtmp : login_file) : collector :=
  Collector (get_file_end btmp) (get_file_end wtmp) ∅.

(** [read_utmp_file], with the offset of the file.  [read_exact] that meets
    the end of the file has consumed what there was, so that the position after
    the loop is the end of the file. *)
Definition read_utmp_file (path : string) (f : login_file) (is_btmp : bool) (offset : Z)
    : result string (list SyslogSshLog) * Z :=
  match f with
  | Missing => (Ok [], offset)
  | Unreadable e => (Err ("打开" +:+ path +:+ "失败: " +:+ e), offset)
  | Holds l =>
    let offset := if blen l <? offset then 0 else offset in
    (Ok (read_logs is_btmp (drop (Z.to_nat offset) l)), blen l)
  end.

Definition record_key (log : SyslogSshLog) : string :=
  ssh_ip log +:+ ":" +:+ ssh_username log +:+ ":" +:+ dec_signed (ssh_time log) +:+ ":"
  +:+ dec_signed (ssh_status log).

Definition filter_new_records (logs : list SyslogSshLog) (c : collector) : list SyslogSshLog :=
  retain (fun log => negb (bool_decide (record_key log ∈ last_records c))) logs.

Definition update_last_records (logs : list SyslogSshLog) (c : collector) : collector :=
  let kept := if (1000 <? size (last_records c))%nat then ∅ else last_records c in
  Collector (btmp_offset c) (wtmp_offset c) (list_to_set (record_key <$> logs) ∪ kept).

(** [build_ssh_login_json]: the logs as they are. *)
Definition build_ssh_login_json (logs : list SyslogSshLog) : result string (list SyslogSshLog) :=
  match logs with [] => Err "No valid SSH login log entries" | _ => Ok logs end.

(** [collect_and_report] over the files as they are; [answered]: does the
    server answer; the post it makes, if any. *)
Definition collect_and_report (btmp wtmp : login_file) (answered : bool)
    : io collector (option (list SyslogSshLog)) := fun c =>
  let '(failed, bo) := read_utmp_file "/var/log/btmp" btmp true (btmp_offset c) in
  let '(logins, wo) := read_utmp_file "/var/log/wtmp" wtmp false (wtmp_offset c) in
  let c := Collector bo wo (last_records c) in
  let logs := default [] (ok failed) ++ default [] (ok logins) in
  match build_ssh_login_json (filter_new_records logs c) with
  | Ok new_logs => (Some new_logs, if answered then update_last_records new_logs c else c)
  | Err _ => (None, c)
  end.
End records.

(** ** Reading *)

Definition is_record (b : list Z) : Prop := length b = UTMP_SIZE.

Lemma whole_records_concat fuel rs part :
  Forall is_record rs -> (length part < UTMP_SIZE)%nat -> (length (concat rs ++ part) <= fuel)%nat ->
  whole_records fuel (concat rs ++ part) = rs.
Proof.
  intros Hrs Hp. revert fuel. induction Hrs as [|r rs Hr Hrs IH]; intros fuel Hf.
  - destruct fuel as [|fuel]; [done|]. cbn [concat app whole_records].
    by rewrite (proj2 (Nat.ltb_lt _ _)).
  - unfold is_record in Hr. cbn [concat] in *. rewrite <- app_assoc in *. rewrite length_app in Hf.
    change UTMP_SIZE with 384%nat in *. destruct fuel as [|fuel]; [lia|]. cbn [whole_records].
    change UTMP_SIZE with 384%nat.
    rewrite (proj2 (Nat.ltb_ge _ _)) by (rewrite length_app; lia). rewrite <- Hr at 1 2.
    rewrite take_app_length, drop_app_length. f_equal. apply IH. lia.
Qed.

Section reading.
Context (t : target).

Lemma read_logs_records is_btmp rs part :
  Forall is_record rs -> (length part < UTMP_SIZE)%nat ->
  read_logs t is_btmp (concat rs ++ part) = omap (utmp_log t is_btmp) rs.
Proof. intros Hrs Hp. unfold read_logs. by rewrite whole_records_concat. Qed.

(** Reading from where the last round ended. *)
Lemma read_appended path is_btmp l new :
  read_utmp_file t path (Holds (l ++ new)) is_btmp (blen l)
  = (Ok (read_logs t is_btmp new), blen (l ++ new)).
Proof.
  unfold read_utmp_file. rewrite (proj2 (Z.ltb_ge _ _)) by (rewrite blen_app; pose proof (blen_nonneg new); lia).
  unfold blen at 1. by rewrite Nat2Z.id, drop_app_length.
Qed.

(** A file that has shrunk is read from its start. *)
Lemma read_rotated path is_btmp l offset :
  blen l < offset ->
  read_utmp_file t path (Holds l) is_btmp offset = (Ok (read_logs t is_btmp l), blen l).
Proof. intros Hl. unfold read_utmp_file. by rewrite (proj2 (Z.ltb_lt _ _)). Qed.

(** ** Rounds *)

(** One round: the records added to either file since the last, and whether the
    server answers. *)
Record round := Round {
  new_failed : list (list Z);
  new_logins : list (list Z);
  r_answered : bool
}.

Definition round_logs (r : round) : list SyslogSshLog :=
  omap (utmp_log t true) (new_failed r) ++ omap (utmp_log t false) (new_logins r).

(** The posts of successive rounds on growing files. *)
Fixpoint collect_rounds (b w : list Z) (rs : list round) : io collector (list (list SyslogSshLog)) :=
  match rs with
  | [] => mret []
  | r :: rs => fun c =>
    let b := b ++ concat (new_failed r) in
    let w := w ++ concat (new_logins r) in
    let '(p, c) := collect_and_report t (Holds b) (Holds w) (r_answered r) c in
    let '(ps, c) := collect_rounds b w rs c in
    (option_list p ++ ps, c)
  end.

Lemma filter_new_all logs c :
  (forall log, log ∈ logs -> record_key log ∉ last_records c) -> filter_new_records logs c = logs.
Proof.
  intros Hk. apply retain_true. intros log Hl. by rewrite bool_decide_false by by apply Hk.
Qed.

(** What one round does, when none of its logs was reported before. *)
Lemma collect_round b w r c :
  Forall is_record (new_failed r) -> Forall is_record (new_logins r) ->
  btmp_offset c = blen b -> wtmp_offset c = blen w ->
  (forall log, log ∈ round_logs r -> record_key log ∉ last_records c) ->
  exists p c', collect_and_report t (Holds (b ++ concat (new_failed r)))
                 (Holds (w ++ concat (new_logins r))) (r_answered r) c = (p, c')
    /\ concat (option_list p) = round_logs r
    /\ btmp_offset c' = blen (b ++ concat (new_failed r))
    /\ wtmp_offset c' = blen (w ++ concat (new_logins r))
    /\ last_records c' ⊆ last_records c ∪ list_to_set (record_key <$> round_logs r).
Proof.
  intros Hb Hw Eb Ew Hk. unfold collect_and_report. rewrite Eb, Ew, !read_appended. cbn [ok from_option id].
  assert (forall is_btmp rs, Forall is_record rs ->
            read_logs t is_btmp (concat rs) = omap (utmp_log t is_btmp) rs) as Hrl.
  { intros is_btmp rs Hrs. rewrite <- (app_nil_r (concat rs)). apply read_logs_records; [done|].
    vm_compute. lia. }
  rewrite !Hrl by done. fold (round_logs r).
  rewrite filter_new_all by exact Hk. unfold build_ssh_login_json.
  destruct (round_logs r) as [|x l] eqn:El.
  - eexists _, _. split; [reflexivity|]. split_and!; simpl; try done. set_solver.
  - eexists _, _. split; [reflexivity|]. unfold option_list. cbn [option_rect concat]. rewrite app_nil_r.
    destruct (r_answered r); split_and!; try done; [|set_solver].
    unfold update_last_records. cbn [last_records]. case_match; set_solver.
Qed.
End reading.

Section rounds.
Context (t : target).

Lemma collect_rounds_posts rs b w c :
  Forall (fun r => Forall is_record (new_failed r) /\ Forall is_record (new_logins r)) rs ->
  btmp_offset c = blen b -> wtmp_offset c = blen w ->
  NoDup (record_key <$> (rs ≫= round_logs t)) ->
  (forall log, log ∈ rs ≫= round_logs t -> record_key log ∉ last_records c) ->
  concat (collect_rounds t b w rs c).1 = rs ≫= round_logs t.
Proof.
  intros Hrs. revert b w c. induction Hrs as [|r rs [Hb Hw] Hrs IH]; intros b w c Eb Ew Hnd Hk; [done|].
  cbn [mbind list_bind] in *. fold (mbind (M:=list) (round_logs t) rs) in *.
  rewrite fmap_app, NoDup_app in Hnd. destruct Hnd as (_ & Hdisj & Hnd).
  destruct (collect_round t b w r c Hb Hw Eb Ew) as (p & c' & E & Hp & Eb' & Ew' & Hl).
  { intros log Hl. apply Hk. set_solver. }
  cbn [collect_rounds]. rewrite E. destruct (collect_rounds t _ _ rs c') as [ps c''] eqn:Er.
  cbn [fst]. rewrite concat_app, Hp. f_equal.
  replace ps with (collect_rounds t (b ++ concat (new_failed r)) (w ++ concat (new_logins r)) rs c').1
    by (by rewrite Er).
  apply IH; [done..|]. intros log Hin Hold. apply Hl in Hold.
  apply elem_of_union in Hold as [Hold|Hold].
  - apply (Hk log); [set_solver|done].
  - apply elem_of_list_to_set in Hold. eapply Hdisj; [exact Hold|]. by apply list_elem_of_fmap_2.
Qed.
End rounds.

(** C15: every login written after the agent started is posted exactly once, in
    the order of the files, whatever whole records are added between the rounds
    and however many rounds there are, as long as no two logins share address,
    user, second and outcome. *)
Theorem logins_posted_once t b w rs :
  Forall (fun r => Forall is_record (new_failed r) /\ Forall is_record (new_logins r)) rs ->
  NoDup (record_key <$> (rs ≫= round_logs t)) ->
  concat (collect_rounds t b w rs (collector_new (Holds b) (Holds w))).1 = rs ≫= round_logs t.
Proof.
  intros Hrs Hnd. apply collect_rounds_posts; [done..|]. intros log _. set_solver.
Qed.

(** a record of which only a part is in the file when a round reads it is
    lost: the part is skipped with the rest of the file, and the next round
    starts in the middle of the record.  Alone, the record is never
    reported; followed by more, what is read is cut at the wrong places. *)
Theorem torn_record_lost t path is_btmp old rs part rest more :
  Forall is_record rs -> (length part < UTMP_SIZE)%nat -> part <> [] -> is_record (part ++ rest) ->
  let first := read_utmp_file t path (Holds (old ++ concat rs ++ part)) is_btmp (blen old) in
  first.1 = Ok (omap (utmp_log t is_btmp) rs)
  /\ (read_utmp_file t path (Holds (old ++ concat rs ++ part ++ rest)) is_btmp first.2).1 = Ok []
  /\ (read_utmp_file t path (Holds (old ++ concat rs ++ part ++ rest ++ more)) is_btmp first.2).1
     = Ok (read_logs t is_btmp (rest ++ more)).
Proof.
  intros Hrs Hp Hne Hr first. unfold first. rewrite read_appended. cbn [fst snd].
  rewrite read_logs_records by done. split; [done|].
  assert (forall new, read_utmp_file t path (Holds (old ++ concat rs ++ part ++ new)) is_btmp
            (blen (old ++ concat rs ++ part)) = (Ok (read_logs t is_btmp new), blen ((old ++ concat rs ++ part) ++ new)))
    as Hread.
  { intros new. rewrite <- read_appended with (path := path). by rewrite <- !app_assoc. }
  rewrite !Hread. split; [|done]. cbn [fst]. f_equal.
  rewrite <- (app_nil_l rest). apply (read_logs_records t is_btmp []); [constructor|].
  unfold is_record in Hr. rewrite length_app in Hr. destruct part; [done|]. simpl in Hr. lia.
Qed.

Lemma size_union_le (X Y : gset string) : (size (X ∪ Y) <= size X + size Y)%nat.
Proof.
  rewrite size_union_alt. pose proof (subseteq_size (Y ∖ X) Y ltac:(set_solver)). lia.
Qed.

Lemma size_keys_le (l : list string) : (size (list_to_set l : gset string) <= length l)%nat.
Proof.
  induction l as [|x l IH]; [by rewrite list_to_set_nil, size_empty|].
  rewrite list_to_set_cons. simpl length. pose proof (size_union_le {[x]} (list_to_set l)) as Hu. rewrite size_singleton in Hu. lia.
Qed.

(** The keys kept for duplicates are at most a thousand more than those of the
    last post. *)
Lemma dedup_bounded t btmp wtmp answered c p c' :
  collect_and_report t btmp wtmp answered c = (p, c') ->
  last_records c' = last_records c
  \/ (size (last_records c') <= 1000 + length (default [] p))%nat.
Proof.
  unfold collect_and_report.
  destruct (read_utmp_file _ _ btmp _ _) as [x bo], (read_utmp_file _ _ wtmp _ _) as [y wo].
  unfold build_ssh_login_json. destruct (filter_new_records _ _) as [|z l]; intros E; simplify_eq;
    [by left|]. destruct answered; [right|by left].
  unfold update_last_records. cbn [last_records from_option id].
  set (kept := if (1000 <? size (last_records c))%nat then ∅ else last_records c). pose proof (size_keys_le (record_key <$> z :: l)) as Hk.
  rewrite length_fmap in Hk. assert (size kept <= 1000)%nat.
  { unfold kept. destruct (Nat.ltb_spec 1000 (size (last_records c))); [rewrite size_empty|]; lia. }
  pose proof (size_union_le (list_to_set (record_key <$> z :: l)) kept). lia.
Qed.

(** ** Instances *)

Module LoginDemo.

Definition pad (n : nat) (s : string) : list Z := as_bytes s ++ repeat 0 (n - String.length s).

(** A login record as the system writes it. *)
Definition login (user host : string) (time : Z) : list Z :=
  to_ne_bytes le64 2 7 ++ [0; 0] ++ to_ne_bytes le64 4 1 ++ pad 32 "pts/0" ++ pad 4 "" ++ pad 32 user
  ++ pad 256 host ++ repeat 0 8 ++ to_ne_bytes le64 4 time ++ repeat 0 40.

Example login_parsed :
  utmp_log le64 false (login "ann" "10.0.0.7" 1700000000)
  = Some (SshLog "10.0.0.7" "ann" "SSH" 1 5 1700000000).
Proof. by vm_compute. Qed.

(** A console login has no address. *)
Example local_login_ignored : utmp_log le64 false (login "ann" "" 1700000000) = None.
Proof. by vm_compute. Qed.

Definition two_rounds : list round :=
  [Round [login "eve" "10.0.0.9" 5] [login "ann" "10.0.0.7" 6] false;
   Round [] [login "ann" "10.0.0.7" 66] true].

Lemma logins_posted_once_witness :
  concat (collect_rounds le64 [1; 2] [] two_rounds (collector_new (Holds [1; 2]) (Holds []))).1
  = [SshLog "10.0.0.9" "eve" "SSH" 0 5 5; SshLog "10.0.0.7" "ann" "SSH" 1 5 6;
     SshLog "10.0.0.7" "ann" "SSH" 1 5 66].
Proof.
  assert (two_rounds ≫= round_logs le64
    = [SshLog "10.0.0.9" "eve" "SSH" 0 5 5; SshLog "10.0.0.7" "ann" "SSH" 1 5 6;
       SshLog "10.0.0.7" "ann" "SSH" 1 5 66]) as E by (vm_compute; reflexivity).
  rewrite <- E. apply (logins_posted_once le64 [1; 2] [] two_rounds).
  - unfold two_rounds. repeat constructor; vm_compute; reflexivity.
  - rewrite E. apply (bool_decide_unpack _). vm_compute. exact I.
Defined.

Lemma torn_record_lost_witness :
  let r := login "ann" "10.0.0.7" 6 in
  (read_utmp_file le64 "/var/log/wtmp" (Holds (concat [login "bob" "10.0.0.8" 5] ++ take 100 r)) false 0).1
    = Ok [SshLog "10.0.0.8" "bob" "SSH" 1 5 5]
  /\ (read_utmp_file le64 "/var/log/wtmp" (Holds (concat [login "bob" "10.0.0.8" 5] ++ r)) false 484).1
    = Ok [].
Proof.
  destruct (torn_record_lost le64 "/var/log/wtmp" false [] [login "bob" "10.0.0.8" 5]
    (take 100 (login "ann" "10.0.0.7" 6)) (drop 100 (login "ann" "10.0.0.7" 6)) []) as (H1 & H2 & _).
  - repeat constructor; vm_compute; reflexivity.
  - vm_compute. lia.
  - done.
  - vm_compute. reflexivity.
  - split; [exact H1|]. rewrite take_drop in H2. exact H2.
Defined.

(** The same user logs in twice within a second: the second login, read in a
    later round, counts as reported. *)
Example second_login_ignored :
  (collect_rounds le64 [] [] [Round [] [login "ann" "10.0.0.7" 6] true;
                              Round [] [login "ann" "10.0.0.7" 6] true]
     (collector_new (Holds []) (Holds []))).1 = [[SshLog "10.0.0.7" "ann" "SSH" 1 5 6]].
Proof. by vm_compute. Qed.

End LoginDemo.
