(* ===== verification/ProcInfo.v ===== *)
(** * Process information

    [crates/procinfo/src/lib.rs]: the list of running processes the agent
    uploads, one record per directory of [/proc], put together from the files
    and links in it.  What those say is an argument; digests come from the MD5
    cache. *)

From Stdlib Require Import Ascii.
From S2P Require Import Prelude RustStr Bytes Md5Cache.

(** ** Data *)

Record ProcessInfo := Process {
  timestamp : Z;
  name : string;
  vendor : string;
  package : string;
  pid : Z;            (** u32 *)
  ppid : Z;           (** u32 *)
  priority : Z;       (** i32 *)
  thread_count : Z;   (** i32 *)
  memory_rss_kb : Z;
  start_time : string;
  exe_path : string;
  user : string;
  hash : string;
  dependencies : list string
}.

Inductive ProcessInfoError :=
| Io (e path : string)
| Parse (what : string)
| InvalidExecutable (path : string)
| Other (msg : string).

Abbreviation perr := (result ProcessInfoError).

(** One directory of [/proc]: its files and links, or why they cannot be read. *)
Record pid_files := ProcFiles {
  f_comm : result string string;
  f_exe : result string string;
  f_cwd : result string string;
  f_cmdline : result string (list Z);
  f_status : result string string;
  f_stat : result string string
}.

(** The machine at the time of the listing. *)
Record machine := Machine {
  proc_names : result string (list string);
  proc_of : Z -> pid_files;
  exists_path : string -> bool;
  uptime : result string string;
  unix_time : Z;
  (** [User::from_uid]: a failed lookup, no such user, or the name. *)
  user_of : Z -> result string (option string);
  (** The date of a time, as far as the calendar goes. *)
  date_of : Z -> option string
}.

Section info.
Context (m : machine).

Definition proc_path (p : Z) (file : string) : string := "/proc/" +:+ dec p +:+ "/" +:+ file.

Definition read_at (p : Z) (file : string) {A} (r : result string A) : perr A :=
  map_err (fun e => Io e (proc_path p file)) r.

(** [data.split(|b| b == 0)], the parts that are text and not empty. *)
Fixpoint split_nul (l cur : list Z) : list (list Z) :=
  match l with
  | [] => [rev cur]
  | b :: l => if b =? 0 then rev cur :: split_nul l [] else split_nul l (b :: cur)
  end.

Definition read_cmdline (data : list Z) : list string :=
  retain (fun s => negb (str_is_empty s)) (omap from_utf8 (split_nul data [])).

(** *** Name *)

Definition stat_name (stat : string) : option string :=
  '(_, rest) ← split_once "(" stat; '(inner, _) ← split_once ")" rest; Some inner.

Definition get_name (p : Z) : string :=
  let f := proc_of m p in
  let from_stat := match ok (f_stat f) ≫= stat_name with
                   | Some n => n
                   | None => "unknown_" +:+ dec p
                   end in
  let from_cmdline := match read_cmdline <$> ok (f_cmdline f) with
                      | Some (first :: _) => default first (path_file_name first)
                      | _ => from_stat
                      end in
  let from_exe := match ok (f_exe f) ≫= path_file_name with
                  | Some n => n
                  | None => from_cmdline
                  end in
  match f_comm f with
  | Ok comm => if str_is_empty (trim comm) then from_exe else trim comm
  | Err _ => from_exe
  end.

(** *** Executable *)

Definition INTERPRETERS : list string :=
  ["/bin/sh"; "/bin/bash"; "/bin/dash"; "/usr/bin/sh"; "/usr/bin/bash"; "/usr/bin/dash";
   "/usr/bin/python"; "/usr/bin/python3"; "/usr/bin/perl"; "/usr/bin/ruby"].
Definition is_interpreter (path : string) : bool := bool_decide (path ∈ INTERPRETERS).

(** The script an interpreter runs, when it is there. *)
Definition script_of (f : pid_files) : option string :=
  args ← read_cmdline <$> ok (f_cmdline f);
  match args with
  | _ :: script :: _ =>
    let abs := if starts_with "/" script then script
               else path_join (default "" (ok (f_cwd f))) script in
    if exists_path m abs then Some abs else None
  | _ => None
  end.

Definition get_executable_path (p : Z) (name : string) : string :=
  let f := proc_of m p in
  match f_exe f with
  | Ok exe => if is_interpreter exe then default exe (script_of f) else exe
  | Err _ => name
  end.

Definition is_magicarmor_path (path : string) : bool := contains "magicarmor" path.

(** *** Status and stat *)

(** The value of the first line of [status] with a given key. *)
Fixpoint status_value (key : string) (ls : list string) : option string :=
  match ls with
  | [] => None
  | line :: ls =>
    match split_once ":" line with
    | Some (k, v) => if bool_decide (trim k = key) then Some v else status_value key ls
    | None => status_value key ls
    end
  end.

Definition first_word (v : string) : option string := head (split_whitespace (trim v)).

Definition get_memory_rss (p : Z) : perr Z :=
  status ← read_at p "status" (f_status (proc_of m p));
  mret (match status_value "VmRSS" (lines status) with
        | Some v => default 0 (first_word v ≫= parse_int 64)
        | None => 0
        end).

Definition get_user (p : Z) : perr string :=
  status ← read_at p "status" (f_status (proc_of m p));
  match status_value "Uid" (lines status) with
  | Some v =>
    match parse_uint 32 (default "0" (first_word v)) with
    | None => Err (Parse "Uid")
    | Some uid =>
      match user_of m uid with
      | Err _ => Err (Other "nix user lookup failed")
      | Ok u => Ok (default ("uid_" +:+ dec uid) u)
      end
    end
  | None => Ok "unknown"
  end.

(** The [k]-th word of [stat], or what is returned for a shorter one. *)
Definition stat_field {A} (p : Z) (k : nat) (parse : string -> option A) (what : string) (short : A)
    : perr A :=
  stat ← read_at p "stat" (f_stat (proc_of m p));
  match split_whitespace stat !! k with
  | Some w => ok_or (Parse what) (parse w)
  | None => Ok short
  end.

Definition get_ppid (p : Z) : perr Z := stat_field p 3 (parse_uint 32) "PPid" 0.
Definition get_priority (p : Z) : perr Z := stat_field p 17 (parse_int 32) "Priority" 0.
Definition get_thread_count (p : Z) : perr Z := stat_field p 19 (parse_int 32) "Threads" 1.

Definition format_timestamp (secs : Z) : string := default (dec_signed secs) (date_of m secs).

(** Seconds since the start of a process: [u64] arithmetic, so that the
    difference wraps; [as i64]. *)
Definition running_seconds (uptime_sec start_jiffies : Z) : Z :=
  to_signed 64 (wrapping_sub 64 (wrap 64 (uptime_sec * 100)) start_jiffies / 100).

Definition get_start_time (p : Z) : perr string :=
  stat ← read_at p "stat" (f_stat (proc_of m p));
  match split_whitespace stat !! 21%nat with
  | None => Ok "unknown"
  | Some w =>
    match parse_uint 64 w with
    | None => Err (Parse "Start time")
    | Some start_jiffies =>
      uptime_data ← map_err (fun e => Io e "/proc/uptime") (uptime m);
      let uptime_sec := default 0 (head (split_char "." uptime_data) ≫= parse_uint 64) in
      Ok (format_timestamp (to_signed 64 (unix_time m - running_seconds uptime_sec start_jiffies)))
    end
  end.

(** ** The listing *)

Context (md5_hex : list Z -> string).
Context (can_create : string -> bool) (uuid : gmap string node -> list Z) (now : Z).

(** Everything but the digest. *)
Definition collect_info (p : Z) : perr (string -> ProcessInfo) :=
  let name := get_name p in
  let exe := get_executable_path p name in
  if str_is_empty exe || negb (exists_path m exe) || is_magicarmor_path exe
  then Err (InvalidExecutable exe)
  else
    memory ← get_memory_rss p;
    user ← get_user p;
    ppid ← get_ppid p;
    priority ← get_priority p;
    threads ← get_thread_count p;
    start ← get_start_time p;
    mret (fun digest => Process (unix_time m) name "unknown" "unknown" p ppid priority threads memory
                          start exe user digest []).

Definition build_process_info (p : Z) : io md5_state (perr ProcessInfo) :=
  let? info := mret (collect_info p) in
  let? digest := with_err (fun e => Other ("计算 MD5 失败: " +:+ e))
                   (get_md5 md5_hex can_create uuid now (get_executable_path p (get_name p))) in
  mret (Ok (info digest)).

Definition should_skip (info : ProcessInfo) : bool :=
  str_is_empty (exe_path info) || negb (exists_path m (exe_path info))
  || is_magicarmor_path (exe_path info).

(** A directory named after a process. *)
Definition pid_of_name (n : string) : option Z :=
  match n with
  | String a _ => if Ascii.is_nat a is Some _ then parse_uint 32 n else None
  | EmptyString => None
  end.

Fixpoint list_processes (pids : list Z) : io md5_state (list ProcessInfo) :=
  match pids with
  | [] => mret []
  | p :: pids =>
    r ← build_process_info p;
    rest ← list_processes pids;
    mret (match r with
          | Ok info => if should_skip info then rest else info :: rest
          | Err _ => rest
          end)
  end.

Definition get_running_process_infos : io md5_state (perr (list ProcessInfo)) :=
  match proc_names m with
  | Err e => mret (Err (Io e "/proc"))
  | Ok names => l ← list_processes (omap pid_of_name names); mret (Ok l)
  end.

(** ** The upload *)

Record module_entry := ModuleEntry { me_name : string; me_hash : string; me_attribute : string }.
Record process_entry := ProcessJson {
  pj_id : Z;
  pj_user : string;
  pj_dir : string;
  pj_hash : string;
  pj_module_number : nat;
  pj_module : option (list module_entry)
}.

Definition get_md5' := get_md5 md5_hex can_create uuid now.

Fixpoint module_entries (paths : list string) : io md5_state (list module_entry) :=
  match paths with
  | [] => mret []
  | path :: paths =>
    h ← (if str_is_empty path then mret None else r ← get_md5' path; mret (ok r));
    rest ← module_entries paths;
    mret (match h with
          | Some h => if str_is_empty h then rest else ModuleEntry path h "GNU/Linux" :: rest
          | None => rest
          end)
  end.

Definition process_json (p : ProcessInfo) : io md5_state process_entry :=
  h ← (if str_is_empty (hash p) then r ← get_md5' (exe_path p); mret (default "" (ok r))
       else mret (hash p));
  modules ← module_entries (dependencies p);
  mret (ProcessJson (pid p) (user p) (exe_path p) h (length modules)
          (match modules with [] => None | _ => Some modules end)).

Fixpoint process_jsons (ps : list ProcessInfo) : io md5_state (list process_entry) :=
  match ps with
  | [] => mret []
  | p :: ps => e ← process_json p; es ← process_jsons ps; mret (e :: es)
  end.

(** The entries and the [finish] mark of [build_process_list_json]. *)
Definition build_process_list_json (ps : list ProcessInfo) (nfinish : option Z)
    : io md5_state (list process_entry * option Z) :=
  es ← process_jsons ps;
  mret (es, match nfinish with
            | Some f => if (f =? 0) || (f =? 100) then Some f else None
            | None => None
            end).
End info.

(** ** What [stat] says *)

(** The line the kernel writes: number, name in parentheses, state, and numbers. *)
Definition stat_line (p : Z) (comm : string) (rest : list string) : string :=
  join " " (dec p :: ("(" +:+ comm +:+ ")") :: rest) +:+ String line_feed "".

Definition word (w : string) : Prop := no_space w /\ w <> "".

Lemma word_dec p : word (dec p).
Proof. split; [apply no_space_dec|apply dec_nonempty]. Qed.

(** The words of the line, for a name that is one word and for one of two. *)
Lemma stat_words p comm rest :
  no_space comm -> Forall word rest ->
  split_whitespace (stat_line p comm rest) = dec p :: ("(" +:+ comm +:+ ")") :: rest.
Proof.
  intros Hc Hr. unfold stat_line. rewrite words_end by done. apply words_join.
  repeat apply Forall_cons_2; [apply word_dec| |done]. split; [|done].
  apply no_space_String; [done|]. apply no_space_app; [done|].
  apply no_space_String; [done|apply no_space_nil].
Qed.

Lemma stat_words_spaced p a b rest :
  no_space a -> no_space b -> Forall word rest ->
  split_whitespace (stat_line p (a +:+ " " +:+ b) rest)
  = dec p :: ("(" +:+ a) :: (b +:+ ")") :: rest.
Proof.
  intros Ha Hb Hr. unfold stat_line. rewrite words_end by done.
  assert (join " " (dec p :: ("(" +:+ (a +:+ " " +:+ b) +:+ ")") :: rest)
          = join " " (dec p :: ("(" +:+ a) :: (b +:+ ")") :: rest)) as ->.
  { destruct rest as [|w rest].
    - change (dec p +:+ " " +:+ ("(" +:+ (a +:+ " " +:+ b) +:+ ")")
              = dec p +:+ " " +:+ ("(" +:+ a) +:+ " " +:+ (b +:+ ")")).
      by rewrite !str_app_assoc.
    - change (dec p +:+ " " +:+ ("(" +:+ (a +:+ " " +:+ b) +:+ ")") +:+ " " +:+ join " " (w :: rest)
              = dec p +:+ " " +:+ ("(" +:+ a) +:+ " " +:+ (b +:+ ")") +:+ " " +:+ join " " (w :: rest)).
      by rewrite !str_app_assoc. }
  apply words_join. repeat apply Forall_cons_2; [apply word_dec| | |done].
  - split; [|done]. by apply no_space_String.
  - split; [apply no_space_app; [done|]; apply no_space_String; [done|apply no_space_nil]|].
    by destruct b.
Qed.

Section stat.
Context (m : machine) (p : Z).

Lemma stat_field_word {A} k (parse : string -> option A) what short stat :
  f_stat (proc_of m p) = Ok stat ->
  stat_field m p k parse what short
  = match split_whitespace stat !! k with
    | Some w => ok_or (Parse what) (parse w)
    | None => Ok short
    end.
Proof. intros E. unfold stat_field. by rewrite E. Qed.

(** What the fields are for a name that is one word. *)
Lemma stat_fields_read comm state parent rest :
  f_stat (proc_of m p) = Ok (stat_line p comm (state :: dec parent :: rest)) ->
  no_space comm -> word state -> Forall word rest -> is_uint 32 parent ->
  get_ppid m p = Ok parent
  /\ get_priority m p = match rest !! 13%nat with
                        | Some w => ok_or (Parse "Priority") (parse_int 32 w)
                        | None => Ok 0
                        end
  /\ get_thread_count m p = match rest !! 15%nat with
                            | Some w => ok_or (Parse "Threads") (parse_int 32 w)
                            | None => Ok 1
                            end.
Proof.
  intros E Hc Hs Hr Hp. unfold get_ppid, get_priority, get_thread_count.
  rewrite !(stat_field_word _ _ _ _ _ E), stat_words by (done || by repeat apply Forall_cons_2; [|apply word_dec|]).
  split; [|done]. cbn [lookup list_lookup]. by rewrite parse_uint_dec.
Qed.

(** A name of two words shifts the line by one: the state is taken for the parent. *)
Lemma spaced_ppid a b state rest :
  f_stat (proc_of m p) = Ok (stat_line p (a +:+ " " +:+ b) (state :: rest)) ->
  no_space a -> no_space b -> word state -> Forall word rest -> parse_uint 32 state = None ->
  get_ppid m p = Err (Parse "PPid").
Proof.
  intros E Ha Hb Hs Hr Hn. unfold get_ppid.
  rewrite (stat_field_word _ _ _ _ _ E), stat_words_spaced by (done || by apply Forall_cons_2).
  cbn [lookup list_lookup]. by rewrite Hn.
Qed.
End stat.

(** ** The listing *)

Section listing.
Context (m : machine) (md5_hex : list Z -> string).
Context (can_create : string -> bool) (uuid : gmap string node -> list Z) (now : Z).

Abbreviation build := (build_process_info m md5_hex can_create uuid now).
Abbreviation listing := (list_processes m md5_hex can_create uuid now).
Abbreviation digest := (get_md5 md5_hex can_create uuid now).

(** A record is about its process and an executable that may be shown. *)
Lemma collect_info_ok p k d :
  collect_info m p = Ok k ->
  pid (k d) = p /\ hash (k d) = d /\ exe_path (k d) = get_executable_path m p (get_name m p)
  /\ should_skip m (k d) = false.
Proof.
  unfold collect_info. destruct (_ || _ || _) eqn:E; [done|].
  unfold mbind, result_bind, mret, result_ret.
  repeat match goal with |- match ?r with _ => _ end = _ -> _ => destruct r; [|done] end.
  intros [= <-]. cbn [pid hash exe_path]. by split_and!.
Qed.

Lemma build_ok p s info s' :
  build p s = (Ok info, s') ->
  pid info = p /\ exe_path info = get_executable_path m p (get_name m p)
  /\ should_skip m info = false /\ digest (exe_path info) s = (Ok (hash info), s').
Proof.
  unfold build_process_info, bind_ok at 1. cbn [mret io_ret].
  destruct (collect_info m p) as [k|e] eqn:Ek; [|done].
  unfold bind_ok, with_err. destruct (digest _ s) as [[d|e] s1] eqn:Ed; cbn [map_err mret io_ret]; [|done].
  intros [= <- <-]. destruct (collect_info_ok p k d Ek) as (Hp & Hh & He & Hs).
  split_and!; try done. by rewrite He, Hh.
Qed.

Lemma listing_cons p pids s :
  exists s', (listing (p :: pids) s).1
  = match (build p s).1 with
    | Ok info => info :: (listing pids s').1
    | Err _ => (listing pids s').1
    end.
Proof.
  cbn [list_processes]. unfold mbind, io_bind. destruct (build p s) as [r s1] eqn:Eb. exists s1.
  destruct (listing pids s1) as [rest s2]. cbn [mret io_ret fst].
  destruct r as [info|e]; [|done]. destruct (build_ok _ _ _ _ Eb) as (_ & _ & -> & _). done.
Qed.

Lemma listing_pids pids s : pid <$> (listing pids s).1 `sublist_of` pids.
Proof.
  revert s. induction pids as [|p pids IH]; intros s; [done|].
  destruct (listing_cons p pids s) as [s' ->]. destruct (build p s) as [[info|e] s1] eqn:Eb; simpl.
  - destruct (build_ok _ _ _ _ Eb) as (-> & _). constructor. apply IH.
  - constructor. apply IH.
Qed.

Lemma listing_shown pids s :
  Forall (fun i => exe_path i = get_executable_path m (pid i) (get_name m (pid i))
                   /\ should_skip m i = false) (listing pids s).1.
Proof.
  revert s. induction pids as [|p pids IH]; intros s; [constructor|].
  destruct (listing_cons p pids s) as [s' ->]. destruct (build p s) as [[info|e] s1] eqn:Eb; simpl.
  - constructor; [|apply IH]. by destruct (build_ok _ _ _ _ Eb) as (-> & ? & ? & _).
  - apply IH.
Qed.
End listing.

(** the listing shows processes of [/proc], each at most once and in its
    order, with the executable the process runs (or the script, for an
    interpreter); none of them is missing on disk or the agent's own. *)
Theorem listing_sound m md5_hex can_create uuid now s names :
  proc_names m = Ok names ->
  exists l, (get_running_process_infos m md5_hex can_create uuid now s).1 = Ok l
    /\ pid <$> l `sublist_of` omap pid_of_name names
    /\ Forall (fun i => exe_path i = get_executable_path m (pid i) (get_name m (pid i))
                        /\ exists_path m (exe_path i) = true
                        /\ contains "magicarmor" (exe_path i) = false) l.
Proof.
  intros Hn. unfold get_running_process_infos. rewrite Hn. unfold mbind, io_bind.
  destruct (list_processes _ _ _ _ _ _ s) as [l s'] eqn:E.
  assert (l = (list_processes m md5_hex can_create uuid now (omap pid_of_name names) s).1) as El
    by (by rewrite E).
  exists l. split; [done|]. rewrite El. split; [apply listing_pids|].
  eapply Forall_impl; [apply listing_shown|]. intros i [He Hs]. unfold should_skip in Hs.
  rewrite !orb_false_iff in Hs. destruct Hs as [[_ Hx] Hm]. split; [done|]. split; [|done].
  by apply negb_false_iff.
Qed.

(** a process whose name has a space in it is missing from the listing,
    whatever else is known of it: the words of its [stat] line are shifted, and
    its state is taken for the number of its parent. *)
Theorem spaced_name_hidden m md5_hex can_create uuid now s pids p a b state rest :
  f_stat (proc_of m p) = Ok (stat_line p (a +:+ " " +:+ b) (state :: rest)) ->
  no_space a -> no_space b -> word state -> Forall word rest -> parse_uint 32 state = None ->
  p ∉ pid <$> (list_processes m md5_hex can_create uuid now pids s).1.
Proof.
  intros E Ha Hb Hs Hr Hn. pose proof (spaced_ppid m p a b state rest E Ha Hb Hs Hr Hn) as Hpp.
  revert s. induction pids as [|q pids IH]; intros s; [set_solver|].
  destruct (listing_cons m md5_hex can_create uuid now q pids s) as [s' ->].
  destruct (build_process_info _ _ _ _ _ q s) as [[info|e] s1] eqn:Eb; cbn [fst]; [|apply IH].
  rewrite fmap_cons, not_elem_of_cons. split; [|apply IH]. intros Hq.
  destruct (build_ok _ _ _ _ _ _ _ _ _ Eb) as (Hpid & _). rewrite Hpid in Hq. subst q.
  unfold build_process_info, bind_ok, collect_info in Eb. cbn [mret io_ret] in Eb.
  destruct (_ || _ || _); [done|]. rewrite Hpp in Eb.
  destruct (get_memory_rss m p); [|done]. by destruct (get_user m p).
Qed.

Lemma to_signed_id x : - 2 ^ (64 - 1) <= x < 2 ^ (64 - 1) -> to_signed 64 x = x.
Proof.
  change (2 ^ (64 - 1)) with 9223372036854775808. intros Hx. unfold to_signed, wrap.
  change (2 ^ (64 - 1)) with 9223372036854775808. change (2 ^ 64) with 18446744073709551616.
  destruct (Z.ltb_spec (x mod 18446744073709551616) 9223372036854775808);
    Z.to_euclidean_division_equations; lia.
Qed.

Lemma running_seconds_spec up j :
  0 <= up < 2 ^ 50 -> is_uint 64 j ->
  running_seconds up j
  = if j <=? up * 100 then (up * 100 - j) / 100 else (2 ^ 64 - (j - up * 100)) / 100.
Proof.
  intros Hup [Hj0 Hj1]. change (2 ^ 50) with 1125899906842624 in Hup.
  unfold running_seconds, wrapping_sub. rewrite (wrap_id 64 (up * 100)) by (split; lia).
  assert (wrap 64 (up * 100 - j)
          = if j <=? up * 100 then up * 100 - j else 2 ^ 64 - (j - up * 100)) as ->.
  { destruct (Z.leb_spec j (up * 100)); [apply wrap_id; split; lia|].
    unfold wrap. symmetry. apply Z.mod_unique with (q := -1); lia. }
  rewrite to_signed_id; [by case_match|].
  change (2 ^ 64) with 18446744073709551616 in *. change (2 ^ (64 - 1)) with 9223372036854775808.
  destruct (Z.leb_spec j (up * 100)); Z.to_euclidean_division_equations; lia.
Qed.

(** the start of a process is computed from the whole seconds of the
    uptime.  A process that started before them gets its start to the
    second; for one that started within the current second the difference wraps
    around and its start is shown 5.8 thousand million years ago. *)
Theorem start_time_wraps m p comm rest elapsed j up frac :
  f_stat (proc_of m p) = Ok (stat_line p comm rest) -> no_space comm -> Forall word rest ->
  rest !! 19%nat = Some (dec j) -> is_uint 64 j ->
  uptime m = Ok (dec up +:+ String "." frac) -> 0 <= up < 2 ^ 50 -> 0 <= unix_time m < 2 ^ 50 ->
  elapsed = up * 100 - j ->
  (0 <= elapsed -> get_start_time m p = Ok (format_timestamp m (unix_time m - elapsed / 100)))
  /\ (-100 < elapsed < 0 -> exists ago, 184467440737095515 <= ago <= 184467440737095516
      /\ get_start_time m p = Ok (format_timestamp m (unix_time m - ago))).
Proof.
  intros E Hc Hr Hj Hju Hu Hup Ht ->. unfold get_start_time. rewrite E. cbn [read_at map_err mbind result_bind].
  rewrite stat_words by done. change ((dec p :: ("(" +:+ comm +:+ ")") :: rest) !! 21%nat) with (rest !! 19%nat).
  rewrite Hj, parse_uint_dec, Hu by done. cbn [map_err mbind result_bind].
  rewrite split_char_app by by apply dec_mem.
  cbn [head mbind option_bind]. rewrite parse_uint_dec.
  2:{ unfold is_uint. change (2 ^ 50) with 1125899906842624 in Hup. lia. }
  cbn [from_option id]. pose proof (running_seconds_spec up j Hup Hju) as Hrun. split; intros Hd.
  - rewrite Hrun, (proj2 (Z.leb_le _ _)) by lia. rewrite to_signed_id; [done|].
    change (2 ^ 50) with 1125899906842624 in *. change (2 ^ (64 - 1)) with 9223372036854775808.
    pose proof (Z.div_pos (up * 100 - j) 100). pose proof (Z.div_le_upper_bound (up * 100 - j) 100 (up * 100)).
    destruct Hju. lia.
  - rewrite Hrun, (proj2 (Z.leb_gt _ _)) by lia. set (ago := _ / 100).
    assert (184467440737095515 <= ago <= 184467440737095516) as Ha.
    { unfold ago. change (2 ^ 64) with 18446744073709551616. split.
      - apply Z.div_le_lower_bound; lia.
      - apply Z.lt_succ_r, Z.div_lt_upper_bound; lia. }
    exists ago. split; [done|]. rewrite to_signed_id; [done|].
    change (2 ^ 50) with 1125899906842624 in *. change (2 ^ (64 - 1)) with 9223372036854775808. lia.
Qed.

(** ** Instances *)

Module ProcDemo.

Definition zeros : list string := repeat "0" 17.

Definition files (p : Z) (comm exe : string) (jiffies : Z) : pid_files :=
  ProcFiles (Ok comm) (Ok exe) (Ok "/") (Ok (as_bytes exe ++ [0])) (Ok ("Uid:" +:+ String "009" "0"))
    (Ok (stat_line p comm ("S" :: "1" :: zeros ++ [dec jiffies]))).

(** Two processes, ten seconds and forty hundredths after the start. *)
Definition two : machine :=
  Machine (Ok ["12"; "self"; "13"])
    (fun p => if p =? 12 then files 12 "sshd" "/usr/sbin/sshd" 400 else files 13 "web app" "/opt/web" 1030)
    (fun _ => true) (Ok "10.40 3.00") 1700000000 (fun _ => Ok (Some "root"))
    (fun t => if 0 <=? t then Some "a date" else None).

Definition disk : md5_state :=
  Md5State {["/usr/sbin/sshd" := Node RegularFile 5 (Some [1]);
             "/opt/web" := Node RegularFile 5 (Some [2])]} ∅.

Definition no_create (_ : string) : bool := false.
Definition no_uuid (_ : gmap string node) : list Z := [].
Definition sum_hex (_ : list Z) : string := "c4ca".

Lemma listing_sound_witness :
  exists l, (get_running_process_infos two sum_hex no_create no_uuid 0 disk).1 = Ok l
    /\ pid <$> l = [12] /\ pid <$> l `sublist_of` [12; 13].
Proof.
  destruct (listing_sound two sum_hex no_create no_uuid 0 disk ["12"; "self"; "13"] eq_refl)
    as (l & E & Hs & _).
  exists l. split; [exact E|]. split; [|exact Hs]. vm_compute in E. injection E as <-. reflexivity.
Defined.

Lemma words_ok : Forall word ("1" :: zeros ++ [dec 1030]).
Proof.
  repeat apply Forall_cons_2; try (split; [|done]; intros a; by destruct a as [[] [] [] [] [] [] [] []]).
  constructor.
Qed.

(** The web application is not listed. *)
Lemma spaced_name_hidden_witness :
  13 ∉ pid <$> (list_processes two sum_hex no_create no_uuid 0 [12; 13] disk).1.
Proof.
  apply (spaced_name_hidden two sum_hex no_create no_uuid 0 disk [12; 13] 13 "web" "app" "S"
           ("1" :: zeros ++ [dec 1030])).
  - reflexivity.
  - intros a. by destruct a as [[] [] [] [] [] [] [] []].
  - intros a. by destruct a as [[] [] [] [] [] [] [] []].
  - split; [|done]. intros a. by destruct a as [[] [] [] [] [] [] [] []].
  - exact words_ok.
  - reflexivity.
Defined.

(** Started in the eleventh second. *)
Definition fresh : machine :=
  Machine (Ok []) (fun p => files p "web" "/opt/web" 1030) (fun _ => true) (Ok "10.40 3.00") 1700000000
    (fun _ => Ok None) (fun t => if 0 <=? t then Some "a date" else None).

Lemma start_time_wraps_witness :
  exists ago, 184467440737095515 <= ago <= 184467440737095516
    /\ get_start_time fresh 13 = Ok (format_timestamp fresh (1700000000 - ago)).
Proof.
  apply (start_time_wraps fresh 13 "web" ("S" :: "1" :: zeros ++ [dec 1030]) (-30) 1030 10 "40 3.00").
  - reflexivity.
  - intros a. by destruct a as [[] [] [] [] [] [] [] []].
  - apply Forall_cons_2; [|exact words_ok]. split; [|done].
    intros a. by destruct a as [[] [] [] [] [] [] [] []].
  - reflexivity.
  - split; lia.
  - reflexivity.
  - lia.
  - vm_compute. split; [discriminate|reflexivity].
  - reflexivity.
  - lia.
Defined.

Example fresh_start_text : get_start_time fresh 13 = Ok "-184467439037095515".
Proof. by vm_compute. Qed.

End ProcDemo.
