(* ===== verification/KernelModule.v ===== *)
(** * The driver loader

    [crates/kernel_module/src/lib.rs]: at start the agent chooses among the
    drivers it was installed with the one closest to the running kernel, puts it
    where [modprobe] looks for it, switches SELinux to permissive for the time
    of loading, and tries three ways to load it, once a second until it
    succeeds or gives up. *)

From Stdlib Require Import Ascii.
From S2P Require Import Prelude RustStr Bytes Shell Host.

Definition OPT_DIR : string := "/opt/osec/".
Definition DRIVER_PREFIX : string := "osec_base.ko-".

(** ** Choosing a driver *)

Section choose.
(** The edit distance of the [levenshtein] crate. *)
Context (levenshtein : string -> string -> nat).

(** [version.split('-').next()]. *)
Definition extract_kernel_prefix (version : string) : string := hd "" (split_char "-" version).

(** The suffix of a driver for kernels with a given prefix. *)
Definition driver_suffix (kernel_prefix filename : string) : option string :=
  suffix ← strip_prefix DRIVER_PREFIX filename;
  if starts_with kernel_prefix suffix then Some suffix else None.

Definition score (kernel_version suffix : string) : nat :=
  if bool_decide (suffix = kernel_version) then 0 else levenshtein suffix kernel_version.

(** The walk over the directory: the best so far; an exact match ends it. *)
Fixpoint best_driver (kernel_version : string) (failed : gset string) (names : list string)
    (best : option (string * nat)) : option (string * nat) :=
  match names with
  | [] => best
  | n :: names =>
    if bool_decide (OPT_DIR +:+ n ∈ failed) then best_driver kernel_version failed names best
    else match driver_suffix (extract_kernel_prefix kernel_version) n with
         | None => best_driver kernel_version failed names best
         | Some suffix =>
           let s := score kernel_version suffix in
           let better := match best with None => true | Some (_, b) => (s <? b)%nat end in
           if better then
             if (s =? 0)%nat then Some (OPT_DIR +:+ n, s)
             else best_driver kernel_version failed names (Some (OPT_DIR +:+ n, s))
           else best_driver kernel_version failed names best
         end
  end.

Definition driver_name (path : string) : string :=
  trim_start_matches DRIVER_PREFIX (default "" (path_file_name path)).

(** ** Loading *)

Section load.
Context {W : Type} `{Os W} `{Files W} `{Disk W}.

Abbreviation st := (host W).

Definition find_best_driver_excluding (kernel_version : string) (failed : gset string)
    : io st (result string string) :=
  let? names := look (read_dir OPT_DIR) in
  mret (ok_or "No matching driver found" (fst <$> best_driver kernel_version failed names None)).

Definition get_kernel_version : io st (result string string) :=
  let? o := output_of "uname" ["-r"] in
  mret (trim <$> ok_or "invalid utf-8 sequence" (from_utf8 (stdout o))).

Definition any_line (p : string -> bool) (r : result string string) : bool :=
  match r with Ok content => existsb p (lines content) | Err _ => false end.

Definition is_driver_loaded : io st bool :=
  look (fun w => any_line (starts_with "osec_base ") (read_text "/proc/modules" w)).
Definition is_module_loaded (module_name : string) : io st bool :=
  look (fun w => any_line (starts_with module_name) (read_text "/proc/modules" w)).

Definition is_running_in_container : io st bool :=
  look (fun w => match read_text "/proc/1/cgroup" w with
                 | Ok cgroup => contains "docker" cgroup || contains "kubepods" cgroup
                                || contains "containerd" cgroup
                 | Err _ => false
                 end).

Definition has_modprobe : io st bool :=
  look (fun w => path_exists "/sbin/modprobe" w || path_exists "/bin/modprobe" w
                 || path_exists "/usr/sbin/modprobe" w).

(** *** Held packages *)

Definition check_and_hold_kernel : io st (result string unit) :=
  let? kernel_version := get_kernel_version in
  dpkg ← look (fun w => path_exists "/usr/bin/apt-mark" w || path_exists "/usr/bin/dpkg" w);
  if negb (dpkg : bool) then mret (Ok tt)
  else
    let image_pkg := "linux-image-" +:+ kernel_version in
    let headers_pkg := "linux-headers-" +:+ kernel_version in
    let? o := output_of "apt-mark" ["showhold"; image_pkg] in
    if contains image_pkg (from_utf8_lossy (stdout o)) then mret (Ok tt)
    else
      let? _ := output_of "apt-mark" ["hold"; image_pkg] in
      _ ← run_quietly "apt-mark" ["hold"; headers_pkg];
      mret (Ok tt).
Definition ensure_kernel_hold : io st unit := ignore check_and_hold_kernel.

(** *** SELinux *)

(** The first of two places where a tool may be. *)
Definition tool (name : string) : io st (option string) :=
  look (fun w => if path_exists ("/usr/sbin/" +:+ name) w then Some ("/usr/sbin/" +:+ name)
                 else if path_exists ("/sbin/" +:+ name) w then Some ("/sbin/" +:+ name)
                 else None).

Definition is_enforcing (state : string) : bool :=
  bool_decide (to_lowercase state = to_lowercase "Enforcing").

(** The mode before, when it could be asked for. *)
Definition get_and_disable_selinux : io st (option string) :=
  g ← tool "getenforce";
  match g with
  | None => mret None
  | Some getenforce =>
    r ← output_of getenforce [];
    match r with
    | Err _ => mret None
    | Ok o =>
      let state := trim (from_utf8_lossy (stdout o)) in
      if is_enforcing state then
        e ← tool "setenforce";
        _ ← match e with Some setenforce => run_quietly setenforce ["0"] | None => mret tt end;
        mret (Some state)
      else mret (Some state)
    end
  end.

Definition restore_selinux (state : option string) : io st unit :=
  match state with
  | None => mret tt
  | Some state =>
    if negb (is_enforcing state) then mret tt
    else e ← tool "setenforce";
         match e with Some setenforce => run_quietly setenforce ["1"] | None => mret tt end
  end.

(** *** One attempt *)

Definition module_dir (kernel_version : string) : string := "/opt/osec/lib/modules/" +:+ kernel_version.
Definition module_file (kernel_version : string) : string := module_dir kernel_version +:+ "/osec_base.ko".

Definition setup_module_structure (src kernel_version : string) : io st (result string unit) :=
  let? _ := do_disk (CreateDirAll (module_dir kernel_version)) in
  let? _ := do_disk (Copy src (module_file kernel_version)) in
  let? _ := write_out (WriteFile (module_dir kernel_version +:+ "/modules.order") "") in
  let? _ := write_out (WriteFile (module_dir kernel_version +:+ "/modules.builtin") "") in
  let? _ := output_of "depmod" ["-b"; "/opt/osec"; "-a"] in
  mret (Ok tt).

(** A failed attempt and the driver it rules out, if any. *)
Inductive attempt := Loaded (driver : string) | Failed (e : string) (bad : option string).

Definition exact_driver (kernel_version : string) : string := OPT_DIR +:+ DRIVER_PREFIX +:+ kernel_version.

Definition select_driver (kernel_version : string) (failed : gset string) : io st (result string string) :=
  exact ← look (path_exists (exact_driver kernel_version));
  if (exact : bool) then mret (Ok (exact_driver kernel_version))
  else find_best_driver_excluding kernel_version failed.

(** [modprobe] twice, then [insmod]; [restore] is what is done before returning. *)
Definition load_module (kernel_version driver_path : string) (restore : io st unit) : io st attempt :=
  _ ← run_quietly "modprobe" ["osec_base"];
  loaded ← is_module_loaded "osec_base";
  if (loaded : bool) then _ ← restore; mret (Loaded (driver_name driver_path))
  else
    _ ← run_quietly "modprobe" ["-d"; "/opt/osec"; "osec_base"];
    loaded ← is_module_loaded "osec_base";
    if (loaded : bool) then _ ← restore; mret (Loaded (driver_name driver_path))
    else
      ko ← look (path_exists (module_file kernel_version));
      if negb (ko : bool) then
        _ ← restore; mret (Failed ("osec_base.ko not found at " +:+ module_file kernel_version) None)
      else
        r ← output_of "insmod" [module_file kernel_version];
        match r with
        | Err e => mret (Failed e None)
        | Ok o =>
          _ ← restore;
          mret (if success o then Loaded (driver_name driver_path)
                else Failed ("insmod 失败: " +:+ from_utf8_lossy (stderr o)) (Some driver_path))
        end.

Definition prepare_host : io st (option string) :=
  original ← get_and_disable_selinux;
  _ ← ignore (do_disk (CreateDirAll "/opt/osec/Data"));
  _ ← ignore (do_disk (Copy "/proc/kallsyms" "/opt/osec/Data/kallsyms"));
  uio ← is_module_loaded "uio";
  _ ← (if (uio : bool) then mret tt else run_quietly "modprobe" ["uio"]);
  mret original.

Definition try_load_driver_with_cache (kernel_version : string) (failed : gset string) : io st attempt :=
  container ← is_running_in_container;
  if (container : bool) then mret (Failed "Kernel module loading disabled in container" None)
  else
    modprobe ← has_modprobe;
    if negb (modprobe : bool) then mret (Failed "modprobe not found on system" None)
    else
      original ← prepare_host;
      d ← select_driver kernel_version failed;
      match d with
      | Err e => mret (Failed e None)
      | Ok driver_path =>
        r ← setup_module_structure driver_path kernel_version;
        match r with
        | Err e => mret (Failed e None)
        | Ok _ => load_module kernel_version driver_path (restore_selinux original)
        end
      end.

(** *** The loop *)

Definition cleanup_old_module_in_lib (kernel_version : string) : io st unit :=
  let old_path := "/lib/modules/" +:+ kernel_version +:+ "/kernel/drivers/osec_base.ko" in
  there ← look (path_exists old_path);
  if (there : bool) then ignore (do_disk (RemoveFile old_path)) else mret tt.

Definition cleanup_unused_drivers (except_driver : string) : io st (result string unit) :=
  let? names := look (read_dir OPT_DIR) in
  _ ← for_each (fun n => if starts_with DRIVER_PREFIX n && negb (ends_with except_driver n)
                         then ignore (do_disk (RemoveFile (OPT_DIR +:+ n))) else mret tt) names;
  mret (Ok tt).

Inductive load_end := Exits | Returns (r : result string string).

(** What is done after a failed attempt: go on with these failed drivers, or
    give up. *)
Definition after_failure (kernel_version : string) (drivers : nat) (failed : gset string) (there : bool)
    : gset string + string :=
  let exact := exact_driver kernel_version in
  if there && negb (bool_decide (exact ∈ failed)) then inl ({[exact]} ∪ failed)
  else if (drivers <=? size failed)%nat then inr "All available drivers failed to load"
  else if bool_decide (exact ∈ failed) then inr "best driver failed to load"
  else inl failed.

(** Rounds of the loop, one a second; [None] when it is still going on. *)
Fixpoint load_rounds (fuel : nat) (kernel_version : string) (drivers : nat) (failed : gset string)
    : io st (option load_end) :=
  match fuel with
  | O => mret None
  | S fuel =>
    loaded ← is_driver_loaded;
    if (loaded : bool) then mret (Some Exits)
    else
      a ← try_load_driver_with_cache kernel_version failed;
      match a with
      | Loaded driver =>
        _ ← ignore (cleanup_unused_drivers driver);
        mret (Some (Returns (Ok driver)))
      | Failed _ bad =>
        let failed := match bad with Some p => {[p]} ∪ failed | None => failed end in
        there ← look (path_exists (exact_driver kernel_version));
        match after_failure kernel_version drivers failed there with
        | inl failed => load_rounds fuel kernel_version drivers failed
        | inr e => mret (Some (Returns (Err e)))
        end
      end
  end.

Definition compatible (kernel_version : string) (names : list string) : list string :=
  retain (fun n => bool_decide (is_Some (driver_suffix (extract_kernel_prefix kernel_version) n))) names.

Definition load_kernel_driver (fuel : nat) : io st (option load_end) :=
  v ← get_kernel_version;
  match v with
  | Err e => mret (Some (Returns (Err e)))
  | Ok kernel_version =>
    container ← is_running_in_container;
    if (container : bool) then mret (Some (Returns (Ok "")))
    else
      _ ← cleanup_old_module_in_lib kernel_version;
      r ← look (read_dir OPT_DIR);
      match r with
      | Err e => mret (Some (Returns (Err e)))
      | Ok names =>
        let drivers := compatible kernel_version names in
        if bool_decide (drivers = []) then
          mret (Some (Returns (Err "No matching major version drivers found")))
        else load_rounds fuel kernel_version (length drivers) ∅
      end
  end.

Definition unload_driver : io st (result string unit) :=
  let? _ := with_err (fun e => "rmmod execution error: " +:+ e) (output_of "rmmod" ["osec_base"]) in
  mret (Ok tt).
End load.
End choose.

(** ** The nearest driver *)

Section nearest.
Context (levenshtein : string -> string -> nat) (kernel_version : string) (failed : gset string).

(** The drivers that may be chosen, with their scores, in the directory's order. *)
Definition candidate (n : string) : option (string * nat) :=
  if bool_decide (OPT_DIR +:+ n ∈ failed) then None
  else suffix ← driver_suffix (extract_kernel_prefix kernel_version) n;
       Some (OPT_DIR +:+ n, score levenshtein kernel_version suffix).

(** The first of the candidates with the lowest score. *)
Definition first_lowest (l : list (string * nat)) (r : option (string * nat)) : Prop :=
  match r with
  | None => l = []
  | Some (p, s) => exists l1 l2, l = l1 ++ (p, s) :: l2 /\ Forall (fun c => s < c.2)%nat l1
                                 /\ Forall (fun c => s <= c.2)%nat l2
  end.

(** One more candidate behind the best so far and those it was better than. *)
Lemma first_lowest_snoc l p b q s :
  first_lowest l (Some (p, b)) ->
  first_lowest (l ++ [(q, s)]) (if (s <? b)%nat then Some (q, s) else Some (p, b)).
Proof.
  intros (l1 & l2 & -> & H1 & H2). destruct (Nat.ltb_spec s b) as [Hs|Hs].
  - exists (l1 ++ (p, b) :: l2), []. split; [done|]. split; [|constructor].
    apply Forall_app. split; [eapply Forall_impl; [exact H1|]; simpl; lia|].
    constructor; [done|]. eapply Forall_impl; [exact H2|]. simpl. lia.
  - exists l1, (l2 ++ [(q, s)]). rewrite <- app_assoc. split; [done|]. split; [done|].
    apply Forall_app. split; [done|]. by repeat constructor.
Qed.

(** An exact match ends the walk: nothing behind it is lower. *)
Lemma first_lowest_zero l p l2 : first_lowest l (Some (p, 0%nat)) -> first_lowest (l ++ l2) (Some (p, 0%nat)).
Proof.
  intros (l1 & l' & -> & H1 & H2). exists l1, (l' ++ l2). rewrite <- app_assoc. split; [done|].
  split; [done|]. apply Forall_app. split; [done|]. apply Forall_true. simpl. lia.
Qed.

Lemma best_driver_lowest names seen best :
  first_lowest seen best ->
  first_lowest (seen ++ omap candidate names) (best_driver levenshtein kernel_version failed names best).
Proof.
  revert seen best. induction names as [|n names IH]; intros seen best Hb; cbn [best_driver omap list_omap].
  { by rewrite app_nil_r. }
  unfold candidate at 1. case_bool_decide; [by apply IH|].
  destruct (driver_suffix _ n) as [suffix|]; cbn [mbind option_bind]; [|by apply IH].
  set (s := score levenshtein kernel_version suffix). set (q := OPT_DIR +:+ n).
  assert (first_lowest (seen ++ [(q, s)])
            (if match best with None => true | Some (_, b) => (s <? b)%nat end then Some (q, s) else best))
    as Hq.
  { destruct best as [[p b]|]; [by apply first_lowest_snoc|]. simpl in Hb. subst seen.
    exists [], []. by repeat constructor. }
  change ((q, s) :: omap candidate names) with ([(q, s)] ++ omap candidate names). rewrite app_assoc.
  destruct (match best with None => true | Some (_, b) => (s <? b)%nat end); [|by apply IH].
  destruct (Nat.eqb_spec s 0) as [E|E]; [|by apply IH]. rewrite E in *. by apply first_lowest_zero.
Qed.
End nearest.

(** the driver that is chosen is the first, in the order of the directory,
    of those with the lowest edit distance to the running kernel, among the
    drivers for its version that have not failed yet; without an answer there
    is none.  An exact match ends the search early without changing the answer. *)
Theorem nearest_driver_chosen {W} `{Os W, Files W, Disk W} levenshtein kernel_version failed names (h : host W) :
  read_dir OPT_DIR (world (h_shell h)) = Ok names ->
  match (find_best_driver_excluding levenshtein kernel_version failed h).1 with
  | Ok p => exists s, first_lowest (omap (candidate levenshtein kernel_version failed) names) (Some (p, s))
  | Err _ => omap (candidate levenshtein kernel_version failed) names = []
  end.
Proof.
  intros Hn. unfold find_best_driver_excluding, bind_ok, look. rewrite Hn. cbn [mret io_ret fst].
  pose proof (best_driver_lowest levenshtein kernel_version failed names [] None eq_refl) as Hb.
  cbn [app] in Hb. destruct (best_driver _ _ _ names None) as [[p s]|]; cbn [fmap option_fmap option_map ok_or fst].
  - by exists s.
  - exact Hb.
Qed.

(** ** SELinux during an attempt *)

(** The arguments of the calls of [setenforce] in a trace. *)
Definition is_setenforce (c : command) : bool :=
  bool_decide (program c = "/usr/sbin/setenforce") || bool_decide (program c = "/sbin/setenforce").
Definition enforced (t : list command) : list (list string) := args <$> retain is_setenforce t.

Lemma enforced_app t1 t2 : enforced (t1 ++ t2) = enforced t1 ++ enforced t2.
Proof. unfold enforced, retain. by rewrite List.filter_app, fmap_app. Qed.

Section selinux.
Context (levenshtein : string -> string -> nat).
Context {W : Type} `{Os W} `{Files W} `{Disk W}.

(** What a computation returns and how it calls [setenforce]. *)
Definition calls {A} (m : io (host W) A) (Q : A -> list (list string) -> Prop) : Prop :=
  forall h, exists c, enforced (trace (h_shell (m h).2)) = enforced (trace (h_shell h)) ++ c /\ Q (m h).1 c.
Definition silent {A} (m : io (host W) A) : Prop := calls m (fun _ c => c = []).

Lemma calls_ret {A} (a : A) (Q : A -> list (list string) -> Prop) : Q a [] -> calls (mret a) Q.
Proof. intros HQ h. exists []. by rewrite app_nil_r. Qed.

Lemma calls_mono {A} (m : io (host W) A) (P Q : A -> list (list string) -> Prop) :
  calls m P -> (forall a c, P a c -> Q a c) -> calls m Q.
Proof. intros Hm HPQ h. destruct (Hm h) as (c & E & Hc). exists c. auto. Qed.

Lemma calls_bind {A B} (m : io (host W) A) (f : A -> io (host W) B) P Q :
  calls m P -> (forall a c, P a c -> calls (f a) (fun b c' => Q b (c ++ c'))) -> calls (m ≫= f) Q.
Proof.
  intros Hm Hf h. unfold mbind, io_bind. destruct (Hm h) as (c & E & Hc).
  destruct (m h) as [a h1]. destruct (Hf a c Hc h1) as (c' & E' & Hc'). cbn [fst snd] in *.
  exists (c ++ c'). by rewrite E', E, app_assoc.
Qed.

Lemma silent_bind {A B} (m : io (host W) A) (f : A -> io (host W) B) Q :
  silent m -> (forall a, calls (f a) Q) -> calls (m ≫= f) Q.
Proof. intros Hm Hf. eapply calls_bind; [exact Hm|]. intros a c ->. apply Hf. Qed.

Lemma silent_bind_ok {E A B} (m : io (host W) (result E A)) (f : A -> io (host W) (result E B)) :
  silent m -> (forall a, silent (f a)) -> silent (bind_ok m f).
Proof.
  intros Hm Hf h. unfold bind_ok. destruct (Hm h) as (c & Ec & ->). destruct (m h) as [[a|e] h1]; [|by exists []].
  destruct (Hf a h1) as (c & E1 & ->). exists []. cbn [snd] in Ec. by rewrite E1, Ec, app_nil_r.
Qed.

Lemma silent_trace {A} (m : io (host W) A) :
  (forall h, trace (h_shell (m h).2) = trace (h_shell h)) -> silent m.
Proof. intros E h. exists []. by rewrite E, app_nil_r. Qed.

Lemma look_silent {A} (f : W -> A) : silent (look f).
Proof. by apply silent_trace. Qed.
Lemma do_disk_silent o : silent (do_disk o).
Proof. apply silent_trace. intros h. unfold do_disk, on_world. by destruct (disk o _). Qed.
Lemma write_out_silent w : silent (write_out w).
Proof. apply silent_trace. intros h. apply write_out_trace. Qed.
Lemma ignore_silent {A} (m : io (host W) A) : silent m -> silent (ignore m).
Proof. intros Hm h. destruct (Hm h) as (c & E & Hc). by exists c. Qed.

Lemma run_quietly_calls cmd argv :
  calls (run_quietly cmd argv) (fun _ c => c = if is_setenforce (Cmd cmd argv) then [argv] else []).
Proof.
  intros h. eexists. split; [|reflexivity]. unfold run_quietly, ignore, succeeds, exec.
  destruct (spawn _ _) as [r w]. cbn [snd h_shell trace]. rewrite enforced_app. f_equal.
  unfold enforced, retain. simpl. by destruct (is_setenforce _).
Qed.
Lemma run_quietly_silent cmd argv : is_setenforce (Cmd cmd argv) = false -> silent (run_quietly cmd argv).
Proof. intros E. eapply calls_mono; [apply run_quietly_calls|]. intros a c. by rewrite E. Qed.
Lemma output_of_silent cmd argv : is_setenforce (Cmd cmd argv) = false -> silent (output_of cmd argv).
Proof.
  intros E h. exists []. split; [|done]. unfold output_of, on_shell, exec.
  destruct (spawn _ _) as [r w]. cbn [snd h_shell trace]. rewrite enforced_app. f_equal.
  unfold enforced, retain. simpl. by rewrite E.
Qed.

Lemma setup_silent src v : silent (setup_module_structure src v).
Proof.
  unfold setup_module_structure.
  repeat (apply silent_bind_ok; [first [apply do_disk_silent|apply write_out_silent|by apply output_of_silent]|intros ?]).
  by apply calls_ret.
Qed.

Lemma select_silent v failed : silent (select_driver levenshtein v failed).
Proof.
  unfold select_driver. apply silent_bind; [apply look_silent|]. intros []; [by apply calls_ret|].
  apply silent_bind_ok; [apply look_silent|]. intros names. by apply calls_ret.
Qed.

(** What follows the preparation. *)
Definition after_prepare (v : string) (failed : gset string) (original : option string) : io (host W) attempt :=
  d ← select_driver levenshtein v failed;
  match d with
  | Err e => mret (Failed e None)
  | Ok driver_path =>
    r ← setup_module_structure driver_path v;
    match r with
    | Err e => mret (Failed e None)
    | Ok _ => load_module v driver_path (restore_selinux original)
    end
  end.

Context (setenforce_there : forall w, path_exists "/usr/sbin/setenforce" w = true).

Lemma set_mode_calls mode :
  calls (e ← tool "setenforce"; match e with Some setenforce => run_quietly setenforce [mode] | None => mret tt end)
    (fun _ c => c = [[mode]]).
Proof.
  intros h. unfold mbind, io_bind, tool, look. cbn [String.append]. rewrite setenforce_there.
  exact (run_quietly_calls "/usr/sbin/setenforce" [mode] h).
Qed.

Lemma restore_calls state : is_enforcing state = true -> calls (restore_selinux (Some state)) (fun _ c => c = [["1"]]).
Proof. intros E. unfold restore_selinux. rewrite E. exact (set_mode_calls "1"). Qed.

(** The last command of a trace is the start of [insmod]. *)
Definition ends_with_insmod (v : string) (t : list command) : bool :=
  bool_decide (last t = Some (Cmd "insmod" [module_file v])).

(** A step that is silent, then one that ends so. *)
Definition ends {A} (m : io (host W) A) (Q : A -> list (list string) -> list command -> Prop) : Prop :=
  forall h, exists c, enforced (trace (h_shell (m h).2)) = enforced (trace (h_shell h)) ++ c
                      /\ Q (m h).1 c (trace (h_shell (m h).2)).

Lemma silent_ends {A B} (m : io (host W) A) (f : A -> io (host W) B) Q :
  silent m -> (forall a, ends (f a) Q) -> ends (m ≫= f) Q.
Proof.
  intros Hm Hf h. unfold mbind, io_bind. destruct (Hm h) as (c & E & ->). destruct (m h) as [a h1].
  destruct (Hf a h1) as (c' & E' & Hc'). exists c'. cbn [fst snd] in *. by rewrite E', E, app_nil_r.
Qed.

(** An attempt that has come to load the module: [setenforce 1] is the last
    command on every way out but one, where that is an [insmod] that could not
    be started. *)
Definition restored (v : string) (a : attempt) (c : list (list string)) (t : list command) : Prop :=
  if ends_with_insmod v t then c = [] /\ exists e, a = Failed e None else c = [["1"]].

Lemma restore_ends v state a :
  is_enforcing state = true -> ends (_ ← restore_selinux (Some state); mret a) (restored v).
Proof.
  intros E h. destruct (restore_calls state E h) as (c & Ec & ->). exists [["1"]].
  unfold mbind, io_bind. split; [by destruct (restore_selinux _ h)|].
  assert (trace (h_shell (restore_selinux (Some state) h).2)
          = trace (h_shell h) ++ [Cmd "/usr/sbin/setenforce" ["1"]]) as Et.
  { unfold restore_selinux, tool, look, mbind, io_bind. rewrite E. cbn [negb String.append].
    rewrite setenforce_there. unfold run_quietly, ignore, succeeds, exec. by destruct (spawn _ _). }
  destruct (restore_selinux (Some state) h) as [[] h1]. cbn [fst snd mret io_ret] in *.
  unfold restored, ends_with_insmod. by rewrite Et, last_snoc.
Qed.

Lemma load_module_ends v p state :
  is_enforcing state = true -> ends (load_module v p (restore_selinux (Some state))) (restored v).
Proof.
  intros E. pose proof (fun a => restore_ends v state a E) as Hend. unfold load_module.
  apply silent_ends; [by apply run_quietly_silent|intros ?].
  apply silent_ends; [apply look_silent|intros []]; [apply Hend|].
  apply silent_ends; [by apply run_quietly_silent|intros ?].
  apply silent_ends; [apply look_silent|intros []]; [apply Hend|].
  apply silent_ends; [apply look_silent|intros []]; [|apply Hend]. simpl. intros h.
  destruct (output_of_silent "insmod" [module_file v] eq_refl h) as (c & Ec & ->).
  assert (trace (h_shell (output_of "insmod" [module_file v] h).2)
          = trace (h_shell h) ++ [Cmd "insmod" [module_file v]]) as Et.
  { unfold output_of, on_shell, exec. by destruct (spawn _ _). }
  unfold mbind, io_bind. destruct (output_of _ _ h) as [[o|e] h1]; cbn [fst snd mret io_ret] in *.
  - destruct (Hend (if success o then Loaded (driver_name p)
                    else Failed ("insmod 失败: " +:+ from_utf8_lossy (stderr o)) (Some p)) h1) as (c & Ec' & Hc).
    unfold mbind, io_bind in Ec', Hc. exists c. split; [|exact Hc].
    etrans; [exact Ec'|]. by rewrite Ec, app_nil_r.
  - exists []. rewrite Ec, app_nil_r. split; [done|]. unfold restored, ends_with_insmod.
    rewrite Et, last_snoc, bool_decide_true by done. eauto.
Qed.

(** Whether an attempt comes to load the module: a driver is found and its
    directory prepared. *)
Definition comes_to_load (v : string) (failed : gset string) (h : host W) : bool :=
  let '(d, h) := select_driver levenshtein v failed h in
  match d with Err _ => false | Ok p => is_ok (setup_module_structure p v h).1 end.

Lemma after_prepare_ends v failed state h :
  is_enforcing state = true ->
  let '(a, h') := after_prepare v failed (Some state) h in
  exists c, enforced (trace (h_shell h')) = enforced (trace (h_shell h)) ++ c
    /\ if comes_to_load v failed h then restored v a c (trace (h_shell h'))
       else c = [] /\ exists e, a = Failed e None.
Proof.
  intros E. unfold after_prepare, comes_to_load, mbind, io_bind.
  destruct (select_silent v failed h) as (c1 & E1 & ->).
  destruct (select_driver _ _ _ h) as [[p|e] h1]; cbn [fst snd mret io_ret] in *; [|exists []; eauto].
  destruct (setup_silent p v h1) as (c2 & E2 & ->).
  destruct (setup_module_structure p v h1) as [[[]|e] h2]; cbn [fst snd mret io_ret is_ok] in *.
  - destruct (load_module_ends v p state E h2) as (c & Ec & Hc).
    destruct (load_module _ _ _ h2) as [a h3]. cbn [fst snd] in *. exists c.
    by rewrite Ec, E2, E1, !app_nil_r.
  - exists []. rewrite E2, E1, !app_nil_r. eauto.
Qed.

(** The preparation of a host whose SELinux is enforcing. *)
Definition enforcing (w : W) : Prop :=
  path_exists "/usr/sbin/getenforce" w = true
  /\ exists o, (spawn (Cmd "/usr/sbin/getenforce" []) w).1 = Ok o
       /\ is_enforcing (trim (from_utf8_lossy (stdout o))) = true.

Lemma disable_calls h :
  enforcing (world (h_shell h)) ->
  exists state, is_enforcing state = true /\ (get_and_disable_selinux h).1 = Some state
    /\ enforced (trace (h_shell (get_and_disable_selinux h).2)) = enforced (trace (h_shell h)) ++ [["0"]].
Proof.
  intros (Hg & o & Ho & He). exists (trim (from_utf8_lossy (stdout o))). split; [exact He|].
  pose proof (output_of_silent "/usr/sbin/getenforce" [] eq_refl h) as (c0 & E0 & ->).
  assert ((output_of "/usr/sbin/getenforce" [] h).1 = Ok o) as Hr.
  { unfold output_of, on_shell, exec. by destruct (spawn _ _). }
  assert (tool "getenforce" h = (Some "/usr/sbin/getenforce", h)) as Ht.
  { unfold tool, look. change ("/usr/sbin/" +:+ "getenforce") with "/usr/sbin/getenforce". by rewrite Hg. }
  unfold get_and_disable_selinux, mbind, io_bind. rewrite Ht. destruct (output_of _ _ h) as [r h1]. cbn [fst snd] in *. subst r.
  rewrite He. destruct (set_mode_calls "0" h1) as (c & E & ->). unfold mbind, io_bind in E.
  destruct (tool "setenforce" h1) as [e h2].
  match type of E with context [(?m h2).2] => destruct (m h2) as [[] h3] end.
  cbn [fst snd mret io_ret] in *. by rewrite E, E0, app_nil_r.
Qed.

Lemma prepare_calls h :
  enforcing (world (h_shell h)) ->
  exists state, is_enforcing state = true /\ (prepare_host h).1 = Some state
    /\ enforced (trace (h_shell (prepare_host h).2)) = enforced (trace (h_shell h)) ++ [["0"]].
Proof.
  intros He. destruct (disable_calls h He) as (state & Hs & E1 & E2). exists state. split; [exact Hs|].
  unfold prepare_host. unfold mbind at 1 6, io_bind at 1 6.
  destruct (get_and_disable_selinux h) as [original h1]. cbn [fst snd] in *. subst original. rewrite <- E2.
  match goal with |- (?m h1).1 = _ /\ _ => assert (calls m (fun r c => r = Some state /\ c = [])) as Hm end.
  { do 2 (apply silent_bind; [apply ignore_silent, do_disk_silent|intros ?]).
    apply silent_bind; [apply look_silent|intros uio]. apply silent_bind; [|intros ?; by apply calls_ret].
    destruct uio; [by apply calls_ret|by apply run_quietly_silent]. }
  destruct (Hm h1) as (c & E & -> & ->). by rewrite E, app_nil_r.
Qed.
End selinux.


(** ** The rounds of the loop *)

Section rounds.
Context (levenshtein : string -> string -> nat).
Context {W : Type} `{Os W} `{Files W} `{Disk W}.

(** One round, with its state written out. *)
Lemma load_round fuel v drivers failed (h : host W) :
  load_rounds levenshtein (S fuel) v drivers failed h =
    if (is_driver_loaded h).1 then (Some Exits, h)
    else match try_load_driver_with_cache levenshtein v failed h with
         | (Loaded d, h) => (Some (Returns (Ok d)), (cleanup_unused_drivers d h).2)
         | (Failed _ bad, h) =>
           let failed := match bad with Some p => {[p]} ∪ failed | None => failed end in
           match after_failure v drivers failed (path_exists (exact_driver v) (world (h_shell h))) with
           | inl failed => load_rounds levenshtein fuel v drivers failed h
           | inr e => (Some (Returns (Err e)), h)
           end
         end.
Proof.
  cbn [load_rounds]. unfold is_driver_loaded. rewrite look_bind. cbn [look fst]. destruct (any_line _ _); [done|].
  unfold mbind, io_bind. destruct (try_load_driver_with_cache _ _ _ h) as [[d|e bad] h1]; [done|].
  cbn [look]. by destruct (after_failure _ _ _ _).
Qed.

(** One round, when the driver for the running kernel is installed: the loop
    ends, or goes on with that driver among the failed ones. *)
Lemma round_exact fuel v drivers failed (h : host W) :
  (forall w : W, path_exists (exact_driver v) w = true) ->
  (exists r, (load_rounds levenshtein (S fuel) v drivers failed h).1 = Some r)
  \/ exists failed' h', exact_driver v ∈ failed'
       /\ exact_driver v ∉ failed
       /\ load_rounds levenshtein (S fuel) v drivers failed h = load_rounds levenshtein fuel v drivers failed' h'.
Proof.
  intros Ht. rewrite load_round. destruct (is_driver_loaded h).1; [eauto|].
  destruct (try_load_driver_with_cache _ _ _ h) as [[d|e bad] h1]; [eauto|].
  cbv zeta. rewrite Ht. unfold after_failure. cbn [andb].
  set (failed1 := match bad with Some p => _ | None => _ end).
  assert (failed ⊆ failed1) as Hf by (unfold failed1; destruct bad; set_solver).
  destruct (decide (exact_driver v ∈ failed1)) as [Hin|Hin].
  - rewrite bool_decide_eq_true_2 by done. cbn [negb]. left. destruct (_ <=? _)%nat; eauto.
  - rewrite bool_decide_eq_false_2 by done. cbn [negb]. right. exists ({[exact_driver v]} ∪ failed1), h1.
    split; [set_solver|]. split; [set_solver|done].
Qed.
End rounds.

(** on a host that has the driver built for its kernel the loader makes at
    most two attempts, whatever happens in them. *)
Theorem exact_driver_two_rounds levenshtein {W} `{Os W, Files W, Disk W} fuel v drivers failed (h : host W) :
  (forall w : W, path_exists (exact_driver v) w = true) -> (2 <= fuel)%nat ->
  is_Some (load_rounds levenshtein fuel v drivers failed h).1.
Proof.
  intros Ht Hfuel. destruct fuel as [|[|fuel]]; [lia..|].
  destruct (round_exact levenshtein (S fuel) v drivers failed h Ht)
    as [[r ->]|(failed1 & h1 & Hin & _ & ->)]; [done|].
  destruct (round_exact levenshtein fuel v drivers failed1 h1 Ht)
    as [[r ->]|(failed2 & h2 & _ & Hout & _)]; [done|set_solver].
Qed.

(** without [modprobe] no attempt rules out a driver, so that on a host that
    only has drivers for other kernels the loader tries again every second, for
    ever, and changes nothing. *)
Theorem no_modprobe_retries_forever levenshtein {W} `{Os W, Files W, Disk W} fuel v drivers (h : host W) :
  (is_driver_loaded h).1 = false -> (is_running_in_container h).1 = false -> (has_modprobe h).1 = false ->
  path_exists (exact_driver v) (world (h_shell h)) = false -> (0 < drivers)%nat ->
  load_rounds levenshtein fuel v drivers ∅ h = (None, h).
Proof.
  intros Hl Hc Hm Ht Hd. induction fuel as [|fuel IH]; [done|]. rewrite load_round, Hl.
  assert (try_load_driver_with_cache levenshtein v ∅ h = (Failed "modprobe not found on system" None, h)) as E.
  { unfold try_load_driver_with_cache, is_running_in_container, has_modprobe in *. cbn [look fst] in Hc, Hm.
    by rewrite look_bind, Hc, look_bind, Hm. }
  rewrite E. cbv zeta. rewrite Ht. unfold after_failure. cbn [andb].
  rewrite size_empty. destruct drivers; [lia|]. cbn [Nat.leb].
  rewrite bool_decide_eq_false_2 by set_solver. exact IH.
Qed.

(** ** Instances *)

Module ModuleDemo.

(** The number of places in which two strings differ. *)
Fixpoint differences (a b : string) : nat :=
  match a, b with
  | String x a, String y b => (if bool_decide (x = y) then 0 else 1) + differences a b
  | _, _ => String.length a + String.length b
  end%nat.

Definition v : string := "5.4.0-42".

Definition says (text : string) : result string output := reply (as_bytes text).

(** [/proc/modules] and the paths that exist; [insmod] works. *)
Definition machine : Type := string * list string.

#[local] Instance demo_os : Os machine := {|
  spawn c w :=
    if bool_decide (program c = "uname") then (says v, w)
    else if bool_decide (program c = "/usr/sbin/getenforce") then (says "Enforcing", w)
    else (reply [], w)
|}.
#[local] Instance demo_files : Files machine := {| put _ w := (Ok tt, w) |}.

Definition installed : list string :=
  ["agent"; "osec_base.ko-5.4.0-77"; "osec_base.ko-5.4.0-41"; "osec_base.ko-4.4.0-42"].

(** SELinux's tool cannot be removed; the copy of a file makes it exist. *)
#[local] Instance demo_disk : Disk machine := {|
  disk o w := match o with
              | Copy _ b => (Ok tt, (w.1, b :: w.2))
              | _ => (Ok tt, w)
              end;
  path_exists p w := bool_decide (p = "/usr/sbin/setenforce") || bool_decide (p ∈ w.2);
  read_dir _ _ := Ok installed;
  unzip _ _ w := (Err "no archive", w);
  read_text p w := if bool_decide (p = "/proc/modules") then Ok w.1 else Err "not found"
|}.

Definition host_of (paths : list string) : host machine := Host (Shell ("ext4 1 - Live", paths) []) [].

Definition full : host machine := host_of ["/sbin/modprobe"; "/usr/sbin/getenforce"].

Lemma nearest_driver_chosen_witness :
  exists s, first_lowest (omap (candidate differences v ∅) installed) (Some ("/opt/osec/osec_base.ko-5.4.0-41", s)).
Proof. exact (nearest_driver_chosen differences v ∅ installed full eq_refl). Defined.

Example candidates_scored :
  omap (candidate differences v ∅) installed
  = [("/opt/osec/osec_base.ko-5.4.0-77", 2%nat); ("/opt/osec/osec_base.ko-5.4.0-41", 1%nat)].
Proof. vm_compute. reflexivity. Qed.


Example driver_loaded :
  (load_kernel_driver differences 3 full).1 = Some (Returns (Ok "5.4.0-41")).
Proof. vm_compute. reflexivity. Qed.

(** The same machine with the driver for the running kernel. *)
Definition exact_disk : Disk machine := {|
  disk o w := (Ok tt, w);
  path_exists p _ := bool_decide (p = exact_driver v);
  read_dir _ _ := Ok ["osec_base.ko-5.4.0-42"];
  unzip _ _ w := (Err "no archive", w);
  read_text _ _ := Err "not found"
|}.

Lemma exact_driver_two_rounds_witness :
  is_Some (load_rounds (H1 := exact_disk) differences 2 v 3 ∅ full).1
  /\ (load_rounds (H1 := exact_disk) differences 2 v 3 ∅ full).1 = Some (Returns (Err "best driver failed to load")).
Proof.
  split; [|vm_compute; reflexivity].
  apply (exact_driver_two_rounds (H1 := exact_disk) differences 2 v 3 ∅ full (fun w => eq_refl)). lia.
Defined.

Lemma no_modprobe_retries_forever_witness :
  load_rounds differences 100 v 2 ∅ (host_of []) = (None, host_of []).
Proof.
  apply (no_modprobe_retries_forever differences 100 v 2 (host_of [])); [vm_compute; reflexivity..|lia].
Defined.

End ModuleDemo.
