(* ===== verification/Docker.v ===== *)
(** * The container monitor

    [crates/docker/src/monitor.rs]: every eight seconds, and whenever the kernel
    module asks, the agent looks for the shim processes of containers in the
    process list and tells the kernel module which have come and gone.  The
    static variables of the source are the fields of one state. *)

From Stdlib Require Import Ascii.
From S2P Require Import Prelude RustStr Bytes Shell Host.

(** ** State *)

Record DockerShimProcess := Shim { pid : Z; kind : Z }.

#[global] Instance shim_eq_dec : EqDecision DockerShimProcess.
Proof. solve_decision. Defined.
#[global] Instance shim_countable : Countable DockerShimProcess.
Proof. apply (inj_countable' (fun p => (pid p, kind p)) (fun '(a, b) => Shim a b)). by intros []. Defined.

Inductive DockerEventAction := Add | Remove.

Definition as_flag (a : DockerEventAction) : Z := match a with Add => 1 | Remove => 0 end.

(** [DOCKER_VERSION], [IS_VERSION_2] and so on. *)
Record docker (W : Type) := Docker {
  d_host : host W;
  last_processes : list DockerShimProcess;
  detected_command : option (string * nat);
  last_root_pid : Z;
  is_version_2 : bool;
  docker_version : Z
}.
Arguments Docker {W} _ _ _ _ _ _.
Arguments d_host {W} _.
Arguments last_processes {W} _.
Arguments detected_command {W} _.
Arguments last_root_pid {W} _.
Arguments is_version_2 {W} _.
Arguments docker_version {W} _.

Definition PROC_OSEC_DOCKER_RT : string := "/proc/osec/docker_rt".

Definition DETECTION_COMMANDS : list string := [
  "ps -e -o pid,ppid,cmd | grep 'docker-containerd-shim-current' | grep -v grep | awk '{print $1,$2}'";
  "ps -e -o pid,ppid,cmd | grep 'containerd-shim' | grep 'namespace' | grep -v grep | awk '{print $1,$2}'";
  "ps -e -o pid,ppid,cmd | grep -E '[c]onmon' | grep -- '--api-version' | grep -v grep | awk '{print $1,$2}'"
].
Definition ROOT_COMMAND : string :=
  "ps -e -o pid,cmd | grep '/containerd$' | grep -v grep | awk '{print $1}'".

Section monitor.
Context {W : Type} `{Os W} `{Files W} `{Disk W}.

Abbreviation st := (docker W).

Definition on_host {A} (m : io (host W) A) : io st A := fun d =>
  let '(a, h) := m (d_host d) in
  (a, Docker h (last_processes d) (detected_command d) (last_root_pid d) (is_version_2 d) (docker_version d)).
Definition get {A} (f : st -> A) : io st A := fun d => (f d, d).
Definition set_last (l : list DockerShimProcess) : io st unit := fun d =>
  (tt, Docker (d_host d) l (detected_command d) (last_root_pid d) (is_version_2 d) (docker_version d)).
Definition set_detected (c : string * nat) : io st unit := fun d =>
  (tt, Docker (d_host d) (last_processes d) (Some c) (last_root_pid d) (is_version_2 d) (docker_version d)).
Definition set_root (p : Z) : io st unit := fun d =>
  (tt, Docker (d_host d) (last_processes d) (detected_command d) p (is_version_2 d) (docker_version d)).
Definition set_v2 : io st unit := fun d =>
  (tt, Docker (d_host d) (last_processes d) (detected_command d) (last_root_pid d) true (docker_version d)).
Definition set_version (v : Z) : io st unit := fun d =>
  (tt, Docker (d_host d) (last_processes d) (detected_command d) (last_root_pid d) (is_version_2 d) v).

(** ** The process list *)

Definition pid_pair (line : string) : option (Z * Z) :=
  match split_whitespace (trim line) with
  | a :: b :: _ => p ← parse_int 32 a; pp ← parse_int 32 b; Some (p, pp)
  | _ => None
  end.

Definition exec_shell (command : string) : io st (result string (list (Z * Z))) :=
  let? o := with_err (fun e => "Command failed: '" +:+ command +:+ "': " +:+ e)
              (on_host (output_of "sh" ["-c"; command])) in
  if negb (success o) then
    mret (Err ("Command '" +:+ command +:+ "' failed with status " +:+ status_text o +:+ ": "
               +:+ from_utf8_lossy (stderr o)))
  else mret (Ok (omap pid_pair (lines (from_utf8_lossy (stdout o))))).

Fixpoint detect_from (i : nat) (cmds : list string) : io st (result string (string * nat)) :=
  match cmds with
  | [] => mret (Err "No valid container runtime shim command detected")
  | cmd :: cmds =>
    r ← exec_shell cmd;
    match r with
    | Ok (_ :: _) => mret (Ok (cmd, i))
    | _ => detect_from (S i) cmds
    end
  end.
Definition detect_valid_command : io st (result string (string * nat)) := detect_from 0 DETECTION_COMMANDS.

(** [ppids.windows(2).all(|w| w[0] == w[1])]. *)
Fixpoint all_equal (l : list Z) : bool :=
  match l with
  | a :: (b :: _) as l => (a =? b) && all_equal l
  | _ => true
  end.

Definition shims_of (index : nat) (entries : list (Z * Z)) : list DockerShimProcess :=
  if all_equal (snd <$> entries) then
    match index with
    | O => match entries with
           | (_, parent_pid) :: _ => if 10 <? parent_pid then [Shim parent_pid 1] else []
           | [] => []
           end
    | 1%nat | 2%nat => (fun e => Shim e.1 2) <$> entries
    | _ => []
    end
  else [].

(** [version_locked]: the caller holds [DOCKER_VERSION], so that [try_lock]
    fails and the version stays. *)
Definition scan_docker_processes (version_locked : bool) : io st (result string (list DockerShimProcess)) :=
  d ← get detected_command;
  let? detected :=
    match d with
    | Some cmd => mret (Ok cmd)
    | None => let? cmd := detect_valid_command in (_ ← set_detected cmd; mret (Ok cmd))
    end in
  let? entries := exec_shell detected.1 in
  if bool_decide (entries = []) then mret (Ok [])
  else
    let processes := shims_of detected.2 entries in
    _ ← match processes with
        | p :: _ => if version_locked then mret tt else set_version (kind p)
        | [] => mret tt
        end;
    _ ← (if existsb (fun p => kind p =? 2) processes then set_v2 else mret tt);
    mret (Ok processes).

(** ** What the kernel module is told *)

Definition send_line (line : string) : io st unit := ignore (on_host (write_out (WriteFile PROC_OSEC_DOCKER_RT line))).

Definition newline : string := String line_feed "".

Definition emit_event (k : Z) (action : DockerEventAction) (p : Z) : io st unit :=
  send_line (match action with
             | Remove => if (k =? 4) && (p =? 0) then "4,0,0" +:+ newline
                    else dec k +:+ "," +:+ dec (as_flag action) +:+ "," +:+ dec_signed p +:+ newline
        | Add => dec k +:+ "," +:+ dec (as_flag action) +:+ "," +:+ dec_signed p +:+ newline
        end).
Definition clear_docker_rt : io st unit := send_line ("c" +:+ newline).

(** The process numbers behind the heading of the module's own listing. *)
Fixpoint listed_pids (in_data_section : bool) (ls : list string) : list Z :=
  match ls with
  | [] => []
  | line :: ls =>
    if negb in_data_section then listed_pids (contains "Docker Container PID:" line) ls
    else match line with
         | String c _ =>
           if bool_decide (is_Some (Ascii.is_nat c)) then
             option_list (parse_int 32 (trim line)) ++ listed_pids true ls
           else listed_pids true ls
         | EmptyString => listed_pids true ls
         end
  end.

Definition check_residual_pids (current_pids : gset Z) : io st unit :=
  r ← on_host (look (read_text PROC_OSEC_DOCKER_RT));
  match r with
  | Err _ => mret tt
  | Ok text =>
    let proc_pids := listed_pids false (lines text) in
    if (size current_pids + 2 <? length proc_pids)%nat then
      for_each (fun p => if bool_decide (p ∈ current_pids) then mret tt else emit_event 2 Remove p) proc_pids
    else mret tt
  end.

(** ** Keeping the module's table *)

Definition clear_all : io st unit := _ ← emit_event 4 Remove 0; clear_docker_rt.

(** The part under the lock of [LAST_PROCESSES]; whether leftovers are looked
    for afterwards. *)
Definition apply_scan (current : list DockerShimProcess) : io st bool :=
  last ← get last_processes;
  if bool_decide (current = []) then
    _ ← (if bool_decide (last = []) then mret tt else _ ← clear_all; set_last []);
    mret false
  else if bool_decide (last = []) then
    _ ← for_each (fun p => emit_event (kind p) Add (pid p)) current;
    _ ← set_last current; mret false
  else
    let added := retain (fun p => negb (bool_decide (p ∈ last))) current in
    let removed := retain (fun p => negb (bool_decide (p ∈ current))) last in
    _ ← for_each (fun p => emit_event (kind p) Add (pid p)) added;
    _ ← for_each (fun p => emit_event (kind p) Remove (pid p)) removed;
    _ ← (if negb (bool_decide (added = [])) || negb (bool_decide (removed = []))
            || negb (length current =? length last)%nat
         then set_last current else mret tt);
    mret true.

Definition update_docker_state (version_locked : bool) : io st unit :=
  r ← scan_docker_processes version_locked;
  match r with
  | Err _ => mret tt
  | Ok current =>
    go_on ← apply_scan current;
    v2 ← get is_version_2;
    if (go_on : bool) && (v2 : bool) then check_residual_pids (list_to_set (pid <$> current)) else mret tt
  end.

Definition clear_container_pid : io st unit := clear_all.

Definition set_container_root_pid : io st unit :=
  r ← on_host (output_of "sh" ["-c"; ROOT_COMMAND]);
  let pid_str := match r with
                 | Ok o => if success o then trim <$> head (lines (from_utf8_lossy (stdout o))) else None
                 | Err _ => None
                 end in
  last ← get last_root_pid;
  match pid_str ≫= parse_int 32 with
  | Some p => if 0 <? p then
                (if negb (p =? last) then _ ← emit_event 3 Add p; set_root p else mret tt)
              else if negb (last =? 0) then _ ← emit_event 3 Remove 0; set_root 0 else mret tt
  | None => if negb (last =? 0) then _ ← emit_event 3 Remove 0; set_root 0 else mret tt
  end.

Definition reset_container_root_pid (p : Z) : io st (result string unit) :=
  if p <=? 0 then mret (Err "Invalid PID")
  else
    _ ← emit_event 3 Add p;
    _ ← set_root p;
    version ← get docker_version;
    _ ← (if version =? 1 then clear_all else update_docker_state true);
    mret (Ok tt).

(** [n] rounds of the loop. *)
Fixpoint monitor_rounds (n : nat) : io st unit :=
  match n with O => mret tt | S n => _ ← update_docker_state false; monitor_rounds n end.
Definition run_monitor_loop (n : nat) : io st unit := _ ← set_container_root_pid; monitor_rounds n.

(** ** Messages of the kernel module *)

Record ComInfo := Com { ci_pid : Z; ci_ppid : Z; ci_flags : Z }.
Definition type_ (c : ComInfo) : Z := Z.land (ci_flags c) 7.

Definition COM_INFO_SIZE : Z := 12.
Definition read_com_info (t : target) (data : list Z) : ComInfo :=
  Com (from_ne_bytes t (sub 0 4 data)) (from_ne_bytes t (sub 4 4 data)) (from_ne_bytes t (sub 8 4 data)).

Definition handle_kernel_docker_oper (t : target) (data : list Z) (data_len : Z) : io st (result string unit) :=
  if (blen data <? COM_INFO_SIZE) || (data_len <? COM_INFO_SIZE) then mret (Err "Invalid length")
  else
    let com_info := read_com_info t data in
    _ ← (if type_ com_info =? 3 then ignore (reset_container_root_pid (to_signed 32 (ci_pid com_info)))
         else if type_ com_info =? 1 then update_docker_state false
         else mret tt);
    mret (Ok tt).
End monitor.

(** ** What the kernel module has been told

    The lines as the comment of [emit_event] describes them: a kind, a flag and
    a process number; kind 3 is the container daemon, [4,0,0] and [c] clear the
    table of containers. *)

Inductive event := Told (k : Z) (a : DockerEventAction) (p : Z) | Cleared.

Definition read_event (line : string) : option event :=
  if bool_decide (line = "c" +:+ newline) then Some Cleared
  else match split_char "," (trim line) with
       | [k; f; p] =>
         k ← parse_uint 8 k; f ← parse_uint 8 f; p ← parse_int 32 p;
         Some (Told k (if f =? 0 then Remove else Add) p)
       | _ => None
       end.

Record view := View { v_shims : gset DockerShimProcess; v_root : Z }.

Definition hear (e : event) (v : view) : view :=
  match e with
  | Cleared => View ∅ (v_root v)
  | Told k a p =>
    if k =? 3 then View (v_shims v) (match a with Add => p | Remove => 0 end)
    else if k =? 4 then View ∅ (v_root v)
    else View (match a with Add => {[Shim p k]} ∪ v_shims v | Remove => v_shims v ∖ {[Shim p k]} end) (v_root v)
  end.

Definition hear_write (v : view) (w : write) : view :=
  match w with
  | WriteFile p line =>
    if bool_decide (p = PROC_OSEC_DOCKER_RT) then from_option (fun e => hear e v) v (read_event line) else v
  | SendNetlink _ _ => v
  end.
Definition kernel_view (l : list write) : view := foldl hear_write (View ∅ 0) l.

Definition i32 (p : Z) : Prop := - 2 ^ 31 <= p < 2 ^ 31.

Lemma read_event_line k f p :
  is_uint 8 k -> is_uint 8 f -> i32 p ->
  read_event (dec k +:+ "," +:+ dec f +:+ "," +:+ dec_signed p +:+ newline)
  = Some (Told k (if f =? 0 then Remove else Add) p).
Proof.
  intros Hk Hf Hp. unfold read_event. rewrite bool_decide_false.
  2:{ destruct (dec_first k) as (a & s & -> & Ha). rewrite str_app_cons. intros [= -> _]. by destruct Ha. }
  assert (dec k +:+ "," +:+ dec f +:+ "," +:+ dec_signed p +:+ newline
          = (dec k +:+ "," +:+ dec f +:+ "," +:+ dec_signed p) +:+ newline) as ->.
  { by rewrite !str_app_assoc. }
  unfold newline. rewrite trim_line.
  2:{ repeat apply no_space_app; try apply no_space_dec; try apply no_space_dec_signed.
      all: intros a; by destruct a as [[] [] [] [] [] [] [] []]. }
  rewrite !str_app_cons, !str_app_nil_l. rewrite split_char_app by by apply dec_mem.
  rewrite split_char_app by by apply dec_mem. rewrite split_char_none by by apply dec_signed_mem.
  rewrite !parse_uint_dec by done. cbn [mbind option_bind]. by rewrite parse_int_dec by exact Hp.
Qed.

Section told.
Context {W : Type} `{Os W} `{Files W} `{Disk W}.

Definition kview (d : docker W) : view := kernel_view (h_written (d_host d)).

(** What the agent remembers. *)
Definition remembered (d : docker W) : view := View (list_to_set (last_processes d)) (last_root_pid d).
Definition fields (d : docker W) : list DockerShimProcess * Z := (last_processes d, last_root_pid d).

(** [m] tells the module [f] and leaves what the agent remembers. *)
Definition tells {A} (m : io (docker W) A) (f : view -> view) : Prop :=
  forall d, kview (m d).2 = f (kview d) /\ fields (m d).2 = fields d.

Lemma tells_bind {A B} (m : io (docker W) A) (k : A -> io (docker W) B) f g :
  tells m f -> (forall a, tells (k a) g) -> tells (m ≫= k) (fun v => g (f v)).
Proof.
  intros Hm Hk d. unfold mbind, io_bind. specialize (Hm d). destruct (m d) as [a d1].
  destruct (Hk a d1) as [-> ->]. destruct Hm as [E1 E2]. cbn [snd] in *. by rewrite E1, E2.
Qed.

Lemma tells_ret {A} (a : A) : tells (mret a) id.
Proof. done. Qed.

(** A call that writes nothing tells nothing. *)
Lemma on_host_tells {A} (m : io (host W) A) :
  (forall h, h_written (m h).2 = h_written h) -> tells (on_host m) id.
Proof.
  intros Hm d. unfold on_host. specialize (Hm (d_host d)). destruct (m (d_host d)) as [a h].
  unfold kview. simpl in *. by rewrite Hm.
Qed.

Lemma output_of_written cmd argv (h : host W) : h_written (output_of cmd argv h).2 = h_written h.
Proof. unfold output_of, on_shell. by destruct (exec _ _). Qed.

Lemma tells_bind_ok {E A B} (m : io (docker W) (result E A)) (k : A -> io (docker W) (result E B)) :
  tells m id -> (forall a, tells (k a) id) -> tells (bind_ok m k) id.
Proof.
  intros Hm Hk d. unfold bind_ok. destruct (Hm d) as [E1 E2]. destruct (m d) as [[a|e] d1]; [|done].
  destruct (Hk a d1) as [-> ->]. cbn [snd] in *. by rewrite E1, E2.
Qed.

Lemma tells_with_err {E F A} (g : E -> F) (m : io (docker W) (result E A)) f : tells m f -> tells (with_err g m) f.
Proof. intros Hm d. unfold with_err. specialize (Hm d). by destruct (m d). Qed.

Lemma exec_shell_tells c : tells (exec_shell c) id.
Proof.
  apply tells_bind_ok; [apply tells_with_err, on_host_tells, output_of_written|].
  intros o. destruct (negb _); apply tells_ret.
Qed.

Lemma detect_tells i cmds : tells (detect_from i cmds) id.
Proof.
  revert i. induction cmds as [|c cmds IH]; intros i; [apply tells_ret|]. cbn [detect_from].
  apply (tells_bind _ _ id id); [apply exec_shell_tells|]. intros [[|]|]; [apply IH|apply tells_ret|apply IH].
Qed.

Lemma scan_tells locked : tells (scan_docker_processes locked) id.
Proof.
  apply (tells_bind _ _ id id); [done|]. intros det. apply tells_bind_ok.
  { destruct det; [apply tells_ret|]. apply tells_bind_ok; [apply detect_tells|]. done. }
  intros c. apply tells_bind_ok; [apply exec_shell_tells|]. intros entries.
  case_bool_decide; [apply tells_ret|]. apply (tells_bind _ _ id id).
  { destruct (shims_of _ _); [done|]. by destruct locked. }
  intros _. apply (tells_bind _ _ id id); [by destruct (existsb _ _)|]. intros _. apply tells_ret.
Qed.

(** The scan finds processes with 32-bit numbers, of kind 1 or 2. *)
Definition shim_ok (p : DockerShimProcess) : Prop := i32 (pid p) /\ (kind p = 1 \/ kind p = 2).

Definition entry_ok (e : Z * Z) : Prop := i32 e.1 /\ i32 e.2.

Lemma pid_pair_ok line e : pid_pair line = Some e -> entry_ok e.
Proof.
  unfold pid_pair. destruct (split_whitespace _) as [|a [|b ?]]; [done..|].
  destruct (parse_int 32 a) as [p|] eqn:Ea; [|done]. cbn [mbind option_bind].
  destruct (parse_int 32 b) as [q|] eqn:Eb; [|done]. cbn [mbind option_bind]. intros [= <-].
  split; by eapply (parse_int_range 32).
Qed.

Lemma exec_shell_ok c d entries : (exec_shell c d).1 = Ok entries -> Forall entry_ok entries.
Proof.
  unfold exec_shell, bind_ok, with_err. destruct (on_host _ d) as [[o|e] d1]; [|done].
  cbn [map_err]. destruct (negb _); [done|]. cbn [mret io_ret fst]. intros [= <-].
  apply Forall_forall. intros e He. apply list_elem_of_omap in He as (line & _ & He). by eapply pid_pair_ok.
Qed.

Lemma shims_of_ok index entries : Forall entry_ok entries -> Forall shim_ok (shims_of index entries).
Proof.
  intros He. unfold shims_of. destruct (all_equal _); [|constructor].
  assert (Forall shim_ok ((fun e => Shim e.1 2) <$> entries)) as H2.
  { apply Forall_fmap. eapply Forall_impl; [exact He|]. intros [a b] [Ha _]. split; [exact Ha|by right]. }
  destruct index as [|[|[|]]]; [|done..|constructor].
  destruct He as [|[a b] l [_ Hb]]; [constructor|]. case_match; [|constructor].
  constructor; [|constructor]. split; [exact Hb|by left].
Qed.

Lemma scan_ok locked d current : (scan_docker_processes locked d).1 = Ok current -> Forall shim_ok current.
Proof.
  unfold scan_docker_processes. unfold mbind at 1, io_bind at 1. cbn [get].
  intros (c & d1 & _ & (entries & d2 & Hx & E)%bind_ok_Ok)%bind_ok_Ok.
  assert (Forall entry_ok entries) as He by (apply (exec_shell_ok c.1 d1); by rewrite Hx).
  revert E. case_bool_decide; [intros [= <-]; constructor|]. unfold mbind, io_bind. intros E.
  assert (current = shims_of c.2 entries) as ->; [|by apply shims_of_ok].
  destruct (shims_of _ _) as [|p ps]; [by injection E|].
  by destruct locked, (existsb _ _); injection E.
Qed.
End told.

Section mirror.
Context {W : Type} `{Os W} `{Files W} `{Disk W}.
(** The module takes every line. *)
Context (accepted : forall w (x : W), (put w x).1 = Ok tt).

Lemma send_tells line e : read_event line = Some e -> tells (W := W) (send_line line) (hear e).
Proof.
  intros He d. unfold send_line, ignore, on_host, write_out.
  specialize (accepted (WriteFile PROC_OSEC_DOCKER_RT line) (world (h_shell (d_host d)))).
  destruct (put _ _) as [r w]. cbn [fst] in *. subst r. cbn [snd]. split; [|done].
  unfold kview, kernel_view. cbn [d_host h_written]. rewrite foldl_app. cbn [foldl hear_write].
  rewrite bool_decide_eq_true_2 by done. by rewrite He.
Qed.

Lemma emit_tells k a p : is_uint 8 k -> i32 p -> tells (W := W) (emit_event k a p) (hear (Told k a p)).
Proof.
  intros Hk Hp. unfold emit_event. apply send_tells. destruct a; cbn [as_flag].
  - by rewrite read_event_line.
  - destruct (_ && _) eqn:E.
    + apply andb_true_iff in E as [->%Z.eqb_eq ->%Z.eqb_eq]. by vm_compute.
    + by rewrite read_event_line.
Qed.

Lemma clear_tells : tells (W := W) clear_all (fun v => View ∅ (v_root v)).
Proof.
  apply (tells_bind _ _ (hear (Told 4 Remove 0)) (hear Cleared)); [by apply emit_tells|].
  intros _. apply send_tells. by vm_compute.
Qed.

Lemma tells_for_each {A} (m : A -> io (docker W) unit) (f : A -> view -> view) l :
  Forall (fun x => tells (m x) (f x)) l -> tells (for_each m l) (fun v => foldl (fun v x => f x v) v l).
Proof.
  intros Hl. induction Hl as [|x l Hx Hl IH]; [done|]. intros d.
  exact (tells_bind _ _ _ _ Hx (fun _ => IH) d).
Qed.

Lemma hear_shim p a v :
  shim_ok p ->
  hear (Told (kind p) a (pid p)) v =
    View (match a with Add => {[p]} ∪ v_shims v | Remove => v_shims v ∖ {[p]} end) (v_root v).
Proof. destruct p as [n k]. by intros [_ [E|E]]; simpl in E; subst k. Qed.

Lemma emit_shim_tells p a :
  shim_ok p -> tells (W := W) (emit_event (kind p) a (pid p)) (hear (Told (kind p) a (pid p))).
Proof. intros [Hp Hk]. apply emit_tells; [|done]. destruct Hk as [-> | ->]; by vm_compute. Qed.

Lemma emit_all_tells a l :
  Forall shim_ok l ->
  tells (W := W) (for_each (fun p => emit_event (kind p) a (pid p)) l)
    (fun v => View (match a with Add => list_to_set l ∪ v_shims v | Remove => v_shims v ∖ list_to_set l end)
                (v_root v)).
Proof.
  intros Hl d. destruct (tells_for_each (fun p => emit_event (kind p) a (pid p))
    (fun p => hear (Told (kind p) a (pid p))) l) with (d := d) as [-> ->].
  { eapply Forall_impl; [exact Hl|]. intros p Hp. exact (emit_shim_tells p a Hp). }
  split; [|done]. generalize (kview d). induction Hl as [|p l Hp Hl IH]; intros [s r].
  - simpl. f_equal. destruct a; set_solver.
  - cbn [foldl]. rewrite hear_shim, IH by done. simpl. f_equal. destruct a; set_solver.
Qed.

(** ** The table follows the scans *)

Definition mirrored (d : docker W) : Prop :=
  kview d = remembered d /\ Forall shim_ok (last_processes d).

Lemma mirrored_tells {A} (m : io (docker W) A) f d :
  tells m f -> f (remembered d) = remembered d -> mirrored d -> mirrored (m d).2.
Proof.
  intros Hm Hf [E Hok]. destruct (Hm d) as [E1 E2]. rewrite E, Hf in E1.
  unfold fields in E2. injection E2 as E2 E3. unfold mirrored. rewrite E1. unfold remembered. by rewrite E2, E3.
Qed.

(** What came and what went leads from one set to the other. *)
Lemma diff_sets (last current : list DockerShimProcess) :
  (list_to_set (retain (fun p => negb (bool_decide (p ∈ last))) current) ∪ list_to_set last)
    ∖ list_to_set (retain (fun p => negb (bool_decide (p ∈ current))) last)
  = (list_to_set current : gset DockerShimProcess).
Proof.
  apply set_eq. intros p. rewrite elem_of_difference, elem_of_union, !elem_of_list_to_set, !elem_of_retain.
  rewrite !negb_true_iff, !bool_decide_eq_false. destruct (decide (p ∈ last)), (decide (p ∈ current)); tauto.
Qed.

(** After a scan has been applied the agent remembers what was found and the
    module knows it. *)
Lemma apply_scan_mirrored current d :
  mirrored d -> Forall shim_ok current ->
  mirrored (apply_scan current d).2
  /\ v_shims (kview (apply_scan current d).2) = list_to_set current.
Proof.
  intros [E Hlast] Hcur. unfold apply_scan, mbind, io_bind, get. cbn [mret io_ret].
  case_bool_decide as Hc; [subst current; case_bool_decide as Hl|case_bool_decide as Hl].
  - cbn [mret io_ret snd]. unfold mirrored, remembered in *. rewrite Hl in *. rewrite E. done.
  - destruct (clear_tells d) as [E1 E2]. destruct (clear_all d) as [[] d2]. cbn [snd] in *.
    unfold fields in E2. injection E2 as E2 E3. unfold mirrored, kview, remembered in *.
    cbn [set_last mret io_ret snd d_host last_processes last_root_pid]. rewrite E1, E, E3.
    split; [split|]; done.
  - destruct (emit_all_tells Add current Hcur d) as [E1 E2].
    destruct (for_each _ current d) as [[] d1]. cbn [snd set_last] in *.
    unfold fields in E2. injection E2 as E2 E3. unfold mirrored, kview, remembered in *.
    cbn [set_last mret io_ret snd d_host last_processes last_root_pid]. rewrite E1, E, E3, Hl.
    cbn [v_shims v_root list_to_set]. rewrite union_empty_r_L. done.
  - set (added := retain _ current). set (removed := retain _ (last_processes d)).
    assert (Forall shim_ok added) as Ha by by apply Forall_retain.
    assert (Forall shim_ok removed) as Hr by by apply Forall_retain.
    destruct (emit_all_tells Add added Ha d) as [E1 E2]. destruct (for_each _ added d) as [[] d1].
    destruct (emit_all_tells Remove removed Hr d1) as [E3 E4]. destruct (for_each _ removed d1) as [[] d2].
    cbn [snd] in *. rewrite E1, E in E3. rewrite E2 in E4. unfold fields in E4. injection E4 as E4 E5.
    unfold remembered in E3. cbn [v_shims v_root] in E3. unfold added at 1, removed in E3. rewrite diff_sets in E3.
    destruct (_ || _) eqn:Eb.
    + cbn [set_last snd]. unfold mirrored, kview, remembered in *.
    cbn [set_last mret io_ret snd d_host last_processes last_root_pid]. rewrite E3, E5. done.
    + cbn [mret io_ret snd]. apply orb_false_iff in Eb as [[Ea Er]%orb_false_iff _].
      apply negb_false_iff, bool_decide_eq_true in Ea, Er.
      unfold mirrored, remembered. rewrite E3, E4, E5. split; [|done]. split; [|done]. f_equal.
      rewrite <- (diff_sets (last_processes d) current). fold added removed. rewrite Ea, Er. set_solver.
Qed.

Lemma listed_pids_i32 b ls : Forall i32 (listed_pids b ls).
Proof.
  revert b. induction ls as [|line ls IH]; intros b; [constructor|]. cbn [listed_pids].
  destruct b; cbn [negb]; [|apply IH]. destruct line as [|c s]; [apply IH|].
  case_bool_decide; [|apply IH]. apply Forall_app. split; [|apply IH].
  destruct (parse_int 32 _) as [p|] eqn:E; [|constructor]. constructor; [|constructor].
  exact (parse_int_range 32 _ _ E).
Qed.

(** Only processes that were not found are removed as leftovers. *)
Lemma residual_mirrored current d :
  mirrored d -> v_shims (kview d) = list_to_set current ->
  mirrored (check_residual_pids (list_to_set (pid <$> current)) d).2.
Proof.
  intros Hd Hv. unfold check_residual_pids. unfold mbind at 1, io_bind at 1.
  destruct (on_host_tells (look (read_text PROC_OSEC_DOCKER_RT)) (fun h => eq_refl) d) as [E1 E2].
  assert (mirrored (on_host (look (read_text PROC_OSEC_DOCKER_RT)) d).2) as Hd1.
  { eapply mirrored_tells; [exact (on_host_tells (look (read_text PROC_OSEC_DOCKER_RT)) (fun h => eq_refl))|done..]. }
  destruct (on_host _ d) as [[text|e] d1]; [|exact Hd1]. cbn [snd] in *. unfold id in E1. rewrite <- E1 in Hv.
  case_match; [|exact Hd1].
  refine (proj1 (for_each_invariant (fun d => mirrored d /\ v_shims (kview d) = list_to_set current) _ _ _ d1 (conj Hd1 Hv))).
  clear -accepted. intros p d Hp [Hd Hv]. case_bool_decide as Hin; [done|].
  assert (i32 p) as Hp32 by (eapply Forall_forall in Hp; [exact Hp|apply listed_pids_i32]).
  pose proof (emit_tells 2 Remove p ltac:(by vm_compute) Hp32) as He.
  assert (hear (Told 2 Remove p) (kview d) = kview d) as Ev.
  { cbn. destruct (kview d) as [s r]. simpl in *. f_equal. subst s. apply set_eq. intros q.
    rewrite elem_of_difference, elem_of_singleton, elem_of_list_to_set. split; [tauto|]. intros Hq. split; [done|].
    intros ->. apply Hin, elem_of_list_to_set, list_elem_of_fmap. by exists (Shim p 2). }
  split; [|by rewrite (proj1 (He d)), Ev]. eapply mirrored_tells; [exact He| |done].
  destruct Hd as [<- _]. exact Ev.
Qed.

Lemma update_mirrored locked d : mirrored d -> mirrored (update_docker_state locked d).2.
Proof.
  intros Hd. unfold update_docker_state. unfold mbind at 1, io_bind at 1.
  pose proof (mirrored_tells _ id d (scan_tells locked) eq_refl Hd) as Hd1.
  pose proof (scan_ok locked d) as Hok. destruct (scan_docker_processes locked d) as [[current|e] d1]; [|done].
  cbn [fst snd] in *. destruct (apply_scan_mirrored current d1 Hd1 (Hok current eq_refl)) as [Hd2 Hv].
  unfold mbind, io_bind. destruct (apply_scan current d1) as [go_on d2]. cbn [get fst snd] in *.
  destruct (go_on && _); [|done]. by apply residual_mirrored.
Qed.

Lemma root_mirrored a p d :
  (a = Add \/ p = 0) -> i32 p -> mirrored d -> mirrored (set_root p (emit_event 3 a p d).2).2.
Proof.
  intros Ha Hp [E Hok]. destruct (emit_tells 3 a p ltac:(by vm_compute) Hp d) as [E1 E2].
  destruct (emit_event 3 a p d) as [[] d1]. unfold fields in E2. injection E2 as E2 E3.
  unfold mirrored, remembered, kview in *.
  cbn [set_root snd d_host last_processes last_root_pid] in *. rewrite E1, E, E2. split; [|done].
  cbn. f_equal. destruct Ha as [-> | ->]; [done|by destruct a].
Qed.

Lemma set_container_root_mirrored d : mirrored d -> mirrored (set_container_root_pid d).2.
Proof.
  intros Hd. unfold set_container_root_pid. unfold mbind at 1, io_bind at 1.
  pose proof (mirrored_tells _ id d (on_host_tells _ (output_of_written "sh" ["-c"; ROOT_COMMAND])) eq_refl Hd) as Hd1.
  destruct (on_host _ d) as [r d1]. cbn [snd] in Hd1. unfold mbind at 1, io_bind at 1. cbn [get].
  assert (mirrored ((if negb (last_root_pid d1 =? 0) then _ ← emit_event 3 Remove 0; set_root 0 else mret tt) d1).2)
    as Hnone.
  { destruct (negb _); [|done]. unfold mbind, io_bind. pose proof (root_mirrored Remove 0 d1) as Hr.
    destruct (emit_event 3 Remove 0 d1) as [[] d2]. apply Hr; [by right|unfold i32; lia|done]. }
  destruct (_ ≫= parse_int 32) as [p|] eqn:Ep; [|exact Hnone]. destruct (0 <? p); [|exact Hnone].
  clear Hnone. destruct (negb _); [|exact Hd1]. apply bind_Some in Ep as (s & _ & Ep%(parse_int_range 32)).
  unfold mbind, io_bind. pose proof (root_mirrored Add p d1) as Hr.
  destruct (emit_event 3 Add p d1) as [[] d2]. apply Hr; [by left|done|done].
Qed.

(** ** Everything that can happen *)

(** A message that resets the daemon's process number while the version is 1. *)
Definition resets_v1 (t : target) (data : list Z) (d : docker W) : bool :=
  (type_ (read_com_info t data) =? 3) && (docker_version d =? 1).

Inductive docker_step (t : target) : docker W -> docker W -> Prop :=
| step_round d : docker_step t d (update_docker_state false d).2
| step_root d : docker_step t d (set_container_root_pid d).2
| step_message d data data_len :
    resets_v1 t data d = false ->
    docker_step t d (handle_kernel_docker_oper t data data_len d).2.

Lemma reset_mirrored p d :
  i32 p -> docker_version d <> 1 -> mirrored d -> mirrored (reset_container_root_pid p d).2.
Proof.
  intros Hp Hv Hd. unfold reset_container_root_pid. destruct (p <=? 0); [done|].
  unfold mbind at 1, io_bind at 1. pose proof (root_mirrored Add p d (or_introl eq_refl) Hp Hd) as Hr.
  assert (docker_version (emit_event 3 Add p d).2 = docker_version d) as Ev.
  { unfold emit_event, send_line, ignore, on_host. by destruct (write_out _ _). }
  destruct (emit_event 3 Add p d) as [[] d1]. unfold mbind, io_bind. cbn [snd set_root get docker_version] in *.
  rewrite Ev, (proj2 (Z.eqb_neq _ _)) by done.
  match goal with |- context [update_docker_state true ?d2] => pose proof (update_mirrored true d2 Hr) as Hu end.
  by destruct (update_docker_state true _) as [[] d3].
Qed.

Lemma step_mirrored t d d' : docker_step t d d' -> mirrored d -> mirrored d'.
Proof.
  intros Hs Hd. destruct Hs as [d|d|d data len Hr].
  - by apply update_mirrored.
  - by apply set_container_root_mirrored.
  - unfold handle_kernel_docker_oper. destruct (_ || _); [done|]. unfold mbind, io_bind. unfold resets_v1 in Hr.
    destruct (type_ (read_com_info t data) =? 3).
    + unfold ignore. cbn [snd]. apply reset_mirrored; [|by apply Z.eqb_neq|done].
      by apply (to_signed_range 32).
    + clear Hr. destruct (_ =? 1); [|exact Hd]. pose proof (update_mirrored false d Hd) as Hu.
      by destruct (update_docker_state false d) as [[] d1].
Qed.

Definition docker_new (h : host W) : docker W := Docker h [] None 0 false 0.
End mirror.

(** C17: whatever containers start and stop, whatever the process list answers
    and whatever messages come in between, the module's table of containers is
    the set of processes the agent found last, and its daemon the one the agent
    remembers, as long as lines are accepted and no message resets the daemon
    under version 1. *)
Theorem containers_mirrored {W} `{Os W, Files W, Disk W} t (h : host W) d :
  (forall w (x : W), (put w x).1 = Ok tt) -> h_written h = [] ->
  rtc (docker_step t) (docker_new h) d ->
  kview d = View (list_to_set (last_processes d)) (last_root_pid d).
Proof.
  intros Ha Hw Hs.
  assert (mirrored (docker_new h)) as H0'.
  { split; [|constructor]. unfold kview. cbn [docker_new d_host]. by rewrite Hw. }
  revert Hs H0'. generalize (docker_new h). intros d0 Hs. induction Hs as [d|d d1 d2 Hs _ IH]; intros Hd.
  - exact (proj1 Hd).
  - apply IH. by eapply step_mirrored.
Qed.

Section lost.
Context {W : Type} `{Os W} `{Files W} `{Disk W}.

(** A round that finds what the agent remembers tells the module nothing. *)
Lemma same_scan_silent current (d : docker W) :
  current <> [] -> last_processes d = current -> (apply_scan current d).2 = d.
Proof.
  intros Hne Hl. unfold apply_scan, mbind, io_bind, get. rewrite !Hl, !bool_decide_eq_false_2 by done.
  assert (retain (fun p => negb (bool_decide (p ∈ current))) current = []) as ->.
  { destruct (retain _ current) as [|p l] eqn:E; [done|]. exfalso.
    assert (p ∈ retain (fun p => negb (bool_decide (p ∈ current))) current) as Hp by (rewrite E; left).
    apply elem_of_retain in Hp as [Hp%negb_true_iff%bool_decide_eq_false Hin]. done. }
  cbn [for_each mret io_ret]. rewrite bool_decide_eq_true_2, Nat.eqb_refl by done. done.
Qed.

Lemma v1_round_silent (d : docker W) :
  last_processes d <> [] -> (scan_docker_processes false d).1 = Ok (last_processes d) ->
  is_version_2 (scan_docker_processes false d).2 = false ->
  kview (update_docker_state false d).2 = kview d
  /\ last_processes (update_docker_state false d).2 = last_processes d.
Proof.
  intros Hne Hs Hv. destruct (scan_tells false d) as [E1 E2]. unfold update_docker_state. unfold mbind at 1 4, io_bind at 1 4.
  destruct (scan_docker_processes false d) as [r d1]. cbn [fst snd] in *. subst r.
  unfold fields in E2. injection E2 as E2 E3. pose proof (same_scan_silent (last_processes d) d1 Hne E2) as Ha.
  unfold mbind, io_bind. destruct (apply_scan _ d1) as [go_on d2]. cbn [snd] in Ha. subst d2. cbn [get].
  rewrite Hv, andb_false_r. cbn [mret io_ret snd]. by rewrite E1, E2.
Qed.
End lost.

(** under version 1 a message that resets the daemon clears the module's
    table of containers while the agent goes on remembering it, so that a later
    round that finds the same process does not tell the module about it again. *)
Theorem reset_loses_containers {W} `{Os W, Files W, Disk W} t data data_len (d : docker W) :
  (forall w (x : W), (put w x).1 = Ok tt) ->
  docker_version d = 1 -> COM_INFO_SIZE <= blen data -> COM_INFO_SIZE <= data_len ->
  type_ (read_com_info t data) = 3 -> 0 < to_signed 32 (ci_pid (read_com_info t data)) ->
  let d' := (handle_kernel_docker_oper t data data_len d).2 in
  v_shims (kview d') = ∅ /\ last_processes d' = last_processes d
  /\ (last_processes d <> [] -> (scan_docker_processes false d').1 = Ok (last_processes d) ->
      is_version_2 (scan_docker_processes false d').2 = false ->
      v_shims (kview (update_docker_state false d').2) = ∅
      /\ last_processes (update_docker_state false d').2 = last_processes d).
Proof.
  intros Ha Hv Hl1 Hl2 Ht Hp d'. subst d'.
  assert (v_shims (kview (handle_kernel_docker_oper t data data_len d).2) = ∅
          /\ last_processes (handle_kernel_docker_oper t data data_len d).2 = last_processes d) as [E1 E2].
  { unfold handle_kernel_docker_oper. rewrite (proj2 (Z.ltb_ge _ _) Hl1), (proj2 (Z.ltb_ge _ _) Hl2), Ht.
    cbn [orb Z.eqb Pos.eqb]. unfold mbind at 1 2, io_bind at 1 2, ignore. cbn [mret io_ret snd].
    generalize dependent (to_signed 32 (ci_pid (read_com_info t data))). intros p Hp.
    unfold reset_container_root_pid. rewrite (proj2 (Z.leb_gt _ _) Hp).
    assert (docker_version (emit_event 3 Add p d).2 = 1 /\ last_processes (emit_event 3 Add p d).2 = last_processes d)
      as [Ev Ed].
    { unfold emit_event, send_line, ignore, on_host. by destruct (write_out _ _). }
    unfold mbind, io_bind. destruct (emit_event 3 Add p d) as [[] d1]. cbn [set_root get snd docker_version] in *.
    rewrite Ev. cbn [Z.eqb Pos.eqb].
    match goal with |- context [clear_all ?d2] => destruct (clear_tells Ha d2) as [E1 E2]; destruct (clear_all d2) as [[] d3] end.
    cbn [mret io_ret snd] in *. rewrite E1. split; [done|]. unfold fields in E2. injection E2 as -> _. exact Ed. }
  split; [exact E1|]. split; [exact E2|]. intros Hne Hs Hv2. rewrite <- E2 in *.
  destruct (v1_round_silent _ Hne Hs Hv2) as [-> E4]. by rewrite E1, E4.
Qed.

(** containers whose shims have different parents count as no containers:
    the round clears the module's table although shims were found. *)
Theorem mixed_parents_cleared {W} `{Os W, Files W, Disk W} (d : docker W) c i entries :
  (forall w (x : W), (put w x).1 = Ok tt) -> mirrored d ->
  detected_command d = Some (c, i) -> (exec_shell c d).1 = Ok entries ->
  all_equal (snd <$> entries) = false ->
  v_shims (kview (update_docker_state false d).2) = ∅
  /\ last_processes (update_docker_state false d).2 = [].
Proof.
  intros Ha Hd Hc He Hmix.
  assert ((scan_docker_processes false d).1 = Ok []) as Hs.
  { unfold scan_docker_processes, mbind, io_bind. cbn [get]. rewrite Hc. unfold bind_ok. cbn [mret io_ret fst].
    destruct (exec_shell c d) as [r d1]. cbn [fst snd] in *. subst r.
    unfold shims_of. rewrite Hmix. case_bool_decide; done. }
  pose proof (mirrored_tells _ id d (scan_tells false) eq_refl Hd) as Hd1.
  unfold update_docker_state, mbind, io_bind. destruct (scan_docker_processes false d) as [r d1].
  cbn [fst snd] in *. subst r. destruct (apply_scan_mirrored Ha [] d1 Hd1 ltac:(constructor)) as [[E Hok] Hv].
  assert ((apply_scan [] d1).1 = false) as Hf.
  { unfold apply_scan, mbind, io_bind, get. rewrite bool_decide_eq_true_2 by done. case_bool_decide; [done|].
    by destruct (clear_all d1). }
  destruct (apply_scan [] d1) as [go_on d2]. cbn [fst snd get] in *. subst go_on. cbn [andb mret io_ret snd].
  split; [exact Hv|]. rewrite E in Hv. simpl in Hv. destruct (last_processes d2); [done|set_solver].
Qed.

(** ** Instances *)

Module DockerDemo.

(** The world is what [ps] answers to each of the four commands. *)
Definition machine : Type := list string.

Definition ps_answer (w : machine) (command : string) : string :=
  match w, DETECTION_COMMANDS with
  | [a; b; c; root], [x; y; z] =>
    if bool_decide (command = x) then a else if bool_decide (command = y) then b
    else if bool_decide (command = z) then c else root
  | _, _ => ""
  end.

#[local] Instance demo_os : Os machine := {|
  spawn c w := (reply (as_bytes (ps_answer w (nth 1 (args c) ""))), w)
|}.
#[local] Instance demo_files : Files machine := {| put _ w := (Ok tt, w) |}.
#[local] Instance demo_disk : Disk machine := {|
  disk _ w := (Ok tt, w);
  path_exists _ _ := false;
  read_dir _ _ := Ok [];
  unzip _ _ w := (Err "no archive", w);
  read_text _ _ := Ok (unlines ["Docker Container PID:"; "101"; "7"; "8"; "9"; "10"])
|}.

Lemma takes_lines : forall w (x : machine), (put w x).1 = Ok tt.
Proof. done. Qed.

(** Two containers of the second kind and their daemon. *)
Definition two : host machine := Host (Shell [""; unlines ["101 1"; "102 1"]; ""; "55"] []) [].

(** A message of type 1, then the next round. *)
Definition scan_now : list Z := [0; 0; 0; 0; 0; 0; 0; 0; 1; 0; 0; 0].
Definition d1 : docker machine := (set_container_root_pid (docker_new two)).2.
Definition d2 : docker machine := (handle_kernel_docker_oper le64 scan_now 12 d1).2.
Definition d3 : docker machine := (update_docker_state false d2).2.

Lemma containers_mirrored_witness :
  kview d3 = View {[Shim 101 2; Shim 102 2]} 55.
Proof.
  assert (kview d3 = View (list_to_set (last_processes d3)) (last_root_pid d3)) as ->.
  - apply (containers_mirrored le64 two d3 takes_lines eq_refl).
    apply rtc_l with d1; [apply step_root|]. apply rtc_l with d2; [by apply step_message|].
    apply rtc_l with d3; [apply step_round|apply rtc_refl].
  - vm_compute. reflexivity.
Defined.

(** What was written in the three steps: the leftovers of the listing are
    removed in the last one. *)
Example lines_written :
  h_written (d_host d3) = (fun l => WriteFile PROC_OSEC_DOCKER_RT (l +:+ newline))
    <$> ["3,1,55"; "2,1,101"; "2,1,102"; "2,0,7"; "2,0,8"; "2,0,9"; "2,0,10"].
Proof. vm_compute. reflexivity. Qed.

(** The first kind: one daemon for all containers, reset by the module. *)
Definition first_kind : host machine := Host (Shell [unlines ["101 90"; "102 90"]; ""; ""; ""] []) [].
Definition e1 : docker machine := (update_docker_state false (docker_new first_kind)).2.
Definition reset_now : list Z := [90; 0; 0; 0; 0; 0; 0; 0; 3; 0; 0; 0].
Definition e2 : docker machine := (handle_kernel_docker_oper le64 reset_now 12 e1).2.

Lemma reset_loses_containers_witness :
  v_shims (kview e1) = {[Shim 90 1]} /\ v_shims (kview (update_docker_state false e2).2) = ∅
  /\ last_processes (update_docker_state false e2).2 = [Shim 90 1].
Proof.
  split; [vm_compute; reflexivity|].
  pose proof (reset_loses_containers le64 reset_now 12 e1 takes_lines) as Hr.
  destruct Hr as (_ & _ & Hr); [vm_compute; done..|]. apply Hr; vm_compute; done.
Defined.

(** A second runtime's shims have another parent. *)
Definition mixed : docker machine :=
  Docker (Host (Shell [""; unlines ["101 1"; "102 77"]; ""; ""] [])
            [WriteFile PROC_OSEC_DOCKER_RT ("2,1,101" +:+ newline)])
    [Shim 101 2] (Some (nth 1 DETECTION_COMMANDS "", 1%nat)) 0 true 2.

Lemma mixed_parents_cleared_witness :
  v_shims (kview (update_docker_state false mixed).2) = ∅
  /\ last_processes (update_docker_state false mixed).2 = [].
Proof.
  apply (mixed_parents_cleared mixed (nth 1 DETECTION_COMMANDS "") 1 [(101, 1); (102, 77)] takes_lines).
  - split; [vm_compute; reflexivity|]. repeat constructor; vm_compute; done.
  - reflexivity.
  - vm_compute. reflexivity.
  - reflexivity.
Defined.

End DockerDemo.
