(* ===== verification/Timers.v ===== *)
(** * The periodic tasks

    [crates/task/src/timer_task.rs] and [baseline_task.rs]: one loop waits for
    the ticks of three timers.  The first collects the listening services and,
    if asked to, the ssh logins; the second fetches a check list, marks the
    entry of the host's own system and sends it back; the third probes outside
    addresses.  The latter two run while their switches are on. *)

From S2P Require Import Prelude RustStr Bytes Json Shell Host NetApp NetInfo TaskData SshLogin.

(** ** Switched timers *)

(** [Option<Interval>] by its period in seconds, and the flag beside it. *)
Record switched := Timer { period : option Z; enabled : bool }.

Definition timer_off : switched := Timer None false.

(** The check at the top of the loop; whether the timer was started by it. *)
Definition check_switch (switch : bool) (time_secs : Z) (t : switched) : switched * bool :=
  if switch && (0 <? time_secs) then
    if negb (enabled t) || bool_decide (period t = None) then (Timer (Some time_secs) true, true) else (t, false)
  else if enabled t then (timer_off, false) else (t, false).

(** ** Baselines *)

Record BaselineItem := Baseline { val : Z; name : string; pass : Z }.

(** [/etc/os-release], in lower case. *)
Definition detect_local_os_type (content : string) : Z :=
  if contains "kylin" content then 1130
  else if contains "neokylin" content then 1131
  else if contains "uos" content || contains "uniontech" content then 1132
  else if contains "centos" content then 1133
  else if contains "ubuntu" content then 1134
  else if contains "red hat" content || contains "rhel" content || contains "rocky" content
          || contains "almalinux" content || contains "openeuler" content then 1135
  else -1.

Section baselines.
Context {V : Type} `{JsonValue V}.

Definition baseline_item (item : V) : result string BaselineItem :=
  val ← ok_or "baseline.val 缺失或不是数字" (get_field item "val" ≫= as_u64);
  name ← ok_or "baseline.name 缺失或不是字符串" (get_field item "name" ≫= as_str);
  pass ← ok_or "baseline.pass 缺失或不是数字" (get_field item "pass" ≫= as_i64);
  Ok (Baseline val name (to_signed 32 pass)).

Fixpoint baseline_items (l : list V) : result string (list BaselineItem) :=
  match l with
  | [] => Ok []
  | item :: l => b ← baseline_item item; bs ← baseline_items l; Ok (b :: bs)
  end.

(** The list of an answer. *)
Definition read_baselines (parsed : V) : result string (list BaselineItem) :=
  if bool_decide (opt_str_field parsed "code" = Some "000000") then
    match get_field parsed "data" ≫= fun d => get_field d "list" ≫= as_array with
    | None => Err "响应中缺少 data.list 或其格式不是数组"
    | Some list =>
      baselines ← baseline_items list;
      match baselines with [] => Err "baseline 列表为空" | _ => Ok baselines end
    end
  else Err ("netblock 响应代码无效: " +:+ default "未知代码" (opt_str_field parsed "code")).
End baselines.

(** [b.val as i32 == local_os_type]. *)
Definition mark_local (local_os_type : Z) (b : BaselineItem) : BaselineItem :=
  if to_signed 32 (val b) =? local_os_type then Baseline (val b) (name b) 1 else b.

Definition baseline_json (b : BaselineItem) : value :=
  Object [("val", Number (val b)); ("name", Str (name b)); ("pass", Number (pass b))].

(** ** The loop *)

(** What a round reads from the machine. *)
Record surroundings := Surroundings {
  sn_proc : list proc_dir;
  sn_tcp : option string;
  sn_tcp6 : option string;
  sn_now : Z;
  sn_dnat : result string output;
  sn_which : result string output;
  sn_docker : result string output;
  sn_btmp : login_file;
  sn_wtmp : login_file;
  sn_answered : bool
}.

Record timers (W : Type) := Timers {
  local_secs : Z;
  baseline_timer : switched;
  outreach_timer : switched;
  net_state : NetAppState;
  ports : ports_state W;
  logins : collector;
  os_type : option Z;
  sent : list (string * string);
  login_posts : list (list SyslogSshLog)
}.
Arguments Timers {W} _ _ _ _ _ _ _ _ _.
Arguments local_secs {W} _.
Arguments baseline_timer {W} _.
Arguments outreach_timer {W} _.
Arguments net_state {W} _.
Arguments ports {W} _.
Arguments logins {W} _.
Arguments os_type {W} _.
Arguments sent {W} _.
Arguments login_posts {W} _.

Inductive timer_tick := LocalTick (s : surroundings) | BaselineTick | OutreachTick (now : nat -> Z).

Section loop.
Context {W : Type} `{Os W} `{Files W} `{Disk W} `{Http W}.
Context {V : Type} `{JsonValue V} `{JsonText V}.
Context (t : target) (lower : string -> string) (text : value -> string) (base_url : string).
(** The probes' requests and the order in which they finish; the global rules. *)
Context (order : list (nat * OutreachDetectRule) -> list (nat * OutreachDetectRule)).
Context (get post : string -> result string (string * list string)).

Abbreviation st := (timers W).

Definition request (url body : string) (token : option string) : io st (result string string) := fun s =>
  let '(r, h) := on_world (http_post url body token) (ps_host (ports s)) in
  (r, Timers (local_secs s) (baseline_timer s) (outreach_timer s) (net_state s)
        (PortsState h (LAST_PORTS (ports s))) (logins s) (os_type s) (sent s ++ [(url, body)]) (login_posts s)).

Definition get_local_os_type : io st Z := fun s =>
  let v := match os_type s with
           | Some v => v
           | None => detect_local_os_type (lower (default "" (ok (read_text "/etc/os-release"
                       (world (h_shell (ps_host (ports s))))))))
           end in
  (v, Timers (local_secs s) (baseline_timer s) (outreach_timer s) (net_state s) (ports s) (logins s)
        (Some v) (sent s) (login_posts s)).

Definition process_baselines_from_client (url : string) (token : option string) : io st (result string unit) :=
  let? response := with_err (fun e => "获取 netblock 策略失败: " +:+ e) (request url "" token) in
  let? parsed := mret (map_err (fun e => "解析 netblock 响应失败: " +:+ e) (from_str (V := V) response)) in
  let? baselines := mret (read_baselines parsed) in
  local_os_type ← get_local_os_type;
  let body := text (Object [("list", Str (text (Array (baseline_json <$> (mark_local local_os_type <$> baselines)))))]) in
  _ ← ignore (request (base_url +:+ "/v1/putBaselines") body token);
  mret (Ok tt).

(** The checks before the wait. *)
Definition check_timers (cfg : NetInfoConfig) (s : st) : st :=
  Timers (if syslog_login_switch cfg then 60 else local_secs s)
    (check_switch (baseline_switch cfg) (baseline_time cfg) (baseline_timer s)).1
    (check_switch (outreach_switch cfg) (outreach_time cfg) (outreach_timer s)).1
    (net_state s) (ports s) (logins s) (os_type s) (sent s) (login_posts s).

Definition local_tick (cfg : NetInfoConfig) (e : surroundings) (s : st) : st :=
  let net := update_docker_info (sn_now e) (sn_which e) (sn_docker e)
               (update_dnat_info (sn_now e) (sn_dnat e)
                  (update_netstat_info t (sn_proc e) (sn_tcp e) (sn_tcp6 e) (sn_now e) (net_state s))) in
  let ports := (write_business_ports_to_proc net (ports s)).2 in
  let '(posted, logins) :=
    if syslog_login_switch cfg then collect_and_report t (sn_btmp e) (sn_wtmp e) (sn_answered e) (logins s)
    else (None, logins s) in
  Timers (local_secs s) (baseline_timer s) (outreach_timer s) net ports logins (os_type s) (sent s)
    (login_posts s ++ option_list posted).

Definition outreach_tick (rules : list OutreachDetectRule) (now : nat -> Z) (token : option string) : io st unit :=
  match build_outreach_detect_list_json text (run_outreach_detection order get post now rules) with
  | Ok json_body => ignore (request (base_url +:+ "/v1/alertupload") json_body token)
  | Err _ => mret tt
  end.

(** One round: the checks, then the tick that comes first; a timer that is off
    does not tick. *)
Definition timer_round (cfg : NetInfoConfig) (rules : list OutreachDetectRule) (token : option string)
    (k : timer_tick) (s : st) : option st :=
  let s := check_timers cfg s in
  match k with
  | LocalTick e => Some (local_tick cfg e s)
  | BaselineTick =>
    if bool_decide (period (baseline_timer s) = None) then None
    else Some (process_baselines_from_client (base_url +:+ "/v1/getBaselines") token s).2
  | OutreachTick now =>
    if bool_decide (period (outreach_timer s) = None) then None
    else Some (outreach_tick rules now token s).2
  end.
End loop.

(** ** A switched timer over time *)

Definition wanted (c : bool * Z) : bool := c.1 && (0 <? c.2).

Definition checks (l : list (bool * Z)) (t : switched) : switched :=
  foldl (fun t c => (check_switch c.1 c.2 t).1) t l.

(** The flag and the interval agree. *)
Definition timer_wf (t : switched) : Prop := enabled t = bool_decide (period t <> None).

Lemma check_switch_wf c t : timer_wf t -> timer_wf (check_switch c.1 c.2 t).1.
Proof.
  unfold check_switch, timer_wf. intros Ht. destruct (_ && _).
  - destruct (_ || _); [done|exact Ht].
  - destruct t as [p []]; [done|exact Ht].
Qed.

Lemma checks_wf l t : timer_wf t -> timer_wf (checks l t).
Proof. revert t. induction l as [|c l IH]; intros t Ht; [done|]. by apply IH, check_switch_wf. Qed.

Lemma check_off c t : timer_wf t -> wanted c = false -> (check_switch c.1 c.2 t).1 = timer_off.
Proof.
  unfold check_switch, wanted, timer_wf. intros Ht ->. destruct t as [p [|]]; [done|]. simpl in *.
  by case_bool_decide; [|destruct p].
Qed.

Lemma check_on c t :
  timer_wf t -> wanted c = true ->
  (check_switch c.1 c.2 t).1 = Timer (Some (default c.2 (period t))) true.
Proof.
  unfold check_switch, wanted, timer_wf. intros Ht ->. destruct t as [[p|] [|]]; simpl in *; try done.
Qed.

Lemma checks_running l p : Forall (fun c => wanted c = true) l -> checks l (Timer (Some p) true) = Timer (Some p) true.
Proof.
  intros Hl. induction Hl as [|c l Hc Hl IH]; [done|]. cbn [checks foldl].
  rewrite check_on by done. exact IH.
Qed.

(** The period a timer was started with stays until it is switched off. *)
Lemma checks_latched l1 c l2 t :
  timer_wf t -> Forall (fun c => wanted c = true) (c :: l2) ->
  period (checks l1 t) = None ->
  checks (l1 ++ c :: l2) t = Timer (Some c.2) true.
Proof.
  intros Ht [Hc Hl]%Forall_cons Hoff. unfold checks. rewrite foldl_app. cbn [foldl].
  fold (checks l1 t). rewrite check_on by (done || by apply checks_wf). rewrite Hoff. by apply checks_running.
Qed.

Lemma checks_off l c t : timer_wf t -> wanted c = false -> checks (l ++ [c]) t = timer_off.
Proof.
  intros Ht Hc. unfold checks. rewrite foldl_app. cbn [foldl]. apply check_off; [|done]. by apply checks_wf.
Qed.

(** ** The loop over time *)

Section history.
Context {W : Type} `{Os W} `{Files W} `{Disk W} `{Http W}.
Context {V : Type} `{JsonValue V} `{JsonText V}.
Context (t : target) (lower : string -> string) (text : value -> string) (base_url : string).
Context (order : list (nat * OutreachDetectRule) -> list (nat * OutreachDetectRule)).
Context (get post : string -> result string (string * list string)).

(** A round's settings, global rules, token and tick. *)
Record round_in := RoundIn {
  r_cfg : NetInfoConfig;
  r_rules : list OutreachDetectRule;
  r_token : option string;
  r_tick : timer_tick
}.

Fixpoint timer_rounds (rs : list round_in) (s : timers W) : option (timers W) :=
  match rs with
  | [] => Some s
  | r :: rs =>
    s ← timer_round (V := V) t lower text base_url order get post (r_cfg r) (r_rules r) (r_token r) (r_tick r) s;
    timer_rounds rs s
  end.

Definition baseline_check (r : round_in) : bool * Z := (baseline_switch (r_cfg r), baseline_time (r_cfg r)).
Definition outreach_check (r : round_in) : bool * Z := (outreach_switch (r_cfg r), outreach_time (r_cfg r)).

(** Requests leave the timers and the ports alone. *)
Definition timing (s : timers W) : switched * switched * list Z * list write :=
  (baseline_timer s, outreach_timer s, LAST_PORTS (ports s), h_written (ps_host (ports s))).
Definition same_timers (s s' : timers W) : Prop := timing s' = timing s.

#[local] Instance same_timers_preorder : PreOrder same_timers.
Proof. split; [done|]. intros s1 s2 s3 E1 E2. unfold same_timers in *. congruence. Qed.

Lemma request_timers url body token : keeps same_timers (request url body token).
Proof. intros s. unfold request, on_world. by destruct (http_post _ _ _ _). Qed.

Lemma baselines_timers url token :
  keeps same_timers (process_baselines_from_client (V := V) lower text base_url url token).
Proof.
  apply (keeps_bind_ok same_timers); [apply keeps_with_err, request_timers|intros resp].
  apply (keeps_bind_ok same_timers); [intros s; reflexivity|intros parsed].
  apply (keeps_bind_ok same_timers); [intros s; reflexivity|intros bs].
  apply (keeps_bind same_timers); [intros s; done|intros os].
  apply (keeps_bind same_timers); [apply keeps_ignore, request_timers|intros ?; apply keeps_ret; apply _].
Qed.

(** A round that is not a local tick. *)
Lemma round_requests r s s' :
  timer_round (V := V) t lower text base_url order get post (r_cfg r) (r_rules r) (r_token r) (r_tick r) s = Some s' ->
  same_timers (check_timers (r_cfg r) s) s' \/ exists e, s' = local_tick t (r_cfg r) e (check_timers (r_cfg r) s).
Proof.
  unfold timer_round. destruct (r_tick r) as [e| |now].
  - intros [= <-]. right. by exists e.
  - case_bool_decide; [done|]. intros [= <-]. left. apply baselines_timers.
  - case_bool_decide; [done|]. intros [= <-]. left. unfold outreach_tick.
    destruct (build_outreach_detect_list_json _ _); [|done]. apply keeps_ignore, request_timers.
Qed.

Lemma round_timers r s s' :
  timer_round (V := V) t lower text base_url order get post (r_cfg r) (r_rules r) (r_token r) (r_tick r) s = Some s' ->
  baseline_timer s' = (check_switch (baseline_check r).1 (baseline_check r).2 (baseline_timer s)).1
  /\ outreach_timer s' = (check_switch (outreach_check r).1 (outreach_check r).2 (outreach_timer s)).1.
Proof.
  intros [E|[e ->]]%round_requests.
  - unfold same_timers, timing in E. injection E as -> -> _ _. done.
  - unfold local_tick. by destruct (if syslog_login_switch _ then _ else _).
Qed.

Lemma rounds_timers rs s s' :
  timer_rounds rs s = Some s' ->
  baseline_timer s' = checks (baseline_check <$> rs) (baseline_timer s)
  /\ outreach_timer s' = checks (outreach_check <$> rs) (outreach_timer s).
Proof.
  revert s. induction rs as [|r rs IH]; intros s; [by intros [= ->]|]. cbn [timer_rounds].
  destruct (timer_round _ _ _ _ _ _ _ _ _ _ _ s) as [s1|] eqn:E; [|done]. cbn [mbind option_bind].
  intros Hr. destruct (IH s1 Hr) as [-> ->]. destruct (round_timers r s s1 E) as [-> ->]. done.
Qed.

Lemma round_ports r s s' :
  timer_round (V := V) t lower text base_url order get post (r_cfg r) (r_rules r) (r_token r) (r_tick r) s = Some s' ->
  ports_mirrored (ports s) -> ports_mirrored (ports s').
Proof.
  intros [E|[e ->]]%round_requests Hm.
  - unfold same_timers, timing in E. injection E as _ _ E1 E2. unfold ports_mirrored, module_text. by rewrite E1, E2.
  - unfold local_tick. pose proof (write_ports_mirrored
      (update_docker_info (sn_now e) (sn_which e) (sn_docker e) (update_dnat_info (sn_now e) (sn_dnat e)
         (update_netstat_info t (sn_proc e) (sn_tcp e) (sn_tcp6 e) (sn_now e) (net_state s)))) (ports s) Hm) as Hp.
    by destruct (if syslog_login_switch _ then _ else _).
Qed.

Lemma rounds_ports rs s s' :
  timer_rounds rs s = Some s' -> ports_mirrored (ports s) -> ports_mirrored (ports s').
Proof.
  revert s. induction rs as [|r rs IH]; intros s; [by intros [= ->]|]. cbn [timer_rounds].
  destruct (timer_round _ _ _ _ _ _ _ _ _ _ _ s) as [s1|] eqn:E; [|done]. cbn [mbind option_bind].
  intros Hr Hm. apply (IH s1 Hr). by eapply round_ports.
Qed.
End history.

(** The loop as it starts. *)
Definition timers_new {W} (h : host W) (logins : collector) : timers W :=
  Timers 30 timer_off timer_off (NetApp ∅ ∅) (PortsState h []) logins None [] [].

(** The last check found the timer off, or there was none. *)
Definition was_off (check : round_in -> bool * Z) (rs : list round_in) : Prop :=
  forall q, last rs = Some q -> wanted (check q) = false.

Lemma checks_started (check : round_in -> bool * Z) rs r on :
  Forall (fun r => wanted (check r) = true) (r :: on) -> was_off check rs ->
  checks (check <$> rs ++ r :: on) timer_off = Timer (Some (check r).2) true.
Proof.
  intros Hon Hlast. rewrite fmap_app, fmap_cons.
  apply (checks_latched _ (check r)); [done|by rewrite <- fmap_cons, Forall_fmap|].
  destruct (last rs) as [q|] eqn:El; [|by apply last_None in El as ->].
  specialize (Hlast q El). apply last_Some in El as [l ->]. rewrite fmap_app.
  by rewrite (checks_off _ (check q)).
Qed.

Lemma checks_stopped (check : round_in -> bool * Z) rs r :
  wanted (check r) = false -> checks (check <$> rs ++ [r]) timer_off = timer_off.
Proof. intros Hoff. rewrite fmap_app. by apply checks_off. Qed.

(** C33: whatever ticks come in whatever order and however often the settings
    change, the baseline and the outreach timer, both off at the start, each
    run exactly while the last check found their switch on with a time above
    zero: a check that finds it off stops the timer, and from a check that
    finds it on after one that found it off (or the first) the timer runs for
    as long as the checks find it on, with the period of the check that started
    it, so that a time changed meanwhile has no effect.  The ports the agent
    remembers are those the module was last given, when there are any. *)
Theorem timers_follow_switches {W V} `{Os W, Files W, Disk W, Http W, JsonValue V, JsonText V}
    t lower text base_url order get post (h : host W) logins rs r on s' :
  timer_rounds (V := V) t lower text base_url order get post (rs ++ r :: on) (timers_new h logins) = Some s' ->
  (wanted (outreach_check r) = false -> on = [] -> outreach_timer s' = timer_off)
  /\ (wanted (baseline_check r) = false -> on = [] -> baseline_timer s' = timer_off)
  /\ (Forall (fun r => wanted (outreach_check r) = true) (r :: on) -> was_off outreach_check rs ->
      outreach_timer s' = Timer (Some (outreach_time (r_cfg r))) true)
  /\ (Forall (fun r => wanted (baseline_check r) = true) (r :: on) -> was_off baseline_check rs ->
      baseline_timer s' = Timer (Some (baseline_time (r_cfg r))) true)
  /\ ports_mirrored (ports s').
Proof.
  intros Hr. pose proof (rounds_timers _ _ _ _ _ _ _ _ _ _ Hr) as [Eb Eo].
  cbn [timers_new baseline_timer outreach_timer] in Eb, Eo. split_and!.
  - intros Hoff ->. rewrite Eo. by apply checks_stopped.
  - intros Hoff ->. rewrite Eb. by apply checks_stopped.
  - intros Hon Hlast. rewrite Eo. by apply (checks_started outreach_check).
  - intros Hon Hlast. rewrite Eb. by apply (checks_started baseline_check).
  - eapply rounds_ports; [exact Hr|]. split; [constructor|done].
Qed.

(** a host that runs NeoKylin is taken for a Kylin host, since the shorter
    name is looked for first: no system has the number 1131, and the check list's
    entry for it is sent back as it came. *)
Theorem neokylin_taken_for_kylin {W} `{Disk W} lower (s : timers W) :
  os_type s = None ->
  let '(n, s') := get_local_os_type lower s in
  n <> 1131 /\ os_type s' = Some n
  /\ forall b, to_signed 32 (val b) = 1131 -> mark_local n b = b.
Proof.
  intros Hn. unfold get_local_os_type. rewrite Hn. set (content := lower _).
  assert (detect_local_os_type content <> 1131) as Hd.
  { unfold detect_local_os_type. destruct (contains "kylin" content) eqn:Ek; [done|].
    destruct (contains "neokylin" content) eqn:En; [|by repeat case_match].
    by rewrite (contains_tail "neo" "kylin" content En) in Ek. }
  split; [exact Hd|]. split; [done|]. intros b Hb. unfold mark_local. rewrite Hb.
  by rewrite (proj2 (Z.eqb_neq _ _)) by congruence.
Qed.

(** ** Instances *)

Module TimersDemo.

#[local] Instance demo_os : Os unit := {| spawn _ w := (Err "no such program", w) |}.
#[local] Instance demo_files : Files unit := {| put _ w := (Ok tt, w) |}.
#[local] Instance demo_disk : Disk unit := {|
  disk _ w := (Ok tt, w);
  path_exists _ _ := false;
  read_dir _ _ := Ok [];
  unzip _ _ w := (Err "no archive", w);
  read_text _ _ := Ok "name=neokylin"
|}.
#[local] Instance demo_http : Http unit := {|
  http_post _ _ _ w := (Ok "list", w); http_download _ _ w := (Err "404", w); new_client _ := Ok tt
|}.

Definition entry (n : Z) : value := Object [("val", Number n); ("name", Str "os"); ("pass", Number 0)].

#[local] Instance demo_text : JsonText value := {|
  from_str s := if bool_decide (s = "list")
                then Ok (Object [("code", Str "000000"); ("data", Object [("list", Array [entry 1130; entry 1131])])])
                else Err "expected value";
  is_object v := match v with Object _ => true | _ => false end;
  to_text _ := ""; de_error _ _ := ""
|}.

(** A printer good enough to tell bodies apart. *)
Fixpoint show (v : value) : string :=
  match v with
  | Number n => dec n
  | Str s => s
  | Array l => "[" +:+ join "," (show <$> l) +:+ "]"
  | Object l => "{" +:+ join "," ((fun f => f.1 +:+ ":" +:+ show f.2) <$> l) +:+ "}"
  | Bool b => if b then "true" else "false"
  | Null => "null"
  end.

Definition h0 : host unit := Host (Shell tt []) [].

(** The baseline switch and its time. *)
Definition cfg (switch time : string) : NetInfoConfig :=
  (from_ini (fun _ => None) (fun _ key => if bool_decide (key = "BASELINE_SWITCH") then Some switch
                                          else if bool_decide (key = "BASELINE_TIME") then Some time
                                          else None) h0).1.

Definition quiet : surroundings :=
  Surroundings [] None None 0 (Err "none") (Err "none") (Err "none") Missing Missing true.

Definition local (switch time : string) : round_in := RoundIn (cfg switch time) [] None (LocalTick quiet).
Definition base (switch time : string) : round_in := RoundIn (cfg switch time) [] None BaselineTick.

(** Off, on with a minute, then ten seconds. *)
Definition run (rs : list round_in) : option (timers unit) :=
  timer_rounds (V := value) le64 (fun s => s) show "https://s" id (fun _ => Err "") (fun _ => Err "") rs
    (timers_new h0 (collector_new Missing Missing)).

Lemma timers_follow_switches_witness :
  exists s, run ([local "0" "60"] ++ local "1" "60" :: [local "1" "10"; base "1" "10"]) = Some s
    /\ baseline_timer s = Timer (Some 60) true.
Proof.
  eexists. split; [unfold run; vm_compute; reflexivity|].
  eapply (timers_follow_switches (V := value) le64 (fun s => s) show "https://s" id (fun _ => Err "") (fun _ => Err "")
            h0 (collector_new Missing Missing) [local "0" "60"] (local "1" "60") [local "1" "10"; base "1" "10"]).
  - vm_compute. reflexivity.
  - repeat constructor; vm_compute; reflexivity.
  - intros q [= <-]. vm_compute. reflexivity.
Defined.

Lemma neokylin_taken_for_kylin_witness :
  (get_local_os_type (fun s => s) (timers_new h0 (collector_new Missing Missing))).1 = 1130
  /\ mark_local 1130 (Baseline 1131 "os" 0) = Baseline 1131 "os" 0.
Proof.
  pose proof (neokylin_taken_for_kylin (fun s => s) (timers_new h0 (collector_new Missing Missing)) eq_refl) as Hn.
  destruct (get_local_os_type _ _) as [n s'] eqn:E. vm_compute in E. injection E as <- _.
  split; [reflexivity|]. destruct Hn as (_ & _ & Hn). by apply Hn.
Defined.

(** What a baseline round sends. *)
Example baselines_sent :
  (sent <$> run [base "1" "60"]) =
    Some [("https://s/v1/getBaselines", "");
          ("https://s/v1/putBaselines",
           "{list:[{val:1130,name:os,pass:1},{val:1131,name:os,pass:0}]}")].
Proof. vm_compute. reflexivity. Qed.

End TimersDemo.
