(* ===== verification/Session.v ===== *)
(** * Registration and the session

    [crates/online/src/lib.rs] and the trait [TaskService] of
    [crates/task/src/task_fetcher.rs].  One task registers the host with the
    server, hands the token it gets to the task fetcher and reports the
    hardware's state; the fetcher polls with the token until the server refuses
    it, says so, and waits for the next one.  The two share two channels of
    eight places. *)

From S2P Require Import Prelude RustStr Bytes Float Json Shell Host NetInfo TaskData Timers.

(** ** Registration *)

Record BaseOnline := Online {
  uid : string;
  bo_macid : string;
  bo_ip : string;
  bo_ver : string;
  bo_type : Z;
  bo_os : string;
  bo_memsize : string;
  bo_cpu : string;
  bo_hdsize : string;
  asstarttime : string;
  osstarttime : string;
  bo_auth : string;
  userid : string;
  bo_host_name : string;
  bo_mod_ver : string;
  bo_arch_type : Z
}.

(** [std::env::consts::ARCH]. *)
Definition get_cpu_arch_type (arch : string) : Z :=
  if bool_decide (arch = "x86_64") then 1
  else if bool_decide (arch = "aarch64") then 2
  else if bool_decide (arch = "mips64") then 3
  else 0.

(** [/proc/uptime] at the Unix time [now]. *)
Definition get_os_start_time (uptime : result string string) (now : Z) : string :=
  match ok uptime ≫= fun content => head (split_whitespace content) ≫= parse_f64 with
  | Some uptime_secs => dec_signed (round_i64 (f64_sub (f64_of_Z now) uptime_secs))
  | None => dec_signed now
  end.

Example started_a_minute_ago : get_os_start_time (Ok "61.52 100.00") 1700000000 = "1699999938".
Proof. vm_compute. reflexivity. Qed.

Definition base_online_new (cfg : NetInfoConfig) (arch : string) (now : Z) (uptime : result string string) : BaseOnline :=
  Online (dev_uid cfg) (macid cfg) (ips cfg) (ver cfg) 1 (os cfg) (memsize cfg) (cpu cfg) (hdsize cfg)
    (dec_signed now) (get_os_start_time uptime now) (auth cfg) (user_id cfg) (host_name cfg) (mod_ver cfg) (get_cpu_arch_type arch).

Definition base_online_json (b : BaseOnline) : value :=
  Object [("uid", Str (uid b)); ("macid", Str (bo_macid b)); ("ip", Str (bo_ip b)); ("ver", Str (bo_ver b));
          ("type", Number (bo_type b)); ("os", Str (bo_os b)); ("memsize", Str (bo_memsize b));
          ("cpu", Str (bo_cpu b)); ("hdsize", Str (bo_hdsize b)); ("asstarttime", Str (asstarttime b));
          ("osstarttime", Str (osstarttime b)); ("auth", Str (bo_auth b)); ("userid", Str (userid b));
          ("host_name", Str (bo_host_name b)); ("mod_ver", Str (bo_mod_ver b));
          ("arch_type", Number (bo_arch_type b))].

Section register.
Context {W : Type} `{Http W} {V : Type} `{JsonValue V} `{JsonText V}.
Context (text : value -> string).

(** [AuthResponse]: all three fields must be there; the code is not looked at. *)
Definition auth_token (v : V) : option string :=
  _ ← struct_field 3 0 "code" v ≫= de_string;
  data ← struct_field 3 1 "data" v;
  token ← struct_field 1 0 "token" data ≫= de_string;
  _ ← struct_field 3 2 "msg" v ≫= de_string;
  Some token.

Definition base_online_run (base_url : string) (b : BaseOnline) : io (host W) (result string string) :=
  r ← on_world (http_post (base_url +:+ "/v1/auth") (text (base_online_json b)) None);
  mret (match r with
        | Err _ => Err "Failed to get token."
        | Ok response =>
          match from_str (V := V) response with
          | Ok v => ok_or "Failed to parse token from response" (auth_token v)
          | Err _ => Err "Failed to parse token from response"
          end
        end).
End register.

(** ** The two tasks *)

Definition CHANNEL : nat := 8.

(** The online task: registering; between sending a token and storing it;
    listening, with the hardware timer; ended. *)
Inductive online_phase :=
| Registering
| Sent (token : string)
| Listening (token : string) (hardware : switched)
| OnlineEnded (r : result string string).

(** The fetcher: at the top of its loop, waiting for a token, running with one,
    about to report that the run has ended, ended. *)
Inductive fetch_phase :=
| Idle
| Waiting
| Polling (token : string)
| Reporting
| FetchEnded.

Record session_state := Session {
  online : online_phase;
  fetcher : fetch_phase;
  token_ch : list string;
  offline_ch : list bool;
  boot_token : option string;
  (** The tokens obtained and the tokens of hardware reports, oldest first. *)
  registrations : list string;
  hardware_posts : list string
}.

Definition online_gone (o : online_phase) : bool := match o with OnlineEnded _ => true | _ => false end.
Definition fetch_gone (f : fetch_phase) : bool := match f with FetchEnded => true | _ => false end.

(** What [select!] gives the listening task. *)
Inductive heard := CheckTick | HardwareTick | Signal.

Inductive event :=
| Register (client : result string unit) (r : result string string)
| SetToken
| Listen (switch : bool) (secs : Z) (h : heard)
| FetchClient (client : result string unit)
| Take
| RunEnds (e : string)
| RunPanics
| Report.

Definition with_online (o : online_phase) (s : session_state) : session_state :=
  Session o (fetcher s) (token_ch s) (offline_ch s) (boot_token s) (registrations s) (hardware_posts s).
Definition with_fetcher (f : fetch_phase) (s : session_state) : session_state :=
  Session (online s) f (token_ch s) (offline_ch s) (boot_token s) (registrations s) (hardware_posts s).

(** One turn of the registration loop, up to the token being sent. *)
Definition register (client : result string unit) (r : result string string) (s : session_state) : option session_state :=
  match client, r with
  | Err _, _ => Some (with_online (OnlineEnded (Err "创建 NetClient 失败")) s)
  | Ok _, Err _ => Some s
  | Ok _, Ok token =>
    if fetch_gone (fetcher s) then
      Some (Session Registering (fetcher s) (token_ch s) (offline_ch s) (boot_token s)
              (registrations s ++ [token]) (hardware_posts s))
    else if (length (token_ch s) <? CHANNEL)%nat then
      Some (Session (Sent token) (fetcher s) (token_ch s ++ [token]) (offline_ch s) (boot_token s)
              (registrations s ++ [token]) (hardware_posts s))
    else None
  end.

(** One turn of the listening loop: the check of the hardware switch, which
    reports at once when it starts the timer, then what comes first. *)
Definition listen (token : string) (hw : switched) (switch : bool) (secs : Z) (h : heard) (s : session_state)
    : option session_state :=
  let '(hw, started) := check_switch switch secs hw in
  let posts := hardware_posts s ++ (if started then [token] else []) in
  let go o offline posts :=
    Some (Session o (fetcher s) (token_ch s) offline (boot_token s) (registrations s) posts) in
  match h with
  | CheckTick => go (Listening token hw) (offline_ch s) posts
  | HardwareTick =>
    match period hw with
    | Some _ => go (Listening token hw) (offline_ch s) (posts ++ [token])
    | None => None
    end
  | Signal =>
    match offline_ch s with
    | true :: rest => go Registering rest posts
    | false :: rest => go (Listening token hw) rest posts
    | [] => if fetch_gone (fetcher s) then go (OnlineEnded (Ok "后台任务已启动.")) [] posts else None
    end
  end.

(** The online task; [None] when it cannot take the step. *)
Definition online_step (e : event) (s : session_state) : option session_state :=
  match e, online s with
  | Register client r, Registering => register client r s
  | SetToken, Sent token =>
    Some (Session (Listening token timer_off) (fetcher s) (token_ch s) (offline_ch s) (Some token)
            (registrations s) (hardware_posts s))
  | Listen switch secs h, Listening token hw => listen token hw switch secs h s
  | _, _ => None
  end.

(** The task fetcher around its runs. *)
Definition fetch_step (e : event) (s : session_state) : option session_state :=
  match e, fetcher s with
  | FetchClient (Ok _), Idle => Some (with_fetcher Waiting s)
  | FetchClient (Err _), Idle => Some (with_fetcher FetchEnded s)
  | Take, Waiting =>
    match token_ch s with
    | token :: rest => Some (Session (online s) (Polling token) rest (offline_ch s) (boot_token s)
                               (registrations s) (hardware_posts s))
    | [] => if online_gone (online s) then Some (with_fetcher FetchEnded s) else None
    end
  | RunEnds _, Polling _ => Some (with_fetcher Reporting s)
  | RunPanics, Polling _ => Some (with_fetcher FetchEnded s)
  | Report, Reporting =>
    if online_gone (online s) then Some (with_fetcher Idle s)
    else if (length (offline_ch s) <? CHANNEL)%nat then
      Some (Session (online s) Idle (token_ch s) (offline_ch s ++ [true]) (boot_token s)
              (registrations s) (hardware_posts s))
    else None
  | _, _ => None
  end.

Definition step (e : event) (s : session_state) : option session_state :=
  match e with
  | Register _ _ | SetToken | Listen _ _ _ => online_step e s
  | FetchClient _ | Take | RunEnds _ | RunPanics | Report => fetch_step e s
  end.

Fixpoint steps (es : list event) (s : session_state) : option session_state :=
  match es with [] => Some s | e :: es => s ← step e s; steps es s end.

Definition session_new : session_state := Session Registering Idle [] [] None [] [].

Definition alive (s : session_state) : bool := negb (online_gone (online s)) && negb (fetch_gone (fetcher s)).

(** ** One baton

    While both tasks live, exactly one thing is under way: the registration, a
    token in its channel, a run of the fetcher, or a signal in its channel. *)

(** The online task has handed out [t] and holds no news of its end. *)
Definition handed (t : string) (s : session_state) : Prop :=
  last (registrations s) = Some t
  /\ (online s = Sent t \/ exists hw, online s = Listening t hw /\ boot_token s = Some t).

Definition resting (f : fetch_phase) : bool := match f with Idle | Waiting => true | _ => false end.

Inductive baton (s : session_state) : Prop :=
| baton_register : online s = Registering -> resting (fetcher s) = true -> token_ch s = [] -> offline_ch s = [] -> baton s
| baton_token t : handed t s -> resting (fetcher s) = true -> token_ch s = [t] -> offline_ch s = [] -> baton s
| baton_run t : handed t s -> fetcher s = Polling t -> token_ch s = [] -> offline_ch s = [] -> baton s
| baton_report t : handed t s -> fetcher s = Reporting -> token_ch s = [] -> offline_ch s = [] -> baton s
| baton_signal t : handed t s -> resting (fetcher s) = true -> token_ch s = [] -> offline_ch s = [true] -> baton s.

(** The end of a task is for good. *)
Lemma step_alive e s s' : step e s = Some s' -> alive s' = true -> alive s = true.
Proof.
  destruct s as [o f tk off bt rg hp]. unfold alive. cbn [online fetcher].
  destruct o, f; try done; destruct e as [[[]|] []| |b z []|[]| | | |]; cbn; try done.
  all: unfold listen; cbn [fetcher fetch_gone offline_ch]; repeat case_match; intros; simplify_eq; done.
Qed.

(** Every step but the end of a task keeps the baton. *)
Lemma register_baton c r s s' :
  online s = Registering -> step (Register c r) s = Some s' -> alive s' = true -> baton s -> baton s'.
Proof.
  intros Eo E Ha Hb. unfold step, online_step, fetch_step in E. rewrite Eo in E. unfold register in E.
  destruct Hb as [_ Hf Ht Hs|t [_ [H|(? & H & _)]] _ _ _|t [_ [H|(? & H & _)]] _ _ _
                 |t [_ [H|(? & H & _)]] _ _ _|t [_ [H|(? & H & _)]] _ _ _]; try congruence.
  destruct c as [[]|]; [|injection E as <-; done].
  destruct r as [token|]; [|injection E as <-; by apply baton_register].
  destruct (fetch_gone (fetcher s)) eqn:Eg; [by destruct (fetcher s)|]. rewrite Ht in E. injection E as <-.
  apply (baton_token _ token); [|done..]. split; [apply last_snoc|by left].
Qed.

Lemma listen_handed t hw switch secs h s s' :
  handed t s -> online s = Listening t hw -> listen t hw switch secs h s = Some s' -> alive s' = true ->
  fetcher s' = fetcher s /\ token_ch s' = token_ch s
  /\ ((offline_ch s' = offline_ch s /\ handed t s') \/ (offline_ch s = false :: offline_ch s' /\ handed t s')
      \/ (offline_ch s = true :: offline_ch s' /\ online s' = Registering)).
Proof.
  intros [Hl Hb] Eo E Ha. unfold listen in E. destruct (check_switch switch secs hw) as [hw' started].
  assert (boot_token s = Some t) as Hbt by (destruct Hb as [?|(? & ? & ?)]; congruence).
  assert (forall off posts, handed t (Session (Listening t hw') (fetcher s) (token_ch s) off (boot_token s)
                                        (registrations s) posts)) as Hh.
  { intros off posts. split; [done|]. right. by exists hw'. }
  destruct h.
  - injection E as <-. split; [done|]. split; [done|]. left. split; [done|apply Hh].
  - destruct (period hw'); [|done]. injection E as <-. split; [done|]. split; [done|]. left. split; [done|apply Hh].
  - destruct (offline_ch s) as [|[] rest]; [destruct (fetch_gone _); [injection E as <-; done|done]|..].
    all: injection E as <-; split; [done|]; split; [done|]; auto.
Qed.
(** Changing how the online task holds the token changes nothing else. *)
Lemma baton_handed s s' :
  fetcher s' = fetcher s -> token_ch s' = token_ch s -> offline_ch s' = offline_ch s ->
  online s <> Registering -> (forall t, handed t s -> handed t s') -> baton s -> baton s'.
Proof.
  intros Ef Et Eo Hr Hh [?|t|t|t|t]; [done|..].
  - apply (baton_token s' t); [auto|congruence..].
  - apply (baton_run s' t); [auto|congruence..].
  - apply (baton_report s' t); [auto|congruence..].
  - apply (baton_signal s' t); [auto|congruence..].
Qed.

Lemma handed_online t s : handed t s -> online_gone (online s) = false.
Proof. intros [_ [->|(hw & -> & _)]]; done. Qed.

Lemma set_token_baton s s' : step SetToken s = Some s' -> baton s -> baton s'.
Proof.
  unfold step, online_step, fetch_step. destruct (online s) as [|token|t hw|r] eqn:Eo; try done. intros [= <-].
  apply baton_handed; [done..|congruence|]. intros t [Hl [H|(hw & H & _)]]; [|congruence].
  assert (t = token) as -> by congruence. split; [done|]. right. by exists timer_off.
Qed.

Lemma listen_baton switch secs h s s' :
  step (Listen switch secs h) s = Some s' -> alive s' = true -> baton s -> baton s'.
Proof.
  intros E Ha Hb. unfold step, online_step, fetch_step in E. destruct (online s) as [|token|t hw|r] eqn:Eo; try done.
  assert (exists t', handed t' s) as [t' Ht'] by (destruct Hb; eauto; congruence).
  assert (t' = t) as -> by (destruct Ht' as [_ [?|(? & ? & _)]]; congruence).
  destruct (listen_handed t hw switch secs h s s' Ht' Eo E Ha)
    as (Ef & Et & [[Es Hh]|[[Es Hh]|[Es Hr]]]).
  - refine (baton_handed s s' Ef Et Es _ _ Hb); [congruence|]. intros t1 H1.
    assert (t1 = t) as -> by (destruct H1 as [_ [?|(? & ? & _)]]; congruence). exact Hh.
  - destruct Hb; congruence.
  - destruct Hb as [|t1|t1|t1|t1 _ Hf Ht Hs]; try congruence.
    apply baton_register; congruence.
Qed.

Lemma fetch_baton e s s' :
  match e with FetchClient _ | Take | RunEnds _ | RunPanics | Report => true | _ => false end = true ->
  step e s = Some s' -> alive s' = true -> baton s -> baton s'.
Proof.
  intros He E Ha Hb. unfold alive in Ha.
  destruct Hb as [Ho Hf Ht Hs|t Hh Hf Ht Hs|t Hh Hf Ht Hs|t Hh Hf Ht Hs|t Hh Hf Ht Hs];
    [|pose proof (handed_online t s Hh) as Hg..].
  1-2,5: destruct (fetcher s) eqn:Ef; try done.
  all: destruct e as [| | |[[]|]| | | |]; try done; unfold step, online_step, fetch_step in E; rewrite ?Ef, ?Hf, ?Ht in E; try done.
  all: rewrite ?Ho, ?Hg, ?Hs in E; simpl in E; simplify_eq; simpl in Ha; rewrite ?andb_false_r in Ha; try done.
  - by apply baton_register.
  - by apply (baton_token _ t).
  - by apply (baton_run _ t).
  - by apply (baton_signal _ t).
  - by apply (baton_report _ t).
  - by apply (baton_signal _ t).
Qed.

Lemma step_baton e s s' : step e s = Some s' -> alive s' = true -> baton s -> baton s'.
Proof.
  intros E Ha Hb. destruct e as [c r| |switch secs h| | | | |].
  - eapply register_baton; [|exact E|done..]. unfold step, online_step, fetch_step in E. by destruct (online s).
  - by eapply set_token_baton.
  - by eapply listen_baton.
  - eapply fetch_baton; [|exact E|done..]. done.
  - eapply fetch_baton; [|exact E|done..]. done.
  - eapply fetch_baton; [|exact E|done..]. done.
  - eapply fetch_baton; [|exact E|done..]. done.
  - eapply fetch_baton; [|exact E|done..]. done.
Qed.

Lemma steps_alive es s s' : steps es s = Some s' -> alive s' = true -> alive s = true.
Proof.
  revert s. induction es as [|e es IH]; intros s; [by intros [= ->]|]. cbn [steps].
  destruct (step e s) as [s1|] eqn:E; [|done]. cbn [mbind option_bind]. intros Hr Ha.
  eapply step_alive; [exact E|]. by eapply IH.
Qed.

Lemma steps_baton es s s' : steps es s = Some s' -> alive s' = true -> baton s -> baton s'.
Proof.
  revert s. induction es as [|e es IH]; intros s; [by intros [= ->]|]. cbn [steps].
  destruct (step e s) as [s1|] eqn:E; [|done]. cbn [mbind option_bind]. intros Hr Ha Hb.
  apply (IH s1 Hr Ha). eapply step_baton; [exact E| |exact Hb]. by eapply steps_alive.
Qed.

Lemma session_new_baton : baton session_new.
Proof. by apply baton_register. Qed.

(** ** How far the next run is

    Steps that bring the fetcher nearer to a run, as opposed to refused
    registrations and the ticks of the listening task. *)
Definition progress (e : event) : bool :=
  match e with
  | Register (Ok _) (Ok _) | SetToken | FetchClient (Ok _) | Take | Report => true
  | Listen _ _ Signal => true
  | _ => false
  end.

Definition stage (s : session_state) : nat :=
  match token_ch s, offline_ch s, fetcher s with
  | _, _, Polling _ => 0
  | _ :: _, _, _ => 0
  | _, _, Reporting => 3
  | _, _ :: _, _ => 2
  | _, _, _ => 1
  end%nat.
Definition distance (s : session_state) : nat :=
  (4 * stage s + (match fetcher s with Idle => 1 | _ => 0 end) + (match online s with Sent _ => 1 | _ => 0 end))%nat.

Definition polling (s : session_state) : bool := match fetcher s with Polling _ => true | _ => false end.

Lemma distance_bound s : (distance s <= 14)%nat.
Proof.
  unfold distance, stage. destruct (fetcher s), (online s), (token_ch s), (offline_ch s); simpl; lia.
Qed.

(** Something can be done about a session that is not running. *)
Lemma progress_possible s :
  baton s -> alive s = true -> polling s = false ->
  exists e s', progress e = true /\ step e s = Some s' /\ alive s' = true.
Proof.
  intros Hb Ha Hp. unfold alive, polling in *.
  destruct Hb as [Ho Hf Ht Hs|t Hh Hf Ht Hs|t Hh Hf Ht Hs|t Hh Hf Ht Hs|t Hh Hf Ht Hs];
    [|pose proof (handed_online t s Hh) as Hg..].
  - exists (Register (Ok tt) (Ok EmptyString)). unfold step, online_step, fetch_step. rewrite Ho. unfold register. rewrite Ht.
    destruct (fetcher s); try done; eexists; (split; [done|]); split; reflexivity.
  - destruct (fetcher s) eqn:Ef; try done; [exists (FetchClient (Ok tt))|exists Take]; eexists; (split; [done|]);
      unfold step, online_step, fetch_step; rewrite Ef, ?Ht; (split; [reflexivity|]); simpl; by rewrite Hg.
  - by rewrite Hf in Hp.
  - exists Report. eexists. split; [done|]. unfold step, online_step, fetch_step. rewrite Hf, Hg, Hs. split; [reflexivity|]. simpl. by rewrite Hg.
  - destruct Hh as [_ [Eo|(hw & Eo & _)]].
    + exists SetToken. eexists. split; [done|]. unfold step, online_step, fetch_step. rewrite Eo. split; [reflexivity|].
      simpl. by destruct (fetcher s).
    + exists (Listen false 0 Signal). unfold step, online_step, fetch_step. rewrite Eo. unfold listen. rewrite Hs.
      destruct (check_switch false 0 hw) as [hw' started]. eexists. split; [done|]. split; [reflexivity|].
      simpl. by destruct (fetcher s).
Qed.

Lemma step_distance e s s' :
  baton s -> step e s = Some s' -> alive s' = true -> polling s = false -> polling s' = false ->
  (distance s' + (if progress e then 1 else 0) <= distance s)%nat.
Proof.
  intros Hb E Ha Hp Hp'. unfold alive, polling, distance, stage in *. unfold step, online_step, fetch_step in E.
  destruct e as [c r| |switch secs h|[[]|]| |? | |].
  - destruct (online s) eqn:Eo; try done. unfold register in E.
    destruct Hb as [_ Hf Ht Hs|t [_ [H|(? & H & _)]] _ _ _|t [_ [H|(? & H & _)]] _ _ _
                   |t [_ [H|(? & H & _)]] _ _ _|t [_ [H|(? & H & _)]] _ _ _]; try congruence.
    destruct c as [[]|]; [|injection E as <-; done]. destruct r as [token|]; [|injection E as <-; simpl; rewrite Eo; lia].
    rewrite Ht, Hs in *. destruct (fetcher s); try done; injection E as <-; simpl; lia.
  - destruct (online s) eqn:Eo; try done. injection E as <-. simpl. lia.
  - destruct (online s) as [|token|t hw|r] eqn:Eo; try done. unfold listen in E.
    destruct (check_switch switch secs hw) as [hw' started]. destruct h; simpl.
    + injection E as <-. simpl. lia.
    + destruct (period hw'); [|done]. injection E as <-. simpl. lia.
    + destruct Hb as [|t1 _ Hf Ht Hs|t1 _ Hf Ht Hs|t1 _ Hf Ht Hs|t1 _ Hf Ht Hs]; try congruence.
      all: rewrite Hs in E.
      4:{ rewrite Ht, Hs. injection E as <-. simpl. rewrite Ht. destruct (fetcher s); try done; simpl; lia. }
      all: destruct (fetcher s) eqn:Ef; try done.
  - destruct (fetcher s) eqn:Ef; try done. injection E as <-. simpl. destruct (token_ch s), (offline_ch s); simpl; lia.
  - destruct (fetcher s) eqn:Ef; try done. injection E as <-. simpl in Ha. by rewrite andb_false_r in Ha.
  - destruct (fetcher s) eqn:Ef; try done. destruct (token_ch s) eqn:Et; [|by injection E as <-].
    destruct (online_gone (online s)) eqn:Eg; [|done]. injection E as <-. simpl in Ha. by rewrite Eg in Ha.
  - by destruct (fetcher s).
  - by destruct (fetcher s).
  - destruct (fetcher s) eqn:Ef; try done.
    destruct Hb as [_ Hf|t1 _ Hf|t1 _ Hf|t1 Hh Hf Ht Hs|t1 _ Hf]; try (by rewrite Ef in Hf).
    rewrite (handed_online t1 s Hh), Hs in E. injection E as <-. simpl. rewrite Ht, Hs. simpl. lia.
Qed.

Definition moves (es : list event) : nat := length (retain progress es).

Lemma steps_polling es s s' :
  baton s -> steps es s = Some s' -> alive s' = true -> (distance s < moves es)%nat ->
  exists es1 es2 s1, es = es1 ++ es2 /\ steps es1 s = Some s1 /\ polling s1 = true.
Proof.
  revert s. induction es as [|e es IH]; intros s Hb Hr Ha Hd; [unfold moves in Hd; simpl in Hd; lia|].
  destruct (polling s) eqn:Ep; [by exists [], (e :: es), s|]. cbn [steps] in Hr.
  destruct (step e s) as [s1|] eqn:E; [|done]. cbn [mbind option_bind] in Hr.
  assert (alive s1 = true) as Ha1 by (by eapply steps_alive).
  assert (baton s1) as Hb1 by (by eapply step_baton).
  destruct (polling s1) eqn:Ep1.
  - exists [e], es, s1. split; [done|]. split; [|done]. simpl. by rewrite E.
  - pose proof (step_distance e s s1 Hb E Ha1 Ep Ep1) as Hs.
    destruct (IH s1 Hb1 Hr Ha) as (es1 & es2 & s2 & -> & Hr2 & Hp2).
    { unfold moves, retain in *. cbn [List.filter] in Hd. destruct (progress e); simpl in Hd, Hs; lia. }
    exists (e :: es1), es2, s2. split; [done|]. split; [|done]. simpl. by rewrite E.
Qed.

(** C18: however the two tasks interleave, as long as both live there is at most
    one token and at most one signal in the channels, so that neither send waits;
    and the fetcher only ever polls with the token the host registered last,
    while the online task still listens for the end of that very session. *)
Theorem session_token_current es s :
  steps es session_new = Some s -> alive s = true ->
  (length (token_ch s) + length (offline_ch s) <= 1)%nat
  /\ forall t, fetcher s = Polling t ->
       last (registrations s) = Some t /\ token_ch s = [] /\ offline_ch s = []
       /\ (online s = Sent t \/ exists hw, online s = Listening t hw /\ boot_token s = Some t).
Proof.
  intros Hr Ha. pose proof (steps_baton es session_new s Hr Ha session_new_baton) as Hb.
  destruct Hb as [Ho Hf Ht Hs|t Hh Hf Ht Hs|t [Hl Hh] Hf Ht Hs|t Hh Hf Ht Hs|t Hh Hf Ht Hs]; rewrite Ht, Hs.
  1,2,4,5: split; [simpl; lia|]; intros t' Hp; rewrite Hp in Hf; done.
  split; [simpl; lia|]. intros t' Hp. assert (t' = t) as -> by congruence. done.
Qed.

(** C19: a session that is not running comes to run again.  In every state that
    the two tasks can reach alive, one of them can take a step towards the next
    run, without waiting for the other; and once more than fourteen such steps
    have been taken, whatever refused registrations and ticks come between them,
    the fetcher has been running. *)
Theorem session_restarts es s :
  steps es session_new = Some s -> alive s = true ->
  (polling s = false -> exists e s', progress e = true /\ step e s = Some s' /\ alive s' = true)
  /\ forall es' s', steps es' s = Some s' -> alive s' = true -> (14 < moves es')%nat ->
       exists es1 es2 s1, es' = es1 ++ es2 /\ steps es1 s = Some s1 /\ polling s1 = true.
Proof.
  intros Hr Ha. pose proof (steps_baton es session_new s Hr Ha session_new_baton) as Hb. split.
  - by apply progress_possible.
  - intros es' s' Hr' Ha' Hm. eapply steps_polling; [done..|]. pose proof (distance_bound s). lia.
Qed.

(** if the fetcher ends while the host registers (its client cannot be
    built after a refused token), the online task never notices: every token it
    gets cannot be sent, is not stored, and it registers again at once. *)
Theorem registers_for_ever tokens s :
  online s = Registering -> fetcher s = FetchEnded ->
  exists s', steps ((fun token => Register (Ok tt) (Ok token)) <$> tokens) s = Some s'
    /\ online s' = Registering /\ registrations s' = registrations s ++ tokens /\ boot_token s' = boot_token s.
Proof.
  revert s. induction tokens as [|token tokens IH]; intros s Ho Hf; [exists s; by rewrite app_nil_r|].
  rewrite fmap_cons. cbn [steps]. unfold step at 1, online_step at 1. rewrite Ho. unfold register. rewrite Hf. cbn [fetch_gone mbind option_bind].
  edestruct IH as (s' & Hs & H1 & H2 & H3); [..|exists s'; split; [exact Hs|]]; [done..|].
  simpl in *. by rewrite H2, H3, <- app_assoc.
Qed.

(** ** Instances *)

Module SessionDemo.

(** A first session, a refused token, and the second session. *)
Definition two_sessions : list event :=
  [FetchClient (Ok tt); Register (Ok tt) (Err "down"); Register (Ok tt) (Ok "a"); Take; SetToken;
   Listen true 60 CheckTick; Listen true 60 HardwareTick; RunEnds "token 无效"; Report;
   Listen true 10 Signal; Register (Ok tt) (Ok "b"); SetToken; FetchClient (Ok tt); Take].

Definition after_two : session_state :=
  Session (Listening "b" timer_off) (Polling "b") [] [] (Some "b") ["a"; "b"] ["a"; "a"].

Example two_sessions_run : steps two_sessions session_new = Some after_two.
Proof. vm_compute. reflexivity. Qed.

Lemma session_token_current_witness :
  last (registrations after_two) = Some "b" /\ token_ch after_two = [] /\ offline_ch after_two = [].
Proof.
  destruct (session_token_current two_sessions after_two) as [_ Hp]; [vm_compute; reflexivity..|].
  by destruct (Hp "b" eq_refl) as (H1 & H2 & H3 & _).
Defined.

(** Three sessions in a row from a refused token make more than fourteen moves. *)
Definition again (t : string) : list event :=
  [RunEnds "401"; Report; Listen false 0 Signal; Register (Ok tt) (Ok t); SetToken; FetchClient (Ok tt); Take].

Lemma session_restarts_witness :
  exists es1 es2 s1, again "c" ++ again "d" ++ again "e" = es1 ++ es2
    /\ steps es1 after_two = Some s1 /\ polling s1 = true.
Proof.
  destruct (session_restarts two_sessions after_two) as [_ Hs]; [vm_compute; reflexivity..|].
  eapply Hs; [vm_compute; reflexivity|vm_compute; reflexivity|vm_compute; lia].
Defined.

Definition orphaned : session_state := Session Registering FetchEnded [] [] (Some "a") ["a"] [].

Lemma registers_for_ever_witness :
  exists s', steps ((fun token => Register (Ok tt) (Ok token)) <$> ["b"; "c"; "d"]) orphaned = Some s'
    /\ online s' = Registering /\ registrations s' = ["a"; "b"; "c"; "d"] /\ boot_token s' = Some "a".
Proof. exact (registers_for_ever ["b"; "c"; "d"] orphaned eq_refl eq_refl). Defined.

(** A refusal that carries a token is taken for a registration. *)
Example refusal_registers :
  auth_token (Object [("code", Str "500"); ("data", Object [("token", Str "t")]); ("msg", Str "no")]) = Some "t".
Proof. reflexivity. Qed.

End SessionDemo.
