(* ===== verification/Snapman.v ===== *)
(** * Snapshots

    [crates/snapman/src/lib.rs]: snapshots of the host's logical volumes are
    made, removed and merged back with the LVM tools, whose listings are read
    from their output.  Sizes are read as [f64]. *)

From Stdlib Require Import Ascii.
From S2P Require Import Prelude RustStr Bytes Shell Host Float.

Record LvInfo := Lv { lv_name : string; lv_vg : string; lv_origin : option string }.

(** ** Sizes *)

(** [.chars().skip_while(|c| !c.is_ascii_digit() && *c != '.')]. *)
Fixpoint skip_to_number (s : string) : string :=
  match s with
  | EmptyString => ""
  | String a s' => if bool_decide (is_Some (Ascii.is_nat a)) || bool_decide (a = "."%char) then s
                   else skip_to_number s'
  end.

(** The number in front of a unit. *)
Definition unit_number (c : ascii) (what : string) (s : string) : result string f64 :=
  let num_str := trim_end_char c s in
  ok_or ("无法解析 " +:+ what +:+ " 数值: '" +:+ num_str +:+ "'") (parse_f64 num_str).

Definition parse_size_to_gb (size_str : string) : result string Z :=
  let cleaned := skip_to_number (trim size_str) in
  if str_is_empty cleaned then Err ("清理后大小为空: " +:+ size_str)
  else
    let s := to_lowercase cleaned in
    if ends_with "g" s then num ← unit_number "g" "GB" s; Ok (ceil_u64 num)
    else if ends_with "m" s then num ← unit_number "m" "MB" s; Ok (ceil_u64 (f64_div num (f64_of_Z 1024)))
    else if ends_with "t" s then num ← unit_number "t" "TB" s; Ok (ceil_u64 (f64_mul num (f64_of_Z 1024)))
    else Err ("无法解析大小（未知单位）: '" +:+ size_str +:+ "'").

Example sizes_parsed :
  (parse_size_to_gb " <36.12g", parse_size_to_gb "512.00m", parse_size_to_gb "1.50T", parse_size_to_gb "12")
  = (Ok 37, Ok 1, Ok 1536, Err "无法解析大小（未知单位）: '12'").
Proof. vm_compute. reflexivity. Qed.

(** [((lv_size_gb as f64) * 0.1).ceil() as u64]. *)
Definition tenth (gb : Z) : Z := ceil_u64 (f64_mul (f64_of_Z gb) (f64_ratio 1 10)).

(** ** Volumes *)

Section lvm.
Context {W : Type} `{Os W}.

Abbreviation st := (host W).

(** The output of a tool, whether it succeeded or not. *)
Definition lvm_listing (cmd : string) (argv : list string) : io st (result string string) :=
  let? o := output_of cmd argv in mret (Ok (from_utf8_lossy (stdout o))).

Definition get_vg_name : io st (result string string) :=
  let? text := lvm_listing "vgs" ["--noheadings"; "-o"; "vg_name"] in
  let vg_name := trim text in
  mret (if str_is_empty vg_name then Err "未找到卷组名称" else Ok vg_name).

Definition lv_line (line : string) : option LvInfo :=
  match split_whitespace line with
  | n :: vg :: rest => Some (Lv n vg (head rest))
  | _ => None
  end.

Definition list_lvs : io st (result string (list LvInfo)) :=
  let? text := lvm_listing "lvs" ["--noheadings"; "-o"; "lv_name,vg_name,origin"] in
  mret (Ok (omap lv_line (lines text))).

Definition lv_path (lv : LvInfo) : string := "/dev/" +:+ lv_vg lv +:+ "/" +:+ lv_name lv.

(** The free space of a group in a listing of groups. *)
Fixpoint find_space (vg : string) (required_gb : Z) (ls : list string) : result string unit :=
  match ls with
  | [] => Err ("未找到卷组 " +:+ vg)
  | line :: ls =>
    match split_whitespace line with
    | g :: free_str :: _ =>
      if bool_decide (g = vg) then
        free_gb ← parse_size_to_gb free_str;
        if free_gb <? required_gb then
          Err ("卷组 " +:+ vg +:+ " 剩余空间不足: 需要 " +:+ dec required_gb +:+ "G，当前可用 " +:+ dec free_gb +:+ "G")
        else Ok tt
      else find_space vg required_gb ls
    | _ => find_space vg required_gb ls
    end
  end.

Definition check_free_space (vg required_size : string) : io st (result string unit) :=
  let? required_gb := mret (parse_size_to_gb required_size) in
  let? text := lvm_listing "vgs" ["--noheadings"; "-o"; "vg_name,vg_free"] in
  mret (find_space vg required_gb (lines text)).

(** [Command::new(..).status()]: did it succeed. *)
Definition status_of (cmd : string) (argv : list string) : io st (result string bool) :=
  let? o := output_of cmd argv in mret (Ok (success o)).

Definition skipped (lv : LvInfo) : bool := contains "swap" (lv_name lv) || contains "_snap" (lv_name lv).

(** One volume: the size of the snapshot, if it was made. *)
Definition snapshot_one (vg tag size : string) (lv : LvInfo) : io st (result string (option string)) :=
  let? text := with_err (fun e => "获取卷大小失败: " +:+ e)
                 (lvm_listing "lvs" ["--noheadings"; "-o"; "lv_size"; lv_vg lv +:+ "/" +:+ lv_name lv]) in
  let? lv_size_gb := mret (parse_size_to_gb (trim text)) in
  let size_final := if str_is_empty size then dec (tenth lv_size_gb) +:+ "G" else size in
  let? _ := check_free_space vg size_final in
  let? done := status_of "lvcreate" ["-L"; size_final; "-s"; lv_path lv; "-n"; lv_name lv +:+ "_snap_" +:+ tag] in
  mret (Ok (if (done : bool) then Some size_final else None)).

Fixpoint snapshot_all (vg tag size : string) (lvs : list LvInfo) (created : option string)
    : io st (result string (option string)) :=
  match lvs with
  | [] => mret (Ok created)
  | lv :: lvs =>
    if skipped lv then snapshot_all vg tag size lvs created
    else
      let? made := snapshot_one vg tag size lv in
      snapshot_all vg tag size lvs (match made with Some z => Some z | None => created end)
  end.

Definition create_snapshot (tag size : string) : io st (result string string) :=
  let? vg := get_vg_name in
  let? lvs := list_lvs in
  let? created := snapshot_all vg tag size lvs None in
  mret (ok_or "未找到可用于快照的根卷 (排除 swap 与 _snap_)" created).

(** ** Removing and merging *)

(** Run a tool on every volume that is meant; whether it succeeded once. *)
Fixpoint on_matching (meant : LvInfo -> bool) (cmd : string) (flag : string) (lvs : list LvInfo) (found : bool)
    : io st (result string bool) :=
  match lvs with
  | [] => mret (Ok found)
  | lv :: lvs =>
    if meant lv then
      let? done := status_of cmd [flag; lv_path lv] in on_matching meant cmd flag lvs (found || done)
    else on_matching meant cmd flag lvs found
  end.

Definition is_snapshot (lv : LvInfo) : bool := contains "_snap" (lv_name lv).

Definition clean_snapshot (name : string) : io st (result string unit) :=
  let? lvs := list_lvs in
  let? found := on_matching (fun lv => contains name (lv_name lv) && is_snapshot lv) "lvremove" "-f" lvs false in
  mret (if (found : bool) then Ok tt else Err ("未找到匹配的快照: " +:+ name)).

Definition clean_all_snapshots : io st (result string unit) :=
  let? lvs := list_lvs in
  _ ← for_each (fun lv => if is_snapshot lv then run_quietly "lvremove" ["-f"; lv_path lv] else mret tt) lvs;
  mret (Ok tt).

Definition restore_snapshot (suffix : string) : io st (result string unit) :=
  let? lvs := list_lvs in
  let? found := on_matching (fun lv => ends_with suffix (lv_name lv) && is_snapshot lv) "lvconvert" "--merge" lvs false in
  mret (if (found : bool) then Ok tt else Err ("未找到匹配的快照: " +:+ suffix)).
End lvm.

(** ** Sizes are read *)

Definition all_digits (s : string) : Prop := forall a, str_mem a s = true -> is_Some (Ascii.is_nat a).

Lemma dec_digits n : all_digits (dec n).
Proof. intros a Ha. destruct (Ascii.is_nat a) eqn:E; [eauto|]. by rewrite dec_mem in Ha. Qed.

Lemma all_digits_cons a s : all_digits (String a s) -> is_Some (Ascii.is_nat a) /\ all_digits s.
Proof.
  intros Hs. split; [apply Hs; simpl; by rewrite bool_decide_eq_true_2|].
  intros b Hb. apply Hs. simpl. by rewrite Hb, orb_true_r.
Qed.

Lemma lower_app s t : to_lowercase (s +:+ t) = to_lowercase s +:+ to_lowercase t.
Proof. induction s as [|a s IH]; [done|]. rewrite !str_app_cons. cbn [to_lowercase]. by rewrite IH. Qed.

Lemma lower_digits s : all_digits s -> to_lowercase s = s.
Proof.
  induction s as [|a s IH]; [done|]. intros [[d Ha] Hs]%all_digits_cons. cbn [to_lowercase]. rewrite IH by done.
  f_equal. by destruct a as [[] [] [] [] [] [] [] []].
Qed.

(** Signs in front of a number, as LVM prints them. *)
Definition noise (s : string) : Prop :=
  forall a, str_mem a s = true -> Ascii.is_nat a = None /\ a <> "."%char /\ Ascii.is_space a = false.

Lemma skip_noise p s :
  noise p -> (exists a r, s = String a r /\ is_Some (Ascii.is_nat a)) -> skip_to_number (p +:+ s) = s.
Proof.
  intros Hp (a & r & -> & Ha). induction p as [|b p IH].
  - rewrite str_app_nil_l. cbn [skip_to_number]. by rewrite bool_decide_eq_true_2.
  - destruct (Hp b) as (Hb & Hd & _); [simpl; by rewrite bool_decide_eq_true_2|].
    rewrite str_app_cons. cbn [skip_to_number]. rewrite Hb, !bool_decide_eq_false_2 by (done || by intros []).
    apply IH. intros c Hc. apply Hp. simpl. by rewrite Hc, orb_true_r.
Qed.

Lemma trim_end_unit c n : Ascii.is_nat c = None -> trim_end_char c (dec n +:+ String c "") = dec n.
Proof.
  intros Hc. unfold trim_end_char. rewrite rev_app. change (String.rev (String c "")) with (String c "").
  rewrite str_app_cons, str_app_nil_l. cbn [trim_start_char]. rewrite bool_decide_eq_true_2 by done.
  destruct (String.rev (dec n)) as [|a s] eqn:E.
  { by rewrite <- (rev_involutive (dec n)), E. }
  cbn [trim_start_char]. rewrite bool_decide_eq_false_2; [by rewrite <- E, rev_involutive|].
  intros ->. assert (str_mem c (String.rev (dec n)) = true) as Hm by (rewrite E; simpl; by rewrite bool_decide_eq_true_2).
  by rewrite str_mem_rev, dec_mem in Hm.
Qed.

Lemma ends_with_unit c d s : ends_with (String c "") (s +:+ String d "") = bool_decide (c = d).
Proof.
  unfold ends_with, starts_with. rewrite rev_app. change (String.rev (String d "")) with (String d "").
  change (String.rev (String c "")) with (String c ""). rewrite str_app_cons, str_app_nil_l. cbn [strip_prefix].
  destruct (decide (c = d)) as [->|Hne].
  - rewrite !(bool_decide_eq_true_2 (d = d)) by done. apply bool_decide_eq_true. destruct (String.rev s); eauto.
  - rewrite !(bool_decide_eq_false_2 (c = d)) by done. apply bool_decide_eq_false. by intros [].
Qed.

Lemma cleaned_size p n c :
  noise p -> Ascii.is_nat c = None -> Ascii.is_space c = false ->
  skip_to_number (trim (p +:+ dec n +:+ String c "")) = dec n +:+ String c "".
Proof.
  intros Hp Hc Hs. rewrite trim_id.
  - apply skip_noise; [done|]. destruct (dec_first n) as (a & r & -> & Ha). rewrite str_app_cons. eauto.
  - apply no_space_app; [intros a Ha; by apply Hp|]. apply no_space_app; [apply no_space_dec|].
    intros a. simpl. rewrite orb_false_r. intros ->%bool_decide_eq_true. done.
Qed.

(** sizes as LVM prints them are read exactly: a whole number of gigabytes
    below 2^53, whatever signs stand in front of it, in either case, and a whole
    number of terabytes as 1024 times as many gigabytes. *)
Theorem sizes_read_exactly p n :
  noise p -> 0 <= n < 2 ^ 53 ->
  parse_size_to_gb (p +:+ dec n +:+ "g") = Ok n /\ parse_size_to_gb (p +:+ dec n +:+ "G") = Ok n
  /\ parse_size_to_gb (p +:+ dec n +:+ "t") = Ok (n * 1024).
Proof.
  intros Hp Hn. unfold parse_size_to_gb. rewrite !cleaned_size by done.
  assert (forall c, str_is_empty (dec n +:+ String c "") = false) as He.
  { intros c. destruct (dec_first n) as (a & r & -> & _). done. }
  rewrite !He, !lower_app, !(lower_digits (dec n)) by apply dec_digits.
  change (to_lowercase "g") with "g". change (to_lowercase "G") with "g". change (to_lowercase "t") with "t".
  rewrite !ends_with_unit. unfold unit_number. rewrite !trim_end_unit, !parse_f64_dec by (done || lia).
  cbn -[ceil_u64 f64_mul f64_of_Z]. by rewrite ceil_of_Z, ceil_times_1024 by done.
Qed.

(** ** What is run *)

Section commands.
Context {W : Type} `{Os W}.

Definition runs (P : command -> Prop) (h h' : host W) : Prop := ran P (h_shell h) (h_shell h').

#[local] Instance runs_preorder P : PreOrder (runs P).
Proof. split; [intros h; apply ran_refl|intros h1 h2 h3; apply ran_trans]. Qed.

Lemma output_of_runs (P : command -> Prop) cmd argv : P (Cmd cmd argv) -> keeps (runs P) (output_of cmd argv).
Proof.
  intros HP h. unfold output_of, on_shell, exec, runs. destruct (spawn _ _) as [r w]. exists [Cmd cmd argv]. simpl.
  split; [done|]. by constructor.
Qed.

Lemma listing_runs (P : command -> Prop) cmd argv : P (Cmd cmd argv) -> keeps (runs P) (lvm_listing cmd argv).
Proof.
  intros HP. apply (keeps_bind_ok (runs P)); [by apply output_of_runs|]. intros o. apply keeps_ret. apply _.
Qed.

Lemma status_of_runs (P : command -> Prop) cmd argv : P (Cmd cmd argv) -> keeps (runs P) (status_of cmd argv).
Proof.
  intros HP. apply (keeps_bind_ok (runs P)); [by apply output_of_runs|]. intros o. apply keeps_ret. apply _.
Qed.

(** Commands that only list. *)
Definition lists (c : command) : Prop := program c = "vgs" \/ program c = "lvs".

Lemma list_lvs_runs (P : command -> Prop) : (forall c, lists c -> P c) -> keeps (runs P) list_lvs.
Proof.
  intros HP. apply (keeps_bind_ok (runs P)); [apply listing_runs, HP; by right|]. intros o. apply keeps_ret. apply _.
Qed.

Lemma check_free_space_runs (P : command -> Prop) vg size :
  (forall c, lists c -> P c) -> keeps (runs P) (check_free_space vg size).
Proof.
  intros HP. apply (keeps_bind_ok (runs P)); [apply keeps_ret; apply _|intros gb].
  apply (keeps_bind_ok (runs P)); [apply listing_runs, HP; by left|]. intros o. apply keeps_ret. apply _.
Qed.

(** A snapshot of a volume that is neither swap nor a snapshot, of the size that
    was asked for. *)
Definition makes_snapshot (tag size : string) (c : command) : Prop :=
  lists c \/ exists lv sz, c = Cmd "lvcreate" ["-L"; sz; "-s"; lv_path lv; "-n"; lv_name lv +:+ "_snap_" +:+ tag]
    /\ contains "swap" (lv_name lv) = false /\ contains "_snap" (lv_name lv) = false /\ (size <> "" -> sz = size).

Lemma snapshot_all_runs vg tag size lvs created :
  keeps (runs (makes_snapshot tag size)) (snapshot_all vg tag size lvs created).
Proof.
  revert created. induction lvs as [|lv lvs IH]; intros created; [apply keeps_ret; apply _|]. cbn [snapshot_all].
  destruct (skipped lv) eqn:Es; [apply IH|]. apply (keeps_bind_ok (runs _)); [|intros made; apply IH].
  apply (keeps_bind_ok (runs _)); [apply keeps_with_err, listing_runs; left; by right|intros text].
  apply (keeps_bind_ok (runs _)); [apply keeps_ret; apply _|intros gb].
  apply (keeps_bind_ok (runs _)); [apply check_free_space_runs; intros c Hc; by left|intros _].
  apply (keeps_bind_ok (runs _)); [|intros made; apply keeps_ret; apply _].
  apply orb_false_iff in Es as [Ew En].
  apply status_of_runs. right. exists lv. eexists. split; [reflexivity|]. split; [exact Ew|]. split; [exact En|]. intros Hs.
  unfold str_is_empty. by rewrite bool_decide_false.
Qed.

(** A tool run on a volume that is named like a snapshot. *)
Definition on_snapshot (cmd flag : string) (p : LvInfo -> bool) (c : command) : Prop :=
  lists c \/ exists lv, c = Cmd cmd [flag; lv_path lv] /\ contains "_snap" (lv_name lv) = true /\ p lv = true.

Lemma on_matching_runs cmd flag p lvs found :
  keeps (runs (on_snapshot cmd flag p)) (on_matching (fun lv => p lv && is_snapshot lv) cmd flag lvs found).
Proof.
  revert found. induction lvs as [|lv lvs IH]; intros found; [apply keeps_ret; apply _|]. cbn [on_matching].
  destruct (p lv && is_snapshot lv) eqn:E; [|apply IH]. apply andb_true_iff in E as [E1 E2].
  apply (keeps_bind_ok (runs _)); [|intros made; apply IH]. apply status_of_runs. right. by exists lv.
Qed.
End commands.

#[global] Instance runs_pre {W} P : PreOrder (@runs W P).
Proof. split; [intros h; apply ran_refl|intros h1 h2 h3; apply ran_trans]. Qed.

(** C32: the snapshot commands touch nothing else: a snapshot is only made of
    volumes that are neither swap nor themselves snapshots, of the size asked
    for; only volumes named like snapshots, and like the one asked for, are
    removed or merged back; everything else that is run only lists. *)
Theorem snapshots_spare_volumes {W} `{Os W} tag size name suffix :
  keeps (runs (W := W) (makes_snapshot tag size)) (create_snapshot tag size)
  /\ keeps (runs (W := W) (on_snapshot "lvremove" "-f" (fun lv => contains name (lv_name lv)))) (clean_snapshot name)
  /\ keeps (runs (W := W) (on_snapshot "lvremove" "-f" (fun _ => true))) clean_all_snapshots
  /\ keeps (runs (W := W) (on_snapshot "lvconvert" "--merge" (fun lv => ends_with suffix (lv_name lv)))) (restore_snapshot suffix).
Proof.
  split_and!.
  - apply (keeps_bind_ok (runs _)).
    { apply (keeps_bind_ok (runs _)); [apply listing_runs; left; by left|]. intros o. apply keeps_ret. apply _. }
    intros vg. apply (keeps_bind_ok (runs _)); [apply list_lvs_runs; intros c Hc; by left|]. intros lvs.
    apply (keeps_bind_ok (runs _)); [apply snapshot_all_runs|]. intros c. apply keeps_ret. apply _.
  - apply (keeps_bind_ok (runs _)); [apply list_lvs_runs; intros c Hc; by left|]. intros lvs.
    apply (keeps_bind_ok (runs _)); [apply on_matching_runs|]. intros found. apply keeps_ret. apply _.
  - apply (keeps_bind_ok (runs _)); [apply list_lvs_runs; intros c Hc; by left|]. intros lvs.
    apply (keeps_bind (runs _)); [|intros _; apply keeps_ret; apply _]. apply (keeps_for_each (runs _)). intros lv _.
    destruct (is_snapshot lv) eqn:E; [|apply keeps_ret; apply _]. intros h. unfold run_quietly, ignore, succeeds, exec, runs.
    destruct (spawn _ _) as [r w]. exists [Cmd "lvremove" ["-f"; lv_path lv]]. split; [done|]. constructor; [|done]. right. eauto.
  - apply (keeps_bind_ok (runs _)); [apply list_lvs_runs; intros c Hc; by left|]. intros lvs.
    apply (keeps_bind_ok (runs _)); [apply on_matching_runs|]. intros found. apply keeps_ret. apply _.
Qed.

(** ** Two surprises *)

Section surprises.
Context {W : Type} `{Os W}.

Lemma remove_all_trace lvs lv (h : host W) :
  lv ∈ lvs -> is_snapshot lv = true ->
  Cmd "lvremove" ["-f"; lv_path lv] ∈
    trace (h_shell (for_each (fun lv => if is_snapshot lv then run_quietly "lvremove" ["-f"; lv_path lv]
                                        else mret tt) lvs h).2).
Proof.
  intros Hin Hs. apply list_elem_of_split in Hin as (l1 & l2 & ->). rewrite for_each_app. set (h1 := (for_each _ l1 h).2).
  cbn [for_each]. unfold mbind, io_bind. rewrite Hs. unfold run_quietly at 1, ignore, succeeds, exec.
  destruct (spawn _ _) as [r w]. cbn [snd].
  match goal with |- _ ∈ trace (h_shell (for_each ?f l2 ?h2).2) =>
    assert (keeps (runs (W := W) (fun _ => True)) (for_each f l2)) as Hk end.
  { apply (keeps_for_each (runs _)). intros x _ h3. destruct (is_snapshot x); [|reflexivity].
    unfold run_quietly, ignore, succeeds, exec, runs. destruct (spawn _ _). eexists [_]. split; [done|]. by repeat constructor. }
  match goal with |- _ ∈ trace (h_shell (for_each _ l2 ?h2).2) => destruct (Hk h2) as (t & -> & _) end. cbn [h_shell trace].
  set_solver.
Qed.

Lemma words_no_space s : Forall no_space (split_whitespace s).
Proof.
  unfold split_whitespace, String.words.
  assert (forall cur, (forall c, cur = Some c -> no_space c) -> Forall no_space (String.words_go cur s)) as Hw; [|by apply Hw].
  induction s as [|a s IH]; intros cur Hc; cbn [String.words_go].
  - destruct cur as [c|]; [|constructor]. constructor; [|constructor]. intros b. rewrite str_mem_rev. by apply Hc.
  - destruct (Ascii.is_space a) eqn:Ea.
    + destruct cur as [c|]; [|by apply IH]. constructor; [|by apply IH]. intros b. rewrite str_mem_rev. by apply Hc.
    + apply IH. intros c [= <-] b. destruct cur as [c'|]; cbn [from_option str_mem]; rewrite orb_true_iff, bool_decide_eq_true.
      * intros [->|Hb]; [done|by apply (Hc c')].
      * by intros [->|Hb].
Qed.

(** A text with white space in it is no word of any listing. *)
Lemma find_space_none vg gb ls a :
  str_mem a vg = true -> Ascii.is_space a = true -> exists e, find_space vg gb ls = Err e.
Proof.
  intros Ha Hs. induction ls as [|line ls IH]; [by eexists|]. cbn [find_space].
  pose proof (words_no_space line) as Hw. destruct (split_whitespace line) as [|g [|f rest]]; [done..|].
  apply Forall_cons in Hw as [Hg _]. rewrite bool_decide_false; [done|]. intros ->. by rewrite (Hg a Ha) in Hs.
Qed.

Definition no_lvcreate (c : command) : Prop := program c <> "lvcreate".

Lemma lists_no_lvcreate c : lists c -> no_lvcreate c.
Proof. intros [E|E]; unfold no_lvcreate; by rewrite E. Qed.

(** Ends with an error, and without making a snapshot. *)
Definition refused {A} (m : io (host W) (result string A)) : Prop :=
  forall h, (exists e, (m h).1 = Err e) /\ runs no_lvcreate h (m h).2.

Lemma refused_later {A B} (m : io (host W) (result string A)) (f : A -> io (host W) (result string B)) :
  keeps (runs no_lvcreate) m -> (forall a, refused (f a)) -> refused (bind_ok m f).
Proof.
  intros Hm Hf h. unfold bind_ok. specialize (Hm h). destruct (m h) as [[a|e] h1]; [|eauto].
  destruct (Hf a h1) as [He Hr]. split; [done|]. etrans; [exact Hm|exact Hr].
Qed.

Lemma refused_now {A B} (m : io (host W) (result string A)) (f : A -> io (host W) (result string B)) :
  refused m -> refused (bind_ok m f).
Proof.
  intros Hm h. unfold bind_ok. destruct (Hm h) as [[e He] Hr]. destruct (m h) as [r h1]. cbn [fst snd] in *.
  subst r. eauto.
Qed.

Lemma check_free_space_refused vg size a :
  str_mem a vg = true -> Ascii.is_space a = true -> refused (check_free_space vg size).
Proof.
  intros Ha Hs h. split; [|apply check_free_space_runs, lists_no_lvcreate].
  unfold check_free_space, bind_ok. cbn [mret io_ret]. destruct (parse_size_to_gb size) as [r|e]; [|eauto].
  destruct (lvm_listing _ _ h) as [[t|e] h1]; [|eauto]. cbn [mret io_ret fst]. by eapply find_space_none.
Qed.

(** A whole run: an error, or nothing made. *)
Lemma snapshot_all_refused vg tag size lvs a (h : host W) :
  str_mem a vg = true -> Ascii.is_space a = true ->
  match (snapshot_all vg tag size lvs None h).1 with Ok (Some _) => False | _ => True end
  /\ runs no_lvcreate h (snapshot_all vg tag size lvs None h).2.
Proof.
  intros Ha Hs. induction lvs as [|lv lvs IH]; [split; [done|reflexivity]|]. cbn [snapshot_all].
  destruct (skipped lv); [exact IH|].
  assert (refused (let? made := snapshot_one vg tag size lv in
    snapshot_all vg tag size lvs (match made with Some z => Some z | None => None end))) as Hr.
  { apply refused_now, refused_later; [by apply keeps_with_err, listing_runs|intros text].
    apply refused_later; [apply keeps_ret; apply _|intros gb]. apply refused_now. by eapply check_free_space_refused. }
  destruct (Hr h) as [[e He] H2]. split; [by rewrite He|exact H2].
Qed.
End surprises.

(** only the name tells a snapshot: cleaning up removes every volume that has
    [_snap] anywhere in its name, also one that is no snapshot of anything. *)
Theorem named_like_snapshot_removed {W} `{Os W} (h h1 : host W) lvs lv :
  list_lvs h = (Ok lvs, h1) -> lv ∈ lvs -> contains "_snap" (lv_name lv) = true -> lv_origin lv = None ->
  Cmd "lvremove" ["-f"; lv_path lv] ∈ trace (h_shell (clean_all_snapshots h).2).
Proof.
  intros El Hin Hs _. unfold clean_all_snapshots, bind_ok. rewrite El. unfold mbind, io_bind.
  pose proof (remove_all_trace lvs lv h1 Hin Hs) as Ht. by destruct (for_each _ lvs h1) as [[] h2].
Qed.

(** on a host with more than one volume group no snapshot can be made: the
    names of all groups are taken for one name, which no group has. *)
Theorem several_groups_refused {W} `{Os W} tag size (h h1 : host W) vg a :
  get_vg_name h = (Ok vg, h1) -> str_mem a vg = true -> Ascii.is_space a = true ->
  exists e, (create_snapshot tag size h).1 = Err e /\ runs no_lvcreate h1 (create_snapshot tag size h).2.
Proof.
  intros Eg Ha Hs. assert (refused (let? lvs := list_lvs in let? created := snapshot_all vg tag size lvs None in
    mret (ok_or "未找到可用于快照的根卷 (排除 swap 与 _snap_)" created))) as Hr.
  { apply refused_later; [apply list_lvs_runs, lists_no_lvcreate|]. intros lvs h2. unfold bind_ok.
    destruct (snapshot_all_refused vg tag size lvs a h2 Ha Hs) as [Hn H2].
    destruct (snapshot_all vg tag size lvs None h2) as [[[z|]|e] h3]; [done|..]; cbn [mret io_ret fst snd ok_or]; eauto. }
  destruct (Hr h1) as [[e He] H2]. exists e.
  assert (create_snapshot tag size h = (let? lvs := list_lvs in let? created := snapshot_all vg tag size lvs None in
    mret (ok_or "未找到可用于快照的根卷 (排除 swap 与 _snap_)" created)) h1) as ->; [|done].
  unfold create_snapshot. unfold bind_ok at 1. by rewrite Eg.
Qed.

(** ** Instances *)

Module SnapDemo.

(** The volumes and groups as the tools print them. *)
Record volumes := Volumes { v_groups : string; v_free : string; v_lvs : string; v_size : string }.

#[local] Instance demo_os : Os volumes := {|
  spawn c w :=
    (reply (as_bytes (if bool_decide (program c = "vgs") then
                        (if bool_decide (nth 2 (args c) "" = "vg_name") then v_groups w else v_free w)
                      else if bool_decide (program c = "lvs") then
                        (if bool_decide (nth 2 (args c) "" = "lv_size") then v_size w else v_lvs w)
                      else "")), w)
|}.

Definition one : host volumes :=
  Host (Shell (Volumes "  ubuntu-vg" "  ubuntu-vg <36.12g"
                 (unlines ["  root ubuntu-vg"; "  swap_1 ubuntu-vg"; "  db_snapshots ubuntu-vg"]) "  <97.00g") []) [].

Example snapshot_made :
  (create_snapshot "t1" "" one).1 = Ok "10G"
  /\ last (trace (h_shell (create_snapshot "t1" "" one).2))
     = Some (Cmd "lvcreate" ["-L"; "10G"; "-s"; "/dev/ubuntu-vg/root"; "-n"; "root_snap_t1"]).
Proof. vm_compute. done. Qed.

Lemma sizes_read_exactly_witness :
  parse_size_to_gb "<4096g" = Ok 4096 /\ parse_size_to_gb "<4096G" = Ok 4096 /\ parse_size_to_gb "<4096t" = Ok 4194304.
Proof.
  apply (sizes_read_exactly "<" 4096); [|lia]. intros a. simpl. rewrite orb_false_r. intros E%bool_decide_eq_true.
  subst a. split_and!; [reflexivity|discriminate|reflexivity].
Defined.

Lemma named_like_snapshot_removed_witness :
  Cmd "lvremove" ["-f"; "/dev/ubuntu-vg/db_snapshots"] ∈ trace (h_shell (clean_all_snapshots one).2).
Proof.
  eapply (named_like_snapshot_removed one _ _ (Lv "db_snapshots" "ubuntu-vg" None)).
  - vm_compute. reflexivity.
  - right. right. left.
  - reflexivity.
  - reflexivity.
Defined.

Definition two : host volumes :=
  Host (Shell (Volumes (unlines ["  data"; "  sys"]) (unlines ["  data 90.00g"; "  sys 10.00g"]) "  root sys" "20.00g") []) [].

Lemma several_groups_refused_witness :
  exists e, (create_snapshot "t1" "1G" two).1 = Err e.
Proof.
  destruct (several_groups_refused "t1" "1G" two (get_vg_name two).2 ("data" +:+ String line_feed "  sys") line_feed)
    as (e & He & _).
  - vm_compute. reflexivity.
  - reflexivity.
  - reflexivity.
  - by exists e.
Defined.

End SnapDemo.
