(* ===== verification/HostInfo.v ===== *)
(** * Facts about the host

    [crates/hostinfo/src] ([system_info], [ip_mac], [agent_uid]): the texts the
    agent registers with, read from files and from the output of commands, and
    the identity it keeps in a file of its own.  [host_facts] is what
    [acquire_host_info] of [config] is given. *)

From Stdlib Require Import Ascii.
From S2P Require Import Prelude RustStr Bytes Float Shell Host NetInfo.

(** ** Texts *)

Definition double_quote : ascii := "034"%char.

(** The value of a line [KEY="value"]. *)
Definition release_value (key line : string) : option string :=
  if starts_with key line then Some (trim_char double_quote (trim_start_matches key line)) else None.

(** [/etc/os-release]: the first line with either key. *)
Fixpoint os_release_name (ls : list string) : option string :=
  match ls with
  | [] => None
  | line :: ls =>
    match release_value "PRETTY_NAME=" line with
    | Some v => Some v
    | None => match release_value "NAME=" line with Some v => Some v | None => os_release_name ls end
    end
  end.

(** [/etc/lsb-release]: the last description, else the last distributor. *)
Definition lsb_name (ls : list string) : option string :=
  match last (omap (release_value "DISTRIB_DESCRIPTION=") ls) with
  | Some d => Some d
  | None => last (omap (release_value "DISTRIB_ID=") ls)
  end.

(** The first of several ways that gives an answer. *)
Fixpoint first_some {S A} (ways : list (io S (option A))) : io S (option A) :=
  match ways with
  | [] => mret None
  | m :: ways => r ← m; match r with Some a => mret (Some a) | None => first_some ways end
  end.

Fixpoint str_take (n : nat) (s : string) : option string :=
  match n, s with
  | O, _ => Some ""
  | S n, String a s => String a <$> str_take n s
  | S _, EmptyString => None
  end.
Fixpoint str_drop (n : nat) (s : string) : string :=
  match n, s with
  | O, _ => s
  | S n, String _ s => str_drop n s
  | S _, EmptyString => ""
  end.

(** [s.get(..n)]: no panic, but nothing inside a character either. *)
Definition str_get (n : nat) (s : string) : option string :=
  match str_drop n s with
  | String a _ => if utf8_cont (ascii_code a) then None else str_take n s
  | EmptyString => str_take n s
  end.

Definition extract_mac (s : string) : option string := str_get 17 s.

Fixpoint mac_of (ls : list string) : option string :=
  match ls with
  | [] => None
  | line :: ls =>
    match find_after "ether " line with
    | Some r => extract_mac r
    | None => match find_after "HWaddr " line with Some r => extract_mac r | None => mac_of ls end
    end
  end.

(** The address of an [inet] line that is not the loopback's. *)
Definition inet_line (line : string) : option string :=
  let trimmed := trim line in
  if starts_with "inet " trimmed then
    match split_whitespace trimmed with
    | _ :: ip_with_prefix :: _ =>
      if starts_with "127." ip_with_prefix then None
      else match split_once "/" ip_with_prefix with
           | Some (ip, _) => if str_is_empty ip then None else Some ip
           | None => None
           end
    | _ => None
    end
  else None.

Definition ips_of (text : string) : option string :=
  match omap inet_line (lines text) with [] => None | ips => Some (join "," ips) end.

(** ** Sizes *)

Definition is_disk (name : string) : bool :=
  starts_with "sd" name || starts_with "nvme" name || starts_with "vda" name.

(** Gigabytes of 512-byte sectors, in [u64]. *)
Definition sectors_gb (sectors : Z) : Z := wrap 64 (sectors * 512) / 1024 / 1024 / 1024.

Definition add_disk (total : Z) (size : result string string) : Z :=
  match ok size ≫= fun s => parse_uint 64 (trim s) with
  | Some sectors => wrapping_add 64 total (sectors_gb sectors)
  | None => total
  end.

(** ** The machine *)

Section facts.
Context {W : Type} `{Os W} `{Disk W}.
(** [{:.1}] of an [f64]; the bytes of a file; a fresh identifier; MD5 in hex. *)
Context (fixed_1 : f64 -> string) (read_bytes : string -> W -> result string (list Z)).
Context (new_v4 : W -> string) (md5_hex : list Z -> string).

Abbreviation st := (host W).

Definition read_opt (path : string) (f : string -> option string) : io st (option string) :=
  look (fun w => ok (read_text path w) ≫= f).

Definition get_computer_name : io st (option string) :=
  read_opt "/proc/sys/kernel/hostname" (fun s => Some (trim s)).
Definition get_kernel_version : io st (option string) :=
  read_opt "/proc/sys/kernel/osrelease" (fun s => Some (trim s)).

Definition get_os_version : io st (option string) :=
  first_some [
    read_opt "/etc/os-release" (fun s => os_release_name (lines s));
    read_opt "/etc/redhat-release" (fun s => Some (trim s));
    read_opt "/etc/centos-release" (fun s => Some (trim s));
    read_opt "/etc/lsb-release" (fun s => lsb_name (lines s));
    read_opt "/etc/debian_version" (fun s => Some ("Debian " +:+ trim s));
    (r ← output_of "lsb_release" ["-d"];
     mret (ok r ≫= fun o => trim <$> strip_prefix ("Description:" +:+ String "009" "") (from_utf8_lossy (stdout o))));
    (r ← output_of "uname" ["-s"];
     mret (ok r ≫= fun o => let os := trim (from_utf8_lossy (stdout o)) in
                            if str_is_empty os then None else Some os))
  ].

(** [replace(' ', "")]. *)
Fixpoint without_spaces (s : string) : string :=
  match s with
  | EmptyString => ""
  | String a s => if bool_decide (a = " "%char) then without_spaces s else String a (without_spaces s)
  end.

Definition get_computer_version : io st string :=
  os_version ← get_os_version;
  kernel_version ← get_kernel_version;
  mret (without_spaces (default "Unknown" os_version) +:+ "_kernel:" +:+ default "Unknown" kernel_version).

Definition get_disk_size : io st (option string) :=
  look (fun w =>
    names ← ok (read_dir "/sys/block" w);
    Some (dec (foldl add_disk 0 ((fun n => read_text ("/sys/block/" +:+ n +:+ "/size") w) <$> retain is_disk names))
          +:+ " GB")).

Fixpoint mem_total (ls : list string) : option f64 :=
  match ls with
  | [] => None
  | line :: ls =>
    if starts_with "MemTotal:" line then
      match (split_whitespace line !! 1%nat) ≫= parse_f64 with
      | Some kb => Some kb
      | None => mem_total ls
      end
    else mem_total ls
  end.

Definition get_memory_size : io st (option string) :=
  read_opt "/proc/meminfo" (fun s =>
    kb ← mem_total (lines s);
    Some (fixed_1 (f64_div (f64_div kb (f64_of_Z 1024)) (f64_of_Z 1024)) +:+ "G")).

Definition get_cpu_cores : io st (option string) :=
  r ← output_of "nproc" []; mret ((fun o => trim (from_utf8_lossy (stdout o))) <$> ok r).

Definition get_ip : io st (option string) :=
  r ← output_of "ip" ["addr"; "show"];
  mret (ok r ≫= fun o => if success o then ips_of (from_utf8_lossy (stdout o)) else None).

Definition get_mac : io st (option string) :=
  r ← output_of "ifconfig" [];
  mret (ok r ≫= fun o => mac_of (lines (from_utf8_lossy (stdout o)))).

(** ** The identity *)

(** A missing file is made with a fresh identifier and a line feed, in two
    writes; the identity is the digest of the file. *)
Definition ensure_and_get_mgs_guid (file_path : string) : io st (result string string) :=
  there ← look (path_exists file_path);
  let? _ := if (there : bool) then mret (Ok tt)
            else
              id ← look new_v4;
              let? _ := do_disk (WriteBytes file_path (as_bytes id)) in
              do_disk (WriteBytes file_path (as_bytes id ++ [10])) in
  let? contents := look (read_bytes file_path) in
  mret (Ok (md5_hex contents)).

(** What [acquire_host_info] asks for, in its order. *)
Definition gather_facts (c : NetInfoConfig) : io st host_facts :=
  let when_empty (old : string) (m : io st (option string)) : io st (option string) :=
    if str_is_empty old then m else mret None in
  guid ← ensure_and_get_mgs_guid "/etc/.vedasystem";
  mac ← when_empty (macid c) get_mac;
  name ← when_empty (host_name c) get_computer_name;
  version ← when_empty (os c) (v ← get_computer_version; mret (Some v));
  cores ← when_empty (cpu c) get_cpu_cores;
  mem ← when_empty (memsize c) get_memory_size;
  hd ← when_empty (hdsize c) get_disk_size;
  ip ← when_empty (ips c) get_ip;
  mret (Facts (ok guid) mac name version cores mem hd ip).

Definition acquire (c : NetInfoConfig) : io st NetInfoConfig :=
  f ← gather_facts c; mret (acquire_host_info f c).
End facts.

(** ** The identity stays *)

(** the identity of a host does not change: once a call has answered, every
    later call gives the same answer and changes nothing, given that a file reads
    as it was written.  (A first call that fails between its two writes leaves
    a file that later calls take as it is.) *)
Theorem identity_kept {W} `{Os W, Disk W} read_bytes new_v4 md5_hex path (h h1 : host W) u :
  (forall p b w w', disk (WriteBytes p b) w = (Ok tt, w') ->
     path_exists p w' = true /\ read_bytes p w' = Ok b) ->
  ensure_and_get_mgs_guid read_bytes new_v4 md5_hex path h = (Ok u, h1) ->
  ensure_and_get_mgs_guid read_bytes new_v4 md5_hex path h1 = (Ok u, h1).
Proof.
  intros Hdisk E.
  assert (path_exists path (world (h_shell h1)) = true /\ exists b, read_bytes path (world (h_shell h1)) = Ok b /\ md5_hex b = u)
    as (Hp & b & Hb & <-).
  { unfold ensure_and_get_mgs_guid in E. rewrite look_bind in E.
    destruct (path_exists path (world (h_shell h))) eqn:Ep.
    - unfold bind_ok in E. cbn [mret io_ret look] in E. destruct (read_bytes path _) as [b|e] eqn:Eb; [|done].
      injection E as <- <-. eauto.
    - unfold bind_ok at 1 in E. rewrite look_bind in E. unfold bind_ok, do_disk, on_world in E.
      destruct (disk _ (world (h_shell h))) as [[[]|e] w1]; [|done]. cbn [h_shell world] in E.
      destruct (disk _ w1) as [[[]|e] w2] eqn:D2; [|done]. destruct (Hdisk _ _ _ _ D2) as [Hp Hb].
      cbn [look h_shell world] in E. rewrite Hb in E. injection E as <- <-. cbn [h_shell world]. eauto. }
  unfold ensure_and_get_mgs_guid. rewrite look_bind, Hp. unfold bind_ok. cbn [mret io_ret look]. by rewrite Hb.
Qed.

(** ** Disks *)

Lemma sectors_gb_small s : 0 <= s < 2 ^ 55 -> sectors_gb s = s / 2097152.
Proof.
  intros Hs. unfold sectors_gb. rewrite wrap_id.
  - rewrite !Z.div_div by lia. rewrite (Z.mul_comm s).
    match goal with |- _ / ?d = _ => change d with (512 * 2097152) end. by rewrite Z.div_mul_cancel_l by lia.
  - unfold is_uint. change (2 ^ 55) with 36028797018963968 in Hs. change (2 ^ 64) with 18446744073709551616. lia.
Qed.

Definition sum (l : list Z) : Z := foldr Z.add 0 l.

Lemma add_disks l total :
  Forall (fun s => 0 <= s < 2 ^ 55) l -> 0 <= total -> total + 2 ^ 34 * Z.of_nat (length l) < 2 ^ 64 ->
  foldl add_disk total ((fun s => Ok (dec s)) <$> l) = total + sum ((fun s => s / 2097152) <$> l).
Proof.
  intros Hl. revert total. induction Hl as [|s l Hs Hl IH]; intros total H0 Hb; [simpl; lia|].
  rewrite fmap_cons. cbn [foldl]. assert (add_disk total (Ok (dec s)) = total + s / 2097152) as ->.
  { unfold add_disk. cbn [ok mbind option_bind]. rewrite trim_id by apply no_space_dec. rewrite parse_uint_dec.
    - rewrite sectors_gb_small by done. unfold wrapping_add. apply wrap_id. unfold is_uint.
      assert (0 <= s / 2097152 < 2 ^ 34); [|cbn [length] in Hb; lia].
      split; [apply Z.div_pos; lia|apply Z.div_lt_upper_bound; [lia|]]. change (2097152 * 2 ^ 34) with (2 ^ 55). lia.
    - unfold is_uint. change (2 ^ 55) with 36028797018963968 in Hs. change (2 ^ 64) with 18446744073709551616. lia. }
  assert (0 <= s / 2097152 < 2 ^ 34).
  { split; [apply Z.div_pos; lia|apply Z.div_lt_upper_bound; [lia|]]. change (2097152 * 2 ^ 34) with (2 ^ 55). lia. }
  rewrite IH by (cbn [length] in Hb; lia). rewrite fmap_cons.
  match goal with |- _ = total + sum (?a :: ?m) => change (sum (a :: m)) with (a + sum m) end. lia.
Qed.

(** the total of the disks is too small by less than one gigabyte per disk,
    as each disk is rounded down by itself, and never too large, while every disk
    has less than 2^55 sectors; a disk of 2^55 sectors counts as none. *)
Theorem disk_total_bounds (l : list Z) :
  Forall (fun s => 0 <= s < 2 ^ 55) l -> Z.of_nat (length l) < 2 ^ 29 ->
  let total := foldl add_disk 0 ((fun s => Ok (dec s)) <$> l) in
  2097152 * total <= sum l /\ sum l <= 2097152 * total + 2097151 * Z.of_nat (length l)
  /\ sectors_gb (2 ^ 55) = 0.
Proof.
  intros Hl Hn total. assert (total = sum ((fun s => s / 2097152) <$> l)) as ->.
  { unfold total. rewrite add_disks; [lia|done|lia|]. change (2 ^ 29) with 536870912 in Hn.
    change (2 ^ 34) with 17179869184. change (2 ^ 64) with 18446744073709551616. lia. }
  assert (forall l, 2097152 * sum ((fun s => s / 2097152) <$> l) <= sum l
    /\ sum l <= 2097152 * sum ((fun s => s / 2097152) <$> l) + 2097151 * Z.of_nat (length l)) as Hsum.
  { clear. induction l as [|s l IH]; [done|]. rewrite fmap_cons. cbn [sum foldr length]. fold (sum l).
    fold (sum ((fun s => s / 2097152) <$> l)). pose proof (Z.div_mod s 2097152 ltac:(lia)).
    pose proof (Z.mod_pos_bound s 2097152 ltac:(lia)). lia. }
  destruct (Hsum l) as [H1 H2]. split; [exact H1|]. split; [exact H2|]. by vm_compute.
Qed.

(** ** Instances *)

Module HostDemo.

(** Files by path, as bytes. *)
Definition files : Type := list (string * list Z).

Definition file (p : string) (w : files) : option (list Z) := snd <$> List.find (fun f => bool_decide (f.1 = p)) w.

#[local] Instance demo_os : Os files := {|
  spawn c w :=
    (if bool_decide (program c = "ip") then
       reply (as_bytes (unlines ["2: eth0: <UP>"; "    inet 127.0.0.1/8 scope host lo"; "    inet 10.0.0.7/24 brd 10.0.0.255 scope global eth0";
                                 "    inet6 fe80::1/64 scope link"; "    inet 10.0.1.7/24 scope global eth1"]))
     else if bool_decide (program c = "ifconfig") then
       reply (as_bytes (unlines ["eth0: flags"; "        ether 00:16:3e:00:00:01  txqueuelen 1000"]))
     else Err "no such program", w)
|}.
#[local] Instance demo_disk : Disk files := {|
  disk o w := match o with
              | WriteBytes p b => (Ok tt, (p, b) :: w)
              | _ => (Err "refused", w)
              end;
  path_exists p w := bool_decide (is_Some (file p w));
  read_dir _ _ := Ok ["loop0"; "sda"; "vdb"];
  unzip _ _ w := (Err "no archive", w);
  read_text p w := ok_or "not found" (file p w ≫= from_utf8)
|}.

Definition bytes_of (p : string) (w : files) : result string (list Z) := ok_or "not found" (file p w).

Definition centos : host files :=
  Host (Shell [("/etc/redhat-release", as_bytes ("CentOS release 6.5 (Final)" +:+ String line_feed ""));
               ("/proc/sys/kernel/osrelease", as_bytes ("2.6.32" +:+ String line_feed ""));
               ("/sys/block/sda/size", as_bytes ("41943039" +:+ String line_feed ""))] []) [].

Example texts_read :
  (get_computer_version centos).1 = "CentOSrelease6.5(Final)_kernel:2.6.32"
  /\ (get_ip centos).1 = Some "10.0.0.7,10.0.1.7" /\ (get_mac centos).1 = Some "00:16:3e:00:00:01"
  /\ (get_disk_size centos).1 = Some "19 GB".
Proof. vm_compute. done. Qed.

(** A digest for examples: the text, with an underscore for the line feed. *)
Definition show (b : list Z) : string := "d" +:+ string_of_bytes ((fun c => if c =? 10 then 95 else c) <$> b).

Definition guid : io (host files) (result string string) :=
  ensure_and_get_mgs_guid bytes_of (fun _ => "4f2c") show "/etc/.vedasystem".

Lemma identity_kept_witness :
  (guid centos).1 = Ok "d4f2c_" /\ (guid (guid centos).2) = (Ok "d4f2c_", (guid centos).2).
Proof.
  split; [vm_compute; reflexivity|].
  apply (identity_kept bytes_of (fun _ => "4f2c") show "/etc/.vedasystem" centos).
  - intros p b w w' [= <-]. unfold bytes_of. simpl. unfold file. simpl.
    by rewrite !(bool_decide_eq_true_2 (p = p)).
  - vm_compute. reflexivity.
Defined.

(** Two disks of one gigabyte less a sector each. *)
Lemma disk_total_bounds_witness :
  2097152 * foldl add_disk 0 ((fun s => Ok (dec s)) <$> [2097151; 2097151]) <= sum [2097151; 2097151].
Proof. apply (disk_total_bounds [2097151; 2097151]); [repeat constructor; lia|simpl; lia]. Defined.

Example disks_lost : foldl add_disk 0 ((fun s => Ok (dec s)) <$> [2097151; 2097151]) = 0.
Proof. vm_compute. reflexivity. Qed.

End HostDemo.
