(* ===== verification/Metrics.v ===== *)
(** * System metrics

    [crates/system_metrics/src/lib.rs]: the figures about processor, memory,
    disks and processes the agent uploads with its heart-beat.  The texts of
    [/proc] are arguments, and so is what the library [sysinfo] finds, with the
    processes in the order its table yields them.  Only the last processor
    counters are kept between two calls. *)

From Stdlib Require Import SpecFloat Sorted Ascii.
From S2P Require Import Prelude RustStr Float.

(** ** Processor counters *)

Record CpuUseState := CpuUse {
  user : Z; nice : Z; system : Z; idle : Z; iowait : Z;
  irq : Z; softirq : Z; steal : Z; guest : Z; guest_nice : Z
}.

Record CpuState := Cpu { cpu_last : CpuUseState; initialized : bool }.

Definition CPU_STATE : CpuState := Cpu (CpuUse 0 0 0 0 0 0 0 0 0 0) false.

(** [parts.next().and_then(|s| s.parse().ok())] for the field at a place. *)
Definition counter (parts : list string) (i : nat) : option Z := parts !! i ≫= parse_uint 64.

(** From the first line of [/proc/stat], if it can be read. *)
Definition get_cpu_use_state (line : result string string) : result string CpuUseState :=
  line ← line;
  let parts := tail (split_whitespace line) in
  let field i := default 0 (counter parts i) in
  user ← ok_or "Failed to parse user" (counter parts 0);
  Ok (CpuUse user (field 1%nat) (field 2%nat) (field 3%nat) (field 4%nat) (field 5%nat)
        (field 6%nat) (field 7%nat) (field 8%nat) (field 9%nat)).

(** The time the four counted states add up to, in 64 bits. *)
Definition counted (s : CpuUseState) : Z := wrap 64 (user s + nice s + system s + idle s).

Definition calc_cpu_use_state (o n : CpuUseState) : f32 :=
  let id := saturating_sub (user n) (user o) in
  let sd := saturating_sub (system n) (system o) in
  if counted n =? counted o then f32_of_Z 0
  else f32_div (f32_mul (f32_of_Z (wrapping_add 64 id sd)) (f32_of_Z 100))
         (f32_of_Z (wrapping_sub 64 (counted n) (counted o))).

(** ** Memory *)

(** Total, free, buffers and cache, as far as they have been seen. *)
Record MemSeen := Mem { total_kb : option Z; mem_free : option Z; mem_buffer : option Z; mem_cache : option Z }.

(** One line; [None] where the source returns early for want of a number. *)
Definition meminfo_line (m : MemSeen) (line : string) : option MemSeen :=
  let number := split_whitespace line !! 1%nat in
  if starts_with "MemTotal:" line then
    s ← number; Some (Mem (parse_uint 64 s) (mem_free m) (mem_buffer m) (mem_cache m))
  else if starts_with "MemFree:" line then
    s ← number; Some (Mem (total_kb m) (parse_uint 64 s) (mem_buffer m) (mem_cache m))
  else if starts_with "Buffers:" line then
    s ← number; Some (Mem (total_kb m) (mem_free m) (parse_uint 64 s) (mem_cache m))
  else if starts_with "Cached:" line then
    s ← number; Some (Mem (total_kb m) (mem_free m) (mem_buffer m) (parse_uint 64 s))
  else Some m.

Definition all_seen (m : MemSeen) : bool :=
  bool_decide (is_Some (total_kb m)) && bool_decide (is_Some (mem_free m))
  && bool_decide (is_Some (mem_buffer m)) && bool_decide (is_Some (mem_cache m)).

Fixpoint meminfo_lines (m : MemSeen) (lines : list string) : option MemSeen :=
  match lines with
  | [] => Some m
  | line :: lines => m ← meminfo_line m line; if all_seen m then Some m else meminfo_lines m lines
  end.

(** Total and used kilobytes, from the lines of [/proc/meminfo] that are text. *)
Definition get_memory_from_proc_meminfo (meminfo : option (list string)) : option (Z * Z) :=
  lines ← meminfo;
  m ← meminfo_lines (Mem None None None None) lines;
  total ← total_kb m; free ← mem_free m; buffer ← mem_buffer m; cache ← mem_cache m;
  Some (total, saturating_sub (saturating_sub (saturating_sub total free) buffer) cache).

Definition bytes_to_kb (bytes : Z) : Z := wrapping_add 64 bytes 1023 / 1024.

(** ** Processes *)

(** A process as [sysinfo] describes it. *)
Record process := Proc { p_pid : Z; p_exe : string; p_cpu : f32; p_memory : Z; p_uid : option Z }.

(** [slice::sort_by], which is stable. *)
Section sort.
Context {A : Type} (cmp : A -> A -> comparison).

Fixpoint sorted_insert (x : A) (l : list A) : list A :=
  match l with
  | [] => [x]
  | y :: l' => match cmp x y with Gt => y :: sorted_insert x l' | _ => x :: l end
  end.

Definition sort_by (l : list A) : list A := foldr sorted_insert [] l.
End sort.

Definition by_cpu (a b : process) : comparison := f32_cmp (p_cpu b) (p_cpu a).
Definition by_memory (a b : process) : comparison := p_memory b ?= p_memory a.

Record ProcessInfo := ProcessRow {
  r_id : string; r_dir : string; r_hash : string; r_cpu_usage : string; r_mem_size : string; r_user : string
}.
Record SelfInfo := Self { self_mem_size : string; self_cpu_usage : string }.
Record SystemInfo := Info {
  hd_size : string; hd_usage : string; cpu_number : string; cpu_usage : string; cpu_tops : list ProcessInfo;
  mem_size : string; mem_usage : string; mem_tops : list ProcessInfo; self_info : SelfInfo
}.

(** What is found at the time of a call: the two texts, and the tables of
    [sysinfo]. *)
Record sample := Sample {
  stat_line : result string string;
  meminfo : option (list string);
  users : list (Z * string);
  cpus : list string;
  total_memory : Z;
  used_memory : Z;
  (** Total and available space of each disk. *)
  disks : list (Z * Z);
  processes : list process;
  self_pid : Z
}.

Section metrics.
(** Printing an [f32], the digest of a file's contents, the files. *)
Context (show : f32 -> string) (md5_hex : list Z -> string).
Context (file_exists : string -> bool) (read_file : string -> option (list Z)).

Definition compute_process_md5 (file_path : string) : string :=
  if str_is_empty file_path || negb (file_exists file_path) then ""
  else match read_file file_path with Some contents => md5_hex contents | None => "" end.

Definition user_map (s : sample) : gmap Z string :=
  foldl (fun m '(uid, name) => <[uid := name]> m) ∅ (users s).

Definition process_row (s : sample) (p : process) : ProcessInfo :=
  ProcessRow (dec (p_pid p)) (p_exe p) (compute_process_md5 (p_exe p)) (show (p_cpu p))
    (dec (p_memory p) +:+ "KB") (default "unknown" (uid ← p_uid p; user_map s !! uid)).

(** [(used as f32 / total as f32) * 100.0], or zero. *)
Definition percentage (used total : Z) : string :=
  if 0 <? total then show (f32_mul (f32_div (f32_of_Z used) (f32_of_Z total)) (f32_of_Z 100)) else "0".

(** The space of all disks and what is used of it. *)
Definition disk_space (disks : list (Z * Z)) : Z * Z :=
  foldl (fun '(total, used) '(t, a) =>
           (wrapping_add 64 total t, wrapping_add 64 used (wrapping_sub 64 t a))) (0, 0) disks.

Definition cpu_sample (now : CpuUseState) (c : CpuState) : f32 * CpuState :=
  (if initialized c then calc_cpu_use_state (cpu_last c) now else f32_of_Z 0, Cpu now true).

Definition get_system_metrics (s : sample) : io CpuState (option SystemInfo) := fun c =>
  match get_cpu_use_state (stat_line s) with
  | Err _ => (None, c)
  | Ok now =>
    let '(usage, c) := cpu_sample now c in
    let '(total, used) := default (bytes_to_kb (total_memory s), bytes_to_kb (used_memory s))
                            (get_memory_from_proc_meminfo (meminfo s)) in
    let '(disk_total, disk_used) := disk_space (disks s) in
    let by_use := sort_by by_cpu (processes s) in
    let by_size := sort_by by_memory by_use in
    let self := match list_find (fun p => p_pid p = self_pid s) (processes s) with
                | Some (_, p) => Self (dec (p_memory p) +:+ "KB") (show (p_cpu p))
                | None => Self "0KB" "0"
                end in
    (Some (Info (dec (disk_total / 1048576) +:+ "MB") (percentage disk_used disk_total)
             (dec (Z.of_nat (length (cpus s)))) (show usage)
             (process_row s <$> take 5 by_use)
             (dec total +:+ "KB") (percentage used total)
             (process_row s <$> take 5 by_size) self), c)
  end.
End metrics.

(** ** Sorting is stable

    Sorting by [cmp] a list that is in the order [R] orders by [cmp] first and
    by [R] second. *)

Definition lexicographic {A} (cmp : A -> A -> comparison) (R : A -> A -> Prop) (x y : A) : Prop :=
  cmp x y = Lt \/ cmp x y = Eq /\ R x y.

Section stable.
Context {A : Type} (cmp : A -> A -> comparison) (ok : A -> Prop) (R : A -> A -> Prop).
Context (cmp_flip : forall x y, ok x -> ok y -> cmp x y = CompOpp (cmp y x)).
Context (cmp_trans : forall x y z, ok x -> ok y -> ok z -> cmp x y <> Gt -> cmp y z <> Gt -> cmp x z <> Gt).

Lemma sorted_insert_perm x l : sorted_insert cmp x l ≡ₚ x :: l.
Proof.
  induction l as [|y l IH]; [done|]. simpl. destruct (cmp x y); [done..|]. rewrite IH. apply Permutation_swap.
Qed.

Lemma sort_by_perm l : sort_by cmp l ≡ₚ l.
Proof. induction l as [|x l IH]; [done|]. simpl. by rewrite sorted_insert_perm, IH. Qed.

(** What comes after [y] comes after everything that comes before [y]. *)
Lemma lexicographic_before x y z :
  ok x -> ok y -> ok z -> cmp x y <> Gt -> lexicographic cmp R y z -> R x z -> lexicographic cmp R x z.
Proof.
  intros Hx Hy Hz Hxy Hyz HR. unfold lexicographic in *.
  assert (cmp x z <> Gt) as Hxz by (apply (cmp_trans x y z); naive_solver congruence).
  destruct (cmp x z) eqn:E; [by right|by left|done].
Qed.

Lemma lexicographic_after x y : ok x -> ok y -> cmp x y = Gt -> lexicographic cmp R y x.
Proof. intros Hx Hy E. left. rewrite cmp_flip by done. by rewrite E. Qed.

Lemma sorted_insert_sorted x l :
  ok x -> Forall ok l -> Forall (R x) l -> StronglySorted (lexicographic cmp R) l ->
  StronglySorted (lexicographic cmp R) (sorted_insert cmp x l).
Proof.
  intros Hx Hok HR Hl. induction Hl as [|y l Hl IH Hy]; [repeat constructor|].
  apply Forall_cons in Hok as [Hoy Hok]. apply Forall_cons in HR as [HRy HR]. simpl.
  assert (cmp x y <> Gt -> StronglySorted (lexicographic cmp R) (x :: y :: l)) as Hfront.
  { intros Hle. constructor; [by constructor|]. constructor.
    - unfold lexicographic. destruct (cmp x y); [by right|by left|done].
    - rewrite Forall_forall in *. intros z Hz. apply (lexicographic_before x y z); auto. }
  destruct (cmp x y) eqn:E; [by apply Hfront..|]. constructor; [by apply IH|].
  rewrite sorted_insert_perm. constructor; [|done]. by apply lexicographic_after.
Qed.

Lemma sort_by_sorted l :
  Forall ok l -> StronglySorted R l -> StronglySorted (lexicographic cmp R) (sort_by cmp l).
Proof.
  intros Hok Hl. induction Hl as [|x l Hl IH Hx]; [constructor|]. apply Forall_cons in Hok as [Hox Hok].
  apply sorted_insert_sorted; [done|by rewrite sort_by_perm..|by apply IH].
Qed.
End stable.

Lemma StronglySorted_weaken {A} (R R' : A -> A -> Prop) l :
  (forall x y, R x y -> R' x y) -> StronglySorted R l -> StronglySorted R' l.
Proof.
  intros HR. induction 1 as [|x l Hl IH Hx]; constructor; [done|]. eapply Forall_impl; [exact Hx|auto].
Qed.

Lemma StronglySorted_total {A} (l : list A) : StronglySorted (fun _ _ => True) l.
Proof. induction l; constructor; [done|]. by apply Forall_true. Qed.

(** *** The two orders *)

(** [a] uses the processor at least as much as [b]. *)
Definition cpu_ge (a b : process) : Prop := f32_cmp (p_cpu b) (p_cpu a) <> Gt.

(** [a] uses more memory than [b], or as much and the processor at least as much. *)
Definition memory_ge (a b : process) : Prop :=
  p_memory b < p_memory a \/ p_memory b = p_memory a /\ cpu_ge a b.

Lemma sort_by_cpu l :
  Forall (fun p => not_nan (p_cpu p)) l -> StronglySorted cpu_ge (sort_by by_cpu l).
Proof.
  intros Hl. apply (StronglySorted_weaken (lexicographic by_cpu (fun _ _ => True))).
  { intros x y. unfold lexicographic, cpu_ge, by_cpu. naive_solver congruence. }
  apply (sort_by_sorted _ (fun p => not_nan (p_cpu p))); [..|done|apply StronglySorted_total]; unfold by_cpu.
  - intros x y Hx Hy. rewrite !f32_cmp_key by done. apply key_cmp_flip.
  - intros x y z Hx Hy Hz. rewrite !f32_cmp_key by done. intros H1 H2. by apply (key_cmp_trans _ (sort_key (p_cpu y))).
Qed.

Lemma sort_by_memory l : StronglySorted cpu_ge l -> StronglySorted memory_ge (sort_by by_memory l).
Proof.
  intros Hl. apply (StronglySorted_weaken (lexicographic by_memory cpu_ge)).
  { intros x y [H|[H HR]]; unfold by_memory in H; [left; by apply Z.compare_lt_iff in H|right]. by apply Z.compare_eq in H. }
  apply (sort_by_sorted _ (fun _ => True)); [..|by apply Forall_true|done]; unfold by_memory.
  - intros x y _ _. apply Z.compare_antisym.
  - intros x y z _ _ _ Hxy Hyz. exact (Z.le_trans _ _ _ Hyz Hxy).
Qed.

Section tables.
Context (show : f32 -> string) (md5_hex : list Z -> string).
Context (file_exists : string -> bool) (read_file : string -> option (list Z)).
Notation metrics := (get_system_metrics show md5_hex file_exists read_file).
Notation row := (process_row show md5_hex file_exists read_file).

(** the two tables are the first five of all processes, ordered by
    processor use and by memory; among processes of the same memory those that
    use the processor more come first. *)
Theorem tops_are_largest s c info c' :
  Forall (fun p => not_nan (p_cpu p)) (processes s) -> metrics s c = (Some info, c') ->
  exists by_use by_size,
    by_use ≡ₚ processes s /\ StronglySorted cpu_ge by_use /\ cpu_tops info = row s <$> take 5 by_use
    /\ by_size ≡ₚ processes s /\ StronglySorted memory_ge by_size /\ mem_tops info = row s <$> take 5 by_size.
Proof.
  intros Hn E. exists (sort_by by_cpu (processes s)), (sort_by by_memory (sort_by by_cpu (processes s))).
  pose proof (sort_by_cpu _ Hn) as Hc. pose proof (sort_by_memory _ Hc) as Hm.
  pose proof (sort_by_perm by_cpu (processes s)) as Pc.
  pose proof (sort_by_perm by_memory (sort_by by_cpu (processes s))) as Pm. rewrite Pc in Pm at 2.
  unfold get_system_metrics in E. destruct (get_cpu_use_state _) as [now|]; [|done].
  destruct (cpu_sample now c) as [usage c1], (default _ _) as [t u], (disk_space _) as [dt du].
  by injection E as <- _.
Qed.
End tables.

(** ** Memory *)

Definition seen_ok (m : MemSeen) : Prop :=
  let fits := from_option (is_uint 64) True in
  fits (total_kb m) /\ fits (mem_free m) /\ fits (mem_buffer m) /\ fits (mem_cache m).

Lemma parse_fits s : from_option (is_uint 64) True (parse_uint 64 s).
Proof. destruct (parse_uint 64 s) eqn:E; [|done]. by apply parse_uint_range in E. Qed.

Lemma meminfo_line_ok m line m' : seen_ok m -> meminfo_line m line = Some m' -> seen_ok m'.
Proof.
  unfold seen_ok, meminfo_line. pose proof parse_fits as Hp. intros Hm E.
  destruct (split_whitespace line !! 1%nat) as [x|]; cbn [mbind option_bind] in E;
    repeat (destruct (starts_with _ _) in E); try done; injection E as <-; simpl; naive_solver.
Qed.

Lemma meminfo_lines_ok ls m m' : seen_ok m -> meminfo_lines m ls = Some m' -> seen_ok m'.
Proof.
  revert m. induction ls as [|line ls IH]; intros m Hm; simpl; [by intros [= <-]|].
  destruct (meminfo_line m line) as [m1|] eqn:E; [|done]. cbn [mbind option_bind].
  apply meminfo_line_ok in E; [|done]. destruct (all_seen m1); [by intros [= <-]|by apply IH].
Qed.

(** whatever [/proc/meminfo] says, no more memory is reported used than there
    is, and both figures fit 64 bits. *)
Theorem memory_used_bounded text total used :
  get_memory_from_proc_meminfo text = Some (total, used) -> is_uint 64 total /\ 0 <= used <= total.
Proof.
  unfold get_memory_from_proc_meminfo. destruct text as [ls|]; [|done]. cbn [mbind option_bind].
  destruct (meminfo_lines _ ls) as [m|] eqn:E; [|done].
  apply meminfo_lines_ok in E; [|done]. destruct m as [[t|] [f|] [b|] [c|]]; try done. intros [= <- <-].
  destruct E as (Ht & Hf & Hb & Hc). simpl in *. split; [done|]. unfold is_uint, saturating_sub in *. lia.
Qed.

(** A line as the kernel prints it: a name, a colon, blanks, a number. *)
Definition meminfo_print (entry : nat * string * Z) : string :=
  let '(n, k, v) := entry in (k +:+ ":") +:+ Nat.iter (S n) (String " "%char) (dec v +:+ " kB").

Definition meminfo_name (k : string) : Prop := no_space k /\ str_mem ":" k = false.

Lemma words_blanks n s : split_whitespace (Nat.iter n (String " "%char) s) = split_whitespace s.
Proof. by induction n. Qed.

(** What a line says of one of the four names. *)
Definition said (name k : string) (v : Z) (o : option Z) : option Z := if bool_decide (name = k) then Some v else o.

Lemma meminfo_line_read m n k v :
  meminfo_name k -> is_uint 64 v ->
  meminfo_line m (meminfo_print (n, k, v))
  = Some (Mem (said "MemTotal" k v (total_kb m)) (said "MemFree" k v (mem_free m))
            (said "Buffers" k v (mem_buffer m)) (said "Cached" k v (mem_cache m))).
Proof.
  intros [Hk Hc] Hv. unfold meminfo_print, meminfo_line, said.
  rewrite (name_starts ":" "MemTotal" k), (name_starts ":" "MemFree" k), (name_starts ":" "Buffers" k), (name_starts ":" "Cached" k) by done.
  rewrite Nat.iter_succ, words_word.
  2:{ apply no_space_app; [done|]. intros a. simpl. rewrite orb_false_r. intros E%bool_decide_eq_true. by subst a. }
  2:{ by destruct k. }
  rewrite words_blanks, (words_word (dec v) "kB") by (apply no_space_dec || apply dec_nonempty).
  change ((_ :: dec v :: _) !! 1%nat) with (Some (dec v)). cbn [mbind option_bind]. rewrite parse_uint_dec by done.
  repeat case_bool_decide; subst; try done. by destruct m.
Qed.

Definition listed (name : string) (es : list (nat * string * Z)) : option Z :=
  (list_to_map ((fun '(_, k, v) => (k, v)) <$> es) : gmap string Z) !! name.

Lemma listed_cons name n k v es : listed name ((n, k, v) :: es) = said name k v (listed name es).
Proof.
  unfold listed, said. rewrite fmap_cons. cbn [list_to_map foldr]. cbn.
  case_bool_decide; [subst; apply lookup_insert_eq|by apply lookup_insert_ne].
Qed.

(** A figure that was seen, or else is still to come. *)
Definition later (o o' : option Z) : option Z := match o with Some v => Some v | None => o' end.

(** A figure that was seen does not come again. *)
Definition fresh (name : string) (o : option Z) (es : list (nat * string * Z)) : Prop :=
  is_Some o -> listed name es = None.

Lemma fresh_step name o n k v es :
  listed k es = None -> fresh name o ((n, k, v) :: es) ->
  fresh name (said name k v o) es
  /\ later o (listed name ((n, k, v) :: es)) = later (said name k v o) (listed name es).
Proof.
  unfold fresh. rewrite listed_cons. unfold said. intros Hk Hf. case_bool_decide as E; [subst k|].
  - split; [done|]. destruct o; [|done]. by assert (Some v = None) by (apply Hf; eauto).
  - by split.
Qed.

Lemma listed_none k es : k ∉ ((fun '(_, k, _) => k) <$> es : list string) -> listed k es = None.
Proof.
  induction es as [|[[n k'] v] es IH]; [done|]. rewrite fmap_cons, not_elem_of_cons. intros [Hne Hk].
  rewrite listed_cons. unfold said. rewrite bool_decide_false by done. by apply IH.
Qed.

Lemma meminfo_lines_read es m :
  Forall (fun '(_, k, v) => meminfo_name k /\ is_uint 64 v) es -> NoDup ((fun '(_, k, _) => k) <$> es : list string) ->
  fresh "MemTotal" (total_kb m) es -> fresh "MemFree" (mem_free m) es ->
  fresh "Buffers" (mem_buffer m) es -> fresh "Cached" (mem_cache m) es ->
  meminfo_lines m (meminfo_print <$> es)
  = Some (Mem (later (total_kb m) (listed "MemTotal" es)) (later (mem_free m) (listed "MemFree" es))
            (later (mem_buffer m) (listed "Buffers" es)) (later (mem_cache m) (listed "Cached" es))).
Proof.
  intros Hes. revert m. induction Hes as [|[[n k] v] es [Hk Hv] Hes IH]; intros m Hnd Ht Hf Hb Hc.
  { by destruct m as [[] [] [] []]. }
  rewrite fmap_cons in Hnd. apply NoDup_cons in Hnd as [Hnk%listed_none Hnd].
  rewrite fmap_cons. cbn [meminfo_lines]. rewrite meminfo_line_read by done. cbn [mbind option_bind].
  destruct (fresh_step _ _ _ _ _ _ Hnk Ht) as [Ht' ->], (fresh_step _ _ _ _ _ _ Hnk Hf) as [Hf' ->],
    (fresh_step _ _ _ _ _ _ Hnk Hb) as [Hb' ->], (fresh_step _ _ _ _ _ _ Hnk Hc) as [Hc' ->].
  destruct (all_seen _) eqn:E; [|by apply IH].
  unfold all_seen in E. cbn [total_kb mem_free mem_buffer mem_cache] in E.
  rewrite !andb_true_iff, !bool_decide_eq_true in E. destruct E as [[[[? ->] [? ->]] [? ->]] [? ->]]. done.
Qed.

(** the memory figures are read back from the kernel's listing: whatever the
    entries and their order, as long as no name comes twice, the total is the
    entry's, and used is what remains of it without the free memory, the
    buffers and the cache; without one of the four there is no result. *)
Theorem meminfo_roundtrip es :
  Forall (fun '(_, k, v) => meminfo_name k /\ is_uint 64 v) es -> NoDup ((fun '(_, k, _) => k) <$> es : list string) ->
  get_memory_from_proc_meminfo (Some (meminfo_print <$> es))
  = (total ← listed "MemTotal" es; free ← listed "MemFree" es; buffers ← listed "Buffers" es;
     cached ← listed "Cached" es; Some (total, Z.max 0 (Z.max 0 (Z.max 0 (total - free) - buffers) - cached))).
Proof.
  intros Hes Hnd. unfold get_memory_from_proc_meminfo. cbn [mbind option_bind].
  rewrite meminfo_lines_read; [done..| | | |]; by intros [? ?].
Qed.

(** ** Processor *)

(** The line as the kernel prints it. *)
Definition stat_print (counters : list Z) : string :=
  "cpu " +:+ String " " (join " " (dec <$> counters)) +:+ String line_feed "".

Lemma counter_read counters i :
  Forall (is_uint 64) counters -> counter (dec <$> counters) i = counters !! i.
Proof.
  intros Hc. unfold counter. rewrite list_lookup_fmap. destruct (counters !! i) as [v|] eqn:E; [|done]. simpl.
  apply parse_uint_dec. by eapply Forall_lookup_1.
Qed.

(** the counters are read back from the kernel's line, which may end after any
    of them but the first; those that are missing count as zero. *)
Theorem stat_roundtrip counters u :
  Forall (is_uint 64) counters -> counters !! 0%nat = Some u ->
  let field i := default 0 (counters !! i) in
  get_cpu_use_state (Ok (stat_print counters))
  = Ok (CpuUse u (field 1%nat) (field 2%nat) (field 3%nat) (field 4%nat) (field 5%nat) (field 6%nat) (field 7%nat) (field 8%nat) (field 9%nat)).
Proof.
  intros Hc Hu field. unfold get_cpu_use_state, stat_print. cbn [mbind result_bind].
  assert (split_whitespace ("cpu " +:+ String " " (join " " (dec <$> counters)) +:+ String line_feed "")
          = "cpu" :: (dec <$> counters)) as ->.
  { change (split_whitespace ("cpu" +:+ String " " (String " " (join " " (dec <$> counters) +:+ String line_feed "")))
            = "cpu" :: (dec <$> counters)).
    rewrite words_word by (done || by repeat apply no_space_String). f_equal.
    change (split_whitespace (join " " (dec <$> counters) +:+ String line_feed "") = dec <$> counters).
    rewrite words_end by done. apply words_join. apply Forall_fmap, Forall_true. intros v.
    split; [apply no_space_dec|apply dec_nonempty]. }
  cbn [tail]. rewrite !counter_read by done. by rewrite Hu.
Qed.

(** Counters only grow, and their sum fits 64 bits. *)
Definition later_counters (o n : CpuUseState) : Prop :=
  0 <= user o <= user n /\ 0 <= nice o <= nice n /\ 0 <= system o <= system n /\ 0 <= idle o <= idle n
  /\ user n + nice n + system n + idle n < 2 ^ 64.

(** then the busy time that is divided is within the time it is divided by,
    and neither wraps. *)
Lemma busy_within_elapsed o n :
  later_counters o n ->
  let busy := wrapping_add 64 (saturating_sub (user n) (user o)) (saturating_sub (system n) (system o)) in
  let elapsed := wrapping_sub 64 (counted n) (counted o) in
  busy = user n - user o + (system n - system o)
  /\ elapsed = busy + (nice n - nice o) + (idle n - idle o).
Proof.
  intros (Hu & Hn & Hs & Hi & Hw). unfold counted, wrapping_add, wrapping_sub, saturating_sub.
  rewrite !Z.max_r by lia. rewrite !wrap_id by (unfold is_uint; rewrite ?wrap_id by (unfold is_uint; lia); lia). lia.
Qed.

Section reports.
Context (show : f32 -> string) (md5_hex : list Z -> string).
Context (file_exists : string -> bool) (read_file : string -> option (list Z)).
Notation metrics := (get_system_metrics show md5_hex file_exists read_file).

(** Calls one after the other. *)
Fixpoint metrics_run (ss : list sample) (c : CpuState) : list (option SystemInfo) :=
  match ss with
  | [] => []
  | s :: ss => let '(info, c) := metrics s c in info :: metrics_run ss c
  end.

(** The counters that could be read. *)
Definition readings (ss : list sample) : list CpuUseState := omap (fun s => ok (get_cpu_use_state (stat_line s))) ss.

Lemma metrics_cases s c :
  match get_cpu_use_state (stat_line s) with
  | Ok now => exists info, metrics s c = (Some info, Cpu now true) /\ cpu_usage info = show (cpu_sample now c).1
  | Err _ => metrics s c = (None, c)
  end.
Proof.
  unfold get_system_metrics. destruct (get_cpu_use_state (stat_line s)) as [now|]; [|done].
  unfold cpu_sample. destruct (default _ _) as [t u], (disk_space _) as [dt du]. eauto.
Qed.

Lemma metrics_run_after ss last :
  cpu_usage <$> omap id (metrics_run ss (Cpu last true))
  = show <$> zip_with calc_cpu_use_state (last :: readings ss) (readings ss).
Proof.
  revert last. induction ss as [|s ss IH]; intros last; [done|]. cbn [metrics_run]. unfold readings. cbn [omap list_omap].
  pose proof (metrics_cases s (Cpu last true)) as Hc. destruct (get_cpu_use_state (stat_line s)) as [now|].
  - destruct Hc as (info & -> & E). cbn [omap list_omap id ok zip_with]. rewrite !fmap_cons. by rewrite E, IH.
  - rewrite Hc. apply IH.
Qed.

(** the processor use that is reported is that between two successive readings
    of the counters, whatever calls fail between them; the first is zero. *)
Theorem cpu_use_between_readings ss :
  cpu_usage <$> omap id (metrics_run ss CPU_STATE)
  = show <$> match readings ss with
             | [] => []
             | first :: rest => f32_of_Z 0 :: zip_with calc_cpu_use_state (first :: rest) rest
             end.
Proof.
  induction ss as [|s ss IH]; [done|]. cbn [metrics_run]. unfold readings. cbn [omap list_omap].
  pose proof (metrics_cases s CPU_STATE) as Hc. destruct (get_cpu_use_state (stat_line s)) as [now|].
  - destruct Hc as (info & -> & E). cbn [omap list_omap id ok]. rewrite !fmap_cons. by rewrite E, metrics_run_after.
  - rewrite Hc. exact IH.
Qed.
End reports.

(** ** Instances *)

Module MetricsDemo.

(** Whole percents are enough to tell figures apart. *)
Definition show (x : f32) : string := dec (ceil_u64 x).

Definition meminfo_entries : list (nat * string * Z) :=
  [(7%nat, "MemTotal", 16326428); (8%nat, "MemFree", 8201180); (3%nat, "MemAvailable", 12000000);
   (9%nat, "Buffers", 402184); (8%nat, "Cached", 3650012); (6%nat, "SwapCached", 12)].

(** Three processes, two of them of the same size. *)
Definition desktop (counters : list Z) : sample :=
  Sample (Ok (stat_print counters)) (Some (meminfo_print <$> meminfo_entries)) [(0, "root"); (1000, "ann")]
    ["cpu0"; "cpu1"] 0 0 [(1048576000, 48576000)]
    [Proc 1 "/sbin/init" (f32_of_Z 1) 4096 (Some 0); Proc 7 "" (f32_of_Z 20) 4096 (Some 77);
     Proc 9 "/usr/bin/cc" (f32_of_Z 12) 65536 (Some 1000)] 9.

Notation metrics := (get_system_metrics show (fun b => dec (Z.of_nat (length b))) (fun _ => true) (fun _ => Some [0; 0])).

Example desktop_metrics :
  let '(info, c) := metrics (desktop [40; 0; 10; 50]) CPU_STATE in
  (r_id <$> cpu_tops (default (Info "" "" "" "" [] "" "" [] (Self "" "")) info),
   r_id <$> mem_tops (default (Info "" "" "" "" [] "" "" [] (Self "" "")) info),
   mem_size <$> info, mem_usage <$> info, hd_size <$> info, initialized c)
  = (["7"; "9"; "1"], ["9"; "7"; "1"], Some "16326428KB", Some "25", Some "1000MB", true).
Proof. vm_compute. reflexivity. Qed.

Lemma tops_are_largest_witness :
  exists by_size, by_size ≡ₚ processes (desktop [40]) /\ StronglySorted memory_ge by_size.
Proof.
  destruct (tops_are_largest show (fun _ => "") (fun _ => true) (fun _ => None) (desktop [40]) CPU_STATE
              (default (Info "" "" "" "" [] "" "" [] (Self "" ""))
                 (get_system_metrics show (fun _ => "") (fun _ => true) (fun _ => None) (desktop [40]) CPU_STATE).1)
              (Cpu (CpuUse 40 0 0 0 0 0 0 0 0 0) true))
    as (by_use & by_size & _ & _ & _ & Hp & Hs & _).
  - repeat constructor; done.
  - vm_compute. reflexivity.
  - by exists by_size.
Defined.

Lemma memory_used_bounded_witness : 0 <= 4073052 <= 16326428.
Proof. apply (memory_used_bounded (Some (meminfo_print <$> meminfo_entries)) 16326428). vm_compute. reflexivity. Defined.

Lemma meminfo_roundtrip_witness :
  get_memory_from_proc_meminfo (Some (meminfo_print <$> meminfo_entries)) = Some (16326428, 4073052).
Proof.
  rewrite (meminfo_roundtrip meminfo_entries); [vm_compute; reflexivity| |].
  - repeat apply Forall_cons_2; [..|constructor]; (split; [split; [repeat (apply no_space_String; [done|]); apply no_space_nil|done]|by compute]).
  - apply (bool_decide_unpack (NoDup _)). vm_compute. exact I.
Defined.

Lemma stat_roundtrip_witness :
  get_cpu_use_state (Ok (stat_print [40; 1; 10; 50; 2])) = Ok (CpuUse 40 1 10 50 2 0 0 0 0 0).
Proof. apply (stat_roundtrip [40; 1; 10; 50; 2] 40); [|done]. repeat constructor; by compute. Defined.

(** A processor that was busy throughout is reported just above a hundred
    percent: the product is rounded before it is divided. *)
Example busy_above_hundred :
  let o := CpuUse 0 0 0 0 0 0 0 0 0 0 in
  let n := CpuUse 10737419 0 0 0 0 0 0 0 0 0 in
  later_counters o n /\ f32_cmp (calc_cpu_use_state o n) (f32_of_Z 100) = Gt.
Proof. unfold later_counters. simpl. split; [lia|]. vm_compute. reflexivity. Qed.
End MetricsDemo.
