(* ===== verification/Boot.v ===== *)
(** * Start-up

    [crates/main/src/main.rs] up to the spawning of its tasks, and
    [BootManager::init] of [crates/common/src/manager/boot.rs]: one instance,
    the command line, the configuration in force, the driver.  The static
    [NETINFO_CONFIG] is read when it is first used. *)

From Stdlib Require Import Ascii.
From S2P Require Import Prelude RustStr Bytes Float Shell Host NetInfo TaskConf KernelModule HostInfo.

(** A part of the start that ends the process or goes on. *)
Inductive started (A : Type) := Exit (code : Z) | Go (a : A).
Arguments Exit {A} _.
Arguments Go {A} _.

Definition bind_go {S A B} (m : io S (started A)) (f : A -> io S (started B)) : io S (started B) := fun s =>
  match m s with
  | (Go a, s) => f a s
  | (Exit code, s) => (Exit code, s)
  end.

Lemma bind_go_Go {S A B} (m : io S (started A)) (f : A -> io S (started B)) s b s2 :
  bind_go m f s = (Go b, s2) -> exists a s1, m s = (Go a, s1) /\ f a s1 = (Go b, s2).
Proof. unfold bind_go. destruct (m s) as [[?|a] s1]; [done|eauto]. Qed.

(** ** The command line *)

Definition DEFAULT_PATH : string := "/opt/osec/".

(** An argument without its one or two dashes. *)
Definition option_name (arg : string) : option string :=
  match strip_prefix "--" arg with Some a => Some a | None => strip_prefix "-" arg end.

(** What one option does: the path it sets, or the exit code. *)
Definition option_value (key : string) (value : option string) : started string :=
  if bool_decide (key = "help") || bool_decide (key = "h") then Exit 0
  else if bool_decide (key = "version") || bool_decide (key = "V") then Exit 0
  else match value with
       | Some v => if bool_decide (key = "config") || bool_decide (key = "c") then Go v else Exit 1
       | None => Exit 1
       end.

(** The loop over the arguments; it ends at the first without a dash. *)
Fixpoint parse_args (argv : list string) (config_path : option string) : started (option string) :=
  match argv with
  | [] => Go config_path
  | a :: rest =>
    match option_name a with
    | None => Go config_path
    | Some arg =>
      match split_once "="%char arg, rest with
      | Some (key, value), _ =>
        match option_value key (Some (trim value)) with
        | Go p => parse_args rest (Some p)
        | Exit code => Exit code
        end
      | None, value :: rest =>
        match option_value arg (Some value) with
        | Go p => parse_args rest (Some p)
        | Exit code => Exit code
        end
      | None, [] =>
        match option_value arg None with
        | Go p => Go (Some p)
        | Exit code => Exit code
        end
      end
    end
  end.

(** [CONFIG_PATH], or else the command line, or else the default. *)
Definition config_dir (config_env : option string) (argv : list string) : started string :=
  match config_env with
  | Some p => Go p
  | None => match parse_args argv None with
            | Go p => Go (default DEFAULT_PATH p)
            | Exit code => Exit code
            end
  end.

(** ** The configuration *)

(** [c] with another path and driver. *)
Definition set_boot (path version : string) (c : NetInfoConfig) : NetInfoConfig := {|
  app_path := path; mid := mid c; ver := ver c; com_time := com_time c; cron_time := cron_time c;
  extortion_protect := extortion_protect c; extortion_switch := extortion_switch c;
  self_protect_switch := self_protect_switch c; fast_time := fast_time c;
  file_protect := file_protect c; file_switch := file_switch c; dynamic_switch := dynamic_switch c;
  log_ip_port := log_ip_port c; log_proto := log_proto c; log_sent := log_sent c;
  cli_port := cli_port c; module_switch := module_switch c; open_port_switch := open_port_switch c;
  proc_protect := proc_protect c; proc_switch := proc_switch c; scan_file_time := scan_file_time c;
  scan_proc_time := scan_proc_time c; server_ip_port := server_ip_port c; server_ip := server_ip c;
  server_port := server_port c; usb_protect := usb_protect c; usb_switch := usb_switch c;
  syslog_dns_switch := syslog_dns_switch c; syslog_outer_switch := syslog_outer_switch c;
  syslog_inner_switch := syslog_inner_switch c; syslog_process_switch := syslog_process_switch c;
  syslog_login_switch := syslog_login_switch c; internet_switch := internet_switch c;
  baseline_switch := baseline_switch c; baseline_time := baseline_time c;
  outreach_switch := outreach_switch c; outreach_time := outreach_time c;
  hardware_switch := hardware_switch c; hardware_time := hardware_time c; user_id := user_id c;
  dev_uid := dev_uid c; macid := macid c; ips := ips c; ifcfg := ifcfg c; os := os c;
  memsize := memsize c; cpu := cpu c; hdsize := hdsize c; auth := auth c; host_name := host_name c;
  mod_ver := version; arch_type := arch_type c; is_offline_mode := is_offline_mode c
|}.

Section boot.
Context {W : Type} `{Os W} `{Files W} `{Disk W}.
Context (levenshtein : string -> string -> nat) (dev_re : string -> option string).
Context (fixed_1 : f64 -> string) (read_bytes : string -> W -> result string (list Z)).
Context (new_v4 : W -> string) (md5_hex : list Z -> string).
(** [Ini::load(path)]. *)
Context (ini_load : string -> W -> result string (string -> string -> option string)).

Abbreviation st := (host W).

(** The static [NETINFO_CONFIG], at its first use. *)
Definition netinfo_static (config_env : option string) : io st (started NetInfoConfig) :=
  let path := default "/opt/osec" config_env +:+ "/net_info.ini" in
  there ← look (path_exists path);
  if negb (there : bool) then mret (Exit 1)
  else
    i ← look (ini_load path);
    match i with
    | Err _ => mret (Exit 1)
    | Ok i => c ← from_ini dev_re i; mret (Go c)
    end.

(** [BootManager::init]: the configuration in force. *)
Definition init (config_env : option string) (argv : list string) : io st (started NetInfoConfig) :=
  match config_dir config_env argv with
  | Exit code => mret (Exit code)
  | Go path =>
    i ← look (ini_load (path +:+ "/net_info.ini"));
    match i with
    | Err _ => mret (Exit 1)
    | Ok _ =>
      bind_go (netinfo_static config_env) (fun c =>
        c ← acquire fixed_1 read_bytes new_v4 md5_hex (set_boot path (mod_ver c) c);
        mret (Go c))
    end
  end.

(** ** The agent *)

Definition PID_FILE : string := "/var/run/osec_backend.pid".

Definition is_rocky_linux : io st bool :=
  look (fun w => match read_text "/etc/os-release" w with
                 | Ok content => contains "rocky" (to_lowercase content)
                 | Err _ => false
                 end).

(** Before the configuration is read. *)
Definition prepare_driver : io st unit :=
  rocky ← is_rocky_linux;
  if (rocky : bool) then mret tt
  else _ ← ensure_kernel_hold; _ ← unload_driver; mret tt.

(** The driver is loaded and its version written to the configuration; [None]
    while the loader still tries. *)
Definition load_driver (fuel : nat) (c : NetInfoConfig) : io st (option (started NetInfoConfig)) :=
  rocky ← is_rocky_linux;
  if (rocky : bool) then mret (Some (Go c))
  else
    r ← load_kernel_driver levenshtein fuel;
    match r with
    | None => mret None
    | Some Exits => mret (Some (Exit 1))
    | Some (Returns v) =>
      let c := set_boot (app_path c) (default "" (ok v)) c in
      _ ← to_ini (app_path c +:+ "/net_info.ini") c;
      mret (Some (Go c))
    end.

(** The driver and the configuration. *)
Definition boot_up (fuel : nat) (config_env : option string) (argv : list string)
    : io st (option (started NetInfoConfig)) :=
  _ ← prepare_driver;
  c ← init config_env argv;
  match c with
  | Exit code => mret (Some (Exit code))
  | Go c => load_driver fuel c
  end.

(** [main] up to its tasks, but for the logger. *)
Definition start_up (fuel : nat) (config_env : option string) (argv : list string) (pid : Z)
    : io st (option (started NetInfoConfig)) :=
  first ← single_instance PID_FILE pid;
  if negb (first : bool) then mret (Some (Exit 1)) else boot_up fuel config_env argv.

(** After the signal to end. *)
Definition shut_down : io st unit :=
  rocky ← is_rocky_linux;
  if (rocky : bool) then mret tt else _ ← unload_driver; mret tt.
End boot.

(** ** The command line *)

(** the last of several [--config] options wins, whatever their values look
    like; without any the default is taken. *)
Theorem last_config_wins vs :
  config_dir None (vs ≫= fun v => ["--config"; v]) = Go (default DEFAULT_PATH (last vs)).
Proof.
  unfold config_dir.
  assert (forall cp, parse_args (vs ≫= fun v => ["--config"; v]) cp
                     = Go (match last vs with Some v => Some v | None => cp end)) as ->; [|by destruct (last vs)].
  induction vs as [|v vs IH]; intros cp; [done|]. rewrite bind_cons, last_cons. simpl. rewrite IH.
  by destruct (last vs).
Qed.

(** ** What is in force after the start *)

Section start.
Context {W : Type} `{Os W} `{Files W} `{Disk W}.
Context (levenshtein : string -> string -> nat) (dev_re : string -> option string).
Context (fixed_1 : f64 -> string) (read_bytes : string -> W -> result string (list Z)).
Context (new_v4 : W -> string) (md5_hex : list Z -> string).
Context (ini_load : string -> W -> result string (string -> string -> option string)).

Abbreviation start := (start_up levenshtein dev_re fixed_1 read_bytes new_v4 md5_hex ini_load).
Abbreviation boot_init := (init dev_re fixed_1 read_bytes new_v4 md5_hex ini_load).

(** A start that goes on: its parts did. *)
Lemma boot_up_Go fuel env argv (h h' : host W) c :
  boot_up levenshtein dev_re fixed_1 read_bytes new_v4 md5_hex ini_load fuel env argv h = (Some (Go c), h') ->
  exists h1 c1 h2, boot_init env argv h1 = (Go c1, h2) /\ load_driver levenshtein fuel c1 h2 = (Some (Go c), h').
Proof.
  unfold boot_up, mbind, io_bind. destruct (prepare_driver h) as [[] h1].
  destruct (boot_init env argv h1) as [[code|c1] h2] eqn:E; [done|]. intros E2. by exists h1, c1, h2.
Qed.

Lemma start_up_Go fuel env argv pid (h h' : host W) c :
  start fuel env argv pid h = (Some (Go c), h') ->
  exists h1 c1 h2, boot_init env argv h1 = (Go c1, h2) /\ load_driver levenshtein fuel c1 h2 = (Some (Go c), h').
Proof.
  unfold start_up. rewrite io_bind_run. destruct (single_instance PID_FILE pid h) as [[] h0]; [|done]. apply boot_up_Go.
Qed.

(** The loader's part: nothing on Rocky Linux, else the loader and the file. *)
Lemma load_driver_Go fuel c1 (h h' : host W) c :
  load_driver levenshtein fuel c1 h = (Some (Go c), h') ->
  (is_rocky_linux h).1 = true /\ c = c1 /\ h' = h
  \/ (is_rocky_linux h).1 = false
     /\ exists r h1, load_kernel_driver levenshtein fuel h = (Some (Returns r), h1)
        /\ c = set_boot (app_path c1) (default "" (ok r)) c1
        /\ h' = (to_ini (app_path c1 +:+ "/net_info.ini") c h1).2.
Proof.
  unfold load_driver, is_rocky_linux. rewrite look_bind. cbn [look fst].
  destruct (read_text "/etc/os-release" _) as [t|]; [destruct (contains "rocky" _)|].
  1: intros [= <- <-]; by left.
  all: intros E; right; split; [done|]; unfold mbind, io_bind in E;
    destruct (load_kernel_driver levenshtein fuel h) as [[[|r]|] h1]; try done; exists r, h1; cbn [app_path set_boot] in E;
    destruct (to_ini _ _ h1) as [q h2] eqn:Et; injection E as <- <-; split; [done|]; split; [done|]; by rewrite Et.
Qed.

Lemma from_ini_unloaded i (h : host W) : mod_ver (from_ini dev_re i h).1 = "".
Proof. unfold from_ini. by rewrite !io_bind_run. Qed.

(** The settings come from the file named by [CONFIG_PATH] or the default one;
    the command line only names the path. *)
Lemma init_Go env argv (h h' : host W) c :
  boot_init env argv h = (Go c, h') ->
  exists path i h1 f,
    config_dir env argv = Go path
    /\ ini_load (default "/opt/osec" env +:+ "/net_info.ini") (world (h_shell h)) = Ok i
    /\ c = acquire_host_info f (set_boot path "" (from_ini dev_re i h1).1).
Proof.
  unfold init. destruct (config_dir env argv) as [code|path]; [done|]. rewrite look_bind.
  destruct (ini_load (path +:+ "/net_info.ini") _) as [i0|]; [|done].
  intros (c0 & h1 & Es & Ea)%bind_go_Go. unfold netinfo_static in Es. rewrite look_bind in Es.
  destruct (path_exists _ _); [|done]. cbn [negb] in Es. rewrite look_bind in Es.
  destruct (ini_load _ _) as [i|] eqn:Ei; [|done]. exists path, i, h.
  unfold mbind, io_bind in Es, Ea. destruct (from_ini dev_re i h) as [cf hf] eqn:Ef. injection Es as <- <-.
  unfold acquire, mbind, io_bind in Ea. destruct (gather_facts _ _ _ _ _ hf) as [f hg]. injection Ea as <- _.
  exists f. split; [done|]. split; [done|]. cbn [fst].
  assert (mod_ver cf = "") as ->; [|done].
  by rewrite <- (from_ini_unloaded i h), Ef.
Qed.


(** the agent takes its kernel module for loaded exactly when the loader said
    so: the version in force is the driver the loader returned, and empty after
    a failure or where none is looked for. *)
Theorem module_version_recorded fuel env argv pid (h h' : host W) c :
  start fuel env argv pid h = (Some (Go c), h') ->
  exists h1, (if (is_rocky_linux h1).1 then mod_ver c = "" /\ module_loaded c = false
              else exists r h2, load_kernel_driver levenshtein fuel h1 = (Some (Returns r), h2)
                   /\ mod_ver c = default "" (ok r)
                   /\ (module_loaded c = true <-> exists v, r = Ok v /\ v <> "")).
Proof.
  intros (h1 & c1 & h2 & Eb & Ed)%start_up_Go. exists h2.
  apply init_Go in Eb as (path & i & hb & f & _ & _ & ->).
  apply load_driver_Go in Ed as [(-> & -> & _)|(-> & r & h3 & El & -> & _)]; [done|].
  exists r, h3. split; [done|]. split; [done|]. unfold module_loaded, str_is_empty. cbn [mod_ver set_boot].
  rewrite negb_true_iff, bool_decide_eq_false. destruct r as [v|e]; simpl; naive_solver.
Qed.

(** on Rocky Linux the start is the reading of the configuration and nothing
    else: no kernel package is held, no driver removed or loaded, and nothing
    waits for one. *)
Theorem rocky_start fuel env argv pid (h : host W) text :
  (forall w, read_text "/etc/os-release" w = Ok text) -> contains "rocky" (to_lowercase text) = true ->
  start fuel env argv pid h
  = let '(first, h1) := single_instance PID_FILE pid h in
    if first then let '(r, h2) := boot_init env argv h1 in (Some r, h2) else (Some (Exit 1), h1).
Proof.
  intros Hos Hr. assert (forall h, is_rocky_linux h = (true, h)) as Hrocky.
  { intros h0. unfold is_rocky_linux, look. by rewrite Hos, Hr. }
  unfold start_up. rewrite io_bind_run. destruct (single_instance PID_FILE pid h) as [[] h1]; [|done]. cbn [fst snd negb].
  unfold boot_up.
  assert (prepare_driver h1 = (tt, h1)) as Ep by (unfold prepare_driver; by rewrite io_bind_run, Hrocky).
  rewrite io_bind_run, Ep. cbn [fst snd]. rewrite io_bind_run.
  destruct (boot_init env argv h1) as [[code|c] h2]; [done|]. cbn [fst snd].
  unfold load_driver. by rewrite io_bind_run, Hrocky.
Qed.

(** while an agent runs no other one starts: once its number is in the file,
    given that the file reads as it was written and is left alone, every other
    start ends before it has done anything; and when it has ended another one
    starts. *)
Theorem one_agent fuel env argv pid pid' (h h1 h2 : host W) :
  (forall t w w', put (WriteFile PID_FILE t) w = (Ok tt, w') ->
     path_exists PID_FILE w' = true /\ read_text PID_FILE w' = Ok t) ->
  is_uint 32 pid -> single_instance PID_FILE pid h = (true, h1) ->
  h_written h1 = h_written h ++ [WriteFile PID_FILE (dec pid)] ->
  path_exists PID_FILE (world (h_shell h2)) = path_exists PID_FILE (world (h_shell h1)) ->
  read_text PID_FILE (world (h_shell h2)) = read_text PID_FILE (world (h_shell h1)) ->
  if path_exists ("/proc/" +:+ dec pid) (world (h_shell h2))
  then start fuel env argv pid' h2 = (Some (Exit 1), h2)
  else (single_instance PID_FILE pid' h2).1 = true.
Proof.
  intros Hlaw Hp Es Hw He Hr.
  assert (path_exists PID_FILE (world (h_shell h1)) = true /\ read_text PID_FILE (world (h_shell h1)) = Ok (dec pid)) as [He1 Hr1].
  { destruct (single_instance_wrote _ _ _ _ Es) as (w' & Eput & Ew).
    { intros E. rewrite E in Hw. apply (f_equal length) in Hw. rewrite length_app in Hw. simpl in Hw. lia. }
    rewrite Ew. by eapply Hlaw. }
  rewrite He1 in He. rewrite Hr1 in Hr. pose proof (single_instance_named PID_FILE pid pid' h2 Hp He Hr) as Hs.
  destruct (path_exists ("/proc/" +:+ dec pid) _); [|done]. unfold start_up. by rewrite io_bind_run, Hs.
Qed.
End start.

(** ** Instances *)

Module BootDemo.

(** A machine of files on which no command can be started. *)
Abbreviation files := (gmap string string).

#[local] Instance no_os : Os files := {| spawn _ m := (Err "No such file or directory", m) |}.
#[local] Instance demo_files : Files files := {|
  put w m := match w with WriteFile p t => (Ok tt, <[p := t]> m) | SendNetlink _ _ => (Ok tt, m) end
|}.
(** The text of [/etc/os-release] is fixed. *)
Definition disk_of (release : string) : Disk files := {|
  disk _ m := (Ok tt, m);
  path_exists p m := bool_decide (is_Some (m !! p));
  read_dir _ _ := Ok [];
  unzip _ _ m := (Ok tt, m);
  read_text p m := if bool_decide (p = "/etc/os-release") then Ok release
                   else ok_or "No such file or directory" (m !! p)
|}.

(** The two files name different servers. *)
Definition demo_ini (p : string) (_ : files) : result string (string -> string -> option string) :=
  Ok (fun _ k => if bool_decide (k = "SERVERIPPORT")
                 then Some (if bool_decide (p = "/opt/osec/net_info.ini") then "10.0.0.1:443" else "10.9.9.9:443")
                 else None).

Definition machine_of (l : list (string * string)) : host files := Host (Shell (list_to_map l) []) [].
Definition plain : host files := machine_of [("/opt/osec/net_info.ini", "")].

Definition boot_config : NetInfoConfig := (from_ini (fun _ => None) (fun _ _ => None) plain).1.
Definition result_of (r : option (started NetInfoConfig) * host files) : NetInfoConfig :=
  match r.1 with Some (Go c) => c | _ => boot_config end.

Example arguments :
  (config_dir None ["-c"; "/a"], config_dir None ["--config=/a "; "-c"; "/b"], config_dir None ["/a"; "-V"; ""],
   config_dir None ["--help"], config_dir None ["-c"], config_dir (Some "/e") ["-c"])
  = (Go "/a", Go "/b", Go "/opt/osec/", Exit 0, Exit 1, Go "/e").
Proof. vm_compute. reflexivity. Qed.

Module Ubuntu.
#[local] Instance ubuntu_disk : Disk files := disk_of "ID=ubuntu".

Abbreviation run := (start_up (fun _ _ => 1%nat) (fun _ => None) (fun _ => "") (fun _ _ => Err "") (fun _ => "") (fun _ => "")
                       demo_ini 3).

(** Started with another path, the agent still obeys the default's server. *)
Example argument_server :
  let c := result_of (run None ["--config=/srv"] 77 plain) in (app_path c, server_ip_port c) = ("/srv", "10.0.0.1:443").
Proof. vm_compute. reflexivity. Qed.


Lemma module_version_recorded_witness :
  let c := result_of (run None [] 77 plain) in
  exists h1, if (is_rocky_linux h1).1 then mod_ver c = "" /\ module_loaded c = false
             else exists r h2, load_kernel_driver (fun _ _ => 1%nat) 3 h1 = (Some (Returns r), h2)
                  /\ mod_ver c = default "" (ok r) /\ (module_loaded c = true <-> exists v, r = Ok v /\ v <> "").
Proof.
  refine (module_version_recorded (fun _ _ => 1%nat) (fun _ => None) (fun _ => "") (fun _ _ => Err "") (fun _ => "")
           (fun _ => "") demo_ini 3 None [] 77 plain (run None [] 77 plain).2 (result_of (run None [] 77 plain)) _).
  vm_compute. reflexivity.
Defined.

(** An agent runs as number 77. *)
Definition running : host files := Host (Shell (list_to_map [(PID_FILE, "77"); ("/proc/77", "")]) []) [].

Lemma one_agent_witness : run None [] 78 running = (Some (Exit 1), running).
Proof.
  refine (one_agent (fun _ _ => 1%nat) (fun _ => None) (fun _ => "") (fun _ _ => Err "") (fun _ => "") (fun _ => "") demo_ini
            3 None [] 77 78 (machine_of []) (single_instance PID_FILE 77 (machine_of [])).2 running _ _ _ _ _ _).
  - intros t w w' [= <-]. simpl. rewrite lookup_insert_eq. split; [by apply bool_decide_eq_true|done].
  - done.
  - vm_compute. reflexivity.
  - reflexivity.
  - reflexivity.
  - reflexivity.
Defined.
End Ubuntu.

Module Rocky.
#[local] Instance rocky_disk : Disk files := disk_of "ID=rocky".

Lemma rocky_start_witness :
  exists c h, start_up (fun _ _ => 1%nat) (fun _ => None) (fun _ => "") (fun _ _ => Err "") (fun _ => "") (fun _ => "")
                demo_ini 0 None [] 77 plain = (Some (Go c), h).
Proof.
  eexists _, _.
  rewrite (rocky_start (fun _ _ => 1%nat) (fun _ => None) (fun _ => "") (fun _ _ => Err "") (fun _ => "") (fun _ => "") demo_ini
             0 None [] 77 plain "ID=rocky"); [|done|reflexivity].
  vm_compute. reflexivity.
Defined.
End Rocky.
End BootDemo.
