(* ===== verification/MockServer.v ===== *)
(** * The jump controller's server

    [ip_jump_controller_egui/src/mockserver.rs]: a server that speaks the part
    of the management protocol an address jump needs.  The operator queues
    jumps or lets a pool of addresses rotate; agents ask for their tasks, fetch
    the next jump and report how it went.

    A request carries its parsed body (of a type [V] with the accessors of the
    JSON library), its headers and the times read while it is served. *)

From Stdlib Require Import Ascii.
From S2P Require Import Prelude RustStr Json.

(** ** Data *)

Record JumpInstruction := Jump {
  j_source_ip : string;
  j_target_ip : string;
  j_gateway : string;
  j_mode : Z;         (** i32, as are the numbers below *)
  j_active_time : Z;
  j_aging_time : Z;
  j_prefix : Z
}.

Definition JumpInstruction_default : JumpInstruction := Jump "" "" "" 0 0 0 0.

Definition target_ip_cidr (j : JumpInstruction) : string :=
  if str_mem "/" (j_target_ip j) then j_target_ip j
  else j_target_ip j +:+ "/" +:+ dec_signed (j_prefix j).

Definition before_slash (s : string) : string := hd "" (split_char "/" s).
Definition before_comma (s : string) : string := hd "" (split_char "," s).

Definition source_ip_bare (j : JumpInstruction) : string :=
  if str_is_empty (j_source_ip j) then "" else before_slash (j_source_ip j).

Definition to_json (j : JumpInstruction) : value :=
  Object [("source_ip", Str (source_ip_bare j)); ("target_ip", Str (target_ip_cidr j));
          ("gateway", Str (j_gateway j)); ("mode", Number (j_mode j));
          ("active_time", Number (j_active_time j)); ("aging_time", Number (j_aging_time j))].

(** [is_empty]: there is no target. *)
Definition no_target (j : JumpInstruction) : bool := str_is_empty (j_target_ip j).

Record CycleStrategy := Cycle {
  c_enabled : bool;
  ip_pool : list string;
  c_gateway : string;
  c_mode : Z;
  c_active_time : Z;
  c_aging_time : Z;
  c_prefix : Z;
  current_index : nat
}.

Definition CycleStrategy_default : CycleStrategy := Cycle false [] "" 0 0 0 0 0.

Definition set_index (i : nat) (c : CycleStrategy) : CycleStrategy :=
  Cycle (c_enabled c) (ip_pool c) (c_gateway c) (c_mode c) (c_active_time c) (c_aging_time c) (c_prefix c) i.

(** Where the pool has an address, or else where the strategy was. *)
Definition start_index (current_agent_ip : string) (c : CycleStrategy) : nat :=
  match list_find (fun ip => ip = current_agent_ip) (ip_pool c) with
  | Some (i, _) => i
  | None => current_index c
  end.

(** The instruction after the agent's address, and the strategy moved on; the
    index is taken modulo the length, so that the access is within the pool. *)
Definition next_instruction (current_agent_ip : string) (c : CycleStrategy) : JumpInstruction * CycleStrategy :=
  if (length (ip_pool c) <? 2)%nat then (JumpInstruction_default, c)
  else
    let next_idx := ((start_index current_agent_ip c + 1) mod length (ip_pool c))%nat in
    (Jump "" (nth next_idx (ip_pool c) "") (c_gateway c) (c_mode c) (c_active_time c) (c_aging_time c) (c_prefix c),
     set_index next_idx c).

Section server.
Context {V : Type} `{JsonValue V} `{JsonText value}.

(** What a line of the log keeps of a request, and of a request with its answer. *)
Inductive log_data := Request (req : V) | Exchange (req : V) (resp : value).

Record LogEntry := Log { l_time : string; l_direction : string; l_path : string; l_summary : string; l_data : option log_data }.

Record InnerState := Inner {
  is_running : bool;
  port : Z;
  bind_address : string;
  agent_host_name : string;
  agent_uid : string;
  agent_macid : string;
  last_agent_ip : string;
  last_jump_status : string;
  request_count : Z;
  total_jumps_sent : Z;
  instruction_queue : list JumpInstruction;
  current_instruction : option JumpInstruction;
  ip_jump_task_pending : bool;
  cycle_strategy : CycleStrategy;
  logs : list LogEntry
}.

Definition InnerState_default : InnerState :=
  Inner false 8080 "0.0.0.0" "" "" "" "" "" 0 0 [] None false CycleStrategy_default [].

(** *** Assignments *)

Definition set_agent (host uid macid : string) (s : InnerState) : InnerState :=
  Inner (is_running s) (port s) (bind_address s) host uid macid (last_agent_ip s) (last_jump_status s) (request_count s)
    (total_jumps_sent s) (instruction_queue s) (current_instruction s) (ip_jump_task_pending s) (cycle_strategy s) (logs s).
Definition set_ip (ip : string) (s : InnerState) : InnerState :=
  Inner (is_running s) (port s) (bind_address s) (agent_host_name s) (agent_uid s) (agent_macid s) ip (last_jump_status s)
    (request_count s) (total_jumps_sent s) (instruction_queue s) (current_instruction s) (ip_jump_task_pending s)
    (cycle_strategy s) (logs s).
Definition set_jump_status (status : string) (s : InnerState) : InnerState :=
  Inner (is_running s) (port s) (bind_address s) (agent_host_name s) (agent_uid s) (agent_macid s) (last_agent_ip s) status
    (request_count s) (total_jumps_sent s) (instruction_queue s) (current_instruction s) (ip_jump_task_pending s)
    (cycle_strategy s) (logs s).
Definition count_request (s : InnerState) : InnerState :=
  Inner (is_running s) (port s) (bind_address s) (agent_host_name s) (agent_uid s) (agent_macid s) (last_agent_ip s)
    (last_jump_status s) (wrapping_add 64 (request_count s) 1) (total_jumps_sent s) (instruction_queue s)
    (current_instruction s) (ip_jump_task_pending s) (cycle_strategy s) (logs s).
Definition set_jumps (sent : Z) (queue : list JumpInstruction) (current : option JumpInstruction) (pending : bool)
    (cycle : CycleStrategy) (s : InnerState) : InnerState :=
  Inner (is_running s) (port s) (bind_address s) (agent_host_name s) (agent_uid s) (agent_macid s) (last_agent_ip s)
    (last_jump_status s) (request_count s) sent queue current pending cycle (logs s).
Definition set_logs (l : list LogEntry) (s : InnerState) : InnerState :=
  Inner (is_running s) (port s) (bind_address s) (agent_host_name s) (agent_uid s) (agent_macid s) (last_agent_ip s)
    (last_jump_status s) (request_count s) (total_jumps_sent s) (instruction_queue s) (current_instruction s)
    (ip_jump_task_pending s) (cycle_strategy s) l.
Definition set_running (running : bool) (p : Z) (bind : string) (s : InnerState) : InnerState :=
  Inner running p bind (agent_host_name s) (agent_uid s) (agent_macid s) (last_agent_ip s) (last_jump_status s)
    (request_count s) (total_jumps_sent s) (instruction_queue s) (current_instruction s) (ip_jump_task_pending s)
    (cycle_strategy s) (logs s).

(** ** Helpers *)

Definition MAX_LOGS : nat := 500.

(** Newest first, the oldest dropped. *)
Definition log_add (entry : LogEntry) (s : InnerState) : InnerState := set_logs (take MAX_LOGS (entry :: logs s)) s.

Definition summarize_req (path : string) (req : V) : string :=
  let s k := str_field req k in
  if bool_decide (path = "/v1/auth") then
    "AUTH uid=" +:+ s "uid" +:+ ", host=" +:+ s "host_name" +:+ ", ip=" +:+ s "ip"
  else if bool_decide (path = "/v1/gettask") then "GET-TASK"
  else if bool_decide (path = "/v1/getIpJump") then "GET-IP-JUMP"
  else if bool_decide (path = "/v1/putIpJump") then
    "PUT-IP-JUMP status=" +:+ dec_signed (default 0 (get_field req "status" ≫= as_i64)) +:+ ", src=" +:+ s "source_ip"
    +:+ ", tgt=" +:+ s "target_ip" +:+ ", agent_ip=" +:+ s "agent_ip"
  else if bool_decide (path = "/v1/uploadIp") then "UPLOAD-IP: " +:+ s "ip"
  else path.

Definition i64_field (v : value) (k : string) : Z := default 0 (get_field v k ≫= as_i64).

(** The answers' texts are ASCII, so that the cut of a token is a prefix. *)
Definition summarize_resp (resp : value) : string :=
  let code := str_field resp "code" in
  let data := default Null (get_field resp "data") in
  match get_field data "tasklist" with
  | Some tl => "code=" +:+ code +:+ ", tasklist=" +:+ to_text tl
  | None =>
    match get_field data "target_ip" with
    | Some _ => "code=" +:+ code +:+ ", target=" +:+ str_field data "target_ip" +:+ ", mode="
                +:+ dec_signed (i64_field data "mode") +:+ ", active=" +:+ dec_signed (i64_field data "active_time") +:+ "s"
    | None =>
      match opt_str_field data "token" with
      | Some t => "code=" +:+ code +:+ ", token="
                  +:+ (if (20 <? String.length t)%nat then String.substring 0 20 t else t)
      | None => "code=" +:+ code
      end
    end
  end.

(** ** Requests *)

Record request := Req {
  r_path : string;
  r_method : string;
  r_data : V;
  r_headers : list (string * string);
  r_now_ms : Z;
  r_now : string;    (** the clock while the request is handled *)
  r_now' : string    (** and when its line is logged *)
}.

Definition authorization (headers : list (string * string)) : string :=
  default "" (snd <$> List.find (fun '(field, _) => bool_decide (to_lowercase field = "authorization")) headers).

Definition success (data : option value) : value :=
  Object (("code", Str "000000") :: ("msg", Str "success") :: match data with Some d => [("data", d)] | None => [] end).
Definition token_answer (now_ms : Z) : value :=
  success (Some (Object [("token", Str ("mock-token-" +:+ dec now_ms))])).
Definition empty_jump : value :=
  Object [("source_ip", Str ""); ("target_ip", Str ""); ("gateway", Str ""); ("active_time", Number 0);
          ("aging_time", Number 2); ("mode", Number 1)].

(** The addresses an agent reports; the first counts. *)
Definition report_ips (ips : string) (s : InnerState) : InnerState :=
  if str_is_empty ips then s else set_ip (before_comma ips) s.

(** What follows an instruction that was handed out: the next of the queue, or
    of the rotation, or nothing. *)
Definition move_on (inst : JumpInstruction) (s : InnerState) : InnerState :=
  let sent := wrapping_add 64 (total_jumps_sent s) 1 in
  match instruction_queue s with
  | next :: queue => set_jumps sent queue (Some next) true (cycle_strategy s) s
  | [] =>
    if c_enabled (cycle_strategy s) then
      let '(next, cycle) := next_instruction (before_slash (target_ip_cidr inst)) (cycle_strategy s) in
      if no_target next then set_jumps sent [] None false cycle s else set_jumps sent [] (Some next) true cycle s
    else set_jumps sent [] None false (cycle_strategy s) s
  end.

(** The rotation without an instruction at hand. *)
Definition start_cycle (s : InnerState) : JumpInstruction * InnerState :=
  let '(inst, cycle) := next_instruction (last_agent_ip s) (cycle_strategy s) in
  if no_target inst then
    (JumpInstruction_default,
     set_jumps (total_jumps_sent s) (instruction_queue s) (current_instruction s) (ip_jump_task_pending s) cycle s)
  else
    let sent := wrapping_add 64 (total_jumps_sent s) 1 in
    let '(next, cycle) := next_instruction (j_target_ip inst) cycle in
    (Jump "" (last_agent_ip s) "" 0 0 0 0,
     if no_target next then set_jumps sent (instruction_queue s) (current_instruction s) (ip_jump_task_pending s) cycle s
     else set_jumps sent (instruction_queue s) (Some next) true cycle s).

Definition out_line (now summary : string) : LogEntry := Log now "out" "/v1/getIpJump" summary None.

Definition get_ip_jump (now : string) (s : InnerState) : value * list LogEntry * InnerState :=
  match current_instruction s with
  | Some inst =>
    let s := move_on inst s in
    (success (Some (to_json inst)),
     [out_line now ("QUEUE: " +:+ dec (Z.of_nat (length (instruction_queue s))) +:+ " remaining")], s)
  | None =>
    if c_enabled (cycle_strategy s) then
      let ip := last_agent_ip s in
      let '(inst, s) := start_cycle s in
      if no_target inst then
        (success (Some empty_jump),
         [out_line now ("EMPTY: cycle enabled but ipPool has only " +:+ dec (Z.of_nat (length (ip_pool (cycle_strategy s))))
                        +:+ " IPs (need >=2), lastAgentIp=" +:+ ip)], s)
      else (success (Some (to_json inst)), [], s)
    else
      (success (Some empty_jump), [out_line now "EMPTY: no instruction queued and cycle not enabled"], s)
  end.

Definition put_ip_jump (now : string) (req : V) (s : InnerState) : value * list LogEntry * InnerState :=
  let status := default 0 (get_field req "status" ≫= as_i64) in
  let s := set_jump_status (if status =? 1 then "SUCCESS" else "FAILED") s in
  (success None,
   [Log now "in" "/v1/putIpJump"
      ("Jump result: status=" +:+ dec_signed status +:+ ", src=" +:+ str_field req "source_ip" +:+ ", tgt="
       +:+ str_field req "target_ip" +:+ ", agent=" +:+ str_field req "agent_ip" +:+ ", reason=" +:+ str_field req "reason")
      (Some (Request req))],
   report_ips (str_field req "agent_ip") s).

Definition upload_ip (now : string) (req : V) (s : InnerState) : value * list LogEntry * InnerState :=
  let ips := str_field req "ip" in
  let s := report_ips ips s in
  (success None,
   if str_is_empty ips then []
   else [Log now "in" "/v1/uploadIp" ("IP report: logical_primary=" +:+ last_agent_ip s +:+ ", all=" +:+ ips)
           (Some (Request req))], s).

Definition PLAIN_PATHS : list string :=
  ["/v1/reportTaskCompletion"; "/v1/uploadproc"; "/v1/upload/suffix/exe"; "/v1/getconf"; "/v1/getprotect"; "/v1/closetask"].

(** The answer to a request, the lines to log, and the state. *)
Definition handle (r : request) (s : InnerState) : value * list LogEntry * InnerState :=
  let req := r_data r in
  if bool_decide (r_path r = "/v1/auth") then
    (token_answer (r_now_ms r), [],
     report_ips (str_field req "ip") (set_agent (str_field req "host_name") (str_field req "uid") (str_field req "macid") s))
  else if bool_decide (r_path r = "/v1/gettask") then
    (success (Some (Object [("tasklist", Array (if ip_jump_task_pending s then [Number 37] else []))])), [], s)
  else if bool_decide (r_path r = "/v1/getIpJump") then get_ip_jump (r_now r) s
  else if bool_decide (r_path r = "/v1/putIpJump") then put_ip_jump (r_now r) req s
  else if bool_decide (r_path r = "/v1/uploadIp") then upload_ip (r_now r) req s
  else if bool_decide (r_path r = "/v1/getToken") then (token_answer (r_now_ms r), [], s)
  else if bool_decide (r_path r ∈ PLAIN_PATHS) then (success None, [], s)
  else (success (Some (Object [])), [], s).

Definition two_lines (a b c : string) : string :=
  a +:+ String line_feed ("  >> " +:+ b +:+ String line_feed ("  << " +:+ c)).

Definition main_log (r : request) (resp : value) : LogEntry :=
  let auth_tag := if str_is_empty (authorization (r_headers r)) then "" else " [token]" in
  Log (r_now' r) "in" (r_path r)
    (two_lines (r_method r +:+ " " +:+ r_path r +:+ auth_tag) (summarize_req (r_path r) (r_data r)) (summarize_resp resp))
    (Some (Exchange (r_data r) resp)).

(** The answer and the state after it. *)
Definition route_request (r : request) (s : InnerState) : value * InnerState :=
  let '(resp, pending_logs, s) := handle r (count_request s) in
  (resp, set_logs (take MAX_LOGS (rev pending_logs ++ main_log r resp :: logs s)) s).

(** ** What every request keeps

    A jump is announced as a task exactly while one is at hand, nothing waits
    in the queue while none is, the log is bounded, and the agent's address is
    one address. *)
Definition server_ok (s : InnerState) : Prop :=
  ip_jump_task_pending s = bool_decide (is_Some (current_instruction s))
  /\ (current_instruction s = None -> instruction_queue s = [])
  /\ (length (logs s) <= MAX_LOGS)%nat
  /\ str_mem "," (last_agent_ip s) = false.

Lemma before_comma_one s : str_mem "," (before_comma s) = false.
Proof.
  unfold before_comma. pose proof (split_char_parts "," s) as Hp. destruct (split_char "," s) as [|x l]; [done|].
  by apply Forall_cons in Hp as [? _].
Qed.

Lemma report_ips_ok ips s : server_ok s -> server_ok (report_ips ips s).
Proof.
  intros (Hp & Hq & Hl & Hi). unfold report_ips. destruct (str_is_empty ips); [done|].
  split_and!; [done..|]. apply before_comma_one.
Qed.

Lemma move_on_ok inst s : server_ok s -> server_ok (move_on inst s).
Proof.
  intros (Hp & Hq & Hl & Hi). unfold move_on. destruct (instruction_queue s) as [|next queue]; [|done].
  destruct (c_enabled _); [|done]. destruct (next_instruction _ _) as [next cycle]. by destruct (no_target next).
Qed.

Lemma start_cycle_ok s : server_ok s -> current_instruction s = None -> server_ok (start_cycle s).2.
Proof.
  intros (Hp & Hq & Hl & Hi) Hc. unfold start_cycle. destruct (next_instruction _ _) as [inst cycle].
  destruct (no_target inst); [done|]. destruct (next_instruction _ cycle) as [next cycle'].
  destruct (no_target next); [done|]. split_and!; [done| |done..]. intros [=].
Qed.

Lemma get_ip_jump_ok now s : server_ok s -> server_ok (get_ip_jump now s).2.
Proof.
  intros Hs. unfold get_ip_jump. destruct (current_instruction s) as [inst|] eqn:Ec; [by apply move_on_ok|].
  destruct (c_enabled _); [|done]. pose proof (start_cycle_ok s Hs Ec) as Hc.
  destruct (start_cycle s) as [inst s1]. by destruct (no_target inst).
Qed.

Lemma handle_ok r s : server_ok s -> server_ok (handle r s).2.
Proof.
  intros Hs. unfold handle. repeat case_bool_decide; try done.
  - by apply report_ips_ok.
  - by apply get_ip_jump_ok.
  - by apply report_ips_ok.
  - by apply report_ips_ok.
Qed.

Lemma set_logs_ok l s : (length l <= MAX_LOGS)%nat -> server_ok s -> server_ok (set_logs l s).
Proof. by intros Hn (Hp & Hq & Hl & Hi). Qed.

Lemma log_add_ok e s : server_ok s -> server_ok (log_add e s).
Proof. apply set_logs_ok. rewrite length_take. lia. Qed.

Lemma route_request_ok r s : server_ok s -> server_ok (route_request r s).2.
Proof.
  intros Hs. unfold route_request. assert (server_ok (handle r (count_request s)).2) as Hh by by apply handle_ok.
  destruct (handle r _) as [[resp pending] s1]. apply set_logs_ok; [|done]. rewrite length_take. lia.
Qed.

(** ** The rotation *)

(** An entry of a pool, which must not be written with a prefix. *)
Definition pool_address (ip : string) : Prop := ip <> "" /\ str_mem "/" ip = false.

Lemma start_index_at c i ip :
  NoDup (ip_pool c) -> ip_pool c !! i = Some ip -> start_index ip c = i.
Proof.
  intros Hnd Hi. unfold start_index.
  assert (list_find (fun x => x = ip) (ip_pool c) = Some (i, ip)) as ->; [|done].
  apply list_find_Some. split_and!; [done..|]. intros j y Hj Hlt ->.
  assert (i = j) by (by eapply NoDup_lookup). lia.
Qed.

(** The instruction for one place of the pool. *)
Definition pool_jump (c : CycleStrategy) (i : nat) : JumpInstruction :=
  Jump "" (nth i (ip_pool c) "") (c_gateway c) (c_mode c) (c_active_time c) (c_aging_time c) (c_prefix c).

Lemma next_instruction_from c i ip :
  (2 <= length (ip_pool c))%nat -> start_index ip c = i ->
  next_instruction ip c = (pool_jump c ((i + 1) mod length (ip_pool c)), set_index ((i + 1) mod length (ip_pool c)) c).
Proof. intros Hl Hi. unfold next_instruction. rewrite (proj2 (Nat.ltb_ge _ _)) by lia. by rewrite Hi. Qed.

Lemma pool_jump_target c i :
  Forall pool_address (ip_pool c) -> (i < length (ip_pool c))%nat ->
  ip_pool c !! i = Some (j_target_ip (pool_jump c i)) /\ no_target (pool_jump c i) = false
  /\ before_slash (target_ip_cidr (pool_jump c i)) = j_target_ip (pool_jump c i).
Proof.
  intros Hp Hi. destruct (lookup_lt_is_Some_2 _ _ Hi) as [ip Hip].
  assert (j_target_ip (pool_jump c i) = ip) as E by (simpl; by apply nth_lookup_Some).
  destruct (Forall_lookup_1 _ _ _ _ Hp Hip) as [Hne Hsl]. rewrite E. split; [done|].
  unfold no_target, target_ip_cidr, before_slash, str_is_empty. rewrite !E, Hsl. split; [by apply bool_decide_false|].
  by rewrite str_app_cons, str_app_nil_l, (split_char_app "/"%char ip).
Qed.

(** Requests for the next jump, with nothing queued. *)
Fixpoint fetch_jumps (n : nat) (s : InnerState) : list value * InnerState :=
  match n with
  | O => ([], s)
  | S n => let '(resp, _, s) := get_ip_jump "" s in let '(l, s) := fetch_jumps n s in (resp :: l, s)
  end.

(** once the rotation is under way, successive requests hand out the pool's
    addresses in their order, round after round, each with the operator's
    settings. *)
Theorem rotation_in_order n i s :
  let c := cycle_strategy s in
  let len := length (ip_pool c) in
  c_enabled c = true -> NoDup (ip_pool c) -> Forall pool_address (ip_pool c) -> (2 <= len)%nat -> (i < len)%nat ->
  instruction_queue s = [] -> current_instruction s = Some (pool_jump c i) ->
  (fetch_jumps n s).1 = (fun k => success (Some (to_json (pool_jump c ((i + k) mod len))))) <$> seq 0 n.
Proof.
  intros c len He Hnd Hp Hlen. revert i s c len He Hnd Hp Hlen.
  induction n as [|n IH]; intros i s c len He Hnd Hp Hlen Hi Hq Hc; [done|]. cbn [fetch_jumps].
  destruct (pool_jump_target c i Hp Hi) as (Hat & _ & Hb).
  assert (get_ip_jump "" s = (success (Some (to_json (pool_jump c i))), (get_ip_jump "" s).1.2, move_on (pool_jump c i) s)) as ->.
  { unfold get_ip_jump. rewrite Hc. done. }
  set (j := ((i + 1) mod len)%nat). assert (j < len)%nat as Hj by (apply Nat.mod_upper_bound; lia).
  assert (move_on (pool_jump c i) s = set_jumps (wrapping_add 64 (total_jumps_sent s) 1) [] (Some (pool_jump c j)) true
                                        (set_index j c) s) as ->.
  { unfold move_on. rewrite Hq. fold c. rewrite He, Hb, (next_instruction_from c i) by (done || by apply start_index_at).
    fold len j. destruct (pool_jump_target c j Hp Hj) as (_ & -> & _). done. }
  set (s1 := set_jumps _ _ _ _ _ s). specialize (IH j s1 He Hnd Hp Hlen Hj eq_refl eq_refl).
  destruct (fetch_jumps n s1) as [l s2]. cbn [fst] in *. rewrite IH. cbn [seq]. rewrite fmap_cons. f_equal.
  - rewrite Nat.add_0_r, Nat.mod_small by done. done.
  - rewrite <- fmap_S_seq, <- list_fmap_compose. apply list_fmap_ext. intros _ k _. unfold compose.
    change (length (ip_pool (cycle_strategy s1))) with len. do 3 f_equal. unfold j.
    rewrite Nat.Div0.add_mod_idemp_l. by replace (i + S k)%nat with (i + 1 + k)%nat by lia.
Qed.

(** the first answer of a rotation is not from the pool: the agent is told to
    move to the address it has, with the prefix 0 and none of the operator's
    settings; the address after it is skipped, and the one after that is at
    hand for the next request. *)
Theorem rotation_starts_with_own_address now i s :
  let c := cycle_strategy s in
  let len := length (ip_pool c) in
  c_enabled c = true -> NoDup (ip_pool c) -> Forall pool_address (ip_pool c) -> (2 <= len)%nat ->
  current_instruction s = None -> pool_address (last_agent_ip s) -> start_index (last_agent_ip s) c = i ->
  (get_ip_jump now s).1.1
  = success (Some (Object [("source_ip", Str ""); ("target_ip", Str (last_agent_ip s +:+ "/0")); ("gateway", Str "");
                           ("mode", Number 0); ("active_time", Number 0); ("aging_time", Number 0)]))
  /\ current_instruction (get_ip_jump now s).2 = Some (pool_jump c ((i + 2) mod len)).
Proof.
  intros c len He Hnd Hp Hlen Hc [Hne Hsl] Hi. unfold get_ip_jump. rewrite Hc. fold c. rewrite He.
  set (j := ((i + 1) mod len)%nat). set (k := ((j + 1) mod len)%nat).
  assert (j < len)%nat as Hj by (apply Nat.mod_upper_bound; lia).
  assert (k < len)%nat as Hk by (apply Nat.mod_upper_bound; lia).
  assert (k = ((i + 2) mod len)%nat) as <-.
  { unfold k, j. rewrite Nat.Div0.add_mod_idemp_l. by replace (i + 2)%nat with (i + 1 + 1)%nat by lia. }
  destruct (pool_jump_target c j Hp Hj) as (Hat & Htj & _), (pool_jump_target c k Hp Hk) as (_ & Htk & _).
  assert (start_cycle s = (Jump "" (last_agent_ip s) "" 0 0 0 0,
            set_jumps (wrapping_add 64 (total_jumps_sent s) 1) (instruction_queue s) (Some (pool_jump c k)) true
              (set_index k (set_index j c)) s)) as ->.
  { unfold start_cycle. fold c. rewrite (next_instruction_from c i) by done. fold len j. rewrite Htj.
    rewrite (next_instruction_from (set_index j c) j) by (done || by apply start_index_at).
    change (ip_pool (set_index j c)) with (ip_pool c). fold len k.
    change (pool_jump (set_index j c) k) with (pool_jump c k). by rewrite Htk. }
  unfold no_target, str_is_empty. cbn [j_target_ip]. rewrite bool_decide_false by done. split; [|done].
  cbn [fst snd]. unfold to_json, target_ip_cidr. cbn [j_target_ip]. by rewrite Hsl.
Qed.
End server.

(** ** Instances *)

Module MockDemo.

#[local] Instance demo_text : JsonText value := {|
  from_str _ := Err ""; is_object v := match v with Object _ => true | _ => false end;
  to_text v := match v with Array [] => "[]" | Array _ => "[37]" | _ => "" end; de_error _ _ := ""
|}.

Definition pool : CycleStrategy := Cycle true ["10.0.0.1"; "10.0.0.2"; "10.0.0.3"] "10.0.0.254" 1 30 0 24 0.

Definition rotating (at_hand : option JumpInstruction) : InnerState (V := value) :=
  Inner true 8080 "0.0.0.0" "" "" "" "10.0.0.1" "" 0 0 [] at_hand (bool_decide (is_Some at_hand)) pool [].

Lemma pool_ok : NoDup (ip_pool pool) /\ Forall pool_address (ip_pool pool).
Proof. split; [apply (bool_decide_unpack _); vm_compute; done|]. by repeat constructor. Qed.

Lemma rotation_in_order_witness :
  (fetch_jumps 4 (rotating (Some (pool_jump pool 2)))).1
  = (fun i => success (Some (to_json (pool_jump pool i)))) <$> [2; 0; 1; 2]%nat.
Proof.
  rewrite (rotation_in_order 4 2 (rotating (Some (pool_jump pool 2)))); [reflexivity|done|apply pool_ok|apply pool_ok|simpl; lia..|done|done].
Defined.

Lemma rotation_starts_with_own_address_witness :
  current_instruction (get_ip_jump "" (rotating None)).2 = Some (pool_jump pool 2).
Proof.
  apply (rotation_starts_with_own_address "" 0 (rotating None));
    [done|apply pool_ok|apply pool_ok|simpl; lia|done|done|reflexivity].
Defined.

(** A session: the operator's jump is announced, fetched and reported. *)
Definition ask (path : string) (data : value) : request := Req path "POST" data [("Authorization", "t")] 7 "12:00:00" "12:00:01".

Example session :
  let s := set_jumps 0 [] (Some (Jump "10.0.0.1/24" "10.0.0.9" "" 1 0 2 24)) true CycleStrategy_default InnerState_default in
  let '(tasks, s) := route_request (ask "/v1/gettask" Null) s in
  let '(jump, s) := route_request (ask "/v1/getIpJump" Null) s in
  let '(_, s) := route_request (ask "/v1/putIpJump" (Object [("status", Number 1); ("agent_ip", Str "10.0.0.9,10.0.0.1")])) s in
  (l_summary <$> head (logs s), last_agent_ip s, last_jump_status s, ip_jump_task_pending s, length (logs s))
  = (Some "Jump result: status=1, src=, tgt=, agent=10.0.0.9,10.0.0.1, reason=", "10.0.0.9", "SUCCESS", false, 5%nat)
  /\ get_field jump "data" = Some (Object [("source_ip", Str "10.0.0.1"); ("target_ip", Str "10.0.0.9/24"); ("gateway", Str "");
                                           ("mode", Number 1); ("active_time", Number 0); ("aging_time", Number 2)]).
Proof. vm_compute. split; reflexivity. Qed.
End MockDemo.
