(* ===== verification/JumpController.v ===== *)
(** * The jump controller

    [ip_jump_controller_egui/src/main.rs]: the operator's program around the
    server of [MockServer].  Modelled are its actions (queueing jumps, the
    settings of the rotation, starting and stopping the server's thread,
    redirecting an agent's configuration file and restoring it, reading the
    network's state), and the parts of the drawing code that can panic; the
    rest of the drawing is left out. *)

From Stdlib Require Import Ascii.
From S2P Require Import Prelude RustStr Bytes Json Shell Host NetInfo IpJump JumpDaemon TaskFetcher MockServer.

(** ** Text fields *)

(** [text.parse::<i32>().unwrap_or(d)]. *)
Definition parse_i32 (d : Z) (s : string) : Z := default d (parse_int 32 s).

Definition parse_pool (s : string) : list string :=
  retain (fun x => negb (str_is_empty x)) (trim <$> split_char "," s).

(** [&s[..n]], which panics inside a character. *)
Definition slice_to (n : nat) (s : string) : outcome string :=
  match String.get n s with
  | Some a => if (128 <=? ascii_code a) && (ascii_code a <? 192) then Panic else Done (String.substring 0 n s)
  | None => if (n =? String.length s)%nat then Done s else Panic
  end.

(** The identity the panel shows of the agent. *)
Definition uid_short (uid : string) : outcome string :=
  let uid := if str_is_empty uid then "-" else uid in
  if (12 <? String.length uid)%nat then slice_to 12 uid else Done uid.

(** The port of a socket address: digits only, below 2^16. *)
Definition socket_port (s : string) : option Z :=
  if str_is_empty s then None else n ← digits_val 0 s; if n <? 2 ^ 16 then Some n else None.

(** [test_connection]: what the status line says, given what the connection to an
    address yields. *)
Definition test_connection (connect : string -> result string string) (port_str : string) : outcome string :=
  match socket_port port_str with
  | None => Panic
  | Some _ =>
    match connect ("127.0.0.1:" +:+ port_str) with
    | Ok resp =>
      preview ← (if (200 <? String.length resp)%nat then p ← slice_to 200 resp; Done (p +:+ "...") else Done resp);
      Done ("Mock server OK! Response: " +:+ preview)
    | Err e => Done ("Connection FAILED: " +:+ e)
    end
  end.

(** ** The queue and the rotation *)

(** The fields of the two forms. *)
Record jump_form := JumpForm {
  f_src_ip : string; f_tgt_ip : string; f_gateway : string; f_mode : Z;
  f_active_time : string; f_aging_time : string; f_prefix : string
}.
Record cycle_form := CycleForm {
  f_enabled : bool; f_pool : string; f_cycle_gw : string; f_interval : string; f_cycle_prefix : string; f_cycle_mode : Z
}.

Definition form_instruction (f : jump_form) : JumpInstruction :=
  Jump (f_src_ip f) (f_tgt_ip f) (f_gateway f) (f_mode f) (parse_i32 0 (f_active_time f)) (parse_i32 2 (f_aging_time f))
    (parse_i32 24 (f_prefix f)).

Section controller.
Context {V : Type} `{JsonValue V} `{JsonText value}.

Abbreviation state := (InnerState (V := V)).

(** What [update] copies from the form into the strategy on every frame. *)
Definition sync_cycle (f : cycle_form) (s : state) : state :=
  let c := cycle_strategy s in
  set_jumps (total_jumps_sent s) (instruction_queue s) (current_instruction s) (ip_jump_task_pending s)
    (Cycle (f_enabled f) (parse_pool (f_pool f)) (f_cycle_gw f) (f_cycle_mode f) (parse_i32 30 (f_interval f))
       (c_aging_time c) (parse_i32 24 (f_cycle_prefix f)) (current_index c)) s.

(** The status line the operator sees. *)
Definition queue_status (f : jump_form) : string :=
  if str_is_empty (f_tgt_ip f) then "Target IP is required"
  else
    let inst := form_instruction f in
    let src := if str_is_empty (j_source_ip inst) then "auto" else j_source_ip inst in
    "Jump queued: " +:+ src +:+ " -> " +:+ j_target_ip inst +:+ "/" +:+ dec_signed (j_prefix inst)
      +:+ " (mode=" +:+ dec_signed (j_mode inst) +:+ ")".

(** The new instruction goes behind the queue, and the first of the queue is
    made current when none is; [queue_status] says what was done. *)
Definition do_queue_jump (f : jump_form) (s : state) : state :=
  if str_is_empty (f_tgt_ip f) then s
  else
    let queue := instruction_queue s ++ [form_instruction f] in
    let '(current, queue) := match current_instruction s, queue with
                             | None, j :: rest => (Some j, rest)
                             | c, _ => (c, queue)
                             end in
    set_jumps (total_jumps_sent s) queue current
      (if bool_decide (is_Some current) then true else ip_jump_task_pending s) (cycle_strategy s) s.

Definition clear_queue (s : state) : state :=
  set_jumps (total_jumps_sent s) [] (current_instruction s) (ip_jump_task_pending s) (cycle_strategy s) s.
Definition clear_logs (s : state) : state := set_logs [] s.

(** ** The server's thread *)

Inductive phase := Starting | Serving.

(** The state, the flag the threads look at, and the threads with their
    addresses, oldest first. *)
Record control := Control { inner : state; server_running : bool; threads : list (string * phase) }.

Definition control_new : control := Control InnerState_default false [].

Definition note (time summary : string) : LogEntry (V := V) := Log time "out" "" summary None.

Definition start_server (time port_str bind_addr : string) (c : control) : control :=
  let port := default 8080 (parse_uint 16 port_str) in
  let addr := bind_addr +:+ ":" +:+ dec port in
  Control (log_add (note time ("Server started on " +:+ addr)) (set_running true port bind_addr (inner c))) true
    (threads c ++ [(addr, Starting)]).

Definition stop_server (c : control) : control :=
  Control (set_running false (port (inner c)) (bind_address (inner c)) (inner c)) false (threads c).

(** A thread that ends says so and puts the display to stopped. *)
Definition end_thread (time summary : string) (i : nat) (c : control) : control :=
  let s := log_add (note time summary) (inner c) in
  Control (set_running false (port s) (bind_address s) s) (server_running c) (take i (threads c) ++ drop (S i) (threads c)).

(** One step of the program: the operator presses a button that is shown, or a
    thread goes on.  An address that one thread serves cannot be bound again. *)
Inductive step : control -> control -> Prop :=
| PressStart time port_str bind_addr c :
    is_running (inner c) = false -> step c (start_server time port_str bind_addr c)
| PressStop c : is_running (inner c) = true -> step c (stop_server c)
| Queue f c : step c (Control (do_queue_jump f (inner c)) (server_running c) (threads c))
| ClearQueue c : step c (Control (clear_queue (inner c)) (server_running c) (threads c))
| ClearLogs c : step c (Control (clear_logs (inner c)) (server_running c) (threads c))
| Frame f c : step c (Control (sync_cycle f (inner c)) (server_running c) (threads c))
| Bound i addr c :
    threads c !! i = Some (addr, Starting) -> (addr, Serving) ∉ threads c ->
    step c (Control (inner c) (server_running c) (<[i := (addr, Serving)]> (threads c)))
| NotBound i addr time e c :
    threads c !! i = Some (addr, Starting) -> step c (end_thread time ("Failed to start server: " +:+ e) i c)
| Serve i addr r c :
    threads c !! i = Some (addr, Serving) -> server_running c = true ->
    step c (Control (route_request r (inner c)).2 (server_running c) (threads c))
| Stopped i addr time c :
    threads c !! i = Some (addr, Serving) -> server_running c = false -> step c (end_thread time "Server stopped" i c)
| Broken i addr time c :
    threads c !! i = Some (addr, Serving) -> step c (end_thread time "Server stopped" i c).
End controller.

(** ** The agent's configuration file *)

Definition replace_line (text prefix replacement : string) : string :=
  unlines ((fun line => if starts_with prefix (trim_start line) then replacement else line) <$> lines text).

(** The text with another server. *)
Definition redirect (bind port content : string) : string :=
  let t := replace_line content "SERVERIPPORT=" ("SERVERIPPORT=http://" +:+ bind +:+ ":" +:+ port) in
  let t := replace_line t "SERVER_IP=" ("SERVER_IP=" +:+ bind) in
  replace_line t "SERVER_PORT=" ("SERVER_PORT=" +:+ port).

Section files.
Context {W : Type} `{Os W} `{Files W} `{Disk W}.

(** The status line, where there is one. *)
Definition update_net_info (path bind port : string) : io (host W) (option string) :=
  r ← look (read_text path);
  match r with
  | Err _ => mret (Some ("Config file not found: " +:+ path))
  | Ok content =>
    _ ← write_out (WriteFile (path +:+ ".bak") content);
    w ← write_out (WriteFile path (redirect bind port content));
    mret (if is_ok w then Some ("Updated " +:+ path +:+ " -> http://" +:+ bind +:+ ":" +:+ port) else None)
  end.

Definition restore_net_info (path : string) : io (host W) string :=
  r ← look (read_text (path +:+ ".bak"));
  match r with
  | Ok c => _ ← write_out (WriteFile path c); mret "Restored from backup"
  | Err _ => mret "No backup file found"
  end.

(** ** The network's state *)

(** The word after the first [inet], without its prefix. *)
Fixpoint inet_word (parts : list string) : string :=
  match parts with
  | p :: rest => match rest with
                 | q :: _ => if bool_decide (p = "inet") then before_slash q else inet_word rest
                 | [] => ""
                 end
  | [] => ""
  end.

Fixpoint detect_source (ls : list string) : string :=
  match ls with
  | [] => ""
  | line :: ls =>
    if contains "inet " line && negb (contains "127.0.0.1" line) then
      let ip := inet_word (split_whitespace line) in if str_is_empty ip then detect_source ls else ip
    else detect_source ls
  end.

Fixpoint detect_gateway (ls : list string) : string :=
  match ls with
  | [] => ""
  | line :: ls => match find_after "via " line ≫= fun rest => head (split_whitespace rest) with
                  | Some gw => gw
                  | None => detect_gateway ls
                  end
  end.

Definition run_ip (argv : list string) : io (host W) string :=
  r ← output_of "ip" argv; mret (match r with Ok o => from_utf8_lossy (stdout o) | Err _ => "" end).

(** The text shown, and the two fields where they were empty. *)
Definition detect_network (src_ip gateway : string) : io (host W) (string * string * string) :=
  ip_out ← run_ip ["-o"; "-4"; "addr"; "show"];
  route_out ← run_ip ["route"; "show"; "default"];
  mret (ip_out +:+ String line_feed route_out,
        if str_is_empty src_ip then detect_source (lines ip_out) else src_ip,
        if str_is_empty gateway then detect_gateway (lines route_out) else gateway).
End files.

(** ** What every step keeps *)

Section invariant.
Context {V : Type} `{JsonValue V} `{JsonText value}.

Lemma do_queue_jump_ok f (s : InnerState (V := V)) : server_ok s -> server_ok (do_queue_jump f s).
Proof.
  intros (Hp & Hq & Hl & Hi). unfold do_queue_jump. destruct (str_is_empty _); [done|].
  destruct (current_instruction s) as [j|] eqn:Ec.
  - by split_and!.
  - rewrite Hq by done. simpl. done.
Qed.

Lemma clear_queue_ok (s : InnerState (V := V)) : server_ok s -> server_ok (clear_queue s).
Proof. by intros (Hp & Hq & Hl & Hi). Qed.

Lemma set_running_ok b p a (s : InnerState (V := V)) : server_ok s -> server_ok (set_running b p a s).
Proof. by intros (Hp & Hq & Hl & Hi). Qed.

Lemma end_thread_ok time summary i (c : control (V := V)) : server_ok (inner c) -> server_ok (inner (end_thread time summary i c)).
Proof. intros Hs. by apply set_running_ok, log_add_ok. Qed.

Lemma step_ok (c c' : control (V := V)) : step c c' -> server_ok (inner c) -> server_ok (inner c').
Proof.
  intros Hs Hc. destruct Hs; cbn [inner].
  - by apply log_add_ok, set_running_ok.
  - by apply set_running_ok.
  - by apply do_queue_jump_ok.
  - by apply clear_queue_ok.
  - apply set_logs_ok; [simpl; lia|done].
  - by destruct Hc as (? & ? & ? & ?).
  - done.
  - by apply end_thread_ok.
  - by apply route_request_ok.
  - by apply end_thread_ok.
  - by apply end_thread_ok.
Qed.

(** Addresses being served. *)
Definition served (l : list (string * phase)) : list string :=
  omap (fun '(addr, p) => match p with Serving => Some addr | Starting => None end) l.

Lemma elem_of_served addr l : addr ∈ served l <-> (addr, Serving) ∈ l.
Proof.
  unfold served. rewrite list_elem_of_omap. split.
  - intros ([a []] & Hin & E); [done|]. by injection E as ->.
  - intros Hin. by exists (addr, Serving).
Qed.

Lemma served_app l1 l2 : served (l1 ++ l2) = served l1 ++ served l2.
Proof. apply omap_app. Qed.

Lemma served_without i l : served (take i l ++ drop (S i) l) `sublist_of` served l.
Proof.
  rewrite <- (take_drop i l) at 3. rewrite !served_app. apply sublist_app; [done|].
  destruct (drop i l) as [|[a p] r] eqn:E.
  - replace (drop (S i) l) with (@nil (string * phase)); [done|]. rewrite <- Nat.add_1_r, <- drop_drop, E. done.
  - replace (drop (S i) l) with r by (rewrite <- Nat.add_1_r, <- drop_drop, E; done).
    destruct p; [done|]. simpl. by apply sublist_cons.
Qed.

Lemma step_served (c c' : control (V := V)) : step c c' -> NoDup (served (threads c)) -> NoDup (served (threads c')).
Proof.
  assert (forall i l, NoDup (served l) -> NoDup (served (take i l ++ drop (S i) l))) as Hw.
  { intros i l Hl. eapply sublist_NoDup; [exact Hl|apply served_without]. }
  intros Hs Hc. destruct Hs as [| | | | | |i addr c Hi Hn| | | |]; cbn [threads start_server stop_server end_thread]; auto.
  - by rewrite served_app, app_nil_r.
  - rewrite <- (take_drop_middle _ _ _ Hi) in Hc. rewrite (insert_take_drop _ i) by (by eapply lookup_lt_Some).
    rewrite served_app in *. simpl in *. apply NoDup_app in Hc as (H1 & Hd & H2). rewrite <- elem_of_served in Hn.
    rewrite <- (take_drop_middle _ _ _ Hi), served_app, not_elem_of_app in Hn. destruct Hn as [Hn1 Hn2]. simpl in Hn2.
    apply NoDup_app. split_and!; [done| |by constructor]. intros x Hx. rewrite not_elem_of_cons. split; [by intros ->|by apply Hd].
Qed.

(** C26: whatever the operator does and the agents ask, and however the threads
    interleave: a jump is announced to agents exactly while one is at hand, no
    jump waits behind nothing, the log keeps to its bound, and no address is
    served twice. *)
Theorem controller_invariant (c : control (V := V)) :
  rtc step control_new c -> server_ok (inner c) /\ NoDup (served (threads c)).
Proof.
  assert (forall c0 : control (V := V), rtc step c0 c -> server_ok (inner c0) -> NoDup (served (threads c0)) ->
    server_ok (inner c) /\ NoDup (served (threads c))) as Hind.
  { induction 1 as [|c0 c1 c2 Hs Hr IH]; [done|]. intros H1 H2. apply IH; [by eapply step_ok|by eapply step_served]. }
  intros Hr. apply (Hind _ Hr); [|constructor]. split_and!; [done..| |done]. simpl. lia.
Qed.
End invariant.

(** ** Jumps are handed out in order

    While nothing rotates, the controller is a queue: what the operator enters
    is given to the agents once and in order; clearing keeps the one at hand. *)

Section queue.
Context {V : Type} `{JsonValue V} `{JsonText value}.

Inductive event :=
| Enter (f : jump_form)
| Clear
| Settings (f : cycle_form)
| Ask (r : request (V := V)).

Definition is_fetch (r : request (V := V)) : bool := bool_decide (r_path r = "/v1/getIpJump").

(** The answer to a fetch, and the state. *)
Definition happen (e : event) (s : InnerState (V := V)) : option value * InnerState :=
  match e with
  | Enter f => (None, do_queue_jump f s)
  | Clear => (None, clear_queue s)
  | Settings f => (None, sync_cycle f s)
  | Ask r => let '(resp, s) := route_request r s in (if is_fetch r then Some resp else None, s)
  end.

(** The same of a queue. *)
Definition spec_happen (e : event) (q : list JumpInstruction) : option value * list JumpInstruction :=
  match e with
  | Enter f => (None, if str_is_empty (f_tgt_ip f) then q else q ++ [form_instruction f])
  | Clear => (None, take 1 q)
  | Settings _ => (None, q)
  | Ask r => if is_fetch r then
               (Some (success (Some (match q with j :: _ => to_json j | [] => empty_jump end))), tail q)
             else (None, q)
  end.

Fixpoint run {S} (f : event -> S -> option value * S) (es : list event) (s : S) : list value * S :=
  match es with
  | [] => ([], s)
  | e :: es => let '(o, s) := f e s in let '(l, s) := run f es s in (option_list o ++ l, s)
  end.

(** The queue a state stands for. *)
Definition queued (s : InnerState (V := V)) : list JumpInstruction :=
  option_list (current_instruction s) ++ instruction_queue s.

Definition still (e : event) : Prop := match e with Settings f => f_enabled f = false | _ => True end.

Lemma get_ip_jump_queue now (s : InnerState (V := V)) :
  server_ok s -> c_enabled (cycle_strategy s) = false ->
  (get_ip_jump now s).1.1 = success (Some (match queued s with j :: _ => to_json j | [] => empty_jump end))
  /\ queued (get_ip_jump now s).2 = tail (queued s)
  /\ c_enabled (cycle_strategy (get_ip_jump now s).2) = false.
Proof.
  intros (_ & Hq & _) He. unfold get_ip_jump, queued. destruct (current_instruction s) as [j|] eqn:Ec.
  - unfold move_on. simpl. destruct (instruction_queue s) as [|next queue]; simpl; [|done]. by rewrite He.
  - rewrite He, (Hq eq_refl). cbn [fst snd]. by rewrite Ec, (Hq eq_refl).
Qed.

Lemma other_request_queue (r : request (V := V)) s :
  is_fetch r = false ->
  queued (handle r s).2 = queued s /\ cycle_strategy (handle r s).2 = cycle_strategy s.
Proof.
  unfold is_fetch, handle, put_ip_jump, upload_ip, report_ips. intros ->.
  repeat case_bool_decide; try done; by destruct (str_is_empty _).
Qed.

Lemma happen_queue e (s : InnerState (V := V)) :
  server_ok s -> c_enabled (cycle_strategy s) = false -> still e ->
  (happen e s).1 = (spec_happen e (queued s)).1 /\ queued (happen e s).2 = (spec_happen e (queued s)).2
  /\ server_ok (happen e s).2 /\ c_enabled (cycle_strategy (happen e s).2) = false.
Proof.
  intros Hs He Hst. destruct e as [f| |f|r]; cbn [happen spec_happen fst snd].
  - split; [done|]. split; [|split; [by apply do_queue_jump_ok|]].
    + destruct Hs as (_ & Hq & _). unfold do_queue_jump, queued. destruct (str_is_empty _); [done|].
      destruct (current_instruction s) as [j|]; [done|]. by rewrite (Hq eq_refl).
    + unfold do_queue_jump. destruct (str_is_empty _); [done|].
      by destruct (current_instruction s), (instruction_queue s).
  - split; [done|]. split; [|split; [by apply clear_queue_ok|done]]. destruct Hs as (_ & Hq & _).
    unfold clear_queue, queued. cbn [current_instruction instruction_queue set_jumps].
    destruct (current_instruction s) as [j|]; [by destruct (instruction_queue s)|]. by rewrite (Hq eq_refl).
  - split; [done|]. split; [done|]. split; [|done]. by destruct Hs as (? & ? & ? & ?).
  - pose proof (route_request_ok r s Hs) as Hok.
    assert (server_ok (count_request s)) as Hc by by destruct Hs as (? & ? & ? & ?).
    unfold route_request in *. destruct (is_fetch r) eqn:Ef.
    + assert (handle r (count_request s) = get_ip_jump (r_now r) (count_request s)) as Eh.
      { unfold is_fetch in Ef. unfold handle. apply bool_decide_eq_true in Ef. by rewrite Ef. }
      rewrite Eh in *. pose proof (get_ip_jump_queue (r_now r) _ Hc He) as (E1 & E2 & E3).
      destruct (get_ip_jump _ _) as [[resp l] s1]. cbn [fst snd] in *.
      split; [by rewrite E1|]. split; [exact E2|]. split; [exact Hok|exact E3].
    + pose proof (other_request_queue r (count_request s) Ef) as [E1 E2].
      destruct (handle r _) as [[resp l] s1]. cbn [fst snd] in *.
      split; [done|]. split; [exact E1|]. split; [exact Hok|]. cbn [cycle_strategy set_logs]. by rewrite E2.
Qed.

(** C25: whatever the operator enters and clears and whatever agents ask in between,
    the answers to their fetches are those of a queue. *)
Theorem jumps_in_order es (s : InnerState (V := V)) :
  server_ok s -> c_enabled (cycle_strategy s) = false -> Forall still es ->
  (run happen es s).1 = (run spec_happen es (queued s)).1 /\ queued (run happen es s).2 = (run spec_happen es (queued s)).2.
Proof.
  intros Hs He Hes. revert s Hs He. induction Hes as [|e es Hst Hes IH]; intros s Hs He; [done|]. cbn [run].
  destruct (happen_queue e s Hs He Hst) as (E1 & E2 & Hs' & He').
  destruct (happen e s) as [o s1], (spec_happen e (queued s)) as [o' q1]. simpl in *. subst o' q1.
  destruct (IH s1 Hs' He') as [E3 E4]. destruct (run happen es s1), (run spec_happen es (queued s1)). simpl in *.
  by rewrite E3.
Qed.
End queue.

(** ** Starting and stopping *)

Section threads.
Context {V : Type} `{JsonValue V} `{JsonText value}.

Lemma move_on_running inst (s : InnerState (V := V)) : is_running (move_on inst s) = is_running s.
Proof.
  unfold move_on. destruct (instruction_queue s); [|done]. destruct (c_enabled _); [|done].
  destruct (next_instruction _ _) as [n c]. by destruct (no_target n).
Qed.

Lemma start_cycle_running (s : InnerState (V := V)) : is_running (start_cycle s).2 = is_running s.
Proof.
  unfold start_cycle. destruct (next_instruction _ _) as [n c]. destruct (no_target n); [done|].
  destruct (next_instruction _ c) as [n' c']. by destruct (no_target n').
Qed.

Lemma get_ip_jump_running now (s : InnerState (V := V)) : is_running (get_ip_jump now s).2 = is_running s.
Proof.
  unfold get_ip_jump. destruct (current_instruction s); [apply move_on_running|]. destruct (c_enabled _); [|done].
  pose proof (start_cycle_running s) as Hs. destruct (start_cycle s) as [n s1]. by destruct (no_target n).
Qed.

Lemma route_is_running r (s : InnerState (V := V)) : is_running (route_request r s).2 = is_running s.
Proof.
  assert (is_running (handle r (count_request s)).2 = is_running s) as Hh.
  { unfold handle, put_ip_jump, upload_ip, report_ips.
    repeat case_bool_decide; try done; try (by destruct (str_is_empty _)). by rewrite get_ip_jump_running. }
  unfold route_request. destruct (handle r _) as [[resp l] s1]. exact Hh.
Qed.

Lemma do_queue_running f (s : InnerState (V := V)) : is_running (do_queue_jump f s) = is_running s.
Proof. unfold do_queue_jump. destruct (str_is_empty _); [done|]. by destruct (current_instruction s), (instruction_queue s). Qed.

(** The display agrees with the threads. *)
Definition display_true (c : control (V := V)) : Prop :=
  (length (threads c) <= 1)%nat
  /\ (is_running (inner c) = true <-> server_running c = true /\ threads c <> []).

Lemma end_only_thread time summary i t (c : control (V := V)) :
  (length (threads c) <= 1)%nat -> threads c !! i = Some t -> threads (end_thread time summary i c) = [].
Proof.
  unfold end_thread. cbn [threads]. destruct (threads c) as [|t0 [|t1 l]]; [done| |simpl; lia].
  by destruct i.
Qed.

Lemma display_step (c c' : control (V := V)) :
  step c c' -> (length (threads c') <= 1)%nat -> display_true c -> display_true c'.
Proof.
  intros Hs Hl [Hl0 Hd]. split; [done|].
  assert (forall time summary i t, threads c !! i = Some t ->
    is_running (inner (end_thread time summary i c)) = true <->
    server_running (end_thread time summary i c) = true /\ threads (end_thread time summary i c) <> []) as Hend.
  { intros time summary i t Hi. rewrite (end_only_thread _ _ _ _ _ Hl0 Hi). split; [done|]. by intros [_ ?]. }
  destruct Hs as [time p a c Hr|c Hr|f c|c|c|f c|i addr c Hi _|i addr time e c Hi|i addr r c Hi Hf|i addr time c Hi Hf|i addr time c Hi].
  - simpl. split; [|done]. intros _. split; [done|]. by destruct (threads c).
  - simpl. split; [done|]. by intros [? _].
  - cbn [inner]. by rewrite do_queue_running.
  - done.
  - done.
  - done.
  - cbn [inner server_running threads]. rewrite Hd. split; intros [E Hne]; split; try done.
    + intros E0. apply (f_equal length) in E0. rewrite length_insert in E0. by destruct (threads c).
    + intros E0. rewrite E0 in Hi. done.
  - by eapply Hend.
  - cbn [inner]. by rewrite route_is_running.
  - by eapply Hend.
  - by eapply Hend.
Qed.

(** as long as a server is only started when the last one's thread has ended,
    the panel says that one runs exactly when it does. *)
Theorem display_true_when_patient (c : control (V := V)) :
  rtc (fun c c' => step c c' /\ (length (threads c') <= 1)%nat) control_new c -> display_true c.
Proof.
  assert (forall c0 : control (V := V), rtc (fun c c' => step c c' /\ (length (threads c') <= 1)%nat) c0 c ->
    display_true c0 -> display_true c) as Hind.
  { induction 1 as [|c0 c1 c2 [Hs Hl] Hr IH]; [done|]. intros Hd. by apply IH, (display_step c0). }
  intros Hr. apply (Hind _ Hr). split; [simpl; lia|]. simpl. naive_solver.
Qed.

(** but a quick restart hides the server: the flag is up again before the first
    thread has seen it down, so that this one goes on serving, the second
    cannot bind and puts the display to stopped; the button to stop is gone. *)
Theorem restart_hides_server :
  exists c : control (V := V),
    rtc step control_new c /\ is_running (inner c) = false /\ server_running c = true
    /\ ("0.0.0.0:8080", Serving) ∈ threads c.
Proof.
  set (c1 := start_server "" "8080" "0.0.0.0" (control_new (V := V))).
  set (c2 := Control (inner c1) (server_running c1) (<[0%nat := ("0.0.0.0:8080", Serving)]> (threads c1))).
  set (c4 := start_server "" "8080" "0.0.0.0" (stop_server c2)).
  exists (end_thread "" ("Failed to start server: " +:+ "in use") 1 c4).
  split; [|split; [done|]; split; [done|]; left].
  eapply (rtc_l _ _ c1); [by apply PressStart|]. eapply (rtc_l _ _ c2); [apply (Bound 0 "0.0.0.0:8080"); [done|]|].
  { intros Hin. apply list_elem_of_singleton in Hin. done. }
  eapply (rtc_l _ _ (stop_server c2)); [by apply PressStop|]. eapply (rtc_l _ _ c4); [by apply PressStart|].
  eapply rtc_once, (NotBound 1 "0.0.0.0:8080"). done.
Qed.

Lemma get_length n t a : String.get n t = Some a -> (n < String.length t)%nat.
Proof. revert n. induction t as [|b t IH]; intros [|n] E; simpl in *; try done; [lia|]. apply IH in E. lia. Qed.

(** an agent can end the controller: one whose identity has more than twelve
    bytes and a character across the twelfth makes the panel panic. *)
Theorem agent_stops_panel r (s : InnerState (V := V)) a :
  r_path r = "/v1/auth" -> String.get 12 (str_field (r_data r) "uid") = Some a -> 128 <= ascii_code a < 192 ->
  uid_short (agent_uid (route_request r s).2) = Panic.
Proof.
  intros Hp Ha Hc. assert (agent_uid (route_request r s).2 = str_field (r_data r) "uid") as ->.
  { unfold route_request, handle, report_ips. rewrite Hp. simpl. by destruct (str_is_empty _). }
  unfold uid_short. set (uid := str_field _ _) in *.
  assert (12 < String.length uid)%nat as Hl by by eapply get_length.
  unfold str_is_empty. rewrite bool_decide_false by (intros E; rewrite E in Hl; simpl in Hl; lia).
  rewrite (proj2 (Nat.ltb_lt _ _) Hl). unfold slice_to. rewrite Ha.
  by rewrite (proj2 (Z.leb_le _ _)), (proj2 (Z.ltb_lt _ _)) by lia.
Qed.
End threads.

(** ** What the agent makes of the answers *)

Section agent.
Context {V : Type} `{JsonValue V} `{JsonText value}.

(** [i32] numbers. *)
Definition jump_typed (j : JumpInstruction) : Prop := - 2 ^ 31 <= j_active_time j < 2 ^ 31.

Lemma instruction_of_json j :
  jump_typed j ->
  instruction_of (to_json j) = Instr (source_ip_bare j) (target_ip_cidr j) (j_gateway j) (Z.max 0 (j_active_time j)).
Proof.
  intros Ht. unfold jump_typed in Ht. unfold instruction_of, uint_field. simpl. f_equal.
  case_bool_decide as E; simpl; unfold is_uint in *.
  - unfold wrap. rewrite Z.mod_small by lia. lia.
  - rewrite wrap_id by (unfold is_uint; lia). lia.
Qed.

(** C27: an agent is told to fetch a jump exactly when one is at hand, and reads from
    the answer the addresses the operator entered and the gateway; a negative
    interval reads as none. *)
Theorem agent_reads_jump r r' (s : InnerState (V := V)) :
  server_ok s -> r_path r = "/v1/gettask" -> r_path r' = "/v1/getIpJump" ->
  task_ids (route_request r s).1 = (if bool_decide (is_Some (current_instruction s)) then [37] else [])
  /\ forall j, current_instruction s = Some j -> jump_typed j ->
     exists data, get_field (route_request r' (route_request r s).2).1 "data" = Some data
       /\ instruction_of data = Instr (source_ip_bare j) (target_ip_cidr j) (j_gateway j) (Z.max 0 (j_active_time j)).
Proof.
  intros (Hp & _) Hr Hr'. unfold route_request at 1 3. unfold handle at 1 2. rewrite Hr. split.
  - simpl. rewrite Hp. by case_bool_decide.
  - intros j Hj Ht. exists (to_json j). split; [|by apply instruction_of_json].
    unfold route_request, handle. rewrite Hr'. cbn. unfold get_ip_jump. simpl. by rewrite Hj.
Qed.
End agent.

(** ** Redirecting an agent *)

(** One setting replaced, in every section that has it. *)
Definition replace_value (key value : string) (secs : list (string * list (string * string)))
    : list (string * list (string * string)) :=
  (fun '((name, kvs) : string * list (string * string)) =>
     (name, (fun '((k, v) : string * string) => (k, if bool_decide (k = key) then value else v)) <$> kvs)) <$> secs.

Lemma upper_not_space a : upper_char a = true -> Ascii.is_space a = false.
Proof. by destruct a as [[] [] [] [] [] [] [] []]. Qed.

Lemma name_trim_start k s : upper_name k = true -> trim_start (k +:+ s) = k +:+ s.
Proof.
  intros Hk. destruct k as [|a k]; [done|]. unfold upper_name in Hk. simpl in Hk. apply andb_true_iff in Hk as [Ha _].
  rewrite str_app_cons. simpl. by rewrite upper_not_space.
Qed.

Lemma line_replaced key value k v :
  upper_name key = true -> upper_name k = true ->
  (if starts_with (key +:+ "=") (trim_start (k +:+ "=" +:+ v)) then key +:+ "=" +:+ value else k +:+ "=" +:+ v)
  = k +:+ "=" +:+ (if bool_decide (k = key) then value else v).
Proof.
  intros Hkey Hk. rewrite name_trim_start by done. rewrite <- (str_app_assoc k "=" v) at 1.
  rewrite (name_starts "="%char key k) by (by apply upper_name_mem).
  destruct (decide (key = k)) as [->|Hne]; [by rewrite !bool_decide_true|].
  by rewrite !bool_decide_false by congruence.
Qed.

Lemma header_kept key name : upper_name key = true -> starts_with (key +:+ "=") (trim_start ("[" +:+ name +:+ "]")) = false.
Proof.
  intros Hkey. pose proof (upper_name_mem "["%char key Hkey eq_refl) as Hm. destruct key as [|a key]; [done|].
  simpl in Hm. apply orb_false_iff in Hm as [Ha _]. rewrite str_app_cons. change (trim_start _) with ("[" +:+ name +:+ "]").
  rewrite str_app_cons, starts_with_cons. by rewrite Ha.
Qed.

Lemma ini_lines_cons name kvs secs :
  ini_lines ((name, kvs) :: secs)
  = (("[" +:+ name +:+ "]") :: ((fun '(k, v) => k +:+ "=" +:+ v) <$> kvs)) ++ ini_lines secs.
Proof. done. Qed.

Lemma replace_value_cons key value name kvs secs :
  replace_value key value ((name, kvs) :: secs)
  = (name, (fun '((k, v) : string * string) => (k, if bool_decide (k = key) then value else v)) <$> kvs)
    :: replace_value key value secs.
Proof. done. Qed.

Lemma replace_line_ini key value secs :
  ini_ok secs -> upper_name key = true ->
  replace_line (unlines (ini_lines secs)) (key +:+ "=") (key +:+ "=" +:+ value) = unlines (ini_lines (replace_value key value secs)).
Proof.
  intros Hok Hkey. unfold replace_line. rewrite lines_unlines by (by apply ini_lines_single). f_equal.
  destruct Hok as [_ Hall]. induction Hall as [|[name kvs] secs (_ & _ & Hkv) Hall IH]; [done|].
  rewrite replace_value_cons, !ini_lines_cons.
  rewrite fmap_app, IH. f_equal. rewrite fmap_cons, header_kept by done. f_equal.
  rewrite <- !list_fmap_compose. apply list_fmap_ext. intros i [k v] Hi. unfold compose.
  apply (Forall_lookup_1 _ _ _ _ Hkv) in Hi as [Hk _]. by apply line_replaced.
Qed.

Lemma replace_value_names key value secs : (replace_value key value secs).*1 = secs.*1.
Proof.
  unfold replace_value. rewrite <- list_fmap_compose. apply list_fmap_ext. by intros i [name kvs] _.
Qed.

Lemma replace_value_ok key value secs : clean_value value -> ini_ok secs -> ini_ok (replace_value key value secs).
Proof.
  intros Hv [Hnd Hall]. split; [by rewrite replace_value_names|]. unfold replace_value. apply Forall_fmap.
  eapply Forall_impl; [exact Hall|]. intros [name kvs] (Hn & Hk & Hkv). simpl. split; [done|]. split.
  - replace (((fun '(k, v) => (k, if bool_decide (k = key) then value else v)) <$> kvs).*1) with (kvs.*1); [done|].
    rewrite <- list_fmap_compose. apply list_fmap_ext. by intros i [k v] _.
  - apply Forall_fmap. eapply Forall_impl; [exact Hkv|]. intros [k v] [H1 H2]. simpl. split; [done|]. by case_bool_decide.
Qed.

Lemma assoc_map {A B} (f : string -> A -> B) k (l : list (string * A)) :
  assoc k ((fun '(k, v) => (k, f k v)) <$> l) = f k <$> assoc k l.
Proof.
  unfold assoc. induction l as [|[k' v] l IH]; [done|]. rewrite fmap_cons. cbn [List.find].
  case_bool_decide as E; [by subst k'|exact IH].
Qed.

Lemma ini_lookup_replace key value secs s k :
  ini_lookup (replace_value key value secs) s k
  = (fun v => if bool_decide (k = key) then value else v) <$> ini_lookup secs s k.
Proof.
  unfold ini_lookup, replace_value.
  rewrite (assoc_map (fun _ kvs => (fun '(k, v) => (k, if bool_decide (k = key) then value else v)) <$> kvs)).
  destruct (assoc s secs) as [kvs|]; [|done]. cbn [fmap option_fmap option_map mbind option_bind].
  apply (assoc_map (fun k v => if bool_decide (k = key) then value else v)).
Qed.

(** for a parser that reads names without case: an agent whose file was
    redirected reads the controller as its server, and under every other name in
    capitals what it read before, as long as the texts of the file, the address
    and the port have no line break, no [;] or [#] and no blanks around them. *)
Theorem agent_redirected (load : string -> string -> string -> option string) `{!IniParser load} c bind port :
  let url := "http://" +:+ bind +:+ ":" +:+ port in
  config_clean c -> clean_value url -> clean_value bind -> clean_value port ->
  let new := redirect bind port (ini_text c) in
  load new "SERVERINFO" "SERVERIPPORT" = Some url /\ load new "SERVERINFO" "SERVER_IP" = Some bind
  /\ load new "SERVERINFO" "SERVER_PORT" = Some port
  /\ forall s k, upper_name s = true -> upper_name k = true -> k ∉ ["SERVERIPPORT"; "SERVER_IP"; "SERVER_PORT"] ->
     load new s k = load (ini_text c) s k.
Proof.
  intros url Hc Hu Hb Hp new. pose proof (ini_sections_ok c Hc) as Hok.
  assert (new = unlines (ini_lines (replace_value "SERVER_PORT" port
            (replace_value "SERVER_IP" bind (replace_value "SERVERIPPORT" url (ini_sections c)))))) as ->.
  { unfold new, redirect, ini_text.
    pose proof (replace_line_ini "SERVERIPPORT" url (ini_sections c) Hok eq_refl) as E1.
    pose proof (replace_line_ini "SERVER_IP" bind _ (replace_value_ok "SERVERIPPORT" url _ Hu Hok) eq_refl) as E2.
    change (replace_line (unlines (ini_lines (ini_sections c))) "SERVERIPPORT=" ("SERVERIPPORT=http://" +:+ bind +:+ ":" +:+ port)
            = unlines (ini_lines (replace_value "SERVERIPPORT" url (ini_sections c)))) in E1. rewrite E1.
    change (replace_line (unlines (ini_lines (replace_value "SERVERIPPORT" url (ini_sections c)))) "SERVER_IP=" ("SERVER_IP=" +:+ bind)
            = unlines (ini_lines (replace_value "SERVER_IP" bind (replace_value "SERVERIPPORT" url (ini_sections c))))) in E2.
    rewrite E2. apply (replace_line_ini "SERVER_PORT" port); [|done]. by repeat apply replace_value_ok. }
  assert (forall s k, upper_name s = true -> upper_name k = true -> load (unlines (ini_lines (replace_value "SERVER_PORT" port
            (replace_value "SERVER_IP" bind (replace_value "SERVERIPPORT" url (ini_sections c)))))) s k
    = (fun v => if bool_decide (k = "SERVER_PORT") then port
                else if bool_decide (k = "SERVER_IP") then bind
                else if bool_decide (k = "SERVERIPPORT") then url else v) <$> ini_lookup (ini_sections c) s k) as Hl.
  { intros s k Hs Hk. rewrite load_upper by (done || by repeat apply replace_value_ok). rewrite !ini_lookup_replace.
    by destruct (ini_lookup (ini_sections c) s k). }
  rewrite !Hl by reflexivity. split; [reflexivity|]. split; [reflexivity|]. split; [reflexivity|].
  intros s k Hs' Hk' Hk. rewrite Hl by done. unfold ini_text. rewrite load_upper by done.
  rewrite !not_elem_of_cons in Hk. destruct Hk as (H1 & H2 & H3 & _).
  rewrite !bool_decide_false by done. by destruct (ini_lookup (ini_sections c) s k).
Qed.

(** *** Undoing it *)

Section restore.
Context {W : Type} `{Os W} `{Files W} `{Disk W}.

(** A file reads as it was written last, and writing one leaves the others. *)
Definition files_read_back : Prop :=
  forall p t (w : W), exists w', put (WriteFile p t) w = (Ok tt, w') /\ read_text p w' = Ok t
    /\ forall q, q <> p -> read_text q w' = read_text q w.

Definition content_at (p : string) (h : host W) : result string string := read_text p (world (h_shell h)).

Lemma write_content p t (h : host W) :
  files_read_back ->
  content_at p (write_out (WriteFile p t) h).2 = Ok t
  /\ forall q, q <> p -> content_at q (write_out (WriteFile p t) h).2 = content_at q h.
Proof.
  intros Hf. destruct (Hf p t (world (h_shell h))) as (w' & E & Hw & Ho). unfold write_out, content_at. by rewrite E.
Qed.

Lemma bak_differs p : p +:+ ".bak" <> p.
Proof. intros E. apply (f_equal String.length) in E. rewrite str_length_app in E. simpl in E. lia. Qed.

Lemma update_content path bind port content (h : host W) :
  files_read_back -> content_at path h = Ok content ->
  let h1 := (update_net_info path bind port h).2 in
  content_at path h1 = Ok (redirect bind port content) /\ content_at (path +:+ ".bak") h1 = Ok content.
Proof.
  intros Hf Hc. unfold update_net_info. rewrite look_bind. unfold content_at in Hc. rewrite Hc.
  rewrite io_bind_run. destruct (write_content (path +:+ ".bak") content h Hf) as [Hb _]. set (h0 := (write_out _ h).2) in *.
  rewrite io_bind_run. destruct (write_content path (redirect bind port content) h0 Hf) as [Hp Ho].
  cbn [mret io_ret snd]. split; [done|]. rewrite Ho by apply bak_differs. exact Hb.
Qed.

Lemma restore_content path content (h : host W) :
  files_read_back -> content_at (path +:+ ".bak") h = Ok content -> content_at path (restore_net_info path h).2 = Ok content.
Proof.
  intros Hf Hb. unfold restore_net_info. rewrite look_bind. unfold content_at in Hb. rewrite Hb. rewrite io_bind_run.
  by destruct (write_content path content h Hf).
Qed.

(** restoring undoes one redirection; after two of them it only undoes the
    second, since the first one's backup is overwritten. *)
Theorem restore_undoes_last path bind port bind' port' content (h : host W) :
  files_read_back -> content_at path h = Ok content ->
  let h1 := (update_net_info path bind port h).2 in
  let h2 := (update_net_info path bind' port' h1).2 in
  content_at path (restore_net_info path h1).2 = Ok content
  /\ content_at path (restore_net_info path h2).2 = Ok (redirect bind port content).
Proof.
  intros Hf Hc h1 h2. destruct (update_content path bind port content h Hf Hc) as [Hp Hb].
  destruct (update_content path bind' port' _ h1 Hf Hp) as [_ Hb'].
  split; by apply restore_content.
Qed.
End restore.

(** ** Instances *)

Module ControllerDemo.

#[local] Instance demo_text : JsonText value := {|
  from_str _ := Err ""; is_object v := match v with Object _ => true | _ => false end; to_text _ := ""; de_error _ _ := ""
|}.

Definition ask (path : string) (data : value) : request := Req path "POST" data [] 7 "" "".
Definition form (tgt : string) : jump_form := JumpForm "10.0.0.1/24" tgt "10.0.0.254" 1 "-5" "x" "24".

Lemma controller_invariant_witness :
  server_ok (inner (Control (do_queue_jump (form "10.0.0.9") InnerState_default) false [] : control (V := value))).
Proof.
  apply (controller_invariant (Control (do_queue_jump (form "10.0.0.9") InnerState_default) false [])).
  apply rtc_once, (Queue (form "10.0.0.9") control_new).
Defined.

Definition two_jumps : list (event (V := value)) :=
  [Enter (form "10.0.0.9"); Enter (form "10.0.0.10"); Ask (ask "/v1/getIpJump" Null); Ask (ask "/v1/auth" Null);
   Ask (ask "/v1/getIpJump" Null); Ask (ask "/v1/getIpJump" Null)].

Lemma jumps_in_order_witness :
  (run happen two_jumps InnerState_default).1
  = [success (Some (to_json (form_instruction (form "10.0.0.9")))); success (Some (to_json (form_instruction (form "10.0.0.10"))));
     success (Some empty_jump)].
Proof.
  rewrite (proj1 (jumps_in_order two_jumps InnerState_default ltac:(split_and!; [done..|simpl; lia|done]) eq_refl
                    ltac:(by repeat constructor))).
  reflexivity.
Defined.

Lemma display_true_when_patient_witness : display_true (start_server "" "8080" "0.0.0.0" (control_new (V := value))).
Proof.
  apply display_true_when_patient. apply rtc_once. split; [by apply PressStart|]. simpl. lia.
Defined.

(** Eleven letters and an accented one. *)
Definition long_uid : string := "aaaaaaaaaaa" +:+ String "195" (String "169" "").

Lemma agent_stops_panel_witness :
  uid_short (agent_uid (route_request (ask "/v1/auth" (Object [("uid", Str long_uid)])) InnerState_default).2) = Panic.
Proof. apply (agent_stops_panel _ _ "169"%char); [reflexivity..|]. by vm_compute. Defined.

Lemma agent_reads_jump_witness :
  let s := do_queue_jump (form "10.0.0.9") (InnerState_default (V := value)) in
  task_ids (route_request (ask "/v1/gettask" Null) s).1 = [37]
  /\ exists data, get_field (route_request (ask "/v1/getIpJump" Null) (route_request (ask "/v1/gettask" Null) s).2).1 "data" = Some data
       /\ instruction_of data = Instr "10.0.0.1" "10.0.0.9/24" "10.0.0.254" 0.
Proof.
  destruct (agent_reads_jump (ask "/v1/gettask" Null) (ask "/v1/getIpJump" Null)
              (do_queue_jump (form "10.0.0.9") (InnerState_default (V := value)))) as [H1 H2]; [|reflexivity..|].
  - split_and!; [done..|simpl; lia|done].
  - split; [exact H1|]. apply (H2 (form_instruction (form "10.0.0.9")) eq_refl). by vm_compute.
Defined.

Lemma agent_redirected_witness :
  DemoIni.load (redirect "10.1.1.1" "8080" (ini_text NetInfo.Demo.sample)) "SERVERINFO" "SERVER_IP" = Some "10.1.1.1".
Proof.
  refine (proj1 (proj2 (agent_redirected DemoIni.load NetInfo.Demo.sample "10.1.1.1" "8080" _ _ _ _))); repeat constructor.
Defined.

(** A machine of files. *)
Abbreviation files := (gmap string string).
#[local] Instance no_os : Os files := {| spawn _ m := (Err "", m) |}.
#[local] Instance demo_files : Files files := {|
  put w m := match w with WriteFile p t => (Ok tt, <[p := t]> m) | SendNetlink _ _ => (Ok tt, m) end
|}.
#[local] Instance demo_disk : Disk files := {|
  disk _ m := (Ok tt, m); path_exists p m := bool_decide (is_Some (m !! p)); read_dir _ _ := Ok [];
  unzip _ _ m := (Ok tt, m); read_text p m := ok_or "" (m !! p)
|}.

Definition here : host files := Host (Shell {["/a.ini" := "SERVER_IP=1"]} []) [].

Lemma restore_undoes_last_witness :
  content_at "/a.ini" (restore_net_info "/a.ini" (update_net_info "/a.ini" "h" "1" here).2).2 = Ok "SERVER_IP=1".
Proof.
  apply (restore_undoes_last "/a.ini" "h" "1" "" "" "SERVER_IP=1" here); [|reflexivity].
  intros p t w. exists (<[p := t]> w). simpl. rewrite lookup_insert_eq. split; [done|]. split; [done|].
  intros q Hq. by rewrite lookup_insert_ne.
Defined.

Example detected :
  (detect_source (lines (unlines ["1: lo    inet 127.0.0.1/8 scope host lo"; "2: eth0    inet 10.0.0.5/24 brd 10.0.0.255"])),
   detect_gateway ["default via 10.0.0.254 dev eth0"], inet_word ["a"; "inet"])
  = ("10.0.0.5", "10.0.0.254", "").
Proof. vm_compute. reflexivity. Qed.

Example panics : test_connection (fun _ => Ok "") "" = Panic /\ test_connection (fun _ => Err "refused") "80" = Done "Connection FAILED: refused".
Proof. split; reflexivity. Qed.
End ControllerDemo.
