(* ===== verification/HttpClient.v ===== *)
(** * The client of the management server

    [crates/net_client/src/core/client.rs]: requests with their headers, and
    what counts as an answer.  The transport (the [reqwest] crate), the reading
    of URLs and the name service are an interface; the client on top of them is
    an instance of [Http], the interface the tasks are written against. *)

From S2P Require Import Prelude RustStr Bytes Json Shell Host NetBlock ProcessPolicy TaskConf TaskData Upgrade TaskFetcher.

(** ** The transport *)

Record http_request := HttpRequest {
  q_method : string;
  q_url : string;
  q_headers : list (string * string);
  q_timeout : Z;             (** seconds *)
  q_body : option string
}.

(** A response: its status, and its body read as text or as bytes, which can
    fail. *)
Record http_response := HttpResponse {
  p_status : Z;
  p_text : result string string;
  p_bytes : result string (list Z)
}.

Class Transport (W : Type) := {
  exchange : http_request -> W -> result string http_response * W;
  (** The [Display] of a status code. *)
  status_display : Z -> string;
  (** [Proxy::http]; [ClientBuilder::build], whether certificates go unchecked
      and the proxy given. *)
  proxy_http : string -> result string unit;
  build_client : bool -> option string -> result string unit;
  (** [Url::parse]: host and port, each if there is one. *)
  url_parse : string -> result string (option string * option Z);
  (** [lookup_host]: the addresses. *)
  lookup_host : string -> W -> result string (list string)
}.

(** [StatusCode::is_success] and [is_client_error]. *)
Definition is_success (status : Z) : bool := (200 <=? status) && (status <? 300).
Definition is_client_error (status : Z) : bool := (400 <=? status) && (status <? 500).

(** ** Requests *)

Definition authorized_headers (headers : list (string * string)) (token : option string) : list (string * string) :=
  headers ++ match token with Some t => [("Authorization", t)] | None => [] end.

Definition post_request (url json_data : string) (timeout : Z) (token : option string) : http_request :=
  HttpRequest "POST" url (authorized_headers [("Content-Type", "application/json"); ("Accept", "application/json")] token)
    timeout (Some json_data).
Definition get_request (url : string) (timeout : Z) (token : option string) : http_request :=
  HttpRequest "GET" url (authorized_headers [("Accept", "application/json")] token) timeout None.
Definition download_request (url : string) (timeout : Z) (token : option string) : http_request :=
  HttpRequest "GET" url (authorized_headers [] token) timeout None.

Section client.
Context {W : Type} `{Transport W}.

(** [NetClient::new] gives the client's base URL, which the requests do not use. *)
Definition NetClient_new (http_proxy base_url : option string) (disable_ssl : bool)
    : result string (option string) :=
  _ ← match http_proxy with
      | Some url => map_err (fun e => "Failed to set proxy: " +:+ e) (proxy_http url)
      | None => Ok tt
      end;
  _ ← map_err (fun e => "Failed to create client: " +:+ e) (build_client disable_ssl http_proxy);
  Ok base_url.

(** A POST takes a client error (4xx) for an answer as well. *)
Definition post_accepts (status : Z) : bool := is_success status || is_client_error status.

Definition post_data_async (url json_data : string) (timeout : Z) (token : option string) (w : W)
    : result string string * W :=
  let '(r, w) := exchange (post_request url json_data timeout token) w in
  (match r with
   | Ok p =>
     text ← map_err (fun e => "Failed to read response text: " +:+ e) (p_text p);
     if post_accepts (p_status p) then Ok text
     else Err ("POST request failed with status: " +:+ status_display (p_status p) +:+ " - " +:+ text)
   | Err e => Err ("Failed to send POST request: " +:+ e)
   end, w).

Definition get_data_async (url : string) (timeout : Z) (token : option string) (w : W) : result string string * W :=
  let '(r, w) := exchange (get_request url timeout token) w in
  (match r with
   | Ok p =>
     text ← map_err (fun e => "Failed to read response: " +:+ e) (p_text p);
     if is_success (p_status p) then Ok text
     else Err ("GET failed " +:+ status_display (p_status p) +:+ ": " +:+ text)
   | Err e => Err ("Request failed: " +:+ e)
   end, w).

Definition download_file_async (url : string) (timeout : Z) (token : option string) (w : W)
    : result string (list Z) * W :=
  let '(r, w) := exchange (download_request url timeout token) w in
  (match r with
   | Ok p =>
     if is_success (p_status p) then map_err (fun e => "读取响应数据失败: " +:+ e) (p_bytes p)
     else Err ("下载失败 (HTTP " +:+ status_display (p_status p) +:+ "): "
               +:+ match p_text p with Ok t => t | Err _ => "<无法读取错误信息>" end)
   | Err e => Err ("请求失败: " +:+ e)
   end, w).

(** The addresses of a URL's host; the port is only used for the look-up. *)
Definition domain_ips (url : string) (w : W) : result string (list string) :=
  '(host, port) ← map_err (fun e => "URL 解析失败: " +:+ e) (url_parse url);
  domain ← ok_or "URL 中没有域名" host;
  map_err (fun e => "DNS 解析失败: " +:+ e) (lookup_host (domain +:+ ":" +:+ dec (default 80 port)) w).

Definition get_data_with_ip_async (url : string) (timeout : Z) (token : option string) (w : W)
    : result string (string * list string) * W :=
  match domain_ips url w with
  | Err e => (Err e, w)
  | Ok ips =>
    let '(r, w) := get_data_async url timeout token w in
    (text ← r; Ok (text, ips), w)
  end.

Definition post_data_with_ip_async (url json_data : string) (timeout : Z) (token : option string) (w : W)
    : result string (string * list string) * W :=
  match domain_ips url w with
  | Err e => (Err e, w)
  | Ok ips =>
    let '(r, w) := exchange (post_request url json_data timeout token) w in
    (match r with
     | Ok p =>
       text ← map_err (fun e => "Failed to read response: " +:+ e) (p_text p);
       if post_accepts (p_status p) then Ok (text, ips)
       else Err ("POST failed " +:+ status_display (p_status p) +:+ ": " +:+ text)
     | Err e => Err ("Request failed: " +:+ e)
     end, w)
  end.

(** ** The client as the tasks use it *)

(** The timeouts differ from call to call; no outcome of the model depends on
    them but through the transport. *)
Definition http_client (http_proxy : option string) (post_timeout download_timeout : string -> Z) : Http W := {|
  http_post url body token := post_data_async url body (post_timeout url) token;
  http_download url token := download_file_async url (download_timeout url) token;
  new_client url := _ ← NetClient_new http_proxy (Some url) true; Ok tt
|}.

(** The outreach probes: each request is made in the world of its own moment. *)
Definition probe_get (timeout : Z) (token : option string) (at_url : string -> W) (url : string) :=
  (get_data_with_ip_async url timeout token (at_url url)).1.
Definition probe_post (timeout : Z) (token : option string) (at_url : string -> W) (url : string) :=
  (post_data_with_ip_async url "" timeout token (at_url url)).1.
End client.

(** ** What counts as an answer *)

Section answers.
Context {W : Type} `{Transport W}.

(** The request [q] made in [w] gets a status that is accepted and a readable
    body. *)
Definition answered_by (accept : Z -> bool) (q : http_request) (w : W) (body : string) : Prop :=
  exists p, (exchange q w).1 = Ok p /\ p_text p = Ok body /\ accept (p_status p) = true.

(** The shape the four requests for text share. *)
Lemma text_answer_ok {B} (accept : Z -> bool) q (w : W) (unread : string -> string) (failed : http_response -> string -> string)
    (unsent : string -> string) (wrap : string -> B) b :
  (let '(r, w') := exchange q w in
   (match r with
    | Ok p => text ← map_err unread (p_text p);
              if accept (p_status p) then Ok (wrap text) else Err (failed p text)
    | Err e => Err (unsent e)
    end, w')).1 = Ok b
  <-> exists body, answered_by accept q w body /\ b = wrap body.
Proof.
  unfold answered_by. destruct (exchange q w) as [[p|e] w']; simpl; [|by split; [|intros (? & (? & [=] & _) & _)]].
  destruct (p_text p) as [text|e] eqn:Et; simpl; [|split; [done|intros (? & (? & [= <-] & ? & _) & _); congruence]].
  destruct (accept (p_status p)) eqn:Ea; split; intros Hb.
  - injection Hb as <-. eauto 10.
  - destruct Hb as (? & (? & [= <-] & ? & _) & ->). congruence.
  - done.
  - destruct Hb as (? & (? & [= <-] & ? & ?) & ->). congruence.
Qed.

Lemma post_data_ok url json timeout token (w : W) body :
  (post_data_async url json timeout token w).1 = Ok body
  <-> answered_by post_accepts (post_request url json timeout token) w body.
Proof. etrans; [apply (text_answer_ok post_accepts _ w _ _ _ id)|]. naive_solver. Qed.

Lemma get_data_ok url timeout token (w : W) body :
  (get_data_async url timeout token w).1 = Ok body
  <-> answered_by is_success (get_request url timeout token) w body.
Proof. etrans; [apply (text_answer_ok is_success _ w _ _ _ id)|]. naive_solver. Qed.

Lemma get_with_ip_ok url timeout token (w : W) body ips :
  (get_data_with_ip_async url timeout token w).1 = Ok (body, ips)
  <-> domain_ips url w = Ok ips /\ answered_by is_success (get_request url timeout token) w body.
Proof.
  unfold get_data_with_ip_async. destruct (domain_ips url w) as [ips'|e]; [|naive_solver].
  rewrite <- get_data_ok. destruct (get_data_async _ _ _ _) as [[b|e] w']; naive_solver.
Qed.

Lemma post_with_ip_ok url json timeout token (w : W) body ips :
  (post_data_with_ip_async url json timeout token w).1 = Ok (body, ips)
  <-> domain_ips url w = Ok ips /\ answered_by post_accepts (post_request url json timeout token) w body.
Proof.
  unfold post_data_with_ip_async. destruct (domain_ips url w) as [ips'|e]; [|naive_solver].
  etrans; [apply (text_answer_ok post_accepts _ w _ _ _ (.,ips'))|]. naive_solver.
Qed.

(** *** Outreach probes *)

(** What a probe of a rule sees: its host's addresses, and an answer to the
    request its method asks for. *)
Definition reached (timeout : Z) (token : option string) (at_url : string -> W) (r : OutreachDetectRule)
    (ips : list string) : Prop :=
  let u := probe_url (addr r) in
  domain_ips u (at_url u) = Ok ips
  /\ exists body,
       (to_lowercase (method r) = "get" /\ answered_by is_success (get_request u timeout token) (at_url u) body)
       \/ (to_lowercase (method r) = "post"
           /\ answered_by post_accepts (post_request u "" timeout token) (at_url u) body).

Lemma probe_logs timeout token at_url now r l :
  probe (probe_get timeout token at_url) (probe_post timeout token at_url) now r = Some l
  <-> exists ips, reached timeout token at_url r ips /\ l = DLog now 4002 1 (addr r) (join "," ips).
Proof.
  unfold probe, reached, probe_get, probe_post. set (u := probe_url (addr r)).
  case_bool_decide as Hg; [|case_bool_decide as Hp].
  - pose proof (get_with_ip_ok u timeout token (at_url u)) as Hok.
    destruct (get_data_with_ip_async _ _ _ _) as [[[body ips]|e] w']; simpl in *.
    + specialize (Hok body ips) as [[Hd Ha] _]; [done|]. split; [naive_solver|].
      intros (ips' & (Hd' & _) & ->). congruence.
    + split; [done|]. intros (ips & (Hd & body & [[_ Ha]|[Hp _]]) & _); [|congruence].
      discriminate (proj2 (Hok body ips) (conj Hd Ha)).
  - pose proof (post_with_ip_ok u "" timeout token (at_url u)) as Hok.
    destruct (post_data_with_ip_async _ _ _ _ _) as [[[body ips]|e] w']; simpl in *.
    + specialize (Hok body ips) as [[Hd Ha] _]; [done|]. split; [naive_solver|].
      intros (ips' & (Hd' & _) & ->). congruence.
    + split; [done|]. intros (ips & (Hd & body & [[Hg' _]|[_ Ha]]) & _); [congruence|].
      discriminate (proj2 (Hok body ips) (conj Hd Ha)).
  - naive_solver.
Qed.

(** C37: the outreach report holds exactly the rules whose probe got through: the
    host's name was resolved, and the answer was a success, or for a POST a
    success or a client error; each with its own probe's time, its address and
    the host's addresses. *)
Theorem outreach_reports_reached order timeout token at_url now rules l :
  (forall rs, order rs ≡ₚ rs) ->
  l ∈ run_outreach_detection order (probe_get timeout token at_url) (probe_post timeout token at_url) now rules
  <-> exists i r ips, rules !! i = Some r /\ reached timeout token at_url r ips
                      /\ l = DLog (now i) 4002 1 (addr r) (join "," ips).
Proof.
  intros Ho. unfold run_outreach_detection. rewrite list_elem_of_omap. split.
  - intros ([i r] & Hin & Hl). rewrite Ho in Hin. apply enumerate_elem in Hin.
    apply probe_logs in Hl as (ips & ? & ?). eauto 10.
  - intros (i & r & ips & Hi & Hr & ->). exists (i, r). rewrite Ho. split; [by apply enumerate_elem|].
    apply probe_logs. eauto.
Qed.

(** the same page, there but not allowed (a client error), is reported by a
    rule that posts and not by one that gets. *)
Theorem client_error_reach_depends_on_method timeout token at_url now r r' ips :
  let u := probe_url (addr r) in
  addr r' = addr r -> to_lowercase (method r) = "get" -> to_lowercase (method r') = "post" ->
  domain_ips u (at_url u) = Ok ips ->
  Forall (fun q => exists p body, (exchange q (at_url u)).1 = Ok p /\ p_text p = Ok body
                                  /\ is_client_error (p_status p) = true)
    [get_request u timeout token; post_request u "" timeout token] ->
  probe (probe_get timeout token at_url) (probe_post timeout token at_url) now r = None
  /\ probe (probe_get timeout token at_url) (probe_post timeout token at_url) now r'
     = Some (DLog now 4002 1 (addr r) (join "," ips)).
Proof.
  intros u Ea Hg Hp Hd Hx. apply Forall_cons in Hx as [Hxg Hx]. apply Forall_cons in Hx as [Hxp _]. split.
  - apply eq_None_not_Some. intros [l Hl]. apply probe_logs in Hl as (? & (_ & body & [[_ Ha]|[Hp' _]]) & _);
      [|congruence].
    destruct Ha as (p & Ep & _ & Hs). destruct Hxg as (p' & b & Ep' & _ & Hc).
    fold u in Ep. rewrite Ep in Ep'. injection Ep' as <-. unfold is_success, is_client_error in *. lia.
  - rewrite probe_logs. unfold reached. rewrite Ea. fold u. exists ips. split; [|done]. split; [done|].
    destruct Hxp as (p & b & Ep & Et & Hc). exists b. right.
    split; [done|]. exists p. unfold post_accepts. rewrite Hc. by rewrite orb_true_r.
Qed.
End answers.

(** ** The tasks over the client *)

Section over_transport.
Context {W : Type} `{Os W} `{Files W} {TW : Transport W} `{Collect W} `{Disk W} `{AgentSocket W}.
Context {V : Type} `{JsonValue V} `{JsonText V}.
Context (http_proxy : option string) (post_timeout download_timeout : string -> Z).

(** Whatever reads as an answer to a POST is not JSON, or has another code than
    success.  No response at all, a redirection, a server error or a body that
    cannot be read is not an answer. *)
Definition transport_refuses : Prop :=
  forall q (w : W) body, answered_by post_accepts q w body -> refused (V:=V) (Ok body).

Lemma client_refuses :
  transport_refuses -> server_refuses (V:=V) (H1:=http_client http_proxy post_timeout download_timeout).
Proof.
  intros Ht url body tok w. simpl. destruct (post_data_async _ _ _ _ _).1 as [resp|e] eqn:E; [|done].
  apply post_data_ok in E. by apply Ht in E.
Qed.

End over_transport.

(** ** A network *)

Module HttpDemo.
Import FetcherDemo.

(** Pages are there for those who ask with a token, the rest is forbidden (403);
    one host cannot be resolved. *)
#[global] Instance gate : Transport unit := {|
  exchange q w :=
    (if bool_decide (q_url q = "http://gone") then Err "timeout"
     else Ok (HttpResponse (if bool_decide ("Authorization" ∈ (q_headers q).*1) then 200 else 403) (Ok "page") (Ok [])), w);
  status_display s := dec s;
  proxy_http _ := Ok tt; build_client _ _ := Ok tt;
  url_parse u := Ok (strip_prefix "http://" u, None);
  lookup_host h _ := if bool_decide (h = "nowhere:80") then Err "no such host" else Ok ["10.0.0.1"; "10.0.0.2"]
|}.

Definition rule (a m : string) : OutreachDetectRule := Outreach a m 1.
Definition gate_report (rules : list OutreachDetectRule) : list DomainLog :=
  run_outreach_detection reverse (probe_get 30 None (fun _ => tt)) (probe_post 30 None (fun _ => tt)) (fun i => 7 + Z.of_nat i) rules.

Lemma outreach_reports_reached_witness :
  DLog 7 4002 1 "a" "10.0.0.1,10.0.0.2" ∈ gate_report [rule "a" "POST"; rule "a" "get"; rule "nowhere" "post"; rule "gone" "post"]
  /\ length (gate_report [rule "a" "POST"; rule "a" "get"; rule "nowhere" "post"; rule "gone" "post"]) = 1%nat.
Proof.
  split; [|vm_compute; reflexivity].
  apply (outreach_reports_reached reverse 30 None (fun _ => tt)); [intros rs; apply reverse_Permutation|].
  exists 0%nat, (rule "a" "POST"), ["10.0.0.1"; "10.0.0.2"]. split_and!; [reflexivity| |reflexivity].
  split; [reflexivity|]. exists "page". right. split; [reflexivity|]. eexists. by split_and!.
Defined.

Lemma client_error_reach_depends_on_method_witness :
  gate_report [rule "a" "get"] = [] /\ gate_report [rule "a" "post"] = [DLog 7 4002 1 "a" "10.0.0.1,10.0.0.2"].
Proof.
  destruct (client_error_reach_depends_on_method 30 None (fun _ => tt) 7 (rule "a" "get") (rule "a" "post")
              ["10.0.0.1"; "10.0.0.2"]) as [E E']; try reflexivity.
  - repeat constructor; eexists _, _; by split_and!.
  - split; reflexivity.
Defined.

End HttpDemo.
