(* ===== verification/Logging.v ===== *)
(** * The log

    [crates/logging/src/lib.rs]: the settings, the form of a line, and the file
    with its rotation.  Any thread logs without a lock, so one call is a
    sequence of system calls between which others run; [log] is the call that
    nothing interrupts. *)

From S2P Require Import Prelude RustStr Json Shell Host TaskData.

(** ** Settings *)

Inductive LevelFilter := Off | Error | Warn | Info | Debug | Trace.

#[global] Instance LevelFilter_eq_dec : EqDecision LevelFilter.
Proof. solve_decision. Defined.

(** The order of the [log] crate: [Off] is the least. *)
Definition rank (l : LevelFilter) : Z :=
  match l with Off => 0 | Error => 1 | Warn => 2 | Info => 3 | Debug => 4 | Trace => 5 end.

Definition level_display (l : LevelFilter) : string :=
  match l with
  | Off => "OFF" | Error => "ERROR" | Warn => "WARN" | Info => "INFO" | Debug => "DEBUG" | Trace => "TRACE"
  end.

(** Untagged: a text, else a [u8]. *)
Inductive LogLevel := LevelString (s : string) | LevelNumber (n : Z).

Record LogConfig := LogConf {
  log_level : LogLevel;
  log_size : Z;            (** u64 *)
  log_path : string;
  log_backup_path : string
}.

Definition level_filter (l : LogLevel) : LevelFilter :=
  match l with
  | LevelString s =>
    let s := to_lowercase s in
    if bool_decide (s = "error") then Error
    else if bool_decide (s = "warn") then Warn
    else if bool_decide (s = "info") then Info
    else if bool_decide (s = "debug") then Debug
    else if bool_decide (s = "trace") then Trace
    else Info
  | LevelNumber n =>
    if n =? 0 then Off
    else if n =? 1 then Error
    else if n =? 2 then Info
    else if n =? 3 then Debug
    else if n =? 4 then Trace
    else Info
  end.

(** The process-wide logger and level of the [log] crate. *)
Record logger := Logger { boxed_logger : option LogConfig; max_level : LevelFilter }.

Section init.
Context {W : Type} `{Disk W} {V : Type} `{JsonValue V} `{JsonText V}.

Definition de_log_level (v : V) : option LogLevel :=
  match de_string v with
  | Some s => Some (LevelString s)
  | None => LevelNumber <$> de_uint 8 v
  end.

Definition de_log_config (v : V) : option LogConfig :=
  let field := struct_field 4 in
  l ← field 0%nat "log_level" v ≫= de_log_level;
  s ← field 1%nat "log_size" v ≫= de_uint 64;
  p ← field 2%nat "log_path" v ≫= de_string;
  b ← field 3%nat "log_backup_path" v ≫= de_string;
  Some (LogConf l s p b).

(** [expect]. *)
Definition expect_ok {A} (r : result string A) : outcome A :=
  match r with Ok a => Done a | Err _ => Panic end.

Definition CustomLogger_new (c : LogConfig) : io (host W) (outcome unit) :=
  let! _ := (match path_parent (log_path c) with
             | Some parent => r ← do_disk (CreateDirAll parent); mret (expect_ok r)
             | None => mret (Done tt)
             end) in
  r ← do_disk (CreateDirAll (log_backup_path c));
  mret (expect_ok r).

(** [set_boxed_logger] refuses a second logger; the level is then left. *)
Definition set_boxed_logger (c : LogConfig) (g : logger) : result unit unit * logger :=
  match boxed_logger g with
  | Some _ => (Err tt, g)
  | None => (Ok tt, Logger (Some c) (max_level g))
  end.

Definition init (config_path : string) (g : logger) : io (host W) (outcome (result unit unit * logger)) :=
  content ← look (read_text config_path);
  match content with
  | Err _ => mret Panic
  | Ok text =>
    match (match from_str (V:=V) text with Ok v => de_log_config v | Err _ => None end) with
    | None => mret Panic
    | Some c =>
      let! _ := CustomLogger_new c in
      mret (Done (match set_boxed_logger c g with
                  | (Ok _, g) => (Ok tt, Logger (boxed_logger g) (level_filter (log_level c)))
                  | (Err e, g) => (Err e, g)
                  end))
    end
  end.
End init.

(** ** Lines *)

Record record := Record_ {
  level : LevelFilter;       (** never [Off] *)
  args : string;
  rec_file : option string;
  rec_line : option Z;
  module_path : option string
}.

Definition enabled (max : LevelFilter) (l : LevelFilter) : bool := rank l <=? rank max.

(** [s.find(p)]: what is before and after the first occurrence. *)
Fixpoint split_at_first (p s : string) : option (string * string) :=
  match strip_prefix p s with
  | Some rest => Some ("", rest)
  | None =>
    match s with
    | EmptyString => None
    | String a s => '(before, rest) ← split_at_first p s; Some (String a before, rest)
    end
  end.

(** A message that begins with [[PLAIN] ] is the rest of it; one that begins
    with [[MOD:m] ] names its module; any other is given its place in the code. *)
Definition format_line (timestamp : string) (r : record) : string :=
  match strip_prefix "[PLAIN] " (args r) with
  | Some plain_content => plain_content
  | None =>
    match strip_prefix "[MOD:" (args r) ≫= split_at_first "] " with
    | Some (module, content) =>
      "[" +:+ timestamp +:+ "] [/" +:+ module +:+ "/" +:+ level_display (level r) +:+ "] " +:+ content
    | None =>
      "[" +:+ timestamp +:+ "] (" +:+ default "unknown" (rec_file r) +:+ ":" +:+ dec (default 0 (rec_line r))
        +:+ ":" +:+ default "unknown" (module_path r) +:+ ") [" +:+ level_display (level r) +:+ "] " +:+ args r
    end
  end.

(** The macros. *)
Definition log_mod (module text : string) : string := "[MOD:" +:+ module +:+ "] " +:+ text.
Definition log_plain (text : string) : string := "[PLAIN] " +:+ text.
Definition log_raw (text : string) : string := "[RAW] " +:+ text.

(** ** The files *)

(** The files that were made, by their number: the contents; which one the log's
    path names; which one each backup's path names.  Renaming onto a name takes
    it from the file that had it; an open file is written whatever its name. *)
Record log_files := LogFiles {
  contents : list string;
  current : option nat;
  backups : gmap string nat
}.

Definition content (f : log_files) (i : nat) : string := default "" (contents f !! i).

Definition backup_file (c : LogConfig) (timestamp : string) : string :=
  log_backup_path c +:+ "/backend_" +:+ timestamp +:+ ".log".

Definition rotate_due (c : LogConfig) (f : log_files) : bool :=
  match current f with Some i => log_size c <=? str_len (content f i) | None => false end.

Definition rename_log (name : string) (f : log_files) : log_files :=
  match current f with
  | Some i => LogFiles (contents f) None (<[name := i]> (backups f))
  | None => f
  end.

(** [create(true).append(true)]. *)
Definition open_log (f : log_files) : nat * log_files :=
  match current f with
  | Some i => (i, f)
  | None => let i := length (contents f) in (i, LogFiles (contents f ++ [""]) (Some i) (backups f))
  end.

Definition append (i : nat) (chunk : string) (f : log_files) : log_files :=
  LogFiles (alter (fun s => s +:+ chunk) i (contents f)) (current f) (backups f).

(** What becomes of [writeln!], whose error [ok()] drops: all of the line is
    written; or its text but not the line's end; or only its first bytes. *)
Inductive writing := Whole | Endless | Part (n : nat).

(** The clock, and what becomes of the calls on the file.  A size that cannot be
    read leaves the log as a failed renaming does. *)
Record moment := Moment {
  timestamp : string;      (** to the millisecond *)
  second : string;         (** when a backup is named *)
  rename_ok : bool;
  open_ok : bool;
  line_written : writing
}.

Definition rotate_log_file (c : LogConfig) (t : moment) (f : log_files) : log_files :=
  if rotate_due c f then if rename_ok t then rename_log (backup_file c (second t)) f else f else f.

Definition newline : string := String line_feed "".

(** A line whose file does not open is dropped without a word. *)
Definition write_line (t : moment) (line : string) (f : log_files) : log_files :=
  if open_ok t then
    let '(i, f) := open_log f in
    match line_written t with
    | Whole => append i newline (append i line f)
    | Endless => append i line f
    | Part n => append i (String.substring 0 n line) f
    end
  else f.

Definition log (c : LogConfig) (max : LevelFilter) (t : moment) (r : record) (f : log_files) : log_files :=
  if enabled max (level r) then write_line t (format_line (timestamp t) r) (rotate_log_file c t f) else f.

(** ** Threads that log *)

(** Where a call of [log] is: before the look at the size, before the renaming,
    before the opening, before the text and before the line's end are written
    ([writeln!] writes the two apart). *)
Inductive pc :=
| Idle
| Checking (line : string)
| Renaming (line name : string)
| Opening (line : string)
| Writing (i : nat) (line : string)
| Ending (i : nat).

(** [history]: the writes made, oldest first. *)
Record log_state := LogState {
  files : log_files;
  callers : list pc;
  history : list (nat * string)
}.

Definition at_pc (k : nat) (p : pc) (f : log_files) (s : log_state) : log_state :=
  LogState f (<[k := p]> (callers s)) (history s).
Definition wrote (k : nat) (p : pc) (i : nat) (chunk : string) (s : log_state) : log_state :=
  LogState (append i chunk (files s)) (<[k := p]> (callers s)) (history s ++ [(i, chunk)]).

(** [fresh]: whether a backup is only ever named as none is yet. *)
Inductive log_step (c : LogConfig) (fresh : bool) : log_state -> log_state -> Prop :=
| Call k line s :
    callers s !! k = Some Idle -> log_step c fresh s (at_pc k (Checking line) (files s) s)
| SmallEnough k line s :
    callers s !! k = Some (Checking line) -> rotate_due c (files s) = false ->
    log_step c fresh s (at_pc k (Opening line) (files s) s)
| TooLarge k line timestamp s :
    callers s !! k = Some (Checking line) -> rotate_due c (files s) = true ->
    log_step c fresh s (at_pc k (Renaming line (backup_file c timestamp)) (files s) s)
| RenameDone k line name s :
    callers s !! k = Some (Renaming line name) -> (fresh = true -> backups (files s) !! name = None) ->
    log_step c fresh s (at_pc k (Opening line) (rename_log name (files s)) s)
| RenameFailed k line name s :
    callers s !! k = Some (Renaming line name) -> log_step c fresh s (at_pc k (Opening line) (files s) s)
| OpenDone k line s :
    callers s !! k = Some (Opening line) ->
    log_step c fresh s (at_pc k (Writing (open_log (files s)).1 line) (open_log (files s)).2 s)
| OpenFailed k line s :
    callers s !! k = Some (Opening line) -> log_step c fresh s (at_pc k Idle (files s) s)
| WriteText k i line s :
    callers s !! k = Some (Writing i line) -> log_step c fresh s (wrote k (Ending i) i line s)
| WriteFailed k i line part rest s :
    callers s !! k = Some (Writing i line) -> line = part +:+ rest -> log_step c fresh s (wrote k Idle i part s)
| WriteEnd k i s :
    callers s !! k = Some (Ending i) -> log_step c fresh s (wrote k Idle i newline s)
| EndFailed k i s :
    callers s !! k = Some (Ending i) -> log_step c fresh s (at_pc k Idle (files s) s).

(** Before the first line: what an earlier run left in the log, if anything. *)
Definition log_start (left : option string) (n : nat) : log_state :=
  LogState (LogFiles (option_list left) (left ≫= fun _ => Some 0%nat) ∅) (replicate n Idle) [].

(** ** What the threads keep *)

Definition named (f : log_files) (i : nat) : Prop :=
  current f = Some i \/ exists name, backups f !! name = Some i.

(** The text of file [i] that began as [s], after the writes [h]. *)
Definition written_to (i : nat) (s : string) (h : list (nat * string)) : string :=
  foldl (fun s w => if bool_decide (w.1 = i) then s +:+ w.2 else s) s h.

Definition handle_of (p : pc) : option nat :=
  match p with Writing i _ | Ending i => Some i | _ => None end.

(** Every file has a name, and holds what it began with and the writes made to
    it. *)
Definition kept (left : option string) (s : log_state) : Prop :=
  forall i, (i < length (contents (files s)))%nat ->
    named (files s) i
    /\ contents (files s) !! i = Some (written_to i (default "" (option_list left !! i)) (history s)).

(** Names, handles and writes are of files that were made. *)
Definition known (s : log_state) : Prop :=
  (forall i, current (files s) = Some i -> (i < length (contents (files s)))%nat)
  /\ Forall (fun w => (w.1 < length (contents (files s)))%nat) (history s)
  /\ forall k p i, callers s !! k = Some p -> handle_of p = Some i -> (i < length (contents (files s)))%nat.

Lemma written_to_unknown i s h : Forall (fun w => w.1 <> i) h -> written_to i s h = s.
Proof.
  unfold written_to. revert s. induction h as [|w h IH]; intros s Hf; [done|].
  apply Forall_cons in Hf as [Hw Hf]. simpl. rewrite bool_decide_eq_false_2 by done. by apply IH.
Qed.

Lemma written_to_snoc i s h j chunk :
  written_to i s (h ++ [(j, chunk)])
  = if bool_decide (j = i) then written_to i s h +:+ chunk else written_to i s h.
Proof. unfold written_to. by rewrite foldl_app. Qed.

(** A caller that goes on to a place with no handle but those it had. *)
Lemma known_pc k p p0 s :
  callers s !! k = Some p0 -> (handle_of p = None \/ handle_of p = handle_of p0) ->
  known s -> known (at_pc k p (files s) s).
Proof.
  intros E Hp (Hc & Hh & Hk). split_and!; [done|done|]. simpl. intros k' p' i Hl Hi.
  apply list_lookup_insert_Some in Hl as [(<- & -> & _)|[_ Hl]]; [|by eapply Hk].
  destruct Hp as [Hp|Hp]; [congruence|]. eapply Hk; [exact E|congruence].
Qed.

Lemma kept_pc left k p s : kept left s -> kept left (at_pc k p (files s) s).
Proof. done. Qed.

Lemma known_rename k line name name' s :
  callers s !! k = Some (Renaming line name) -> known s ->
  known (at_pc k (Opening line) (rename_log name' (files s)) s).
Proof.
  intros E Hs. apply (known_pc k (Opening line) _ _ E) in Hs as (Hc & Hh & Hk); [|by left].
  unfold rename_log. destruct (current (files s)) eqn:Ec; by split_and!.
Qed.

Lemma kept_rename left k line name s :
  backups (files s) !! name = None -> kept left s -> kept left (at_pc k (Opening line) (rename_log name (files s)) s).
Proof.
  intros Hn Hs. unfold rename_log. destruct (current (files s)) as [j|] eqn:Ec; [|done].
  intros i Hi. destruct (Hs i Hi) as [Hname Hc]. split; [|done]. right. simpl. destruct Hname as [Hcur|[n Hb]].
  - exists name. rewrite lookup_insert_eq. congruence.
  - exists n. rewrite lookup_insert_ne by congruence. done.
Qed.

Lemma known_open k line s :
  callers s !! k = Some (Opening line) -> known s ->
  known (at_pc k (Writing (open_log (files s)).1 line) (open_log (files s)).2 s).
Proof.
  intros E (Hc & Hh & Hk). unfold open_log. destruct (current (files s)) as [j|] eqn:Ec; simpl.
  - split_and!; simpl; [intros i Hi; apply Hc; congruence|done|]. intros k' p i Hl Hi.
    apply list_lookup_insert_Some in Hl as [(<- & <- & _)|[_ Hl]]; [|by eapply Hk].
    simpl in Hi. injection Hi as <-. by apply Hc.
  - split_and!; simpl; rewrite length_app; simpl.
    + intros i [= <-]. lia.
    + eapply Forall_impl; [exact Hh|]. simpl. lia.
    + intros k' p i Hl Hi.
      apply list_lookup_insert_Some in Hl as [(<- & <- & _)|[_ Hl]]; [simpl in Hi; injection Hi as <-; lia|].
      specialize (Hk _ _ _ Hl Hi). lia.
Qed.

Lemma kept_open left k line s :
  (length (option_list left) <= length (contents (files s)))%nat -> known s -> kept left s ->
  kept left (at_pc k (Writing (open_log (files s)).1 line) (open_log (files s)).2 s).
Proof.
  intros Hleft (Hc & Hh & Hk) Hs. unfold open_log. destruct (current (files s)) as [j|] eqn:Ec; [done|].
  intros i. simpl. rewrite length_app. simpl. intros Hi.
  destruct (decide (i = length (contents (files s)))) as [->|Hne].
  - split; [by left|]. simpl. rewrite lookup_app_r, Nat.sub_diag by lia. simpl.
    rewrite lookup_ge_None_2 by lia. rewrite written_to_unknown; [done|].
    eapply Forall_impl; [exact Hh|]. simpl. lia.
  - destruct (Hs i) as [Hname Hi']; [lia|]. split.
    + destruct Hname as [Hcur|Hb]; [congruence|by right].
    + rewrite lookup_app_l by lia. done.
Qed.

Lemma known_write k p p0 i chunk s :
  callers s !! k = Some p0 -> handle_of p0 = Some i -> (handle_of p = None \/ handle_of p = Some i) ->
  known s -> known (wrote k p i chunk s).
Proof.
  intros E Hp0 Hp Hs. assert (i < length (contents (files s)))%nat as Hi by (by eapply Hs).
  apply (known_pc k p _ _ E) in Hs as (Hc & Hh & Hk); [|by rewrite Hp0].
  split_and!; simpl; rewrite length_alter; [done|apply Forall_app; split; [done|by constructor]|done].
Qed.

Lemma kept_write left k p i chunk s : kept left s -> kept left (wrote k p i chunk s).
Proof.
  intros Hs j. simpl. rewrite length_alter. intros Hj. destruct (Hs j Hj) as [Hname Hc].
  split; [exact Hname|]. rewrite written_to_snoc. case_bool_decide as E.
  - subst. by rewrite list_lookup_alter_eq, Hc.
  - by rewrite list_lookup_alter_ne.
Qed.

Definition log_inv (left : option string) (s : log_state) : Prop :=
  (length (option_list left) <= length (contents (files s)))%nat /\ known s /\ kept left s.

Lemma log_start_inv left n : log_inv left (log_start left n).
Proof.
  split_and!; [done| |].
  - split_and!; [by destruct left; intros i [=]; subst; simpl; lia|by constructor|].
    intros k p i Hl Hi. apply lookup_replicate in Hl as [-> _]. done.
  - intros i. destruct left as [t|]; simpl; [|lia]. intros Hi. assert (i = 0%nat) as -> by lia.
    by split; [left|].
Qed.

Lemma log_step_inv c left s s' : log_step c true s s' -> log_inv left s -> log_inv left s'.
Proof.
  intros Hstep (Hl & Hk & Hs).
  destruct Hstep as [k l ? E|k l ? E ?|k l ts ? E ?|k l name ? E Hf|k l name ? E|k l ? E|k l ? E|k i l ? E
                    |k i l part rest ? E ->|k i ? E|k i ? E]; split_and!; try done;
    try (by eapply known_pc; [exact E|auto|]); try (by eapply known_write; [exact E|auto..]);
    try by apply kept_write.
  - simpl. unfold rename_log. by destruct (current _).
  - by eapply known_rename.
  - apply kept_rename; auto.
  - simpl. unfold open_log. destruct (current _); simpl; [done|]. rewrite length_app. lia.
  - by apply known_open.
  - by apply kept_open.
  - simpl. by rewrite length_alter.
  - simpl. by rewrite length_alter.
  - simpl. by rewrite length_alter.
Qed.

Lemma log_runs_inv c left s s' : rtc (log_step c true) s s' -> log_inv left s -> log_inv left s'.
Proof. induction 1; [done|]. intros. eauto using log_step_inv. Qed.

(** C28: as long as no two rotations take the same name, nothing that any number of
    threads log, however they interleave and whatever fails, is ever lost: each
    file made is the log or a backup, and holds what it began with followed by
    the writes made to it, in their order. *)
Theorem rotation_keeps_everything c left n s i :
  rtc (log_step c true) (log_start left n) s -> (i < length (contents (files s)))%nat ->
  named (files s) i
  /\ contents (files s) !! i = Some (written_to i (default "" (option_list left !! i)) (history s)).
Proof. intros Hr Hi. apply (log_runs_inv c left _ _ Hr (log_start_inv left n)), Hi. Qed.

(** ** One thread at a time *)

Lemma at_pc_twice k p q f g s : at_pc k p f (at_pc k q g s) = at_pc k p f s.
Proof. unfold at_pc. simpl. by rewrite list_insert_insert_eq. Qed.

Lemma at_pc_here k p f s p0 : callers s !! k = Some p0 -> callers (at_pc k p f s) !! k = Some p.
Proof. intros E. simpl. apply list_lookup_insert_eq. by eapply lookup_lt_Some. Qed.

Lemma rotate_runs c fresh t line k s :
  callers s !! k = Some (Checking line) ->
  (fresh = true -> rename_ok t = true -> rotate_due c (files s) = true ->
   backups (files s) !! backup_file c (second t) = None) ->
  rtc (log_step c fresh) s (at_pc k (Opening line) (rotate_log_file c t (files s)) s).
Proof.
  intros E Hf. unfold rotate_log_file. destruct (rotate_due c (files s)) eqn:Er; [|by apply rtc_once, SmallEnough].
  eapply rtc_l; [by apply (TooLarge c fresh k line (second t))|].
  set (s1 := at_pc k (Renaming line (backup_file c (second t))) (files s) s).
  assert (callers s1 !! k = Some (Renaming line (backup_file c (second t)))) as E1 by (by eapply at_pc_here).
  apply rtc_once. rewrite <- (at_pc_twice k (Opening line) (Renaming line (backup_file c (second t))) _ (files s)).
  destruct (rename_ok t); [apply (RenameDone c fresh k line _ s1 E1); auto|exact (RenameFailed c fresh k line _ s1 E1)].
Qed.

Lemma substring_prefix n line : exists rest, line = String.substring 0 n line +:+ rest.
Proof.
  revert n. induction line as [|a line IH]; intros [|n]; [by exists ""|by exists ""|by eexists|].
  destruct (IH n) as [rest E]. exists rest. simpl. rewrite str_app_cons. by f_equal.
Qed.

Lemma write_runs c fresh t line k s :
  callers s !! k = Some (Opening line) ->
  exists h, rtc (log_step c fresh) s (LogState (write_line t line (files s)) (<[k := Idle]> (callers s)) h).
Proof.
  intros E. unfold write_line. destruct (open_ok t).
  2:{ exists (history s). by eapply rtc_once, OpenFailed. }
  destruct (open_log (files s)) as [i f] eqn:Eo.
  pose proof (OpenDone c fresh k line s E) as Ho. rewrite Eo in Ho. simpl in Ho.
  set (s1 := at_pc k (Writing i line) f s) in Ho.
  assert (callers s1 !! k = Some (Writing i line)) as E1 by (by eapply at_pc_here).
  assert (<[k := Idle]> (callers s) = <[k := Idle]> (callers s1)) as Ec by (symmetry; apply list_insert_insert_eq).
  set (s2 := wrote k (Ending i) i line s1).
  assert (callers s2 !! k = Some (Ending i)) as E2 by (apply list_lookup_insert_eq; by eapply lookup_lt_Some).
  assert (<[k := Idle]> (callers s) = <[k := Idle]> (callers s2)) as Ec2.
  { rewrite Ec. symmetry. apply list_insert_insert_eq. }
  destruct (line_written t) as [| |n].
  - exists ((history s ++ [(i, line)]) ++ [(i, newline)]). rewrite Ec2.
    eapply rtc_l; [exact Ho|]. eapply rtc_l; [by apply WriteText|]. by apply rtc_once, (WriteEnd c fresh k i s2).
  - exists (history s ++ [(i, line)]). rewrite Ec2.
    eapply rtc_l; [exact Ho|]. eapply rtc_l; [by apply WriteText|]. by apply rtc_once, (EndFailed c fresh k i s2).
  - destruct (substring_prefix n line) as [rest Hrest]. exists (history s ++ [(i, String.substring 0 n line)]).
    rewrite Ec. eapply rtc_l; [exact Ho|]. apply rtc_once. by apply (WriteFailed c fresh k i line _ rest s1).
Qed.

(** A call that nothing interrupts is one run of the caller's steps. *)
Lemma log_is_run c fresh max t r k s :
  callers s !! k = Some Idle ->
  (fresh = true -> rename_ok t = true -> rotate_due c (files s) = true ->
   backups (files s) !! backup_file c (second t) = None) ->
  exists h, rtc (log_step c fresh) s (LogState (log c max t r (files s)) (callers s) h).
Proof.
  intros E Hf. unfold log. destruct (enabled max (level r)); [|exists (history s); by destruct s].
  set (line := format_line _ r).
  pose proof (rotate_runs c fresh t line k (at_pc k (Checking line) (files s) s)) as Hr.
  destruct (write_runs c fresh t line k (at_pc k (Opening line) (rotate_log_file c t (files s)) s)) as [h Hw];
    [by eapply at_pc_here|]. exists h.
  eapply rtc_l; [by apply (Call c fresh k line)|]. etrans; [apply Hr; [by eapply at_pc_here|done]|].
  rewrite at_pc_twice. simpl in Hw. rewrite list_insert_insert_eq, (list_insert_id _ _ _ E) in Hw. exact Hw.
Qed.

(** A sequence of calls, each at its moment. *)
Definition log_all (c : LogConfig) (max : LevelFilter) (calls : list (moment * record)) (f : log_files) : log_files :=
  foldl (fun f '(t, r) => log c max t r f) f calls.

Lemma append_size i chunk f j : str_len (content (append i chunk f) j) <= str_len (content f j) + str_len chunk.
Proof.
  unfold content, append, str_len. simpl. destruct (decide (i = j)) as [<-|Hne].
  - rewrite list_lookup_alter_eq. destruct (contents f !! i); simpl; [rewrite str_length_app|]; lia.
  - rewrite list_lookup_alter_ne by done. lia.
Qed.

Lemma open_size c t f :
  0 <= log_size c -> rename_ok t = true ->
  let '(i, f') := open_log (rotate_log_file c t f) in
  current f' = Some i /\ str_len (content f' i) <= Z.max 0 (log_size c - 1).
Proof.
  intros Hc Ht. unfold rotate_log_file, rename_log, rotate_due. rewrite Ht.
  destruct (current f) as [j|] eqn:Ec; [destruct (Z.leb_spec (log_size c) (str_len (content f j)))|]; unfold open_log;
    simpl; rewrite ?Ec; split; try done; try lia.
  all: unfold content; simpl; rewrite lookup_app_r, Nat.sub_diag by lia; unfold str_len; simpl; lia.
Qed.

(** Any call leaves a log below the limit plus its line, unless the renaming or
    the opening failed. *)
Lemma log_size_after c max t r f i :
  0 <= log_size c -> enabled max (level r) = true -> rename_ok t = true -> open_ok t = true ->
  current (log c max t r f) = Some i ->
  str_len (content (log c max t r f) i) <= Z.max 0 (log_size c - 1) + str_len (format_line (timestamp t) r) + 1.
Proof.
  intros Hc Hen Hr Ho. unfold log, write_line. rewrite Hen, Ho. pose proof (open_size c t f Hc Hr) as Hs.
  destruct (open_log _) as [j f1]. destruct Hs as [Hj Hs]. intros Hi.
  assert (i = j) as -> by (destruct (line_written t); simpl in Hi; congruence). set (line := format_line _ _).
  pose proof (append_size j newline (append j line f1) j). pose proof (append_size j line f1 j).
  assert (str_len newline = 1) by done. destruct (line_written t) as [| |n]; [lia..|].
  pose proof (append_size j (String.substring 0 n line) f1 j). destruct (substring_prefix n line) as [rest E].
  apply (f_equal str_len) in E. unfold str_len in *. rewrite str_length_app in E. lia.
Qed.

(** The texts of the files, in the order in which they were made. *)
Definition all_text (f : log_files) : string := foldr String.append "" (contents f).

(** What the log gains by the line of a call. *)
Definition put_down (t : moment) (line : string) : string :=
  if open_ok t then
    match line_written t with Whole => line +:+ newline | Endless => line | Part n => String.substring 0 n line end
  else "".

Definition lines_of (max : LevelFilter) (calls : list (moment * record)) : string :=
  foldr (fun '(t, r) s => (if enabled max (level r) then put_down t (format_line (timestamp t) r) else "") +:+ s) "" calls.

(** Only the last file made can be the log. *)
Definition log_is_last (f : log_files) : Prop :=
  forall i, current f = Some i -> length (contents f) = S i.

Lemma all_text_append f i chunk :
  length (contents f) = S i -> all_text (append i chunk f) = all_text f +:+ chunk.
Proof.
  unfold all_text, append. simpl. intros Hi.
  destruct (contents f) as [|s l _] using rev_ind; [done|]. rewrite length_app in Hi. simpl in Hi.
  assert (i = length l + 0)%nat as -> by lia. rewrite alter_app_r. simpl. rewrite !foldr_app. simpl.
  rewrite !str_app_nil_r. induction l as [|x l IH]; simpl; [done|]. by rewrite IH, str_app_assoc.
Qed.

Lemma all_text_rotate c t f : all_text (rotate_log_file c t f) = all_text f.
Proof. unfold rotate_log_file, rename_log. repeat (case_match; try done). Qed.

Lemma all_text_open f :
  log_is_last f ->
  all_text (open_log f).2 = all_text f /\ length (contents (open_log f).2) = S (open_log f).1
  /\ current (open_log f).2 = Some (open_log f).1.
Proof.
  intros Hl. unfold open_log. destruct (current f) as [j|] eqn:Ec; simpl.
  - split_and!; [done|by apply Hl|done].
  - split_and!; [|rewrite length_app; simpl; lia|done]. unfold all_text. simpl. by rewrite foldr_app.
Qed.

Lemma rotate_last c t f : log_is_last f -> log_is_last (rotate_log_file c t f).
Proof.
  intros Hl. unfold rotate_log_file, rename_log.
  destruct (rotate_due c f), (rename_ok t), (current f) eqn:Ec; try done; by intros i [=].
Qed.

Lemma log_all_text c max t r f :
  log_is_last f ->
  log_is_last (log c max t r f)
  /\ all_text (log c max t r f) = all_text f +:+ lines_of max [(t, r)].
Proof.
  intros Hl. unfold log, lines_of. simpl. destruct (enabled max (level r)); simpl; [|by rewrite str_app_nil_r].
  unfold write_line, put_down. apply (rotate_last c t) in Hl. pose proof (all_text_rotate c t f) as Hr.
  destruct (open_ok t); [|by rewrite !str_app_nil_r]. rewrite str_app_nil_r.
  apply all_text_open in Hl as (Ht & Hlen & Hc). destruct (open_log _) as [i f1]. simpl in *. split.
  - intros j. destruct (line_written t); simpl; rewrite !length_alter; congruence.
  - destruct (line_written t); rewrite !all_text_append by (simpl; rewrite ?length_alter; done); rewrite Ht, Hr;
      by rewrite <- ?str_app_assoc.
Qed.

Lemma lines_of_app max l1 l2 : lines_of max (l1 ++ l2) = lines_of max l1 +:+ lines_of max l2.
Proof. unfold lines_of. induction l1 as [|[t r] l1 IH]; simpl; [done|]. by rewrite IH, str_app_assoc. Qed.

Lemma str_app_inj_r s1 s2 t : s1 +:+ t = s2 +:+ t -> s1 = s2.
Proof.
  revert s2. induction s1 as [|a s1 IH]; intros [|b s2] E; try done.
  - apply (f_equal String.length) in E. rewrite !str_length_app in E. simpl in E. lia.
  - apply (f_equal String.length) in E. rewrite !str_length_app in E. simpl in E. lia.
  - rewrite !str_app_cons in E. injection E as -> E. f_equal. by apply IH.
Qed.

Lemma backup_file_inj c t1 t2 : backup_file c t1 = backup_file c t2 -> t1 = t2.
Proof.
  unfold backup_file. intros E. apply (inj (String.append _)), (inj (String.append _)) in E.
  by eapply str_app_inj_r.
Qed.

(** Backups are named after the seconds of the calls. *)
Lemma log_backups c max t r f name i :
  backups (log c max t r f) !! name = Some i -> name = backup_file c (second t) \/ backups f !! name = Some i.
Proof.
  unfold log, write_line, rotate_log_file, rename_log, open_log. repeat (case_match; simplify_eq/=; auto).
  all: intros Hl; apply lookup_insert_Some in Hl; naive_solver.
Qed.

(** A run of one caller, with the names of its backups. *)
Lemma log_all_runs c max calls left :
  NoDup (second ∘ fst <$> calls) ->
  let f := log_all c max calls (files (log_start left 1)) in
  (exists h, rtc (log_step c true) (log_start left 1) (LogState f [Idle] h))
  /\ (forall name i, backups f !! name = Some i -> exists tr, tr ∈ calls /\ name = backup_file c (second tr.1))
  /\ log_is_last f /\ all_text f = default "" left +:+ lines_of max calls.
Proof.
  induction calls as [|[t r] calls IH] using rev_ind; intros Hnd.
  - split_and!; [by exists []|intros name i Hi; simpl in Hi; by rewrite lookup_empty in Hi| |by destruct left].
    destruct left; by intros i [= <-].
  - rewrite fmap_app in Hnd. apply NoDup_app in Hnd as (Hnd & Hnew & _). unfold log_all. rewrite foldl_app. simpl.
    destruct (IH Hnd) as ([h Hr] & Hb & Hl & Htext).
    set (f := foldl _ _ calls) in *. change (log_all c max calls _) with f in *.
    destruct (log_all_text c max t r f Hl) as [Hl' Ht']. split_and!.
    + destruct (log_is_run c true max t r 0%nat (LogState f [Idle] h)) as [h' Hr']; [done| |].
      * intros _ _ _. apply eq_None_not_Some. intros [i Hi]. apply Hb in Hi as ([t' r'] & Hin & E).
        apply backup_file_inj in E. apply (Hnew (second t)); [|by left].
        apply list_elem_of_fmap. by exists (t', r').
      * exists h'. by etrans.
    + intros name i Hi. apply log_backups in Hi as [->|Hi].
      * exists (t, r). split; [set_solver|done].
      * apply Hb in Hi as (tr & Hin & ->). exists tr. split; [set_solver|done].
    + exact Hl'.
    + rewrite Ht', Htext, lines_of_app. by rewrite str_app_assoc.
Qed.

(** C29: one caller whose calls all fall in seconds of their own, logging to files
    that start with the log alone (if any): whatever renamings, openings and
    writes fail, every file made is the log or a backup, only the last can be
    the log, and read one after the other they are what the log held before and
    then, for each call of an enabled level in order, what its one attempt put
    down: the line and its end when nothing failed, the line without its end or
    a first part of it when a write failed, nothing when the log did not open.
    No line is repeated, moved or tried again. *)
Theorem log_reads_back c max calls left :
  NoDup (second ∘ fst <$> calls) ->
  let f := log_all c max calls (files (log_start left 1)) in
  all_text f = default "" left +:+ lines_of max calls
  /\ log_is_last f
  /\ forall i, (i < length (contents f))%nat -> named f i.
Proof.
  intros Hnd. destruct (log_all_runs c max calls left Hnd) as ([h Hr] & _ & Hl & Ht).
  split_and!; [done|done|]. intros i Hi.
  apply (log_runs_inv c left _ _ Hr (log_start_inv left 1)). exact Hi.
Qed.

(** after any calls, the last of which was to be logged, the log is below its
    limit plus that line, unless its renaming or opening failed. *)
Theorem log_bounded c max calls t r f i :
  0 <= log_size c -> enabled max (level r) = true -> rename_ok t = true -> open_ok t = true ->
  let f' := log_all c max (calls ++ [(t, r)]) f in
  current f' = Some i ->
  str_len (content f' i) <= Z.max 0 (log_size c - 1) + str_len (format_line (timestamp t) r) + 1.
Proof. intros Hc He Hr Ho. unfold log_all. rewrite foldl_app. by apply log_size_after. Qed.

(** ** What can go wrong *)

(** however large the limit, two threads that log in the same second when the
    log is full can leave nothing of it: the one renames it and starts a new
    file, the other, which saw the full one, renames the new file over the
    backup. *)
Theorem race_loses_log c left line1 line2 timestamp :
  log_size c <= str_len left ->
  exists s, rtc (log_step c false) (log_start (Some left) 2) s
    /\ backups (files s) = {[backup_file c timestamp := 1%nat]} /\ content (files s) 1 = line1 +:+ newline
    /\ current (files s) = Some 2%nat /\ content (files s) 2 = line2 +:+ newline.
Proof.
  intros Hfull. assert (rotate_due c (files (log_start (Some left) 2)) = true) as Hdue by (by apply Z.leb_le).
  set (b := backup_file c timestamp).
  eexists. split.
  { eapply rtc_l; [apply (Call c false 0 line1); reflexivity|].
    eapply rtc_l; [apply (Call c false 1 line2); reflexivity|].
    eapply rtc_l; [apply (TooLarge c false 0 line1 timestamp); [reflexivity|exact Hdue]|].
    eapply rtc_l; [apply (TooLarge c false 1 line2 timestamp); [reflexivity|exact Hdue]|].
    eapply rtc_l; [apply (RenameDone c false 0 line1 b); [reflexivity|done]|].
    eapply rtc_l; [apply (OpenDone c false 0 line1); reflexivity|].
    eapply rtc_l; [apply (WriteText c false 0 1 line1); reflexivity|].
    eapply rtc_l; [apply (WriteEnd c false 0 1); reflexivity|].
    eapply rtc_l; [apply (RenameDone c false 1 line2 b); [reflexivity|done]|].
    eapply rtc_l; [apply (OpenDone c false 1 line2); reflexivity|].
    eapply rtc_l; [apply (WriteText c false 1 2 line2); reflexivity|].
    eapply rtc_l; [apply (WriteEnd c false 1 2); reflexivity|]. reflexivity. }
  split_and!; [apply insert_insert_eq|reflexivity..].
Qed.

(** *** Forms of lines *)

Lemma split_at_bracket m r : contains "] " m = false -> split_at_first "] " (m +:+ "] " +:+ r) = Some (m, r).
Proof.
  induction m as [|a m IH]; [done|]. intros Hc. rewrite str_app_cons.
  assert (strip_prefix "] " (String a (m +:+ "] " +:+ r)) = None) as Hn.
  { cbn [contains] in Hc. apply orb_false_iff in Hc as [Hc _]. unfold starts_with in Hc. apply bool_decide_eq_false in Hc.
    cbn [strip_prefix]. case_bool_decide as Ea; [|done]. destruct m as [|b m]; [done|]. rewrite str_app_cons.
    case_bool_decide as Eb; [|done]. subst. destruct Hc. by eexists. }
  cbn [split_at_first]. rewrite Hn. cbn [contains] in Hc. apply orb_false_iff in Hc as [_ Hc]. by rewrite IH.
Qed.

(** a module's message is logged under its name and level, whatever its text,
    when the name has no bracket followed by a space. *)
Theorem module_line timestamp m text r :
  args r = log_mod m text -> contains "] " m = false ->
  format_line timestamp r = "[" +:+ timestamp +:+ "] [/" +:+ m +:+ "/" +:+ level_display (level r) +:+ "] " +:+ text.
Proof.
  intros Ha Hm. unfold format_line. rewrite Ha. unfold log_mod.
  replace (strip_prefix "[PLAIN] " _) with (@None string) by done. rewrite strip_prefix_app. simpl.
  by rewrite split_at_bracket.
Qed.

(** any line, with any time, level and place, can be had by a message of any
    level at any other time: the line is what follows the mark of a plain one. *)
Theorem line_forged timestamp r timestamp' r' :
  args r' = log_plain (format_line timestamp r) -> format_line timestamp' r' = format_line timestamp r.
Proof. intros Ha. unfold format_line at 1. by rewrite Ha, strip_prefix_app. Qed.

(** numbers do not reach the level of warnings: below it there is only that of
    errors, and the next number gives that of information. *)
Theorem no_number_for_warnings n : level_filter (LevelNumber n) <> Warn.
Proof. unfold level_filter. by repeat case_match. Qed.

(** ** A log *)

Module LogDemo.
Definition conf : LogConfig := LogConf (LevelNumber 2) 4 "/var/log/a.log" "/var/bak".
Definition say (s : string) : record := Record_ Info (log_plain s) None None None.
Definition at_second (s : string) : moment := Moment "" s true true Whole.
Definition calls : list (moment * record) :=
  [(at_second "1", say "one"); (at_second "2", say "two"); (Moment "" "3" false true Whole, say "three");
   (at_second "4", say "4")].
(** The disk is full at the third call and the log cannot be opened at the fourth. *)
Definition failing : list (moment * record) :=
  [(at_second "1", say "one"); (at_second "2", say "two"); (Moment "" "3" true true (Part 2), say "three");
   (Moment "" "4" true false Whole, say "four"); (at_second "5", say "five")].

Lemma log_reads_back_witness :
  all_text (log_all conf Info calls (files (log_start (Some "old") 1)))
  = "oldone" +:+ newline +:+ "two" +:+ newline +:+ "three" +:+ newline +:+ "4" +:+ newline
  /\ all_text (log_all conf Info failing (files (log_start (Some "old") 1)))
  = "oldone" +:+ newline +:+ "two" +:+ newline +:+ "thfive" +:+ newline.
Proof.
  split; [apply (log_reads_back conf Info calls (Some "old")); by_decide|].
  apply (log_reads_back conf Info failing (Some "old")); by_decide.
Defined.

Lemma log_bounded_witness :
  str_len (content (log_all conf Info (calls ++ [(at_second "5", say "five")]) (files (log_start None 1))) 2) <= 3 + 4 + 1.
Proof.
  by apply (log_bounded conf Info calls (at_second "5") (say "five") (files (log_start None 1)) 2%nat).
Defined.

(** Two threads; the first has renamed the log, the second not yet looked. *)
Lemma rotation_keeps_everything_witness :
  exists s, length (contents (files s)) = 2%nat /\ named (files s) 0 /\ contents (files s) !! 0%nat = Some (written_to 0 "old log" (history s)).
Proof.
  eexists. split; cycle 1.
  - apply (rotation_keeps_everything conf (Some "old log") 2 _ 0%nat).
    + eapply rtc_l; [apply (Call conf true 0 "a"); reflexivity|].
      eapply rtc_l; [apply (TooLarge conf true 0 "a" "1"); reflexivity|].
      eapply rtc_l; [apply (RenameDone conf true 0 "a"); [reflexivity|reflexivity]|].
      eapply rtc_l; [apply (OpenDone conf true 0 "a"); reflexivity|].
      eapply rtc_l; [apply (WriteText conf true 0 1 "a"); reflexivity|]. reflexivity.
    + vm_compute. lia.
  - vm_compute. reflexivity.
Defined.

Lemma race_loses_log_witness :
  exists s, rtc (log_step conf false) (log_start (Some "old log") 2) s
    /\ backups (files s) = {["/var/bak/backend_1.log" := 1%nat]} /\ content (files s) 1 = "a" +:+ newline
    /\ current (files s) = Some 2%nat /\ content (files s) 2 = "b" +:+ newline.
Proof. apply (race_loses_log conf "old log" "a" "b" "1"). vm_compute. discriminate. Defined.

Lemma module_line_witness :
  format_line "12:00" (Record_ Error (log_mod "usb" "gone") None None None) = "[12:00] [/usb/ERROR] gone".
Proof. by apply (module_line "12:00" "usb" "gone" (Record_ Error (log_mod "usb" "gone") None None None)). Defined.

Lemma line_forged_witness :
  format_line "12:00" (say "[08:00] (a.rs:1:m) [ERROR] hacked") = "[08:00] (a.rs:1:m) [ERROR] hacked".
Proof.
  by apply (line_forged "08:00" (Record_ Error "hacked" (Some "a.rs") (Some 1) (Some "m")) "12:00").
Defined.
End LogDemo.
