(* ===== verification/UsbService.v ===== *)
(** * The USB services

    [start_usb_services] and [start_usb_hotplug_handler] of
    [crates/udisk/src/monitor.rs]: the first report of the storage devices once
    there is a token, the hot-plug callbacks from then on, and the task that
    reports anew on every signal of theirs.  The callbacks, the handler, the
    spawned disabling of devices and the bus itself run side by side. *)

From S2P Require Import Prelude RustStr Json Usb TaskFetcher.

Record usb_service := Service {
  mon : monitor;
  events : list (bool * usb_device);    (** not yet called back: arrived or left *)
  start_list : option (list UsbInfo);   (** read, while there is no token *)
  handler : option (list UsbInfo);      (** read by the handler, not yet sent *)
  eid_map : gmap string UsbInfo;        (** EID_TO_DEVICE_INFO *)
  posted : list string                  (** the bodies of the reports *)
}.

Section service.
Context (md5_hex : string -> string) (text : value -> string).
(** What [rusb] says of an entry of sysfs. *)
Context (dev_of : string * device -> usb_device).

Abbreviation listing := (get_all_local_usb_devices md5_hex).

Definition set_sysfs (fs : sysfs) (m : monitor) : monitor :=
  Monitor (lists m) (seen_devices m) (device_info_cache m) fs (audit m) (signals m).
Definition set_lists (l : BlackWhiteList) (m : monitor) : monitor :=
  Monitor l (seen_devices m) (device_info_cache m) (devices m) (audit m) (signals m).
Definition take_signal (m : monitor) : monitor :=
  Monitor (lists m) (seen_devices m) (device_info_cache m) (devices m) (audit m) (pred (signals m)).

(** The bus: events are queued once the callbacks are registered. *)
Definition bus (arrived : bool) (e : string * device) (fs : sysfs) (s : usb_service) : usb_service :=
  Service (set_sysfs fs (mon s))
    (match start_list s with Some _ => events s | None => events s ++ [(arrived, dev_of e)] end)
    (start_list s) (handler s) (eid_map s) (posted s).

Definition call_back (usb_switch usb_protect : bool) (now : Z) (ev : bool * usb_device) (rest : list (bool * usb_device))
    (s : usb_service) : usb_service :=
  Service (if ev.1 then device_arrived md5_hex usb_switch usb_protect now ev.2 (mon s)
           else device_left usb_switch usb_protect now ev.2 (mon s))
    rest (start_list s) (handler s) (eid_map s) (posted s).

(** [upload_usb_info]: whatever the server answers. *)
Definition upload_usb_info (l : list UsbInfo) (s : usb_service) : usb_service :=
  Service (mon s) (events s) (start_list s) (handler s) (eid_map s) (posted s ++ [build_usb_json text l]).

(** There is a token: the list read at the start is sent, and the callbacks are
    registered, with an event for each device that is there. *)
Definition register_callbacks (l : list UsbInfo) (s : usb_service) : usb_service :=
  let s := upload_usb_info l s in
  Service (mon s) (events s ++ ((true,.) ∘ dev_of <$> devices (mon s))) None (handler s) (eid_map s) (posted s).

(** The handler takes a signal and lists the devices; then it sends the list. *)
Definition receive (s : usb_service) : usb_service :=
  let l := listing (devices (mon s)) in
  Service (take_signal (mon s)) (events s) (start_list s) (Some l) (update_device_cache l) (posted s).
Definition send_list (l : list UsbInfo) (s : usb_service) : usb_service :=
  let s := upload_usb_info l s in
  Service (mon s) (events s) (start_list s) None (eid_map s) (posted s).

Definition on_monitor (f : monitor -> monitor) (s : usb_service) : usb_service :=
  Service (f (mon s)) (events s) (start_list s) (handler s) (eid_map s) (posted s).

Definition report_of (fs : sysfs) : string := build_usb_json text (listing fs).

(** Callbacks that send a signal while USB control is on. *)
Definition will_signal (ev : bool * usb_device) : bool :=
  if ev.1 then descriptor_ok ev.2 && is_usb_storage ev.2 else true.

(** A step is [missed] when it changes what there is to report, or takes an
    event that tells of such a change, without a signal to the handler: a
    callback while USB control is off, and a device the thread of a black list
    disables, whose interfaces vanish. *)
Inductive service_step : bool -> usb_service -> usb_service -> Prop :=
| Plug e s : service_step false s (bus true e (devices (mon s) ++ [e]) s)
| Unplug e l1 l2 s : devices (mon s) = l1 ++ e :: l2 -> service_step false s (bus false e (l1 ++ l2) s)
| Callback usb_switch usb_protect now ev rest s :
    events s = ev :: rest ->
    service_step (negb usb_switch && will_signal ev) s (call_back usb_switch usb_protect now ev rest s)
| TokenSet l s : start_list s = Some l -> service_step false s (register_callbacks l s)
| Receive s : (0 < signals (mon s))%nat -> handler s = None -> service_step false s (receive s)
| Send l s : handler s = Some l -> service_step false s (send_list l s)
| Lists o s : service_step false s (on_monitor (fun m => set_lists (update o (lists m)) m) s)
| Disable eids s :
    let fs := (handle_blacklist_update md5_hex eids (devices (mon s))).2 in
    service_step (negb (bool_decide (report_of fs = report_of (devices (mon s))))) s
      (on_monitor (fun m => set_sysfs fs m) s).

Definition start_usb_services (l : BlackWhiteList) (fs : sysfs) : usb_service :=
  Service (Monitor l [] ∅ fs [] 0) [] (Some (listing fs)) None (update_device_cache (listing fs)) [].

(** ** The reports follow the devices *)

Definition listed (e : string * device) : bool := has_ids e.2 && is_storage e.2.

Lemma report_unlisted fs e : listed e = false -> report_of (fs ++ [e]) = report_of fs.
Proof.
  unfold listed, report_of, get_all_local_usb_devices. destruct e as [n d]. simpl. intros He.
  rewrite retain_app. simpl. by rewrite He, app_nil_r.
Qed.

(** *** Work to be done *)

(** Either a report of the devices as they are is the last one, or something is
    on its way that makes the next. *)
Definition follows (s : usb_service) : Prop :=
  existsb will_signal (events s) = true \/ (0 < signals (mon s))%nat
  \/ (exists l, handler s = Some l /\ build_usb_json text l = report_of (devices (mon s)))
  \/ (handler s = None /\ last (posted s) = Some (report_of (devices (mon s)))).

Definition quiet (s : usb_service) : Prop :=
  events s = [] /\ signals (mon s) = 0%nat /\ handler s = None /\ start_list s = None.

Lemma quiet_last s : follows s -> quiet s -> last (posted s) = Some (report_of (devices (mon s))).
Proof.
  intros Hf (He & Hs & Hh & _). unfold follows in Hf. rewrite He, Hs, Hh in Hf.
  destruct Hf as [Hf|[Hf|[(l & Hf & _)|[_ Hf]]]]; [done|lia|done|done].
Qed.

Lemma send_signal_pos n : (0 < send_signal n)%nat.
Proof. unfold send_signal. destruct (Nat.ltb_spec n 100); lia. Qed.

Lemma callback_signals usb_switch usb_protect now ev rest s :
  negb usb_switch && will_signal ev = false ->
  if will_signal ev then (0 < signals (mon (call_back usb_switch usb_protect now ev rest s)))%nat
  else mon (call_back usb_switch usb_protect now ev rest s) = mon s.
Proof.
  destruct usb_switch; simpl; intros Hw; [clear Hw|rewrite Hw];
    (destruct ev as [[] dev]; unfold will_signal, call_back in *; simpl in *; [|try done]); [|..|done].
  - unfold device_arrived. simpl. destruct (descriptor_ok dev), (is_usb_storage dev); simpl; try done.
    apply send_signal_pos.
  - unfold device_left. simpl. destruct (device_info_cache (mon s) !! _) as [[eid name]|]; simpl.
    + destruct (get_device_list_status _ _); apply send_signal_pos.
    + apply send_signal_pos.
Qed.

(** [rusb] sees the storage devices that are listed, with their descriptors. *)
Context (Hsees : forall e, listed e = true -> will_signal (true, dev_of e) = true).

Lemma bus_follows arrived e fs s :
  start_list s = None ->
  will_signal (arrived, dev_of e) = true \/ report_of fs = report_of (devices (mon s)) ->
  follows s -> follows (bus arrived e fs s).
Proof.
  intros Hn He Hf. unfold follows, bus in *. rewrite Hn. simpl. rewrite existsb_app. simpl.
  destruct He as [-> | ->]; [left; by rewrite orb_true_r|].
  destruct Hf as [->|Hf]; [by left|]. by right.
Qed.

Lemma service_step_follows s s' :
  service_step false s s' -> start_list s = None -> follows s -> start_list s' = None /\ follows s'.
Proof.
  remember false as missed eqn:Hm. intros Hstep Hn Hf.
  destruct Hstep as [e s|e l1 l2 s El|on p now ev rest s Ee|l s Es|s Hpos Hh|l s Hh|o s|eids s fs]; try (split; [done|]).
  - apply bus_follows; [done| |done]. destruct (listed e) eqn:El; [left; by apply Hsees|].
    right. by apply report_unlisted.
  - apply bus_follows; [done|by left|done].
  - pose proof (callback_signals on p now ev rest s Hm) as Hc. destruct (will_signal ev) eqn:Ew.
    + by right; left.
    + unfold follows in *. rewrite Hc. rewrite Ee in Hf. simpl in Hf. by rewrite Ew in Hf.
  - congruence.
  - right; right; left. eexists. by split.
  - destruct Hf as [Hf|[Hf|[(l' & Hl & Hr)|[Hf _]]]]; [by left|by right; left| |congruence].
    right; right; right. split; [done|]. simpl. rewrite last_snoc. congruence.
  - exact Hf.
  - apply negb_false_iff, bool_decide_eq_true in Hm. unfold follows in *. simpl. by rewrite Hm.
Qed.

Lemma runs_follow s s' :
  rtc (service_step false) s s' -> start_list s = None -> follows s -> start_list s' = None /\ follows s'.
Proof. induction 1; [done|]. intros Hn Hf. edestruct service_step_follows; eauto. Qed.

Lemma register_follows l s :
  report_of (devices (mon s)) = build_usb_json text l \/ existsb listed (devices (mon s)) = true ->
  handler s = None -> follows (register_callbacks l s).
Proof.
  intros [Hl|Hl] Hh.
  - right; right; right. simpl. split; [done|]. rewrite last_snoc. congruence.
  - left. simpl. rewrite existsb_app. apply orb_true_iff. right. apply existsb_exists in Hl as (e & Hin & He).
    apply existsb_exists. exists (true, dev_of e). split; [|by apply Hsees].
    apply list_elem_of_In, list_elem_of_fmap. exists e. split; [done|]. by apply list_elem_of_In.
Qed.

(** C13: if [rusb] sees every storage device that sysfs lists, with its descriptor:
    right after the registration of the callbacks, provided a storage device is
    there or the devices are still those first listed, and later in any state in
    which a signal, a signalling event or a list just read is still to be
    handled, or the last report is right, whatever was missed before: from there
    on, whatever is plugged, unplugged, listed or disabled, in whatever order
    the callbacks, the handler and the bus take turns, and though signals are
    dropped when their channel is full, when all have come to rest the last
    report sent is that of the devices there are.  The steps left out are the
    missed ones: an event called back while USB control is off, and a device
    whose interfaces vanish because the thread of a black list disabled it. *)
Theorem reports_follow_devices :
  (forall l s,
     report_of (devices (mon s)) = build_usb_json text l \/ existsb listed (devices (mon s)) = true ->
     handler s = None -> follows (register_callbacks l s))
  /\ forall s s', start_list s = None -> follows s -> rtc (service_step false) s s' -> quiet s' ->
       last (posted s') = Some (report_of (devices (mon s'))).
Proof.
  split; [apply register_follows|]. intros s s' Hn Hf Hr Hq.
  apply quiet_last; [|done]. by apply (runs_follow _ _ Hr).
Qed.

(** a device that is taken out before the agent has its token is reported all
    the same, and when no other is there nothing corrects the report. *)
Theorem gone_before_token_reported lists0 e :
  exists s, rtc (service_step false) (start_usb_services lists0 [e]) s /\ quiet s
    /\ devices (mon s) = [] /\ posted s = [report_of [e]].
Proof.
  eexists. split.
  - eapply rtc_l; [by apply (Unplug e [] [])|]. eapply rtc_l; [by apply TokenSet|]. reflexivity.
  - by split_and!.
Qed.
End service.

(** ** A stick *)

Module UsbDemo.
Definition seen_stick (_ : string * device) : usb_device := sample_stick.
(** The text of the data, or the number of devices. *)
Definition json (v : value) : string :=
  match v with
  | Array l => dec (Z.of_nat (length l))
  | Object ((_, Str data) :: _) => data
  | _ => ""
  end.
Definition before : usb_service := start_usb_services id new_lists [("1-2", sample_entry)].

Definition stick_list : list UsbInfo := get_all_local_usb_devices id [("1-2", sample_entry)].
Definition blocked : string * device := ("1-2", deauthorized sample_entry).

(** The stick that is there is blocked: it is no longer listed.  It is taken out
    before the list is sent, and the list is sent again after it. *)
Definition sent_late : usb_service :=
  send_list json []
    (bus seen_stick false blocked [] (receive id (call_back id true true 5 (true, sample_stick) [] (register_callbacks json seen_stick stick_list before)))).
Definition after : usb_service :=
  send_list json [] (receive id (call_back id true true 6 (false, sample_stick) [] sent_late)).

Lemma before_runs : rtc (service_step id json seen_stick false) (register_callbacks json seen_stick stick_list before) after.
Proof.
  eapply rtc_l; [by apply (Callback id json seen_stick true true 5 (true, sample_stick) [])|].
  eapply rtc_l; [apply Receive; [vm_compute; lia|reflexivity]|].
  eapply rtc_l; [apply (Unplug id json seen_stick blocked [] []); vm_compute; reflexivity|].
  eapply rtc_l; [apply (Send id json seen_stick []); reflexivity|].
  eapply rtc_l; [apply (Callback id json seen_stick true true 6 (false, sample_stick) []); reflexivity|].
  eapply rtc_l; [apply Receive; [vm_compute; lia|reflexivity]|].
  eapply rtc_l; [apply (Send id json seen_stick []); reflexivity|]. reflexivity.
Qed.

Lemma reports_follow_devices_witness :
  posted after = ["1"; "[]"; "[]"] /\ devices (mon after) = [] /\ last (posted after) = Some (report_of id json []).
Proof.
  split; [vm_compute; reflexivity|]. split; [vm_compute; reflexivity|].
  destruct (reports_follow_devices id json seen_stick (fun _ _ => eq_refl)) as [H1 H2].
  apply (H2 (register_callbacks json seen_stick stick_list before)); [reflexivity| |apply before_runs|].
  - apply H1; [left|]; reflexivity.
  - split_and!; vm_compute; reflexivity.
Defined.

(** Two steps that are missed: a stick taken out while USB control is off, and a
    stick that is black-listed while it is there.  Both stay in the last report. *)
Definition registered : usb_service :=
  send_list json stick_list (receive id
    (call_back id true false 5 (true, sample_stick) [] (register_callbacks json seen_stick stick_list before))).

Example missed_while_off :
  let s := call_back id false false 6 (false, sample_stick) [] (bus seen_stick false ("1-2", sample_entry) [] registered) in
  quiet s /\ devices (mon s) = [] /\ last (posted s) = Some "1".
Proof. vm_compute. split_and!; reflexivity. Qed.

Example missed_blacklisting :
  let fs := (handle_blacklist_update id [device_eid id sample_entry] (devices (mon registered))).2 in
  let s := on_monitor (set_sysfs fs) registered in
  quiet s /\ get_all_local_usb_devices id (devices (mon s)) = [] /\ last (posted s) = Some "1".
Proof. vm_compute. split_and!; reflexivity. Qed.
End UsbDemo.
