(* ===== verification/AgentMain.v ===== *)
(** * The two programs

    [crates/main/src/main.rs] from its first line to the spawning of the services,
    and [main] of [crates/agent_manager/src/main.rs]: the parts of [Boot],
    [Logging] and [Netlink] in the order in which a process goes through them. *)

From S2P Require Import Prelude RustStr Bytes Float Json Shell Host NetInfo HostInfo KernelModule Netlink.
From S2P Require Import Manager Boot Logging.

(** The tasks the agent spawns; the fetcher is given the socket, if there is one. *)
Inductive service :=
| StartServices | LogServices | FetchTasks (with_socket : bool) | TimerTask
| KernelSend | KernelRcv | UsbServices | UsbHotplugHandler | DockerMonitor.

#[global] Instance service_eq_dec : EqDecision service.
Proof. solve_decision. Defined.

(** A process: its machine, its logger and its netlink sockets. *)
Record process (W : Type) := Process {
  p_host : host W;
  p_logger : logger;
  p_sockets : list (Z * option Z)
}.
Arguments Process {W} _ _ _.
Arguments p_host {W} _.
Arguments p_logger {W} _.
Arguments p_sockets {W} _.

Section agent.
Context {W : Type} `{Os W} `{Files W} `{Disk W} {V : Type} `{JsonValue V} `{JsonText V}.
Context (levenshtein : string -> string -> nat) (dev_re : string -> option string).
Context (fixed_1 : f64 -> string) (read_bytes : string -> W -> result string (list Z)).
Context (new_v4 : W -> string) (md5_hex : list Z -> string).
Context (ini_load : string -> W -> result string (string -> string -> option string)).
(** What the attempts to read the protocol see, and the socket's system calls. *)
Context (proto_look : nat -> option (result string string)) (opens binds : result string unit).

Abbreviation pr := (process W).

Definition on_process {A} (m : io (host W) A) : io pr A := fun p =>
  let '(a, h) := m (p_host p) in (a, Process h (p_logger p) (p_sockets p)).

(** [CustomLogger::init], whose error [expect] turns into a panic as well. *)
Definition init_logger (config_path : string) : io pr (outcome unit) := fun p =>
  match init (V:=V) config_path (p_logger p) (p_host p) with
  | (Done (Ok _, g), h) => (Done tt, Process h g (p_sockets p))
  | (Done (Err _, g), h) => (Panic, Process h g (p_sockets p))
  | (Panic, h) => (Panic, Process h (p_logger p) (p_sockets p))
  end.

(** The greeting: the agent's port, a fixed address, five bytes, and the word
    that switches the module's reports on; the first that fails ends it. *)
Definition send_data_to_kernel : io (host W) (result string string) :=
  let? _ := with_err (fun e => "Failed to send set portid message: " +:+ e)
              (write_out (SendNetlink 1 (as_bytes "set portid"))) in
  let? _ := with_err (fun e => "Failed to send IP address: " +:+ e)
              (write_out (SendNetlink 1 (octets (of_octets 192 168 0 1)))) in
  let? _ := with_err (fun e => "Failed to send custom data: " +:+ e) (write_out (SendNetlink 1 [1; 2; 3; 4; 5])) in
  let? _ := with_err (fun e => "Failed to send custom data: " +:+ e) (write_out (SendNetlink 4 [1; 0; 0; 0])) in
  mret (Ok "Data sent successfully").

(** The socket, if it can be had, and the greeting, whose failure is logged. *)
Definition open_channel (pid : Z) : io pr bool := fun p =>
  let '(r, socks) := create_socket proto_look pid opens binds (p_sockets p) in
  let p := Process (p_host p) (p_logger p) socks in
  match r with
  | Ok _ => let '(_, p) := on_process send_data_to_kernel p in (true, p)
  | Err _ => (false, p)
  end.

Definition services (socket : bool) : list service :=
  [StartServices; LogServices; FetchTasks socket; TimerTask]
  ++ (if socket then [KernelSend; KernelRcv] else [])
  ++ [UsbServices; UsbHotplugHandler; DockerMonitor].

(** [sigpipe_ok]: whether SIGPIPE could be ignored. *)
Definition agent_main (fuel : nat) (config_env : option string) (argv : list string) (pid : Z) (sigpipe_ok : bool)
    : io pr (outcome (option (started (NetInfoConfig * list service)))) :=
  first ← on_process (single_instance PID_FILE pid);
  if negb (first : bool) then mret (Done (Some (Exit 1)))
  else
    let! _ := init_logger "/opt/osec/osec_backend.conf" in
    if negb sigpipe_ok then mret Panic
    else
      r ← on_process (boot_up levenshtein dev_re fixed_1 read_bytes new_v4 md5_hex ini_load fuel config_env argv);
      match r with
      | None => mret (Done None)
      | Some (Exit code) => mret (Done (Some (Exit code)))
      | Some (Go c) =>
        socket ← open_channel pid;
        mret (Done (Some (Go (c, services socket))))
      end.

(** ** The manager *)

Inductive console_end := ConsoleServer (port : Z) | ConsoleClient.

(** Which configuration file, and which end of the console, if any: [agent_cli]
    says whether the console is compiled in. *)
Definition manager_mode (args : list string) : string := default "client" (args !! 1%nat).
Definition conf_path (mode : string) : string :=
  if bool_decide (mode = "server") then "./agent_backend.conf" else "/opt/osec/agent_backend.conf".
Definition console_of (agent_cli : bool) (args : list string) : option console_end :=
  if negb agent_cli then None
  else if bool_decide (manager_mode args = "server")
  then Some (ConsoleServer (default 10448 ((args !! 2%nat) ≫= parse_uint 16)))
  else if bool_decide (manager_mode args = "client") then Some ConsoleClient
  else None.

(** Up to the loop [run_agent_manager]. *)
Definition manager_main (agent_cli : bool) (args : list string) (pid : Z)
    : io pr (outcome (option (option console_end))) :=
  first ← on_process (ensure_single_instance pid);
  if negb (first : bool) then mret (Done None)
  else
    let! _ := init_logger (conf_path (manager_mode args)) in
    mret (Done (Some (console_of agent_cli args))).

(** ** A start that goes on *)

(** The messages of the greeting. *)
Definition greeting : list write :=
  [SendNetlink 1 (as_bytes "set portid"); SendNetlink 1 [192; 168; 0; 1]; SendNetlink 1 [1; 2; 3; 4; 5];
   SendNetlink 4 [1; 0; 0; 0]].

(** The greeting goes out up to the first message that is refused. *)
Definition greeted (l l' : list write) : Prop :=
  exists n, l' = l ++ take n greeting
    /\ (l' = l ++ greeting \/ exists w (x : W) e, greeting !! n = Some w /\ (put w x).1 = Err e).

Lemma write_out_cases w (x : host W) :
  (exists x', write_out w x = (Ok tt, x') /\ h_written x' = h_written x ++ [w])
  \/ exists e x', write_out w x = (Err e, x') /\ h_written x' = h_written x /\ exists y : W, (put w y).1 = Err e.
Proof.
  unfold write_out. destruct (put w (world (h_shell x))) as [[[]|e] w'] eqn:E; [left; by eexists|right].
  eexists e, _. split_and!; [done..|]. exists (world (h_shell x)). by rewrite E.
Qed.

Lemma greeting_written (h : host W) : greeted (h_written h) (h_written (send_data_to_kernel h).2).
Proof.
  unfold greeted, send_data_to_kernel, bind_ok, with_err.
  destruct (write_out_cases (SendNetlink 1 (as_bytes "set portid")) h) as [(h1 & -> & W1)|(e & h1 & -> & W1 & y & Ey)];
    cbn [map_err snd].
  2: { exists 0%nat. rewrite W1, app_nil_r. split; [done|]. right. by eexists _, y, e. }
  destruct (write_out_cases (SendNetlink 1 (octets (of_octets 192 168 0 1))) h1) as [(h2 & -> & W2)|(e & h2 & -> & W2 & y & Ey)];
    cbn [map_err snd].
  2: { exists 1%nat. rewrite W2, W1. split; [done|]. right. by eexists _, y, e. }
  destruct (write_out_cases (SendNetlink 1 [1; 2; 3; 4; 5]) h2) as [(h3 & -> & W3)|(e & h3 & -> & W3 & y & Ey)];
    cbn [map_err snd].
  2: { exists 2%nat. rewrite W3, W2, W1, <- app_assoc. split; [done|]. right. by eexists _, y, e. }
  destruct (write_out_cases (SendNetlink 4 [1; 0; 0; 0]) h3) as [(h4 & -> & W4)|(e & h4 & -> & W4 & y & Ey)];
    cbn [map_err snd].
  2: { exists 3%nat. rewrite W4, W3, W2, W1, <- !app_assoc. split; [done|]. right. by eexists _, y, e. }
  exists 4%nat. cbn [mret io_ret snd]. rewrite W4, W3, W2, W1, <- !app_assoc. split; [done|by left].
Qed.

(** The log configuration in a file. *)
Definition log_config_in (path : string) (w : W) : option LogConfig :=
  text ← ok (read_text path w); v ← ok (from_str (V:=V) text); de_log_config v.

Lemma init_logger_Done config_path p p' :
  init_logger config_path p = (Done tt, p') ->
  p_sockets p' = p_sockets p
  /\ exists c, log_config_in config_path (world (h_shell (p_host p))) = Some c
       /\ boxed_logger (p_logger p') = Some c /\ max_level (p_logger p') = level_filter (log_level c).
Proof.
  unfold init_logger, init, log_config_in. rewrite look_bind.
  destruct (read_text config_path _) as [text|e]; [|done]. cbn [ok mbind option_bind].
  destruct (from_str text) as [v|e]; [|done]. cbn [ok mbind option_bind].
  destruct (de_log_config v) as [c|]; [|done].
  unfold bind_done. destruct (CustomLogger_new c (p_host p)) as [[[]|] h]; [|done]. unfold mret, io_ret.
  unfold set_boxed_logger. destruct (boxed_logger (p_logger p)); [done|]. intros [= <-]. split; [done|]. by exists c.
Qed.

Lemma open_channel_result pid p b p' :
  p_sockets p = [] -> open_channel pid p = (b, p') ->
  p_logger p' = p_logger p
  /\ if b then (exists proto, p_sockets p' = [(proto, Some pid)])
              /\ greeted (h_written (p_host p)) (h_written (p_host p'))
     else Forall (fun s => s.2 = None) (p_sockets p') /\ h_written (p_host p') = h_written (p_host p).
Proof.
  intros Hs. unfold open_channel, create_socket. rewrite Hs.
  destruct (get_netlink_proto proto_look) as [proto|e]; [|intros [= <- <-]; by split_and!].
  destruct opens as [[]|e]; [|intros [= <- <-]; by split_and!]. rewrite bool_decide_eq_false_2 by set_solver.
  destruct binds as [[]|e]; [|intros [= <- <-]; split_and!; [done|by repeat constructor|done]].
  unfold on_process. simpl. pose proof (greeting_written (p_host p)) as Hw.
  destruct (send_data_to_kernel (p_host p)) as [r h]. intros [= <- <-]. split_and!; [done|by exists proto|done].
Qed.

(** C22: an agent that starts as the process's only one and goes on to its services
    logs as the file [osec_backend.conf] says, as it was after the number of the
    process was written.  What sends to and receives from the kernel module
    runs, and the fetcher is given the socket, exactly when the agent has one:
    then the socket is bound to the process, and the last messages sent before
    any service starts are the greeting (the agent's port, and the word to
    report), up to the first of its messages that is refused, a failure the
    services do not wait for; otherwise no socket is bound and the other
    services run without it. *)
Theorem services_fit_channel fuel env argv pid sigpipe_ok (p p' : pr) c l :
  p_sockets p = [] ->
  agent_main fuel env argv pid sigpipe_ok p = (Done (Some (Go (c, l))), p') ->
  (exists lc, log_config_in "/opt/osec/osec_backend.conf"
                (world (h_shell (single_instance PID_FILE pid (p_host p)).2)) = Some lc
              /\ boxed_logger (p_logger p') = Some lc /\ max_level (p_logger p') = level_filter (log_level lc))
  /\ (KernelRcv ∈ l <-> KernelSend ∈ l) /\ (KernelRcv ∈ l <-> FetchTasks true ∈ l)
  /\ (KernelRcv ∈ l -> (exists proto, p_sockets p' = [(proto, Some pid)])
                       /\ exists before, greeted before (h_written (p_host p')))
  /\ (KernelRcv ∉ l -> Forall (fun s => s.2 = None) (p_sockets p')).
Proof.
  intros Hs. unfold agent_main. rewrite io_bind_run.
  destruct (on_process (single_instance PID_FILE pid) p) as [[] p1] eqn:E1; [|done]. cbn [fst snd negb].
  assert (p_sockets p1 = [] /\ p_host p1 = (single_instance PID_FILE pid (p_host p)).2) as [Hs1 Hh1].
  { unfold on_process in E1. destruct (single_instance _ _ _). by injection E1 as _ <-. }
  unfold bind_done. destruct (init_logger _ p1) as [[[]|] p2] eqn:E2; [|done].
  apply init_logger_Done in E2 as [Hs2 Hlog]. rewrite Hs1 in Hs2. rewrite Hh1 in Hlog.
  destruct sigpipe_ok; [|done]. cbn [negb].
  rewrite io_bind_run. unfold on_process at 1 2. destruct (boot_up _ _ _ _ _ _ _ _ _ _ (p_host p2)) as [r h].
  cbn [fst snd]. destruct r as [[code|c']|]; [done| |done]. rewrite io_bind_run.
  destruct (open_channel pid _) as [b p3] eqn:E3. apply open_channel_result in E3 as [Hl Hb]; [|done].
  cbn [fst snd p_logger p_host] in *. intros [= _ <- <-]. rewrite Hl. split; [done|].
  destruct b.
  - destruct Hb as [Hsock Hw].
    assert (KernelRcv ∈ services true /\ KernelSend ∈ services true /\ FetchTasks true ∈ services true) as (? & ? & ?) by by_decide.
    split_and!; [done|done|by eauto|done].
  - destruct Hb as [Hsock Hw].
    assert ((KernelRcv ∉ services false) /\ (KernelSend ∉ services false) /\ (FetchTasks true ∉ services false)) as (? & ? & ?) by by_decide.
    split_and!; [done|done|done|done].
Qed.

(** without a readable log configuration the agent panics at every start, when
    its number is in the file and before it has looked at its settings or its
    driver. *)
Theorem no_log_configuration_panics fuel env argv pid sigpipe_ok (p : pr) e :
  (single_instance PID_FILE pid (p_host p)).1 = true ->
  read_text "/opt/osec/osec_backend.conf" (world (h_shell (single_instance PID_FILE pid (p_host p)).2)) = Err e ->
  agent_main fuel env argv pid sigpipe_ok p
  = (Panic, Process (single_instance PID_FILE pid (p_host p)).2 (p_logger p) (p_sockets p)).
Proof.
  intros Hf He. destruct (single_instance PID_FILE pid (p_host p)) as [first h] eqn:Es. simpl in Hf, He. subst first.
  assert (on_process (single_instance PID_FILE pid) p = (true, Process h (p_logger p) (p_sockets p))) as Ep
    by (unfold on_process; by rewrite Es).
  unfold agent_main. rewrite io_bind_run, Ep. cbn [fst snd negb].
  unfold bind_done, init_logger, init. rewrite look_bind.
  simpl. by rewrite He.
Qed.

(** what is not a mode starts neither end of the console, and its manager runs
    with the client's configuration. *)
Theorem unknown_mode_no_console agent_cli prog mode rest :
  mode <> "server" -> mode <> "client" ->
  console_of agent_cli (prog :: mode :: rest) = None
  /\ conf_path (manager_mode (prog :: mode :: rest)) = conf_path "client".
Proof.
  intros Hs Hc. unfold console_of, conf_path, manager_mode. simpl.
  rewrite !bool_decide_eq_false_2 by done. split; [by destruct agent_cli|done].
Qed.
End agent.

(** ** A start *)

Module MainDemo.
Import BootDemo.
#[local] Existing Instance no_os.
#[local] Existing Instance demo_files.
#[local] Instance rocky_disk : Disk files := disk_of "ID=rocky".
#[local] Instance demo_text : JsonText value := {|
  from_str s := if bool_decide (s = "conf")
                then Ok (Object [("log_level", Str "WARN"); ("log_size", Number 1000);
                                 ("log_path", Str "/var/log/a.log"); ("log_backup_path", Str "/var/bak")])
                else Err "expected value";
  is_object _ := true; to_text _ := ""; de_error _ _ := ""
|}.

Definition installed : host files :=
  machine_of [("/opt/osec/net_info.ini", ""); ("/opt/osec/osec_backend.conf", "conf")].
Definition fresh (h : host files) : process files := Process h (Logger None Off) [].

Abbreviation run := (agent_main (V:=value) (fun _ _ => 1%nat) (fun _ => None) (fun _ => "") (fun _ _ => Err "") (fun _ => "")
                       (fun _ => "") demo_ini (fun _ => None) (Ok tt)).
Definition go_config (r : outcome (option (started (NetInfoConfig * list service)))) : NetInfoConfig :=
  match r with Done (Some (Go (c, _))) => c | _ => boot_config end.
Definition whole_start := run (Ok tt) 0%nat None [] 77 true (fresh installed).

Lemma services_fit_channel_witness : exists proto, p_sockets whole_start.2 = [(proto, Some 77)].
Proof.
  edestruct (services_fit_channel (V:=value) (fun _ _ => 1%nat) (fun _ => None) (fun _ => "") (fun _ _ => Err "")
    (fun _ => "") (fun _ => "") demo_ini (fun _ => None) (Ok tt) (Ok tt) 0 None [] 77 true (fresh installed)
    whole_start.2 (go_config whole_start.1) (services true)) as (_ & _ & _ & Hs & _).
  - reflexivity.
  - vm_compute. reflexivity.
  - apply Hs. by_decide.
Defined.

Lemma no_log_configuration_panics_witness :
  run (Ok tt) 0 None [] 77 true (fresh plain)
  = (Panic, fresh (Host (Shell (<[PID_FILE := "77"]> (world (h_shell plain))) []) [WriteFile PID_FILE "77"])).
Proof.
  exact (no_log_configuration_panics (V:=value) (fun _ _ => 1%nat) (fun _ => None) (fun _ => "") (fun _ _ => Err "")
    (fun _ => "") (fun _ => "") demo_ini (fun _ => None) (Ok tt) (Ok tt) 0 None [] 77 true (fresh plain)
    "No such file or directory" eq_refl eq_refl).
Defined.

Lemma unknown_mode_no_console_witness : console_of true ["agent_manager"; "status"] = None.
Proof. by apply (unknown_mode_no_console true "agent_manager" "status" []). Defined.
End MainDemo.
